(* ===== verification/_CoqProject ===== *)
-Q . S2P
Prelude.v
JsString.v
JsNumber.v
Proto.v
Rules.v
Services.v
Api.v
View.v
Ui.v
ProtoUi.v
Nav.v
Session.v
Streams.v
Onboarding.v
SyncSchedule.v
Time.v
Directory.v
JsonViewer.v
Controls.v
Manage.v
Sources.v
Filters.v
FilterEditors.v
FilterLabels.v
Frame.v
Contract.v
Url.v
Book.v
Markers.v
BookPages.v
BookNav.v
AuthFunnel.v
Accent.v
AuthChrome.v
Admin.v
Walkthrough.v
