(* ===== verification/Prelude.v ===== *)
(** * Hivebook web client: a verification development

    Hivebook turns a company's sources (GitHub, Google Docs, ...) into a knowledge
    base. Its browser client under [src/web] is a Next.js/React application: it
    signs the user in with OIDC, talks to the Go API over Connect (generated
    clients under [src/web/lib/gen]), follows live state over two server streams,
    and consists of an onboarding flow, an application shell and a set of pages.
    Beside it, [src/prototype] is a second application without a server: the pages the
    client is to get, over constant data, with a knowledge book, an authentication
    funnel, a style picker and admin pages. This library models both and proves what makes
    their parts correct.

    ** How the code is modelled

    A component is a Record of its state, an Inductive of the messages it can
    receive (user events, answers of calls, timers, stream pushes, new props) and an
    update function that returns the next state and the list of effects ([Proto.effect]);
    an asynchronous handler is cut at its [await]s, so that every interleaving is a
    sequence of messages. [Prelude.Machine] is the interface; [run] executes a
    sequence, and [run_invariant]/[run_effects] prove properties of all sequences.
    The [return (...)] of a component is a [View.view]: elements, meaningful
    attributes and handlers that carry messages; styling and icons are left out.
    What the repository does not define is a parameter: the locale tables of the
    engine are the class [JsString.Locale] (laws [LocaleLaws], instance
    [ascii_locale]), the protobuf timestamp conversion the class [Time.Wkt], text
    decoding and JSON parsing are arguments of [Directory.FileDetailPage], the command palette's
    matcher is an argument of [Controls.AppSearch], [Math.pow] an
    argument of [Accent.linear], which writes to [localStorage] succeed one of [Accent], and that it
    works at all one of [AuthFunnel]. The library that checks the API's field rules is the class
    [Contract.Protovalidate], with the documented meaning of the four rules the schema uses as
    [ProtovalidateLaws] (instance [schema_checker]); Postgres' [ILIKE], the registered connectors and
    the sources' verdict on a token are arguments of the handlers in [Api].
    The helpers of the prototype's book take the book as an argument; the
    theorems assume what [Book.WfBook] says of it, which [BOOK] satisfies.

    ** The files

    - [Prelude]: notations ([===], [??], [|||]), arrays, stable sort, dictionary lookup with
      [Object.prototype], the [Machine] interface, tactics, the hint database [hive].
    - [JsString]: strings as UTF-8, [trim], [split], [join], [replace], and the
      [Locale] class. [JsNumber]: IEEE-754 doubles, [Number(string)], [String(number)].
    - [Proto]: the messages of [web/lib/gen], call errors, effects. [View]: rendered
      output, its buttons and links, and the shared presentational components.
    - [Rules]: [web/lib/gen/buf/validate], the messages of the rule language of the schema.
      [Api]: the server's side of the client's calls, the guards and answers of the handlers in
      [api/internal/server], [integrations/internal/server] and the statements they run on the
      tenant's row. [Contract]: the field rules of [proto/hivebook] as data and as
      conditions, and the fate of the requests of every component at rules and handlers.
    - [Ui]: [web/components/ui], what the primitives the pages name render. [ProtoUi]: those of
      the prototype.
    - [Nav]: [lib/nav.ts], [lib/breadcrumb-leaf.ts], [components/app/app-context-bar.tsx],
      [components/app/spine.tsx]. [Frame]: [app/(app)/layout.tsx], which composes the gate, the
      rail with its bubbling clicks and its cookie, the bar and the jumper;
      [components/app/chrome-actions.tsx], [app/layout.tsx] and the placeholder pages.
    - [Services]: the remaining messages, the method tables and query bindings of
      [web/lib/gen], and [lib/telemetry.ts].
    - [Session]: [lib/session.ts], [lib/auth.ts], [lib/api/client.ts] (the concurrent
      interceptors), [components/providers.tsx], [components/app/app-gate.tsx], the
      entry, callback, silent-renew and signed-out pages.
    - [Streams]: [lib/api/use-connections-stream.ts], [lib/api/use-projects-stream.ts].
    - [Onboarding]: [lib/onboarding-*.ts], [components/onboarding], [app/onboarding].
    - [SyncSchedule]: [components/app/sync-schedule.tsx] and [humanizeInterval].
    - [Time]: [components/app/relative-time.tsx] and the audit log's [timeAgo].
    - [Directory]: the audit, members, files and file pages. [JsonViewer]: the tree
      of [components/app/json-viewer.tsx].
    - [Controls]: settings, [confirm-dialog.tsx], [app-search.tsx],
      [theme-provider.tsx], [app/error.tsx].
    - [Manage]: the manage page of a source with its asynchronous save, built on
      [SyncSchedule] and the dialog of [Controls]; [connector-projects.tsx], [project-status.tsx],
      [connection-status.tsx].
    - [Sources]: the list, the details page, the gallery and the token form.
    - [Filters]: the add-filter menu and the filter list of [components/filters.tsx] (which
      no page uses yet); [FilterEditors]: its text input, operator dropdown, options popover
      and the submenu composed with the menu. Regular expressions are an argument.
      [FilterLabels]: the texts, how overrides are merged, and that they are only text.

    Of the prototype:
    - [Url]: [encodeURIComponent] and query strings. [Markers]: the split at citation
      markers, [split(/(\[\d+\])/g)]. [Book]: [lib/mock-book.ts], its data and helpers.
    - [BookPages]: the entry page and the console under [app/(app)/book]. [BookNav]: the tree,
      the context bar, corpus search and command menu of [components/app], the ask page.
    - [AuthFunnel]: [components/auth] and the pages of [app/(auth)], with a clock and timers.
    - [Accent]: [lib/accent-palettes.ts], [lib/fonts.ts], [components/brand/accent-provider.tsx]
      and [style-picker.tsx], on doubles.
    - [AuthChrome]: [app/(auth)/layout.tsx], [app/layout.tsx] and the other parts of
      [components/brand] and [components/icons].
    - [Admin]: [lib/mock-admin.ts], [lib/mock-data.ts], [components/app/page-kit.tsx] and
      the ten admin pages. [Walkthrough]: the rail and frame, the onboarding, the end pages of
      [app/(auth)] and the index; the onboarding steps are those of [Onboarding] (one file).

    ** What the theorems show

    - Session: token renewal is single-flight and spaced, loses no waiter, and a call
      goes on the wire at most twice; the gate signs out, routes or retries exactly as
      its policy says; it does not loop with the onboarding gate.
    - Streams: reconnection delays are bounded, an outage heals, a rejected
      credential or an unmount ends the loop; one hook simulates the other.
    - Manage: what a save sends, its protocol on success and failure in any order of
      the answers, select-all, the order of the list, deletion behind the typed title.
    - Onboarding: the steps are a chain with inverse moves; answers persist; the
      submission follows the clicks.
    - Contract: with which code the API refuses, and when it answers, what the onboarding, the
      forms and the pages of a source send: a missing or another region, texts that are too
      long, an interval above thirty days; and that the search of the manage page shows
      everything.
    - Ui, ProtoUi: the primitives keep the texts, buttons and links of a page, so what is proved of
      a page holds of what is rendered; a caller's properties win; items follow their toggle group.
    - SyncSchedule and Time: round trips and bounds of the arithmetic on doubles and integers.
    - Filters, FilterEditors: the keyboard highlight stays in range, a multi-select session
      refines toggling a set, Enter and click agree, selections keep their bounds.
    - Book: the breadcrumb loop ends exactly on acyclic data, the stack of
      [descendantsOf] finds the subtree, roll-ups grow on the way up and add up.
    - Markers, BookPages, BookNav: texts are cut at their markers in one way, a marker opens
      its citation, every page renders and its links exist, a rebuild is requested once, the
      filtered tree shows exactly the matches, a crumb leads to a shorter trail.
    - AuthChrome: the spotlight has one frame pending and none after the page has gone; which
      pages take the focus.
    - AuthFunnel: a submitted form goes through (liveness over the pending timers), and
      only a new password opens the onboarding. Accent: the picker paints in full from any stored
      choice, a stored text that is no JSON takes the page down.
    - Walkthrough: the workspace slug is canonical; the steps need a name (but for the browser's
      buttons and clicks on a step that is leaving) and end.
    - Frame: what a click on any element of the rail does, and that a reload shows the rail
      as it was; the frame is shown to onboarded sessions only.
    - Nav, Directory, JsonViewer, Controls, Sources: invariants and functional
      behaviour of the remaining surfaces.
    Several theorems record behaviour that departs from the comments beside the code (an
    application shown while signing out, answers dropped by a failed refetch, edits
    lost during a save, an interval without an upper bound, a search that is not passed on, and others).

    ** Bounds and fuel

    [drop_tokens] of [trim] takes the length of its input as fuel, and every step
    removes a byte ([drop_tokens_settled]). [shortest] tries the 17 digits after which a
    double round-trips. [read_on] takes how often a reader would press Next; any number that is
    enough for the pages of the log gives the same pages ([audit_pages_tile]). [pathOf], [descendantsOf], [matches] and [render_node]
    take the length of the book: enough on a well-formed book, and for [pathOf] decisive on
    any ([pathOf_ends_iff_acyclic]). [split_markers] takes the length of the text, and every
    step consumes a character ([split_loop_cut]). [AuthFunnel.wait] fires at most one timer
    per step; [submission_goes_through] shows finitely many suffice. Everything else is
    structural recursion.

    ** What is not modelled

    Of the Go services ([src/api], [src/integrations]) only the handlers in [Api]: sessions, members,
    OAuth, streams, workflows and storage, infrastructure and documentation are
    left out. A navigation ([router.push]) is taken to arrive at once, and the pages of the
    authentication funnel to leave without the exit animation (the walkthrough's is modelled). Of both applications: what Radix, cmdk, sonner and the other packages below the
    primitives render, class strings, the binary schema descriptors, font files,
    the paths of icons and logos, animation and style. When a
    menu of the rail is open is Radix's affair: a click in its content is one while it is.
    A cookie's expiry after thirty days is not modelled. *)
From stdpp Require Import base gmap list strings pretty.
From Stdlib Require Import ZArith Lia Sorted.

(** ** Notations that let the definitions read like the TypeScript source *)

Declare Scope js_scope.
Delimit Scope js_scope with js.

(** [a === b] and [a !== b] on any type with decidable equality. *)
Notation "a === b" := (bool_decide (a = b)) (at level 70, no associativity) : js_scope.
Notation "a !== b" := (negb (bool_decide (a = b))) (at level 70, no associativity) : js_scope.

(** [o ?? d]: nullish coalescing; [undefined] and [null] are [None]. *)
Notation "o ?? d" := (default d o) (at level 60, right associativity) : js_scope.

(** Truthiness of a string, and [a || b] on strings. *)
Definition truthy (s : string) : bool := negb (bool_decide (s = ""%string)).
Definition str_or (a b : string) : string := if truthy a then a else b.
Notation "a ||| b" := (str_or a b) (at level 50, left associativity) : js_scope.

(** Truthiness of an optional string ([undefined] and [""] are both falsy). *)
Definition otruthy (o : option string) : bool :=
  match o with Some s => truthy s | None => false end.

#[global] Open Scope js_scope.
#[global] Open Scope Z_scope.

(** ** Arrays *)

Definition js_length {A} (l : list A) : Z := Z.of_nat (length l).

(** [l[i]]: [undefined] out of range and for a negative index. *)
Definition js_at {A} (l : list A) (i : Z) : option A :=
  if i <? 0 then None else l !! Z.to_nat i.

(** [Array.prototype.findIndex]: -1 when nothing matches. *)
Fixpoint findIndex {A} (f : A → bool) (l : list A) : Z :=
  match l with
  | [] => -1
  | x :: l' => if f x then 0 else
      let i := findIndex f l' in if i <? 0 then -1 else i + 1
  end.

(** [Array.prototype.includes]. *)
Definition includes {A} `{EqDecision A} (l : list A) (x : A) : bool :=
  existsb (λ y, y === x) l.

(** [l.filter((v) => v !== x)]. *)
Definition without {A} `{EqDecision A} (l : list A) (x : A) : list A :=
  List.filter (λ v, v !== x) l.

(** [l.includes(x) ? l.filter((v) => v !== x) : [...l, x]]. *)
Definition js_toggle {A} `{EqDecision A} (l : list A) (x : A) : list A :=
  if includes l x then without l x else l ++ [x].

(** The items of a JSX fragment [{c && ...}]. *)
Definition when {A} (c : bool) (l : list A) : list A := if c then l else [].

(** [Array.prototype.sort(cmp)]: since ES2019 the sort is stable, so for a
    consistent comparator the result is the one insertion sort gives. *)
Fixpoint sort_insert {A} (cmp : A → A → Z) (x : A) (l : list A) : list A :=
  match l with
  | [] => [x]
  | y :: l' => if cmp x y <=? 0 then x :: l else y :: sort_insert cmp x l'
  end.
Definition js_sort {A} (cmp : A → A → Z) (l : list A) : list A :=
  fold_right (sort_insert cmp) [] l.

(** [n === 0 ? ... ]: a boolean as 0 or 1 ([Number(b)]). *)
Definition Number (b : bool) : Z := if b then 1 else 0.

(** ** Objects used as dictionaries

    A key that is not an own property is looked up on [Object.prototype], whose
    members are inherited by every object literal and by [Object.fromEntries]. *)
Inductive js_lookup (A : Type) :=
| Own (a : A)
| Inherited
| Missing.
Arguments Own {A} a.
Arguments Inherited {A}.
Arguments Missing {A}.

Definition object_prototype : list string :=
  ["constructor"; "__defineGetter__"; "__defineSetter__"; "hasOwnProperty";
   "__lookupGetter__"; "__lookupSetter__"; "isPrototypeOf"; "propertyIsEnumerable";
   "toString"; "valueOf"; "__proto__"; "toLocaleString"]%string.

Definition js_get {A} (m : list (string * A)) (k : string) : js_lookup A :=
  match List.find (λ e, e.1 === k) m with
  | Some e => Own e.2
  | None => if includes object_prototype k then Inherited else Missing
  end.

(** ** State machines: a component is a state, a set of messages and an update *)

Class Machine (S M E : Type) := update : S → M → S * list E.

Section Machine.
Context {S M E : Type} `{Machine S M E}.

(** Run a sequence of messages; the effects of all of them in order. *)
Fixpoint run (s : S) (ms : list M) : S * list E :=
  match ms with
  | [] => (s, [])
  | m :: ms' =>
      let '(s1, e1) := update s m in
      let '(s2, e2) := run s1 ms' in
      (s2, e1 ++ e2)
  end.

Lemma run_cons s m ms :
  run s (m :: ms) = ((run (update s m).1 ms).1, (update s m).2 ++ (run (update s m).1 ms).2).
Proof. simpl. destruct (update s m) as [s1 e1]; simpl. by destruct (run s1 ms). Qed.

Lemma run_app s ms1 ms2 :
  run s (ms1 ++ ms2) =
  ((run (run s ms1).1 ms2).1, (run s ms1).2 ++ (run (run s ms1).1 ms2).2).
Proof.
  revert s. induction ms1 as [|m ms1 IH]; intros s; simpl.
  - by destruct (run s ms2).
  - destruct (update s m) as [s1 e1]. rewrite IH.
    destruct (run s1 ms1) as [s2 e2]; simpl. by rewrite (assoc_L (++)).
Qed.

(** An invariant of the update holds in every reachable state. *)
Lemma run_invariant (P : S → Prop) :
  (∀ s m, P s → P (update s m).1) → ∀ s ms, P s → P (run s ms).1.
Proof.
  intros Hstep s ms. revert s. induction ms as [|m ms IH]; intros s Hs; simpl; [done|].
  pose proof (Hstep s m Hs) as H1. destruct (update s m) as [s1 e1]; simpl in H1.
  specialize (IH s1 H1). by destruct (run s1 ms).
Qed.

(** A property of every effect, given an invariant of the state. *)
Lemma run_effects (P : S → Prop) (Q : E → Prop) :
  (∀ s m, P s → P (update s m).1) →
  (∀ s m, P s → Forall Q (update s m).2) →
  ∀ s ms, P s → Forall Q (run s ms).2.
Proof.
  intros Hstep Heff s ms. revert s. induction ms as [|m ms IH]; intros s Hs; simpl; [constructor|].
  pose proof (Hstep s m Hs) as H1. pose proof (Heff s m Hs) as H2.
  destruct (update s m) as [s1 e1]; simpl in *.
  specialize (IH s1 H1). destruct (run s1 ms). by apply Forall_app.
Qed.

End Machine.

(** ** Automation *)

Create HintDb hive.

(** Case analysis on every boolean test of the goal and the hypotheses. *)
Ltac case_js :=
  repeat match goal with
  | |- context [bool_decide ?P] => case_bool_decide; simplify_eq/=
  | H : context [bool_decide ?P] |- _ => case_bool_decide; simplify_eq/=
  | |- context [if ?b then _ else _] => destruct b eqn:?; simplify_eq/=
  | H : context [if ?b then _ else _] |- _ => destruct b eqn:?; simplify_eq/=
  end.

(** Linear arithmetic with division and modulo by constants. *)
Ltac zlia := Z.div_mod_to_equations; lia.

(** Turn boolean comparisons on [Z] in the context into propositions. *)
Ltac zbool :=
  repeat match goal with
  | H : _ && _ = true |- _ => apply andb_true_iff in H as [? ?]
  | H : _ || _ = false |- _ => apply orb_false_iff in H as [? ?]
  | H : negb _ = true |- _ => apply negb_true_iff in H
  | H : negb _ = false |- _ => apply negb_false_iff in H
  | H : (_ <? _) = true |- _ => apply Z.ltb_lt in H
  | H : (_ <? _) = false |- _ => apply Z.ltb_ge in H
  | H : (_ <=? _) = true |- _ => apply Z.leb_le in H
  | H : (_ <=? _) = false |- _ => apply Z.leb_gt in H
  | H : (_ =? _) = true |- _ => apply Z.eqb_eq in H
  | H : (_ =? _) = false |- _ => apply Z.eqb_neq in H
  | H : bool_decide _ = true |- _ => apply bool_decide_eq_true in H
  | H : bool_decide _ = false |- _ => apply bool_decide_eq_false in H
  end.

(** ** Lemmas on arrays *)

Section Arrays.
Context {A : Type}.
Implicit Types (l : list A) (i : Z).

Lemma js_length_nonneg l : 0 ≤ js_length l.
Proof. unfold js_length. lia. Qed.

Lemma js_length_cons x l : js_length (x :: l) = 1 + js_length l.
Proof. unfold js_length. simpl. lia. Qed.

Lemma js_length_app l1 l2 : js_length (l1 ++ l2) = js_length l1 + js_length l2.
Proof. unfold js_length. rewrite length_app. lia. Qed.

Lemma js_at_in_range l i : 0 ≤ i < js_length l → ∃ x, js_at l i = Some x.
Proof.
  unfold js_at, js_length. intros Hi. destruct (Z.ltb_spec i 0); [lia|].
  apply lookup_lt_is_Some_2. lia.
Qed.

Lemma js_at_Some l i x : js_at l i = Some x → 0 ≤ i < js_length l.
Proof.
  unfold js_at, js_length. destruct (Z.ltb_spec i 0); [done|].
  intros Hx%lookup_lt_Some. lia.
Qed.

Lemma js_at_In l i x : js_at l i = Some x → In x l.
Proof.
  unfold js_at. destruct (i <? 0); [done|].
  intros ?%list_elem_of_lookup_2. by apply list_elem_of_In.
Qed.

Lemma findIndex_range f l : -1 ≤ findIndex f l < js_length l ∨ findIndex f l = -1.
Proof.
  unfold js_length. induction l as [|x l IH]; simpl; [lia|].
  destruct (f x); [lia|]. destruct (Z.ltb_spec (findIndex f l) 0); lia.
Qed.

Lemma findIndex_at f l :
  0 ≤ findIndex f l → ∃ x, js_at l (findIndex f l) = Some x ∧ f x = true.
Proof.
  induction l as [|x l IH]; simpl; [lia|]. intros Hi.
  destruct (f x) eqn:Hx; [by exists x|].
  destruct (Z.ltb_spec (findIndex f l) 0) as [|Hge]; [lia|].
  destruct (IH Hge) as (y & Hy & Hfy). exists y. split; [|done].
  unfold js_at in *. destruct (Z.ltb_spec (findIndex f l) 0); [lia|].
  destruct (Z.ltb_spec (findIndex f l + 1) 0); [lia|].
  by replace (Z.to_nat (findIndex f l + 1)) with (S (Z.to_nat (findIndex f l))) by lia.
Qed.

Lemma find_none_filter (f : A → bool) l : List.find f l = None ↔ List.filter f l = [].
Proof. induction l as [|x l IH]; simpl; [done|]. by destruct (f x). Qed.

Lemma filter_length_le (f : A → bool) l : (length (List.filter f l) ≤ length l)%nat.
Proof. induction l as [|x l IH]; simpl; [lia|]. destruct (f x); simpl; lia. Qed.

Lemma filter_all (f : A → bool) l :
  length (List.filter f l) = length l ↔ Forall (λ x, f x = true) l.
Proof.
  induction l as [|x l IH]; simpl; [split; [constructor|done]|].
  rewrite Forall_cons, <-IH. pose proof (filter_length_le f l).
  destruct (f x); simpl; split; intros; [split; [done|lia]|lia|lia|by destruct_and!].
Qed.

Lemma filter_ext_In (f g : A → bool) l :
  (∀ x, In x l → f x = g x) → List.filter f l = List.filter g l.
Proof.
  intros Hfg. induction l as [|x l IH]; simpl; [done|].
  rewrite (Hfg x) by (by left). rewrite IH; [done|]. intros; apply Hfg; by right.
Qed.

Lemma existsb_false (f : A → bool) l :
  existsb f l = false ↔ (∀ x, In x l → f x = false).
Proof.
  induction l as [|x l IH]; simpl; [split; [by intros|done]|].
  rewrite orb_false_iff, IH. split.
  - intros [Hx Hl] y [->|Hy]; eauto.
  - intros Hf. split; [by apply Hf; left|]. intros y Hy. apply Hf. by right.
Qed.

Context `{EqDecision A}.

Lemma includes_In l x : includes l x = true ↔ In x l.
Proof.
  unfold includes. rewrite existsb_exists. split.
  - intros (y & Hy & Heq). apply bool_decide_eq_true in Heq. by subst.
  - intros Hx. exists x. split; [done|]. by apply bool_decide_eq_true.
Qed.

Lemma includes_not_In l x : includes l x = false ↔ ¬ In x l.
Proof. rewrite <-includes_In. by destruct (includes l x). Qed.

Lemma In_without l x y : In y (without l x) ↔ In y l ∧ y ≠ x.
Proof.
  unfold without. rewrite filter_In, negb_true_iff, bool_decide_eq_false. done.
Qed.

Lemma NoDup_without l x : NoDup l → NoDup (without l x).
Proof.
  rewrite !NoDup_ListNoDup. apply List.NoDup_filter.
Qed.

Lemma without_not_In l x : ¬ In x l → without l x = l.
Proof.
  induction l as [|y l IH]; simpl; intros Hx; [done|].
  unfold without in *; simpl. case_bool_decide; [subst; tauto|].
  simpl. rewrite IH; tauto.
Qed.

Lemma without_snoc l x : ¬ In x l → without (l ++ [x]) x = l.
Proof.
  intros Hx. unfold without. rewrite List.filter_app. fold (without l x).
  rewrite without_not_In by done. simpl. rewrite bool_decide_eq_true_2 by done.
  by rewrite app_nil_r.
Qed.

Lemma includes_js_toggle l x y : includes (js_toggle l x) y = xorb (includes l y) (x === y).
Proof.
  unfold js_toggle. destruct (includes l x) eqn:Hx; destruct (decide (x = y)) as [<-|Hne].
  - rewrite bool_decide_eq_true_2, Hx by done. apply includes_not_In. rewrite In_without. naive_solver.
  - rewrite bool_decide_eq_false_2, xorb_false_r by done.
    apply eq_true_iff_eq. rewrite !includes_In, In_without. naive_solver.
  - unfold includes in *. rewrite existsb_app, Hx; simpl. by rewrite bool_decide_eq_true_2.
  - unfold includes. rewrite existsb_app; simpl. rewrite bool_decide_eq_false_2 by done.
    by rewrite !orb_false_r, xorb_false_r.
Qed.

Lemma NoDup_js_toggle l x : NoDup l → NoDup (js_toggle l x).
Proof.
  intros Hl. unfold js_toggle. destruct (includes l x) eqn:Hx; [by apply NoDup_without|].
  apply NoDup_app. repeat split; [done| |apply NoDup_singleton].
  intros y Hy ->%list_elem_of_singleton. apply includes_not_In in Hx. by rewrite list_elem_of_In in Hy.
Qed.

End Arrays.

(** What a fallible map gives, element by element. *)
Lemma mapM_all {A B} (P : B → Prop) (f : A → option B) l k :
  mapM f l = Some k → (∀ x y, In x l → f x = Some y → P y) → Forall P k.
Proof.
  intros Hm%mapM_Some HP. induction Hm as [|x y l k Hxy Hm IH]; constructor; [apply (HP x); [by left|done]|].
  apply IH. intros x' y' Hx'. apply HP. by right.
Qed.

Lemma mapM_returns {A B} (f : A → option B) l : (∀ x, In x l → is_Some (f x)) → ∃ k, mapM f l = Some k.
Proof. intros Hf. apply mapM_is_Some, Forall_forall. intros x Hx%list_elem_of_In. by apply Hf. Qed.

(** ** Sorting *)

Section Sorting.
Context {A : Type} (cmp : A → A → Z).

Lemma sort_insert_perm x l : sort_insert cmp x l ≡ₚ x :: l.
Proof.
  induction l as [|y l IH]; simpl; [done|]. destruct (cmp x y <=? 0); [done|].
  rewrite IH. apply Permutation_swap.
Qed.

Lemma js_sort_perm l : js_sort cmp l ≡ₚ l.
Proof. induction l as [|x l IH]; simpl; [done|]. rewrite sort_insert_perm. by f_equiv. Qed.

Lemma js_sort_In l x : In x (js_sort cmp l) ↔ In x l.
Proof. rewrite <-!list_elem_of_In. by rewrite js_sort_perm. Qed.

Context (cmp_total : ∀ a b, 0 < cmp a b → cmp b a ≤ 0).

Lemma sort_insert_sorted x l :
  Sorted (λ a b, cmp a b ≤ 0) l → Sorted (λ a b, cmp a b ≤ 0) (sort_insert cmp x l).
Proof using cmp_total.
  induction 1 as [|y l Hs IH Hhd]; simpl; [by repeat constructor|].
  destruct (cmp x y <=? 0) eqn:Hxy; zbool; [by repeat constructor|].
  constructor; [done|]. destruct l as [|z l]; simpl; [constructor; by apply cmp_total|].
  inversion Hhd; subst. destruct (cmp x z <=? 0); constructor; [by apply cmp_total|done].
Qed.

Lemma js_sort_sorted l : Sorted (λ a b, cmp a b ≤ 0) (js_sort cmp l).
Proof using cmp_total. induction l; simpl; [constructor|by apply sort_insert_sorted]. Qed.

(** Equal elements keep their order: any class that the comparator does not
    tell apart is listed as in the input. *)
Lemma sort_insert_stable (f : A → bool) x l :
  (∀ a b, f a = true → f b = true → cmp a b ≤ 0) →
  List.filter f (sort_insert cmp x l) = List.filter f (x :: l).
Proof.
  intros Hf. induction l as [|y l IH]; simpl; [done|].
  destruct (cmp x y <=? 0) eqn:Hxy; [done|]. simpl in *. rewrite IH. zbool.
  destruct (f x) eqn:Hx, (f y) eqn:Hy; try done. specialize (Hf x y Hx Hy). lia.
Qed.

Lemma js_sort_stable (f : A → bool) l :
  (∀ a b, f a = true → f b = true → cmp a b ≤ 0) →
  List.filter f (js_sort cmp l) = List.filter f l.
Proof.
  intros Hf. induction l as [|x l IH]; [done|]. cbn [js_sort fold_right].
  rewrite sort_insert_stable by done. cbn [List.filter]. unfold js_sort in IH. by rewrite IH.
Qed.

End Sorting.

#[export] Hint Resolve js_length_nonneg NoDup_without NoDup_js_toggle : hive.
#[export] Hint Rewrite @js_length_app : hive.

(** ** Lemmas on strings used as truth values *)

Lemma truthy_true s : truthy s = true ↔ s ≠ ""%string.
Proof. unfold truthy. rewrite negb_true_iff. apply bool_decide_eq_false. Qed.

Lemma truthy_false s : truthy s = false ↔ s = ""%string.
Proof. unfold truthy. rewrite negb_false_iff. apply bool_decide_eq_true. Qed.

Lemma str_or_nonempty a b : b ≠ ""%string → (a ||| b) ≠ ""%string.
Proof. unfold str_or. destruct (truthy a) eqn:Ha; [by apply truthy_true in Ha|done]. Qed.
