(* ===== verification/JsString.v ===== *)
(** * JavaScript strings and the locale services of the runtime

    Strings are Rocq [string]s holding the UTF-8 encoding of the text. The part
    of [String.prototype] the client uses is defined here ([trim], [split],
    [includes], [startsWith], [join], the [replace] calls of the source), each
    with the lemmas the components need. Case mapping, collation and the
    [Intl]/[toLocaleString] formatters depend on tables of the JavaScript
    engine: they are the operations of the class [Locale]; [ascii_locale] is a
    concrete instance on which the witnesses run. *)
From stdpp Require Import base gmap list strings pretty.
From Stdlib Require Import ZArith Lia String Ascii.
From S2P Require Import Prelude.
#[local] Open Scope string_scope.
#[local] Open Scope list_scope.
#[local] Open Scope Z_scope.

(** ** [trim] *)

Abbreviation bytes := (list ascii).

Definition byte (n : nat) : ascii := ascii_of_nat n.

(** The UTF-8 encodings of the WhiteSpace and LineTerminator code points that
    [String.prototype.trim] removes. *)
Definition ws_tokens : list bytes :=
  [[byte 9]; [byte 10]; [byte 11]; [byte 12]; [byte 13]; [byte 32];
   [byte 0xC2; byte 0xA0];
   [byte 0xE1; byte 0x9A; byte 0x80];
   [byte 0xE2; byte 0x80; byte 0x80]; [byte 0xE2; byte 0x80; byte 0x81];
   [byte 0xE2; byte 0x80; byte 0x82]; [byte 0xE2; byte 0x80; byte 0x83];
   [byte 0xE2; byte 0x80; byte 0x84]; [byte 0xE2; byte 0x80; byte 0x85];
   [byte 0xE2; byte 0x80; byte 0x86]; [byte 0xE2; byte 0x80; byte 0x87];
   [byte 0xE2; byte 0x80; byte 0x88]; [byte 0xE2; byte 0x80; byte 0x89];
   [byte 0xE2; byte 0x80; byte 0x8A]; [byte 0xE2; byte 0x80; byte 0xA8];
   [byte 0xE2; byte 0x80; byte 0xA9]; [byte 0xE2; byte 0x80; byte 0xAF];
   [byte 0xE2; byte 0x81; byte 0x9F]; [byte 0xE3; byte 0x80; byte 0x80];
   [byte 0xEF; byte 0xBB; byte 0xBF]].

(** Remove the token [t] from the front of [l], if [l] starts with it. *)
Fixpoint strip_token (t l : bytes) : option bytes :=
  match t, l with
  | [], _ => Some l
  | a :: t', b :: l' => if bool_decide (a = b) then strip_token t' l' else None
  | _ :: _, [] => None
  end.

Fixpoint strip_any (ts : list bytes) (l : bytes) : option bytes :=
  match ts with
  | [] => None
  | t :: ts' => match strip_token t l with Some l' => Some l' | None => strip_any ts' l end
  end.

(** Every step removes at least one byte, so [List.length l] steps are enough. *)
Fixpoint drop_tokens (ts : list bytes) (fuel : nat) (l : bytes) : bytes :=
  match fuel with
  | O => l
  | S n => match strip_any ts l with Some l' => drop_tokens ts n l' | None => l end
  end.

Definition trim_start (l : bytes) : bytes := drop_tokens ws_tokens (List.length l) l.
Definition trim_end (l : bytes) : bytes :=
  rev (drop_tokens (map (@rev ascii) ws_tokens) (List.length l) (rev l)).

Definition trim (s : string) : string :=
  string_of_list_ascii (trim_end (trim_start (list_ascii_of_string s))).

(** ** [split], [join], [includes], [replace] *)

(** [s.split(c)] for a one-byte separator: never empty. *)
Fixpoint split (c : ascii) (s : string) : list string :=
  match s with
  | EmptyString => [""]
  | String a s' =>
      if bool_decide (a = c) then "" :: split c s'
      else match split c s' with
           | w :: ws => String a w :: ws
           | [] => [String a ""]
           end
  end.

Fixpoint join (sep : string) (ws : list string) : string :=
  match ws with
  | [] => ""
  | [w] => w
  | w :: ws' => w +:+ sep +:+ join sep ws'
  end.

Definition startsWith (s p : string) : bool := String.prefix p s.

(** [s.includes(sub)]. *)
Fixpoint includes_str (s sub : string) : bool :=
  String.prefix sub s ||
  match s with EmptyString => false | String _ s' => includes_str s' sub end.

(** [s.replace(/c/g, d)] for single bytes. *)
Fixpoint replace_all (c d : ascii) (s : string) : string :=
  match s with
  | EmptyString => ""
  | String a s' => String (if bool_decide (a = c) then d else a) (replace_all c d s')
  end.

(** [s.replace(/^p/, "")]. *)
Fixpoint strip_prefix (p s : string) : string :=
  match p, s with
  | EmptyString, _ => s
  | String a p', String b s' =>
      if bool_decide (a = b)
      then if String.prefix p' s' then strip_prefix p' s' else s
      else s
  | String _ _, EmptyString => s
  end.

(** The bytes of the first code point (the lead byte gives the width) and the
    rest of the string. *)
Definition lead_width (a : ascii) : nat :=
  let n := nat_of_ascii a in
  if (n <? 0x80)%nat then 1 else if (n <? 0xE0)%nat then 2
  else if (n <? 0xF0)%nat then 3 else 4.

Definition first_char (s : string) : string :=
  match s with EmptyString => "" | String a _ => substring 0 (lead_width a) s end.
Definition rest_chars (s : string) : string :=
  match s with
  | EmptyString => ""
  | String a _ => substring (lead_width a) (String.length s - lead_width a) s
  end.

(** [s.length]: UTF-16 code units, two for a code point of four bytes. *)
Fixpoint utf16_length (s : string) : Z :=
  match s with
  | EmptyString => 0
  | String a s' =>
      let n := nat_of_ascii a in
      (if (n <? 0x80)%nat then 1 else if (n <? 0xC0)%nat then 0 else if (n <? 0xF0)%nat then 1 else 2) + utf16_length s'
  end%Z.

(** Decimal rendering of an integer in a template literal. *)
Definition num (z : Z) : string := pretty z.

(** ** Locale services *)

Class Locale := {
  toLowerCase : string → string;
  toUpperCase : string → string;
  localeCompare : string → string → Z;
  (** [Number.prototype.toLocaleString] on an integer. *)
  numToLocale : Z → string;
  (** [Date.prototype.toLocaleString] and the [Intl.DateTimeFormat] of
      [formatExact], on an epoch in milliseconds. *)
  dateToLocale : Z → string;
  dateExact : Z → string;
  (** [new Intl.RelativeTimeFormat("en", { numeric: "auto" }).format(n, unit)]. *)
  relativeFormat : Z → string → string
}.

(** What the client relies on: collation is a total preorder. *)
Class LocaleLaws (L : Locale) := {
  localeCompare_refl a : localeCompare a a = 0;
  localeCompare_anti a b : localeCompare a b ≤ 0 ↔ 0 ≤ localeCompare b a;
  localeCompare_trans a b c :
    localeCompare a b ≤ 0 → localeCompare b c ≤ 0 → localeCompare a c ≤ 0
}.

Definition ascii_lower (a : ascii) : ascii :=
  let n := nat_of_ascii a in
  if ((65 <=? n) && (n <=? 90))%nat%bool then ascii_of_nat (n + 32) else a.
Definition ascii_upper (a : ascii) : ascii :=
  let n := nat_of_ascii a in
  if ((97 <=? n) && (n <=? 122))%nat%bool then ascii_of_nat (n - 32) else a.

Fixpoint map_string (f : ascii → ascii) (s : string) : string :=
  match s with EmptyString => "" | String a s' => String (f a) (map_string f s') end.

Fixpoint byte_compare (a b : string) : Z :=
  match a, b with
  | EmptyString, EmptyString => 0
  | EmptyString, String _ _ => -1
  | String _ _, EmptyString => 1
  | String x a', String y b' =>
      let d := Z.of_nat (nat_of_ascii x) - Z.of_nat (nat_of_ascii y) in
      if d =? 0 then byte_compare a' b' else d
  end.

(** Byte order for collation, ASCII case mapping, plain decimal formatting. *)
#[export] Instance ascii_locale : Locale := {|
  toLowerCase := map_string ascii_lower;
  toUpperCase := map_string ascii_upper;
  localeCompare := byte_compare;
  numToLocale := num;
  dateToLocale := num;
  dateExact := num;
  relativeFormat n u := num n +:+ " " +:+ u
|}.

(** ** Lemmas on [trim] *)

Lemma strip_token_Some t l l' : strip_token t l = Some l' ↔ l = t ++ l'.
Proof.
  revert l. induction t as [|a t IH]; intros l; simpl; [naive_solver|].
  destruct l as [|b l]; [naive_solver|]. case_bool_decide; rewrite ?IH; naive_solver.
Qed.

Lemma strip_any_Some ts l l' :
  strip_any ts l = Some l' → ∃ t, In t ts ∧ l = t ++ l'.
Proof.
  induction ts as [|t ts IH]; simpl; [done|].
  destruct (strip_token t l) eqn:Ht; intros H.
  - simplify_eq. apply strip_token_Some in Ht. exists t. by split; [left|].
  - destruct (IH H) as (t' & ? & ?). exists t'. split; [by right|done].
Qed.

Lemma strip_any_None ts l :
  strip_any ts l = None ↔ ∀ t l', In t ts → l ≠ t ++ l'.
Proof.
  induction ts as [|t ts IH]; simpl; [split; [by intros|done]|].
  destruct (strip_token t l) as [l0|] eqn:Ht.
  - apply strip_token_Some in Ht. split; [done|]. intros H.
    exfalso. apply (H t l0); [by left|done].
  - rewrite IH. split; intros H.
    + intros t' l' [<-|Hin]; [|by apply H]. intros ->.
      by rewrite (proj2 (strip_token_Some t (t ++ l') l') eq_refl) in Ht.
    + intros t' l' Hin. apply H. by right.
Qed.

Section DropTokens.
Context (ts : list bytes) (Hne : Forall (λ t, t ≠ []) ts).

Lemma drop_tokens_settled fuel l :
  (List.length l ≤ fuel)%nat → strip_any ts (drop_tokens ts fuel l) = None.
Proof using Hne.
  revert l. induction fuel as [|n IH]; intros l Hl; simpl.
  - destruct l; simpl in Hl; [|lia]. apply strip_any_None. intros t l' Hin Heq.
    rewrite Forall_forall in Hne. apply (Hne t); [by apply list_elem_of_In|]. by destruct t.
  - destruct (strip_any ts l) as [l'|] eqn:Hs; [|done].
    apply IH. apply strip_any_Some in Hs as (t & Hin & ->).
    rewrite length_app in Hl. rewrite Forall_forall in Hne.
    pose proof (Hne t (proj2 (list_elem_of_In _ _) Hin)). destruct t; simpl in *; [done|lia].
Qed.

Lemma drop_tokens_id fuel l : strip_any ts l = None → drop_tokens ts fuel l = l.
Proof. destruct fuel; simpl; [done|]. by intros ->. Qed.

Lemma drop_tokens_suffix fuel l : ∃ p, l = p ++ drop_tokens ts fuel l.
Proof.
  revert l. induction fuel as [|n IH]; intros l; simpl; [by exists []|].
  destruct (strip_any ts l) as [l'|] eqn:Hs; [|by exists []].
  apply strip_any_Some in Hs as (t & _ & ->).
  destruct (IH l') as (p & Hp). exists (t ++ p). rewrite <-(assoc_L (++)). by f_equal.
Qed.

End DropTokens.

Lemma ws_tokens_nonempty : Forall (λ t, t ≠ []) ws_tokens.
Proof. repeat constructor; discriminate. Qed.

Lemma rev_ws_tokens_nonempty : Forall (λ t, t ≠ []) (map (@rev ascii) ws_tokens).
Proof. repeat constructor; discriminate. Qed.

Lemma strip_any_prefix ts l1 l2 : strip_any ts (l1 ++ l2) = None → strip_any ts l1 = None.
Proof.
  rewrite !strip_any_None. intros H t l' Hin ->. apply (H t (l' ++ l2) Hin).
  by rewrite (assoc_L (++)).
Qed.

Lemma trim_end_prefix l : ∃ q, l = trim_end l ++ q.
Proof.
  unfold trim_end.
  destruct (drop_tokens_suffix (map (@rev ascii) ws_tokens) (List.length l) (rev l)) as (p & Hp).
  exists (rev p). rewrite <-rev_app_distr, <-Hp. by rewrite rev_involutive.
Qed.

Lemma trim_start_settled l : strip_any ws_tokens (trim_start l) = None.
Proof. apply drop_tokens_settled; [apply ws_tokens_nonempty|done]. Qed.

Lemma trim_end_idemp l : trim_end (trim_end l) = trim_end l.
Proof.
  unfold trim_end at 1. rewrite drop_tokens_id.
  - apply rev_involutive.
  - unfold trim_end. rewrite rev_involutive.
    apply drop_tokens_settled; [apply rev_ws_tokens_nonempty|]. by rewrite length_rev.
Qed.

(** Trimming an already trimmed string changes nothing. *)
Lemma trim_idemp s : trim (trim s) = trim s.
Proof.
  unfold trim. rewrite list_ascii_of_string_of_list_ascii. f_equal.
  set (l := trim_start (list_ascii_of_string s)).
  assert (Hst : strip_any ws_tokens (trim_end l) = None).
  { destruct (trim_end_prefix l) as (q & Hq). apply (strip_any_prefix _ _ q).
    rewrite <-Hq. apply trim_start_settled. }
  unfold trim_start at 1. rewrite drop_tokens_id by done. apply trim_end_idemp.
Qed.

(** ** Lemmas on [split] and [join] *)

Lemma string_app_cons x (a b : string) : String x a +:+ b = String x (a +:+ b).
Proof. done. Qed.

Lemma string_app_nil (b : string) : "" +:+ b = b.
Proof. done. Qed.

Lemma split_nonempty c s : split c s ≠ [].
Proof. destruct s as [|a s]; simpl; [done|]. case_bool_decide; [done|]. by destruct (split c s). Qed.

Lemma split_app_sep c s1 s2 :
  includes (list_ascii_of_string s1) c = false →
  split c (s1 +:+ String c s2) = s1 :: split c s2.
Proof.
  induction s1 as [|a s1 IH]; simpl; intros H.
  - by rewrite bool_decide_eq_true_2.
  - apply orb_false_iff in H as [Ha H]. rewrite Ha.
    fold (s1 +:+ String c s2). by rewrite IH.
Qed.

Lemma split_no_sep c s : includes (list_ascii_of_string s) c = false → split c s = [s].
Proof.
  induction s as [|a s IH]; simpl; intros H; [done|].
  apply orb_false_iff in H as [Ha H]. rewrite IH by done. by rewrite Ha.
Qed.

Lemma string_app_assoc (a b c : string) : (a +:+ b) +:+ c = a +:+ (b +:+ c).
Proof. induction a as [|x a IH]; [done|]. rewrite !string_app_cons. by f_equal. Qed.

Lemma string_app_empty_r (a : string) : a +:+ "" = a.
Proof. induction a as [|x a IH]; [done|]. rewrite !string_app_cons. by f_equal. Qed.

Lemma string_app_inj_l (a b c : string) : a +:+ b = a +:+ c → b = c.
Proof. apply (inj (String.append a)). Qed.

Lemma string_length_app (a b : string) : String.length (a +:+ b) = (String.length a + String.length b)%nat.
Proof. induction a as [|x a IH]; [done|]. rewrite string_app_cons. simpl. by rewrite IH. Qed.

Lemma prefix_spec p s : String.prefix p s = true ↔ ∃ r, s = p +:+ r.
Proof.
  revert s. induction p as [|a p IH]; intros s; simpl.
  - split; [by exists s|]. by destruct s.
  - destruct s as [|b s]; simpl; [split; [done|intros [r Hr]; by rewrite string_app_cons in Hr]|].
    destruct (Ascii.ascii_dec a b) as [->|Hne];
      [|split; [done|intros [r Hr]; rewrite string_app_cons in Hr; naive_solver]].
    rewrite IH. split; intros [r Hr]; exists r; [by rewrite string_app_cons, Hr|].
    rewrite string_app_cons in Hr. naive_solver.
Qed.

Lemma replace_all_gone c d s :
  c ≠ d → includes (list_ascii_of_string (replace_all c d s)) c = false.
Proof.
  intros Hcd. induction s as [|a s IH]; simpl; [done|].
  rewrite IH, orb_false_r. apply bool_decide_eq_false. case_bool_decide; congruence.
Qed.

(** ** The ASCII instance satisfies the collation laws *)

Lemma nat_of_ascii_inj x y : nat_of_ascii x = nat_of_ascii y → x = y.
Proof. intros H. rewrite <-(ascii_nat_embedding x), <-(ascii_nat_embedding y). by rewrite H. Qed.

Lemma byte_compare_opp a b : byte_compare a b = - byte_compare b a.
Proof.
  revert b. induction a as [|x a IH]; intros [|y b]; simpl; try lia.
  destruct (Z.eqb_spec (Z.of_nat (nat_of_ascii x) - Z.of_nat (nat_of_ascii y)) 0);
  destruct (Z.eqb_spec (Z.of_nat (nat_of_ascii y) - Z.of_nat (nat_of_ascii x)) 0); try lia.
  apply IH.
Qed.

Lemma byte_compare_trans a b c :
  byte_compare a b ≤ 0 → byte_compare b c ≤ 0 → byte_compare a c ≤ 0.
Proof.
  revert b c. induction a as [|x a IH]; intros [|y b] [|z c]; simpl; try lia.
  repeat match goal with |- context [if (?e =? 0) then _ else _] => destruct (Z.eqb_spec e 0) end;
    try lia. apply IH.
Qed.

#[export] Instance ascii_locale_laws : LocaleLaws ascii_locale.
Proof.
  split; simpl.
  - intros a. pose proof (byte_compare_opp a a). lia.
  - intros a b. pose proof (byte_compare_opp a b). lia.
  - apply byte_compare_trans.
Qed.
