(* ===== verification/JsNumber.v ===== *)
(** * JavaScript numbers

    IEEE-754 doubles as far as the client computes with them: a number is [NaN],
    an infinity or a finite rational; every arithmetic operation is the exact
    rational one followed by [round_double] (round to nearest, ties to even, 53
    significant bits, subnormals, overflow to infinity). The sign of zero is not
    represented: no test of the client can see it. [Number(string)] covers the
    decimal literals and the empty string, all an [<input type="number">] lets
    through; [String(number)] is the shortest round-tripping form, for integers. *)
From stdpp Require Import base list strings pretty.
From Stdlib Require Import ZArith Lia Ascii QArith Qround Qcanon.
From S2P Require Import Prelude JsString.
#[local] Open Scope string_scope.
#[local] Open Scope list_scope.
#[local] Open Scope Z_scope.

Inductive JsNumber := NaN | Infinity (negative : bool) | Finite (q : Q).

Definition int (z : Z) : JsNumber := Finite (inject_Z z).

(** [2 ^ k] for any sign of [k]. *)
Definition pow2 (k : Z) : Q := if 0 <=? k then inject_Z (2 ^ k) else 1 # Z.to_pos (2 ^ (- k)).

(** Nearest integer to [n / d], ties to even. *)
Definition round_half_even (n d : Z) : Z :=
  let m := n / d in
  let r := 2 * (n mod d) in
  if r <? d then m else if d <? r then m + 1 else if Z.even m then m else m + 1.

(** The largest [e] with [2 ^ e <= n / d], for positive [n] and [d]. *)
Definition exponent (n d : Z) : Z :=
  let e := Z.log2 n - Z.log2 d in
  if (if 0 <=? e then n <? d * 2 ^ e else n * 2 ^ (- e) <? d) then e - 1 else e.

(** The double nearest to a positive rational [n / d]. *)
Definition round_pos (n d : Z) : JsNumber :=
  let k := Z.max (exponent n d - 52) (-1074) in
  let m := if 0 <=? k then round_half_even n (d * 2 ^ k) else round_half_even (n * 2 ^ (- k)) d in
  if (0 <=? k) && (2 ^ 1024 <=? m * 2 ^ k) then Infinity false
  else Finite (Qred (inject_Z m * pow2 k)).

Definition opp (x : JsNumber) : JsNumber :=
  match x with NaN => NaN | Infinity s => Infinity (negb s) | Finite q => Finite (- q) end.

(** Finite results are kept in lowest terms. *)
Definition round_double (r : Q) : JsNumber :=
  let q := Qred r in
  if Qnum q =? 0 then int 0
  else if 0 <? Qnum q then round_pos (Qnum q) (Z.pos (Qden q))
  else opp (round_pos (- Qnum q) (Z.pos (Qden q))).

(** ** Operators *)

Definition isFinite (x : JsNumber) : bool := match x with Finite _ => true | _ => false end.

Definition Qltb (a b : Q) : bool := negb (Qle_bool b a).

(** [x < y], [x <= y] and [x === y]: false as soon as one side is [NaN]. *)
Definition lt (x y : JsNumber) : bool :=
  match x, y with
  | NaN, _ | _, NaN => false
  | Finite a, Finite b => Qltb a b
  | Infinity true, Infinity true => false
  | Infinity true, _ => true
  | _, Infinity false => match x with Infinity false => false | _ => true end
  | _, _ => false
  end.
Definition le (x y : JsNumber) : bool :=
  match x, y with
  | NaN, _ | _, NaN => false
  | Finite a, Finite b => Qle_bool a b
  | _, _ => negb (lt y x)
  end.
Definition num_eq (x y : JsNumber) : bool :=
  match x, y with
  | Finite a, Finite b => Qeq_bool a b
  | Infinity a, Infinity b => Bool.eqb a b
  | _, _ => false
  end.

Definition sign (q : Q) : bool := Qnum q <? 0.

Definition mul (x y : JsNumber) : JsNumber :=
  match x, y with
  | NaN, _ | _, NaN => NaN
  | Finite a, Finite b => round_double (a * b)
  | Infinity s, Infinity t => Infinity (xorb s t)
  | Infinity s, Finite q | Finite q, Infinity s =>
      if Qnum q =? 0 then NaN else Infinity (xorb s (sign q))
  end.

Definition div (x y : JsNumber) : JsNumber :=
  match x, y with
  | NaN, _ | _, NaN => NaN
  | Infinity _, Infinity _ => NaN
  | Finite _, Infinity _ => int 0
  | Infinity s, Finite q => Infinity (xorb s (sign q))
  | Finite a, Finite b =>
      if Qnum b =? 0 then (if Qnum a =? 0 then NaN else Infinity (sign a)) else round_double (a / b)
  end.

(** [x + y]. *)
Definition add (x y : JsNumber) : JsNumber :=
  match x, y with
  | NaN, _ | _, NaN => NaN
  | Finite a, Finite b => round_double (a + b)
  | Infinity s, Finite _ | Finite _, Infinity s => Infinity s
  | Infinity s, Infinity t => if Bool.eqb s t then Infinity s else NaN
  end.

(** [x - y], for finite numbers and the infinities. *)
Definition sub (x y : JsNumber) : JsNumber :=
  match x, y with
  | NaN, _ | _, NaN => NaN
  | Finite a, Finite b => round_double (a - b)
  | Infinity s, Finite _ => Infinity s
  | Finite _, Infinity t => Infinity (negb t)
  | Infinity s, Infinity t => if Bool.eqb s t then NaN else Infinity s
  end.

(** [l[x]]: an index that is not an integer names no element. *)
Definition at_number {A} (l : list A) (x : JsNumber) : option A :=
  match x with
  | Finite q => if Qeq_bool q (inject_Z (Qfloor q)) then js_at l (Qfloor q) else None
  | _ => None
  end.

(** [x % y]: the exact remainder with the sign of [x]. *)
Definition Qtrunc (q : Q) : Z := if sign q then - Qfloor (- q) else Qfloor q.
Definition rem (x y : JsNumber) : JsNumber :=
  match x, y with
  | NaN, _ | _, NaN | Infinity _, _ => NaN
  | Finite _, Infinity _ => x
  | Finite a, Finite b => if Qnum b =? 0 then NaN else Finite (a - b * inject_Z (Qtrunc (a / b)))
  end.

(** [Math.round]: halves go up. *)
Definition Math_round (x : JsNumber) : JsNumber :=
  match x with Finite q => int (Qfloor (q + (1 # 2))) | _ => x end.

(** [Math.max(1, x)] and the like: [NaN] is contagious. *)
Definition Math_max (x y : JsNumber) : JsNumber :=
  match x, y with NaN, _ | _, NaN => NaN | _, _ => if lt x y then y else x end.

(** A decimal literal is the double nearest to it. *)
Definition literal (n : Z) (d : positive) : JsNumber := round_double (n # d).

(** ** [Number(string)] *)

Definition digit (a : ascii) : option Z :=
  let n := Z.of_nat (nat_of_ascii a) in
  if (48 <=? n) && (n <=? 57) then Some (n - 48) else None.

(** The leading digits: their value on top of [acc], how many, and the rest. *)
Fixpoint digits (acc : Z) (count : Z) (s : string) : Z * Z * string :=
  match s with
  | EmptyString => (acc, count, s)
  | String a s' => match digit a with
                   | Some d => digits (acc * 10 + d) (count + 1) s'
                   | None => (acc, count, s)
                   end
  end.

Definition scaled (m e : Z) : Q :=
  if 0 <=? e then inject_Z (m * 10 ^ e) else m # Z.to_pos (10 ^ (- e)).

(** The optional exponent part; [None] is a syntax error. *)
Definition exponent_part (s : string) : option Z :=
  match s with
  | EmptyString => Some 0
  | String a s' =>
      if (a === "e"%char) || (a === "E"%char) then
        let '(neg, s1) := match s' with
                          | String "-"%char t => (true, t)
                          | String "+"%char t => (false, t)
                          | _ => (false, s')
                          end in
        let '(e, c, rest) := digits 0 0 s1 in
        if (0 <? c) && (rest === "") then Some (if neg : bool then - e else e) else None
      else None
  end.

Definition unsigned_number (s : string) : option Q :=
  let '(i, ci, rest) := digits 0 0 s in
  let '(m, cf, rest') := match rest with
                         | String "."%char t => digits i 0 t
                         | _ => (i, 0, rest)
                         end in
  if (0 <? ci + cf) then
    match exponent_part rest' with Some e => Some (scaled m (e - cf)) | None => None end
  else None.

Definition Number_of_string (raw : string) : JsNumber :=
  let s := trim raw in
  let '(neg, body) := match s with
                      | String "-"%char t => (true, t)
                      | String "+"%char t => (false, t)
                      | _ => (false, s)
                      end in
  if s === "" then int 0
  else if body === "Infinity" then Infinity neg
  else match unsigned_number body with
       | Some q => let x := round_double q in if neg : bool then opp x else x
       | None => NaN
       end.

(** ** [String(number)] of an integer *)

(** [n] rounded to [k] significant digits: the digits and the power of ten. *)
Definition significant (n len k : Z) : Z * Z := (round_half_even n (10 ^ (len - k)), len - k).

Fixpoint shortest (n len : Z) (fuel : nat) (k : Z) : Z * Z :=
  match fuel with
  | O => (n, 0)
  | S f => let '(s, e) := significant n len k in
           if num_eq (round_double (inject_Z (s * 10 ^ e))) (int n) then (s, e) else shortest n len f (k + 1)
  end.

(** From [1e21] on the exponential form; seventeen digits always round-trip. *)
Definition big_to_string (n : Z) : string :=
  let len := Z.of_nat (String.length (num n)) in
  let '(s, e) := shortest n len 17 1 in
  let ds := num s in
  let tail := String.substring 1 (String.length ds) ds in
  String.substring 0 1 ds +:+ (if tail === "" then "" else "." +:+ tail) +:+
  "e+" +:+ num (e + Z.of_nat (String.length tail)).

Definition int_to_string (n : Z) : string :=
  if Z.abs n <? 10 ^ 21 then num n
  else if n <? 0 then "-" +:+ big_to_string (- n) else big_to_string n.

Definition Number_to_string (x : JsNumber) : string :=
  match x with
  | NaN => "NaN"
  | Infinity false => "Infinity"
  | Infinity true => "-Infinity"
  | Finite q => int_to_string (Qfloor q)
  end.

(** [x.toFixed(d)]: the nearest multiple of [10 ^ -d] to the double itself, ties up. *)
Definition zeros (n : nat) : string := String.concat "" (repeat "0" n).
Definition fixed_digits (d : nat) (n : Z) : string :=
  match d with
  | O => num n
  | _ => let p := 10 ^ Z.of_nat d in
         let frac := num (n mod p) in
         num (n / p) +:+ "." +:+ zeros (d - String.length frac) +:+ frac
  end.
Definition fixed_units (d : nat) (q : Q) : Z := Qfloor (q * inject_Z (10 ^ Z.of_nat d) + (1 # 2)).
Definition toFixed (d : nat) (x : JsNumber) : string :=
  match x with
  | Finite q =>
      if Qle_bool (inject_Z (10 ^ 21)) q || Qle_bool q (inject_Z (- 10 ^ 21)) then Number_to_string x
      else if sign q then "-" +:+ fixed_digits d (fixed_units d (- q)) else fixed_digits d (fixed_units d q)
  | _ => Number_to_string x
  end.

Example fixed_below_tie : toFixed 1 (div (int 1150) (int 1000)) = "1.1".
Proof. vm_compute. reflexivity. Qed.
Example fixed_padding : toFixed 2 (div (int 1004999) (int 1000000)) = "1.00".
Proof. vm_compute. reflexivity. Qed.
Example parse_decimal : Number_of_string "1.5e2" = int 150.
Proof. vm_compute. reflexivity. Qed.
Example parse_overflow : Number_of_string "1e309" = Infinity false.
Proof. vm_compute. reflexivity. Qed.
Example print_big : Number_to_string (round_double (inject_Z (123 * 10 ^ 20))) = "1.23e+22".
Proof. vm_compute. reflexivity. Qed.

(** ** Lemmas: integers below 2^53 are exact *)

Lemma Qred_int n : Qred (inject_Z n) = inject_Z n.
Proof. apply Qred_identity. apply Z.gcd_1_r. Qed.

Lemma Qred_is_int q n : (q == inject_Z n)%Q → Qred q = inject_Z n.
Proof. intros Hq%Qred_complete. by rewrite Hq, Qred_int. Qed.

Lemma round_half_even_exact n d : 0 < d → round_half_even (n * d) d = n.
Proof.
  intros Hd. unfold round_half_even. rewrite Z.div_mul, Z.mod_mul by lia.
  destruct (Z.ltb_spec (2 * 0) d); [done|lia].
Qed.

Lemma exponent_int n : 0 < n → exponent n 1 = Z.log2 n.
Proof.
  intros Hn. unfold exponent. change (Z.log2 1) with 0. rewrite Z.sub_0_r.
  pose proof (Z.log2_nonneg n). pose proof (Z.log2_spec n Hn).
  destruct (Z.leb_spec 0 (Z.log2 n)); [|lia]. destruct (Z.ltb_spec n (1 * 2 ^ Z.log2 n)); [lia|done].
Qed.

Lemma pow2_neg k : 0 < k → (pow2 (- k) == 1 / inject_Z (2 ^ k))%Q.
Proof.
  intros Hk. unfold pow2. destruct (Z.leb_spec 0 (- k)); [lia|]. rewrite Z.opp_involutive.
  assert (Hp : 0 < 2 ^ k) by (apply Z.pow_pos_nonneg; lia).
  unfold Qeq, Qdiv, inject_Z, Qmult, Qinv; simpl. destruct (2 ^ k); simpl; lia.
Qed.

Lemma round_pos_int n : 0 < n < 2 ^ 53 → round_pos n 1 = int n.
Proof.
  intros Hn. unfold round_pos. rewrite exponent_int by lia.
  assert (Hl : Z.log2 n < 53) by (apply Z.log2_lt_pow2; lia). pose proof (Z.log2_nonneg n).
  set (k := Z.max (Z.log2 n - 52) (-1074)). assert (Hk : -1074 <= k <= 0) by lia.
  destruct (Z.leb_spec 0 k) as [Hk0|Hk0].
  - assert (k = 0) as -> by lia. change (1 * 2 ^ 0) with 1.
    assert (Hr : round_half_even n 1 = n).
    { rewrite <-(Z.mul_1_r n) at 1. by apply round_half_even_exact. }
    rewrite Hr.
    simpl andb. destruct (Z.leb_spec (2 ^ 1024) (n * 2 ^ 0)) as [Hb|_].
    { assert (2 ^ 53 <= 2 ^ 1024) by (apply Z.pow_le_mono_r; lia). lia. }
    unfold int. f_equal. apply Qred_is_int. unfold pow2, Qeq, inject_Z; simpl. lia.
  - assert (Hp : 0 < 2 ^ (- k)) by (apply Z.pow_pos_nonneg; lia).
    assert (Hr : round_half_even (n * 2 ^ (- k)) 1 = n * 2 ^ (- k)).
    { replace (n * 2 ^ (- k)) with ((n * 2 ^ (- k)) * 1) at 1 by lia. by apply round_half_even_exact. }
    rewrite Hr. cbn [andb]. unfold int. f_equal. apply Qred_is_int.
    replace k with (- - k) at 2 by lia. rewrite pow2_neg by lia.
    rewrite inject_Z_mult. field. intros Hz. unfold Qeq, inject_Z in Hz. cbn in Hz. lia.
Qed.

Lemma round_double_int n : Z.abs n < 2 ^ 53 → round_double (inject_Z n) = int n.
Proof.
  intros Hn. unfold round_double. rewrite Qred_int. cbn [Qnum Qden inject_Z].
  destruct (Z.eqb_spec n 0) as [->|]; [done|]. destruct (Z.ltb_spec 0 n).
  - apply round_pos_int. lia.
  - rewrite round_pos_int by lia. unfold opp, int. f_equal. unfold Qopp; simpl. by rewrite Z.opp_involutive.
Qed.

Lemma mul_int a b : Z.abs (a * b) < 2 ^ 53 → mul (int a) (int b) = int (a * b).
Proof. intros H. cbn [mul int]. rewrite <-inject_Z_mult. by apply round_double_int. Qed.

Lemma sub_int a b : Z.abs (a - b) < 2 ^ 53 → sub (int a) (int b) = int (a - b).
Proof.
  intros H. cbn [sub int]. rewrite <-round_double_int by done. f_equal.
  unfold Qminus, Qopp, Qplus, inject_Z; cbn [Qnum Qden]. f_equal. lia.
Qed.

Lemma at_number_int {A} (l : list A) n : at_number l (int n) = js_at l n.
Proof. unfold at_number, int. rewrite Qfloor_Z. by rewrite (proj2 (Qeq_bool_iff _ _) (Qeq_refl _)). Qed.

Lemma Qfloor_half n : Qfloor (inject_Z n + (1 # 2)) = n.
Proof.
  unfold Qfloor, Qplus, inject_Z. cbn [Qnum Qden]. zlia.
Qed.

Lemma Math_round_int n : Math_round (int n) = int n.
Proof. unfold Math_round, int. by rewrite Qfloor_half. Qed.

Lemma lt_int a b : lt (int a) (int b) = (a <? b).
Proof.
  unfold lt, int, Qltb. destruct (Z.ltb_spec a b).
  - apply negb_true_iff, not_true_iff_false. rewrite Qle_bool_iff, <-Zle_Qle. lia.
  - apply negb_false_iff, Qle_bool_iff. rewrite <-Zle_Qle. lia.
Qed.

Lemma num_eq_int a b : num_eq (int a) (int b) = (a =? b).
Proof.
  unfold num_eq, int. destruct (Z.eqb_spec a b) as [->|Hne]; [by apply Qeq_bool_iff|].
  destruct (Qeq_bool _ _) eqn:He; [|done]. apply Qeq_bool_iff in He. unfold Qeq in He; simpl in He. lia.
Qed.

Lemma le_int a b : le (int a) (int b) = (a <=? b).
Proof.
  unfold le, int. destruct (Z.leb_spec a b).
  - apply Qle_bool_iff. rewrite <-Zle_Qle. lia.
  - apply not_true_iff_false. rewrite Qle_bool_iff, <-Zle_Qle. lia.
Qed.

(** ** Lemmas: rounding keeps the sign *)

Lemma round_half_even_nonneg n d : 0 <= n → 0 < d → 0 <= round_half_even n d.
Proof.
  intros Hn Hd. unfold round_half_even. pose proof (Z.div_pos n d Hn Hd). case_js; lia.
Qed.

Lemma pow2_pos k : (0 < pow2 k)%Q.
Proof.
  unfold pow2. destruct (Z.leb_spec 0 k); [|reflexivity].
  change 0%Q with (inject_Z 0). rewrite <-Zlt_Qlt. apply Z.pow_pos_nonneg; lia.
Qed.

Lemma round_pos_nonneg n d q : 0 <= n → 0 < d → round_pos n d = Finite q → (0 <= q)%Q.
Proof.
  intros Hn Hd. unfold round_pos. set (k := Z.max _ _).
  destruct (_ && _); [done|]. intros [= <-]. rewrite Qred_correct.
  apply Qmult_le_0_compat; [|apply Qlt_le_weak, pow2_pos]. change 0%Q with (inject_Z 0). rewrite <-Zle_Qle.
  destruct (Z.leb_spec 0 k).
  - apply round_half_even_nonneg; [done|]. apply Z.mul_pos_pos; [done|]. apply Z.pow_pos_nonneg; lia.
  - apply round_half_even_nonneg; [|done]. apply Z.mul_nonneg_nonneg; [done|]. apply Z.pow_nonneg; lia.
Qed.

Lemma round_double_nonpos r q : (r <= 0)%Q → round_double r = Finite q → (q <= 0)%Q.
Proof.
  intros Hr. rewrite <-Qred_correct in Hr. unfold round_double. set (t := Qred r) in *.
  unfold Qle in Hr; cbn in Hr. destruct (Z.eqb_spec (Qnum t) 0); [by intros [= <-]|].
  destruct (Z.ltb_spec 0 (Qnum t)); [lia|]. destruct (round_pos _ _) as [| |q'] eqn:Hp; try done.
  intros [= <-]. apply round_pos_nonneg in Hp; [|lia|lia].
  rewrite <-(Qopp_involutive 0). by apply Qopp_le_compat.
Qed.

(** ** Lemmas: rounding keeps integer bounds *)

Lemma round_half_even_le n d b : 0 < d → n <= b * d → round_half_even n d <= b.
Proof.
  intros Hd Hn. unfold round_half_even.
  destruct (Z.eq_dec n (b * d)) as [->|Hne].
  - rewrite Z.div_mul, Z.mod_mul by lia. destruct (Z.ltb_spec (2 * 0) d); lia.
  - assert (n / d < b) by (apply Z.div_lt_upper_bound; lia). case_js; lia.
Qed.

Lemma exponent_le n d b : 0 < n → 0 < d → n <= b * d → b < 2 ^ 52 → exponent n d <= 51.
Proof.
  intros Hn Hd Hb H52. assert (Hb0 : 0 < b) by nia. unfold exponent.
  assert (Hlog : Z.log2 n <= Z.log2 b + Z.log2 d + 1).
  { etransitivity; [apply (Z.log2_le_mono n (b * d)); lia|]. apply Z.log2_mul_above; lia. }
  assert (Hlb : Z.log2 b <= 51) by (apply Z.lt_succ_r, Z.log2_lt_pow2; lia).
  destruct (Z.leb_spec 0 (Z.log2 n - Z.log2 d)) as [He|He]; [|case_js; lia].
  destruct (Z.ltb_spec n (d * 2 ^ (Z.log2 n - Z.log2 d))) as [Hlt|Hge]; [lia|].
  destruct (Z.leb_spec (Z.log2 n - Z.log2 d) 51); [done|exfalso].
  assert (2 ^ 52 <= 2 ^ (Z.log2 n - Z.log2 d)) by (apply Z.pow_le_mono_r; lia). nia.
Qed.

(** A value between 0 and a small integer rounds to a double between them. *)
Lemma round_double_bounded r b :
  (0 <= r)%Q → (r <= inject_Z b)%Q → b < 2 ^ 52 →
  ∃ q, round_double r = Finite q ∧ (0 <= q)%Q ∧ (q <= inject_Z b)%Q.
Proof.
  intros H0 Hb H52. rewrite <-(Qred_correct r) in H0, Hb. unfold round_double. set (t := Qred r) in *.
  assert (Hb0 : 0 <= b).
  { rewrite Zle_Qle. by eapply Qle_trans. }
  unfold Qle in H0, Hb; cbn in H0, Hb. destruct (Z.eqb_spec (Qnum t) 0) as [Hz|Hz].
  { exists (inject_Z 0). split; [done|]. split; [done|]. by rewrite <-Zle_Qle. }
  destruct (Z.ltb_spec 0 (Qnum t)) as [Hpos|]; [|lia].
  set (n := Qnum t) in *. set (d := Z.pos (Qden t)) in *.
  assert (Hn : n <= b * d) by (subst n d; lia). assert (Hd : 0 < d) by (subst d; lia).
  unfold round_pos. pose proof (exponent_le n d b Hpos Hd Hn H52) as He.
  set (k := Z.max (exponent n d - 52) (-1074)) in *. assert (Hk : k < 0) by lia.
  destruct (Z.leb_spec 0 k) as [?|_]; [lia|]. cbn [andb]. eexists. split; [reflexivity|].
  assert (Hp : 0 < 2 ^ (- k)) by (apply Z.pow_pos_nonneg; lia).
  assert (Hm1 : 0 <= round_half_even (n * 2 ^ (- k)) d) by (apply round_half_even_nonneg; nia).
  assert (Hm2 : round_half_even (n * 2 ^ (- k)) d <= b * 2 ^ (- k)) by (apply round_half_even_le; nia).
  set (m := round_half_even (n * 2 ^ (- k)) d) in *. clearbody m. rewrite Qred_correct.
  unfold pow2. destruct (Z.leb_spec 0 k) as [?|_]; [lia|]. unfold Qle, Qmult, inject_Z; cbn [Qnum Qden].
  rewrite ?Pos.mul_1_l, ?Pos.mul_1_r, Z2Pos.id by lia. split; lia.
Qed.

Lemma int_bounds q b : (0 <= q)%Q → (q <= inject_Z b)%Q → 0 <= Qfloor (q + (1 # 2)) <= b.
Proof.
  intros H0 Hb. split.
  - change 0 with (Qfloor 0). apply Qfloor_resp_le. eapply Qle_trans; [exact H0|]. rewrite <- (Qplus_0_r q) at 1.
    apply Qplus_le_compat; [apply Qle_refl|done].
  - rewrite <- (Qfloor_half b). apply Qfloor_resp_le. apply Qplus_le_compat; [done|apply Qle_refl].
Qed.

(** A share of a whole lies between 0 and 1, and as a percentage between 0 and 100. *)
Lemma share_bounded a b : 0 <= a <= b → 0 < b →
  ∃ q, div (int a) (int b) = Finite q ∧ (0 <= q)%Q ∧ (q <= 1)%Q.
Proof.
  intros [Ha Hab] Hb. unfold div, int. cbn [Qnum inject_Z]. destruct (Z.eqb_spec b 0) as [?|_]; [lia|].
  apply (round_double_bounded _ 1); [| |lia].
  - apply Qle_shift_div_l; [by rewrite <-(Zlt_Qlt 0)|]. rewrite Qmult_0_l. by rewrite <-(Zle_Qle 0).
  - apply Qle_shift_div_r; [by rewrite <-(Zlt_Qlt 0)|]. rewrite Qmult_1_l. by rewrite <-Zle_Qle.
Qed.

Lemma percent_bounded q : (0 <= q)%Q → (q <= 1)%Q →
  ∃ p, Math_round (mul (Finite q) (int 100)) = int p ∧ 0 <= p <= 100.
Proof.
  intros H0 H1. destruct (round_double_bounded (q * inject_Z 100) 100) as (x & Hx & Hx0 & Hx1).
  - apply Qmult_le_0_compat; [done|by vm_compute].
  - rewrite <- (Qmult_1_l (inject_Z 100)) at 2. by apply Qmult_le_compat_r.
  - lia.
  - change (mul (Finite q) (int 100)) with (round_double (q * inject_Z 100)). rewrite Hx. cbn [Math_round].
    eexists. split; [reflexivity|]. by apply int_bounds.
Qed.

(** ** Lemmas: [Number(String(n))] *)

Lemma digit_char x : (x < 10)%N → digit (pretty_N_char x) = Some (Z.of_N x).
Proof.
  intros Hx. assert (x = 0 ∨ x = 1 ∨ x = 2 ∨ x = 3 ∨ x = 4 ∨ x = 5 ∨ x = 6 ∨ x = 7 ∨ x = 8 ∨ x = 9)%N by lia.
  by destruct_or!; subst.
Qed.

Lemma digits_go x s c :
  ∃ c', c <= c' ∧ ((0 < x)%N → c < c') ∧ digits 0 c (pretty_N_go x s) = digits (Z.of_N x) c' s.
Proof.
  revert s. induction (N.lt_wf_0 x) as [x _ IH]; intros s.
  destruct (N.eq_dec x 0) as [->|Hx]; [exists c; by rewrite pretty_N_go_0|].
  rewrite pretty_N_go_step by lia.
  destruct (IH (x / 10)%N (N.div_lt x 10 ltac:(lia) eq_refl) (String (pretty_N_char (x mod 10)) s))
    as (c' & H1 & _ & Heq).
  exists (c' + 1). repeat split; [lia|lia|]. rewrite Heq. cbn [digits].
  rewrite digit_char by (by apply N.mod_lt). f_equal.
  rewrite N2Z.inj_div, N2Z.inj_mod. pose proof (Z.div_mod (Z.of_N x) 10). lia.
Qed.

Definition digit_string (s : string) : Prop := Forall (λ a, digit a ≠ None) (String.list_ascii_of_string s).

Lemma pretty_N_go_digits x s : digit_string s → digit_string (pretty_N_go x s).
Proof.
  revert s. induction (N.lt_wf_0 x) as [x _ IH]; intros s Hs.
  destruct (N.eq_dec x 0) as [->|Hx]; [by rewrite pretty_N_go_0|].
  rewrite pretty_N_go_step by lia. apply IH; [by apply N.div_lt; lia|].
  constructor; [|done]. rewrite digit_char by (by apply N.mod_lt). done.
Qed.

Lemma num_digits n : 0 <= n → digit_string (num n) ∧ ∃ c, 0 < c ∧ digits 0 0 (num n) = (n, c, "").
Proof.
  intros Hn. unfold num. destruct n as [|p|p]; [|clear Hn|lia].
  - split; [by repeat constructor|]. by exists 1.
  - change (pretty (Z.pos p)) with (pretty (N.pos p)). unfold pretty, pretty_N. simpl decide.
    split; [by apply pretty_N_go_digits; constructor|].
    destruct (digits_go (N.pos p) "" 0) as (c & _ & Hc & Heq). exists c.
    split; [by apply Hc|]. exact Heq.
Qed.

Definition starts_no_token (ts : list bytes) (a : ascii) : bool :=
  forallb (λ t, match t with [] => false | b :: _ => b !== a end) ts.

Lemma strip_any_head ts a l : starts_no_token ts a = true → strip_any ts (a :: l) = None.
Proof.
  unfold starts_no_token. rewrite forallb_forall. intros Hts. apply strip_any_None. intros t l' Hin Heq.
  specialize (Hts t Hin). destruct t as [|b t]; [done|]. simpl in Heq. simplify_eq.
  by rewrite bool_decide_eq_true_2 in Hts.
Qed.

Lemma digit_no_space a :
  digit a ≠ None → starts_no_token ws_tokens a = true ∧ starts_no_token (map (@rev ascii) ws_tokens) a = true.
Proof. destruct a as [[] [] [] [] [] [] [] []]; vm_compute; intuition congruence. Qed.

Lemma strip_digits ts l :
  (∀ a, digit a ≠ None → starts_no_token ts a = true) → Forall (λ t, t ≠ []) ts →
  Forall (λ a, digit a ≠ None) l → strip_any ts l = None.
Proof.
  intros Hts Hne Hl. destruct l as [|a l].
  - apply strip_any_None. intros t l' Hin Heq. rewrite Forall_forall in Hne.
    apply (Hne t); [by apply list_elem_of_In|]. by destruct t.
  - inversion Hl; subst. apply strip_any_head. auto.
Qed.

Lemma trim_digits s : digit_string s → trim s = s.
Proof.
  intros Hs. unfold trim, trim_start. rewrite drop_tokens_id.
  2:{ apply strip_digits; [intros a Ha; by apply digit_no_space|apply ws_tokens_nonempty|done]. }
  unfold trim_end. rewrite drop_tokens_id.
  2:{ apply strip_digits; [intros a Ha; by apply digit_no_space|apply rev_ws_tokens_nonempty|].
      apply Forall_rev. exact Hs. }
  rewrite rev_involutive. apply String.string_of_list_ascii_of_string.
Qed.

(** Reading back the decimal form of a safe integer gives the integer. *)
Lemma Number_of_num n : 0 <= n < 2 ^ 53 → Number_of_string (num n) = int n.
Proof.
  intros Hn. destruct (num_digits n) as [Hds (c & Hc & Hd)]; [lia|].
  unfold Number_of_string. rewrite trim_digits by done.
  destruct (num n) as [|a s] eqn:E; [simpl in Hd; simplify_eq; lia|].
  assert (Ha : digit a ≠ None) by (by inversion Hds).
  assert (Hsign : a ≠ "-"%char ∧ a ≠ "+"%char ∧ a ≠ "I"%char) by (repeat split; intros ->; by apply Ha).
  destruct Hsign as (Hm & Hp & HI).
  assert (Hu : unsigned_number (String a s) = Some (inject_Z n)).
  { unfold unsigned_number. rewrite Hd. cbv beta iota zeta. destruct (Z.ltb_spec 0 (c + 0)); [|lia].
    cbn [exponent_part]. unfold scaled; simpl. by rewrite Z.mul_1_r. }
  destruct a as [[] [] [] [] [] [] [] []]; try done; cbv beta iota zeta; rewrite Hu;
    rewrite !bool_decide_eq_false_2 by done; apply round_double_int; lia.
Qed.
