(* ===== verification/Proto.v ===== *)
(** * The messages of the Connect API, its errors, and the client's effects

    The records transcribe the message types of
    [web/lib/gen/hivebook/integration/v1/integration_pb.ts] and
    [web/lib/gen/hivebook/tenant/v1/tenant_pb.ts] (optional fields are
    [option]s, [number]s of integer fields are [Z]s with the width of the
    protobuf type in the well-formedness predicates; the interval the client computes
    for [UpdateSyncSchedule] is kept as the JavaScript number it is); [rpc] lists the unary
    methods of both services with their requests. [effect] is what a handler of
    the client can do to the outside world. *)
From stdpp Require Import base gmap list strings.
From Stdlib Require Import ZArith Lia.
From S2P Require Import Prelude JsString JsNumber.
#[local] Open Scope Z_scope.

(** [google.protobuf.Timestamp]. *)
Record Timestamp := mkTimestamp { ts_seconds : Z; ts_nanos : Z }.
#[export] Instance Timestamp_eq_dec : EqDecision Timestamp.
Proof. solve_decision. Defined.

(** ** Integration service messages *)

Inductive ConnectionStatus :=
| STATUS_UNSPECIFIED | CONNECTED | SYNCING | STATUS_ERROR | NEEDS_REAUTH | STOPPING.
#[export] Instance ConnectionStatus_eq_dec : EqDecision ConnectionStatus.
Proof. solve_decision. Defined.

Record Connector := mkConnector {
  connector_id : string;
  connector_name : string;
  connector_archetype : string
}.
#[export] Instance Connector_eq_dec : EqDecision Connector.
Proof. solve_decision. Defined.

Record Connection := mkConnection {
  conn_id : string;
  conn_connectorId : string;
  conn_status : ConnectionStatus;
  conn_account : string;
  conn_lastSyncedAt : option Timestamp;
  conn_lastError : string;
  conn_catalogDiscoveredAt : option Timestamp;
  conn_onboarded : bool;
  conn_autoSyncEnabled : bool;
  conn_syncIntervalSeconds : Z
}.
#[export] Instance Connection_eq_dec : EqDecision Connection.
Proof. solve_decision. Defined.

Record Artifact := mkArtifact {
  art_id : string;
  art_connectorId : string;
  art_sourceNativeKind : string;
  art_containerName : string;
  art_externalId : string;
  art_sourceUrl : string;
  art_ingestedAt : option Timestamp;
  art_connectionId : string
}.
#[export] Instance Artifact_eq_dec : EqDecision Artifact.
Proof. solve_decision. Defined.

Record Project := mkProject {
  proj_id : string;
  proj_name : string;
  proj_selected : bool;
  proj_status : string;
  proj_lastSyncedAt : option Timestamp;
  proj_artifactCount : Z;
  proj_lastError : string;
  proj_totalEstimate : Z;
  proj_totalEstimateAt : option Timestamp
}.
#[export] Instance Project_eq_dec : EqDecision Project.
Proof. solve_decision. Defined.

Record GetAuthorizeUrlRequest := mkGetAuthorizeUrl { gau_connectorId : string }.
Record ConnectWithTokenRequest := mkConnectWithToken {
  cwt_connectorId : string; cwt_token : string; cwt_name : string }.
Record ConnectWithTokenResponse := mkConnectWithTokenResponse {
  cwtr_connection : option Connection }.
Record TriggerSyncRequest := mkTriggerSync { tsr_connectionId : string }.
Record StopSyncRequest := mkStopSync { ssr_connectionId : string }.
Record DisconnectRequest := mkDisconnect { dr_connectionId : string }.
Record ListArtifactsRequest := mkListArtifacts {
  lar_limit : Z; lar_offset : Z; lar_connectionId : string }.
Record ListArtifactsResponse := mkListArtifactsResponse {
  larr_artifacts : list Artifact; larr_total : Z }.
Record ListProjectsRequest := mkListProjects { lpr_connectionId : string; lpr_query : string }.
Record SetProjectSelectionRequest := mkSetProjectSelection {
  sps_connectionId : string; sps_selectedIds : list string }.
Record UpdateSyncScheduleRequest := mkUpdateSyncSchedule {
  uss_connectionId : string; uss_enabled : bool; uss_intervalSeconds : JsNumber }.

(** ** Tenant service messages *)

Record User := mkUser { user_id : string; user_name : string; user_email : string }.
#[export] Instance User_eq_dec : EqDecision User.
Proof. solve_decision. Defined.

Record Tenant := mkTenant {
  tenant_id : string;
  tenant_name : option string;
  tenant_size : option string;
  tenant_region : option string;
  tenant_useCases : list string;
  tenant_useCaseOther : option string;
  tenant_onboarded : bool
}.
#[export] Instance Tenant_eq_dec : EqDecision Tenant.
Proof. solve_decision. Defined.

Record GetSessionResponse := mkSession {
  session_user : option User; session_tenant : option Tenant }.
#[export] Instance GetSessionResponse_eq_dec : EqDecision GetSessionResponse.
Proof. solve_decision. Defined.

Record CompleteOnboardingRequest := mkCompleteOnboarding {
  cor_region : string; cor_name : string; cor_size : string;
  cor_useCases : list string; cor_useCaseOther : string }.
Record UpdateTenantRequest := mkUpdateTenant {
  utr_name : string; utr_size : string; utr_useCases : list string; utr_useCaseOther : string }.

Record Member := mkMember {
  member_id : string; member_name : string; member_email : string; member_roles : list string }.
Record ListMembersResponse := mkListMembersResponse {
  lmr_members : list Member; lmr_configured : bool }.

Record AuditEvent := mkAuditEvent {
  audit_id : string;
  audit_occurredAt : option Timestamp;
  audit_actorId : string;
  audit_actorEmail : string;
  audit_action : string;
  audit_target : string
}.
Record ListAuditEventsResponse := mkListAuditEventsResponse {
  laer_events : list AuditEvent; laer_total : Z }.

Record FeatureFlag := mkFeatureFlag {
  flag_key : string; flag_name : string; flag_description : string; flag_enabled : bool }.
Record SetFeatureFlagRequest := mkSetFeatureFlag { sff_key : string; sff_enabled : bool }.

(** ** The mutating methods of the two services *)

Inductive integration_rpc :=
| GetAuthorizeUrl (r : GetAuthorizeUrlRequest)
| ConnectWithToken (r : ConnectWithTokenRequest)
| TriggerSync (r : TriggerSyncRequest)
| StopSync (r : StopSyncRequest)
| Disconnect (r : DisconnectRequest)
| SetProjectSelection (r : SetProjectSelectionRequest)
| UpdateSyncSchedule (r : UpdateSyncScheduleRequest).

Inductive tenant_rpc :=
| CompleteOnboarding (r : CompleteOnboardingRequest)
| UpdateTenant (r : UpdateTenantRequest)
| SetFeatureFlag (r : SetFeatureFlagRequest).

Inductive rpc :=
| IntegrationRpc (r : integration_rpc)
| TenantRpc (r : tenant_rpc).

(** ** Errors of a call *)

(** The status codes of the Connect protocol. *)
Inductive Code :=
| Canceled | Unknown | InvalidArgument | DeadlineExceeded | NotFound | AlreadyExists
| PermissionDenied | ResourceExhausted | FailedPrecondition | Aborted | OutOfRange
| Unimplemented | Internal | Unavailable | DataLoss | Unauthenticated.
#[export] Instance Code_eq_dec : EqDecision Code.
Proof. solve_decision. Defined.

(** A thrown value: a [ConnectError] (its code, its message with the "[code]"
    prefix and without it) or anything else. *)
Inductive js_error :=
| ConnectErr (code : Code) (message rawMessage : string)
| OtherErr (message : string).
#[export] Instance js_error_eq_dec : EqDecision js_error.
Proof. solve_decision. Defined.

Definition rawMessage (e : js_error) : string :=
  match e with ConnectErr _ _ r => r | OtherErr _ => "" end.
Definition error_message (e : js_error) : string :=
  match e with ConnectErr _ m _ => m | OtherErr m => m end.

(** ** Effects of the client's handlers *)

(** [TelemetryEvent] of [lib/telemetry.ts]: the closed vocabulary. *)
Inductive TelemetryEvent :=
| page_view | login_start | login_success | login_error | logout | onboarding_complete | app_error.

Inductive effect :=
| RouterPush (href : string)
| RouterReplace (href : string)
| LocationAssign (url : string)
| ToastError (msg : string)
| ToastSuccess (msg : string)
(** A notification with its kind ([default] for a plain [toast(...)]) and its description. *)
| Toast (kind msg description : string)
| CallRpc (r : rpc)
| RemoveUser
| SigninRedirect
| SigninRedirectCallback
| SigninSilentCallback
| SignoutRedirect
| InvalidateQueries
| Refetch
| Track (t : TelemetryEvent) (props : list (string * string))
| FocusInput
| BlurInput
| PreventDefault
| StopPropagation
| ScrollIntoView (id : string)
| WriteCookie (cookie : string)
| SetTheme (theme : string)
(** An exception that escapes the handler. *)
| Throws (what : string).

(** ** Well-formedness: the widths of the protobuf types *)

Definition uint32 (z : Z) : Prop := 0 ≤ z < 2 ^ 32.
Definition int32 (z : Z) : Prop := - 2 ^ 31 ≤ z < 2 ^ 31.

Definition wf_project (p : Project) : Prop :=
  uint32 (proj_artifactCount p) ∧ uint32 (proj_totalEstimate p).
Definition wf_connection (c : Connection) : Prop := int32 (conn_syncIntervalSeconds c).
