(* ===== verification/Rules.v ===== *)
(** * The rule language of the API's messages

    Models the messages of [web/lib/gen/buf/validate/validate_pb.ts], in which the schema
    declares what a field must satisfy, and the ones that report a violation. A rule with explicit
    presence is an [option]. The library that checks the rules (protovalidate) is not
    part of the repository: [Contract] takes it as an argument. *)
From stdpp Require Import base list strings.
From Stdlib Require Import ZArith.
From S2P Require Import Prelude JsString JsNumber Proto.
#[local] Open Scope string_scope.
#[local] Open Scope list_scope.
#[local] Open Scope Z_scope.

(** ** The messages *)

Record Rule := mkRule { rule_id : string; rule_message : string; rule_expression : string }.
Record MessageOneofRule := mkMessageOneofRule { mor_fields : list string; mor_required : bool }.
Record MessageRules := mkMessageRules {
  mr_celExpression : list string; mr_cel : list Rule; mr_oneof : list MessageOneofRule }.
Record OneofRules := mkOneofRules { or_required : bool }.
Record PredefinedRules := mkPredefinedRules { pr_cel : list Rule }.

Inductive Ignore := UNSPECIFIED | IF_ZERO_VALUE | ALWAYS.
#[export] Instance Ignore_eq_dec : EqDecision Ignore.
Proof. solve_decision. Defined.
Inductive KnownRegex := REGEX_UNSPECIFIED | HTTP_HEADER_NAME | HTTP_HEADER_VALUE.

(** The two oneofs of an ordered type; no case set is [None]. *)
Inductive LessThan (A : Type) := Lt (v : A) | Lte (v : A).
Inductive GreaterThan (A : Type) := Gt (v : A) | Gte (v : A).
Arguments Lt {A} v. Arguments Lte {A} v. Arguments Gt {A} v. Arguments Gte {A} v.

(** The fields the numeric rule messages and [DurationRules] have in common. *)
Record OrderRules (A : Type) := mkOrderRules {
  const : option A; lessThan : option (LessThan A); greaterThan : option (GreaterThan A);
  in_ : list A; notIn : list A; example : list A }.
Arguments mkOrderRules {A} _ _ _ _ _ _.
Arguments const {A} _. Arguments lessThan {A} _. Arguments greaterThan {A} _.
Arguments in_ {A} _. Arguments notIn {A} _. Arguments example {A} _.

Record FloatRules := mkFloatRules { float_order : OrderRules JsNumber; float_finite : bool }.
Record DoubleRules := mkDoubleRules { double_order : OrderRules JsNumber; double_finite : bool }.
Definition Int32Rules := OrderRules Z.
Definition Int64Rules := OrderRules Z.
Definition UInt32Rules := OrderRules Z.
Definition UInt64Rules := OrderRules Z.
Definition SInt32Rules := OrderRules Z.
Definition SInt64Rules := OrderRules Z.
Definition Fixed32Rules := OrderRules Z.
Definition Fixed64Rules := OrderRules Z.
Definition SFixed32Rules := OrderRules Z.
Definition SFixed64Rules := OrderRules Z.

Record BoolRules := mkBoolRules { bool_const : option bool; bool_example : list bool }.

Inductive StringWellKnown :=
| email (b : bool) | hostname (b : bool) | ip (b : bool) | ipv4 (b : bool) | ipv6 (b : bool) | uri (b : bool)
| uriRef (b : bool) | address (b : bool) | uuid (b : bool) | tuuid (b : bool) | ipWithPrefixlen (b : bool)
| ipv4WithPrefixlen (b : bool) | ipv6WithPrefixlen (b : bool) | ipPrefix (b : bool) | ipv4Prefix (b : bool)
| ipv6Prefix (b : bool) | hostAndPort (b : bool) | ulid (b : bool) | protobufFqn (b : bool)
| protobufDotFqn (b : bool) | wellKnownRegex (r : KnownRegex).

Record StringRules := mkStringRules {
  str_const : option string; len : option Z; minLen : option Z; maxLen : option Z;
  lenBytes : option Z; minBytes : option Z; maxBytes : option Z; pattern : option string;
  str_prefix : option string; str_suffix : option string; contains : option string; notContains : option string;
  str_in : list string; str_notIn : list string; wellKnown : option StringWellKnown;
  strict : option bool; str_example : list string }.

Inductive BytesWellKnown := bytes_ip (b : bool) | bytes_ipv4 (b : bool) | bytes_ipv6 (b : bool) | bytes_uuid (b : bool).

Definition octets := list Byte.byte.
#[export] Instance byte_eq_dec : EqDecision Byte.byte := Byte.byte_eq_dec.

Record BytesRules := mkBytesRules {
  b_const : option octets; b_len : option Z; b_minLen : option Z; b_maxLen : option Z; b_pattern : option string;
  b_prefix : option octets; b_suffix : option octets; b_contains : option octets;
  b_in : list octets; b_notIn : list octets; b_wellKnown : option BytesWellKnown; b_example : list octets }.

Record EnumRules := mkEnumRules {
  enum_const : option Z; definedOnly : bool; enum_in : list Z; enum_notIn : list Z; enum_example : list Z }.

(** Parametric in the rules of their elements, which are [FieldRules] again. *)
Record RepeatedRules (F : Type) := mkRepeatedRules {
  minItems : option Z; maxItems : option Z; unique_items : bool; items : option F }.
Record MapRules (F : Type) := mkMapRules {
  minPairs : option Z; maxPairs : option Z; keys : option F; values : option F }.
Arguments mkRepeatedRules {F} _ _ _ _. Arguments mkMapRules {F} _ _ _ _.

Record AnyRules := mkAnyRules { any_in : list string; any_notIn : list string }.

Record Duration := mkDuration { dur_seconds : Z; dur_nanos : Z }.
Definition DurationRules := OrderRules Duration.

Record FieldMaskRules := mkFieldMaskRules {
  mask_const : option (list string); mask_in : list string; mask_notIn : list string; mask_example : list (list string) }.

Inductive TimeBelow := TLt (t : Timestamp) | TLte (t : Timestamp) | LtNow (b : bool).
Inductive TimeAbove := TGt (t : Timestamp) | TGte (t : Timestamp) | GtNow (b : bool).
Record TimestampRules := mkTimestampRules {
  time_const : option Timestamp; time_lessThan : option TimeBelow; time_greaterThan : option TimeAbove;
  within : option Duration; time_example : list Timestamp }.

(** The [type] oneof of [FieldRules], in the rules of elements. *)
Inductive FieldType (F : Type) :=
| float (r : FloatRules) | double (r : DoubleRules) | int32 (r : Int32Rules) | int64 (r : Int64Rules)
| uint32 (r : UInt32Rules) | uint64 (r : UInt64Rules) | sint32 (r : SInt32Rules) | sint64 (r : SInt64Rules)
| fixed32 (r : Fixed32Rules) | fixed64 (r : Fixed64Rules) | sfixed32 (r : SFixed32Rules) | sfixed64 (r : SFixed64Rules)
| bool_ (r : BoolRules) | string_ (r : StringRules) | bytes_ (r : BytesRules) | enum (r : EnumRules)
| repeated (r : RepeatedRules F) | map_ (r : MapRules F) | any (r : AnyRules)
| duration (r : DurationRules) | fieldMask (r : FieldMaskRules) | timestamp (r : TimestampRules).
Arguments float {F} r. Arguments double {F} r. Arguments int32 {F} r. Arguments int64 {F} r.
Arguments uint32 {F} r. Arguments uint64 {F} r. Arguments sint32 {F} r. Arguments sint64 {F} r.
Arguments fixed32 {F} r. Arguments fixed64 {F} r. Arguments sfixed32 {F} r. Arguments sfixed64 {F} r.
Arguments bool_ {F} r. Arguments string_ {F} r. Arguments bytes_ {F} r. Arguments enum {F} r.
Arguments repeated {F} r. Arguments map_ {F} r. Arguments any {F} r.
Arguments duration {F} r. Arguments fieldMask {F} r. Arguments timestamp {F} r.

Inductive FieldRules := mkFieldRules
  (celExpression : list string) (cel : list Rule) (required : bool) (ignore : Ignore) (type : option (FieldType FieldRules)).

Definition required (f : FieldRules) : bool := let '(mkFieldRules _ _ r _ _) := f in r.
Definition ignore (f : FieldRules) : Ignore := let '(mkFieldRules _ _ _ i _) := f in i.

(** ** What a violation reports *)

(** [FieldDescriptorProto.Type], by its number. *)
Definition FieldDescriptorProto_Type := Z.

Inductive Subscript :=
| index (i : Z) | boolKey (b : bool) | intKey (z : Z) | uintKey (z : Z) | stringKey (s : string).
Record FieldPathElement := mkFieldPathElement {
  fieldNumber : Z; fieldName : string; fieldType : FieldDescriptorProto_Type; keyType : FieldDescriptorProto_Type;
  valueType : FieldDescriptorProto_Type; subscript : option Subscript }.
Record FieldPath := mkFieldPath { elements : list FieldPathElement }.
Record Violation := mkViolation {
  v_field : option FieldPath; v_rule : option FieldPath; ruleId : string; v_message : string; forKey : bool }.
Record Violations := mkViolations { violations : list Violation }.
