(* ===== verification/Services.v ===== *)
(** * The two services: their remaining messages, method tables and query bindings

    [Proto] holds the messages the client computes with. Here are the other
    requests and responses of [web/lib/gen/hivebook/*/v1/*_pb.ts], the method tables
    [IntegrationService] and [TenantService] with the kind and the schemas of every
    method, the bindings of the two [*_connectquery.ts] files, and the beacon of
    [web/lib/telemetry.ts]. *)
From stdpp Require Import base list strings.
From Stdlib Require Import ZArith Lia.
From S2P Require Import Prelude JsString JsNumber Proto.
#[local] Open Scope string_scope.
#[local] Open Scope list_scope.
#[local] Open Scope Z_scope.

(** ** Messages of the integration service *)

Record ListConnectorsRequest := mkListConnectorsRequest {}.
Record ListConnectorsResponse := mkListConnectorsResponse { lcor_connectors : list Connector }.
Record ListConnectionsRequest := mkListConnectionsRequest {}.
Record ListConnectionsResponse := mkListConnectionsResponse { lcnr_connections : list Connection }.
Record GetAuthorizeUrlResponse := mkGetAuthorizeUrlResponse { gaur_url : string }.
Record TriggerSyncResponse := mkTriggerSyncResponse {}.
Record StopSyncResponse := mkStopSyncResponse {}.
Record DisconnectResponse := mkDisconnectResponse {}.
Record WatchConnectionsRequest := mkWatchConnectionsRequest {}.
Record WatchConnectionsResponse := mkWatchConnectionsResponse { wcr_connections : list Connection }.
Record GetArtifactContentRequest := mkGetArtifactContentRequest { gacq_id : string }.
Record GetArtifactContentResponse := mkGetArtifactContentResponse {
  gacr_data : list Byte.byte; gacr_contentType : string; gacr_filename : string }.
Record ListProjectsResponse := mkListProjectsResponse { lprr_projects : list Project }.
Record SetProjectSelectionResponse := mkSetProjectSelectionResponse {}.
Record UpdateSyncScheduleResponse := mkUpdateSyncScheduleResponse {}.
Record WatchProjectsRequest := mkWatchProjectsRequest { wpq_connectionId : string }.
Record WatchProjectsResponse := mkWatchProjectsResponse { wpr_projects : list Project }.

(** ** Messages of the tenant service *)

Record GetSessionRequest := mkGetSessionRequest {}.
Record CompleteOnboardingResponse := mkCompleteOnboardingResponse { cobr_tenant : option Tenant }.
Record UpdateTenantResponse := mkUpdateTenantResponse { utrr_tenant : option Tenant }.
Record ListMembersRequest := mkListMembersRequest {}.
Record ListAuditEventsRequest := mkListAuditEventsRequest { laeq_limit : Z; laeq_offset : Z }.
Record ListFeatureFlagsRequest := mkListFeatureFlagsRequest {}.
Record ListFeatureFlagsResponse := mkListFeatureFlagsResponse { lffr_flags : list FeatureFlag }.
Record SetFeatureFlagResponse := mkSetFeatureFlagResponse { sffr_flag : option FeatureFlag }.

(** ** The method tables *)

Inductive MethodKind := unary | server_streaming.
#[export] Instance MethodKind_eq_dec : EqDecision MethodKind.
Proof. solve_decision. Defined.

(** A method with the message types of its input and output schemas. *)
Record Method := mkMethod {
  meth_kind : MethodKind; meth_input : Type; meth_output : Type }.

Definition IntegrationService : list (string * Method) :=
  [("listConnectors", mkMethod unary ListConnectorsRequest ListConnectorsResponse);
   ("listConnections", mkMethod unary ListConnectionsRequest ListConnectionsResponse);
   ("getAuthorizeUrl", mkMethod unary GetAuthorizeUrlRequest GetAuthorizeUrlResponse);
   ("connectWithToken", mkMethod unary ConnectWithTokenRequest ConnectWithTokenResponse);
   ("triggerSync", mkMethod unary TriggerSyncRequest TriggerSyncResponse);
   ("stopSync", mkMethod unary StopSyncRequest StopSyncResponse);
   ("disconnect", mkMethod unary DisconnectRequest DisconnectResponse);
   ("listArtifacts", mkMethod unary ListArtifactsRequest ListArtifactsResponse);
   ("getArtifactContent", mkMethod unary GetArtifactContentRequest GetArtifactContentResponse);
   ("listProjects", mkMethod unary ListProjectsRequest ListProjectsResponse);
   ("setProjectSelection", mkMethod unary SetProjectSelectionRequest SetProjectSelectionResponse);
   ("updateSyncSchedule", mkMethod unary UpdateSyncScheduleRequest UpdateSyncScheduleResponse);
   ("watchConnections", mkMethod server_streaming WatchConnectionsRequest WatchConnectionsResponse);
   ("watchProjects", mkMethod server_streaming WatchProjectsRequest WatchProjectsResponse)].

Definition TenantService : list (string * Method) :=
  [("getSession", mkMethod unary GetSessionRequest GetSessionResponse);
   ("completeOnboarding", mkMethod unary CompleteOnboardingRequest CompleteOnboardingResponse);
   ("updateTenant", mkMethod unary UpdateTenantRequest UpdateTenantResponse);
   ("listMembers", mkMethod unary ListMembersRequest ListMembersResponse);
   ("listAuditEvents", mkMethod unary ListAuditEventsRequest ListAuditEventsResponse);
   ("listFeatureFlags", mkMethod unary ListFeatureFlagsRequest ListFeatureFlagsResponse);
   ("setFeatureFlag", mkMethod unary SetFeatureFlagRequest SetFeatureFlagResponse)].

(** ** The query bindings *)

(** [Service.method.name]. *)
Definition method_of (service : list (string * Method)) (name : string) : option Method :=
  option_map snd (List.find (λ e, e.1 === name) service).

Definition bind_methods (service : list (string * Method)) (names : list string) : list (string * option Method) :=
  map (λ n, (n, method_of service n)) names.

Definition integration_bindings : list (string * option Method) :=
  bind_methods IntegrationService
    ["listConnectors"; "listConnections"; "getAuthorizeUrl"; "connectWithToken"; "triggerSync"; "stopSync";
     "disconnect"; "listArtifacts"; "getArtifactContent"; "listProjects"; "setProjectSelection"; "updateSyncSchedule"].

Definition tenant_bindings : list (string * option Method) :=
  bind_methods TenantService
    ["getSession"; "completeOnboarding"; "updateTenant"; "listMembers"; "listAuditEvents"; "listFeatureFlags";
     "setFeatureFlag"].

(** The binding a mutation of the client is made with, and the request it carries. *)
Definition mutation (r : rpc) : string * {T : Type & T} :=
  match r with
  | IntegrationRpc (GetAuthorizeUrl r) => ("getAuthorizeUrl", existT _ r)
  | IntegrationRpc (ConnectWithToken r) => ("connectWithToken", existT _ r)
  | IntegrationRpc (TriggerSync r) => ("triggerSync", existT _ r)
  | IntegrationRpc (StopSync r) => ("stopSync", existT _ r)
  | IntegrationRpc (Disconnect r) => ("disconnect", existT _ r)
  | IntegrationRpc (SetProjectSelection r) => ("setProjectSelection", existT _ r)
  | IntegrationRpc (UpdateSyncSchedule r) => ("updateSyncSchedule", existT _ r)
  | TenantRpc (CompleteOnboarding r) => ("completeOnboarding", existT _ r)
  | TenantRpc (UpdateTenant r) => ("updateTenant", existT _ r)
  | TenantRpc (SetFeatureFlag r) => ("setFeatureFlag", existT _ r)
  end.

(** The bindings are the unary methods of the service, each once and in order. *)
Lemma bindings_are_the_unary_methods :
  integration_bindings = map (λ e, (e.1, Some e.2)) (List.filter (λ e, meth_kind e.2 === unary) IntegrationService) ∧
  tenant_bindings = map (λ e, (e.1, Some e.2)) (List.filter (λ e, meth_kind e.2 === unary) TenantService).
Proof. by split. Qed.

(** Every call a handler of the client makes goes through a binding, with a
    request of the type the method's input schema has. *)
Lemma mutations_are_bound r :
  ∃ m, In ((mutation r).1, Some m) (integration_bindings ++ tenant_bindings) ∧
       meth_kind m = unary ∧ meth_input m = projT1 (mutation r).2.
Proof.
  destruct r as [[]|[]]; simpl; eexists; (split; [repeat (first [by left | right])|done]).
Qed.

(** ** The telemetry beacon *)

Record Beacon := mkBeacon {
  bc_url : string; bc_method : string; bc_contentType : string; bc_type : string;
  bc_props : option (list (string * string)); bc_keepalive : bool }.

Definition event_name (e : TelemetryEvent) : string :=
  match e with
  | page_view => "page_view" | login_start => "login_start" | login_success => "login_success"
  | login_error => "login_error" | logout => "logout" | onboarding_complete => "onboarding_complete"
  | app_error => "app_error"
  end.

(** What became of the request: it was answered, its promise rejected, or
    preparing it threw. *)
Inductive beacon_outcome := Answered | PromiseRejected (e : string) | ThrewSync (e : string).

(** [track]: the request, and the exception that escapes (there is none: both
    the promise and the [try] have a handler that ignores). *)
Definition track (API_BASE : string) (type : TelemetryEvent) (props : option (list (string * string)))
    (o : beacon_outcome) : list Beacon * option string :=
  let b := mkBeacon (API_BASE +:+ "/events") "POST" "application/json" (event_name type) props true in
  match o with
  | Answered => ([b], None)
  | PromiseRejected _ => ([b], None)
  | ThrewSync _ => ([], None)
  end.

(** The events of the vocabulary have names of their own. *)
Lemma event_name_inj e e' : event_name e = event_name e' → e = e'.
Proof. by destruct e, e'. Qed.
