(* ===== verification/Api.v ===== *)
(** * What the server answers

    The calls the client makes end in the repository's own servers. This file
    models the handlers they reach, as far as a caller can see the outcome: the guards and the
    answers of [api/internal/server/tenant_service.go], the proxy
    [api/internal/server/integration_service.go], the handlers of
    [integrations/internal/server/server.go] behind it, and the statements of
    [api/internal/database] they run. The field rules checked before a handler runs are in [Contract].

    The registered connectors, the sources' own answer to a token, Postgres' [ILIKE], and whether the
    database and the workflow engine are up are arguments. Failures of encryption and
    signing, which depend on the server's configuration only, are left out. *)
From stdpp Require Import base list strings.
From Stdlib Require Import ZArith Lia.
From S2P Require Import Prelude JsString JsNumber Proto Services.
#[local] Open Scope string_scope.
#[local] Open Scope list_scope.
#[local] Open Scope Z_scope.

(** A handler refuses with a code, or answers. *)
Inductive outcome (A : Type) := Refused (c : Code) | Answered (a : A).
Arguments Refused {A} c. Arguments Answered {A} a.

(** [strings.TrimSpace]: Go's white space has U+0085 and not U+FEFF. *)
Definition go_spaces : list bytes := [byte 0xC2; byte 0x85] :: List.filter (λ t, t !== [byte 0xEF; byte 0xBB; byte 0xBF]) ws_tokens.
Definition TrimSpace (s : string) : string :=
  let front := drop_tokens go_spaces (String.length s) (String.list_ascii_of_string s) in
  String.string_of_list_ascii (rev (drop_tokens (map (@rev Ascii.ascii) go_spaces) (length front) (rev front))).

(** ** The tenant's row *)

(** [NULLIF(x, '')]. *)
Definition nullif_empty (x : string) : option string := if x === "" then None else Some x.

(** The upsert of [CompleteOnboarding]: the update is skipped, and no row comes back, when the
    stored region is another one. [id] is what a new row gets. *)
Definition db_CompleteOnboarding (id : string) (row : option Tenant) (r : CompleteOnboardingRequest) : option Tenant :=
  let answers id region := mkTenant id (Some (cor_name r)) (Some (cor_size r)) (Some region) (cor_useCases r)
                             (nullif_empty (cor_useCaseOther r)) true in
  match row with
  | None => Some (answers id (cor_region r))
  | Some t =>
      match tenant_region t with
      | None => Some (answers (tenant_id t) (cor_region r))
      | Some g => if g === cor_region r then Some (answers (tenant_id t) g) else None
      end
  end.

Definition db_UpdateTenantProfile (row : option Tenant) (r : UpdateTenantRequest) : option Tenant :=
  (λ t, mkTenant (tenant_id t) (Some (utr_name r)) (Some (utr_size r)) (tenant_region t) (utr_useCases r)
          (nullif_empty (utr_useCaseOther r)) (tenant_onboarded t)) <$> row.

(** ** Feature flags *)

Definition featureFlagCatalog : list FeatureFlag :=
  [mkFeatureFlag "github_pat" "GitHub personal access tokens"
     "Connect GitHub with a fine-grained, read-only personal access token — for repositories where you can't install the GitHub App. The App stays the recommended option."
     false].

Definition featureFlagByKey (key : string) : option FeatureFlag := List.find (λ f, flag_key f === key) featureFlagCatalog.

(** The tenant's overrides, by key. *)
Definition overrides := list (string * bool).
Definition override (fs : overrides) (key : string) : option bool := snd <$> List.find (λ e, e.1 === key) fs.

Definition featureFlagEnabled (fs : overrides) (key : string) : bool :=
  match override fs key with
  | Some v => v
  | None => match featureFlagByKey key with Some f => flag_enabled f | None => false end
  end.

(** ** The workspace of the caller, and the systems behind the handlers *)

Record WorkspaceData := mkWorkspaceData {
  tenant_row : option Tenant;
  flag_overrides : overrides;
  own_connections : list string;
  audit_log : list AuditEvent }.

Record Systems := mkSystems {
  db_up : bool;
  engine_up : bool;
  registered : string → bool;
  token_valid : string → string → bool }.

Section Handlers.
Context (sys : Systems) (w : WorkspaceData).

(** An answer that needs the database. *)
Definition from_db {A} (a : A) : outcome A := if db_up sys then Answered a else Refused Internal.

(** *** Tenant service *)

Definition tenant_CompleteOnboarding (new_id : string) (r : CompleteOnboardingRequest) : outcome Tenant :=
  if negb (db_up sys) then Refused Internal
  else match db_CompleteOnboarding new_id (tenant_row w) r with
       | Some t => Answered t
       | None => Refused FailedPrecondition
       end.

Definition tenant_UpdateTenant (r : UpdateTenantRequest) : outcome Tenant :=
  if negb (db_up sys) then Refused Internal
  else match db_UpdateTenantProfile (tenant_row w) r with
       | Some t => Answered t
       | None => Refused FailedPrecondition
       end.

Definition tenant_SetFeatureFlag (r : SetFeatureFlagRequest) : outcome FeatureFlag :=
  match featureFlagByKey (sff_key r) with
  | None => Refused InvalidArgument
  | Some f => from_db (mkFeatureFlag (flag_key f) (flag_name f) (flag_description f) (sff_enabled r))
  end.

(** A limit that is not positive or above 200 is replaced. *)
Definition audit_limit (limit : Z) : Z := if (limit <=? 0) || (200 <? limit) then 50 else limit.

(** [SELECT ... LIMIT limit OFFSET offset] of the log, newest first, and its size. *)
Definition tenant_ListAuditEvents (r : ListAuditEventsRequest) : outcome ListAuditEventsResponse :=
  match tenant_row w with
  | None => Refused Internal
  | Some _ =>
      from_db (mkListAuditEventsResponse
            (take (Z.to_nat (audit_limit (laeq_limit r))) (drop (Z.to_nat (laeq_offset r)) (audit_log w)))
            (js_length (audit_log w)))
  end.

(** *** Integration service: the API's proxy and the handler behind it *)

(** The region that goes along with a request: none while the tenant has none. *)
Definition region_header : option string :=
  match tenant_row w ≫= tenant_region with Some g => nullif_empty g | None => None end.

Definition integration_GetAuthorizeUrl (r : GetAuthorizeUrlRequest) : outcome unit :=
  if negb (db_up sys) then Refused Internal
  else match region_header with
       | None => Refused FailedPrecondition
       | Some _ => if registered sys (gau_connectorId r) then Answered () else Refused NotFound
       end.

Definition integration_ConnectWithToken (r : ConnectWithTokenRequest) : outcome unit :=
  if negb (db_up sys) then Refused Internal
  else if (cwt_connectorId r === "github_pat") && negb (featureFlagEnabled (flag_overrides w) "github_pat")
  then Refused PermissionDenied
  else if negb (registered sys (cwt_connectorId r)) then Refused NotFound
  else if negb (token_valid sys (cwt_connectorId r) (cwt_token r)) then Refused InvalidArgument
  else Answered ().

(** [GetConnection] is scoped to the tenant: another's connection is not found, and neither is
    any while the database is down. *)
Definition on_connection {A} (id : string) (answer : outcome A) : outcome A :=
  if db_up sys && includes (own_connections w) id then answer else Refused NotFound.

(** A sync is started and stopped by a signal to the connection's workflow. *)
Definition signalled : outcome unit := if engine_up sys then Answered () else Refused Internal.

Definition integration_TriggerSync (r : TriggerSyncRequest) : outcome unit := on_connection (tsr_connectionId r) signalled.
Definition integration_StopSync (r : StopSyncRequest) : outcome unit := on_connection (ssr_connectionId r) signalled.
Definition integration_Disconnect (r : DisconnectRequest) : outcome unit := on_connection (dr_connectionId r) (Answered ()).
Definition integration_SetProjectSelection (r : SetProjectSelectionRequest) : outcome (list string) :=
  on_connection (sps_connectionId r) (Answered (sps_selectedIds r)).

Definition minSyncIntervalSeconds : Z := 60.
Definition maxSyncIntervalSeconds : Z := 2592000.

(** The cadence that is stored; the bounds matter only while auto-sync is on. *)
Definition integration_UpdateSyncSchedule (id : string) (enabled : bool) (interval : Z) : outcome (bool * Z) :=
  on_connection id
    (if enabled && ((interval <? minSyncIntervalSeconds) || (maxSyncIntervalSeconds <? interval))
     then Refused InvalidArgument
     else Answered (enabled, interval)).

(** The number of files a page of the list holds. *)
Definition artifact_limit (limit : Z) : Z :=
  let l := if limit <=? 0 then 50 else limit in if 200 <? l then 200 else l.

(** *** The projects of a connection *)

(** [ILIKE '%' || q || '%'], and the connection's units in the order of their ids. *)
Context (ilike_contains : string → string → bool) (units : list Project).

Definition list_sync_units (q : string) : list Project :=
  List.filter (λ p, (q === "") || ilike_contains (proj_name p) q) units.

(** The handler of the integrations service filters by the trimmed query. *)
Definition integrations_ListProjects (r : ListProjectsRequest) : outcome ListProjectsResponse :=
  on_connection (lpr_connectionId r) (Answered (mkListProjectsResponse (list_sync_units (TrimSpace (lpr_query r))))).

(** The API's proxy passes on the connection's id, and not the query. *)
Definition api_ListProjects (r : ListProjectsRequest) : outcome ListProjectsResponse :=
  integrations_ListProjects (mkListProjects (lpr_connectionId r) "").

Lemma api_ListProjects_all r :
  db_up sys = true → In (lpr_connectionId r) (own_connections w) → api_ListProjects r = Answered (mkListProjectsResponse units).
Proof.
  intros Hup Hin%includes_In. unfold api_ListProjects, integrations_ListProjects, on_connection.
  cbn [lpr_connectionId lpr_query]. rewrite Hup, Hin. change (TrimSpace "") with "". unfold list_sync_units.
  assert (Hf : List.filter (λ p, ("" === "") || ilike_contains (proj_name p) "") units = units)
    by (induction units as [|p ps IH]; [done|cbn in *; by rewrite IH]).
  cbn [andb]. by rewrite Hf.
Qed.

End Handlers.

(** The write-once region, as the statement has it. *)
Lemma db_CompleteOnboarding_None id row r :
  db_CompleteOnboarding id row r = None ↔ ∃ t g, row = Some t ∧ tenant_region t = Some g ∧ g ≠ cor_region r.
Proof.
  unfold db_CompleteOnboarding. destruct row as [t|]; [|naive_solver].
  destruct (tenant_region t) as [g|] eqn:Hg; [case_bool_decide|]; naive_solver.
Qed.

Lemma db_CompleteOnboarding_Some id row r t :
  db_CompleteOnboarding id row r = Some t →
  tenant_region t = Some (cor_region r) ∧ tenant_name t = Some (cor_name r) ∧ tenant_onboarded t = true.
Proof.
  unfold db_CompleteOnboarding. destruct row as [t0|]; [|by intros [= <-]].
  destruct (tenant_region t0) as [g|]; [case_bool_decide; [subst|done]|]; by intros [= <-].
Qed.

(** What is read of a flag after it was set is what was set. *)
Example flags_layer :
  featureFlagEnabled [] "github_pat" = false ∧ featureFlagEnabled [("github_pat", true)] "github_pat" = true ∧
  featureFlagEnabled [] "other" = false.
Proof. done. Qed.
