(* ===== verification/View.v ===== *)
(** * Rendered output

    A component's [return (...)] is a [view]: elements with their tag, the
    attributes that carry meaning and their children. Class names, icons and
    layout wrappers carry no behaviour and are left out; a class chosen by a
    condition is kept as an attribute. A handler attribute holds the message
    the component's update function receives. *)
From stdpp Require Import base list strings.
From Stdlib Require Import ZArith.
From S2P Require Import Prelude JsString.
#[local] Open Scope string_scope.
#[local] Open Scope list_scope.

Section View.
Context {M : Type}.

Inductive attr :=
| Attr (name value : string)
| BoolAttr (name : string) (b : bool)
| OnClick (m : M)
| OnChange (f : string → M)
| OnChecked (f : bool → M)
| OnKeyDown (f : string → M).

Inductive view :=
| Text (s : string)
| El (tag : string) (attrs : list attr) (kids : list view).

(** [disabled] of an element (absent means enabled). *)
Fixpoint is_disabled (attrs : list attr) : bool :=
  match attrs with
  | [] => false
  | BoolAttr n b :: rest => if n === "disabled" then b else is_disabled rest
  | _ :: rest => is_disabled rest
  end.

Fixpoint click_message (attrs : list attr) : option M :=
  match attrs with
  | [] => None
  | OnClick m :: _ => Some m
  | _ :: rest => click_message rest
  end.

Fixpoint attr_value (name : string) (attrs : list attr) : option string :=
  match attrs with
  | [] => None
  | Attr n v :: rest => if n === name then Some v else attr_value name rest
  | _ :: rest => attr_value name rest
  end.

Fixpoint attr_bool (name : string) (attrs : list attr) : bool :=
  match attrs with
  | [] => false
  | BoolAttr n b :: rest => if n === name then b else attr_bool name rest
  | _ :: rest => attr_bool name rest
  end.

(** The text a reader sees. *)
Fixpoint text_content (v : view) : string :=
  match v with
  | Text s => s
  | El _ _ kids => String.concat "" (map text_content kids)
  end.

(** Every element, in document order. *)
Fixpoint elements (v : view) : list (string * list attr * list view) :=
  match v with
  | Text _ => []
  | El tag attrs kids => (tag, attrs, kids) :: concat (map elements kids)
  end.

(** A button, as an element or as the component, which renders none with [asChild]: it
    gives its properties to its child instead. *)
Definition is_button (tag : string) (attrs : list attr) : bool :=
  (tag === "button") || ((tag === "Button") && negb (attr_bool "asChild" attrs)).

(** The buttons of a view: label, disabled, message. *)
Definition buttons (v : view) : list (string * bool * option M) :=
  map (λ '(_, a, k), (text_content (El "" a k), is_disabled a, click_message a))
      (List.filter (λ '(t, a, _), is_button t a) (elements v)).

(** Clicking the button with a given label: nothing happens when there is none
    or it is disabled. *)
Definition press (label : string) (v : view) : option M :=
  match List.find (λ '(l, d, _), (l === label) && negb d) (buttons v) with
  | Some (_, _, m) => m
  | None => None
  end.

(** The links of a view: target and label. *)
Definition links (v : view) : list (string * string) :=
  concat (map (λ '(_, a, k), match attr_value "href" a with
                             | Some h => [(h, text_content (El "" a k))]
                             | None => []
                             end)
              (List.filter (λ '(t, _, _), (t === "Link") || (t === "a")) (elements v))).

End View.
Arguments attr : clear implicits.
Arguments view : clear implicits.

(** A child component's messages wrapped in its parent's. *)
Definition map_attr {M N : Type} (f : M → N) (a : attr M) : attr N :=
  match a with
  | Attr n v => Attr n v
  | BoolAttr n b => BoolAttr n b
  | OnClick m => OnClick (f m)
  | OnChange g => OnChange (λ s, f (g s))
  | OnChecked g => OnChecked (λ b, f (g b))
  | OnKeyDown g => OnKeyDown (λ s, f (g s))
  end.
Fixpoint map_view {M N : Type} (f : M → N) (v : view M) : view N :=
  match v with
  | Text s => Text s
  | El tag attrs kids => El tag (map (map_attr f) attrs) (map (map_view f) kids)
  end.

(** ** Shared presentational components *)

Section Kit.
Context {M : Type}.
Implicit Types kids : list (view M).

(** [components/app/page-kit.tsx] *)
Definition PageShell kids : view M := El "div" [] [El "div" [] kids].

Definition PageHeading (title : string) (description : option string) : view M :=
  El "div" []
     (El "h1" [] [Text title] ::
      when (otruthy description) [El "p" [] [Text (description ?? "")]]).

(** [components/patterns/page-header.tsx]; an absent slot is [None]. *)
Definition PageHeader (back : option string) (backLabel : string) (icon : option (view M))
    (title : string) (subtitle : option string) (actions : option (list (view M))) : view M :=
  El "div" []
    (El "div" []
       (when (otruthy back)
          [El "span" [Attr "aria-label" backLabel]
              [El "Link" [Attr "href" (back ?? "")] []]] ++
        [El "div" []
           (match icon with Some i => [i] | None => [] end ++
            [El "div" []
               (El "h1" [] [Text title] ::
                when (otruthy subtitle) [El "p" [] [Text (subtitle ?? "")]])])]) ::
     match actions with Some a => [El "div" [] a] | None => [] end).

(** [components/app/key-value-list.tsx] *)
Record KeyValueItem := mkKeyValueItem { kv_label : string; kv_value : view M }.

Definition KeyValueList (items : list KeyValueItem) : view M :=
  El "dl" [] (map (λ item, El "div" [Attr "key" (kv_label item)]
                    [El "dt" [] [Text (kv_label item)]; El "dd" [] [kv_value item]]) items).

(** [components/line-loader.tsx] *)
Definition LineLoader (tone : string) : view M :=
  El "div" [Attr "role" "progressbar"; Attr "aria-label" "Loading";
            Attr "class" (if tone === "primary" then "bg-primary/15" else "bg-muted")]
     [El "div" [Attr "class" (if tone === "primary" then "bg-primary" else "bg-muted-foreground/70")] []].

(** [components/animated-spinner.tsx]: the size and tone tables, and the spinner
    (the rotation is off when the user asks for reduced motion). *)
Inductive AnimatedSpinnerSize := size_sm | size_default | size_lg.
Inductive AnimatedSpinnerTone :=
  tone_neutral | tone_primary | tone_muted | tone_success | tone_warning | tone_destructive.

Definition sizeClassName (s : AnimatedSpinnerSize) : string :=
  match s with
  | size_sm => "size-4 border-2"
  | size_default => "size-5 border-2"
  | size_lg => "size-7 border-[3px]"
  end.

Definition toneClassName (t : AnimatedSpinnerTone) : string :=
  match t with
  | tone_neutral => "border-foreground/20 border-t-foreground"
  | tone_primary => "border-primary/20 border-t-primary"
  | tone_muted => "border-muted-foreground/20 border-t-muted-foreground"
  | tone_success => "border-success/20 border-t-success"
  | tone_warning => "border-warning/25 border-t-warning"
  | tone_destructive => "border-destructive/20 border-t-destructive"
  end.

Definition AnimatedSpinner (reduceMotion : bool) (size : AnimatedSpinnerSize)
    (tone : AnimatedSpinnerTone) (label : string) : view M :=
  El "span" [Attr "role" "status"; Attr "aria-label" label]
     [El "motion.span"
         ([Attr "aria-hidden" "true"] ++ when (negb reduceMotion) [Attr "animate" "rotate: 360"] ++
          [Attr "repeat" (if reduceMotion then "0" else "Infinity");
           Attr "class" (sizeClassName size +:+ " " +:+ toneClassName tone)]) [];
      El "span" [] [Text label]].

(** [components/app/connector-icon.tsx] *)
Definition ConnectorIcon (connectorId : string) : view M :=
  if (connectorId === "github") || (connectorId === "github_pat") then El "RiGithubFill" [] []
  else if connectorId === "gdocs" then El "RiGoogleFill" [] []
  else El "RiPlugLine" [] [].

(** [components/app/coming-soon.tsx] *)
Definition ComingSoon `{Locale} (title : string) : view M :=
  PageShell
    [PageHeading title (Some "This surface isn't built yet.");
     El "div" [] [El "div" []
       [El "p" [] [Text "Coming soon"];
        El "p" [] [Text ("We’re still building " +:+ toLowerCase title +:+ ".")]]]].

End Kit.
Arguments KeyValueItem : clear implicits.

(** ** Lemmas: the buttons of a composed view *)

Section Buttons.
Context {M : Type}.
Implicit Types (kids : list (view M)) (a : list (attr M)).

Lemma buttons_El tag a kids :
  buttons (El tag a kids) =
  when (is_button tag a) [(text_content (El "" a kids), is_disabled a, click_message a)] ++
  concat (map buttons kids).
Proof.
  unfold buttons at 1. cbn [elements List.filter].
  assert (Hk : map (λ '(_, a, k), (text_content (El "" a k), is_disabled a, click_message a))
                (List.filter (λ '(t, a, _), is_button t a) (concat (map elements kids))) =
               concat (map buttons kids)).
  { induction kids as [|k kids IH]; [done|]. cbn [map concat].
    by rewrite List.filter_app, map_app, IH. }
  destruct (is_button tag a); cbn [map when app]; by rewrite Hk.
Qed.

Lemma buttons_plain tag a kids : is_button tag a = false → buttons (El tag a kids) = concat (map buttons kids).
Proof. intros Ht. by rewrite buttons_El, Ht. Qed.

Lemma buttons_button tag a kids :
  is_button tag a = true →
  buttons (El tag a kids) =
  (text_content (El "" a kids), is_disabled a, click_message a) :: concat (map buttons kids).
Proof. intros Ht. by rewrite buttons_El, Ht. Qed.

Lemma buttons_Text s : buttons (Text (M := M) s) = [].
Proof. done. Qed.

Lemma buttons_map_none {A} (f : A → view M) l :
  (∀ x, buttons (f x) = []) → concat (map buttons (map f l)) = [].
Proof. intros Hf. induction l as [|x l IH]; [done|]. cbn [map concat]. by rewrite Hf, IH. Qed.

(** [P] of the tag and the attributes of every element of the view. *)
Definition each (P : string → list (attr M) → Prop) (v : view M) : Prop :=
  Forall (λ e, P e.1.1 e.1.2) (elements v).

Lemma each_El P tag a kids : P tag a → Forall (each P) kids → each P (El tag a kids).
Proof.
  intros Ha Hk. constructor; [done|]. induction Hk as [|k kids Hk _ IH]; [constructor|].
  cbn [map concat]. by apply Forall_app.
Qed.

Lemma each_Text P s : each P (Text s).
Proof. constructor. Qed.

(** What the clicks send, and where the links lead. *)
Lemma each_buttons (P : string → list (attr M) → Prop) (Q : M → Prop) v :
  (∀ t a m, P t a → click_message a = Some m → Q m) → each P v →
  ∀ l d m, In (l, d, Some m) (buttons v) → Q m.
Proof.
  intros HPQ Hv l d m ([[t a] k] & [= _ _ Hm] & [Hin _]%filter_In)%in_map_iff.
  eapply HPQ; [|exact Hm]. unfold each in Hv. rewrite List.Forall_forall in Hv. exact (Hv _ Hin).
Qed.

Lemma each_links (P : string → list (attr M) → Prop) (Q : string → Prop) v :
  (∀ t a h, P t a → attr_value "href" a = Some h → Q h) → each P v →
  ∀ h l, In (h, l) (links v) → Q h.
Proof.
  intros HPQ Hv h l (ls & Hls & Hin)%in_concat.
  apply in_map_iff in Hls as ([[t a] k] & <- & [Hel _]%filter_In).
  destruct (attr_value "href" a) as [h'|] eqn:Ha; [|done]. destruct Hin as [[= <- _]|[]].
  eapply HPQ; [|exact Ha]. unfold each in Hv. rewrite List.Forall_forall in Hv. exact (Hv _ Hel).
Qed.

Lemma In_elements x tag a kids k : In k kids → In x (elements k) → In x (elements (El (M := M) tag a kids)).
Proof. intros Hk Hx. right. apply in_concat. exists (elements k). split; [by apply in_map|done]. Qed.

Lemma In_buttons b tag a kids k : In k kids → In b (buttons k) → In b (buttons (El tag a kids)).
Proof.
  unfold buttons. rewrite !in_map_iff. intros Hk (x & Hx & [Hin Ht]%filter_In).
  exists x. split; [done|]. apply filter_In. split; [by eapply In_elements|done].
Qed.

Lemma In_links l tag a kids k : In k kids → In l (links k) → In l (links (El tag a kids)).
Proof.
  unfold links. rewrite !in_concat. intros Hk (ls & Hls & Hl). exists ls. split; [|done].
  apply in_map_iff in Hls as (x & Hx & [Hin Ht]%filter_In).
  apply in_map_iff. exists x. split; [done|]. apply filter_In. split; [by eapply In_elements|done].
Qed.

Lemma Forall_when {A} (P : A → Prop) (c : bool) l : (c = true → Forall P l) → Forall P (when c l).
Proof. destruct c; cbn; [auto|constructor]. Qed.

Lemma Forall_map_all {A B} (P : B → Prop) (f : A → B) l : (∀ x, P (f x)) → Forall P (map f l).
Proof. intros Hf. induction l; cbn; constructor; auto. Qed.

End Buttons.

(** Compute the buttons of a view whose structure is known. *)
Ltac buttons_simpl :=
  repeat (first [ rewrite buttons_Text | rewrite buttons_plain by reflexivity
                | rewrite buttons_button by reflexivity
                | rewrite map_app | rewrite concat_app | rewrite app_nil_r
                | progress cbn [map concat app when negb andb orb] ]).

(** Prove a property of every element of a view, part by part; [views] holds the
    lemmas on the parts that have one. *)
Create HintDb views.
Ltac each_simpl :=
  repeat first
    [ solve [auto 1 with views nocore]
    | apply each_Text
    | apply each_El
    | apply Forall_map_all; intros ?
    | apply Forall_app_2
    | apply Forall_when; intros ?
    | apply Forall_cons_2
    | apply Forall_nil_2 ].
