(* ===== verification/Ui.v ===== *)
(** * The primitives of the web client's interface

    Models [web/components/ui], [web/components/animated-number.tsx] and
    [web/components/key-value-list.tsx]: what each primitive renders, down to the elements of Radix,
    sonner, flagpack and number-flow, which are left as they are. The properties a caller passes are
    spread after the primitive's own, so they win; a property that is destructured is an argument
    ([None]: absent). Class names are left out, except which variants they are
    chosen by. [expand] puts the primitives' output into a rendered page. *)
From stdpp Require Import base list strings.
From Stdlib Require Import ZArith Lia.
From S2P Require Import Prelude JsString JsNumber View.
#[local] Open Scope string_scope.
#[local] Open Scope list_scope.
#[local] Open Scope Z_scope.

(** ** JSX *)

Section Jsx.
Context {M : Type}.

(** [<tag {...own} {...props}>kids</tag>]: lookups take the first, so the caller's come first. *)
Definition jsx (tag : string) (own props : list (attr M)) (kids : list (view M)) : view M := El tag (props ++ own) kids.

(** The same with [className={cn(variants, className)}]: the caller's class is
    destructured and joins the primitive's. *)
Definition cn (variants : string) (className : option string) : string :=
  match className with Some c => variants +:+ " " +:+ c | None => variants end.
Definition jsx_cn (tag variants : string) (own props : list (attr M)) (kids : list (view M)) : view M :=
  El tag (Attr "class" (cn variants (attr_value "class" props)) :: props ++ own) kids.

(** An attribute that is absent when [undefined]. *)
Definition opt_attr (name : string) (v : option string) : list (attr M) :=
  match v with Some s => [Attr name s] | None => [] end.
Definition opt_bool (name : string) (v : option bool) : list (attr M) :=
  match v with Some b => [BoolAttr name b] | None => [] end.

(** An element that only names its slot. *)
Definition part (tag slot : string) (props : list (attr M)) (kids : list (view M)) : view M :=
  jsx tag [Attr "data-slot" slot] props kids.

(** [asChild ? Slot.Root : tag]. *)
Definition comp (asChild : bool) (tag : string) : string := if asChild then "Slot.Root" else tag.

End Jsx.

(** [cva]: the variants a class list is chosen by, each with its names and its
    default. A name that is not there adds no class. *)
Definition Variants := list (string * list string * string).
Definition cva (table : Variants) (chosen : list (string * option string)) : string :=
  String.concat " " (map (λ '(name, names, default),
    let v := (List.find (λ e, e.1 === name) chosen ≫= snd) ?? default in
    if includes names v then name +:+ "=" +:+ v else "") table).

Definition buttonVariants : Variants :=
  [("variant", ["default"; "outline"; "secondary"; "ghost"; "destructive"; "destructive-outline"; "link"], "default");
   ("size", ["default"; "xs"; "sm"; "lg"; "xl"; "icon"; "icon-xs"; "icon-sm"; "icon-lg"], "default")].
Definition buttonGroupVariants : Variants := [("orientation", ["horizontal"; "vertical"], "horizontal")].
Definition inputVariants : Variants := [("inputSize", ["default"; "sm"], "default")].
Definition inputGroupAddonVariants : Variants :=
  [("align", ["inline-start"; "inline-end"; "block-start"; "block-end"], "inline-start")].
Definition inputGroupButtonVariants : Variants := [("size", ["xs"; "sm"; "icon-xs"; "icon-sm"], "xs")].

Section Web.
Context {M : Type}.
Implicit Types (props : list (attr M)) (kids : list (view M)).

(** ** [button.tsx] *)

Definition Button (variant size : option string) (asChild : bool) props kids : view M :=
  let variant := variant ?? "default" in
  let size := size ?? "default" in
  jsx_cn (comp asChild "button") (cva buttonVariants [("variant", Some variant); ("size", Some size)])
    [Attr "data-slot" "button"; Attr "data-variant" variant; Attr "data-size" size] props kids.

(** ** [separator.tsx], [button-group.tsx] *)

Definition Separator (orientation : option string) (decorative : option bool) props kids : view M :=
  jsx "SeparatorPrimitive.Root"
    [Attr "data-slot" "separator"; BoolAttr "decorative" (decorative ?? true);
     Attr "orientation" (orientation ?? "horizontal")] props kids.

Definition ButtonGroup (orientation : option string) props kids : view M :=
  jsx_cn "div" (cva buttonGroupVariants [("orientation", orientation)])
    ([Attr "role" "group"; Attr "data-slot" "button-group"] ++ opt_attr "data-orientation" orientation) props kids.

Definition ButtonGroupText (asChild : bool) props kids : view M := jsx (comp asChild "div") [] props kids.

Definition ButtonGroupSeparator (orientation : option string) props kids : view M :=
  Separator (Some (orientation ?? "vertical")) None (props ++ [Attr "data-slot" "button-group-separator"]) kids.

(** ** [breadcrumb.tsx] *)

Definition Breadcrumb props kids : view M :=
  jsx "nav" [Attr "aria-label" "breadcrumb"; Attr "data-slot" "breadcrumb"] props kids.
Definition BreadcrumbList props kids : view M := part "ol" "breadcrumb-list" props kids.
Definition BreadcrumbItem props kids : view M := part "li" "breadcrumb-item" props kids.
Definition BreadcrumbLink (asChild : bool) props kids : view M := part (comp asChild "a") "breadcrumb-link" props kids.
Definition BreadcrumbPage props kids : view M :=
  jsx "span" [Attr "data-slot" "breadcrumb-page"; Attr "role" "link"; Attr "aria-disabled" "true";
              Attr "aria-current" "page"] props kids.
(** [children ?? <RiArrowRightSLine />]. *)
Definition BreadcrumbSeparator props (children : option (list (view M))) : view M :=
  jsx "li" [Attr "data-slot" "breadcrumb-separator"; Attr "role" "presentation"; Attr "aria-hidden" "true"] props
    (children ?? [El "RiArrowRightSLine" [] []]).
Definition BreadcrumbEllipsis props : view M :=
  jsx "span" [Attr "data-slot" "breadcrumb-ellipsis"; Attr "role" "presentation"; Attr "aria-hidden" "true"] props
    [El "RiMoreLine" [] []; El "span" [] [Text "More"]].

(** ** [alert-dialog.tsx] *)

Definition AlertDialog props kids : view M := part "AlertDialogPrimitive.Root" "alert-dialog" props kids.
Definition AlertDialogTrigger props kids : view M := part "AlertDialogPrimitive.Trigger" "alert-dialog-trigger" props kids.
Definition AlertDialogContent props kids : view M :=
  El "AlertDialogPrimitive.Portal" []
    [El "AlertDialogPrimitive.Overlay" [Attr "data-slot" "alert-dialog-overlay"] [];
     part "AlertDialogPrimitive.Content" "alert-dialog-content" props kids].
Definition AlertDialogHeader props kids : view M := part "div" "alert-dialog-header" props kids.
Definition AlertDialogFooter props kids : view M := part "div" "alert-dialog-footer" props kids.
Definition AlertDialogTitle props kids : view M := part "AlertDialogPrimitive.Title" "alert-dialog-title" props kids.
Definition AlertDialogDescription props kids : view M :=
  part "AlertDialogPrimitive.Description" "alert-dialog-description" props kids.
Definition AlertDialogAction props kids : view M :=
  jsx_cn "AlertDialogPrimitive.Action" (cva buttonVariants [("size", Some "sm")]) [] props kids.
Definition AlertDialogCancel props kids : view M :=
  jsx_cn "AlertDialogPrimitive.Cancel" (cva buttonVariants [("variant", Some "outline"); ("size", Some "sm")]) [] props kids.

(** ** [input.tsx], [textarea.tsx], [input-group.tsx] *)

Definition Input (type inputSize : option string) props kids : view M :=
  jsx_cn "input" (cva inputVariants [("inputSize", inputSize)])
    (opt_attr "type" type ++ [Attr "data-slot" "input"]) props kids.
Definition Textarea props kids : view M := part "textarea" "textarea" props kids.

Definition InputGroup props kids : view M :=
  jsx "div" [Attr "data-slot" "input-group"; Attr "role" "group"] props kids.

(** [focus] is the addon's own click handler, see [addon_click]. *)
Definition InputGroupAddon (focus : M) (align : option string) props kids : view M :=
  let align := align ?? "inline-start" in
  jsx_cn "div" (cva inputGroupAddonVariants [("align", Some align)])
    [Attr "role" "group"; Attr "data-slot" "input-group-addon"; Attr "data-align" align; OnClick focus] props kids.

(** [Button] is not given the size: it takes its own default, and [data-size]
    overrides the one it writes. *)
Definition InputGroupButton (type variant size : option string) props kids : view M :=
  let size := size ?? "xs" in
  Button (Some (variant ?? "ghost")) None false
    (Attr "class" (cn (cva inputGroupButtonVariants [("size", Some size)]) (attr_value "class" props)) ::
     props ++ [Attr "type" (type ?? "button"); Attr "data-size" size]) kids.
Definition InputGroupText props kids : view M := jsx "span" [] props kids.
Definition InputGroupInput (type inputSize : option string) props kids : view M :=
  Input type inputSize (props ++ [Attr "data-slot" "input-group-control"]) kids.
Definition InputGroupTextarea props kids : view M := Textarea (props ++ [Attr "data-slot" "input-group-control"]) kids.

(** ** [dropdown-menu.tsx] *)

Definition DropdownMenu props kids : view M := part "DropdownMenuPrimitive.Root" "dropdown-menu" props kids.
Definition DropdownMenuPortal props kids : view M := part "DropdownMenuPrimitive.Portal" "dropdown-menu-portal" props kids.
Definition DropdownMenuTrigger props kids : view M := part "DropdownMenuPrimitive.Trigger" "dropdown-menu-trigger" props kids.
Definition DropdownMenuContent (align : option string) (sideOffset : option Z) props kids : view M :=
  El "DropdownMenuPrimitive.Portal" []
    [jsx "DropdownMenuPrimitive.Content"
       [Attr "data-slot" "dropdown-menu-content"; Attr "sideOffset" (num (sideOffset ?? 4));
        Attr "align" (align ?? "start")] props kids].
Definition DropdownMenuGroup props kids : view M := part "DropdownMenuPrimitive.Group" "dropdown-menu-group" props kids.
Definition DropdownMenuItem (inset : option bool) (variant : option string) props kids : view M :=
  jsx "DropdownMenuPrimitive.Item"
    ([Attr "data-slot" "dropdown-menu-item"] ++ opt_bool "data-inset" inset ++
     [Attr "data-variant" (variant ?? "default")]) props kids.
Definition DropdownMenuCheckboxItem (checked : option string) (inset : option bool) props kids : view M :=
  jsx "DropdownMenuPrimitive.CheckboxItem"
    ([Attr "data-slot" "dropdown-menu-checkbox-item"] ++ opt_bool "data-inset" inset ++ opt_attr "checked" checked) props
    (El "span" [Attr "data-slot" "dropdown-menu-checkbox-item-indicator"]
       [El "DropdownMenuPrimitive.ItemIndicator" [] [El "RiCheckLine" [] []]] :: kids).
Definition DropdownMenuRadioGroup props kids : view M :=
  part "DropdownMenuPrimitive.RadioGroup" "dropdown-menu-radio-group" props kids.
Definition DropdownMenuRadioItem (inset : option bool) props kids : view M :=
  jsx "DropdownMenuPrimitive.RadioItem"
    ([Attr "data-slot" "dropdown-menu-radio-item"] ++ opt_bool "data-inset" inset) props
    (El "span" [Attr "data-slot" "dropdown-menu-radio-item-indicator"]
       [El "DropdownMenuPrimitive.ItemIndicator" [] [El "RiCheckLine" [] []]] :: kids).
Definition DropdownMenuLabel (inset : option bool) props kids : view M :=
  jsx "DropdownMenuPrimitive.Label" ([Attr "data-slot" "dropdown-menu-label"] ++ opt_bool "data-inset" inset) props kids.
Definition DropdownMenuSeparator props kids : view M :=
  part "DropdownMenuPrimitive.Separator" "dropdown-menu-separator" props kids.
Definition DropdownMenuShortcut props kids : view M := part "span" "dropdown-menu-shortcut" props kids.
Definition DropdownMenuSub props kids : view M := part "DropdownMenuPrimitive.Sub" "dropdown-menu-sub" props kids.
Definition DropdownMenuSubTrigger (inset : option bool) props kids : view M :=
  jsx "DropdownMenuPrimitive.SubTrigger" ([Attr "data-slot" "dropdown-menu-sub-trigger"] ++ opt_bool "data-inset" inset)
    props (kids ++ [El "RiArrowRightSLine" [] []]).
Definition DropdownMenuSubContent props kids : view M :=
  part "DropdownMenuPrimitive.SubContent" "dropdown-menu-sub-content" props kids.

(** ** [context-menu.tsx] *)

Definition ContextMenu props kids : view M := part "ContextMenuPrimitive.Root" "context-menu" props kids.
Definition ContextMenuTrigger props kids : view M := part "ContextMenuPrimitive.Trigger" "context-menu-trigger" props kids.
Definition ContextMenuGroup props kids : view M := part "ContextMenuPrimitive.Group" "context-menu-group" props kids.
Definition ContextMenuPortal props kids : view M := part "ContextMenuPrimitive.Portal" "context-menu-portal" props kids.
Definition ContextMenuSub props kids : view M := part "ContextMenuPrimitive.Sub" "context-menu-sub" props kids.
Definition ContextMenuRadioGroup props kids : view M :=
  part "ContextMenuPrimitive.RadioGroup" "context-menu-radio-group" props kids.
Definition ContextMenuContent props kids : view M :=
  El "ContextMenuPrimitive.Portal" [] [part "ContextMenuPrimitive.Content" "context-menu-content" props kids].
Definition ContextMenuItem (inset : option bool) (variant : option string) props kids : view M :=
  jsx "ContextMenuPrimitive.Item"
    ([Attr "data-slot" "context-menu-item"] ++ opt_bool "data-inset" inset ++
     [Attr "data-variant" (variant ?? "default")]) props kids.
Definition ContextMenuSubTrigger (inset : option bool) props kids : view M :=
  jsx "ContextMenuPrimitive.SubTrigger" ([Attr "data-slot" "context-menu-sub-trigger"] ++ opt_bool "data-inset" inset)
    props (kids ++ [El "RiArrowRightSLine" [] []]).
Definition ContextMenuSubContent props kids : view M :=
  part "ContextMenuPrimitive.SubContent" "context-menu-sub-content" props kids.
Definition ContextMenuCheckboxItem (checked : option string) (inset : option bool) props kids : view M :=
  jsx "ContextMenuPrimitive.CheckboxItem"
    ([Attr "data-slot" "context-menu-checkbox-item"] ++ opt_bool "data-inset" inset ++ opt_attr "checked" checked) props
    (El "span" [] [El "ContextMenuPrimitive.ItemIndicator" [] [El "RiCheckLine" [] []]] :: kids).
Definition ContextMenuRadioItem (inset : option bool) props kids : view M :=
  jsx "ContextMenuPrimitive.RadioItem"
    ([Attr "data-slot" "context-menu-radio-item"] ++ opt_bool "data-inset" inset) props
    (El "span" [] [El "ContextMenuPrimitive.ItemIndicator" [] [El "RiCheckLine" [] []]] :: kids).
Definition ContextMenuLabel (inset : option bool) props kids : view M :=
  jsx "ContextMenuPrimitive.Label" ([Attr "data-slot" "context-menu-label"] ++ opt_bool "data-inset" inset) props kids.
Definition ContextMenuSeparator props kids : view M :=
  part "ContextMenuPrimitive.Separator" "context-menu-separator" props kids.
Definition ContextMenuShortcut props kids : view M := part "span" "context-menu-shortcut" props kids.

(** ** [checkbox.tsx], [switch.tsx], [scroll-area.tsx], [tooltip.tsx] *)

Definition Checkbox props : view M :=
  jsx "CheckboxPrimitive.Root" [Attr "data-slot" "checkbox"] props
    [El "CheckboxPrimitive.Indicator" [Attr "data-slot" "checkbox-indicator"]
       [El (if attr_value "checked" props === Some "indeterminate" then "Minus" else "Check") [] []]].
Definition Switch props : view M :=
  jsx "SwitchPrimitive.Root" [Attr "data-slot" "switch"] props
    [El "SwitchPrimitive.Thumb" [Attr "data-slot" "switch-thumb"] []].

Definition ScrollBar (orientation : option string) props : view M :=
  let orientation := orientation ?? "vertical" in
  jsx "ScrollAreaPrimitive.ScrollAreaScrollbar"
    [Attr "data-slot" "scroll-area-scrollbar"; Attr "data-orientation" orientation; Attr "orientation" orientation] props
    [El "ScrollAreaPrimitive.ScrollAreaThumb" [Attr "data-slot" "scroll-area-thumb"] []].
Definition ScrollArea props kids : view M :=
  part "ScrollAreaPrimitive.Root" "scroll-area" props
    [El "ScrollAreaPrimitive.Viewport" [Attr "data-slot" "scroll-area-viewport"] kids;
     ScrollBar None []; El "ScrollAreaPrimitive.Corner" [] []].

Definition TooltipProvider (delayDuration : option Z) props kids : view M :=
  jsx "TooltipPrimitive.Provider" [Attr "data-slot" "tooltip-provider"; Attr "delayDuration" (num (delayDuration ?? 0))]
    props kids.
Definition Tooltip props kids : view M := part "TooltipPrimitive.Root" "tooltip" props kids.
Definition TooltipTrigger props kids : view M := part "TooltipPrimitive.Trigger" "tooltip-trigger" props kids.
Definition TooltipContent (sideOffset : option Z) props kids : view M :=
  El "TooltipPrimitive.Portal" []
    [jsx "TooltipPrimitive.Content" [Attr "data-slot" "tooltip-content"; Attr "sideOffset" (num (sideOffset ?? 0))] props
       (kids ++ [El "TooltipPrimitive.Arrow" [] []])].

(** ** [kbd.tsx], [skeleton.tsx], [flag.tsx], [sonner.tsx] *)

Definition Kbd props kids : view M := part "kbd" "kbd" props kids.
Definition KbdGroup props kids : view M := part "kbd" "kbd-group" props kids.
Definition Skeleton props kids : view M := part "div" "skeleton" props kids.
Definition Flag (code : string) (size : option string) : view M :=
  El "FlagpackFlag" [Attr "code" code; Attr "size" (size ?? "l"); BoolAttr "hasBorder" true;
                     BoolAttr "hasBorderRadius" true; BoolAttr "hasDropShadow" true; Attr "gradient" "real-linear"] [].

(** The icon of each kind of toast, and the colours it takes from the theme. *)
Definition toast_icons : list (string * string) :=
  [("success", "RiCheckboxCircleLine"); ("info", "RiInformationLine"); ("warning", "RiErrorWarningLine");
   ("error", "RiCloseCircleLine"); ("loading", "RiLoaderLine")].
Definition toast_style : list (string * string) :=
  [("--normal-bg", "var(--popover)"); ("--normal-text", "var(--popover-foreground)");
   ("--normal-border", "var(--border)"); ("--border-radius", "var(--radius)")].
Definition Toaster (theme : option string) props : view M :=
  jsx "Sonner" [Attr "theme" (theme ?? "system")] props
    (map (λ '(kind, icon), El "icon" [Attr "kind" kind] [El icon [] []]) toast_icons ++
     map (λ '(n, v), El "style" [Attr "name" n; Attr "value" v] []) toast_style).

(** ** [components/animated-number.tsx], [components/key-value-list.tsx] *)

Definition AnimatedNumber (value : JsNumber) (willChange : option bool) props : view M :=
  jsx "NumberFlow" [Attr "value" (Number_to_string value); BoolAttr "willChange" (willChange ?? true)] props [].

Record KeyValueListItem := mkKeyValueListItem {
  kvi_label : view M; kvi_value : view M; kvi_description : option (view M) }.

(** A description that is falsy is [None]. Rows after the first carry a line above them in the bordered variant. *)
Definition KeyValueList (items : list KeyValueListItem) (variant : option string) : view M :=
  let bordered := variant ?? "default" === "bordered" in
  El "dl" [BoolAttr "bordered" bordered]
    (imap (λ index item,
       El "div" [BoolAttr "border-t" (bordered && (0 <? Z.of_nat index))]
         [El "dt" [] [kvi_label item];
          El "dd" [] (El "div" [] [kvi_value item] ::
                      match kvi_description item with Some d => [El "div" [] [d]] | None => [] end)]) items).

(** ** The click of an addon

    [closest("button")] looks from the element that was hit up to the document;
    [querySelector("input")] takes the first in document order below the parent. *)
Definition addon_click (upwards : list string) (parent : option (view M)) : option (list (attr M)) :=
  if existsb (λ t, t === "button") upwards then None
  else match parent with
       | Some (El _ _ kids) => (λ e, e.1.2) <$> List.find (λ e, e.1.1 === "input") (concat (map elements kids))
       | _ => None
       end.

(** ** Rendering the primitives of a page *)

Definition named (names : list string) (a : attr M) : bool :=
  match a with Attr n _ | BoolAttr n _ => includes names n | _ => false end.
Definition rest (names : list string) (a : list (attr M)) : list (attr M) := List.filter (λ x, negb (named names x)) a.
Definition bool_value (name : string) (a : list (attr M)) : option bool :=
  match List.find (named [name]) a with Some (BoolAttr _ b) => Some b | _ => None end.

(** A primitive under the name a page uses, the properties it destructures and
    does not pass on under the same name, and whether it has children of its own only. *)
Record primitive := mkPrimitive {
  pr_tag : string; pr_consumed : list string; pr_fixed : bool;
  pr_render : list (attr M) → list (view M) → view M }.

Definition wrapper (tag : string) (render : list (attr M) → list (view M) → view M) : primitive :=
  mkPrimitive tag [] false render.

Definition primitives : list primitive :=
  [mkPrimitive "Button" ["variant"; "size"; "asChild"] false
     (λ a, Button (attr_value "variant" a) (attr_value "size" a) (attr_bool "asChild" a) (rest ["variant"; "size"; "asChild"] a));
   wrapper "Breadcrumb" Breadcrumb; wrapper "BreadcrumbList" BreadcrumbList; wrapper "BreadcrumbItem" BreadcrumbItem;
   wrapper "BreadcrumbPage" BreadcrumbPage;
   wrapper "BreadcrumbSeparator" (λ a k, BreadcrumbSeparator a (match k with [] => None | _ => Some k end));
   wrapper "AlertDialog" AlertDialog; wrapper "AlertDialogTrigger" AlertDialogTrigger;
   wrapper "AlertDialogContent" AlertDialogContent; wrapper "AlertDialogFooter" AlertDialogFooter;
   wrapper "AlertDialogTitle" AlertDialogTitle; wrapper "AlertDialogDescription" AlertDialogDescription;
   mkPrimitive "Input" ["inputSize"] false (λ a, Input None (attr_value "inputSize" a) (rest ["inputSize"] a));
   wrapper "Textarea" Textarea; wrapper "InputGroup" InputGroup;
   wrapper "DropdownMenu" DropdownMenu; wrapper "DropdownMenuTrigger" DropdownMenuTrigger;
   wrapper "DropdownMenuContent" (DropdownMenuContent None None);
   mkPrimitive "DropdownMenuItem" ["inset"; "variant"] false
     (λ a, DropdownMenuItem (bool_value "inset" a) (attr_value "variant" a) (rest ["inset"; "variant"] a));
   mkPrimitive "DropdownMenuCheckboxItem" ["inset"] false
     (λ a, DropdownMenuCheckboxItem None (bool_value "inset" a) (rest ["inset"] a));
   wrapper "DropdownMenuRadioGroup" DropdownMenuRadioGroup;
   mkPrimitive "DropdownMenuRadioItem" ["inset"] false (λ a, DropdownMenuRadioItem (bool_value "inset" a) (rest ["inset"] a));
   mkPrimitive "DropdownMenuLabel" ["inset"] false (λ a, DropdownMenuLabel (bool_value "inset" a) (rest ["inset"] a));
   wrapper "DropdownMenuSeparator" DropdownMenuSeparator; wrapper "DropdownMenuSub" DropdownMenuSub;
   mkPrimitive "DropdownMenuSubTrigger" ["inset"] false
     (λ a, DropdownMenuSubTrigger (bool_value "inset" a) (rest ["inset"] a));
   wrapper "DropdownMenuSubContent" DropdownMenuSubContent;
   wrapper "ScrollArea" ScrollArea; wrapper "TooltipProvider" (TooltipProvider None); wrapper "Tooltip" Tooltip;
   wrapper "TooltipTrigger" TooltipTrigger; wrapper "TooltipContent" (TooltipContent None);
   wrapper "Kbd" Kbd; wrapper "KbdGroup" KbdGroup; wrapper "Skeleton" Skeleton;
   mkPrimitive "Checkbox" [] true (λ a _, Checkbox a); mkPrimitive "Switch" [] true (λ a _, Switch a);
   mkPrimitive "Flag" ["code"; "size"] true (λ a _, Flag (attr_value "code" a ?? "") (attr_value "size" a));
   mkPrimitive "Toaster" [] true (λ a _, Toaster None a)].

Definition primitive_of (tag : string) : option primitive := List.find (λ p, pr_tag p === tag) primitives.

Fixpoint expand (v : view M) : view M :=
  match v with
  | Text s => Text s
  | El tag a kids =>
      let kids := map expand kids in
      match primitive_of tag with Some p => pr_render p a kids | None => El tag a kids end
  end.

(** A primitive that writes its own children is given none. *)
Definition childless (v : view M) : Prop :=
  Forall (λ e, ∀ p, primitive_of e.1.1 = Some p → pr_fixed p = true → e.2 = []) (elements v).

End Web.
Arguments primitive : clear implicits.

(** ** Lemmas on views *)

Section Transparent.
Context {M : Type}.
Implicit Types (a : list (attr M)) (kids : list (view M)).

Lemma view_nested_ind (P : view M → Prop) :
  (∀ s, P (Text s)) → (∀ tag a kids, Forall P kids → P (El tag a kids)) → ∀ v, P v.
Proof.
  intros Ht He. fix IH 1. intros [s|tag a kids]; [apply Ht|]. apply He.
  induction kids as [|k kids IHk]; constructor; [apply IH|exact IHk].
Qed.

Definition is_link (tag : string) : bool := (tag === "Link") || (tag === "a").

Lemma links_El tag a kids :
  links (El tag a kids) =
  when (is_link tag) (match attr_value "href" a with Some h => [(h, text_content (El "" a kids))] | None => [] end) ++
  concat (map links kids).
Proof.
  unfold links at 1. cbn [elements List.filter]. fold (is_link tag).
  match goal with |- context [List.filter ?f (concat (map elements kids))] =>
    assert (Hk : concat (map (λ '(_, a, k), match attr_value "href" a with
        | Some h => [(h, text_content (El "" a k))] | None => [] end) (List.filter f (concat (map elements kids)))) =
      concat (map links kids)) end.
  { induction kids as [|k kids IH]; [done|]. cbn [map concat].
    by rewrite List.filter_app, map_app, concat_app, IH. }
  destruct (is_link tag); cbn [map concat when app]; by rewrite Hk.
Qed.

Definition texts kids : string := String.concat "" (map text_content kids).

Lemma texts_cons k kids : texts (k :: kids) = text_content k +:+ texts kids.
Proof. unfold texts. destruct kids; [cbn; by rewrite string_app_empty_r|done]. Qed.

Lemma texts_app kids kids' : texts (kids ++ kids') = texts kids +:+ texts kids'.
Proof. induction kids as [|k kids IH]; [done|]. by rewrite <-app_comm_cons, !texts_cons, IH, string_app_assoc. Qed.

Lemma text_El tag a kids : text_content (El tag a kids) = texts kids.
Proof. done. Qed.

Lemma rest_disabled names a : includes names "disabled" = false → is_disabled (rest names a) = is_disabled a.
Proof.
  intros Hn. induction a as [|[n v|n b|m|f|f|f] a IH]; cbn; try done.
  - destruct (includes names n); cbn; done.
  - case_bool_decide as He; [subst; by rewrite Hn; cbn; rewrite bool_decide_true|].
    destruct (includes names n); cbn; [done|]. by rewrite bool_decide_false.
Qed.

Lemma rest_click names a : click_message (rest names a) = click_message a.
Proof. induction a as [|[n v|n b|m|f|f|f] a IH]; cbn; try done; destruct (includes names n); cbn; done. Qed.

Lemma rest_value names k a : includes names k = false → attr_value k (rest names a) = attr_value k a.
Proof.
  intros Hn. induction a as [|[n v|n b|m|f|f|f] a IH]; cbn; try done.
  - case_bool_decide as He; [subst; by rewrite Hn; cbn; rewrite bool_decide_true|].
    destruct (includes names n); cbn; [done|]. by rewrite bool_decide_false.
  - destruct (includes names n); cbn; done.
Qed.

Lemma disabled_app a b : is_disabled b = false → is_disabled (a ++ b) = is_disabled a.
Proof. intros Hb. induction a as [|[n v|n c|m|f|f|f] a IH]; cbn; try done. by case_bool_decide. Qed.

Lemma click_app a b : click_message b = None → click_message (a ++ b) = click_message a.
Proof. intros Hb. by induction a as [|[n v|n c|m|f|f|f] a IH]; cbn. Qed.

(** What a reader reads, presses and follows in a list of views. *)
Record same_content (l l' : list (view M)) : Prop := mkSame {
  same_text : texts l = texts l';
  same_buttons : concat (map buttons l) = concat (map buttons l');
  same_links : concat (map links l) = concat (map links l') }.

Lemma same_refl l : same_content l l.
Proof. done. Qed.

Lemma same_app l1 l2 k1 k2 : same_content l1 k1 → same_content l2 k2 → same_content (l1 ++ l2) (k1 ++ k2).
Proof.
  intros [Ht Hb Hl] [Ht' Hb' Hl'].
  split; [by rewrite !texts_app, Ht, Ht'|by rewrite !map_app, !concat_app, Hb, Hb'|by rewrite !map_app, !concat_app, Hl, Hl'].
Qed.

(** An element that is neither a button nor a link reads as its children. *)
Lemma same_El tag a l l' :
  is_button tag a = false → is_link tag = false → same_content l l' → same_content [El tag a l] l'.
Proof.
  intros Hb Hl [Ht Hb' Hl']. split; [done|cbn [map concat]|cbn [map concat]]; rewrite app_nil_r.
  - by rewrite buttons_plain.
  - by rewrite links_El, Hl.
Qed.

(** Icons and bars around the children. *)
Lemma same_before v l l' : same_content [v] [] → same_content l l' → same_content (v :: l) l'.
Proof. intros Hv Hl. exact (same_app [v] l [] l' Hv Hl). Qed.

Lemma same_after v l l' : same_content [v] [] → same_content l l' → same_content (l ++ [v]) l'.
Proof. intros Hv Hl. rewrite <-(app_nil_r l'). exact (same_app l [v] l' [] Hl Hv). Qed.

(** The properties of a button that matter survive the primitive's own, and with [asChild]
    there is no button on either side. *)
Lemma button_same variant size names a l l' :
  includes names "disabled" = false → same_content l l' →
  same_content [Button variant size (attr_bool "asChild" a) (rest names a) l] [El "Button" a l'].
Proof.
  intros Hn [Ht Hb Hl]. unfold Button, jsx_cn, comp. destruct (attr_bool "asChild" a) eqn:Hc.
  - split; [exact Ht| |].
    + cbn [map concat]. rewrite !app_nil_r, !buttons_plain; [exact Hb| |done].
      unfold is_button. by rewrite Hc.
    + cbn [map concat]. by rewrite !app_nil_r, !links_El.
  - split; [exact Ht| |].
    + cbn [map concat]. rewrite !app_nil_r, !buttons_button; [|by unfold is_button; rewrite Hc|done].
      f_equal; [|exact Hb]. cbn [is_disabled click_message].
      rewrite disabled_app, click_app, rest_disabled, rest_click by done. f_equal. f_equal. exact Ht.
    + cbn [map concat]. by rewrite !app_nil_r, !links_El.
Qed.

Lemma same_first v l l' : same_content [v] l' → same_content l [] → same_content (v :: l) l'.
Proof. intros Hv Hl. rewrite <-(app_nil_r l'). exact (same_app [v] l l' [] Hv Hl). Qed.

Lemma value_app k a b : attr_value k (a ++ b) = match attr_value k a with Some v => Some v | None => attr_value k b end.
Proof. induction a as [|[n v|n c|m|f|f|f] a IH]; cbn; try done. by case_bool_decide. Qed.

Definition transparent (p : primitive M) : Prop :=
  ∀ a l l', same_content l l' → (pr_fixed p = true → l = [] ∧ l' = []) →
    same_content [pr_render p a l] [El (pr_tag p) a l'].
End Transparent.

(** Peel elements and silent neighbours until the children are left. *)
Ltac same_tac :=
  lazymatch goal with
  | H : same_content ?l ?l' |- same_content ?l ?l' => exact H
  | |- same_content ?l ?l => apply same_refl
  | |- same_content [_] _ => apply same_El; [reflexivity|reflexivity|same_tac]
  | |- same_content (_ ++ [_]) _ => apply same_after; same_tac
  | |- same_content (_ :: _) _ => first [apply same_before; [solve [same_tac]|solve [same_tac]] | apply same_first; same_tac]
  end.

Section Primitives.
Context {M : Type}.

(** On the right an unknown tag is an element that is no button and no link. *)
Lemma transparent_El (p : primitive M) :
  (∀ a : list (attr M), is_button (pr_tag p) a = false) → is_link (pr_tag p) = false →
  (∀ a l l', same_content l l' → (pr_fixed p = true → l = [] ∧ l' = []) → same_content [pr_render p a l] l') → transparent p.
Proof.
  intros Hb Hl Hp a l l' Hs Hf. destruct (Hp a l l' Hs Hf) as [H1 H2 H3].
  destruct (same_El (pr_tag p) a l' l' (Hb a) Hl (same_refl l')) as [E1 E2 E3].
  split; [by rewrite E1|by rewrite E2|by rewrite E3].
Qed.

Lemma primitives_transparent : Forall transparent (primitives (M := M)).
Proof.
  unfold primitives. repeat apply Forall_cons_2; [..|apply Forall_nil_2].
  1: { intros a l l' Hs _. by apply button_same. }
  all: apply transparent_El; [reflexivity|reflexivity|]; intros a l l' Hs Hf; cbn in Hf |- *.
  all: try (destruct Hf as [-> ->]; [done|]).
  all: try solve [same_tac].
  - destruct l as [|k l]; [|same_tac]. destruct Hs as [Ht Hb Hl].
    unfold BreadcrumbSeparator, jsx. split; cbn in Ht, Hb, Hl |- *; by rewrite <-?Ht, <-?Hb, <-?Hl.
  - unfold Checkbox. destruct (attr_value "checked" a === Some "indeterminate"); same_tac.
  - unfold Toaster, jsx, toast_icons, toast_style. apply same_El; [reflexivity|reflexivity|]. cbn [map app]. same_tac.
Qed.

Lemma childless_Text s : childless (Text (M := M) s).
Proof. constructor. Qed.

Lemma childless_El tag a (kids : list (view M)) :
  match primitive_of (M := M) tag with Some p => negb (pr_fixed p) | None => true end || (js_length kids =? 0) = true →
  Forall childless kids → childless (El tag a kids).
Proof.
  intros Ht Hk. unfold childless. cbn [elements]. constructor.
  - cbn [fst snd]. intros p Hp Hf. rewrite Hp, Hf in Ht. cbn in Ht. destruct kids; [done|].
    unfold js_length in Ht. cbn [length] in Ht. zbool. lia.
  - clear Ht. induction Hk as [|k kids Hk _ IH]; [constructor|]. cbn [map concat]. by apply Forall_app.
Qed.

Lemma same_flat l l' : Forall2 (λ v w : view M, same_content [v] [w]) l l' → same_content l l'.
Proof. induction 1 as [|v w l l' Hv _ IH]; [apply same_refl|]. exact (same_app [v] l [w] l' Hv IH). Qed.

Lemma expand_same (v : view M) : childless v → same_content [expand v] [v].
Proof.
  induction v as [s|tag a kids IH] using view_nested_ind; intros Hc; [apply same_refl|].
  apply Forall_cons in Hc as [Hhd Hkids]. cbn [expand].
  assert (Hk : same_content (map expand kids) kids).
  { apply same_flat. clear Hhd. induction IH as [|k kids Hk _ IHk]; [constructor|]. cbn [map concat] in Hkids.
    apply Forall_app in Hkids as [Hk1 Hk2]. constructor; [by apply Hk|by apply IHk]. }
  destruct (primitive_of tag) as [p|] eqn:Hp.
  - pose proof primitives_transparent as Ht. rewrite List.Forall_forall in Ht.
    destruct (find_some _ _ Hp) as [Hin Htag%bool_decide_eq_true]. subst tag.
    apply (Ht p Hin); [done|]. intros Hf. cbn in Hhd. by rewrite (Hhd p Hp Hf).
  - split; [by rewrite !texts_cons, !text_El; destruct Hk as [-> _ _]| |].
    + cbn [map concat]. rewrite !app_nil_r, !buttons_El, !text_El. by destruct Hk as [-> -> _].
    + cbn [map concat]. rewrite !app_nil_r, !links_El, !text_El. by destruct Hk as [-> _ ->].
Qed.

(** C13: The pages of the model name the primitives; putting in what the primitives render
    changes no text, no button (its label, whether it is disabled, what it sends) and
    no link, in any page that gives no children to a checkbox, switch, flag
    or toaster. A [Button] with [asChild] renders no button, and is counted as none: what
    it contains (a link) is what remains. *)
Theorem primitives_keep_behaviour (v : view M) :
  childless v →
  text_content (expand v) = text_content v ∧ buttons (expand v) = buttons v ∧ links (expand v) = links v.
Proof.
  intros Hc. destruct (expand_same v Hc) as [Ht Hb Hl].
  rewrite !texts_cons, !string_app_empty_r in Ht. cbn in Hb, Hl. by rewrite !app_nil_r in Hb, Hl.
Qed.

(** What a caller passes reaches an element of the primitive: its attributes,
    but for the class and what is destructured, and its click handler. *)
Definition receives (consumed : list string) (a b : list (attr M)) : Prop :=
  (∀ k v, includes ("class" :: consumed) k = false → attr_value k a = Some v → attr_value k b = Some v) ∧
  (∀ m, click_message a = Some m → click_message b = Some m).

Lemma receives_spread consumed a own : receives consumed a (rest consumed a ++ own).
Proof.
  split.
  - intros k v Hk Ha. cbn in Hk. apply orb_false_iff in Hk as [_ Hk]. by rewrite value_app, rest_value, Ha.
  - intros m Hm. rewrite <-(rest_click consumed) in Hm. revert Hm. generalize (rest consumed a). intros l Hm.
    induction l as [|[n v|n c|m'|f|f|f] l IH]; cbn in *; auto; discriminate.
Qed.

Lemma rest_nothing (a : list (attr M)) : rest [] a = a.
Proof. unfold rest. induction a as [|[n v|n c|m'|f|f|f] a IH]; cbn; [done|..]; f_equal; exact IH. Qed.

Lemma receives_spread_all a own : receives [] a (a ++ own).
Proof. rewrite <-(rest_nothing a) at 2. apply receives_spread. Qed.

Lemma receives_class consumed a c b : receives consumed a b → receives consumed a (Attr "class" c :: b).
Proof.
  intros [Ha Hc]. split; [|exact Hc]. intros k v Hk Hv. cbn [attr_value]. case_bool_decide as He; [|by apply Ha].
  subst. cbn in Hk. discriminate.
Qed.

Definition forwards (p : primitive M) : Prop :=
  pr_tag p ≠ "Flag" → ∀ a kids,
    ∃ e, In e (elements (pr_render p a kids)) ∧ receives (pr_consumed p) a e.1.2.

Lemma primitives_forward : Forall forwards primitives.
Proof.
  unfold primitives. repeat apply Forall_cons_2; [..|apply Forall_nil_2]; intros Hf a kids;
    cbn [pr_render pr_tag pr_consumed wrapper] in *; try done.
  all: try (eexists; split; [left; reflexivity|]; cbn [fst snd];
    first [apply receives_spread_all|apply receives_spread|apply receives_class, receives_spread]).
  all: try (eexists; split; [right; left; reflexivity|]; apply receives_spread_all).
  eexists; split; [right; right; left; reflexivity|]; apply receives_spread_all.
Qed.
(** Whatever attributes and click handler the caller gives to a primitive, they
    reach one of the elements it renders and win over its own; only the class is
    merged and what the primitive destructures is left out. *)
Theorem caller_props_win (p : primitive M) a kids :
  In p primitives → pr_tag p ≠ "Flag" →
  ∃ tag attrs children, In (tag, attrs, children) (elements (pr_render p a kids)) ∧
    (∀ k v, includes ("class" :: pr_consumed p) k = false → attr_value k a = Some v → attr_value k attrs = Some v) ∧
    (∀ m, click_message a = Some m → click_message attrs = Some m).
Proof.
  intros Hp Hf. pose proof primitives_forward as Hall. rewrite List.Forall_forall in Hall.
  destruct (Hall p Hp Hf a kids) as ([[tag attrs] k] & Hin & Hr). by exists tag, attrs, k.
Qed.

(** ** The addon of an input group *)

Definition no_input (l : list (view M)) : Prop := Forall (λ e, e.1.1 ≠ "input") (concat (map elements l)).

Lemma find_input_skip (l r : list (string * list (attr M) * list (view M))) :
  Forall (λ e, e.1.1 ≠ "input") l →
  List.find (λ e, e.1.1 === "input") (l ++ r) = List.find (λ e, e.1.1 === "input") r.
Proof. induction 1 as [|e l He _ IH]; [done|]. cbn. by rewrite bool_decide_false. Qed.

(** Clicking beside the input of a group focuses the group's first input, clicking a button
    (or anything in one) does not, and a group around a text area focuses nothing. *)
Theorem addon_focuses_input upwards props pre post type size a k :
  no_input pre →
  addon_click upwards (Some (InputGroup props (pre ++ InputGroupInput type size a k :: post))) =
    (if existsb (λ t, t === "button") upwards then None
     else Some (Attr "class" (cn (cva inputVariants [("inputSize", size)])
                  (attr_value "class" (a ++ [Attr "data-slot" "input-group-control"]))) ::
           (a ++ [Attr "data-slot" "input-group-control"]) ++ opt_attr "type" type ++ [Attr "data-slot" "input"])) ∧
  (no_input post → no_input k →
   addon_click upwards (Some (InputGroup props (pre ++ InputGroupTextarea a k :: post))) = None).
Proof.
  intros Hpre. unfold addon_click, InputGroup, jsx. destruct (existsb _ upwards); [done|].
  rewrite !map_app, !concat_app, !find_input_skip by done. split; [done|].
  intros Hpost Hk. cbn [map concat elements InputGroupTextarea Textarea part jsx].
  rewrite find_input_skip; [|constructor; [discriminate|done]]. 
  rewrite <-(app_nil_r (concat (map elements post))), find_input_skip by done. done.
Qed.
End Primitives.

Definition demo_page : view unit :=
  El "div" [] [El "Button" [Attr "variant" "outline"; OnClick tt] [Text "Save"]; El "Switch" [] [];
               El "Button" [BoolAttr "asChild" true] [El "Link" [Attr "href" "/"] [Text "Go home"]]].

Lemma primitives_keep_behaviour_witness :
  buttons (expand demo_page) = [("Save", false, Some tt)] ∧ links (expand demo_page) = [("/", "Go home")].
Proof.
  destruct (primitives_keep_behaviour demo_page) as (_ & Hb & Hl); [|rewrite Hb, Hl; split; reflexivity].
  repeat apply Forall_cons_2; [..|apply Forall_nil_2]; intros p; cbn; try discriminate; intros [= <-]; try discriminate; done.
Defined.

Lemma caller_props_win_witness :
  ∃ tag attrs kids, In (tag, attrs, kids) (elements (Button (M := unit) None None false [Attr "type" "submit"] [])) ∧
    attr_value "type" attrs = Some "submit".
Proof.
  destruct (caller_props_win (mkPrimitive "Button" ["variant"; "size"; "asChild"] false
     (λ a, Button (attr_value "variant" a) (attr_value "size" a) (attr_bool "asChild" a) (rest ["variant"; "size"; "asChild"] a)))
     [Attr (M := unit) "type" "submit"] []) as (tag & attrs & kids & Hin & Ha & _); [by left|discriminate|].
  exists tag, attrs, kids. split; [exact Hin|]. by apply Ha.
Defined.

Lemma addon_focuses_input_witness :
  attr_value "placeholder" <$>
    addon_click ["svg"; "div"] (Some (InputGroup [] [InputGroupAddon tt None [] [El "svg" [] []];
      InputGroupInput None None [Attr "placeholder" "Search"] []])) = Some (Some "Search").
Proof.
  destruct (addon_focuses_input ["svg"; "div"] [] [InputGroupAddon tt None [] [El "svg" [] []]] [] None None
    [Attr "placeholder" "Search"] []) as [Ha _]; [repeat constructor; discriminate|].
  cbn [app] in Ha. by rewrite Ha.
Defined.

(** A page, part by part, gives a primitive with children of its own none. *)
Ltac childless_simpl :=
  repeat first
    [ apply childless_Text
    | apply childless_El; [reflexivity|]
    | apply Forall_map_all; intros ?
    | apply Forall_app_2
    | apply Forall_when; intros ?
    | apply Forall_cons_2
    | apply Forall_nil_2 ].
