(* ===== verification/ProtoUi.v ===== *)
(** * The primitives of the prototype's interface

    Models [prototype/components/ui], in the manner of [Ui]. The files the prototype
    shares with the web client, up to formatting, are the same definitions. *)
From stdpp Require Import base list strings.
From Stdlib Require Import ZArith Lia QArith.
From S2P Require Import Prelude JsString JsNumber View Ui.
#[local] Open Scope string_scope.
#[local] Open Scope list_scope.
#[local] Open Scope Z_scope.

Definition buttonVariants : Variants :=
  [("variant", ["default"; "outline"; "secondary"; "ghost"; "destructive"; "link"], "default");
   ("size", ["default"; "xs"; "sm"; "lg"; "xl"; "icon"; "icon-xs"; "icon-sm"; "icon-lg"], "default")].
Definition alertVariants : Variants := [("variant", ["default"; "destructive"], "default")].
Definition badgeVariants : Variants :=
  [("variant", ["default"; "brand"; "secondary"; "muted"; "success"; "warning"; "destructive"; "outline"; "ghost"; "link"],
    "default")].
Definition tabsListVariants : Variants := [("variant", ["default"; "line"], "default")].
Definition toggleVariants : Variants :=
  [("variant", ["default"; "outline"], "default"); ("size", ["default"; "sm"; "lg"], "default")].

Section Prototype.
Context {M : Type}.
Implicit Types (props : list (attr M)) (kids : list (view M)).

(** ** Shared with the web client *)

Definition Separator := Ui.Separator (M := M).
Definition Textarea := Ui.Textarea (M := M).
Definition Skeleton := Ui.Skeleton (M := M).
Definition Kbd := Ui.Kbd (M := M).
Definition KbdGroup := Ui.KbdGroup (M := M).
Definition ScrollArea := Ui.ScrollArea (M := M).
Definition ScrollBar := Ui.ScrollBar (M := M).
Definition TooltipProvider := Ui.TooltipProvider (M := M).
Definition Tooltip := Ui.Tooltip (M := M).
Definition TooltipTrigger := Ui.TooltipTrigger (M := M).
Definition TooltipContent := Ui.TooltipContent (M := M).
Definition Toaster := Ui.Toaster (M := M).
Definition InputGroup := Ui.InputGroup (M := M).
Definition InputGroupAddon := Ui.InputGroupAddon (M := M).
Definition InputGroupText := Ui.InputGroupText (M := M).
Definition InputGroupTextarea := Ui.InputGroupTextarea (M := M).
Definition DropdownMenu := Ui.DropdownMenu (M := M).
Definition DropdownMenuPortal := Ui.DropdownMenuPortal (M := M).
Definition DropdownMenuTrigger := Ui.DropdownMenuTrigger (M := M).
Definition DropdownMenuContent := Ui.DropdownMenuContent (M := M).
Definition DropdownMenuGroup := Ui.DropdownMenuGroup (M := M).
Definition DropdownMenuItem := Ui.DropdownMenuItem (M := M).
Definition DropdownMenuCheckboxItem := Ui.DropdownMenuCheckboxItem (M := M).
Definition DropdownMenuRadioGroup := Ui.DropdownMenuRadioGroup (M := M).
Definition DropdownMenuRadioItem := Ui.DropdownMenuRadioItem (M := M).
Definition DropdownMenuLabel := Ui.DropdownMenuLabel (M := M).
Definition DropdownMenuSeparator := Ui.DropdownMenuSeparator (M := M).
Definition DropdownMenuShortcut := Ui.DropdownMenuShortcut (M := M).
Definition DropdownMenuSub := Ui.DropdownMenuSub (M := M).
Definition DropdownMenuSubTrigger := Ui.DropdownMenuSubTrigger (M := M).
Definition DropdownMenuSubContent := Ui.DropdownMenuSubContent (M := M).

(** ** [button.tsx] and the button of an input group *)

Definition Button (variant size : option string) (asChild : bool) props kids : view M :=
  let variant := variant ?? "default" in
  let size := size ?? "default" in
  jsx_cn (comp asChild "button") (cva buttonVariants [("variant", Some variant); ("size", Some size)])
    [Attr "data-slot" "button"; Attr "data-variant" variant; Attr "data-size" size] props kids.
Definition InputGroupButton (type variant size : option string) props kids : view M :=
  let size := size ?? "xs" in
  Button (Some (variant ?? "ghost")) None false
    (Attr "class" (cn (cva inputGroupButtonVariants [("size", Some size)]) (attr_value "class" props)) ::
     props ++ [Attr "type" (type ?? "button"); Attr "data-size" size]) kids.

(** ** [input.tsx], [label.tsx], [checkbox.tsx], [switch.tsx], [radio-group.tsx] *)

Definition Input (type : option string) props kids : view M :=
  jsx "input" (opt_attr "type" type ++ [Attr "data-slot" "input"]) props kids.
Definition InputGroupInput (type : option string) props kids : view M :=
  Input type (props ++ [Attr "data-slot" "input-group-control"]) kids.
Definition Label props kids : view M := part "LabelPrimitive.Root" "label" props kids.
Definition Checkbox props : view M :=
  part "CheckboxPrimitive.Root" "checkbox" props
    [El "CheckboxPrimitive.Indicator" [Attr "data-slot" "checkbox-indicator"] [El "RiCheckLine" [] []]].
Definition Switch (size : option string) props : view M :=
  jsx "SwitchPrimitive.Root" [Attr "data-slot" "switch"; Attr "data-size" (size ?? "default")] props
    [El "SwitchPrimitive.Thumb" [Attr "data-slot" "switch-thumb"] []].
Definition RadioGroup props kids : view M := part "RadioGroupPrimitive.Root" "radio-group" props kids.
Definition RadioGroupItem props : view M :=
  part "RadioGroupPrimitive.Item" "radio-group-item" props
    [El "RadioGroupPrimitive.Indicator" [Attr "data-slot" "radio-group-indicator"] [El "span" [] []]].

(** ** [accordion.tsx] *)

Definition Accordion props kids : view M := part "AccordionPrimitive.Root" "accordion" props kids.
Definition AccordionItem props kids : view M := part "AccordionPrimitive.Item" "accordion-item" props kids.
Definition AccordionTrigger props kids : view M :=
  El "AccordionPrimitive.Header" []
    [part "AccordionPrimitive.Trigger" "accordion-trigger" props
       (kids ++ [El "RiArrowDownSLine" [Attr "data-slot" "accordion-trigger-icon"] [];
                 El "RiArrowUpSLine" [Attr "data-slot" "accordion-trigger-icon"] []])].
Definition AccordionContent props kids : view M :=
  part "AccordionPrimitive.Content" "accordion-content" props [El "div" [] kids].

(** ** [alert.tsx], [avatar.tsx], [badge.tsx], [card.tsx] *)

Definition Alert (variant : option string) props kids : view M :=
  jsx_cn "div" (cva alertVariants [("variant", variant)])
    [Attr "data-slot" "alert"; Attr "role" "alert"] props kids.
Definition AlertTitle props kids : view M := part "div" "alert-title" props kids.
Definition AlertDescription props kids : view M := part "div" "alert-description" props kids.
Definition AlertAction props kids : view M := part "div" "alert-action" props kids.

Definition Avatar (size : option string) props kids : view M :=
  jsx "AvatarPrimitive.Root" [Attr "data-slot" "avatar"; Attr "data-size" (size ?? "default")] props kids.
Definition AvatarImage props kids : view M := part "AvatarPrimitive.Image" "avatar-image" props kids.
Definition AvatarFallback props kids : view M := part "AvatarPrimitive.Fallback" "avatar-fallback" props kids.
Definition AvatarBadge props kids : view M := part "span" "avatar-badge" props kids.
Definition AvatarGroup props kids : view M := part "div" "avatar-group" props kids.
Definition AvatarGroupCount props kids : view M := part "div" "avatar-group-count" props kids.

Definition Badge (variant : option string) (asChild : bool) props kids : view M :=
  let variant := variant ?? "default" in
  jsx_cn (comp asChild "span") (cva badgeVariants [("variant", Some variant)])
    [Attr "data-slot" "badge"; Attr "data-variant" variant] props kids.

Definition Card (size : option string) props kids : view M :=
  jsx "div" [Attr "data-slot" "card"; Attr "data-size" (size ?? "default")] props kids.
Definition CardHeader props kids : view M := part "div" "card-header" props kids.
Definition CardTitle props kids : view M := part "div" "card-title" props kids.
Definition CardDescription props kids : view M := part "div" "card-description" props kids.
Definition CardAction props kids : view M := part "div" "card-action" props kids.
Definition CardContent props kids : view M := part "div" "card-content" props kids.
Definition CardFooter props kids : view M := part "div" "card-footer" props kids.

(** ** [dialog.tsx] *)

Definition Dialog props kids : view M := part "DialogPrimitive.Root" "dialog" props kids.
Definition DialogTrigger props kids : view M := part "DialogPrimitive.Trigger" "dialog-trigger" props kids.
Definition DialogPortal props kids : view M := part "DialogPrimitive.Portal" "dialog-portal" props kids.
Definition DialogClose props kids : view M := part "DialogPrimitive.Close" "dialog-close" props kids.
Definition DialogOverlay props kids : view M := part "DialogPrimitive.Overlay" "dialog-overlay" props kids.
Definition DialogContent (showCloseButton : option bool) props kids : view M :=
  DialogPortal []
    [DialogOverlay [] [];
     part "DialogPrimitive.Content" "dialog-content" props
       (kids ++ when (showCloseButton ?? true)
          [El "DialogPrimitive.Close" [Attr "data-slot" "dialog-close"; BoolAttr "asChild" true]
             [Button (Some "ghost") (Some "icon-sm") false [] [El "RiCloseLine" [] []; El "span" [] [Text "Close"]]]])].
Definition DialogHeader props kids : view M := part "div" "dialog-header" props kids.
Definition DialogFooter (showCloseButton : option bool) props kids : view M :=
  part "div" "dialog-footer" props
    (kids ++ when (showCloseButton ?? false)
       [El "DialogPrimitive.Close" [BoolAttr "asChild" true] [Button (Some "outline") None false [] [Text "Close"]]]).
Definition DialogTitle props kids : view M := part "DialogPrimitive.Title" "dialog-title" props kids.
Definition DialogDescription props kids : view M := part "DialogPrimitive.Description" "dialog-description" props kids.

(** ** [command.tsx] *)

Definition Command props kids : view M := part "CommandPrimitive" "command" props kids.
Definition CommandDialog (title description : option string) (showCloseButton : option bool)
    (className : option string) props kids : view M :=
  Dialog props
    [DialogHeader []
       [DialogTitle [] [Text (title ?? "Command Palette")];
        DialogDescription [] [Text (description ?? "Search for a command to run...")]];
     DialogContent (Some (showCloseButton ?? false)) (opt_attr "class" className) kids].
(** [focus]: the click of the addon, see [Ui.addon_click]. *)
Definition CommandInput (focus : M) props kids : view M :=
  El "div" [Attr "data-slot" "command-input-wrapper"]
    [InputGroup [] [part "CommandPrimitive.Input" "command-input" props kids;
                    InputGroupAddon focus None [] [El "RiSearchLine" [] []]]].
Definition CommandList props kids : view M := part "CommandPrimitive.List" "command-list" props kids.
Definition CommandEmpty props kids : view M := part "CommandPrimitive.Empty" "command-empty" props kids.
Definition CommandGroup props kids : view M := part "CommandPrimitive.Group" "command-group" props kids.
Definition CommandSeparator props kids : view M := part "CommandPrimitive.Separator" "command-separator" props kids.
Definition CommandItem props kids : view M :=
  part "CommandPrimitive.Item" "command-item" props (kids ++ [El "RiCheckLine" [] []]).
Definition CommandShortcut props kids : view M := part "span" "command-shortcut" props kids.

(** ** [input-otp.tsx] *)

Definition InputOTP props kids : view M :=
  jsx "OTPInput" [Attr "data-slot" "input-otp"; BoolAttr "spellCheck" false] props kids.
Definition InputOTPGroup props kids : view M := part "div" "input-otp-group" props kids.

(** A slot of [OTPInputContext]; [char] is [null] while it is empty. *)
Record OtpSlot := mkOtpSlot { otp_char : option string; hasFakeCaret : bool; isActive : bool }.
(** [inputOTPContext?.slots[index] ?? {}]. *)
Definition InputOTPSlot (context : option (list OtpSlot)) (index : Z) props : view M :=
  let slot := match context with Some slots => js_at slots index | None => None end in
  jsx "div" ([Attr "data-slot" "input-otp-slot"] ++ opt_bool "data-active" (isActive <$> slot)) props
    (match slot with Some (mkOtpSlot (Some c) _ _) => [Text c] | _ => [] end ++
     when (match slot with Some s => hasFakeCaret s | None => false end) [El "div" [] [El "div" [] []]]).
Definition InputOTPSeparator props : view M :=
  jsx "div" [Attr "data-slot" "input-otp-separator"; Attr "role" "separator"] props [El "RiSubtractLine" [] []].

(** ** [popover.tsx] *)

Definition Popover props kids : view M := part "PopoverPrimitive.Root" "popover" props kids.
Definition PopoverTrigger props kids : view M := part "PopoverPrimitive.Trigger" "popover-trigger" props kids.
Definition PopoverContent (align : option string) (sideOffset : option Z) props kids : view M :=
  El "PopoverPrimitive.Portal" []
    [jsx "PopoverPrimitive.Content"
       [Attr "data-slot" "popover-content"; Attr "align" (align ?? "center");
        Attr "sideOffset" (num (sideOffset ?? 4))] props kids].
Definition PopoverAnchor props kids : view M := part "PopoverPrimitive.Anchor" "popover-anchor" props kids.
Definition PopoverHeader props kids : view M := part "div" "popover-header" props kids.
Definition PopoverTitle props kids : view M := part "div" "popover-title" props kids.
Definition PopoverDescription props kids : view M := part "p" "popover-description" props kids.

(** ** [progress.tsx] *)

(** [value || 0], where [null] and [undefined] are [None]. *)
Definition value_or_zero (value : option JsNumber) : JsNumber :=
  match value with
  | Some x => if num_eq x (int 0) then int 0 else match x with NaN => int 0 | _ => x end
  | None => int 0
  end.
Definition progress_transform (value : option JsNumber) : string :=
  "translateX(-" +:+ Number_to_string (sub (int 100) (value_or_zero value)) +:+ "%)".
(** [value] is destructured and not passed on. *)
Definition Progress (value : option JsNumber) props : view M :=
  part "ProgressPrimitive.Root" "progress" props
    [El "ProgressPrimitive.Indicator"
       [Attr "data-slot" "progress-indicator"; Attr "transform" (progress_transform value)] []].

(** ** [select.tsx] *)

Definition Select props kids : view M := part "SelectPrimitive.Root" "select" props kids.
Definition SelectGroup props kids : view M := part "SelectPrimitive.Group" "select-group" props kids.
Definition SelectValue props kids : view M := part "SelectPrimitive.Value" "select-value" props kids.
Definition SelectTrigger (size : option string) props kids : view M :=
  jsx "SelectPrimitive.Trigger" [Attr "data-slot" "select-trigger"; Attr "data-size" (size ?? "default")] props
    (kids ++ [El "SelectPrimitive.Icon" [BoolAttr "asChild" true] [El "RiArrowDownSLine" [] []]]).
Definition SelectScrollUpButton props : view M :=
  part "SelectPrimitive.ScrollUpButton" "select-scroll-up-button" props [El "RiArrowUpSLine" [] []].
Definition SelectScrollDownButton props : view M :=
  part "SelectPrimitive.ScrollDownButton" "select-scroll-down-button" props [El "RiArrowDownSLine" [] []].
Definition SelectContent (position align : option string) props kids : view M :=
  let position := position ?? "item-aligned" in
  El "SelectPrimitive.Portal" []
    [jsx_cn "SelectPrimitive.Content" (if position === "popper" then "popper" else "")
       [Attr "data-slot" "select-content"; BoolAttr "data-align-trigger" (position === "item-aligned");
        Attr "position" position; Attr "align" (align ?? "center")] props
       [SelectScrollUpButton []; El "SelectPrimitive.Viewport" [Attr "data-position" position] kids;
        SelectScrollDownButton []]].
Definition SelectLabel props kids : view M := part "SelectPrimitive.Label" "select-label" props kids.
Definition SelectItem props kids : view M :=
  part "SelectPrimitive.Item" "select-item" props
    [El "span" [] [El "SelectPrimitive.ItemIndicator" [] [El "RiCheckLine" [] []]];
     El "SelectPrimitive.ItemText" [] kids].
Definition SelectSeparator props kids : view M := part "SelectPrimitive.Separator" "select-separator" props kids.

(** ** [tabs.tsx] *)

Definition Tabs (orientation : option string) props kids : view M :=
  jsx "TabsPrimitive.Root" [Attr "data-slot" "tabs"; Attr "data-orientation" (orientation ?? "horizontal")] props kids.
Definition TabsList (variant : option string) props kids : view M :=
  let variant := variant ?? "default" in
  jsx_cn "TabsPrimitive.List" (cva tabsListVariants [("variant", Some variant)])
    [Attr "data-slot" "tabs-list"; Attr "data-variant" variant] props kids.
Definition TabsTrigger props kids : view M := part "TabsPrimitive.Trigger" "tabs-trigger" props kids.
Definition TabsContent props kids : view M := part "TabsPrimitive.Content" "tabs-content" props kids.

(** ** [toggle.tsx], [toggle-group.tsx] *)

Definition Toggle (variant size : option string) props kids : view M :=
  jsx_cn "TogglePrimitive.Root" 
    (cva toggleVariants [("variant", Some (variant ?? "default")); ("size", Some (size ?? "default"))])
    [Attr "data-slot" "toggle"] props kids.

(** [ToggleGroupContext]: what a group hands to its items. *)
Record ToggleContext := mkToggleContext {
  ctx_variant : option string; ctx_size : option string; ctx_spacing : option Z; ctx_orientation : option string }.
Definition ToggleGroupContext : ToggleContext :=
  mkToggleContext (Some "default") (Some "default") (Some 2) (Some "horizontal").

Definition ToggleGroup (variant size : option string) (spacing : option Z) (orientation : option string) props
    (children : ToggleContext → list (view M)) : view M :=
  let spacing := spacing ?? 2 in
  let orientation := orientation ?? "horizontal" in
  jsx "ToggleGroupPrimitive.Root"
    ([Attr "data-slot" "toggle-group"] ++ opt_attr "data-variant" variant ++ opt_attr "data-size" size ++
     [Attr "data-spacing" (num spacing); Attr "data-orientation" orientation; Attr "--gap" (num spacing)]) props
    (children (mkToggleContext variant size (Some spacing) (Some orientation))).

(** [context.variant || variant]. *)
Definition inherited (context own : option string) : string :=
  if otruthy context then context ?? "" else own ?? "default".
Definition ToggleGroupItem (variant size : option string) props kids (context : ToggleContext) : view M :=
  let variant := inherited (ctx_variant context) variant in
  let size := inherited (ctx_size context) size in
  jsx_cn "ToggleGroupPrimitive.Item" (cva toggleVariants [("variant", Some variant); ("size", Some size)])
    ([Attr "data-slot" "toggle-group-item"; Attr "data-variant" variant; Attr "data-size" size] ++
     opt_attr "data-spacing" (num <$> ctx_spacing context)) props kids.

End Prototype.

(** ** What the primitives promise *)

Section Properties.
Context {M : Type}.
Implicit Types (props : list (attr M)) (kids : list (view M)).

Definition root_attrs (v : view M) : list (attr M) := match v with El _ a _ => a | Text _ => [] end.

(** A closed dialog: what is in its portal is not rendered, what is beside it is. *)
Fixpoint when_closed (v : view M) : view M :=
  match v with
  | Text s => Text s
  | El tag a kids =>
      if tag === "DialogPrimitive.Portal" then Text "" else El tag a (map when_closed kids)
  end.

(** The item of a group is drawn in the group's variant and size; where the group has none
    in its own, and in the default one where neither has. *)
Theorem toggle_items_follow_group gv gs spacing orientation gprops
    (items : list (option string * option string * list (attr M))) v s props :
  In (v, s, props) items → attr_value "data-variant" props = None → attr_value "data-size" props = None →
  ∃ a, In ("ToggleGroupPrimitive.Item", a, [])
         (elements (ToggleGroup gv gs spacing orientation gprops
            (λ ctx, map (λ '(v, s, p), ToggleGroupItem v s p [] ctx) items))) ∧
    attr_value "data-variant" a = Some (if otruthy gv then gv ?? "" else v ?? "default") ∧
    attr_value "data-size" a = Some (if otruthy gs then gs ?? "" else s ?? "default").
Proof.
  intros Hin Hv Hs. set (ctx := mkToggleContext gv gs (Some (spacing ?? 2)) (Some (orientation ?? "horizontal"))).
  exists (root_attrs (ToggleGroupItem v s props [] ctx)). split; [|split].
  - apply (In_elements _ _ _ _ (ToggleGroupItem v s props [] ctx)); [|by left].
    apply in_map_iff. by exists (v, s, props).
  - cbn [root_attrs ToggleGroupItem jsx_cn attr_value]. rewrite bool_decide_false by done. by rewrite value_app, Hv.
  - cbn [root_attrs ToggleGroupItem jsx_cn attr_value]. rewrite bool_decide_false by done. by rewrite value_app, Hs.
Qed.

(** Radix is not told: a vertical tab list or toggle group is only drawn so, and stays
    horizontal for the keyboard; a progress bar has no value and is
    indeterminate, whatever it shows. *)
Theorem radix_is_not_told props kids :
  attr_value "orientation" props = None → attr_value "value" props = None →
  (∀ o, attr_value "orientation" (root_attrs (Tabs o props kids)) = None) ∧
  (∀ v s sp o, attr_value "orientation" (root_attrs (ToggleGroup v s sp o props (λ _, kids))) = None) ∧
  (∀ value, attr_value "value" (root_attrs (Progress value props)) = None).
Proof.
  intros Ho Hv. split_and!; intros; cbn [root_attrs Tabs ToggleGroup Progress part jsx]; rewrite value_app.
  - by rewrite Ho.
  - rewrite Ho. by destruct v, s.
  - by rewrite Hv.
Qed.

(** The bar is moved left by what is missing to a hundred; above a hundred the
    transform is not one. *)
Theorem progress_bar_moves :
  (∀ n, 0 ≤ n ≤ 100 → progress_transform (Some (int n)) = "translateX(-" +:+ num (100 - n) +:+ "%)") ∧
  progress_transform None = "translateX(-100%)" ∧ progress_transform (Some NaN) = "translateX(-100%)" ∧
  progress_transform (Some (int 101)) = "translateX(--1%)".
Proof.
  split; [|split; [|split]; vm_compute; reflexivity]. intros n Hn.
  assert (Hall : forallb (λ k, progress_transform (Some (int (Z.of_nat k))) ===
                               ("translateX(-" +:+ num (100 - Z.of_nat k) +:+ "%)")) (seq 0 101) = true)
    by (vm_compute; reflexivity).
  rewrite forallb_forall in Hall. rewrite <-(Z2Nat.id n) by lia.
  apply (bool_decide_eq_true_1 _), Hall, in_seq. lia.
Qed.

(** The title and the description of the command palette are not in its content: a
    closed palette still reads them out, where a dialog with the same header inside
    reads nothing. *)
Theorem palette_title_stays title description show className props kids :
  text_content (when_closed (CommandDialog title description show className props kids)) =
    (title ?? "Command Palette") +:+ (description ?? "Search for a command to run...") ∧
  text_content (when_closed (Dialog props
    [DialogContent show props
       (DialogHeader [] [DialogTitle [] [Text (title ?? "Command Palette")];
          DialogDescription [] [Text (description ?? "Search for a command to run...")]] :: kids)])) = "".
Proof.
  assert (Hne : ∀ (A : Type) (s : string) (x y : A), bool_decide (s = "DialogPrimitive.Portal") = false →
     (if s === "DialogPrimitive.Portal" then x else y) = y) by (by intros A s x y ->).
  split; [|done]. cbn [CommandDialog Dialog DialogHeader DialogTitle DialogDescription part jsx when_closed map].
  rewrite !Hne by reflexivity. cbn. by rewrite !string_app_empty_r.
Qed.

(** The close button of a dialog is there unless it is switched off. *)
Lemma dialog_buttons show props kids :
  buttons (DialogContent show props kids) =
  concat (map buttons kids) ++ when (show ?? true) [("Close", false, None)].
Proof.
  unfold DialogContent, DialogPortal, DialogOverlay, part, jsx, Button, jsx_cn, comp.
  destruct (show ?? true); buttons_simpl; [reflexivity|done].
Qed.

End Properties.

Lemma toggle_items_follow_group_witness :
  ∃ a, In ("ToggleGroupPrimitive.Item", a, [])
         (elements (ToggleGroup (M := unit) (Some "outline") None None None []
            (λ ctx, map (λ '(v, s, p), ToggleGroupItem v s p [] ctx) [(Some "default", Some "sm", [])]))) ∧
    attr_value "data-variant" a = Some "outline" ∧ attr_value "data-size" a = Some "sm".
Proof.
  exact (toggle_items_follow_group (Some "outline") None None None [] [(Some "default", Some "sm", [])]
           (Some "default") (Some "sm") [] (or_introl eq_refl) eq_refl eq_refl).
Defined.

Lemma radix_is_not_told_witness :
  attr_value "orientation" (root_attrs (Tabs (M := unit) (Some "vertical") [] [])) = None ∧
  attr_value "value" (root_attrs (Progress (M := unit) (Some (int 40)) [])) = None.
Proof.
  destruct (radix_is_not_told (M := unit) [] [] eq_refl eq_refl) as (Ht & _ & Hp).
  exact (conj (Ht (Some "vertical")) (Hp (Some (int 40)))).
Defined.
