(* ===== verification/Nav.v ===== *)
(** * Navigation: the registry, the breadcrumb and the spine

    Models [web/lib/nav.ts], [web/lib/breadcrumb-leaf.ts],
    [web/components/app/app-context-bar.tsx] and
    [web/components/app/spine.tsx]: the crumb trail of a path, the external
    store a page publishes its name through, which nav item is active, and the
    sidebar's cookie-persisted expand state. *)
From stdpp Require Import base gmap list strings.
From Stdlib Require Import ZArith Lia Ascii.
From S2P Require Import Prelude JsString Proto View.
#[local] Open Scope string_scope.
#[local] Open Scope list_scope.
#[local] Open Scope Z_scope.

(** ** [lib/nav.ts] *)

Inductive NavGroup := knowledge | manage | system.
#[export] Instance NavGroup_eq_dec : EqDecision NavGroup.
Proof. solve_decision. Defined.

Record NavItem := mkNav { nav_key : string; nav_label : string; nav_href : string; nav_group : NavGroup }.

Definition NAV : list NavItem :=
  [ mkNav "ask" "Ask" "/ask" knowledge;
    mkNav "book" "Book" "/book" knowledge;
    mkNav "sources" "Sources" "/sources" manage;
    mkNav "files" "Files" "/files" manage;
    mkNav "entities" "Entities" "/entities" manage;
    mkNav "review" "Review" "/review" manage;
    mkNav "members" "Members" "/members" manage;
    mkNav "access" "Access" "/access" manage;
    mkNav "audit" "Audit log" "/audit" manage;
    mkNav "usage" "Usage" "/usage" manage;
    mkNav "settings" "Settings" "/settings" system ].

(** [Object.fromEntries]: a later entry overrides an earlier one. *)
Definition navByKey : list (string * NavItem) := rev (map (λ n, (nav_key n, n)) NAV).

(** ** [buildCrumbs] *)

(** A label is [None] when it is not a string (React then renders nothing). *)
Record Crumb := mkCrumb { crumb_label : option string; crumb_href : option string; crumb_detail : bool }.

Definition DETAIL_LABEL : list (string * string) :=
  [("sources", "Source"); ("files", "File"); ("book", "Chapter"); ("entities", "Entity")].

Definition EXTRA : list (string * (string * string)) := [("account", ("Account", "/account"))].

(** [pathname.split("/").filter(Boolean)]. *)
Definition segments (pathname : string) : list string :=
  List.filter truthy (split "/"%char pathname).

(** [navByKey[key] ?? EXTRA[key]]: label and href of a section; an inherited
    member is neither null nor undefined and has neither property. *)
Definition section_of (key : string) : option (option string * option string) :=
  match js_get navByKey key with
  | Own n => Some (Some (nav_label n), Some (nav_href n))
  | Inherited => Some (None, None)
  | Missing =>
      match js_get EXTRA key with
      | Own (l, h) => Some (Some l, Some h)
      | Inherited => Some (None, None)
      | Missing => None
      end
  end.

Definition detail_label (key : string) : option string :=
  match js_get DETAIL_LABEL key with
  | Own l => Some l
  | Inherited => None
  | Missing => Some "Details"
  end.

Definition home_crumb : Crumb := mkCrumb (Some "Home") (Some "/home") false.

Definition buildCrumbs (pathname : string) : list Crumb :=
  let segs := segments pathname in
  match segs with
  | [] => [home_crumb]
  | key :: rest =>
    if key === "home" then [home_crumb] else
    match section_of key with
    | None => [home_crumb]
    | Some (label, href) =>
      let hasDeeper := 1 <? js_length segs in
      let crumbs := [home_crumb; mkCrumb label (if hasDeeper then href else None) false] in
      if (key === "sources") && (js_at segs 1 === Some "new") then
        let deeper := 2 <? js_length segs in
        crumbs ++ [mkCrumb (Some "Add source") (if deeper then Some "/sources/new" else None) false]
               ++ when deeper [mkCrumb (Some "Source") None true]
      else if (key === "entities") && (js_at segs 1 === Some "ambiguity") then
        crumbs ++ [mkCrumb (Some "Ambiguity queue") None false]
      else if hasDeeper then
        let isManage := (key === "sources") && (js_at segs 2 === Some "manage") in
        crumbs ++ [mkCrumb (detail_label key)
                     (if isManage then Some ("/sources/" +:+ (js_at segs 1 ?? "")) else None) true]
               ++ when isManage [mkCrumb (Some "Manage") None false]
      else crumbs
    end
  end.

(** ** [AppContextBar] *)

(** Replace the label of the first crumb flagged [detail] with the published
    leaf, when there are both. *)
Definition with_leaf (crumbs : list Crumb) (leaf : option string) : list Crumb :=
  let detailIdx := findIndex crumb_detail crumbs in
  if otruthy leaf && (0 <=? detailIdx) then
    match js_at crumbs detailIdx with
    | Some c => <[Z.to_nat detailIdx := mkCrumb leaf (crumb_href c) (crumb_detail c)]> crumbs
    | None => crumbs
    end
  else crumbs.

Definition crumb_item {M} (last i : Z) (c : Crumb) : list (view M) :=
  when (0 <? i) [El "BreadcrumbSeparator" [] []] ++
  [El "BreadcrumbItem" []
     [if (i !== last) && otruthy (crumb_href c)
      then El "Link" [Attr "href" (crumb_href c ?? "")] [Text (crumb_label c ?? "")]
      else El "BreadcrumbPage" [] [Text (crumb_label c ?? "")]]].

Definition AppContextBar {M} (pathname : string) (leaf : option string)
    (actions search : view M) : view M :=
  let crumbs := buildCrumbs pathname in
  let last := js_length crumbs - 1 in
  let shown := with_leaf crumbs leaf in
  El "header" []
     [El "Breadcrumb" [] [El "BreadcrumbList" []
        (concat (imap (λ i c, crumb_item last (Z.of_nat i) c) shown))];
      actions; search].

(** ** [lib/breadcrumb-leaf.ts]: the external store *)

(** The published label, the subscribed callbacks in insertion order (a JS
    [Set]), and how often each callback was notified, in order. *)
Record LeafStore := mkLeafStore { leaf : option string; listeners : list nat; notified : list nat }.

Definition setLeaf (label : option string) (st : LeafStore) : LeafStore :=
  if leaf st === label then st
  else mkLeafStore label (listeners st) (notified st ++ listeners st).

(** [useBreadcrumbLeaf]: subscribe adds to the set, the returned function
    deletes, the snapshot is the current leaf; the server snapshot is null. *)
Definition subscribe (cb : nat) (st : LeafStore) : LeafStore :=
  if includes (listeners st) cb then st
  else mkLeafStore (leaf st) (listeners st ++ [cb]) (notified st).
Definition unsubscribe (cb : nat) (st : LeafStore) : LeafStore :=
  mkLeafStore (leaf st) (without (listeners st) cb) (notified st).
Definition useBreadcrumbLeaf (server : bool) (st : LeafStore) : option string :=
  if server then None else leaf st.

(** [usePublishBreadcrumbLeaf]: the effect and its cleanup ([undefined] and
    null are both [None]). *)
Definition publish_effect (label : option string) (st : LeafStore) : LeafStore := setLeaf label st.
Definition publish_cleanup (st : LeafStore) : LeafStore := setLeaf None st.

(** The life of the pages that publish: React runs the cleanup of the old
    effect before the new one when the label changes, and on unmount. *)
Inductive leaf_event :=
| Mount (label : option string)
| Relabel (label : option string)
| Unmount
| Subscribe (cb : nat)
| Unsubscribe (cb : nat).

Definition leaf_step (st : LeafStore) (e : leaf_event) : LeafStore :=
  match e with
  | Mount l => publish_effect l st
  | Relabel l => publish_effect l (publish_cleanup st)
  | Unmount => publish_cleanup st
  | Subscribe cb => subscribe cb st
  | Unsubscribe cb => unsubscribe cb st
  end.

Definition leaf_init : LeafStore := mkLeafStore None [] [].

(** ** [components/app/spine.tsx] *)

Definition SPINE_COOKIE := "spine_expanded".
Definition SPINE_MAX_AGE := 60 * 60 * 24 * 30.

Definition bool_str (b : bool) : string := if b then "true" else "false".

(** [setExpanded]: the state and the cookie assignment. *)
Definition setExpanded (v : bool) : bool * list effect :=
  (v, [WriteCookie (SPINE_COOKIE +:+ "=" +:+ bool_str v +:+ "; path=/; max-age=" +:+ num SPINE_MAX_AGE)]).

Definition toggle (expanded : bool) : bool * list effect := setExpanded (negb expanded).

(** The Cmd/Ctrl-B shortcut. *)
Definition spine_onKey `{Locale} (expanded metaKey ctrlKey : bool) (key : string) : bool * list effect :=
  if (metaKey || ctrlKey) && (toLowerCase key === "b")
  then let '(e, fx) := toggle expanded in (e, PreventDefault :: fx)
  else (expanded, []).

(** The match of [/(?:^|; )spine_expanded=([^;]+)/] against [document.cookie]. *)
Fixpoint drop_prefix (p s : string) : option string :=
  match p, s with
  | EmptyString, _ => Some s
  | String a p', String b s' => if bool_decide (a = b) then drop_prefix p' s' else None
  | String _ _, EmptyString => None
  end.

Fixpoint take_until (c : ascii) (s : string) : string :=
  match s with
  | EmptyString => ""
  | String a s' => if bool_decide (a = c) then "" else String a (take_until c s')
  end.

Definition match_here (s : string) : option string :=
  match drop_prefix "spine_expanded=" s with
  | Some v => let w := take_until ";"%char v in if truthy w then Some w else None
  | None => None
  end.

Fixpoint match_later (s : string) : option string :=
  match s with
  | EmptyString => None
  | String _ s' =>
      match drop_prefix "; " s with
      | Some r => match match_here r with Some v => Some v | None => match_later s' end
      | None => match_later s'
      end
  end.

Definition match_cookie (cookie : string) : option string :=
  match match_here cookie with Some v => Some v | None => match_later cookie end.

(** The mount effect: restore the persisted choice. *)
Definition restoreExpanded (cookie : string) (expanded : bool) : bool :=
  match match_cookie cookie with Some m => m === "true" | None => expanded end.

(** The browser's cookie jar: [document.cookie] reads as [name=value] pairs
    joined by "; "; assigning ["name=value; attributes"] replaces or appends. *)
Definition cookie_string (jar : list (string * string)) : string :=
  join "; " (map (λ '(n, v), n +:+ "=" +:+ v) jar).

Definition parse_assignment (a : string) : option (string * string) :=
  match split "="%char (take_until ";"%char a) with
  | n :: rest => Some (n, join "=" rest)
  | [] => None
  end.

Definition put_cookie (jar : list (string * string)) (n v : string) : list (string * string) :=
  if existsb (λ e, e.1 === n) jar
  then map (λ e, if e.1 === n then (n, v) else e) jar
  else jar ++ [(n, v)].

Definition write_cookie (jar : list (string * string)) (a : string) : list (string * string) :=
  match parse_assignment a with Some (n, v) => put_cookie jar n v | None => jar end.

Definition apply_cookies (jar : list (string * string)) (fx : list effect) : list (string * string) :=
  fold_left (λ j e, match e with WriteCookie a => write_cookie j a | _ => j end) fx jar.

(** The filled icon of each nav item, by key. *)
Definition FILL : list (string * string) :=
  [("ask", "RiSparkling2Fill"); ("book", "RiBook2Fill"); ("sources", "RiLayoutGrid2Fill");
   ("files", "RiFile2Fill"); ("entities", "RiNodeTree"); ("review", "RiFileSearchFill");
   ("members", "RiTeamFill"); ("access", "RiShieldKeyholeFill"); ("audit", "RiFileList3Fill");
   ("usage", "RiBarChartFill"); ("settings", "RiSettings3Fill")].

Definition KNOWLEDGE := List.filter (λ n, nav_group n === knowledge) NAV.
Definition MANAGE := List.filter (λ n, nav_group n === manage) NAV.
Definition SETTINGS : option NavItem := List.find (λ n, nav_key n === "settings") NAV.

Definition isActive (pathname href : string) : bool :=
  if href === "/book" then startsWith pathname "/book" else startsWith pathname href.

(** The messages of the rail: open it, fold or unfold it, and keep a click from
    bubbling to it. *)
Inductive spine_msg := Expand | Toggle | StopClick.

(** [Label]: hidden on the collapsed rail. *)
Definition Label (expanded : bool) (text : string) : view spine_msg :=
  El "span" [BoolAttr "hidden" (negb expanded)] [Text text].

Definition SpineLink (expanded : bool) (item : NavItem) (active : bool) : view spine_msg :=
  El "Tooltip" []
    [El "Link" ([Attr "href" (nav_href item)] ++ when active [Attr "aria-current" "page"] ++ [OnClick StopClick])
        [El (match js_get FILL (nav_key item) with Own i => i | _ => "undefined" end) [] [];
         Label expanded (nav_label item)];
     El "TooltipContent" [BoolAttr "hidden" expanded] [Text (nav_label item)]].

(** The label when open, a hairline when collapsed. *)
Definition SectionBreak (expanded : bool) (label : string) : view spine_msg :=
  El "div" []
    [El "span" [BoolAttr "hidden" (negb expanded)] [Text label];
     El "span" [BoolAttr "hidden" expanded] []].

Definition SpineHeader (expanded : bool) : view spine_msg :=
  if negb expanded then
    El "Link" [Attr "href" "/home"; Attr "aria-label" "Home"; OnClick StopClick] [El "Logo" [Attr "variant" "mark"] []]
  else
    El "div" []
      [El "Link" [Attr "href" "/home"; Attr "aria-label" "Home"] [El "Logo" [] []];
       El "button" [OnClick Toggle; Attr "aria-label" "Collapse sidebar"] []].

Definition Notifications (expanded : bool) : view spine_msg :=
  El "Tooltip" []
    [El "DropdownMenu" []
       [El "DropdownMenuTrigger" [OnClick StopClick]
          [El "RiNotification3Fill" [] []; Label expanded "Notifications"];
        El "DropdownMenuContent" []
          [El "DropdownMenuLabel" [] [Text "Notifications"];
           El "p" [] [Text "Notifications aren’t built yet."]]];
     El "TooltipContent" [BoolAttr "hidden" expanded] [Text "Notifications"]].

(** [ProfileMenu]: the identity of the server session, the workspace when it
    has a name, and the two links of the account. *)
Definition profile_name (u : option User) : string :=
  match u with Some u => user_name u ||| user_email u | None => "" end.
Definition profile_email (u : option User) : string :=
  match u with Some u => user_email u | None => "" end.
Definition profile_org (data : option GetSessionResponse) : string :=
  match data with
  | Some d => match session_tenant d with Some t => tenant_name t ?? "" | None => "" end
  | None => ""
  end.
Definition profile_initial `{Locale} (name : string) : string :=
  if truthy name then toUpperCase (first_char (trim name)) else "".

Definition ProfileMenu `{Locale} (expanded : bool) (data : option GetSessionResponse) : view spine_msg :=
  let name := profile_name (from_option session_user None data) in
  let email := profile_email (from_option session_user None data) in
  let orgName := profile_org data in
  let initial := profile_initial name in
  El "DropdownMenu" [BoolAttr "modal" false]
    [El "DropdownMenuTrigger" [OnClick StopClick]
       [El "span" [] [if truthy initial then Text initial else El "RiUser6Fill" [] []];
        El "span" [BoolAttr "hidden" (negb expanded)] [Text name]];
     El "DropdownMenuContent" []
       ([El "div" [] (when (truthy name) [El "p" [] [Text name]] ++
                      when (truthy email) [El "p" [] [Text email]])] ++
        when (truthy orgName)
          [El "DropdownMenuSeparator" [] [];
           El "div" [] [El "p" [] [Text "Workspace"]; El "p" [] [Text orgName]]] ++
        [El "DropdownMenuSeparator" [] [];
         El "DropdownMenuItem" [] [El "Link" [Attr "href" "/account"] [El "RiSettings3Fill" [] []; Text "Account settings"]];
         El "DropdownMenuSeparator" [] [];
         El "DropdownMenuItem" [] [El "Link" [Attr "href" "/signed-out"] [El "RiLogoutBoxRLine" [] []; Text "Sign out"]]])].

Definition AppSpine `{Locale} (pathname : string) (expanded : bool) (data : option GetSessionResponse) : view spine_msg :=
  let link item := SpineLink expanded item (isActive pathname (nav_href item)) in
  El "nav" ([Attr "data-state" (if expanded then "expanded" else "collapsed")] ++
            when (negb expanded) [OnClick Expand] ++
            [Attr "class" (if expanded then "w-60" else "w-14 cursor-e-resize")])
    ([SpineHeader expanded] ++ map link KNOWLEDGE ++
     [SectionBreak expanded "Manage"] ++ map link MANAGE ++
     [Notifications expanded] ++ match SETTINGS with Some s => [link s] | None => [] end ++
     [ProfileMenu expanded data]).

(** What a handler of the rail does: it closes over the state [rendered] it was
    rendered with; [expanded] is the state when it runs. *)
Definition spine_update (rendered expanded : bool) (m : spine_msg) : bool * list effect :=
  match m with
  | Expand => setExpanded true
  | Toggle => toggle rendered
  | StopClick => (expanded, [StopPropagation])
  end.

(** ** The crumb trail *)

(** What a well-formed trail is: rooted at Home, every crumb named, every crumb
    but the leaf a link and the leaf none (a trail of Home alone keeps its
    target), and at most one crumb for the page to name. *)
Definition trail_ok (cs : list Crumb) : Prop :=
  head cs = Some home_crumb ∧
  (length cs ≤ 4)%nat ∧
  Forall (λ c, is_Some (crumb_label c)) cs ∧
  (∀ i c, cs !! i = Some c → (is_Some (crumb_href c) ↔ (S i < length cs)%nat ∨ length cs = 1%nat)) ∧
  (length (List.filter crumb_detail cs) ≤ 1)%nat.

Definition own_section (pathname : string) : bool :=
  match segments pathname with key :: _ => negb (includes object_prototype key) | [] => true end.

(** Decide the href clause of [trail_ok] by running over the trail. *)
Ltac trail_index :=
  let i := fresh "i" in let c := fresh "c" in let H := fresh "H" in
  intros i c H;
  do 5 try (destruct i as [|i]; simpl in H; [try discriminate H|]);
  try discriminate H; injection H as <-; simpl;
  (split; [intros [? ?]; simplify_eq; first [left; lia | right; lia]
          | intros ?; first [by eauto | exfalso; lia]]).

Ltac trail_shape :=
  split_and!; [done | simpl; lia | repeat (apply Forall_cons_2; [simpl; eauto|]); apply Forall_nil_2 | trail_index | simpl; lia].

Lemma js_get_own {A} (m : list (string * A)) k :
  includes object_prototype k = false → js_get m k ≠ Inherited.
Proof. unfold js_get. intros ->. by destruct (List.find _ m). Qed.

Lemma section_of_named key l h :
  includes object_prototype key = false → section_of key = Some (l, h) →
  is_Some l ∧ is_Some h.
Proof.
  intros Hk. unfold section_of.
  pose proof (js_get_own navByKey key Hk). pose proof (js_get_own EXTRA key Hk).
  destruct (js_get navByKey key); [|done|]; [intros; simplify_eq; eauto|].
  destruct (js_get EXTRA key) as [[? ?]| |]; [|done|done]. intros; simplify_eq; eauto.
Qed.

Lemma detail_label_named key :
  includes object_prototype key = false → is_Some (detail_label key).
Proof.
  intros Hk. unfold detail_label. pose proof (js_get_own DETAIL_LABEL key Hk).
  destruct (js_get DETAIL_LABEL key); [eauto|done|eauto].
Qed.

(** C17: for every path whose first segment is not the name of an
    [Object.prototype] member, the trail is rooted at Home, has at most four
    crumbs, names every crumb, links every crumb but the leaf (Home alone keeps
    its target), and leaves at most one crumb for the page to name. *)
Theorem buildCrumbs_trail pathname :
  own_section pathname = true → trail_ok (buildCrumbs pathname).
Proof.
  unfold own_section, buildCrumbs. destruct (segments pathname) as [|key rest];
    [intros _; trail_shape|].
  intros Hk%negb_true_iff. case_bool_decide; [trail_shape|].
  destruct (section_of key) as [[l h]|] eqn:Hsec; [|trail_shape].
  destruct (section_of_named key l h Hk Hsec) as [[l' ->] [h' ->]].
  destruct (detail_label_named key Hk) as [d ->].
  destruct rest as [|b [|c rest]]; rewrite ?js_length_cons;
    repeat match goal with
    | |- context [?x <? ?y] => destruct (Z.ltb_spec x y); try (unfold js_length in *; simpl in *; lia)
    | |- context [bool_decide ?P] => case_bool_decide
    end; simpl; trail_shape.
Qed.

(** ** The published leaf *)

Lemma list_update_map {A B} (f : A → B) (l : list A) i x y :
  l !! i = Some y → f x = f y → map f (<[i := x]> l) = map f l.
Proof.
  revert i. induction l as [|z l IH]; intros [|i] Hy Hf; simpl in *; simplify_eq; try done.
  - by rewrite Hf.
  - f_equal. by apply IH.
Qed.

(** publishing a page name never changes where the crumbs lead nor which
    crumb is the detail one; exactly the detail crumb takes the (non-empty)
    name, every other label stays. *)
Theorem leaf_names_detail_crumb pathname label :
  let cs := buildCrumbs pathname in
  let shown := with_leaf cs (Some label) in
  map crumb_href shown = map crumb_href cs ∧
  map crumb_detail shown = map crumb_detail cs ∧
  (∀ i c, shown !! i = Some c →
     crumb_label c = (if truthy label && (Z.of_nat i =? findIndex crumb_detail cs)
                      then Some label else cs !! i ≫= crumb_label)).
Proof.
  intros cs shown. subst shown. unfold with_leaf. simpl.
  destruct (truthy label); simpl; [|split_and!; [done..|]; by intros i c ->].
  destruct (Z.leb_spec 0 (findIndex crumb_detail cs)) as [Hge|Hlt]; simpl.
  - destruct (findIndex_at crumb_detail cs Hge) as (d & Hd & Hdet). rewrite Hd.
    assert (Hd' : cs !! Z.to_nat (findIndex crumb_detail cs) = Some d).
    { unfold js_at in Hd. by destruct (Z.ltb_spec (findIndex crumb_detail cs) 0); [lia|]. }
    split_and!; [by eapply list_update_map.. |].
    intros i c. rewrite list_lookup_insert_Some.
    intros [(<- & <- & _)|[Hne Hc]]; simpl.
    + rewrite Z2Nat.id by done. by rewrite Z.eqb_refl.
    + destruct (Z.eqb_spec (Z.of_nat i) (findIndex crumb_detail cs)); [lia|]. by rewrite Hc.
  - split_and!; [done..|]. intros i c Hc.
    destruct (Z.eqb_spec (Z.of_nat i) (findIndex crumb_detail cs)); [lia|]. by rewrite Hc.
Qed.

(** The label the page on screen wants shown after a sequence of events. *)
Definition wanted_leaf (o : option string) (e : leaf_event) : option string :=
  match e with Mount l | Relabel l => l | Unmount => None | Subscribe _ | Unsubscribe _ => o end.

Definition leaf_run (st : LeafStore) (es : list leaf_event) : LeafStore := fold_left leaf_step es st.

Lemma setLeaf_leaf l st : leaf (setLeaf l st) = l.
Proof. unfold setLeaf. case_bool_decide; done. Qed.

Lemma leaf_step_leaf st e : leaf (leaf_step st e) = wanted_leaf (leaf st) e.
Proof.
  destruct e; simpl; unfold publish_effect, publish_cleanup; rewrite ?setLeaf_leaf; try done.
  unfold subscribe. by destruct (includes _ _).
Qed.

Lemma setLeaf_listeners l st : listeners (setLeaf l st) = listeners st.
Proof. unfold setLeaf. case_bool_decide; done. Qed.

Lemma leaf_step_NoDup st e : NoDup (listeners st) → NoDup (listeners (leaf_step st e)).
Proof.
  destruct e; simpl; unfold publish_effect, publish_cleanup;
    rewrite ?setLeaf_listeners; auto with hive.
  unfold subscribe. destruct (includes (listeners st) cb) eqn:Hi; [done|]. simpl. intros Hnd.
  apply NoDup_app. split_and!; [done| |by apply NoDup_singleton].
  intros x Hx ->%list_elem_of_singleton. apply includes_not_In in Hi. by apply Hi, list_elem_of_In.
Qed.

(** Notifications carried by one event: nobody when the label is unchanged,
    every subscriber otherwise. *)
Lemma setLeaf_notifies l st :
  notified (setLeaf l st) = notified st ++ (if bool_decide (leaf st = l) then [] else listeners st).
Proof. unfold setLeaf. case_bool_decide; simpl; [by rewrite app_nil_r|done]. Qed.

Lemma leaf_step_notifies st e cb :
  In cb (listeners st) → leaf (leaf_step st e) ≠ leaf st →
  ∃ new, notified (leaf_step st e) = notified st ++ new ∧ In cb new.
Proof.
  intros Hcb. destruct e; simpl; unfold publish_effect, publish_cleanup; rewrite ?setLeaf_leaf;
    intros Hne.
  - rewrite setLeaf_notifies, bool_decide_eq_false_2 by congruence. eauto.
  - rewrite !setLeaf_notifies, setLeaf_leaf, setLeaf_listeners.
    destruct (decide (leaf st = None)) as [Hn|Hn].
    + rewrite (bool_decide_eq_true_2 _ Hn), app_nil_r.
      rewrite bool_decide_eq_false_2 by congruence. eauto.
    + rewrite (bool_decide_eq_false_2 _ Hn). eexists. rewrite <-(assoc_L (++)).
      split; [done|]. apply in_app_iff. by left.
  - rewrite setLeaf_notifies, bool_decide_eq_false_2 by congruence. eauto.
  - unfold subscribe in Hne. by destruct (includes (listeners st) cb0).
  - done.
Qed.

(** after any sequence of mounts, relabels, unmounts and (un)subscriptions
    the store holds the label the page on screen last published (nothing after
    an unmount), no callback is subscribed twice, and an event that changes the
    label notifies every subscriber. *)
Theorem leaf_store_follows_page es :
  let st := leaf_run leaf_init es in
  leaf st = fold_left wanted_leaf es None ∧ NoDup (listeners st) ∧
  (∀ e cb, In cb (listeners st) → leaf (leaf_step st e) ≠ leaf st →
     ∃ new, notified (leaf_step st e) = notified st ++ new ∧ In cb new).
Proof.
  intros st. split_and!; [| |intros; by apply leaf_step_notifies].
  - subst st. change None with (leaf leaf_init) at 1. generalize leaf_init. unfold leaf_run.
    induction es as [|e es IH]; intros s; simpl; [done|]. rewrite IH. by rewrite leaf_step_leaf.
  - subst st. assert (H : NoDup (listeners leaf_init)) by constructor. revert H.
    generalize leaf_init. unfold leaf_run. induction es as [|e es IH]; intros s Hs; simpl; [done|].
    apply IH. by apply leaf_step_NoDup.
Qed.

(** ** The active item *)

Fixpoint pairwise {A} (R : A → A → bool) (l : list A) : bool :=
  match l with [] => true | x :: l' => forallb (R x) l' && pairwise R l' end.

Lemma prefix_comparable p q s :
  String.prefix p s = true → String.prefix q s = true →
  String.prefix p q = true ∨ String.prefix q p = true.
Proof.
  revert q s. induction p as [|a p IH]; intros q s Hp Hq; [left; by destruct q|].
  destruct q as [|b q]; [by right|]. destruct s as [|c s]; simpl in *; [done|].
  destruct (ascii_dec a c) as [->|]; [|done]. destruct (ascii_dec b c) as [->|]; [|done].
  destruct (ascii_dec c c); [|done]. by apply (IH q s).
Qed.

Lemma antichain_filter {A} (f : A → string) (l : list A) s :
  pairwise (λ x y, negb (String.prefix (f x) (f y)) && negb (String.prefix (f y) (f x))) l = true →
  (length (List.filter (λ x, String.prefix (f x) s) l) ≤ 1)%nat.
Proof.
  induction l as [|x l IH]; simpl; [lia|]. intros [Hx Hl]%andb_true_iff. specialize (IH Hl).
  destruct (String.prefix (f x) s) eqn:Hp; [|done]. simpl.
  enough (List.filter (λ y, String.prefix (f y) s) l = []) as -> by (simpl; lia).
  rewrite forallb_forall in Hx. apply find_none_filter.
  destruct (List.find _ l) as [y|] eqn:Hf; [|done]. apply find_some in Hf as [Hin Hy].
  destruct (prefix_comparable (f x) (f y) s Hp Hy) as [H|H];
    specialize (Hx y Hin); rewrite H in Hx; by rewrite ?andb_false_r in Hx.
Qed.

(** at most one navigation item is active for any path, and every item is
    active on its own route. *)
Theorem at_most_one_active pathname :
  (length (List.filter (λ n, isActive pathname (nav_href n)) NAV) ≤ 1)%nat ∧
  ∀ n, In n NAV → isActive (nav_href n) (nav_href n) = true.
Proof.
  split.
  - rewrite (filter_ext_In _ (λ n, String.prefix (nav_href n) pathname)).
    + apply antichain_filter. by vm_compute.
    + intros n _. unfold isActive, startsWith. case_bool_decide as H; [by rewrite H|done].
  - assert (H : forallb (λ n, isActive (nav_href n) (nav_href n)) NAV = true) by by vm_compute.
    by rewrite forallb_forall in H.
Qed.

(** ** The expand state survives a reload *)

Definition no_char (c : ascii) (s : string) : bool := negb (includes (String.list_ascii_of_string s) c).

(** What a browser guarantees of the pairs it serializes. *)
Definition cookie_ok (e : string * string) : bool :=
  no_char "=" e.1 && no_char ";" e.1 && no_char ";" e.2.

Lemma no_char_cons c a s : no_char c (String a s) = true ↔ a ≠ c ∧ no_char c s = true.
Proof.
  unfold no_char. simpl. rewrite negb_orb, andb_true_iff, !negb_true_iff, bool_decide_eq_false. done.
Qed.

Lemma no_char_app c s t : no_char c (s +:+ t) = no_char c s && no_char c t.
Proof.
  apply eq_bool_prop_intro. rewrite andb_True, !Is_true_true.
  induction s as [|a s IH]; [naive_solver|].
  rewrite string_app_cons, !no_char_cons, IH. tauto.
Qed.

Lemma drop_prefix_Some p s r : drop_prefix p s = Some r ↔ s = p +:+ r.
Proof.
  revert s. induction p as [|a p IH]; intros s; [simpl; rewrite string_app_nil; naive_solver|].
  rewrite string_app_cons. destruct s as [|b s]; simpl; [naive_solver|].
  case_bool_decide; rewrite ?IH; naive_solver.
Qed.

Lemma take_until_stop c s t : no_char c s = true → take_until c (s +:+ String c t) = s.
Proof.
  induction s as [|a s IH]; intros H.
  - rewrite string_app_nil. simpl. by rewrite bool_decide_eq_true_2.
  - apply no_char_cons in H as [Ha Hs]. rewrite string_app_cons. simpl.
    rewrite bool_decide_eq_false_2 by done. by rewrite IH.
Qed.

Lemma take_until_all c s : no_char c s = true → take_until c s = s.
Proof.
  induction s as [|a s IH]; intros H; [done|]. apply no_char_cons in H as [Ha Hs]. simpl.
  rewrite bool_decide_eq_false_2 by done. by rewrite IH.
Qed.

(** The text after a pair: nothing, or the separator and the rest of the jar. *)
Definition tail_of (rest : option string) : string :=
  match rest with Some t => String ";" (String " " t) | None => "" end.

Lemma match_here_own w rest :
  no_char ";" w = true → w ≠ "" →
  match_here ("spine_expanded" +:+ "=" +:+ w +:+ tail_of rest) = Some w.
Proof.
  intros Hw Hne. unfold match_here.
  replace (drop_prefix _ _) with (Some (w +:+ tail_of rest)) by (symmetry; by apply drop_prefix_Some).
  assert (take_until ";" (w +:+ tail_of rest) = w) as ->.
  { destruct rest as [t|]; simpl; [by apply take_until_stop|].
    rewrite string_app_empty_r. by apply take_until_all. }
  by rewrite (proj2 (truthy_true w) Hne).
Qed.

Lemma match_here_other n x :
  no_char "=" n = true → n ≠ "spine_expanded" → match_here (n +:+ "=" +:+ x) = None.
Proof.
  intros Hn Hne. unfold match_here. destruct (drop_prefix _ _) as [r|] eqn:Hd; [|done].
  apply drop_prefix_Some in Hd. exfalso. apply Hne.
  change ("spine_expanded=" +:+ r) with ("spine_expanded" +:+ String "=" r) in Hd.
  change ("=" +:+ x) with (String "=" x) in Hd.
  apply (f_equal (split "=")) in Hd. apply negb_true_iff in Hn.
  rewrite !split_app_sep in Hd by done. by simplify_eq.
Qed.

Lemma match_later_cons_other a s : a ≠ ";"%char → match_later (String a s) = match_later s.
Proof. intros H. simpl. by rewrite bool_decide_eq_false_2 by congruence. Qed.

Lemma match_later_skip u t :
  no_char ";" u = true → match_later (u +:+ tail_of (Some t)) = match_cookie t.
Proof.
  induction u as [|a u IH]; intros H.
  - rewrite string_app_nil. unfold tail_of, match_cookie.
    rewrite <-(match_later_cons_other " " t) by done. reflexivity.
  - apply no_char_cons in H as [Ha Hu]. rewrite string_app_cons, match_later_cons_other by done.
    by apply IH.
Qed.

(** [document.cookie] one pair at a time. *)
Definition rest_of (jar : list (string * string)) : option string :=
  match jar with [] => None | _ => Some (cookie_string jar) end.

Lemma cookie_string_cons n w jar :
  cookie_string ((n, w) :: jar) = n +:+ "=" +:+ w +:+ tail_of (rest_of jar).
Proof.
  destruct jar as [|e jar]; unfold cookie_string; simpl.
  - by rewrite string_app_empty_r.
  - by rewrite !string_app_assoc.
Qed.

Lemma match_cookie_jar jar w :
  Forall (λ e, cookie_ok e = true) jar → w ≠ "" →
  List.find (λ e, e.1 === "spine_expanded") jar = Some ("spine_expanded", w) →
  match_cookie (cookie_string jar) = Some w.
Proof.
  intros Hok Hw. induction Hok as [|[n x] jar Hx Hok IH]; simpl; [done|].
  unfold cookie_ok in Hx. simpl in Hx. apply andb_true_iff in Hx as [Hx Hx2].
  apply andb_true_iff in Hx as [Hn Hn2]. rewrite cookie_string_cons. unfold match_cookie.
  case_bool_decide as Hname; [intros [= -> ->]; by rewrite match_here_own|].
  intros Hf. rewrite match_here_other by done. destruct jar as [|e jar]; [done|]. simpl rest_of.
  replace (n +:+ "=" +:+ x +:+ tail_of (Some (cookie_string (e :: jar))))
    with ((n +:+ "=" +:+ x) +:+ tail_of (Some (cookie_string (e :: jar))))
    by (by rewrite !string_app_assoc).
  rewrite match_later_skip; [by apply IH|].
  rewrite !no_char_app. by rewrite Hn2, Hx2.
Qed.

Lemma find_put_cookie jar n v :
  List.find (λ e, e.1 === n) (put_cookie jar n v) = Some (n, v).
Proof.
  unfold put_cookie. destruct (existsb _ jar) eqn:He.
  - induction jar as [|[a b] jar IH]; simpl in *; [done|].
    case_bool_decide; simpl; [by rewrite bool_decide_eq_true_2|].
    rewrite bool_decide_eq_false_2 by done. by apply IH.
  - induction jar as [|[a b] jar IH]; simpl in *; [by rewrite bool_decide_eq_true_2|].
    case_bool_decide; [done|]. by apply IH.
Qed.

Lemma put_cookie_ok jar n v :
  cookie_ok (n, v) = true → Forall (λ e, cookie_ok e = true) jar →
  Forall (λ e, cookie_ok e = true) (put_cookie jar n v).
Proof.
  intros Hnv Hok. unfold put_cookie. destruct (existsb _ jar).
  - induction Hok as [|[a b] jar Ha Hok IH]; simpl; [constructor|].
    constructor; [by case_bool_decide|done].
  - apply Forall_app. split; [done|]. by constructor.
Qed.

(** The assignment of [setExpanded] parses to the pair it means. *)
Lemma write_expanded jar v :
  apply_cookies jar (setExpanded v).2 = put_cookie jar "spine_expanded" (bool_str v).
Proof. by destruct v. Qed.

(** whatever other cookies the browser holds, the expand state written by
    [setExpanded] is the state restored from [document.cookie] on the next load. *)
Theorem spine_state_survives_reload jar v fresh :
  Forall (λ e, cookie_ok e = true) jar →
  restoreExpanded (cookie_string (apply_cookies jar (setExpanded v).2)) fresh = v.
Proof.
  intros Hok. unfold restoreExpanded. rewrite write_expanded.
  rewrite (match_cookie_jar _ (bool_str v)).
  - by destruct v.
  - by apply put_cookie_ok; [destruct v|].
  - by destruct v.
  - apply find_put_cookie.
Qed.

Lemma jar_stays_ok jar v :
  Forall (λ e, cookie_ok e = true) jar →
  Forall (λ e, cookie_ok e = true) (apply_cookies jar (setExpanded v).2).
Proof. intros Hok. rewrite write_expanded. by apply put_cookie_ok; [destruct v|]. Qed.

Lemma spine_state_survives_reload_witness :
  restoreExpanded
    (cookie_string (apply_cookies [("theme", "dark"); ("spine_expanded", "false"); ("x_spine_expanded", "1")]
                                  (setExpanded true).2)) false = true.
Proof. apply spine_state_survives_reload. repeat constructor. Defined.

Lemma buildCrumbs_trail_witness : trail_ok (buildCrumbs "/sources/c1/manage").
Proof. apply buildCrumbs_trail. reflexivity. Defined.

Example manage_trail :
  map crumb_label (with_leaf (buildCrumbs "/sources/c1/manage") (Some "GitHub · acme")) =
    [Some "Home"; Some "Sources"; Some "GitHub · acme"; Some "Manage"].
Proof. reflexivity. Qed.
