(* ===== verification/Session.v ===== *)
(** * Sessions: tokens, renewal, and the gates

    Models [web/lib/session.ts], [web/lib/auth.ts], [web/lib/api/client.ts],
    [web/components/providers.tsx], [web/components/app/app-gate.tsx],
    [web/app/page.tsx], [web/app/callback/page.tsx] and
    [web/app/signed-out/page.tsx]. The transport's interceptors run
    concurrently: their interleavings are the message sequences of the machine
    [TransportState]. [oidc-client-ts] and the Connect client are outside the
    repository: what they answer arrives as messages. *)
From stdpp Require Import base gmap list strings.
From Stdlib Require Import ZArith Lia.
From S2P Require Import Prelude JsString Proto View.
#[local] Open Scope string_scope.
#[local] Open Scope list_scope.
#[local] Open Scope Z_scope.

(** ** [lib/session.ts] *)

(** What [useQuery] returns. *)
Record query (A : Type) := mkQuery {
  q_data : option A; q_isPending : bool; q_error : option js_error }.
Arguments mkQuery {A} _ _ _.
Arguments q_data {A} _.
Arguments q_isPending {A} _.
Arguments q_error {A} _.

(** The documented statuses of a query: pending has neither data nor error, a
    settled one has at least one of them (an errored refetch keeps its data). *)
Definition wf_query {A} (q : query A) : Prop :=
  if q_isPending q then q_data q = None ∧ q_error q = None
  else is_Some (q_data q) ∨ is_Some (q_error q).

Definition isAuthError (error : js_error) : bool :=
  match error with
  | ConnectErr code _ _ => (code === Unauthenticated) || (code === PermissionDenied)
  | OtherErr _ => false
  end.

(** ** [components/providers.tsx]: the retry rule of the query client *)
Definition staleTime : Z := 30000.
Definition query_retry (failureCount : Z) (error : js_error) : bool :=
  negb (isAuthError error) && (failureCount <? 3).

(** ** [lib/auth.ts] *)

Record Env := mkEnv { env_issuer : option string; env_clientId : option string;
                      env_projectId : option string; env_apiBase : option string }.

Record OidcSettings := mkOidc {
  authority : string; client_id : string; redirect_uri : string;
  post_logout_redirect_uri : string; response_type : string; scope : string;
  automaticSilentRenew : bool; silent_redirect_uri : string }.

Definition requireEnv (name : string) (value : option string) : string + string :=
  match value with
  | Some v => if truthy v then inr v else inl ("missing required env " +:+ name)
  | None => inl ("missing required env " +:+ name)
  end.

Definition scopes (projectId : option string) : list string :=
  ["openid"; "profile"; "email"; "urn:zitadel:iam:user:resourceowner"] ++
  when (otruthy projectId) ["urn:zitadel:iam:org:project:id:" +:+ (projectId ?? "") +:+ ":aud"].

(** The memoized manager: the first call builds it or throws. *)
Definition userManager (env : Env) (origin : string) (manager : option OidcSettings)
    : (string + OidcSettings) * option OidcSettings :=
  match manager with
  | Some m => (inr m, manager)
  | None =>
      match requireEnv "NEXT_PUBLIC_OIDC_ISSUER" (env_issuer env) with
      | inl e => (inl e, None)
      | inr issuer =>
          match requireEnv "NEXT_PUBLIC_OIDC_CLIENT_ID" (env_clientId env) with
          | inl e => (inl e, None)
          | inr clientId =>
              let m := mkOidc issuer clientId (origin +:+ "/callback") (origin +:+ "/") "code"
                         (join " " (scopes (env_projectId env))) true (origin +:+ "/silent-renew") in
              (inr m, Some m)
          end
      end
  end.

(** The stored OIDC user, and the token the interceptor attaches. *)
Record OidcUser := mkOidcUser { expired : bool; access_token : string }.

Definition accessToken (u : option OidcUser) : option string :=
  match u with
  | Some u => if expired u then None else Some (access_token u)
  | None => None
  end.

Definition API_BASE (env : Env) : string := match env_apiBase env with Some b => b ||| "" | None => "" end.

(** ** [lib/api/client.ts] *)

(** The [auth] interceptor: the header of an attempt. *)
Definition auth_header (u : option OidcUser) : option string :=
  match accessToken u with
  | Some t => if truthy t then Some ("Bearer " +:+ t) else None
  | None => None
  end.

Definition renewCooldownMs : Z := 10000.

(** Where a request stands inside [renewOnce]: its first attempt is on the wire;
    it awaits the renewal (holding the error to rethrow); its retry is on the wire. *)
Inductive phase := FirstTry | AwaitingRenewal (err : js_error) | Retry | Settled.
#[export] Instance phase_eq_dec : EqDecision phase.
Proof. solve_decision. Defined.

Record TransportState := mkTransport {
  clock : Z;                      (* Date.now() *)
  renewing : bool;                (* the shared promise is pending *)
  lastRenewMs : Z;
  user : option OidcUser;         (* the user store *)
  requests : gmap nat phase
}.

Inductive transport_msg :=
| Tick (dt : N)                         (* time passes *)
| Send (id : nat)                       (* a call enters the interceptors *)
| Respond (id : nat) (r : option js_error)   (* the server answers: None = success *)
| StoreUser (u : option OidcUser)       (* the library's background renewal, another tab *)
| RenewDone (ok : bool) (u : option OidcUser).   (* signinSilent settles; the store after it *)

Inductive transport_effect :=
| Attempt (id : nat) (header : option string)
| Resolve (id : nat)
| Reject (id : nat) (err : js_error)
| RenewStarted (at_ms : Z)
| RenewFinished (at_ms : Z).

Definition set_phase (id : nat) (p : phase) (s : TransportState) : TransportState :=
  mkTransport (clock s) (renewing s) (lastRenewMs s) (user s) (<[id := p]> (requests s)).

(** [renewSession], called by a request whose first attempt came back
    Unauthenticated with [err]: on cooldown it throws and [renewOnce] rethrows
    [err]; otherwise the request starts or joins the shared renewal. *)
Definition renewSession (id : nat) (err : js_error) (s : TransportState)
    : TransportState * list transport_effect :=
  if clock s - lastRenewMs s <? renewCooldownMs then (set_phase id Settled s, [Reject id err])
  else if renewing s then (set_phase id (AwaitingRenewal err) s, [])
  else (set_phase id (AwaitingRenewal err)
          (mkTransport (clock s) true (lastRenewMs s) (user s) (requests s)),
        [RenewStarted (clock s)]).

Definition is_unauthenticated (e : js_error) : bool :=
  match e with ConnectErr code _ _ => code === Unauthenticated | OtherErr _ => false end.

(** What a waiter does when the renewal settles. *)
Definition wake (ok : bool) (p : phase) : phase :=
  match p with AwaitingRenewal _ => if ok then Retry else Settled | _ => p end.
Definition wake_effect (ok : bool) (u : option OidcUser) (e : nat * phase) : list transport_effect :=
  match e.2 with
  | AwaitingRenewal err => if ok then [Attempt e.1 (auth_header u)] else [Reject e.1 err]
  | _ => []
  end.

Definition transport_step (s : TransportState) (m : transport_msg)
    : TransportState * list transport_effect :=
  match m with
  | Tick dt => (mkTransport (clock s + Z.of_N dt) (renewing s) (lastRenewMs s) (user s) (requests s), [])
  | Send id =>
      match requests s !! id with
      | None => (set_phase id FirstTry s, [Attempt id (auth_header (user s))])
      | Some _ => (s, [])
      end
  | Respond id r =>
      match requests s !! id, r with
      | Some FirstTry, None => (set_phase id Settled s, [Resolve id])
      | Some FirstTry, Some err =>
          if is_unauthenticated err then renewSession id err s
          else (set_phase id Settled s, [Reject id err])
      | Some Retry, None => (set_phase id Settled s, [Resolve id])
      | Some Retry, Some err => (set_phase id Settled s, [Reject id err])
      | _, _ => (s, [])
      end
  | StoreUser u => (mkTransport (clock s) (renewing s) (lastRenewMs s) u (requests s), [])
  | RenewDone ok u =>
      if renewing s then
        (mkTransport (clock s) false (clock s) u (wake ok <$> requests s),
         RenewFinished (clock s) ::
         concat (map (wake_effect ok u) (map_to_list (requests s))))
      else (s, [])
  end.

#[export] Instance transport_machine : Machine TransportState transport_msg transport_effect :=
  transport_step.

(** The module state before the first call; the clock is past the first cooldown. *)
Definition transport_init (now : Z) (u : option OidcUser) : TransportState := mkTransport now false 0 u ∅.

(** ** [components/app/app-gate.tsx] *)

Definition onboarded (d : option GetSessionResponse) : bool :=
  match d with
  | Some d => match session_tenant d with Some t => tenant_onboarded t | None => false end
  | None => false
  end.

Definition gate_effect (q : query GetSessionResponse) : list effect :=
  if q_isPending q then []
  else match q_error q with
       | Some e => if isAuthError e then [RemoveUser; RouterReplace "/"] else []
       | None => match q_data q with
                 | Some _ => if onboarded (q_data q) then [] else [RouterReplace "/onboarding"]
                 | None => []
                 end
       end.

Inductive gate_msg (M : Type) := TryAgain | Child (m : M).
Arguments TryAgain {M}.
Arguments Child {M} m.

Definition LoadingScreen {M} : view M := El "LoadingScreen" [] [].

Definition AppGate {M} (q : query GetSessionResponse) (children : view (gate_msg M)) : view (gate_msg M) :=
  if match q_error q with Some e => negb (isAuthError e) | None => false end then
    El "div" [Attr "role" "alert"; Attr "aria-live" "polite"]
      [El "p" [] [Text "Couldn’t reach the server."];
       El "button" [OnClick TryAgain] [Text "Try again"]]
  else if q_isPending q || negb (onboarded (q_data q)) then LoadingScreen
  else children.

(** ** The public entry and the OIDC callback *)

Inductive home_msg := UserChecked (u : option OidcUser) | UserCheckFailed | SignIn.

(** [Home]: the state is [checked]. *)
Definition home_mount : list effect := [Track page_view [("path", "/")]].
Definition home_update (checked : bool) (m : home_msg) : bool * list effect :=
  match m with
  | UserChecked (Some u) => if negb (expired u) then (checked, [RouterReplace "/book"]) else (true, [])
  | UserChecked None => (true, [])
  | UserCheckFailed => (true, [])
  | SignIn => (checked, [Track login_start []; SigninRedirect])
  end.
Definition Home (checked : bool) : view home_msg :=
  if negb checked then LoadingScreen
  else El "main" []
         [El "Logo" [] []; El "h1" [] [Text "Sign in to Hivebook"];
          El "p" [] [Text "Your company’s brain."];
          El "Button" [OnClick SignIn] [Text "Continue with ZITADEL"]].

(** [Callback]: the error shown and the [ran] latch; the effect may run twice. *)
Inductive callback_msg := RunEffect | ExchangeOk | ExchangeFailed (msg : string).
Definition callback_update (s : option string * bool) (m : callback_msg)
    : (option string * bool) * list effect :=
  let '(error, ran) := s in
  match m with
  | RunEffect => if ran then (s, []) else ((error, true), [SigninRedirectCallback])
  | ExchangeOk => (s, [Track login_success []; LocationAssign "/"])
  | ExchangeFailed msg => ((Some msg, ran), [Track login_error [("message", msg)]])
  end.
Definition Callback {M} (error : option string) : view M :=
  El "main" []
    [El "Logo" [] [];
     if otruthy error
     then El "p" [Attr "role" "alert"] [Text "Sign-in failed: "; Text (error ?? "")]
     else El "p" [] [Text "Completing sign-in…"]].

(** [SilentRenew] completes the hidden-iframe exchange and shows nothing. *)
Definition silent_renew_mount : list effect := [SigninSilentCallback].

(** [SignedOut]: the mount effect, and the fallback when the redirect fails. *)
Definition signed_out_mount : list effect := [Track logout []; SignoutRedirect].
Definition signed_out_failed : list effect := [LocationAssign "/"].

(** ** Renewal is single-flight, rate-limited and loses no waiter *)

Definition started (fx : list transport_effect) : nat :=
  length (List.filter (λ e, match e with RenewStarted _ => true | _ => false end) fx).
Definition finished (fx : list transport_effect) : nat :=
  length (List.filter (λ e, match e with RenewFinished _ => true | _ => false end) fx).

(** How often a request was put on the wire. *)
Definition attempts (id : nat) (fx : list transport_effect) : nat :=
  length (List.filter (λ e, match e with Attempt i _ => i === id | _ => false end) fx).

Definition phase_attempts (p : option phase) : nat :=
  match p with None => 0 | Some FirstTry => 1 | Some (AwaitingRenewal _) => 1 | Some Retry => 2 | Some Settled => 2 end.

Lemma wake_effects_no_renewal ok u l :
  started (concat (map (wake_effect ok u) l)) = 0%nat ∧ finished (concat (map (wake_effect ok u) l)) = 0%nat.
Proof.
  unfold started, finished. induction l as [|[i p] l [IH1 IH2]]; simpl; [done|].
  rewrite !List.filter_app, !length_app, IH1, IH2.
  destruct p; simpl; [done| |done|done]. by destruct ok.
Qed.

Lemma started_app a b : started (a ++ b) = (started a + started b)%nat.
Proof. unfold started. by rewrite List.filter_app, length_app. Qed.
Lemma finished_app a b : finished (a ++ b) = (finished a + finished b)%nat.
Proof. unfold finished. by rewrite List.filter_app, length_app. Qed.
Lemma attempts_app id a b : attempts id (a ++ b) = (attempts id a + attempts id b)%nat.
Proof. unfold attempts. by rewrite List.filter_app, length_app. Qed.

Definition in_flight (s : TransportState) : nat := if renewing s then 1 else 0.

Lemma step_balance s m :
  (in_flight s + started (transport_step s m).2 =
   in_flight (transport_step s m).1 + finished (transport_step s m).2)%nat.
Proof.
  unfold in_flight, started, finished. destruct m as [dt|id|id r|u|ok u]; simpl; [lia| | |lia|].
  - destruct (requests s !! id); simpl; lia.
  - destruct (requests s !! id) as [[]|], r as [e|]; simpl; try lia.
    destruct (is_unauthenticated e); simpl; [|lia].
    unfold renewSession. destruct (_ <? _); simpl; [lia|].
    destruct (renewing s) eqn:Hr; simpl; rewrite ?Hr; simpl; lia.
  - destruct (renewing s) eqn:Hr; simpl; [|rewrite Hr; simpl; lia].
    destruct (wake_effects_no_renewal ok u (map_to_list (requests s))) as [H1 H2].
    unfold started, finished in *. simpl. rewrite H1, H2. simpl. lia.
Qed.

Lemma run_balance s ms :
  (in_flight s + started (run s ms).2 = in_flight (run s ms).1 + finished (run s ms).2)%nat.
Proof.
  revert s. induction ms as [|m ms IH]; intros s; simpl; [done|].
  pose proof (step_balance s m) as H1. unfold update, transport_machine.
  destruct (transport_step s m) as [s1 e1]. specialize (IH s1).
  destruct (run s1 ms) as [s2 e2]. simpl in *. rewrite started_app, finished_app. lia.
Qed.

(** Nobody waits while no renewal is pending. *)
Definition no_lost_waiter (s : TransportState) : Prop :=
  renewing s = false → ∀ id err, requests s !! id ≠ Some (AwaitingRenewal err).

Lemma step_no_lost_waiter s m : no_lost_waiter s → no_lost_waiter (transport_step s m).1.
Proof.
  unfold no_lost_waiter. intros Hs.
  assert (Hset : ∀ id p, (∀ err, p ≠ AwaitingRenewal err) → no_lost_waiter (set_phase id p s)).
  { intros id p Hp Hr id' err'. simpl in *. rewrite lookup_insert. case_decide; [|by apply Hs].
    intros [=]. by eapply Hp. }
  destruct m as [dt|id|id r|u|ok u]; simpl; [done| | |done|].
  - destruct (requests s !! id); simpl; [done|]. apply Hset. by intros.
  - destruct (requests s !! id) as [[]|], r as [e|]; simpl; try done; try (apply Hset; by intros).
    destruct (is_unauthenticated e); [|apply Hset; by intros].
    unfold renewSession. destruct (_ <? _); [apply Hset; by intros|].
    destruct (renewing s) eqn:Hr; simpl; congruence.
  - destruct (renewing s) eqn:Hr; simpl; [|by rewrite Hr in *].
    intros _ id err. rewrite lookup_fmap. destruct (requests s !! id) as [[]|]; simpl; [done| |done|done|done].
    by destruct ok.
Qed.

(** The next start comes at least [renewCooldownMs] after the last finish; the
    effects are read left to right with the time of the last finish so far. *)
Fixpoint spaced (last : Z) (fx : list transport_effect) : Prop :=
  match fx with
  | [] => True
  | RenewStarted t :: fx' => renewCooldownMs ≤ t - last ∧ spaced last fx'
  | RenewFinished t :: fx' => spaced t fx'
  | _ :: fx' => spaced last fx'
  end.

Fixpoint last_finish (last : Z) (fx : list transport_effect) : Z :=
  match fx with
  | [] => last
  | RenewFinished t :: fx' => last_finish t fx'
  | _ :: fx' => last_finish last fx'
  end.

Lemma spaced_app last a b : spaced last (a ++ b) ↔ spaced last a ∧ spaced (last_finish last a) b.
Proof.
  revert last. induction a as [|x a IH]; intros last; simpl; [tauto|].
  destruct x; rewrite IH; tauto.
Qed.

Lemma wake_effects_spaced ok u l last :
  spaced last (concat (map (wake_effect ok u) l)) ∧ last_finish last (concat (map (wake_effect ok u) l)) = last.
Proof.
  induction l as [|[i p] l [IH1 IH2]]; simpl; [done|].
  destruct p; simpl; [done| |done|done]. destruct ok; simpl; done.
Qed.

Lemma step_spaced s m :
  spaced (lastRenewMs s) (transport_step s m).2 ∧
  last_finish (lastRenewMs s) (transport_step s m).2 = lastRenewMs (transport_step s m).1.
Proof.
  destruct m as [dt|id|id r|u|ok u]; simpl; [done| | |done|].
  - by destruct (requests s !! id).
  - destruct (requests s !! id) as [[]|], r as [e|]; simpl; try done.
    destruct (is_unauthenticated e); [|done]. unfold renewSession.
    destruct (Z.ltb_spec (clock s - lastRenewMs s) renewCooldownMs); [done|].
    destruct (renewing s); simpl; [done|]. split; [split; [lia|done]|done].
  - destruct (renewing s); simpl; [|done]. apply wake_effects_spaced.
Qed.

Lemma run_spaced s ms : spaced (lastRenewMs s) (run s ms).2.
Proof.
  revert s. induction ms as [|m ms IH]; intros s; simpl; [done|].
  pose proof (step_spaced s m) as [H1 H2]. unfold update, transport_machine.
  destruct (transport_step s m) as [s1 e1]. specialize (IH s1).
  destruct (run s1 ms) as [s2 e2]. simpl in *. apply spaced_app. split; [done|]. by rewrite H2.
Qed.

(** C1: in every interleaving of calls, answers, time and renewals, at most one
    silent renewal is in flight; two renewals are at least ten seconds apart
    (the next start against the previous finish); and no request is left
    waiting for a renewal that is not running. *)
Theorem renewal_single_flight now u ms :
  let s := (run (transport_init now u) ms).1 in
  let fx := (run (transport_init now u) ms).2 in
  started fx = (finished fx + in_flight s)%nat ∧ (in_flight s ≤ 1)%nat ∧
  spaced 0 fx ∧ no_lost_waiter s.
Proof.
  intros s fx. split_and!.
  - pose proof (run_balance (transport_init now u) ms) as H. subst s fx. simpl in *. lia.
  - unfold in_flight. destruct (renewing s); lia.
  - apply (run_spaced (transport_init now u)).
  - subst s. apply run_invariant; [intros ? ?; apply step_no_lost_waiter|].
    intros _ id err. simpl. by rewrite lookup_empty.
Qed.

(** ** A call is tried at most twice and fails with its own error *)

Lemma wake_attempts ok u id (l : list (nat * phase)) :
  NoDup l.*1 →
  (attempts id (concat (map (wake_effect ok u) l)) ≤ 1)%nat ∧
  ((∀ err, (id, AwaitingRenewal err) ∉ l) → attempts id (concat (map (wake_effect ok u) l)) = 0%nat).
Proof.
  induction l as [|[i p] l IH]; simpl; [split; [unfold attempts; simpl; lia|done]|].
  intros [Hi Hnd]%NoDup_cons. destruct (IH Hnd) as [IH1 IH2]. rewrite attempts_app.
  assert (Hhead : (attempts id (wake_effect ok u (i, p)) ≤ if decide (i = id) then 1 else 0)%nat).
  { unfold wake_effect, attempts; simpl. destruct p, ok; simpl; repeat case_decide; case_js; simpl; lia. }
  split.
  - destruct (decide (i = id)) as [->|Hne]; [|lia].
    rewrite IH2; [lia|]. intros err Hin. apply Hi. apply list_elem_of_fmap. by exists (id, AwaitingRenewal err).
  - intros Hno. rewrite IH2 by set_solver. destruct (decide (i = id)) as [->|Hne]; [|lia].
    destruct p as [|err| |]; [done| |done|done]. exfalso. apply (Hno err). set_solver.
Qed.

Lemma step_attempts s m id :
  (attempts id (transport_step s m).2 + phase_attempts (requests s !! id)
   ≤ phase_attempts (requests (transport_step s m).1 !! id))%nat.
Proof.
  assert (Hset : ∀ i p, (phase_attempts (requests s !! i) ≤ phase_attempts (Some p))%nat →
    (phase_attempts (requests s !! id) ≤ phase_attempts (<[i := p]> (requests s) !! id))%nat).
  { intros i p Hle. rewrite lookup_insert. case_decide; subst; done. }
  destruct m as [dt|i|i r|u|ok u]; simpl; [done| | |done|].
  - destruct (requests s !! i) eqn:Hi; simpl; [done|].
    rewrite lookup_insert. unfold attempts; simpl. case_decide; subst.
    + rewrite bool_decide_eq_true_2 by done. by rewrite Hi.
    + by rewrite bool_decide_eq_false_2.
  - destruct (requests s !! i) as [[]|] eqn:Hi, r as [e|]; simpl; try done;
      try (apply Hset; rewrite Hi; simpl; lia).
    unfold renewSession. repeat case_match; simpl; apply Hset; rewrite Hi; simpl; lia.
  - destruct (renewing s); simpl; [|done]. rewrite lookup_fmap.
    destruct (wake_attempts ok u id (map_to_list (requests s)) (NoDup_fst_map_to_list _)) as [H1 H0].
    change (attempts id (RenewFinished (clock s) :: ?x)) with (attempts id x).
    destruct (requests s !! id) as [[|err| |]|] eqn:Hid; simpl;
      try (rewrite H0; [lia|]; intros err' Hin%elem_of_map_to_list; congruence).
    unfold attempts in *; simpl. destruct ok; simpl; lia.
Qed.

Lemma run_attempts s ms id :
  (attempts id (run s ms).2 + phase_attempts (requests s !! id)
   ≤ phase_attempts (requests (run s ms).1 !! id))%nat.
Proof.
  revert s. induction ms as [|m ms IH]; intros s; simpl; [done|].
  pose proof (step_attempts s m id) as H. unfold update, transport_machine.
  destruct (transport_step s m) as [s1 e1]. specialize (IH s1).
  destruct (run s1 ms) as [s2 e2]. simpl in *. rewrite attempts_app. lia.
Qed.

(** Every error a waiter holds was the answer to one of its own attempts. *)
Definition waits_own (seen : list transport_msg) (s : TransportState) : Prop :=
  ∀ id err, requests s !! id = Some (AwaitingRenewal err) → In (Respond id (Some err)) seen.

Lemma waits_own_mono seen seen' s : (∀ m, In m seen → In m seen') → waits_own seen s → waits_own seen' s.
Proof. unfold waits_own. eauto. Qed.

Lemma waits_own_set seen id p s :
  (∀ err, p = AwaitingRenewal err → In (Respond id (Some err)) seen) →
  waits_own seen s → waits_own seen (set_phase id p s).
Proof.
  intros Hp Hs id' err. simpl. rewrite lookup_insert. case_decide; subst; [|apply Hs].
  intros [=]. by apply Hp.
Qed.

Lemma step_own_error seen s m :
  waits_own seen s →
  waits_own (m :: seen) (transport_step s m).1 ∧
  ∀ id err, In (Reject id err) (transport_step s m).2 → In (Respond id (Some err)) (m :: seen).
Proof.
  intros Hs0. assert (Hs : waits_own (m :: seen) s) by (revert Hs0; apply waits_own_mono; simpl; auto).
  destruct m as [dt|i|i r|u|ok u]; simpl transport_step; simpl; [done| | |done|].
  - destruct (requests s !! i); simpl; (split; [|naive_solver]); [done|].
    by apply waits_own_set.
  - destruct (requests s !! i) as [[]|] eqn:Hi, r as [e|]; simpl;
      try (split; [first [done | by apply waits_own_set] | naive_solver]).
    destruct (is_unauthenticated e);
      [|simpl; split; [by apply waits_own_set|naive_solver]].
    unfold renewSession. destruct (_ <? _); [simpl; split; [by apply waits_own_set|naive_solver]|].
    assert (Hw : ∀ s', requests s' = requests s → waits_own (Respond i (Some e) :: seen) (set_phase i (AwaitingRenewal e) s')).
    { intros s' Heq. apply waits_own_set; [|unfold waits_own; by rewrite Heq].
      intros err [= ->]. by left. }
    destruct (renewing s); simpl; (split; [by apply Hw|naive_solver]).
  - destruct (renewing s); simpl; [|split; [done|naive_solver]]. split.
    + intros id err. simpl. rewrite lookup_fmap. destruct (requests s !! id) as [[]|]; simpl; try done.
      by destruct ok.
    + intros id err [?|Hin]; [done|]. right. apply in_concat in Hin as (fx & Hfx & Hin).
      apply in_map_iff in Hfx as ([j p] & <- & Hj). apply list_elem_of_In, elem_of_map_to_list in Hj.
      unfold wake_effect in Hin. simpl in Hin. destruct p as [|e| |], ok; simpl in Hin; try tauto;
        destruct Hin as [Hin|[]]; simplify_eq; by apply Hs0.
Qed.

(** C20: in every interleaving, a call is put on the wire at most twice, and the
    error it is rejected with is the server's answer to one of its own attempts
    (a failed or refused renewal rethrows the original error). *)
Theorem call_tried_at_most_twice now u ms id :
  let fx := (run (transport_init now u) ms).2 in
  (attempts id fx ≤ 2)%nat ∧
  ∀ err, In (Reject id err) fx → In (Respond id (Some err)) ms.
Proof.
  intros fx. split.
  - pose proof (run_attempts (transport_init now u) ms id) as H. simpl in H.
    rewrite lookup_empty in H. simpl in H. fold fx in H.
    destruct (requests _ !! id) as [[]|]; simpl in H; lia.
  - subst fx. cut (∀ s seen, waits_own seen s → ∀ err, In (Reject id err) (run s ms).2 →
                   In (Respond id (Some err)) (seen ++ ms)).
    { intros H err Hr. apply (H (transport_init now u) [] ); [|done]. intros ? ?. simpl. by rewrite lookup_empty. }
    induction ms as [|m ms IH]; intros s seen Hs err; simpl; [done|].
    destruct (step_own_error seen s m Hs) as [H1 H2]. unfold update, transport_machine.
    destruct (transport_step s m) as [s1 e1]. simpl in H1, H2. specialize (IH s1 (m :: seen) H1 err).
    destruct (run s1 ms) as [s2 e2]. simpl in *. rewrite !in_app_iff in *. simpl in *.
    intros [Hr|Hr]; [destruct (H2 _ _ Hr); auto|]. destruct (IH Hr) as [?|?]; [auto|].
    tauto.
Qed.

(** C33: an Unauthenticated answer that arrives less than ten seconds after a
    renewal finished is rejected at once: the call is neither retried with the
    renewed token nor made to wait, and its error is one the session policy
    treats as the end of the session. *)
Theorem late_unauthenticated_not_retried s id msg raw :
  requests s !! id = Some FirstTry → clock s - lastRenewMs s < renewCooldownMs →
  transport_step s (Respond id (Some (ConnectErr Unauthenticated msg raw))) =
    (set_phase id Settled s, [Reject id (ConnectErr Unauthenticated msg raw)]) ∧
  isAuthError (ConnectErr Unauthenticated msg raw) = true.
Proof.
  intros Hid Hc. split; [|done]. simpl. rewrite Hid. simpl. unfold renewSession.
  destruct (Z.ltb_spec (clock s - lastRenewMs s) renewCooldownMs); [done|lia].
Qed.

(** Two calls sent with the same stale token; the first one's renewal succeeds
    before the second one's answer arrives. *)
Definition race : list transport_msg :=
  let unauth := Some (ConnectErr Unauthenticated "[unauthenticated] expired" "expired") in
  [Send 0; Send 1; Respond 0 unauth; Tick 300; RenewDone true (Some (mkOidcUser false "fresh"));
   Tick 50]%nat.
Definition race_init : TransportState := transport_init 1750000000000 (Some (mkOidcUser false "stale")).

Lemma late_unauthenticated_not_retried_witness :
  let s := (run race_init race).1 in
  accessToken (user s) = Some "fresh" ∧
  transport_step s (Respond 1 (Some (ConnectErr Unauthenticated "[unauthenticated] expired" "expired"))) =
    (set_phase 1 Settled s, [Reject 1 (ConnectErr Unauthenticated "[unauthenticated] expired" "expired")]).
Proof.
  intros s. split; [reflexivity|].
  exact (proj1 (late_unauthenticated_not_retried s 1 _ _ eq_refl eq_refl)).
Defined.

(** ** The gate *)

Ltac gate_case :=
  simpl; intros; destruct_and?; destruct_or?;
  repeat match goal with H : ∃ _, _ |- _ => destruct H as (? & ? & ?) end;
  simplify_eq/=; try done; try congruence; eauto 10.

(** for every documented query status, the gate signs the user out exactly
    on an auth failure, sends a settled session without an onboarded tenant to
    onboarding, never navigates otherwise, shows the retry screen exactly on a
    non-auth failure, and shows the application only for an onboarded tenant. *)
Theorem gate_policy {M} (q : query GetSessionResponse) (children : view (gate_msg M)) :
  wf_query q →
  (In RemoveUser (gate_effect q) ↔ ∃ e, q_error q = Some e ∧ isAuthError e = true) ∧
  (In (RouterReplace "/onboarding") (gate_effect q) ↔
     q_error q = None ∧ q_isPending q = false ∧ onboarded (q_data q) = false) ∧
  (press "Try again" (AppGate (M := M) q (El "app" [] [])) = Some TryAgain ↔
     ∃ e, q_error q = Some e ∧ isAuthError e = false) ∧
  (onboarded (q_data q) = false → AppGate q children = AppGate (M := M) q LoadingScreen) ∧
  (onboarded (q_data q) = true → q_error q = None → AppGate q children = children).
Proof.
  unfold wf_query, gate_effect, AppGate. destruct q as [d p err]; cbn [q_isPending q_error q_data].
  destruct err as [e|]; [destruct p; [intros [? ?]; discriminate|]|];
    [|destruct p; [intros [-> _]|intros [[x ->]|[? ?]]; [|done]]].
  - intros _. destruct (isAuthError e) eqn:He; cbn [negb andb orb]; split_and!;
      try (destruct (onboarded d)); solve [split; gate_case | gate_case].
  - split_and!; solve [split; gate_case | gate_case].
  - destruct (onboarded (Some x)); cbn [negb andb orb];
      split_and!; solve [split; gate_case | gate_case].
Qed.

Lemma gate_policy_witness :
  In RemoveUser (gate_effect (mkQuery None false (Some (ConnectErr Unauthenticated "m" "r")))).
Proof.
  apply (proj1 (gate_policy (M := unit) (mkQuery None false (Some (ConnectErr Unauthenticated "m" "r")))
                  (El "app" [] []) (or_intror (ex_intro _ _ eq_refl)))).
  eexists. split; reflexivity.
Defined.

(** an auth failure of a refetch that still carries an onboarded session
    signs the user out while the application stays on screen. *)
Theorem gate_shows_app_while_signing_out {M} d e (children : view (gate_msg M)) :
  onboarded (Some d) = true → isAuthError e = true →
  let q := mkQuery (Some d) false (Some e) in
  gate_effect q = [RemoveUser; RouterReplace "/"] ∧ AppGate q children = children.
Proof.
  intros Hd He q. subst q. unfold gate_effect, AppGate. cbn [q_isPending q_error q_data].
  rewrite He. cbn [negb]. rewrite Hd. done.
Qed.

Lemma gate_shows_app_while_signing_out_witness :
  let d := mkSession None (Some (mkTenant "t" None None None [] None true)) in
  let e := ConnectErr Unauthenticated "m" "r" in
  AppGate (M := unit) (mkQuery (Some d) false (Some e)) (El "app" [] []) = El "app" [] [].
Proof.
  intros d e. exact (proj2 (gate_shows_app_while_signing_out d e (El "app" [] []) eq_refl eq_refl)).
Defined.
