(* ===== verification/Streams.v ===== *)
(** * The live streams: [useConnectionsStream] and [useProjectsStream]

    Models [web/lib/api/use-connections-stream.ts] and
    [web/lib/api/use-projects-stream.ts]. Each hook runs an asynchronous loop:
    subscribe, hand every snapshot to React, and on the end or failure of the
    stream either stop or sleep with a capped exponential backoff and subscribe
    again. The loop's suspension points are the phases of the machine; what the
    Connect client, the timer and React do to it are its messages. *)
From stdpp Require Import base list strings.
From Stdlib Require Import ZArith Lia.
From S2P Require Import Prelude Proto Session.
#[local] Open Scope Z_scope.

(** Where the loop is suspended: iterating the stream, awaiting the backoff
    timer, or returned. *)
Inductive loop_phase := Streaming | Sleeping | Returned.
#[export] Instance loop_phase_eq_dec : EqDecision loop_phase.
Proof. solve_decision. Defined.

Inductive stream_msg (A : Type) :=
| Snapshot (xs : list A)      (* the stream yields *)
| StreamEnded                 (* the stream completes *)
| StreamFailed (e : js_error) (* the stream throws *)
| TimerFired                  (* the backoff elapsed *)
| Unmount.                    (* the effect's cleanup aborts the controller *)
Arguments Snapshot {A} xs.
Arguments StreamEnded {A}.
Arguments StreamFailed {A} e.
Arguments TimerFired {A}.
Arguments Unmount {A}.

Inductive stream_effect := Watch | Sleep (ms : Z).

(** [Math.min(30_000, 1_000 * 2 ** attempt)]. *)
Definition backoff (attempt : Z) : Z := Z.min 30000 (1000 * 2 ^ attempt).

(** ** [useConnectionsStream] *)

Record ConnStream := mkConnStream {
  cs_phase : loop_phase;
  cs_attempt : Z;
  cs_aborted : bool;
  cs_connections : option (list Connection);
  cs_error : option js_error
}.

(** After the try block: leave when aborted, otherwise back off. *)
Definition conn_after (s : ConnStream) : ConnStream * list stream_effect :=
  if cs_aborted s
  then (mkConnStream Returned (cs_attempt s) true (cs_connections s) (cs_error s), [])
  else (mkConnStream Sleeping (cs_attempt s + 1) false (cs_connections s) (cs_error s),
        [Sleep (backoff (cs_attempt s))]).

Definition conn_step (s : ConnStream) (m : stream_msg Connection) : ConnStream * list stream_effect :=
  match cs_phase s, m with
  | _, Unmount => (mkConnStream (cs_phase s) (cs_attempt s) true (cs_connections s) (cs_error s), [])
  | Streaming, Snapshot xs => (mkConnStream Streaming 0 (cs_aborted s) (Some xs) None, [])
  | Streaming, StreamEnded => conn_after s
  | Streaming, StreamFailed e =>
      if cs_aborted s
      then (mkConnStream Returned (cs_attempt s) true (cs_connections s) (cs_error s), [])
      else if isAuthError e
      then (mkConnStream Returned (cs_attempt s) false (cs_connections s) (Some e), [])
      else conn_after s
  | Sleeping, TimerFired =>
      if cs_aborted s
      then (mkConnStream Returned (cs_attempt s) true (cs_connections s) (cs_error s), [])
      else (mkConnStream Streaming (cs_attempt s) false (cs_connections s) (cs_error s), [Watch])
  | _, _ => (s, [])
  end.

#[export] Instance conn_machine : Machine ConnStream (stream_msg Connection) stream_effect := conn_step.

(** Mounting runs the effect: the first subscription. *)
Definition conn_mount : ConnStream * list stream_effect :=
  (mkConnStream Streaming 0 false None None, [Watch]).

(** ** [useProjectsStream] *)

Record ProjStream := mkProjStream {
  ps_phase : loop_phase;
  ps_attempt : Z;
  ps_aborted : bool;
  ps_projects : option (list Project)
}.

Definition proj_after (s : ProjStream) : ProjStream * list stream_effect :=
  if ps_aborted s
  then (mkProjStream Returned (ps_attempt s) true (ps_projects s), [])
  else (mkProjStream Sleeping (ps_attempt s + 1) false (ps_projects s), [Sleep (backoff (ps_attempt s))]).

Definition proj_step (s : ProjStream) (m : stream_msg Project) : ProjStream * list stream_effect :=
  match ps_phase s, m with
  | _, Unmount => (mkProjStream (ps_phase s) (ps_attempt s) true (ps_projects s), [])
  | Streaming, Snapshot xs => (mkProjStream Streaming 0 (ps_aborted s) (Some xs), [])
  | Streaming, StreamEnded => proj_after s
  | Streaming, StreamFailed e =>
      if ps_aborted s
      then (mkProjStream Returned (ps_attempt s) true (ps_projects s), [])
      else match e with
           | ConnectErr code _ _ =>
               if (code === Unauthenticated) || (code === PermissionDenied)
               then (mkProjStream Returned (ps_attempt s) false (ps_projects s), [])
               else proj_after s
           | OtherErr _ => proj_after s
           end
  | Sleeping, TimerFired =>
      if ps_aborted s
      then (mkProjStream Returned (ps_attempt s) true (ps_projects s), [])
      else (mkProjStream Streaming (ps_attempt s) false (ps_projects s), [Watch])
  | _, _ => (s, [])
  end.

#[export] Instance proj_machine : Machine ProjStream (stream_msg Project) stream_effect := proj_step.

(** Idle without a connection: the effect returns before creating the loop. *)
Definition proj_mount (connectionId : option string) : ProjStream * list stream_effect :=
  if otruthy connectionId
  then (mkProjStream Streaming 0 false None, [Watch])
  else (mkProjStream Returned 0 false None, []).

(** ** Backoff *)

Lemma backoff_bounds k : 0 ≤ k → 1000 ≤ backoff k ≤ 30000.
Proof. intros Hk. unfold backoff. pose proof (Z.pow_pos_nonneg 2 k ltac:(lia) Hk). lia. Qed.

Lemma backoff_mono j k : 0 ≤ j ≤ k → backoff j ≤ backoff k.
Proof. intros Hjk. unfold backoff. pose proof (Z.pow_le_mono_r 2 j k ltac:(lia) ltac:(lia)). lia. Qed.

Lemma backoff_cap k : 5 ≤ k → backoff k = 30000.
Proof. intros Hk. unfold backoff. pose proof (Z.pow_le_mono_r 2 5 k ltac:(lia) Hk). lia. Qed.

Definition sleep_ok (e : stream_effect) : Prop :=
  match e with Sleep d => 1000 ≤ d ≤ 30000 | Watch => True end.

(** The invariant of the loop: the attempt counter is never negative, and an
    error is only ever shown by a loop that has stopped for good. *)
Definition conn_inv (s : ConnStream) : Prop :=
  0 ≤ cs_attempt s ∧ (is_Some (cs_error s) → cs_phase s = Returned).

Lemma conn_step_inv s m : conn_inv s → conn_inv (conn_step s m).1.
Proof.
  unfold conn_inv. intros [Ha He]. unfold conn_step, conn_after.
  destruct (cs_phase s) eqn:Hp, m; repeat case_match; simpl; rewrite ?Hp;
    (split; [lia|intros Herr]); try done; first [by specialize (He Herr) | by destruct Herr].
Qed.

Lemma conn_step_sleeps s m : conn_inv s → Forall sleep_ok (conn_step s m).2.
Proof.
  intros [Ha _]. unfold conn_step, conn_after.
  destruct (cs_phase s), m; repeat case_match; simpl; repeat constructor;
    simpl; by apply backoff_bounds.
Qed.

(** C9: in every run of the connections stream, every reconnect waits between
    one and thirty seconds, and an error is reported only by a loop that has
    stopped reconnecting. *)
Theorem reconnects_are_bounded ms :
  Forall sleep_ok (run conn_mount.1 ms).2 ∧ conn_inv (run conn_mount.1 ms).1.
Proof.
  assert (H0 : conn_inv conn_mount.1) by (split; simpl; [lia|by intros [? ?]]).
  split.
  - eapply (run_effects conn_inv); [intros; by apply conn_step_inv|intros; by apply conn_step_sleeps|done].
  - apply run_invariant; [intros; by apply conn_step_inv|done].
Qed.

(** An outage: the stream keeps failing with transient errors, the timer
    firing in between. *)
Definition outage (es : list js_error) : list (stream_msg Connection) :=
  concat (map (λ e, [StreamFailed e; TimerFired]) es).

Definition outage_effects (attempt : Z) (n : nat) : list stream_effect :=
  concat (map (λ k, [Sleep (backoff (attempt + Z.of_nat k)); Watch]) (seq 0 n)).

Lemma outage_effects_S a n :
  outage_effects a (S n) = Sleep (backoff a) :: Watch :: outage_effects (a + 1) n.
Proof.
  unfold outage_effects. simpl. rewrite Z.add_0_r. f_equal. f_equal.
  rewrite <-seq_shift, map_map. f_equal. apply map_ext.
  intros k. do 3 f_equal. lia.
Qed.

(** C34: from a live stream in its [a]-th consecutive failure, an outage of [n]
    transient failures reconnects exactly [n] times with delays
    [min(30s, 1s * 2^(a+k))], shows no error and keeps the last snapshot; the
    next snapshot resets the backoff. *)
Theorem outage_backs_off_and_heals a conns es xs :
  Forall (λ e, isAuthError e = false) es →
  let s := mkConnStream Streaming a false conns None in
  run s (outage es) =
    (mkConnStream Streaming (a + js_length es) false conns None, outage_effects a (length es)) ∧
  (run s (outage es ++ [Snapshot xs])).1 = mkConnStream Streaming 0 false (Some xs) None.
Proof.
  intros Hes s.
  assert (H : run s (outage es) =
    (mkConnStream Streaming (a + js_length es) false conns None, outage_effects a (length es))).
  { subst s. revert a. induction Hes as [|e es He Hes IH]; intros a.
    - unfold js_length, outage_effects. simpl. by rewrite Z.add_0_r.
    - change (outage (e :: es)) with (StreamFailed e :: TimerFired :: outage es).
      rewrite !run_cons. unfold update, conn_machine, conn_step. simpl.
      rewrite He. simpl. rewrite IH. cbn [length]. rewrite outage_effects_S.
      unfold js_length. simpl. do 2 f_equal. lia. }
  split; [done|]. rewrite run_app, H. done.
Qed.

Lemma outage_backs_off_and_heals_witness :
  (run (mkConnStream Streaming 0 false (Some []) None)
       (outage [OtherErr "network"; ConnectErr Unavailable "m" "r"; OtherErr "network"])).2 =
  [Sleep 1000; Watch; Sleep 2000; Watch; Sleep 4000; Watch].
Proof.
  exact (f_equal snd (proj1 (outage_backs_off_and_heals 0 (Some [])
    [OtherErr "network"; ConnectErr Unavailable "m" "r"; OtherErr "network"] []
    ltac:(repeat constructor)))).
Defined.

Lemma returned_is_final s ms :
  cs_phase s = Returned →
  (run s ms).2 = [] ∧ cs_phase (run s ms).1 = Returned ∧
  cs_connections (run s ms).1 = cs_connections s ∧ cs_error (run s ms).1 = cs_error s.
Proof.
  revert s. induction ms as [|m ms IH]; intros s Hp; simpl; [done|].
  unfold update, conn_machine.
  assert (Hm : ∃ s', conn_step s m = (s', []) ∧ cs_phase s' = Returned ∧
    cs_connections s' = cs_connections s ∧ cs_error s' = cs_error s).
  { unfold conn_step. rewrite Hp. destruct m; eexists; split; eauto. }
  destruct Hm as (s' & -> & Hp' & Hc & He). destruct (IH s' Hp') as (H1 & H2 & H3 & H4).
  destruct (run s' ms). simpl in *. subst. by rewrite H3, H4.
Qed.

(** a rejected credential stops the loop for good: the error is surfaced,
    the last snapshot is kept, and whatever happens afterwards there is no
    further subscription, no further timer and no change of what is shown. *)
Theorem auth_failure_stops_stream s e ms :
  cs_phase s = Streaming → cs_aborted s = false → isAuthError e = true →
  let s' := (conn_step s (StreamFailed e)).1 in
  cs_error s' = Some e ∧ cs_connections s' = cs_connections s ∧
  (run s' ms).2 = [] ∧ cs_error (run s' ms).1 = Some e ∧
  cs_connections (run s' ms).1 = cs_connections s.
Proof.
  intros Hp Ha He s'. subst s'. unfold conn_step. rewrite Hp, Ha, He. simpl.
  destruct (returned_is_final (mkConnStream Returned (cs_attempt s) false (cs_connections s) (Some e)) ms eq_refl)
    as (H1 & _ & H3 & H4). done.
Qed.

Lemma auth_failure_stops_stream_witness :
  (run (conn_step conn_mount.1 (StreamFailed (ConnectErr PermissionDenied "m" "r"))).1
       [TimerFired; Snapshot []; StreamEnded]).2 = [].
Proof.
  exact (proj1 (proj2 (proj2 (auth_failure_stops_stream conn_mount.1 (ConnectErr PermissionDenied "m" "r")
    [TimerFired; Snapshot []; StreamEnded] eq_refl eq_refl eq_refl)))).
Defined.

Lemma aborted_step s m :
  cs_aborted s = true →
  cs_aborted (conn_step s m).1 = true ∧ (conn_step s m).2 = [].
Proof.
  intros Ha. unfold conn_step, conn_after. destruct (cs_phase s), m; rewrite ?Ha; simpl; auto.
Qed.

(** once the page is left the loop never subscribes nor sleeps again, in
    whichever phase the unmount found it. *)
Theorem unmount_ends_stream s ms : (run (conn_step s Unmount).1 ms).2 = [].
Proof.
  assert (Ha : cs_aborted (conn_step s Unmount).1 = true)
    by (unfold conn_step; by destruct (cs_phase s)).
  revert Ha. generalize (conn_step s Unmount).1 as s0. induction ms as [|m ms IH]; intros s0 Ha; simpl; [done|].
  unfold update, conn_machine. destruct (aborted_step s0 m Ha) as [Ha' He].
  destruct (conn_step s0 m) as [s1 e1]. simpl in *. subst. specialize (IH s1 Ha').
  destruct (run s1 ms). done.
Qed.

(** ** The two hooks run the same loop *)

(** The projects hook does not report errors; otherwise the states agree. *)
Definition same_loop (c : ConnStream) (p : ProjStream) : Prop :=
  cs_phase c = ps_phase p ∧ cs_attempt c = ps_attempt p ∧ cs_aborted c = ps_aborted p ∧
  (is_Some (cs_connections c) ↔ is_Some (ps_projects p)).

(** Messages that differ only in what a snapshot carries. *)
Inductive same_msg : stream_msg Connection → stream_msg Project → Prop :=
| same_snapshot xs ys : same_msg (Snapshot xs) (Snapshot ys)
| same_ended : same_msg StreamEnded StreamEnded
| same_failed e : same_msg (StreamFailed e) (StreamFailed e)
| same_timer : same_msg TimerFired TimerFired
| same_unmount : same_msg Unmount Unmount.

Lemma same_loop_step c p m n :
  same_loop c p → same_msg m n →
  same_loop (conn_step c m).1 (proj_step p n).1 ∧ (conn_step c m).2 = (proj_step p n).2.
Proof.
  destruct c as [ph a ab cn er], p as [ph' a' ab' pr].
  unfold same_loop; simpl. intros (<- & <- & <- & Hd) Hm.
  unfold conn_step, proj_step, conn_after, proj_after; simpl.
  destruct Hm as [xs ys| |e| |]; destruct ph; simpl; try done.
  - by destruct ab.
  - destruct ab; [done|]. destruct e as [code msg raw|msg]; simpl; [|done].
    by destruct (_ || _).
  - by destruct ab.
Qed.

(** C32: fed with the same stream events, the projects hook subscribes, sleeps
    and stops exactly when the connections hook does. *)
Theorem projects_stream_simulates c p ms ns :
  same_loop c p → Forall2 same_msg ms ns →
  (run c ms).2 = (run p ns).2 ∧ same_loop (run c ms).1 (run p ns).1.
Proof.
  intros Hs Hm. revert c p Hs. induction Hm as [|m n ms ns Hmn Hm IH]; intros c p Hs; simpl; [done|].
  destruct (same_loop_step c p m n Hs Hmn) as [Hs' He].
  unfold update, conn_machine, proj_machine.
  destruct (conn_step c m) as [c1 e1], (proj_step p n) as [p1 e2]. simpl in *. subst e2.
  destruct (IH c1 p1 Hs') as [He2 Hs2].
  destruct (run c1 ms), (run p1 ns). simpl in *. by subst.
Qed.

Lemma projects_stream_simulates_witness :
  (run conn_mount.1 [StreamFailed (OtherErr "x"); TimerFired; StreamEnded]).2 =
  (run (proj_mount (Some "c1"%string)).1 [StreamFailed (OtherErr "x"); TimerFired; StreamEnded]).2.
Proof.
  refine (proj1 (projects_stream_simulates _ _ _ _ _ _)).
  - split_and!; try reflexivity. split; intros [? H]; discriminate H.
  - repeat constructor.
Defined.
