(* ===== verification/Onboarding.v ===== *)
(** * Onboarding: the steps, the carried answers, the gate and the submission

    Models [web/lib/onboarding-steps.ts], [web/lib/onboarding-options.ts],
    [web/components/onboarding/*.tsx] and [web/app/onboarding/**]. The flow
    provider lives in the layout: its state exists only while the layout renders
    it, so the machine [Flow] keeps it as an [option] that is dropped whenever
    the layout returns [null] and seeded again at the next mount. *)
From stdpp Require Import base list strings.
From Stdlib Require Import ZArith Lia Ascii QArith.
From S2P Require Import Prelude JsString Proto View Session.
#[local] Open Scope string_scope.
#[local] Open Scope list_scope.
#[local] Open Scope Z_scope.

(** ** [lib/onboarding-steps.ts] *)

Record OnboardingStep := mkStep { step_slug : string; step_title : string; step_why : option string }.

Definition ONBOARDING_STEPS : list OnboardingStep :=
  [mkStep "organization" "Your organization" (Some "Names your workspace and scopes what we bring in.");
   mkStep "use-case" "What you'll use it for" (Some "These areas become the first chapters of your brain.");
   mkStep "region" "Where your data lives" (Some "The storage region is fixed after setup.");
   mkStep "complete" "You're all set" None].

Definition BASE := "/onboarding".

Definition slugFromPath (pathname : string) : string :=
  last (List.filter truthy (split "/"%char pathname)) ?? "".

Definition stepIndex (pathname : string) : Z :=
  findIndex (λ s, step_slug s === slugFromPath pathname) ONBOARDING_STEPS.

Definition currentStep (pathname : string) : option OnboardingStep :=
  js_at ONBOARDING_STEPS (stepIndex pathname).

(** The four fractions are exact in binary floating point. *)
Definition progress (pathname : string) : Q :=
  let i := stepIndex pathname in
  if i <? 0 then 0%Q else (i + 1) # Z.to_pos (js_length ONBOARDING_STEPS).

Definition nextPath (pathname : string) : option string :=
  let i := stepIndex pathname in
  let next := if 0 <=? i then js_at ONBOARDING_STEPS (i + 1) else None in
  match next with Some s => Some (BASE +:+ "/" +:+ step_slug s) | None => None end.

Definition prevPath (pathname : string) : option string :=
  let i := stepIndex pathname in
  let prev := if 0 <? i then js_at ONBOARDING_STEPS (i - 1) else None in
  match prev with Some s => Some (BASE +:+ "/" +:+ step_slug s) | None => None end.

(** ** [lib/onboarding-options.ts] *)

(** [Option] of [onboarding-form.tsx]; [leading] is the flag's country code. *)
Record Option := mkOption {
  opt_id : string; opt_label : string; opt_detail : option string; opt_leading : option string }.

Definition companySizes : list Option :=
  map (λ '(i, l), mkOption i l None None)
    [("1-10", "1 – 10"); ("11-50", "11 – 50"); ("51-200", "51 – 200"); ("201-500", "201 – 500");
     ("501-2000", "501 – 2,000"); ("2001-5000", "2,001 – 5,000"); ("5000+", "5,000+")].

Definition useCaseOptions : list Option :=
  map (λ '(i, l), mkOption i l None None)
    [("support", "Customer support knowledge"); ("engineering", "Engineering runbooks & incidents");
     ("product", "Product decisions & specs"); ("sales", "Sales playbooks & objection handling");
     ("operations", "Operational policies & SOPs"); ("people", "People onboarding & policies");
     ("finance", "Finance approvals & exceptions"); ("security", "Security & incident response");
     ("compliance", "Compliance & legal"); ("marketing", "Brand voice & marketing rules");
     ("other", "Something else")].

Record Region := mkRegion {
  reg_id : string; reg_country : string; reg_code : string; reg_city : string;
  reg_label : string; reg_recommended : bool }.

Definition regions : list Region :=
  [mkRegion "us-east" "United States" "US" "Washington DC" "us-east" true;
   mkRegion "us-west" "United States" "US" "San Francisco" "us-west" false;
   mkRegion "eu-central" "European Union" "DE" "Frankfurt" "eu-central" false;
   mkRegion "eu-west" "United Kingdom" "GBR" "London" "eu-west" false;
   mkRegion "asia-south" "India" "IN" "Mumbai" "asia-south" false;
   mkRegion "asia-east" "Japan" "JP" "Tokyo" "asia-east" false;
   mkRegion "asia-southeast" "Singapore" "SG" "Singapore" "asia-southeast" false;
   mkRegion "oceania" "Australia" "AU" "Sydney" "oceania" false].

(** ** [components/onboarding/onboarding-flow.tsx] *)

Record OnboardingState := mkFlow {
  orgName : string; orgSize : option string; useCases : list string;
  useCaseOther : string; region : string }.

(** [Partial<OnboardingState>]: an absent key is [None]. *)
Record Patch := mkPatch {
  p_orgName : option string; p_orgSize : option (option string); p_useCases : option (list string);
  p_useCaseOther : option string; p_region : option string }.

(** [{ ...s, ...patch }]. *)
Definition flow_set (patch : Patch) (s : OnboardingState) : OnboardingState :=
  mkFlow (p_orgName patch ?? orgName s) (p_orgSize patch ?? orgSize s) (p_useCases patch ?? useCases s)
         (p_useCaseOther patch ?? useCaseOther s) (p_region patch ?? region s).

Definition toggleUseCase (id : string) (s : OnboardingState) : OnboardingState :=
  mkFlow (orgName s) (orgSize s)
         (js_toggle (useCases s) id)
         (useCaseOther s) (region s).

Definition OnboardingFlowProvider (initial : Patch) : OnboardingState :=
  flow_set initial (mkFlow "" None [] "" "").

(** ** [app/onboarding/layout.tsx] *)

Section Onboarding.
Context `{Locale}.

(** [base[0].toUpperCase() + base.slice(1)] works on UTF-16 units: a leading
    code point outside the BMP (a four-byte encoding) is left as it is. *)
Definition capitalise (base : string) : string :=
  match base with
  | EmptyString => ""
  | String a _ =>
      if (lead_width a =? 4)%nat then base else toUpperCase (first_char base) +:+ rest_chars base
  end.

Definition orgNameFromEmail (email : string) : string :=
  let domain := js_at (split "@"%char email) 1 ?? "" in
  let base := js_at (split "."%char domain) 0 ?? "" in
  if truthy base then capitalise base else "".

Definition layout_effect (q : query GetSessionResponse) : list effect :=
  if q_isPending q then []
  else match q_error q with
       | Some e => if isAuthError e then [RouterReplace "/"] else []
       | None => if onboarded (q_data q) then [RouterReplace "/book"] else []
       end.

(** The tenant and user the layout renders with; [None]: it returns [null]. *)
Definition layout_ready (q : query GetSessionResponse) : option (Tenant * User) :=
  if q_isPending q || bool_decide (is_Some (q_error q)) || onboarded (q_data q) then None
  else match q_data q with
       | Some (mkSession (Some u) (Some t)) => Some (t, u)
       | _ => None
       end.

Definition initial_answers (t : Tenant) (u : User) : Patch :=
  mkPatch (Some ((tenant_name t ?? "") ||| orgNameFromEmail (user_email u)))
          (Some (tenant_size t)) (Some (tenant_useCases t))
          (Some (tenant_useCaseOther t ?? "")) (Some (tenant_region t ?? "")).

(** ** Messages and the flow machine *)

Inductive ob_msg :=
| SessionIs (q : query GetSessionResponse)
| Visit (pathname : string)
| Edit (patch : Patch)
| ToggleUseCase (id : string)
| GoTo (path : option string)
| Finish
| FinishOk (call : nat) (captured : OnboardingState)
| FinishFailed (call : nat) (e : js_error).

(** [ob_pending] is the call the mounted page's [useMutation] waits for; a call
    started by a page that has been left still completes, but its outcome is not
    shown. [ob_calls] numbers the calls. *)
Record Flow := mkFlowState {
  ob_path : string;
  ob_session : query GetSessionResponse;
  ob_answers : option OnboardingState;
  ob_pending : option nat;
  ob_error : option js_error;
  ob_calls : nat }.

(** [completeOnboarding]'s request. *)
Definition finish_request (s : OnboardingState) : CompleteOnboardingRequest :=
  mkCompleteOnboarding (region s) (orgName s) (orgSize s ?? "") (useCases s)
    (if includes (useCases s) "other" then trim (useCaseOther s) else "").

(** What [finish] does after the call succeeded ([onSuccess] first). *)
Definition finish_succeeded (s : OnboardingState) : list effect :=
  [InvalidateQueries;
   Track onboarding_complete [("areas", num (js_length (useCases s))); ("region", region s)];
   RouterPush "/book"].

Definition mount_flow (q : query GetSessionResponse) (answers : option OnboardingState)
    : option OnboardingState :=
  match layout_ready q with
  | None => None
  | Some (t, u) => Some (answers ?? OnboardingFlowProvider (initial_answers t u))
  end.

Definition ob_update (f : Flow) (m : ob_msg) : Flow * list effect :=
  let '(mkFlowState path session answers pending error calls) := f in
  match m with
  | SessionIs q =>
      let answers' := mount_flow q answers in
      let kept := bool_decide (is_Some answers') in
      (mkFlowState path q answers' (if kept then pending else None) (if kept then error else None) calls,
       layout_effect q)
  | Visit p => (mkFlowState p session answers None None calls, [])
  | Edit patch => (mkFlowState path session (flow_set patch <$> answers) pending error calls, [])
  | ToggleUseCase id => (mkFlowState path session (toggleUseCase id <$> answers) pending error calls, [])
  | GoTo (Some p) => (f, [RouterPush p])
  | GoTo None => (f, [Throws "router.push(null)"])
  | Finish =>
      match answers with
      | None => (f, [])
      | Some s => (mkFlowState path session answers (Some calls) None (S calls),
                   [CallRpc (TenantRpc (CompleteOnboarding (finish_request s)))])
      end
  | FinishOk call s =>
      (mkFlowState path session answers (if pending === Some call then None else pending) error calls,
       finish_succeeded s)
  | FinishFailed call e =>
      (if pending === Some call then mkFlowState path session answers None (Some e) calls else f, [])
  end.

#[export] Instance ob_machine : Machine Flow ob_msg effect := ob_update.

(** [app/onboarding/page.tsx]. *)
Definition OnboardingIndex : list effect := [RouterReplace "/onboarding/organization"].

(** ** The views *)

Definition no_patch := mkPatch None None None None None.
Definition set_orgName (v : string) := Edit (mkPatch (Some v) None None None None).
Definition set_orgSize (v : option string) := Edit (mkPatch None (Some v) None None None).
Definition set_useCaseOther (v : string) := Edit (mkPatch None None None (Some v) None).
Definition set_region (v : string) := Edit (mkPatch None None None None (Some v)).

(** [components/onboarding/onboarding-form.tsx] *)
Definition Field (label : option string) (hint trailing : option (view ob_msg))
    (children : list (view ob_msg)) : view ob_msg :=
  El "div" []
    (when (otruthy label || bool_decide (is_Some trailing))
       [El "div" [] (when (otruthy label) [El "label" [] [Text (label ?? "")]] ++
                     match trailing with Some t => [t] | None => [] end)] ++
     children ++ match hint with Some h => [El "p" [] [h]] | None => [] end).

Definition OptionGrid (options : list Option) (selected : string → bool) (onSelect : string → ob_msg)
    (columns : Z) : view ob_msg :=
  El "div" [Attr "class" (if columns =? 2 then "sm:grid-cols-2"
                          else if columns =? 3 then "sm:grid-cols-3" else "")]
    (map (λ o, let on := selected (opt_id o) in
       El "button" [Attr "key" (opt_id o); BoolAttr "aria-pressed" on; OnClick (onSelect (opt_id o));
                    Attr "class" (if on then "border-primary bg-card" else "border-border bg-card hover:bg-muted")]
         (match opt_leading o with Some c => [El "Flag" [Attr "code" c] []] | None => [] end ++
          [El "span" [] (El "span" [] [Text (opt_label o)] ::
                         when (otruthy (opt_detail o)) [El "span" [] [Text (opt_detail o ?? "")]]);
           El "RiCheckLine" [Attr "class" (if on then "text-primary" else "text-transparent")] []])) options).

(** [components/onboarding/onboarding-shell.tsx] *)
Definition OnboardingShell (pathname : string) (secondaryAction primaryAction : option (view ob_msg))
    (children : list (view ob_msg)) : view ob_msg :=
  let step := currentStep pathname in
  El "div" []
    ([El "div" [] (El "h1" [] (match step with Some s => [Text (step_title s)] | None => [] end) ::
                   match step with
                   | Some s => when (otruthy (step_why s)) [El "p" [] [Text (step_why s ?? "")]]
                   | None => []
                   end);
      El "div" [] children] ++
     when (bool_decide (is_Some secondaryAction) || bool_decide (is_Some primaryAction))
       [El "div" [] [El "div" [] (match secondaryAction with Some v => [v] | None => [] end);
                     El "div" [] (match primaryAction with Some v => [v] | None => [] end)]]).

Definition OnboardingBack (onClick : ob_msg) : view ob_msg := El "Button" [OnClick onClick] [Text "Back"].

Definition OnboardingContinue (onClick : ob_msg) (disabled : bool) : view ob_msg :=
  El "Button" [OnClick onClick; BoolAttr "disabled" disabled] [Text "Continue"; El "PlayGlyph" [] []].

(** [app/onboarding/organization/page.tsx] *)
Definition OrganizationPage (pathname : string) (s : OnboardingState) : view ob_msg :=
  let canContinue := 0 <? Z.of_nat (String.length (trim (orgName s))) in
  OnboardingShell pathname None
    (Some (OnboardingContinue (GoTo (nextPath pathname)) (negb canContinue)))
    [El "div" []
      [Field (Some "Organization name") None None
         [El "Input" [Attr "id" "org"; BoolAttr "data-autofocus" true; Attr "value" (orgName s);
                      OnChange set_orgName; Attr "placeholder" "Acme Inc."] []];
       Field (Some "Company size") None None
         [OptionGrid companySizes (λ id, orgSize s === Some id)
            (λ id, set_orgSize (if orgSize s === Some id then None else Some id)) 3]]].

(** [app/onboarding/use-case/page.tsx] *)
Definition UseCasePage (pathname : string) (s : OnboardingState) : view ob_msg :=
  let otherSelected := includes (useCases s) "other" in
  OnboardingShell pathname
    (Some (OnboardingBack (GoTo (prevPath pathname))))
    (Some (OnboardingContinue (GoTo (nextPath pathname)) false))
    [El "div" []
      (OptionGrid useCaseOptions (includes (useCases s)) ToggleUseCase 2 ::
       when otherSelected
         [Field (Some "Tell us what else") None None
           [El "Input" [Attr "id" "use-case-other"; BoolAttr "data-autofocus" true;
                        Attr "value" (useCaseOther s); OnChange set_useCaseOther;
                        Attr "placeholder" "e.g. Field service procedures"] []]])].

(** [app/onboarding/region/page.tsx] *)
Definition REGION_OPTIONS : list Option :=
  map (λ r, mkOption (reg_id r) (reg_country r)
              (Some (reg_city r +:+ " · " +:+ reg_label r +:+
                     (if reg_recommended r then " · Recommended" else "")))
              (Some (reg_code r)))
    (js_sort (λ a b, Number (reg_recommended b) - Number (reg_recommended a)) regions).

Definition RegionPage (pathname : string) (s : OnboardingState) : view ob_msg :=
  OnboardingShell pathname
    (Some (OnboardingBack (GoTo (prevPath pathname))))
    (Some (OnboardingContinue (GoTo (nextPath pathname)) (negb (truthy (region s)))))
    [OptionGrid REGION_OPTIONS (λ id, region s === id) set_region 1].

(** [app/onboarding/complete/page.tsx] *)
Definition NEXT : list (string * string) :=
  [("Connect your first source", "Slack, Notion, GitHub… ingestion starts the moment you do.");
   ("Set chapter access", "Decide who can read what.");
   ("Invite your team", "Bring the people who'll use it.")].

Definition CompletePage (pathname : string) (s : OnboardingState) (isPending : bool)
    (error : option js_error) : view ob_msg :=
  let n := js_length (useCases s) in
  OnboardingShell pathname None
    (Some (El "Button" [OnClick Finish; BoolAttr "disabled" isPending]
             [Text (if isPending then "Setting up…" else "Open your workspace")]))
    [El "div" []
      (El "p" [] [Text (orgName s ||| "Your workspace"); Text " is ready";
                  Text (if n =? 0 then "" else
                          ", with " +:+ num n +:+ " area" +:+ (if 1 <? n then "s" else "") +:+ " to organize");
                  Text ". Here’s what’s coming next."] ::
       match error with Some e => [El "p" [Attr "role" "alert"] [Text (rawMessage e)]] | None => [] end ++
       [El "div" [] (map (λ '(t, d), El "div" [Attr "key" t]
                       [El "div" [] [El "p" [] [Text t]; El "p" [] [Text d]];
                        El "span" [] [Text "Soon"]]) NEXT)])].

(** [components/onboarding/onboarding-topbar.tsx] *)
Definition TopBarProfileMenu (data : option GetSessionResponse) : view ob_msg :=
  let u := match data with Some s => session_user s | None => None end in
  let name := user_name <$> u in
  let email := user_email <$> u in
  El "DropdownMenu" []
    [El "DropdownMenuTrigger" [] [];
     El "DropdownMenuContent" []
       (when (otruthy name || otruthy email)
          [El "div" [] (when (otruthy name) [El "p" [] [Text (name ?? "")]] ++
                        when (otruthy email) [El "p" [] [Text (email ?? "")]]);
           El "DropdownMenuSeparator" [] []] ++
        [El "DropdownMenuItem" [] [El "Link" [Attr "href" "/signed-out"] [Text "Sign out"]]])].

Definition OnboardingTopBar (data : option GetSessionResponse) : view ob_msg :=
  El "header" [] [El "Logo" [] []; TopBarProfileMenu data].

(** The step page the router mounts below the layout. *)
Definition StepPage (f : Flow) (s : OnboardingState) : view ob_msg :=
  let p := ob_path f in
  if p === "/onboarding/organization" then OrganizationPage p s
  else if p === "/onboarding/use-case" then UseCasePage p s
  else if p === "/onboarding/region" then RegionPage p s
  else if p === "/onboarding/complete" then CompletePage p s (bool_decide (is_Some (ob_pending f))) (ob_error f)
  else El "NotFound" [] [].

(** [OnboardingLayout]: [null] is the empty text. *)
Definition OnboardingLayout (f : Flow) : view ob_msg :=
  match ob_answers f with
  | None => Text ""
  | Some s =>
      El "div" []
        [OnboardingTopBar (q_data (ob_session f));
         El "div" [] [El "div" [Attr "style" ("width: " +:+
                        num (Qnum (progress (ob_path f)) * 100 / Z.pos (Qden (progress (ob_path f)))) +:+ "%")] []];
         El "main" [] [El "motion.div" [Attr "key" (ob_path f)] [StepPage f s]]]
  end.

End Onboarding.

(** ** Steps: forward and back are inverse *)

Definition step_path (pathname : string) : string := BASE +:+ "/" +:+ slugFromPath pathname.

(** The four steps are a chain: whenever Continue leads somewhere it leads to
    the next step, one quarter of the progress line further, and Back from there
    returns to this step (and conversely); Continue ends exactly outside the flow
    and on the last step, Back exactly outside the flow and on the first; the
    progress is between 0 and 1 for every path. *)
Theorem steps_round_trip pathname :
  match nextPath pathname with
  | Some q => stepIndex q = stepIndex pathname + 1 ∧ prevPath q = Some (step_path pathname) ∧
              (progress q == progress pathname + (1 # 4))%Q
  | None => stepIndex pathname = -1 ∨ stepIndex pathname = 3
  end ∧
  match prevPath pathname with
  | Some q => stepIndex q = stepIndex pathname - 1 ∧ nextPath q = Some (step_path pathname) ∧
              (progress q == progress pathname - (1 # 4))%Q
  | None => stepIndex pathname = -1 ∨ stepIndex pathname = 0
  end ∧
  (0 <= progress pathname <= 1)%Q.
Proof.
  unfold nextPath, prevPath, progress, step_path, stepIndex.
  destruct (decide (slugFromPath pathname = "organization")) as [->|H1]; [by vm_compute; naive_solver|].
  destruct (decide (slugFromPath pathname = "use-case")) as [->|H2]; [by vm_compute; naive_solver|].
  destruct (decide (slugFromPath pathname = "region")) as [->|H3]; [by vm_compute; naive_solver|].
  destruct (decide (slugFromPath pathname = "complete")) as [->|H4]; [by vm_compute; naive_solver|].
  cbn [findIndex ONBOARDING_STEPS step_slug].
  rewrite !bool_decide_eq_false_2 by congruence. vm_compute. naive_solver.
Qed.

(** What the buttons of the four pages do: Continue on the first page waits
    for a non-blank name, on the region page for a region, and leads to the next
    step; Back leads to the previous one; the last page submits once, until the
    call is answered. No button navigates to a missing path. *)
Theorem step_navigation `{Locale} s isPending error :
  press "Continue" (OrganizationPage "/onboarding/organization" s) =
    (if trim (orgName s) === "" then None else Some (GoTo (Some "/onboarding/use-case"))) ∧
  press "Continue" (UseCasePage "/onboarding/use-case" s) = Some (GoTo (Some "/onboarding/region")) ∧
  press "Back" (UseCasePage "/onboarding/use-case" s) = Some (GoTo (Some "/onboarding/organization")) ∧
  press "Continue" (RegionPage "/onboarding/region" s) =
    (if region s === "" then None else Some (GoTo (Some "/onboarding/complete"))) ∧
  press "Back" (RegionPage "/onboarding/region" s) = Some (GoTo (Some "/onboarding/use-case")) ∧
  press "Open your workspace" (CompletePage "/onboarding/complete" s isPending error) =
    (if isPending then None else Some Finish).
Proof.
  repeat apply conj.
  - unfold OrganizationPage. destruct (trim (orgName s)) eqn:E; vm_compute; done.
  - unfold UseCasePage. destruct (includes (useCases s) "other"); vm_compute; done.
  - unfold UseCasePage. destruct (includes (useCases s) "other"); vm_compute; done.
  - unfold RegionPage. destruct (region s) eqn:E; vm_compute; done.
  - unfold RegionPage. vm_compute. done.
  - unfold CompletePage. destruct isPending, error; vm_compute; done.
Qed.

(** ** The answers *)

(** What a message does to the answers, seen as a plain fold. *)
Definition apply_answer (s : OnboardingState) (m : ob_msg) : OnboardingState :=
  match m with
  | Edit patch => flow_set patch s
  | ToggleUseCase id => toggleUseCase id s
  | _ => s
  end.

(** The layout stays mounted across the message. *)
Definition keeps_flow (m : ob_msg) : bool :=
  match m with SessionIs q => bool_decide (is_Some (layout_ready q)) | _ => true end.

Lemma update_answers `{Locale} f s m :
  ob_answers f = Some s → keeps_flow m = true →
  ob_answers (update f m).1 = Some (apply_answer s m).
Proof.
  intros Hs Hk. destruct f as [p q a pe er c]; simpl in Hs; subst a.
  destruct m as [q'|p'|patch|id|[p'|]| |call s'|call e]; simpl in *; try done.
  - apply bool_decide_eq_true in Hk as [[t u] Ht]. unfold mount_flow. by rewrite Ht.
  - by case_bool_decide.
Qed.

(** C10: While the session stays readable, the flow's answers are exactly the fold
    of the edits made on the steps: navigation, refetches of the session,
    submissions and their failures neither lose nor change an answer. *)
Theorem answers_persist `{Locale} f s ms :
  ob_answers f = Some s → forallb keeps_flow ms = true →
  ob_answers (run f ms).1 = Some (foldl apply_answer s ms).
Proof.
  revert f s. induction ms as [|m ms IH]; intros f s Hs Hk; [done|].
  simpl in Hk. apply andb_true_iff in Hk as [Hm Hms].
  rewrite run_cons; simpl. apply IH; [|done]. by apply update_answers.
Qed.

Definition demo_user := mkUser "u1" "Ada" "ada@acme.io".
Definition demo_tenant := mkTenant "t1" None None None [] None false.
Definition demo_session := mkSession (Some demo_user) (Some demo_tenant).
Definition demo_ok := mkQuery (Some demo_session) false None.
Definition demo_failed := mkQuery (Some demo_session) false (Some (ConnectErr Unavailable "[unavailable] down" "down")).
Definition demo_flow : Flow :=
  (run (mkFlowState "/onboarding/organization" (mkQuery None true None) None None None 0) [SessionIs demo_ok]).1.

Lemma answers_persist_witness :
  ob_answers (run demo_flow [ToggleUseCase "other"; set_useCaseOther " rota "; Visit "/onboarding/region";
                             SessionIs demo_ok; set_region "eu-west"; ToggleUseCase "sales"]).1 =
  Some (mkFlow "Acme" None ["other"; "sales"] " rota " "eu-west").
Proof.
  rewrite (answers_persist demo_flow (mkFlow "Acme" None [] "" "")); vm_compute; reflexivity.
Defined.

(** A session refetch that fails for a passing reason blanks the onboarding
    screen without any redirect and drops every answer given so far: the next
    successful refetch starts again from what the server has. *)
Theorem failed_refetch_drops_answers `{Locale} f ms q e q' t u :
  q_error q = Some e → isAuthError e = false → layout_ready q' = Some (t, u) →
  let blank := run (run f ms).1 [SessionIs q] in
  let back := run blank.1 [SessionIs q'] in
  OnboardingLayout blank.1 = Text "" ∧ blank.2 = [] ∧
  ob_answers back.1 = Some (OnboardingFlowProvider (initial_answers t u)).
Proof.
  intros He Hauth Hq'. cbv zeta. destruct (run f ms).1 as [p qq a pe er c]. cbn -[layout_ready].
  assert (Hn : layout_ready q = None).
  { unfold layout_ready. rewrite He. by destruct (q_isPending q). }
  unfold mount_flow. rewrite Hn. cbn -[layout_ready]. unfold mount_flow. rewrite Hq'. cbn.
  repeat split. rewrite app_nil_r. unfold layout_effect. rewrite He, Hauth. by destruct (q_isPending q).
Qed.

Lemma failed_refetch_drops_answers_witness :
  ob_answers (run (run (run demo_flow [set_orgName "Acme Robotics"; ToggleUseCase "sales"]).1
                       [SessionIs demo_failed]).1 [SessionIs demo_ok]).1 =
  Some (mkFlow "Acme" None [] "" "").
Proof.
  destruct (failed_refetch_drops_answers demo_flow [set_orgName "Acme Robotics"; ToggleUseCase "sales"]
           demo_failed (ConnectErr Unavailable "[unavailable] down" "down") demo_ok demo_tenant demo_user
           eq_refl eq_refl eq_refl) as (_ & _ & Hback).
  rewrite Hback. vm_compute. reflexivity.
Defined.

(** ** The submission *)

Definition times (x : string) (ids : list string) : nat := length (List.filter (λ y, y === x) ids).

Lemma toggle_includes id s x :
  includes (useCases (toggleUseCase id s)) x = xorb (includes (useCases s) x) (id === x).
Proof. apply includes_js_toggle. Qed.

Lemma toggle_NoDup id s : NoDup (useCases s) → NoDup (useCases (toggleUseCase id s)).
Proof. apply NoDup_js_toggle. Qed.

Lemma toggles_parity ids s x :
  includes (useCases (foldl (λ s id, toggleUseCase id s) s ids)) x =
  xorb (includes (useCases s) x) (Nat.odd (times x ids)).
Proof.
  revert s. induction ids as [|id ids IH]; intros s; [by rewrite xorb_false_r|].
  cbn [foldl]. rewrite IH, toggle_includes, xorb_assoc_reverse. f_equal. unfold times; simpl.
  case_bool_decide; [|by rewrite xorb_false_l]. cbn [length]. rewrite Nat.odd_succ, <-Nat.negb_odd.
  by rewrite xorb_true_l.
Qed.

Lemma toggles_NoDup ids s :
  NoDup (useCases s) → NoDup (useCases (foldl (λ s id, toggleUseCase id s) s ids)).
Proof. revert s. induction ids; intros s Hs; simpl; [done|]. auto using toggle_NoDup. Qed.

Lemma toggles_other ids s :
  useCaseOther (foldl (λ s id, toggleUseCase id s) s ids) = useCaseOther s ∧
  orgName (foldl (λ s id, toggleUseCase id s) s ids) = orgName s ∧
  region (foldl (λ s id, toggleUseCase id s) s ids) = region s.
Proof. revert s. induction ids as [|id ids IH]; intros s; simpl; [done|]. by destruct (IH (toggleUseCase id s)). Qed.

(** The submission after any sequence of clicks in the use-case grid lists an
    area exactly when it was clicked an odd number of times more than it was
    seeded, each once; the free text is sent, trimmed, exactly when "other" is
    chosen; name and region are the ones on the form. *)
Theorem submission_reflects_clicks s ids :
  NoDup (useCases s) →
  let r := finish_request (foldl (λ s id, toggleUseCase id s) s ids) in
  (∀ x, In x (cor_useCases r) ↔ xorb (includes (useCases s) x) (Nat.odd (times x ids)) = true) ∧
  NoDup (cor_useCases r) ∧
  cor_useCaseOther r =
    (if xorb (includes (useCases s) "other") (Nat.odd (times "other" ids)) then trim (useCaseOther s) else "") ∧
  trim (cor_useCaseOther r) = cor_useCaseOther r ∧
  cor_name r = orgName s ∧ cor_region r = region s.
Proof.
  intros Hs r. destruct (toggles_other ids s) as (H1 & H2 & H3).
  subst r. unfold finish_request; simpl. rewrite toggles_parity, H1. repeat split; try done.
  - intros Hx. by rewrite <-toggles_parity, includes_In.
  - intros Hx. by rewrite <-includes_In, toggles_parity.
  - by apply toggles_NoDup.
  - destruct (xorb _ _); [apply trim_idemp|done].
Qed.

Lemma submission_reflects_clicks_witness :
  cor_useCases (finish_request (foldl (λ s id, toggleUseCase id s)
    (mkFlow "Acme" None ["sales"] " rota " "eu-west") ["other"; "sales"; "people"; "sales"])) =
  ["other"; "people"; "sales"] ∧
  cor_useCaseOther (finish_request (foldl (λ s id, toggleUseCase id s)
    (mkFlow "Acme" None ["sales"] " rota " "eu-west") ["other"; "sales"; "people"; "sales"])) = "rota".
Proof.
  split; [reflexivity|].
  assert (Hnd : NoDup ["sales"]) by apply NoDup_singleton.
  destruct (submission_reflects_clicks (mkFlow "Acme" None ["sales"] " rota " "eu-west")
              ["other"; "sales"; "people"; "sales"] Hnd) as (_ & _ & Hother & _).
  rewrite Hother. vm_compute. reflexivity.
Defined.

(** ** The two gates *)

(** C31: The application gate and the onboarding gate never bounce a session
    between them: a session the application sends to onboarding stays there (its
    layout navigates nowhere, and shows the flow as soon as the session names a
    user and a tenant), a session the onboarding sends to the application is
    shown the application, and both send a rejected session to the entry page. *)
Theorem gates_do_not_loop {M} (q : query GetSessionResponse) (children : view (gate_msg M)) :
  (In (RouterReplace "/onboarding") (gate_effect q) →
     layout_effect q = [] ∧
     (is_Some (layout_ready q) ↔
      ∃ u t, q_data q = Some (mkSession (Some u) (Some t)))) ∧
  (In (RouterReplace "/book") (layout_effect q) →
     gate_effect q = [] ∧ AppGate q children = children) ∧
  (In (RouterReplace "/") (gate_effect q) ↔ In (RouterReplace "/") (layout_effect q)).
Proof.
  destruct q as [d p e]. unfold gate_effect, layout_effect, layout_ready, AppGate; simpl.
  destruct p; simpl; [naive_solver|].
  destruct e as [e|]; simpl; [destruct (isAuthError e); simpl; naive_solver|].
  destruct (onboarded d) eqn:Ho; simpl.
  - destruct d as [[u t]|]; simpl in *; naive_solver.
  - destruct d as [[[u|] [t|]]|]; simpl in *; naive_solver.
Qed.

Lemma gates_do_not_loop_witness :
  layout_effect demo_ok = [] ∧ is_Some (layout_ready demo_ok).
Proof.
  destruct (gates_do_not_loop demo_ok (Text "app" : view (gate_msg unit))) as [Hto _].
  destruct Hto as [Hl Hr]; [vm_compute; by left|].
  split; [exact Hl|]. apply Hr. by exists demo_user, demo_tenant.
Defined.
