(* ===== verification/SyncSchedule.v ===== *)
(** * The auto-sync schedule editor

    Models [web/components/app/sync-schedule.tsx] and [humanizeInterval] of
    [web/app/(app)/sources/[id]/page.tsx], on JavaScript numbers: the interval is
    whatever double the arithmetic gives, infinity included. *)
From stdpp Require Import base list strings.
From Stdlib Require Import ZArith Lia QArith Qround.
From S2P Require Import Prelude JsString JsNumber Proto View.
#[local] Open Scope string_scope.
#[local] Open Scope list_scope.
#[local] Open Scope Z_scope.

Definition MIN_SECONDS : Z := 60.

Definition PRESETS : list (string * Z) :=
  [("15 min", 900); ("1 hour", 3600); ("6 hours", 21600); ("24 hours", 86400)].

Definition UNITS : list (string * Z) := [("min", 60); ("hr", 3600); ("day", 86400)].

(** The loop of [decompose] over the units, largest first. *)
Fixpoint first_dividing (seconds : JsNumber) (units : list (string * Z)) : option Z :=
  match units with
  | [] => None
  | (_, u) :: rest => if num_eq (rem seconds (int u)) (int 0) then Some u else first_dividing seconds rest
  end.

Definition decompose (seconds : JsNumber) : JsNumber * Z :=
  match first_dividing seconds (rev UNITS) with
  | Some u => (div seconds (int u), u)
  | None => (Math_max (int 1) (Math_round (div seconds (int 60))), 60)
  end.

(** ** State and messages *)

(** The value of a frequency segment: seconds, or the string "custom". *)
Inductive frequency := Seconds (s : JsNumber) | CustomFrequency.

Definition frequency_eq (a b : frequency) : bool :=
  match a, b with
  | Seconds x, Seconds y => num_eq x y
  | CustomFrequency, CustomFrequency => true
  | _, _ => false
  end.

Record Sched := mkSched { custom : bool; value : string; unit_seconds : Z }.

Inductive sched_msg :=
| PickFrequency (f : frequency)
| TypeValue (raw : string)
| PickUnit (u : Z)
| SwitchEnabled (b : bool).

(** The calls to the parent's props. *)
Inductive sched_event := IntervalChange (s : JsNumber) | EnabledChange (b : bool).

Definition sched_init (intervalSeconds : JsNumber) : Sched :=
  let matched := List.find (λ p, num_eq (int p.2) intervalSeconds) PRESETS in
  let initial := decompose intervalSeconds in
  mkSched (negb (bool_decide (is_Some (snd <$> matched)))) (Number_to_string initial.1) initial.2.

Definition applyCustom (st : Sched) (rawValue : string) (unitSeconds : Z) : Sched * list sched_event :=
  let st' := mkSched (custom st) rawValue unitSeconds in
  let n := Number_of_string rawValue in
  if negb (isFinite n) || le n (int 0) then (st', [])
  else
    let seconds := Math_round (mul n (int unitSeconds)) in
    if lt seconds (int MIN_SECONDS) then (st', []) else (st', [IntervalChange seconds]).

Definition pickFrequency (intervalSeconds : JsNumber) (st : Sched) (f : frequency) : Sched * list sched_event :=
  match f with
  | CustomFrequency =>
      let d := decompose intervalSeconds in (mkSched true (Number_to_string d.1) d.2, [])
  | Seconds v => (mkSched false (value st) (unit_seconds st), [IntervalChange v])
  end.

Definition sched_update (intervalSeconds : JsNumber) (st : Sched) (m : sched_msg) : Sched * list sched_event :=
  match m with
  | PickFrequency f => pickFrequency intervalSeconds st f
  | TypeValue raw => applyCustom st raw (unit_seconds st)
  | PickUnit u => applyCustom st (value st) u
  | SwitchEnabled b => (st, [EnabledChange b])
  end.

Definition customSeconds (st : Sched) : JsNumber :=
  Math_round (mul (Number_of_string (value st)) (int (unit_seconds st))).

Definition belowMin (st : Sched) : bool :=
  custom st && (negb (isFinite (customSeconds st)) || lt (customSeconds st) (int MIN_SECONDS)).

(** ** The view *)

Definition Segmented {T M} (eqb : T → T → bool) (options : list (string * T)) (v : T)
    (onChange : T → M) (ariaLabel : string) : view M :=
  El "div" [Attr "role" "radiogroup"; Attr "aria-label" ariaLabel]
    (map (λ '(label, x), let active := eqb x v in
       El "button" [Attr "role" "radio"; BoolAttr "aria-checked" active; OnClick (onChange x);
                    Attr "class" (if active then "bg-background text-foreground shadow-sm"
                                  else "text-muted-foreground hover:text-foreground")]
          [Text label]) options).

Definition freqOptions : list (string * frequency) :=
  map (λ p, (p.1, Seconds (int p.2))) PRESETS ++ [("Custom", CustomFrequency)].

Definition SyncSchedule (enabled : bool) (intervalSeconds : JsNumber) (st : Sched) : view sched_msg :=
  El "div" []
    (El "div" []
       [El "div" [] [El "p" [] [Text "Auto-sync"];
                     El "p" [] [Text "Check for new items on a schedule. Off → this source syncs only when you click Sync now."]];
        El "Switch" [BoolAttr "checked" enabled; OnChecked SwitchEnabled; Attr "aria-label" "Auto-sync"] []] ::
     when enabled
       [El "div" []
         ([El "p" [] [Text "Frequency"];
           Segmented frequency_eq freqOptions
             (if custom st then CustomFrequency else Seconds intervalSeconds) PickFrequency "Sync frequency"] ++
          when (custom st)
            [El "div" []
              [El "span" [] [Text "Every"];
               El "Input" [Attr "type" "number"; Attr "min" "1"; Attr "value" (value st); OnChange TypeValue;
                           Attr "aria-label" "Interval value"] [];
               Segmented Z.eqb UNITS (unit_seconds st) PickUnit "Interval unit";
               El "span" [Attr "class" (if belowMin st then "text-destructive" else "text-muted-foreground")]
                  [Text "Minimum 1 minute."]]])]).

(** ** [humanizeInterval]: the field is an [int32] of the message *)

Definition humanize_unit (n : Z) (label : string) : string :=
  if label === "min" then num n +:+ " min"
  else num n +:+ " " +:+ label +:+ (if n =? 1 then "" else "s").

(** [Math.round(seconds / 60)] of a 32-bit integer: the quotient's rounding error
    is far below the 1/60 that separates it from a half. *)
Definition humanizeInterval (seconds : Z) : string :=
  if Z.rem seconds 86400 =? 0 then humanize_unit (Z.quot seconds 86400) "day"
  else if Z.rem seconds 3600 =? 0 then humanize_unit (Z.quot seconds 3600) "hour"
  else if Z.rem seconds 60 =? 0 then humanize_unit (Z.quot seconds 60) "min"
  else num ((seconds + 30) / 60) +:+ " min".

(** ** Lemmas: [decompose] on whole seconds *)

Lemma round_double_comp a b : (a == b)%Q → round_double a = round_double b.
Proof. intros Hab%Qred_complete. unfold round_double. by rewrite Hab. Qed.

Lemma Qfloor_div s u : 0 < u → Qfloor (inject_Z s / inject_Z u) = s / u.
Proof.
  intros Hu. destruct u as [|p|p]; [lia| |lia].
  unfold Qdiv, Qinv, inject_Z, Qmult, Qfloor; cbn. by rewrite Z.mul_1_r.
Qed.

Lemma rem_int s u : 0 <= s → 0 < u → num_eq (rem (int s) (int u)) (int 0) = (s mod u =? 0).
Proof.
  intros Hs Hu. unfold rem, int. cbn [Qnum inject_Z]. destruct (Z.eqb_spec u 0); [lia|]. cbn [num_eq].
  unfold Qtrunc. assert (Hsign : sign (inject_Z s / inject_Z u) = false).
  { unfold sign. apply Z.ltb_ge. destruct u as [|p|p]; [lia| |lia].
    unfold Qdiv, Qinv, inject_Z, Qmult; cbn. lia. }
  rewrite Hsign, Qfloor_div by done. apply eq_true_iff_eq. rewrite Qeq_bool_iff, Z.eqb_eq.
  unfold Qeq, Qminus, Qplus, Qopp, Qmult, inject_Z; cbn. zlia.
Qed.

Lemma div_int v u : 0 <= v → 0 < u → v < 2 ^ 53 → div (int (v * u)) (int u) = int v.
Proof.
  intros Hv Hu Hlt. unfold div, int. cbn [Qnum inject_Z]. destruct (Z.eqb_spec u 0); [lia|].
  rewrite (round_double_comp _ (inject_Z v)); [apply round_double_int; lia|].
  rewrite inject_Z_mult. field. intros Hz. unfold Qeq, inject_Z in Hz; cbn in Hz. lia.
Qed.

(** A whole number of minutes splits exactly, into the largest unit. *)
Lemma decompose_minutes s :
  0 <= s < 2 ^ 53 → s mod 60 = 0 →
  ∃ v w, decompose (int s) = (int v, w) ∧ v * w = s ∧ 0 <= v ∧ (w = 60 ∨ w = 3600 ∨ w = 86400) ∧
         (∀ u, (u = 60 ∨ u = 3600 ∨ u = 86400) → s mod u = 0 → u <= w).
Proof.
  intros Hs H60. unfold decompose. cbn [rev UNITS app first_dividing].
  rewrite !rem_int by lia.
  destruct (Z.eqb_spec (s mod 86400) 0); [|destruct (Z.eqb_spec (s mod 3600) 0);
    [|destruct (Z.eqb_spec (s mod 60) 0); [|lia]]].
  all: match goal with |- context [div _ (int ?u)] =>
    exists (s / u), u; replace s with (s / u * u) at 1 by zlia; rewrite div_int by zlia
  end; repeat split; try zlia; intros u' [->|[->| ->]]; zlia.
Qed.

Lemma unit_cases u : In u (map snd UNITS) → u = 60 ∨ u = 3600 ∨ u = 86400.
Proof. simpl. lia. Qed.

(** Entering a whole number [n] of units reports exactly [n] units. *)
Lemma apply_whole st n u :
  (u = 60 ∨ u = 3600 ∨ u = 86400) → 0 < n → n * u < 2 ^ 53 →
  applyCustom st (num n) u = (mkSched (custom st) (num n) u, [IntervalChange (int (n * u))]).
Proof.
  intros Hu Hn Hb. unfold applyCustom. rewrite Number_of_num by nia. cbn [isFinite int negb orb].
  change (Finite (inject_Z n)) with (int n). rewrite le_int, mul_int, Math_round_int, lt_int by nia.
  unfold MIN_SECONDS. destruct (Z.leb_spec n 0); [lia|]. destruct (Z.ltb_spec (n * u) 60); [nia|done].
Qed.

Lemma customSeconds_whole c n u :
  0 <= n → Z.abs (n * u) < 2 ^ 53 → n < 2 ^ 53 → customSeconds (mkSched c (num n) u) = int (n * u).
Proof.
  intros. unfold customSeconds; simpl. rewrite Number_of_num by lia. by rewrite mul_int, Math_round_int.
Qed.


(** ** Properties of the editor *)

(** C11: The custom editor round-trips: typing a whole number [n] of minutes, hours
    or days reports exactly that many seconds to the parent and raises no hint,
    and opening the editor again on the reported value shows the largest unit
    that divides it, with a number that means the same interval. *)
Theorem editor_round_trip st n u :
  In u (map snd UNITS) → 0 < n → n * u < 2 ^ 53 →
  let typed := sched_update (int 0) (mkSched true (value st) u) (TypeValue (num n)) in
  typed.2 = [IntervalChange (int (n * u))] ∧ belowMin typed.1 = false ∧
  let again := (sched_update (int (n * u)) typed.1 (PickFrequency CustomFrequency)).1 in
  custom again = true ∧ customSeconds again = int (n * u) ∧ belowMin again = false ∧
  (∀ w, In w (map snd UNITS) → (n * u) mod w = 0 → w <= unit_seconds again).
Proof.
  intros Hu%unit_cases Hn Hb typed. unfold typed, sched_update. rewrite apply_whole by done. cbn [fst snd].
  assert (Hok : ∀ c v w, 0 <= v → v * w = n * u → v < 2 ^ 53 →
            belowMin (mkSched c (num v) w) = false ∧ customSeconds (mkSched c (num v) w) = int (n * u)).
  { intros c v w Hv Heq Hv'. unfold belowMin; simpl. rewrite customSeconds_whole, Heq by lia. split; [|done].
    cbn [isFinite int negb orb]. change (Finite (inject_Z (n * u))) with (int (n * u)).
    rewrite lt_int. unfold MIN_SECONDS. destruct (Z.ltb_spec (n * u) 60); [nia|]. by rewrite andb_false_r. }
  split; [done|]. split; [apply Hok; cbn; destruct Hu as [->|[->| ->]]; lia|].
  destruct (decompose_minutes (n * u)) as (v & w & Hd & Hvw & Hv & Hw & Hmax).
  { destruct Hu as [->|[->| ->]]; lia. } { destruct Hu as [->|[->| ->]]; zlia. }
  assert (Hv53 : v < 2 ^ 53) by (destruct Hw as [->|[->| ->]]; lia).
  unfold pickFrequency. rewrite Hd. cbn [fst snd custom unit_seconds].
  assert (Hs : Number_to_string (int v) = num v).
  { unfold Number_to_string, int, int_to_string. rewrite Qfloor_Z.
    assert (2 ^ 53 < 10 ^ 21) by done. destruct (Z.ltb_spec (Z.abs v) (10 ^ 21)); [done|lia]. }
  rewrite Hs. destruct (Hok true v w Hv Hvw) as [? ?]; [lia|].
  repeat split; try done. intros w' Hw'%unit_cases. by apply Hmax.
Qed.

Lemma editor_round_trip_witness :
  customSeconds (sched_update (int (48 * 3600))
    (sched_update (int 0) (mkSched true "" 3600) (TypeValue (num 48))).1 (PickFrequency CustomFrequency)).1
  = int 172800.
Proof.
  assert (Hu : In 3600 (map snd UNITS)) by (simpl; lia).
  destruct (editor_round_trip (mkSched true "" 3600) 48 3600 Hu ltac:(lia) ltac:(lia))
    as (_ & _ & _ & Hc & _).
  exact Hc.
Defined.



(** The editor has no upper bound. A whole number of units whose seconds exceed
    the [int32] of the request is accepted without a hint, and a finite number
    whose product overflows is reported as an infinite interval although the
    hint flags it. *)
Theorem interval_has_no_ceiling st :
  custom st = true →
  (∀ n u, In u (map snd UNITS) → 0 < n → 2 ^ 31 <= n * u < 2 ^ 53 →
     let r := applyCustom st (num n) u in
     r.2 = [IntervalChange (int (n * u))] ∧ belowMin r.1 = false ∧ ¬ int32 (n * u)) ∧
  (let r := applyCustom st "1e308" 86400 in
   r.2 = [IntervalChange (Infinity false)] ∧ belowMin r.1 = true).
Proof.
  intros Hc. split.
  - intros n u Hu%unit_cases Hn Hb r. subst r. rewrite apply_whole by (done || lia). cbn [fst snd].
    split; [done|]. split; [|unfold int32; lia].
    unfold belowMin. rewrite customSeconds_whole by (destruct Hu as [->|[->| ->]]; lia).
    cbn [custom isFinite int negb orb]. change (Finite (inject_Z (n * u))) with (int (n * u)). rewrite lt_int.
    unfold MIN_SECONDS. destruct (Z.ltb_spec (n * u) 60); [lia|]. apply andb_false_r.
  - unfold applyCustom, belowMin. rewrite Hc. vm_compute. done.
Qed.

Lemma interval_has_no_ceiling_witness :
  (applyCustom (mkSched true "1" 86400) (num 30000) 86400).2 = [IntervalChange (int 2592000000)].
Proof.
  destruct (interval_has_no_ceiling (mkSched true "1" 86400) eq_refl) as [H _].
  assert (Hu : In 86400 (map snd UNITS)) by (simpl; lia).
  apply (H 30000 86400 Hu); lia.
Defined.
