(* ===== verification/Time.v ===== *)
(** * Relative times

    Models [web/components/app/relative-time.tsx] and the [timeAgo] of
    [web/app/(app)/audit/page.tsx]. Dates are epochs in milliseconds. The
    conversion of a protobuf timestamp to a [Date] belongs to the protobuf
    runtime: it is the operation of the class [Wkt]. *)
From stdpp Require Import base list strings.
From Stdlib Require Import ZArith Lia.
From S2P Require Import Prelude JsString Proto View.
#[local] Open Scope string_scope.
#[local] Open Scope list_scope.
#[local] Open Scope Z_scope.

(** [@bufbuild/protobuf/wkt]. *)
Class Wkt := timestampDate : Timestamp → Z.

(** [Math.round(n / d)] for integers: the quotients taken here are of instants a
    timestamp can hold, so the rounding of the division cannot reach a half. *)
Definition round_div (n d : Z) : Z := (2 * n + d) / (2 * d).

(** ** [relative-time.tsx] *)

(** [toDate]: an absent value, a [Date] (its epoch), or a timestamp. *)
Inductive moment := NoMoment | DateValue (epoch : Z) | TimestampValue (t : Timestamp).
Definition toDate `{Wkt} (value : moment) : option Z :=
  match value with
  | NoMoment => None
  | DateValue d => Some d
  | TimestampValue t => Some (timestampDate t)
  end.

(** The table of [formatRelative]; the limit [Infinity] is [None]. *)
Definition relative_units : list (option Z * Z * string) :=
  [(Some 60, 60, "minute"); (Some 3600, 60, "minute"); (Some 86400, 3600, "hour");
   (Some 2592000, 86400, "day"); (Some 31536000, 2592000, "month"); (None, 31536000, "year")].

Fixpoint relative_pick (seconds : Z) (units : list (option Z * Z * string)) : option (Z * string) :=
  match units with
  | [] => None
  | (limit, secs, name) :: rest =>
      if match limit with Some l => seconds <? l | None => true end
      then Some (Z.max 1 (seconds / secs), name)
      else relative_pick seconds rest
  end.

Definition elapsed_seconds (now date : Z) : Z := Z.max 0 (round_div (now - date) 1000).

(** The number and unit of the label; [None] is "just now". *)
Definition relative_parts (now date : Z) : option (Z * string) :=
  let seconds := elapsed_seconds now date in
  if seconds <? 45 then None else relative_pick seconds relative_units.

Definition formatRelative (now date : Z) : string :=
  match relative_parts now date with
  | Some (n, name) => num n +:+ " " +:+ name +:+ (if n =? 1 then "" else "s") +:+ " ago"
  | None => "just now"
  end.

(** [new Intl.DateTimeFormat(...)] with every field named. *)
Definition formatExact `{Locale} (date : Z) : string := dateExact date.

Section RelativeTime.
Context `{Locale} `{Wkt} {M : Type}.

(** Without a date no interval is set up; with one, every 30 s. *)
Definition relative_interval (value : moment) : option Z :=
  match toDate value with None => None | Some _ => Some 30000 end.

Definition RelativeTime (now : Z) (value : moment) : view M :=
  match toDate value with
  | None => El "span" [] [Text "Never"]
  | Some date =>
      El "Tooltip" []
        [El "TooltipTrigger" [] [El "span" [Attr "tabIndex" "0"] [El "Clock" [] []; Text (formatRelative now date)]];
         El "TooltipContent" [] [Text (formatExact date)]]
  end.

End RelativeTime.

(** ** [timeAgo] *)

Definition AUDIT_UNITS : list (string * Z) :=
  [("year", 60 * 60 * 24 * 365); ("month", 60 * 60 * 24 * 30); ("week", 60 * 60 * 24 * 7);
   ("day", 60 * 60 * 24); ("hour", 60 * 60); ("minute", 60); ("second", 1)].

Fixpoint ago_pick (diffSeconds : Z) (units : list (string * Z)) : option (Z * string) :=
  match units with
  | [] => None
  | (unit, secs) :: rest =>
      if (secs <=? Z.abs diffSeconds) || (unit === "second") then Some (round_div diffSeconds secs, unit)
      else ago_pick diffSeconds rest
  end.

(** The arguments of the [RelativeTimeFormat]; the loop's fallthrough is (0, second). *)
Definition ago_parts (date now : Z) : Z * string :=
  ago_pick (round_div (date - now) 1000) AUDIT_UNITS ?? (0, "second").

Definition timeAgo `{Locale} (date now : Z) : string :=
  let '(n, u) := ago_parts date now in relativeFormat n u.

(** [useNow]: the clock of the page, refreshed by its interval. *)
Definition useNow_step (now : Z) (tick : option Z) : Z := tick ?? now.

(** ** Properties *)

(** The number of seconds in a unit of [formatRelative], its largest count, and
    the place of the unit in the scale. *)
Definition unit_info (name : string) : Z * Z * Z :=
  if name === "minute" then (60, 59, 1) else if name === "hour" then (3600, 23, 2)
  else if name === "day" then (86400, 29, 3) else if name === "month" then (2592000, 12, 4)
  else (31536000, 2 ^ 63, 5).

Lemma relative_pick_cases s :
  45 <= s →
  (s < 3600 ∧ relative_pick s relative_units = Some (Z.max 1 (s / 60), "minute")) ∨
  (3600 <= s < 86400 ∧ relative_pick s relative_units = Some (s / 3600, "hour")) ∨
  (86400 <= s < 2592000 ∧ relative_pick s relative_units = Some (s / 86400, "day")) ∨
  (2592000 <= s < 31536000 ∧ relative_pick s relative_units = Some (s / 2592000, "month")) ∨
  (31536000 <= s ∧ relative_pick s relative_units = Some (s / 31536000, "year")).
Proof.
  intros Hs. cbn [relative_pick relative_units].
  destruct (Z.ltb_spec s 60); [left; split; [lia|done]|].
  destruct (Z.ltb_spec s 3600); [left; split; [lia|done]|right].
  destruct (Z.ltb_spec s 86400); [left; split; [lia|]|right].
  { rewrite Z.max_r by zlia. done. }
  destruct (Z.ltb_spec s 2592000); [left; split; [lia|]|right].
  { rewrite Z.max_r by zlia. done. }
  destruct (Z.ltb_spec s 31536000); [left|right]; (split; [lia|]); rewrite Z.max_r by zlia; done.
Qed.

(** C37: The relative label never falls through its table: it reads "just now"
    exactly below 45 elapsed seconds, and otherwise gives the largest unit not
    longer than the elapsed time (a minute at least), counted down to the whole
    unit: at most 59 minutes, 23 hours, 29 days or 12 months. *)
Theorem relative_label_exact now date :
  let s := elapsed_seconds now date in
  match relative_parts now date with
  | None => s < 45
  | Some (n, name) =>
      let '(secs, most, _) := unit_info name in
      45 <= s ∧ 1 <= n ∧ n * secs <= Z.max s 60 ∧ s < (n + 1) * secs ∧ (name ≠ "year" → n <= most)
  end.
Proof.
  cbv zeta. unfold relative_parts. set (s := elapsed_seconds now date).
  destruct (Z.ltb_spec s 45); [done|].
  destruct (relative_pick_cases s) as [[? ->]|[[? ->]|[[? ->]|[[? ->]|[? ->]]]]]; [done|..];
    cbn -[Z.mul Z.add Z.max Z.div Z.le Z.lt]; repeat split; try zlia; intros Hy; first [done|zlia].
Qed.

(** A label's age rank: the unit first, then the count. *)
Definition label_seconds (p : option (Z * string)) : Z :=
  match p with None => 0 | Some (n, name) => n * (unit_info name).1.1 end.

Lemma label_seconds_pick s :
  45 <= s →
  label_seconds (relative_pick s relative_units) =
    (if s <? 3600 then Z.max 1 (s / 60) * 60 else if s <? 86400 then s / 3600 * 3600
     else if s <? 2592000 then s / 86400 * 86400 else if s <? 31536000 then s / 2592000 * 2592000
     else s / 31536000 * 31536000).
Proof.
  intros Hs.
  destruct (relative_pick_cases s) as [[? ->]|[[? ->]|[[? ->]|[[? ->]|[? ->]]]]]; [done|..];
    cbn -[Z.mul Z.add Z.max Z.div Z.le Z.ltb];
    repeat match goal with |- context [s <? ?c] => destruct (Z.ltb_spec s c); try lia end; done.
Qed.

(** The label only ages: as time passes the duration it stands for never
    decreases, so a label never jumps back to a more recent reading. *)
Theorem relative_label_ages now now' date :
  now <= now' →
  label_seconds (relative_parts now date) <= label_seconds (relative_parts now' date).
Proof.
  intros Hle. unfold relative_parts.
  assert (Hs : elapsed_seconds now date <= elapsed_seconds now' date).
  { unfold elapsed_seconds, round_div. apply Z.max_le_compat_l, Z.div_le_mono; lia. }
  assert (H0 : 0 <= elapsed_seconds now date) by (unfold elapsed_seconds; lia).
  generalize dependent (elapsed_seconds now' date). generalize dependent (elapsed_seconds now date).
  intros s H0 s' Hs. destruct (Z.ltb_spec s 45), (Z.ltb_spec s' 45); try lia; rewrite ?label_seconds_pick by lia.
  all: repeat match goal with |- context [?a <? ?c] => destruct (Z.ltb_spec a c); try lia end; cbn [label_seconds]; zlia.
Qed.

Lemma relative_label_ages_witness :
  label_seconds (relative_parts 1750000100000 1750000000000) <=
  label_seconds (relative_parts 1750007300000 1750000000000) ∧
  formatRelative 1750000100000 1750000000000 = "1 minute ago" ∧
  formatRelative 1750007300000 1750000000000 = "2 hours ago".
Proof.
  split; [apply relative_label_ages; lia|]. split; vm_compute; reflexivity.
Defined.

Lemma round_div_half x d : 0 < d → - d < 2 * (round_div x d * d - x) <= d.
Proof.
  intros Hd. unfold round_div.
  pose proof (Z.mul_div_le (2 * x + d) (2 * d) ltac:(lia)).
  pose proof (Z.mul_succ_div_gt (2 * x + d) (2 * d) ltac:(lia)). lia.
Qed.

(** The unit the loop stops at: the first not longer than the distance. *)
Lemma ago_pick_spec diff :
  ∃ unit secs, ago_pick diff AUDIT_UNITS = Some (round_div diff secs, unit) ∧ In (unit, secs) AUDIT_UNITS ∧
    0 < secs ∧ (secs <= Z.abs diff ∨ secs = 1) ∧
    (∀ u w, In (u, w) AUDIT_UNITS → w <= Z.abs diff → w <= secs).
Proof.
  cbn [ago_pick AUDIT_UNITS]. repeat rewrite bool_decide_eq_false_2 by done.
  rewrite bool_decide_eq_true_2 by done. rewrite !orb_false_r, orb_true_r.
  repeat match goal with
  | |- context [?a <=? Z.abs diff] => destruct (Z.leb_spec a (Z.abs diff))
  end;
  match goal with
  | |- context [Some (round_div ?x ?d, ?u)] => exists u, d
  end.
  all: split; [done|]; split; [cbn; tauto|]; split; [lia|]; split; [lia|].
  all: intros u w Hin Hw; cbn in Hin; destruct_or?; simplify_eq; lia.
Qed.

(** The audit log's phrase names a past event as past and a future one as
    future, is off by at most half of the unit it uses, and uses the largest unit
    not longer than the distance. *)
Theorem ago_within_half_unit date now :
  let diff := round_div (date - now) 1000 in
  let '(n, unit) := ago_parts date now in
  ∃ secs, In (unit, secs) AUDIT_UNITS ∧
    Z.abs (2 * (n * secs - diff)) <= secs ∧
    (diff < 0 → n < 0) ∧ (0 < diff → 0 < n) ∧ (diff = 0 → n = 0) ∧
    (∀ u w, In (u, w) AUDIT_UNITS → w <= Z.abs diff → w <= secs).
Proof.
  cbv zeta. unfold ago_parts. set (diff := round_div (date - now) 1000).
  destruct (ago_pick_spec diff) as (unit & secs & -> & Hin & Hpos & Hle & Hmax). cbn [default].
  pose proof (round_div_half diff secs Hpos). exists secs.
  repeat split; [done|lia| | | |done]; intros; nia.
Qed.

Lemma relative_label_exact_witness :
  relative_parts 1750000100000 1750000000000 = Some (1, "minute") ∧
  elapsed_seconds 1750000100000 1750000000000 < (1 + 1) * 60.
Proof.
  assert (Hp : relative_parts 1750000100000 1750000000000 = Some (1, "minute")) by (vm_compute; reflexivity).
  pose proof (relative_label_exact 1750000100000 1750000000000) as H. rewrite Hp in H.
  split; [exact Hp|]. destruct H as (_ & _ & _ & Hlt & _). exact Hlt.
Defined.
