(* ===== verification/Directory.v ===== *)
(** * The read-only surfaces: audit log, members, files and file detail

    Models [web/app/(app)/audit/page.tsx], [web/app/(app)/members/page.tsx],
    [web/app/(app)/files/page.tsx] and [web/app/(app)/files/[id]/page.tsx]. *)
From stdpp Require Import base list strings.
From Stdlib Require Import ZArith Lia Ascii Sorted.
From S2P Require Import Prelude JsString Proto Services Api View Session Time Nav.
#[local] Open Scope string_scope.
#[local] Open Scope list_scope.
#[local] Open Scope Z_scope.

(** A table head cell, and [n] skeleton rows of [k] cells. *)
Definition th {M} (label : string) : view M := El "th" [] [El "span" [] [Text label]].
Definition skeleton_rows {M} (n k : nat) : list (view M) :=
  replicate n (El "tr" [] (replicate k (El "td" [] [El "Skeleton" [] []]))).

(** ** Audit log *)

Definition PAGE : Z := 50.

Inductive audit_msg := Previous | Next.

Definition audit_update (offset : Z) (m : audit_msg) : Z :=
  match m with Previous => Z.max 0 (offset - PAGE) | Next => offset + PAGE end.

Definition ACTIONS : list (string * string) :=
  [("tenant.onboarded", "Completed onboarding"); ("tenant.updated", "Updated workspace settings");
   ("source.connect_started", "Connected a source"); ("source.connected", "Connected a source");
   ("source.disconnected", "Disconnected a source"); ("source.sync_triggered", "Triggered a sync");
   ("source.sync_stopped", "Stopped a sync"); ("feature_flag.updated", "Changed a feature flag")].

(** [ACTIONS[action] ?? action]; a member inherited from [Object.prototype] is
    not a string: [None]. *)
Definition actionLabel (action : string) : option string :=
  match js_get ACTIONS action with Own l => Some l | Missing => Some action | Inherited => None end.

Section Audit.
Context `{Locale} `{Wkt}.

Definition audit_row (now : Z) (e : AuditEvent) : view audit_msg :=
  El "tr" [Attr "key" (audit_id e)]
    [El "td" (match audit_occurredAt e with
              | Some t => [Attr "title" (dateToLocale (timestampDate t))] | None => [] end)
        [Text (match audit_occurredAt e with Some t => timeAgo (timestampDate t) now | None => "—" end)];
     El "td" [] [Text (audit_actorEmail e ||| audit_actorId e ||| "—")];
     El "td" [] (match actionLabel (audit_action e) with Some l => [Text l] | None => [] end);
     El "td" [] [Text (audit_target e ||| "—")]].

Definition audit_rows (q : query ListAuditEventsResponse) : list AuditEvent :=
  match q_data q with Some d => laer_events d | None => [] end.
Definition audit_total (q : query ListAuditEventsResponse) : Z :=
  match q_data q with Some d => laer_total d | None => 0 end.

(** The answer to [useQuery(listAuditEvents, { limit: PAGE, offset })]. *)
Definition AuditPage (offset : Z) (events : query ListAuditEventsResponse) (now : Z) : view audit_msg :=
  let rows := audit_rows events in
  let total := audit_total events in
  PageShell
    ([PageHeading "Audit log" (Some "Privileged actions in this workspace, newest first.");
      El "div" []
        (El "table" [] [El "thead" [] [El "tr" [] [th "When"; th "Who"; th "Action"; th "Target"]];
                        El "tbody" [] (when (q_isPending events) (skeleton_rows 8 4) ++
                                       when (negb (q_isPending events)) (map (audit_row now) rows))] ::
         when (negb (q_isPending events) && (js_length rows =? 0))
           [El "div" [] [Text "No activity recorded yet."]])] ++
     when (PAGE <? total)
       [El "div" []
          [El "span" [] [Text (num (offset + 1) +:+ "–" +:+ num (Z.min (offset + js_length rows) total) +:+
                               " of " +:+ num total)];
           El "div" []
             [El "Button" [BoolAttr "disabled" (offset =? 0); OnClick Previous] [Text "Previous"];
              El "Button" [BoolAttr "disabled" (total <=? offset + PAGE); OnClick Next] [Text "Next"]]]]).

End Audit.

(** ** Members *)

(** [r.replace(/^\w/, (c) => c.toUpperCase())]. *)
Definition is_word (a : ascii) : bool :=
  let n := nat_of_ascii a in
  ((97 <=? n) && (n <=? 122) || (65 <=? n) && (n <=? 90) || (48 <=? n) && (n <=? 57) || (n =? 95))%nat.

Section Members.
Context `{Locale} {M : Type}.

Definition upper_first_word (s : string) : string :=
  match s with
  | String a s' => if is_word a then toUpperCase (String a "") +:+ s' else s
  | EmptyString => ""
  end.

Definition role_label (r : string) : string :=
  upper_first_word (replace_all "_"%char " "%char (toLowerCase (strip_prefix "ORG_" r))).

Definition roleLabels (m : Member) : string :=
  match member_roles m with
  | [] => "Member"
  | roles => join ", " (map role_label roles)
  end.

Definition NotConnected : view M :=
  El "div" []
    [El "p" [] [Text "Member directory not connected"];
     El "p" [] [Text ("Connecting the identity provider surfaces who’s in this workspace. " +:+
                      "An admin needs to configure the directory service account.")]].

Definition MembersPage (members : query ListMembersResponse) : view M :=
  let rows := match q_data members with Some d => lmr_members d | None => [] end in
  let configured := match q_data members with Some d => lmr_configured d | None => false end in
  PageShell
    [PageHeading "Members" (Some "People with access to this workspace.");
     if q_isPending members then El "div" [] (replicate 4 (El "Skeleton" [] []))
     else if negb configured then NotConnected
     else if js_length rows =? 0 then El "p" [] [Text "No members found."]
     else El "table" []
            [El "thead" [] [El "tr" [] [th "Name"; th "Email"; th "Roles"]];
             El "tbody" [] (map (λ m, El "tr" [Attr "key" (member_id m)]
               [El "td" [] [Text (member_name m ||| member_email m ||| member_id m)];
                El "td" [] [Text (member_email m ||| "—")];
                El "td" [] [Text (roleLabels m)]]) rows)]].

End Members.

(** ** Files *)

Record FilesParams := mkFilesParams { param_connection : option string; param_project : option string }.

Inductive files_msg := SetProject (p : string) | OpenFile (id : string) | OpenOriginal.

(** [connById.get(id)]: the last connection with the id. *)
Definition connById (cs : list Connection) (id : string) : option Connection :=
  List.find (λ c, conn_id c === id) (rev cs).

(** [Array.from(new Set(...))]: first occurrences, in order. *)
Fixpoint unique (seen l : list string) : list string :=
  match l with
  | [] => []
  | x :: l' => if includes seen x then unique seen l' else x :: unique (x :: seen) l'
  end.

(** Default [sort()]: by UTF-16 code units. On UTF-8 bytes this is byte order,
    except that the leads 0xEE and 0xEF (U+E000 to U+FFFF) come after the four-byte
    ones (surrogate pairs). *)
Definition unit_rank (a : ascii) : Z :=
  let n := Z.of_nat (nat_of_ascii a) in if (n =? 0xEE) || (n =? 0xEF) then n + 16 else n.

Fixpoint unit_compare (a b : string) : Z :=
  match a, b with
  | EmptyString, EmptyString => 0
  | EmptyString, String _ _ => -1
  | String _ _, EmptyString => 1
  | String x a', String y b' =>
      if unit_rank x =? unit_rank y then unit_compare a' b' else unit_rank x - unit_rank y
  end.

Definition files_items (artifacts : query ListArtifactsResponse) : list Artifact :=
  match q_data artifacts with Some d => larr_artifacts d | None => [] end.

Definition file_projects (items : list Artifact) : list string :=
  js_sort unit_compare (unique [] (List.filter truthy (map art_containerName items))).

Definition shown (project : string) (items : list Artifact) : list Artifact :=
  if project === "all" then items else List.filter (λ a, art_containerName a === project) items.

Definition files_request (params : FilesParams) : ListArtifactsRequest :=
  mkListArtifacts 200 0 (param_connection params ?? "").

Definition files_init (params : FilesParams) : string := param_project params ?? "all".

Definition files_update (project : string) (m : files_msg) : string * list effect :=
  match m with
  | SetProject p => (p, [])
  | OpenFile id => (project, [RouterPush ("/files/" +:+ id)])
  | OpenOriginal => (project, [StopPropagation])
  end.

Section Files.
Context `{Locale} `{Wkt}.

Definition SourceCell (connectorId account : string) : view files_msg :=
  El "span" [] [ConnectorIcon connectorId; El "span" [] [Text (account ||| connectorId)]].

Definition file_row (cs : list Connection) (a : Artifact) : view files_msg :=
  let c := connById cs (art_connectionId a) in
  El "tr" [Attr "key" (art_id a); OnClick (OpenFile (art_id a))]
    [El "td" [] [El "span" [] [Text (art_externalId a ||| art_sourceNativeKind a)];
                 El "span" [] [Text (art_sourceNativeKind a)]];
     El "td" [] [SourceCell ((conn_connectorId <$> c) ?? art_connectorId a) ((conn_account <$> c) ?? "")];
     El "td" [] [Text (art_containerName a ||| "—")];
     El "td" [] [Text (match art_ingestedAt a with Some t => dateToLocale (timestampDate t) | None => "—" end)];
     El "td" [] (when (truthy (art_sourceUrl a))
       [El "a" [Attr "href" (art_sourceUrl a); Attr "aria-label" "Open original"; OnClick OpenOriginal] []])].

Definition FilesView (params : FilesParams) (project : string) (artifacts : query ListArtifactsResponse)
    (connections : query (list Connection)) : view files_msg :=
  let connectionId := param_connection params ?? "" in
  let items := files_items artifacts in
  let cs := q_data connections ?? [] in
  let source := if truthy connectionId then connById cs connectionId else None in
  let visible := shown project items in
  PageShell
    ([PageHeader None "" None "Files" (Some "Everything synced from your connected sources.") None;
      El "div" []
        (when (truthy connectionId)
           [El "span" [] (match source with Some c => [ConnectorIcon (conn_connectorId c)] | None => [] end ++
              [El "span" [] [Text (((conn_account <$> source) ?? "") ||| ((conn_connectorId <$> source) ?? "") ||| "Source")];
               El "Link" [Attr "href" "/files"; Attr "aria-label" "Clear source filter"] []])] ++
         [El "DropdownMenu" []
            [El "Button" [] [Text (if project === "all" then "All projects" else project)];
             El "DropdownMenuRadioGroup" [Attr "value" project; OnChange SetProject]
               (El "DropdownMenuRadioItem" [Attr "value" "all"] [Text "All projects"] ::
                map (λ p, El "DropdownMenuRadioItem" [Attr "key" p; Attr "value" p] [Text p]) (file_projects items))]]);
      El "div" []
        (El "table" []
           [El "thead" [] [El "tr" [] [th "Name"; th "Source"; th "Project"; th "Synced"; th "Actions"]];
            El "tbody" [] (if q_isPending artifacts then skeleton_rows 6 5 else map (file_row cs) visible)] ::
         when (negb (q_isPending artifacts) && (js_length visible =? 0))
           [El "div" [] [Text (if js_length items =? 0
                               then if truthy connectionId then "No files from this source yet."
                                    else "No files yet. Connect a source and sync to see synced items here."
                               else "No files in this project.")]])] ++
     match q_data artifacts with
     | Some d => when (js_length items <? larr_total d)
         [El "p" [] [Text ("Showing " +:+ num (js_length items) +:+ " of " +:+ num (larr_total d) +:+ ".")]]
     | None => []
     end).

(** [FilesPage]: the [Suspense] fallback while the search params resolve. *)
Definition FilesPage (params : option FilesParams) (project : string) (artifacts : query ListArtifactsResponse)
    (connections : query (list Connection)) : view files_msg :=
  match params with
  | None => PageShell [PageHeader None "" None "Files" None None]
  | Some ps => FilesView ps project artifacts connections
  end.

(** ** File detail *)

(** What [JSON.parse] of the decoded bytes gave: a value, or the text only. *)
Record Decoded (J : Type) := mkDecoded { dec_json : option J; dec_text : string }.
Arguments mkDecoded {J} _ _.
Arguments dec_json {J} _.
Arguments dec_text {J} _.

(** [TextDecoder] and [JSON.parse] are the runtime's. *)
Context {J : Type} (decodeText : list ascii → string) (parseJSON : string → option J).

Definition decode_content (bytes : option (list ascii)) : option (Decoded J) :=
  match bytes with
  | None => None
  | Some b => let text := decodeText b in Some (mkDecoded (parseJSON text) text)
  end.

Definition file_artifact (id : string) (artifacts : query ListArtifactsResponse) : option Artifact :=
  List.find (λ a, art_id a === id) (files_items artifacts).

Definition file_title (artifact : option Artifact) : string :=
  ((art_externalId <$> artifact) ?? "") ||| ((art_sourceNativeKind <$> artifact) ?? "") ||| "File".

Definition file_leaf (artifact : option Artifact) : option string :=
  match artifact with Some _ => Some (file_title artifact) | None => None end.

Definition ContentSkeleton : view files_msg :=
  El "div" [] (map (λ w, El "Skeleton" [Attr "width" (num w +:+ "%")] []) [90; 70; 80; 55; 75; 60]).

Definition FileDetailPage (JsonViewer : J → view files_msg) (id : string)
    (artifacts : query ListArtifactsResponse) (content : query (list ascii)) : view files_msg :=
  let artifact := file_artifact id artifacts in
  let decoded := decode_content (q_data content) in
  let url := (art_sourceUrl <$> artifact) ?? "" in
  PageShell
    (when (truthy url)
       [El "ChromeActions" [] [El "a" [Attr "href" url] [Text "Open original"]]] ++
     [PageHeader (Some "/files") "Back to files" None (file_title artifact)
        (match artifact with
         | Some a => Some (art_connectorId a +:+
                           (if truthy (art_containerName a) then " · " +:+ art_containerName a else ""))
         | None => None
         end) None] ++
     match artifact with
     | Some a =>
         [KeyValueList
           [mkKeyValueItem "Source" (Text (art_connectorId a));
            mkKeyValueItem "Project" (Text (art_containerName a ||| "—"));
            mkKeyValueItem "Kind" (Text (art_sourceNativeKind a ||| "—"));
            mkKeyValueItem "Synced" (Text (match art_ingestedAt a with
                                           | Some t => dateToLocale (timestampDate t) | None => "—" end))]]
     | None => []
     end ++
     [El "p" [] [Text "Content"];
      El "div" []
        [if q_isPending content then ContentSkeleton
         else match q_error content with
              | Some e => El "p" [] [Text ("Couldn’t load this file: " +:+ error_message e +:+ ".")]
              | None =>
                  match decoded with
                  | Some d => match dec_json d with
                              | Some v => JsonViewer v
                              | None => El "pre" [] [Text (dec_text d ||| "Empty file.")]
                              end
                  | None => El "pre" [] [Text "Empty file."]
                  end
              end]]).

End Files.

(** ** The pages of the audit log tile the log *)

Section AuditWalk.
Context `{Locale} `{Wkt}.

Lemma audit_row_no_button now e : buttons (audit_row now e) = [].
Proof. unfold audit_row. destruct (actionLabel (audit_action e)); by buttons_simpl. Qed.

(** The Next button works exactly when there are events beyond this page. *)
Lemma audit_next offset rows total now :
  press "Next" (AuditPage offset (mkQuery (Some (mkListAuditEventsResponse rows total)) false None) now) =
  if (PAGE <? total) && negb (total <=? offset + PAGE) then Some Next else None.
Proof.
  assert (Hb : buttons (AuditPage offset (mkQuery (Some (mkListAuditEventsResponse rows total)) false None) now) =
               when (PAGE <? total) [("Previous", offset =? 0, Some Previous);
                                     ("Next", total <=? offset + PAGE, Some Next)]).
  { unfold AuditPage, audit_rows, audit_total, PageShell, PageHeading, th. cbn [q_data q_isPending laer_events laer_total].
    buttons_simpl. rewrite buttons_map_none by apply audit_row_no_button.
    destruct (js_length rows =? 0), (PAGE <? total); by buttons_simpl. }
  unfold press. rewrite Hb. destruct (PAGE <? total); [|done]. cbn [when andb].
  destruct (offset =? 0), (total <=? offset + PAGE); reflexivity.
Qed.

(** The server, up, for a workspace with the log [all]. *)
Context (sys : Systems) (w : WorkspaceData).
Abbreviation all := (audit_log w).
Hypothesis log_readable : db_up sys = true ∧ is_Some (tenant_row w).

(** What the page gets for [{ limit: PAGE, offset }]. *)
Definition audit_answer (offset : Z) : query ListAuditEventsResponse :=
  match tenant_ListAuditEvents sys w (mkListAuditEventsRequest PAGE offset) with
  | Answered r => mkQuery (Some r) false None
  | Refused c => mkQuery None false (Some (ConnectErr c "" ""))
  end.

Lemma audit_answer_slice offset :
  audit_answer offset =
  mkQuery (Some (mkListAuditEventsResponse (take (Z.to_nat PAGE) (drop (Z.to_nat offset) all)) (js_length all))) false None.
Proof using log_readable.
  destruct log_readable as [Hup [t Ht]]. unfold audit_answer, tenant_ListAuditEvents, from_db. by rewrite Ht, Hup.
Qed.

(** The pages a reader sees who presses Next for as long as it can be pressed, at most [fuel] times. *)
Fixpoint read_on (fuel : nat) (offset now : Z) : list (list AuditEvent) :=
  audit_rows (audit_answer offset) ::
  match fuel with
  | O => []
  | S f => match press "Next" (AuditPage offset (audit_answer offset) now) with
           | Some m => read_on f (audit_update offset m) now
           | None => []
           end
  end.

(** The pages from [offset] on: one, or as many as the rest of the log fills. *)
Definition pages_from (offset : Z) : Z := Z.max 1 ((js_length all - offset + (PAGE - 1)) / PAGE).

Lemma pages_from_next offset : js_length all > offset + PAGE → pages_from offset = 1 + pages_from (offset + PAGE).
Proof.
  intros Hlt. unfold pages_from, PAGE in *.
  replace (js_length all - offset + (50 - 1)) with ((js_length all - (offset + 50) + (50 - 1)) + 1 * 50) by lia.
  rewrite Z.div_add by lia. pose proof (Z.div_le_lower_bound (js_length all - (offset + 50) + (50 - 1)) 50 1). lia.
Qed.

Lemma pages_from_last offset : js_length all <= offset + PAGE → pages_from offset = 1.
Proof.
  intros Hlt. unfold pages_from, PAGE in *.
  pose proof (Z.div_lt_upper_bound (js_length all - offset + (50 - 1)) 50 2). lia.
Qed.

Lemma read_on_from fuel offset now :
  0 <= offset → pages_from offset <= Z.of_nat fuel + 1 → (js_length all <= PAGE → offset = 0) →
  concat (read_on fuel offset now) = drop (Z.to_nat offset) all ∧
  js_length (read_on fuel offset now) = pages_from offset.
Proof using log_readable.
  revert offset. induction fuel as [|f IH]; intros offset Ho Hf Hs; cbn [read_on concat]; rewrite !audit_answer_slice;
    cbn [audit_rows q_data laer_events];
    assert (Hlast : js_length all <= offset + PAGE →
      take (Z.to_nat PAGE) (drop (Z.to_nat offset) all) = drop (Z.to_nat offset) all)
      by (intros Hl; apply take_ge; rewrite length_drop; unfold js_length, PAGE in *; lia).
  - destruct (Z.le_gt_cases (js_length all) (offset + PAGE)) as [Hl|Hl];
      [|rewrite pages_from_next in Hf by lia; unfold pages_from in Hf; lia].
    rewrite app_nil_r, Hlast, pages_from_last by done. done.
  - rewrite audit_next. destruct (Z.le_gt_cases (js_length all) (offset + PAGE)) as [Hl|Hl].
    + rewrite (proj2 (Z.leb_le (js_length all) (offset + PAGE)) Hl). cbn [negb]. rewrite andb_false_r, app_nil_r, Hlast by done.
      rewrite pages_from_last by done. done.
    + rewrite (proj2 (Z.leb_gt (js_length all) (offset + PAGE)) Hl).
      destruct (Z.ltb_spec PAGE (js_length all)) as [Hp|Hp]; [|rewrite Hs in Hl by lia; lia]. cbn [negb andb audit_update].
      rewrite pages_from_next in Hf by lia. destruct (IH (offset + PAGE)) as [E L]; [unfold PAGE; lia|lia|lia|].
      rewrite E, js_length_cons, L, (pages_from_next offset) by lia. split; [|done].
      replace (Z.to_nat (offset + PAGE)) with (Z.to_nat offset + Z.to_nat PAGE)%nat by (unfold PAGE; lia).
      rewrite <-drop_drop. apply take_drop.
Qed.

(** C19: Reading the audit log page by page, pressing Next for as long as the page enables
    it, shows every event of the log exactly once and in the server's order, on exactly
    as many pages as the log fills (one for an empty log): Next is disabled on the last of them, however
    often one would still press. *)
Theorem audit_pages_tile fuel now :
  pages_from 0 <= Z.of_nat fuel + 1 →
  concat (read_on fuel 0 now) = all ∧ js_length (read_on fuel 0 now) = Z.max 1 ((js_length all + 49) / 50).
Proof using log_readable.
  intros Hf. destruct (read_on_from fuel 0 now) as [E L]; [done|done|done|]. rewrite E, L. split; [done|].
  unfold pages_from, PAGE. do 2 f_equal. lia.
Qed.

End AuditWalk.

Definition demo_wkt : Wkt := λ t, ts_seconds t * 1000.
Definition demo_log : list AuditEvent :=
  map (λ n, mkAuditEvent (num (Z.of_nat n)) None "" "" "tenant.updated" "") (seq 0 120).
Definition demo_server : Systems := mkSystems true true (λ _, true) (λ _ _, true).
Definition demo_data : WorkspaceData :=
  mkWorkspaceData (Some (mkTenant "t1" None None None [] None true)) [] [] demo_log.

Lemma audit_pages_tile_witness :
  concat (@read_on _ demo_wkt demo_server demo_data 1000 0 0) = demo_log ∧
  js_length (@read_on _ demo_wkt demo_server demo_data 1000 0 0) = 3.
Proof.
  apply (@audit_pages_tile _ demo_wkt demo_server demo_data); [split; [reflexivity|eexists; reflexivity]|].
  vm_compute. discriminate.
Defined.

(** ** Failed queries *)

(** None of the list pages can tell a failed request from an empty answer: when
    the first request fails, the audit log says that nothing was recorded, the
    members page that the directory is not connected, and the files page that
    there are no files; the error appears nowhere. *)
Theorem failed_query_reads_as_empty `{Locale} `{Wkt} e now params connections :
  AuditPage 0 (mkQuery None false (Some e)) now =
    AuditPage 0 (mkQuery (Some (mkListAuditEventsResponse [] 0)) false None) now ∧
  MembersPage (M := unit) (mkQuery None false (Some e)) =
    MembersPage (mkQuery (Some (mkListMembersResponse [] false)) false None) ∧
  FilesView params "all" (mkQuery None false (Some e)) connections =
    FilesView params "all" (mkQuery (Some (mkListArtifactsResponse [] 0)) false None) connections.
Proof. repeat split; reflexivity. Qed.

(** ** The project filter of the files page *)

Lemma unique_In seen l x : In x (unique seen l) ↔ In x l ∧ ¬ In x seen.
Proof.
  revert seen. induction l as [|y l IH]; intros seen; simpl; [tauto|].
  destruct (includes seen y) eqn:Hy; simpl; rewrite IH; simpl.
  - apply includes_In in Hy. naive_solver.
  - apply includes_not_In in Hy. destruct (decide (y = x)); naive_solver.
Qed.

Lemma unique_NoDup seen l : NoDup (unique seen l).
Proof.
  revert seen. induction l as [|y l IH]; intros seen; simpl; [constructor|].
  destruct (includes seen y); [done|]. constructor; [|done].
  rewrite list_elem_of_In, unique_In. simpl. tauto.
Qed.

Lemma unit_compare_opp a b : unit_compare a b = - unit_compare b a.
Proof.
  revert b. induction a as [|x a IH]; intros [|y b]; simpl; try lia.
  destruct (Z.eqb_spec (unit_rank x) (unit_rank y)), (Z.eqb_spec (unit_rank y) (unit_rank x)); try lia. apply IH.
Qed.

(** The project menu of the files page lists exactly the named projects of the
    loaded files, each once and in order, and choosing one (other than a project
    literally named "all") shows precisely its files, at least one; a project
    named "all" cannot be singled out: its entry shows every file. *)
Theorem project_menu items :
  NoDup (file_projects items) ∧
  Sorted (λ a b, unit_compare a b <= 0) (file_projects items) ∧
  (∀ p, In p (file_projects items) ↔ p ≠ "" ∧ ∃ a, In a items ∧ art_containerName a = p) ∧
  (∀ p, In p (file_projects items) → p ≠ "all" →
     shown p items ≠ [] ∧ ∀ a, In a (shown p items) ↔ In a items ∧ art_containerName a = p) ∧
  shown "all" items = items.
Proof.
  assert (Hin : ∀ p, In p (file_projects items) ↔ p ≠ "" ∧ ∃ a, In a items ∧ art_containerName a = p).
  { intros p. unfold file_projects. rewrite js_sort_In, unique_In, filter_In, in_map_iff, truthy_true.
    simpl. naive_solver. }
  assert (Hshown : ∀ p, p ≠ "all" → ∀ a, In a (shown p items) ↔ In a items ∧ art_containerName a = p).
  { intros p Hp a. unfold shown. rewrite bool_decide_eq_false_2 by done.
    by rewrite filter_In, bool_decide_eq_true. }
  split; [|split; [|split; [done|split; [|done]]]].
  - unfold file_projects. rewrite js_sort_perm. apply unique_NoDup.
  - apply js_sort_sorted. intros a b. rewrite unit_compare_opp. lia.
  - intros p Hp Hall. split; [|by apply Hshown]. intros Hnil. apply Hin in Hp as (_ & a & Ha & Hc).
    assert (Hx : In a (shown p items)) by (by apply Hshown). by rewrite Hnil in Hx.
Qed.

Definition demo_file (id project : string) : Artifact := mkArtifact id "github" "issue" project "" "" None "c1".
Definition demo_files : list Artifact := [demo_file "1" "web"; demo_file "2" "api"; demo_file "3" ""; demo_file "4" "web"].

Lemma project_menu_witness :
  file_projects demo_files = ["api"; "web"] ∧ shown "web" demo_files ≠ [].
Proof.
  split; [vm_compute; reflexivity|].
  destruct (project_menu demo_files) as (_ & _ & _ & H & _).
  apply (H "web"); [vm_compute; tauto|discriminate].
Defined.
