(* ===== verification/JsonViewer.v ===== *)
(** * The JSON tree of the file detail page

    Models [web/components/app/json-viewer.tsx]. Every container node keeps an
    [open] state of its own, which lives only as long as the node is mounted:
    the state of the whole tree is the list of paths whose state differs from
    its initial value, and closing a node forgets those below it. *)
From stdpp Require Import base list strings.
From Stdlib Require Import ZArith Lia.
From S2P Require Import Prelude JsString View.
#[local] Open Scope string_scope.
#[local] Open Scope list_scope.
#[local] Open Scope Z_scope.

(** A parsed value; a number is the text [String(value)] gives. *)
Inductive json :=
| JNull
| JBool (b : bool)
| JNumber (repr : string)
| JString (s : string)
| JArray (items : list json)
| JObject (entries : list (string * json)).

Definition AUTO_OPEN_DEPTH : Z := 1.
Definition INDENT : Z := 14.

(** A node's place: the keys from the root. *)
Abbreviation path := (list string).

Definition TreeState := list path.

Definition is_open (st : TreeState) (p : path) : bool :=
  xorb (js_length p <? AUTO_OPEN_DEPTH) (includes st p).

(** [p] lies strictly below [r]. *)
Fixpoint below (r p : path) : bool :=
  match r, p with
  | [], _ :: _ => true
  | a :: r', b :: p' => (a === b) && below r' p'
  | _, _ => false
  end.

(** [setOpen((o) => !o)] at a mounted node; a node that closes unmounts its
    children, which drops their states. *)
Definition toggle_node (st : TreeState) (p : path) : TreeState :=
  let st' := js_toggle st p in
  if is_open st' p then st' else List.filter (λ r, negb (below p r)) st'.

(** ** The view: a click carries the path of the node *)

Definition pad (depth : Z) : attr path := Attr "padding-left" (num (depth * INDENT)).

Definition Key (name : string) : view path :=
  El "span" [] [El "span" [] [Text name]; El "span" [] [Text ": "]].

Definition quote : string := String (Ascii.ascii_of_nat 34) "".

Definition Primitive (v : json) : view path :=
  match v with
  | JString s => El "span" [Attr "class" "break-all text-foreground"] [Text quote; Text s; Text quote]
  | JNull => El "span" [] [Text "null"]
  | JBool b => El "span" [] [Text (if b then "true" else "false")]
  | JNumber r => El "span" [] [Text r]
  | _ => El "span" [] []
  end.

(** The row of a container and what follows it when open. *)
Definition container (st : TreeState) (p : path) (name : option string) (isArray : bool)
    (count : Z) (children : list (view path)) : view path :=
  let depth := js_length p in
  let opened := is_open st p in
  let openB := if isArray then "[" else "{" in
  let closeB := if isArray then "]" else "}" in
  let noun := if isArray then "items" else "keys" in
  El "div" []
    (El "button" [OnClick p; pad depth]
       (El "RiArrowRightSLine" [Attr "class" (if opened then "rotate-90" else "")] [] ::
        match name with Some n => [Key n] | None => [] end ++
        [El "span" [] (Text openB ::
           when (negb opened) [Text " "; El "span" [] [Text (num count); Text " "; Text noun]; Text " "; Text closeB])]) ::
     when opened [El "div" [] (children ++ [El "div" [pad depth] [Text closeB]])]).

(** The keys of an array are [String(i)]. *)
Fixpoint JsonNode (st : TreeState) (p : path) (name : option string) (v : json) {struct v} : view path :=
  match v with
  | JArray items =>
      container st p name true (js_length items)
        ((fix go (i : Z) (l : list json) : list (view path) :=
            match l with
            | [] => []
            | x :: l' => JsonNode st (p ++ [num i]) None x :: go (i + 1) l'
            end) 0 items)
  | JObject entries =>
      container st p name false (js_length entries)
        ((fix go (l : list (string * json)) : list (view path) :=
            match l with
            | [] => []
            | (k, x) :: l' => JsonNode st (p ++ [k]) (Some k) x :: go l'
            end) entries)
  | _ => El "div" [pad (js_length p)] (match name with Some n => [Key n] | None => [] end ++ [Primitive v])
  end.

Definition JsonViewer (st : TreeState) (v : json) : view path :=
  El "div" [] [JsonNode st [] None v].

(** ** Properties *)

Lemma below_not_self r : below r r = false.
Proof. induction r as [|a r IH]; [done|]. simpl. by rewrite IH, andb_false_r. Qed.

Lemma includes_filter_below st p r :
  includes (List.filter (λ r, negb (below p r)) st) r = includes st r && negb (below p r).
Proof. apply eq_true_iff_eq. rewrite andb_true_iff, !includes_In, filter_In. done. Qed.

Lemma is_open_toggled (st : TreeState) p r :
  is_open (js_toggle st p) r = xorb (is_open st r) (p === r).
Proof. unfold is_open. rewrite includes_js_toggle. by rewrite xorb_assoc_reverse. Qed.

Lemma is_open_toggle_node st p r :
  is_open (toggle_node st p) r =
  if is_open st p && below p r then js_length r <? AUTO_OPEN_DEPTH else xorb (is_open st r) (p === r).
Proof.
  unfold toggle_node. rewrite is_open_toggled, bool_decide_eq_true_2, xorb_true_r by done.
  destruct (is_open st p) eqn:Hp; simpl; [|apply is_open_toggled].
  unfold is_open at 1. rewrite includes_filter_below.
  destruct (below p r) eqn:Hb; simpl; [by rewrite andb_false_r, xorb_false_r|].
  rewrite andb_true_r. apply is_open_toggled.
Qed.

(** C38: A click flips exactly the clicked node: every node not below it keeps its
    state. A node that is closed and opened again shows its whole subtree
    collapsed, however it had been expanded. *)
Theorem tree_click st p :
  is_open (toggle_node st p) p = negb (is_open st p) ∧
  (∀ r, r ≠ p → below p r = false → is_open (toggle_node st p) r = is_open st r) ∧
  (is_open st p = true → ∀ r, below p r = true →
     is_open (toggle_node (toggle_node st p) p) r = false).
Proof.
  repeat split.
  - rewrite is_open_toggle_node, below_not_self, andb_false_r. by rewrite bool_decide_eq_true_2, xorb_true_r.
  - intros r Hr Hb. rewrite is_open_toggle_node, Hb, andb_false_r.
    by rewrite bool_decide_eq_false_2, xorb_false_r.
  - intros Hp r Hb. assert (Hne : p ≠ r) by (intros ->; by rewrite below_not_self in Hb).
    rewrite is_open_toggle_node, (is_open_toggle_node st p p), below_not_self, andb_false_r.
    rewrite Hp. rewrite bool_decide_eq_true_2 by done. simpl.
    rewrite bool_decide_eq_false_2, xorb_false_r by done. rewrite is_open_toggle_node, Hp, Hb; simpl.
    unfold AUTO_OPEN_DEPTH, js_length. destruct r; [by destruct p|]. apply Z.ltb_ge. simpl. lia.
Qed.

Lemma tree_click_witness :
  is_open (toggle_node (toggle_node (toggle_node [] ["a"]) []) []) ["a"] = false ∧
  is_open (toggle_node [] ["a"]) ["a"] = true.
Proof.
  split; [|reflexivity].
  apply (tree_click (toggle_node [] ["a"]) []); reflexivity.
Defined.

(** The buttons of a node that is closed: its own row at most. *)
Lemma closed_node_buttons st p name v :
  is_open st p = false → Forall (λ b, b.2 = Some p) (buttons (JsonNode st p name v)).
Proof.
  intros Hp.
  destruct v; cbn [JsonNode]; try (destruct name; vm_compute; by constructor).
  all: unfold container; cbv zeta; rewrite Hp; buttons_simpl; destruct name; unfold Key; buttons_simpl;
    repeat constructor.
Qed.

Lemma closed_node_one_button st p name v :
  is_open st p = false → (length (buttons (JsonNode st p name v)) ≤ 1)%nat.
Proof.
  intros Hp.
  destruct v; cbn [JsonNode]; try (by destruct name; vm_compute; lia).
  all: unfold container; cbv zeta; rewrite Hp; buttons_simpl; destruct name; unfold Key; buttons_simpl; simpl; lia.
Qed.

(** A view that shows at most one row, of an entry of the root. *)
Definition shallow (w : view path) : Prop :=
  Forall (λ b, match b.2 with Some p => (length p ≤ 1)%nat | None => False end) (buttons w) ∧
  (length (buttons w) ≤ 1)%nat.

Lemma entry_shallow k name v : shallow (JsonNode [] [k] name v).
Proof.
  split; [|by apply closed_node_one_button].
  eapply Forall_impl; [by apply (closed_node_buttons [] [k])|]. intros b ->. simpl. lia.
Qed.

Lemma shallow_list ws :
  Forall shallow ws →
  Forall (λ b, match b.2 with Some p => (length p ≤ 1)%nat | None => False end) (concat (map buttons ws)) ∧
  (length (concat (map buttons ws)) ≤ length ws)%nat.
Proof.
  induction 1 as [|w ws [Hw1 Hw2] _ [IH1 IH2]]; simpl; [by split; [constructor|]|].
  rewrite length_app. split; [by apply Forall_app|lia].
Qed.

Lemma root_container isArray n children :
  buttons (container [] [] None isArray n children) =
  (text_content (M := path) (El "" [] [El "RiArrowRightSLine" [] []; El "span" [] [Text (if isArray then "[" else "{")]]), false, Some [])
  :: concat (map buttons children).
Proof. unfold container; cbv zeta. change (is_open [] []) with true. buttons_simpl. by destruct isArray. Qed.

(** A freshly opened file shows the top level only: the rows that can be clicked
    are the root and its entries, all entries collapsed, whatever the size of the
    payload below them. *)
Theorem fresh_tree_is_shallow v :
  Forall (λ b, match b.2 with Some p => (length p ≤ 1)%nat | None => False end) (buttons (JsonViewer [] v)) ∧
  (length (buttons (JsonViewer [] v)) ≤
   1 + match v with JArray l => length l | JObject l => length l | _ => 0 end)%nat.
Proof.
  unfold JsonViewer. buttons_simpl.
  destruct v as [| | | |l|l]; try (vm_compute; by split; [constructor|lia]); cbn [JsonNode];
    rewrite root_container; cbn [length]; rewrite Forall_cons.
  - match goal with |- context [map buttons (?g 0 l)] => set (ws := g) end.
    assert (Hws : ∀ i, Forall shallow (ws i l) ∧ length (ws i l) = length l).
    { induction l as [|x l IH]; intros i; simpl; [done|]. destruct (IH (i + 1)) as [H1 H2].
      split; [|by rewrite H2]. constructor; [apply entry_shallow|done]. }
    destruct (Hws 0) as [H1 H2]. destruct (shallow_list _ H1) as [H3 H4].
    split; [split; [simpl; lia|done]|lia].
  - match goal with |- context [map buttons (?g l)] => set (ws := g) end.
    assert (Hws : Forall shallow (ws l) ∧ length (ws l) = length l).
    { induction l as [|[k x] l [H1 H2]]; simpl; [done|].
      split; [|by rewrite H2]. constructor; [apply entry_shallow|done]. }
    destruct Hws as [H1 H2]. destruct (shallow_list _ H1) as [H3 H4].
    split; [split; [simpl; lia|done]|lia].
Qed.
