(* ===== verification/Controls.v ===== *)
(** * Settings, the destructive-action dialog, search and shortcuts

    Models [web/app/(app)/settings/page.tsx], [web/components/app/confirm-dialog.tsx],
    [web/components/app/app-search.tsx], [web/components/theme-provider.tsx] and
    [web/app/error.tsx]. *)
From stdpp Require Import base list strings.
From Stdlib Require Import ZArith Lia.
From S2P Require Import Prelude JsString Proto View Session Onboarding Nav.
#[local] Open Scope string_scope.
#[local] Open Scope list_scope.
#[local] Open Scope Z_scope.

(** ** Settings: renaming the workspace *)

(** [ws_saving] is the call [useMutation] waits for (the latest one). *)
Record WorkspaceState := mkWorkspace {
  ws_editing : bool; ws_name : string; ws_saving : option nat; ws_calls : nat }.

Inductive settings_msg :=
| StartEdit
| TypeName (s : string)
| NameKey (key : string)
| ClickSave
| ClickCancel
| SaveOk (call : nat)
| SaveFailed (call : nat) (e : js_error)
| ToggleFlag (key : string) (enabled : bool)
| FlagOk
| FlagFailed (e : js_error).

Definition workspace_init (t : Tenant) : WorkspaceState := mkWorkspace false (tenant_name t ?? "") None 0.

Definition onSave (t : Tenant) (s : WorkspaceState) : WorkspaceState * list effect :=
  let next := trim (ws_name s) in
  if negb (truthy next) then (s, [])
  else (mkWorkspace (ws_editing s) (ws_name s) (Some (ws_calls s)) (S (ws_calls s)),
        [CallRpc (TenantRpc (UpdateTenant
           (mkUpdateTenant next (tenant_size t ?? "") (tenant_useCases t) (tenant_useCaseOther t ?? ""))))]).

Definition cancelEdit (t : Tenant) (s : WorkspaceState) : WorkspaceState :=
  mkWorkspace false (tenant_name t ?? "") (ws_saving s) (ws_calls s).

Definition settled (s : WorkspaceState) (call : nat) : option nat :=
  if ws_saving s === Some call then None else ws_saving s.

(** The Save button is disabled on a blank name and while a save is running. *)
Definition save_disabled (s : WorkspaceState) : bool :=
  negb (truthy (trim (ws_name s))) || bool_decide (is_Some (ws_saving s)).

Definition workspace_update (t : Tenant) (s : WorkspaceState) (m : settings_msg) : WorkspaceState * list effect :=
  match m with
  | StartEdit => (mkWorkspace true (ws_name s) (ws_saving s) (ws_calls s), [])
  | TypeName v => (mkWorkspace (ws_editing s) v (ws_saving s) (ws_calls s), [])
  | NameKey key =>
      if key === "Enter" then onSave t s
      else if key === "Escape" then (cancelEdit t s, []) else (s, [])
  | ClickSave => if save_disabled s then (s, []) else onSave t s
  | ClickCancel => (cancelEdit t s, [])
  | SaveOk call => (mkWorkspace false (ws_name s) (settled s call) (ws_calls s),
                    [InvalidateQueries; ToastSuccess "Workspace updated"])
  | SaveFailed call e => (mkWorkspace (ws_editing s) (ws_name s) (settled s call) (ws_calls s),
                          [ToastError ("Couldn't save: " +:+ error_message e)])
  | _ => (s, [])
  end.

(** [FeatureFlags]: the state is [set.isPending]. *)
Definition flags_update (pending : bool) (m : settings_msg) : bool * list effect :=
  match m with
  | ToggleFlag key enabled =>
      if pending then (pending, [])
      else (true, [CallRpc (TenantRpc (SetFeatureFlag (mkSetFeatureFlag key enabled)))])
  | FlagOk => (false, [InvalidateQueries])
  | FlagFailed e => (false, [ToastError ("Couldn't update: " +:+ error_message e)])
  | _ => (pending, [])
  end.

Definition SettingsSection {M} (title : string) (description : option string) (children : list (view M)) : view M :=
  El "section" [] (El "h2" [] [Text title] ::
    when (otruthy description) [El "p" [] [Text (description ?? "")]] ++ [El "div" [] children]).

Definition Row {M} (label : string) (children : list (view M)) : view M :=
  El "div" [] [El "dt" [] [Text label]; El "dd" [] children].

Definition Workspace (t : Tenant) (s : WorkspaceState) : view settings_msg :=
  let r := List.find (λ x, Some (reg_id x) === tenant_region t) regions in
  SettingsSection "Workspace"
    (Some "Your organization and where its data lives. The region is fixed at setup and can't be changed.")
    [El "dl" []
      [Row "Name"
         [if ws_editing s then
            El "span" []
              [El "Input" [Attr "value" (ws_name s); OnChange TypeName; OnKeyDown NameKey; Attr "placeholder" "Acme Inc."] [];
               El "Button" [OnClick ClickSave; BoolAttr "disabled" (save_disabled s)]
                  [Text (if bool_decide (is_Some (ws_saving s)) then "Saving…" else "Save")];
               El "Button" [OnClick ClickCancel] [Text "Cancel"]]
          else El "span" [] [Text ((tenant_name t ?? "") ||| "—");
                             El "Button" [Attr "aria-label" "Edit name"; OnClick StartEdit] []]];
       Row "Region"
         [match r with
          | Some x => El "span" [] [El "Flag" [Attr "code" (reg_code x)] [];
                                    Text (reg_label x +:+ " · " +:+ reg_city x +:+ ", " +:+ reg_country x)]
          | None => Text (tenant_region t ?? "—")
          end];
       Row "Workspace ID" [El "code" [] [Text (tenant_id t)]]]].

Definition FeatureFlags (flags : query (list FeatureFlag)) (pending : bool) : view settings_msg :=
  SettingsSection "Feature flags" (Some "Opt-in capabilities for this workspace.")
    [if q_isPending flags then El "div" [] (replicate 2 (El "Skeleton" [] []))
     else match q_data flags ?? [] with
          | [] => El "p" [] [Text "No feature flags available."]
          | fs => El "div" [] (map (λ f, El "div" [Attr "key" (flag_key f)]
                    [El "div" [] [El "p" [] [Text (flag_name f)]; El "p" [] [Text (flag_description f)]];
                     El "Switch" [BoolAttr "checked" (flag_enabled f); BoolAttr "disabled" pending;
                                  OnChecked (ToggleFlag (flag_key f)); Attr "aria-label" (flag_name f)] []]) fs)
          end].

Definition Account (issuer : option string) (user : option User) : view settings_msg :=
  let me := if otruthy issuer then Some ((issuer ?? "") +:+ "/ui/console/users/me") else None in
  SettingsSection "Account" (Some "Your personal identity, managed in your account.")
    (El "dl" [] [Row "Name" [Text (((user_name <$> user) ?? "") ||| "—")];
                 Row "Email" [Text (((user_email <$> user) ?? "") ||| "—")]] ::
     match me with
     | Some url => [El "div" [] [El "a" [Attr "href" url] [Text "Manage profile"];
                                 El "a" [Attr "href" url] [Text "Password & two-factor"]]]
     | None => []
     end).

Definition MembersSummary (members : query ListMembersResponse) : view settings_msg :=
  let count := match q_data members with Some d => js_length (lmr_members d) | None => 0 end in
  let configured := match q_data members with Some d => lmr_configured d | None => false end in
  SettingsSection "Members" (Some "People with access to this workspace.")
    [if q_isPending members then El "p" [] [Text "Loading…"]
     else if negb configured then El "p" [] [Text "The member directory isn’t connected yet."]
     else El "p" [] [Text (num count +:+ " " +:+ (if count =? 1 then "member" else "members") +:+ ".")];
     El "Link" [Attr "href" "/members"] [Text "Manage members"]].

Definition SettingsPage (issuer : option string) (session : query GetSessionResponse) (s : WorkspaceState)
    (flags : query (list FeatureFlag)) (pending : bool) (members : query ListMembersResponse) : view settings_msg :=
  if q_isPending session then PageShell (replicate 5 (El "Skeleton" [] []))
  else
    let tenant := match q_data session with Some d => session_tenant d | None => None end in
    let user := match q_data session with Some d => session_user d | None => None end in
    PageShell
      (PageHeading "Settings" (Some "Your workspace and account.") ::
       match tenant with Some t => [Workspace t s] | None => [] end ++
       [FeatureFlags flags pending; MembersSummary members; Account issuer user]).

(** ** [ConfirmDestructiveDialog] *)

Section Confirm.
Context (confirmWord : string).

Record DialogState := mkDialog { openProp : option bool; internalOpen : bool; typed : string; pending : bool }.

Inductive dialog_msg :=
| Props (open : option bool) (isPending : bool)
| OpenChange (o : bool)
| TypeWord (s : string)
| DialogKey (key : string)
| ClickAction.

Inductive dialog_event := Confirmed | OpenChanged (o : bool).

Definition dialog_open (s : DialogState) : bool := openProp s ?? internalOpen s.

Definition armed (s : DialogState) : bool := (trim (typed s) === confirmWord) && negb (pending s).

(** [ClickAction] is a click on the confirm button, which is disabled unless armed. *)
Definition dialog_update (s : DialogState) (m : dialog_msg) : DialogState * list dialog_event :=
  match m with
  | Props o p => (mkDialog o (internalOpen s) (typed s) p, [])
  | OpenChange o =>
      (mkDialog (openProp s) (if openProp s === None then o else internalOpen s)
                (if o then typed s else "") (pending s), [OpenChanged o])
  | TypeWord v => (mkDialog (openProp s) (internalOpen s) v (pending s), [])
  | DialogKey key => (s, if (key === "Enter") && armed s then [Confirmed] else [])
  | ClickAction => (s, if armed s then [Confirmed] else [])
  end.

#[local] Instance dialog_machine : Machine DialogState dialog_msg dialog_event := dialog_update.

Definition ConfirmDestructiveDialog (trigger : option (view dialog_msg)) (title description : view dialog_msg)
    (confirmLabel : string) (reduceMotion : bool) (s : DialogState) : view dialog_msg :=
  El "AlertDialog" [BoolAttr "open" (dialog_open s); OnChecked OpenChange]
    (match trigger with Some t => [El "AlertDialogTrigger" [] [t]] | None => [] end ++
     [El "AlertDialogContent" []
       [El "AlertDialogTitle" [] [title]; El "AlertDialogDescription" [] [description];
        El "label" [] [Text "Type "; El "span" [] [Text confirmWord]; Text " to confirm"];
        El "Input" [Attr "id" "confirm-word"; Attr "value" (typed s); OnChange TypeWord; OnKeyDown DialogKey] [];
        El "AlertDialogFooter" []
          [El "Button" [OnClick (OpenChange false)] [Text "Cancel"];
           El "Button" [BoolAttr "disabled" (negb (armed s)); OnClick ClickAction]
             (when (pending s) [AnimatedSpinner reduceMotion size_sm tone_destructive "Loading"] ++ [Text confirmLabel])]]]).

End Confirm.

(** ** [AppSearch] *)

(** The target of a keyboard event; [None] when it is not an element. *)
Record Target := mkTarget { tagName : string; isContentEditable : bool }.
Record KeyEvent := mkKey {
  key : string; metaKey : bool; ctrlKey : bool; altKey : bool;
  defaultPrevented : bool; repeated : bool; target : option Target }.

Record SearchState := mkSearch { q : string; search_open : bool }.

Inductive search_msg :=
| WindowKey (e : KeyEvent)
| MouseDown (inside : bool)
| TypeQuery (v : string)
| FocusQuery
| SearchKey (k : string)
| Select (href : string).

Definition search_typing (t : option Target) : bool :=
  match t with
  | Some t => (tagName t === "INPUT") || (tagName t === "TEXTAREA") || isContentEditable t
  | None => false
  end.

Definition search_update (s : SearchState) (m : search_msg) : SearchState * list effect :=
  match m with
  | WindowKey e =>
      if (key e !== "/") || metaKey e || ctrlKey e || altKey e || search_typing (target e) then (s, [])
      else (mkSearch (q s) true, [PreventDefault; FocusInput])
  | MouseDown inside => (if inside then s else mkSearch (q s) false, [])
  | TypeQuery v => (mkSearch v true, [])
  | FocusQuery => (mkSearch (q s) true, [])
  | SearchKey k => if k === "Escape" then (mkSearch "" false, [BlurInput]) else (s, [])
  | Select href => (mkSearch "" false, [BlurInput; RouterPush href])
  end.

Definition showPanel (s : SearchState) : bool :=
  search_open s && (0 <? Z.of_nat (String.length (trim (q s)))).

(** [cmdk] filters and ranks the items; which of them match is its answer. *)
Definition AppSearch (matches : string → NavItem → bool) (s : SearchState) : view search_msg :=
  El "Cmdk" [OnKeyDown SearchKey]
    (El "div" [] (El "Cmdk.Input" [Attr "value" (q s); OnChange TypeQuery] [] ::
                  when (negb (truthy (q s))) [El "Kbd" [] [Text "/"]]) ::
     when (showPanel s)
       [El "div" []
         [El "Cmdk.List" []
            (when (forallb (λ n, negb (matches (q s) n)) NAV)
               [El "Cmdk.Empty" [] [Text ("No matches for “" +:+ trim (q s) +:+ "”.")]] ++
             [El "Cmdk.Group" [Attr "heading" "Go to"]
               (map (λ n, El "Cmdk.Item" [Attr "key" (nav_href n); Attr "value" (nav_label n); OnClick (Select (nav_href n))]
                            [Text (nav_label n)]) (List.filter (matches (q s)) NAV))]);
          El "div" [] [Text "open"; El "Kbd" [] [Text "esc"]; Text "dismiss"]]]).

(** ** [ThemeHotkey] *)

Definition isTypingTarget (t : option Target) : bool :=
  match t with
  | None => false
  | Some t => isContentEditable t || (tagName t === "INPUT") || (tagName t === "TEXTAREA") || (tagName t === "SELECT")
  end.

Definition ThemeHotkey `{Locale} (resolvedTheme : string) (e : KeyEvent) : list effect :=
  if defaultPrevented e || repeated e then []
  else if metaKey e || ctrlKey e || altKey e then []
  else if toLowerCase (key e) !== "d" then []
  else if isTypingTarget (target e) then []
  else [SetTheme (if resolvedTheme === "dark" then "light" else "dark")].

(** ** [app/error.tsx] *)

Definition error_mount (message : string) (digest : option string) : list effect :=
  [Track app_error (("message", message) :: match digest with Some d => [("digest", d)] | None => [] end)].

Definition ErrorPage : view unit :=
  El "main" []
    [El "h1" [] [Text "Something went wrong"];
     El "p" [] [Text "An unexpected error occurred. Try again, or reload the page."];
     El "Button" [OnClick tt] [Text "Try again"]].

(** ** Properties: renaming *)

Section Rename.
Context (t : Tenant).
#[local] Instance workspace_machine : Machine WorkspaceState settings_msg effect := workspace_update t.

(** A request that changes nothing but the name, to a trimmed, non-blank one. *)
Definition only_renames (e : effect) : Prop :=
  match e with
  | CallRpc r => ∃ n, r = TenantRpc (UpdateTenant (mkUpdateTenant n (tenant_size t ?? "")
                            (tenant_useCases t) (tenant_useCaseOther t ?? ""))) ∧ n ≠ "" ∧ trim n = n
  | _ => True
  end.

Lemma onSave_only_renames s : Forall only_renames (onSave t s).2.
Proof.
  unfold onSave. destruct (truthy (trim (ws_name s))) eqn:Ht; simpl; [|constructor].
  apply truthy_true in Ht. repeat constructor. eexists. repeat split; [done|]. apply trim_idemp.
Qed.

(** Whatever the user does in the workspace section, every request it sends
    keeps the size, the use cases and the free text the tenant has, and carries a
    trimmed, non-blank name; Escape and Cancel leave the editor with the stored
    name and send nothing. *)
Theorem rename_preserves_answers s ms :
  Forall only_renames (run s ms).2 ∧
  (∀ m, m = ClickCancel ∨ m = NameKey "Escape" →
     let r := update (run s ms).1 m in
     r.2 = [] ∧ ws_editing r.1 = false ∧ ws_name r.1 = (tenant_name t ?? "")).
Proof.
  split; [|intros m [-> | ->]; done].
  apply (run_effects (λ _, True)); [done| |done]. intros s' m _.
  unfold update, workspace_machine, workspace_update.
  destruct m; try (by repeat constructor).
  - destruct (key0 === "Enter"); [apply onSave_only_renames|].
    destruct (key0 === "Escape"); constructor.
  - destruct (save_disabled s'); [constructor|apply onSave_only_renames].
Qed.

(** The name field of the editor is seeded once: after the tenant was renamed
    elsewhere and refetched, opening the editor still shows the old name and
    saving it sends the old name back; and Enter submits again while a save is
    running, although the Save button is disabled then. *)
Theorem stale_and_repeated_rename (old : Tenant) (s : WorkspaceState) (call : nat) :
  (trim (tenant_name old ?? "") ≠ "" →
   let r := run (workspace_init old) [StartEdit; NameKey "Enter"] in
   ws_name r.1 = (tenant_name old ?? "") ∧
   r.2 = [CallRpc (TenantRpc (UpdateTenant (mkUpdateTenant (trim (tenant_name old ?? ""))
            (tenant_size t ?? "") (tenant_useCases t) (tenant_useCaseOther t ?? ""))))]) ∧
  (trim (ws_name s) ≠ "" → ws_saving s = Some call →
   (update s ClickSave).2 = [] ∧ (update s (NameKey "Enter")).2 ≠ []).
Proof.
  split.
  - intros Hn%truthy_true. cbn -[trim truthy]. unfold workspace_update, onSave. cbn -[trim truthy].
    rewrite bool_decide_eq_true_2 by done. rewrite Hn. done.
  - intros Hn%truthy_true Hs. unfold update, workspace_machine, workspace_update, save_disabled, onSave.
    rewrite Hn, Hs. done.
Qed.

End Rename.

Definition demo_renamed := mkTenant "t1" (Some "Acme Robotics") (Some "11-50") (Some "us-east") ["sales"] None true.
Definition demo_old := mkTenant "t1" (Some "Acme") (Some "11-50") (Some "us-east") ["sales"] None true.

Lemma rename_preserves_answers_witness :
  (workspace_update demo_renamed (mkWorkspace true "draft" None 0) ClickCancel).1 =
  mkWorkspace false "Acme Robotics" None 0 ∧
  Forall (only_renames demo_renamed)
    (@run _ _ _ (workspace_machine demo_renamed) (workspace_init demo_renamed) [StartEdit; TypeName " Acme "; ClickSave]).2.
Proof.
  destruct (rename_preserves_answers demo_renamed (mkWorkspace true "draft" None 0) []) as [_ H].
  destruct (rename_preserves_answers demo_renamed (workspace_init demo_renamed) [StartEdit; TypeName " Acme "; ClickSave]) as [HF _].
  split; [|exact HF]. destruct (H ClickCancel (or_introl eq_refl)) as (_ & _ & Hn). simpl in Hn. reflexivity.
Defined.

Lemma stale_and_repeated_rename_witness :
  (@run _ _ _ (workspace_machine demo_renamed) (workspace_init demo_old) [StartEdit; NameKey "Enter"]).2 =
  [CallRpc (TenantRpc (UpdateTenant (mkUpdateTenant "Acme" "11-50" ["sales"] "")))].
Proof.
  destruct (stale_and_repeated_rename demo_renamed demo_old (workspace_init demo_old) 0) as [H _].
  assert (Hn : trim (tenant_name demo_old ?? "") ≠ "") by (vm_compute; discriminate).
  destruct (H Hn) as [_ He]. rewrite He. vm_compute. reflexivity.
Defined.

(** ** Properties: the destructive dialog *)

Section ConfirmSafety.
Context (confirmWord : string).
#[local] Instance confirm_machine : Machine DialogState dialog_msg dialog_event := dialog_update confirmWord.

Definition types (m : dialog_msg) : bool := match m with TypeWord _ => true | _ => false end.

Lemma confirmed_armed s m : In Confirmed (update s m).2 → armed confirmWord s = true.
Proof.
  unfold update, confirm_machine. destruct m; simpl; try naive_solver.
  - destruct (_ === _), (armed confirmWord s); simpl; naive_solver.
  - destruct (armed confirmWord s); simpl; naive_solver.
Qed.

(** Without typing, an empty field stays empty. *)
Lemma untyped_stays s ms : typed s = "" → forallb (λ m, negb (types m)) ms = true → typed (run s ms).1 = "".
Proof.
  revert s. induction ms as [|m ms IH]; intros s Hs Hm; [done|]. simpl in Hm.
  apply andb_true_iff in Hm as [Hm Hms]. rewrite run_cons; simpl. apply IH; [|done].
  destruct m; simpl in *; try done. by destruct o.
Qed.

(** C5: The destructive action needs the word each time: it is only ever confirmed
    while the field holds the confirm word (up to surrounding spaces) and no call
    is pending; closing the dialog disarms it, so nothing confirms again before
    something is typed; and a confirm word with spaces around it can never be
    confirmed, whatever is typed. *)
Theorem confirm_needs_the_word s ms m :
  (In Confirmed (update (run s ms).1 m).2 →
     trim (typed (run s ms).1) = confirmWord ∧ pending (run s ms).1 = false) ∧
  (confirmWord ≠ "" → forallb (λ m, negb (types m)) ms = true →
     ¬ In Confirmed (update (run (update s (OpenChange false)).1 ms).1 m).2) ∧
  (trim confirmWord ≠ confirmWord → ¬ In Confirmed (run s ms).2).
Proof.
  split; [|split].
  - intros Ha%confirmed_armed. unfold armed in Ha. by zbool.
  - intros Hw Hm Hc%confirmed_armed. unfold armed in Hc. zbool.
    rewrite untyped_stays in H by done. by subst.
  - intros Hw Hc. assert (Hall : Forall (λ e, e ≠ Confirmed) (run s ms).2).
    { apply (run_effects (λ _, True)); [done| |done]. intros s' m' _. rewrite Forall_forall.
      intros e He ->. rewrite list_elem_of_In in He. apply confirmed_armed in He.
      unfold armed in He. zbool. apply Hw. rewrite <-H. apply trim_idemp. }
    rewrite Forall_forall in Hall. apply (Hall Confirmed); [by apply list_elem_of_In|done].
Qed.

End ConfirmSafety.

Definition demo_dialog := mkDialog None true "" false.
Lemma confirm_needs_the_word_witness :
  In Confirmed (@update _ _ _ (confirm_machine "acme") (@run _ _ _ (confirm_machine "acme") demo_dialog [TypeWord " acme "]).1 ClickAction).2 ∧
  ¬ In Confirmed (@update _ _ _ (confirm_machine "acme") (@run _ _ _ (confirm_machine "acme")
     (@update _ _ _ (confirm_machine "acme") (mkDialog None true "acme" false) (OpenChange false)).1 [OpenChange true]).1 ClickAction).2 ∧
  ¬ In Confirmed (@run _ _ _ (confirm_machine "acme ") demo_dialog [TypeWord "acme "; ClickAction]).2.
Proof.
  split; [vm_compute; tauto|]. split.
  - apply (confirm_needs_the_word "acme" (mkDialog None true "acme" false) [OpenChange true] ClickAction);
      [discriminate|reflexivity].
  - apply (confirm_needs_the_word "acme " demo_dialog [TypeWord "acme "; ClickAction] ClickAction).
    vm_compute. discriminate.
Defined.

(** ** Properties: shortcuts *)

(** The global shortcuts leave typing and browser shortcuts alone: on a key
    aimed at an input, a text area or editable content, or held with a modifier,
    neither the search jumper nor the theme switch reacts; on any other target
    "/" opens the search and a fresh "d" flips the theme. *)
Theorem shortcuts_leave_typing_alone `{Locale} s theme e :
  (search_typing (target e) || metaKey e || ctrlKey e || altKey e = true →
     search_update s (WindowKey e) = (s, []) ∧ ThemeHotkey theme e = []) ∧
  (search_typing (target e) || metaKey e || ctrlKey e || altKey e = false → key e = "/" →
     search_update s (WindowKey e) = (mkSearch (q s) true, [PreventDefault; FocusInput])) ∧
  (isTypingTarget (target e) || metaKey e || ctrlKey e || altKey e || defaultPrevented e || repeated e = false →
   toLowerCase (key e) = "d" →
     ThemeHotkey theme e = [SetTheme (if theme === "dark" then "light" else "dark")]).
Proof.
  destruct e as [k m c a d r [[tag ce]|]]; unfold search_update, ThemeHotkey, search_typing, isTypingTarget; simpl.
  - destruct m, c, a, d, r, ce, (bool_decide (tag = "INPUT")), (bool_decide (tag = "TEXTAREA")),
      (bool_decide (tag = "SELECT")); simpl; repeat split; intros; simplify_eq/=;
      repeat match goal with H : _ = _ |- _ => rewrite H end;
      rewrite ?orb_true_r; simpl; try done; destruct (toLowerCase k !== "d"); done.
  - destruct m, c, a, d, r; simpl; repeat split; intros; simplify_eq/=;
      repeat match goal with H : _ = _ |- _ => rewrite H end;
      rewrite ?orb_true_r; simpl; try done; destruct (toLowerCase k !== "d"); done.
Qed.

Lemma shortcuts_leave_typing_alone_witness :
  search_update (mkSearch "" false) (WindowKey (mkKey "/" false false false false false None)) =
  (mkSearch "" true, [PreventDefault; FocusInput]).
Proof.
  apply (shortcuts_leave_typing_alone (mkSearch "" false) "dark" (mkKey "/" false false false false false None));
    reflexivity.
Defined.
