(* ===== verification/Manage.v ===== *)
(** * Choosing what a source syncs: the manage page

    Models [web/components/app/project-status.tsx],
    [web/components/app/connection-status.tsx],
    [web/components/app/connector-projects.tsx] and
    [web/app/(app)/sources/[id]/manage/page.tsx]. The save of the manage page is
    asynchronous: the two calls it may issue, the refetch that follows and the
    edits made meanwhile are separate messages, in any order. *)
From stdpp Require Import base list strings.
From Stdlib Require Import ZArith Lia Sorted.
From S2P Require Import Prelude JsString JsNumber Proto View Session SyncSchedule Controls.
#[local] Open Scope string_scope.
#[local] Open Scope list_scope.
#[local] Open Scope Z_scope.

(** ** [connection-status.tsx] *)

Inductive tone := tone_ok | tone_quiet | tone_error.

Definition connectionStatus (c : Connection) : string * tone :=
  match conn_status c with
  | CONNECTED => ("Connected", tone_ok)
  | SYNCING => ("Updating…", tone_quiet)
  | STOPPING => ("Stopping…", tone_quiet)
  | NEEDS_REAUTH => ("Disconnected — reconnect needed", tone_error)
  | STATUS_ERROR =>
      (if truthy (conn_lastError c) then "Error · " +:+ conn_lastError c else "Error", tone_error)
  | STATUS_UNSPECIFIED => ("Connected", tone_ok)
  end.

Definition is_error (t : tone) : bool := match t with tone_error => true | _ => false end.

Definition ConnectionStatusText {M} (c : Connection) : view M :=
  let s := connectionStatus c in
  El "span" [Attr "class" (if is_error s.2 then "text-destructive" else "text-muted-foreground")] [Text s.1].

(** ** [project-status.tsx] *)

Section ProjectStatus.
Context `{Locale} {M : Type}.

Definition progressLabel (p : Project) : string :=
  if 0 <? proj_totalEstimate p
  then numToLocale (proj_artifactCount p) +:+ " / " +:+ numToLocale (proj_totalEstimate p)
  else if 0 <? proj_artifactCount p then numToLocale (proj_artifactCount p) +:+ " synced" else "0 items".

Definition ProjectStatus (reduceMotion : bool) (p : Project) : view M :=
  if proj_status p === "queued" then El "span" [] [El "RiTimeLine" [] []; Text (progressLabel p)]
  else if proj_status p === "syncing" then
    El "span" [] [AnimatedSpinner reduceMotion size_sm tone_primary "Loading"; Text (progressLabel p)]
  else if proj_status p === "error" then El "span" [Attr "title" (proj_lastError p)] [Text "Error"]
  else El "span" [] [Text (progressLabel p)].

End ProjectStatus.

(** [p.name || p.id]. *)
Definition project_label (p : Project) : string := proj_name p ||| proj_id p.

(** The comparator of the project lists: heaviest first, then most synced, then
    by name. The counts are 32-bit, so the differences are exact. *)
Definition heavier `{Locale} (a b : Project) : Z :=
  let d := proj_totalEstimate b - proj_totalEstimate a in
  if negb (d =? 0) then d
  else let e := proj_artifactCount b - proj_artifactCount a in
       if negb (e =? 0) then e else localeCompare (project_label a) (project_label b).

(** ** Unsaved edits: [Record<string, boolean>] *)

Definition edits := list (string * bool).

(** [pending[id]], seen as the condition it is used in: a member inherited from
    [Object.prototype] is neither [undefined] nor a boolean. *)
Definition edited (pending : edits) (p : Project) : js_lookup bool := js_get pending (proj_id p).

Definition isSelected (pending : edits) (p : Project) : bool :=
  match edited pending p with Own b => b | Inherited => true | Missing => proj_selected p end.

Definition is_edited (pending : edits) (p : Project) : bool :=
  match edited pending p with Own b => negb (Bool.eqb b (proj_selected p)) | Inherited => true | Missing => false end.

(** [{ ...prev, [id]: checked }]. *)
Definition put_edit (pending : edits) (id : string) (checked : bool) : edits := (id, checked) :: pending.

(** [{ ...prev, ...Object.fromEntries(ps.map((p) => [p.id, target])) }]. *)
Definition put_edits (pending : edits) (ps : list Project) (target : bool) : edits :=
  fold_left (λ m p, put_edit m (proj_id p) target) ps pending.

(** ** [connector-projects.tsx] *)

Record CpState := mkCp { cp_pending : edits; cp_saving : option nat; cp_calls : nat }.

Inductive cp_msg :=
| CpToggle (id : string) (checked : bool)
| CpToggleAll
| CpSave
| CpSaved (call : nat)
| CpRefetched
| CpFailed (call : nat) (e : js_error).

(** [streamed ?? discover.data?.projects ?? null]. *)
Definition all_projects (streamed discovered : option (list Project)) : option (list Project) :=
  match streamed with Some ps => Some ps | None => discovered end.

Definition cp_count (pending : edits) (ps : list Project) : Z := js_length (List.filter (isSelected pending) ps).
Definition cp_allSelected (pending : edits) (ps : list Project) : bool :=
  (0 <? js_length ps) && (cp_count pending ps =? js_length ps).

Definition cp_update (connectionId : string) (ps : list Project) (s : CpState) (m : cp_msg) : CpState * list effect :=
  match m with
  | CpToggle id b => (mkCp (put_edit (cp_pending s) id b) (cp_saving s) (cp_calls s), [])
  | CpToggleAll =>
      (mkCp (put_edits [] ps (negb (cp_allSelected (cp_pending s) ps))) (cp_saving s) (cp_calls s), [])
  | CpSave =>
      (mkCp (cp_pending s) (Some (cp_calls s)) (S (cp_calls s)),
       [CallRpc (IntegrationRpc (SetProjectSelection
          (mkSetProjectSelection connectionId (map proj_id (List.filter (isSelected (cp_pending s)) ps)))))])
  | CpSaved call => (s, [Refetch])
  | CpRefetched => (mkCp [] None (cp_calls s), [])
  | CpFailed call e =>
      (mkCp (cp_pending s) (if cp_saving s === Some call then None else cp_saving s) (cp_calls s),
       [ToastError ("Couldn't save selection: " +:+ rawMessage e)])
  end.

Section ConnectorProjects.
Context `{Locale}.

Definition CpProjectStatus (reduceMotion : bool) (p : Project) : view cp_msg :=
  if proj_status p === "queued" then El "span" [] [El "RiTimeLine" [] []; Text "Queued"]
  else if proj_status p === "syncing" then
    El "span" [] [AnimatedSpinner reduceMotion size_sm tone_primary "Loading";
                  Text (if 0 <? proj_artifactCount p then num (proj_artifactCount p) +:+ " synced" else "Syncing…")]
  else if proj_status p === "synced" then El "span" [] [Text (num (proj_artifactCount p) +:+ " synced")]
  else if proj_status p === "error" then El "span" [Attr "title" (proj_lastError p)] [Text "Error"]
  else El "span" [] [Text "Idle"].

Definition no_projects_text : string :=
  "No projects available for this account. If your repos live in an organization, " +:+
  "make sure the GitHub App is installed on it with repo access.".

Definition ConnectorProjects (reduceMotion discoverPending : bool) (projects : option (list Project))
    (s : CpState) : view cp_msg :=
  match projects with
  | None => El "div" [] [AnimatedSpinner reduceMotion size_sm tone_muted "Loading"; Text "Discovering projects…"]
  | Some ps =>
      if discoverPending && (js_length ps =? 0) then
        El "div" [] [AnimatedSpinner reduceMotion size_sm tone_muted "Loading"; Text "Discovering projects…"]
      else if js_length ps =? 0 then El "div" [] [Text no_projects_text]
      else
        let dirty := existsb (is_edited (cp_pending s)) ps in
        let count := cp_count (cp_pending s) ps in
        let allSelected := cp_allSelected (cp_pending s) ps in
        let someSelected := (0 <? count) && negb allSelected in
        let syncingCount := js_length (List.filter (λ p, proj_status p === "syncing") ps) in
        let queuedCount := js_length (List.filter (λ p, proj_status p === "queued") ps) in
        let anyActive := (0 <? syncingCount) || (0 <? queuedCount) in
        El "div" []
          ([El "div" []
             (El "label" []
                [El "input" [Attr "type" "checkbox"; BoolAttr "checked" allSelected;
                             BoolAttr "indeterminate" someSelected; OnChecked (λ _, CpToggleAll);
                             Attr "aria-label" "Select all projects"] [];
                 Text (num count +:+ " of " +:+ num (js_length ps) +:+ " selected")] ::
              (if dirty then
                 [El "Button" [OnClick CpSave; BoolAttr "disabled" (bool_decide (is_Some (cp_saving s)))]
                    [Text (if bool_decide (is_Some (cp_saving s)) then "Saving…" else "Save selection")]]
               else when anyActive
                 [El "span" [] [AnimatedSpinner reduceMotion size_sm tone_primary "Loading";
                                Text (if 0 <? syncingCount then "Syncing…" else "Preparing…")]]))] ++
           when anyActive [El "div" [Attr "class" "hb-indeterminate"] []] ++
           [El "ul" []
             (map (λ p, El "li" [Attr "key" (proj_id p)]
                [El "input" [Attr "type" "checkbox"; BoolAttr "checked" (isSelected (cp_pending s) p);
                             OnChecked (CpToggle (proj_id p)); Attr "aria-label" ("Sync " +:+ project_label p)] [];
                 El "span" [] [Text (project_label p)];
                 CpProjectStatus reduceMotion p]) ps)])
  end.

End ConnectorProjects.

(** ** The manage panel *)

(** The props, from the connections stream. *)
Record PanelProps := mkProps {
  pp_connectionId : string; pp_connectorId : string; pp_account : string; pp_connectorName : string;
  pp_title : string; pp_onboarded : bool; pp_catalogDiscovered : bool;
  pp_autoSyncEnabled : bool; pp_syncIntervalSeconds : Z }.

(** The two calls a save may wait for. *)
Inductive op := OpSelection | OpSchedule.
#[export] Instance op_eq_dec : EqDecision op.
Proof. solve_decision. Defined.

(** One run of [onSave]: the captured [firstTime] and the calls [Promise.all] still
    waits for; it awaits the refetch when none is left. *)
Record Job := mkJob { job_firstTime : bool; job_waiting : list op }.

Record Manage := mkManage {
  mg_searchInput : string; mg_query : string;
  mg_streamed : option (list Project); mg_discovered : option (list Project);
  mg_results : option (list Project);
  mg_pending : edits;
  mg_schedEnabled : bool; mg_schedInterval : JsNumber; mg_sched : option Sched;
  mg_save : option nat; mg_scheduleSave : option nat;
  mg_jobs : list (nat * Job); mg_nextJob : nat;
  mg_dialog : DialogState }.

Inductive manage_msg :=
| SearchTyped (s : string)
| SearchDebounced
| ProjectsStreamed (ps : list Project)
| ProjectsDiscovered (ps : list Project)
| SearchFound (ps : list Project)
| ToggleProject (id : string) (checked : bool)
| ToggleAll
| SchedMsg (m : sched_msg)
| SaveClicked
| OpDone (job : nat) (o : op)
| OpFailed (job : nat) (o : op) (e : js_error)
| Refetched (job : nat) (ps : option (list Project))
| CancelClicked
| DialogMsg (m : dialog_msg)
| RemoveDone
| RemoveFailed (e : js_error).

Section ManagePanel.
Context `{Locale} (props : PanelProps).

Definition manage_init : Manage :=
  mkManage "" "" None None None [] (pp_autoSyncEnabled props) (int (pp_syncIntervalSeconds props)) None
           None None [] 0 (mkDialog None false "" false).

Definition searching (s : Manage) : bool := 0 <? Z.of_nat (String.length (mg_query s)).
Definition allProjects (s : Manage) : option (list Project) := all_projects (mg_streamed s) (mg_discovered s).
Definition shown_projects (s : Manage) : option (list Project) :=
  if searching s then match mg_results s with Some ps => Some ps | None => allProjects s end else allProjects s.

Definition isSelectable (p : Project) : bool := 0 <? proj_totalEstimate p.

Definition selectable (s : Manage) : list Project := List.filter isSelectable (shown_projects s ?? []).
Definition selectionDirty (s : Manage) : bool :=
  existsb (λ p, isSelectable p && is_edited (mg_pending s) p) (allProjects s ?? []).
Definition scheduleDirty (s : Manage) : bool :=
  negb (Bool.eqb (mg_schedEnabled s) (pp_autoSyncEnabled props)) ||
  negb (num_eq (mg_schedInterval s) (int (pp_syncIntervalSeconds props))).
Definition dirty (s : Manage) : bool := selectionDirty s || scheduleDirty s.
Definition saving (s : Manage) : bool :=
  bool_decide (is_Some (mg_save s)) || bool_decide (is_Some (mg_scheduleSave s)).
Definition selectedCount (s : Manage) : Z := js_length (List.filter (isSelected (mg_pending s)) (selectable s)).
Definition allSelected (s : Manage) : bool :=
  (0 <? js_length (selectable s)) && (selectedCount s =? js_length (selectable s)).
Definition someSelected (s : Manage) : bool := (0 <? selectedCount s) && negb (allSelected s).

Definition discovering (s : Manage) : bool :=
  match shown_projects s with
  | None => true
  | Some ps => negb (pp_catalogDiscovered props) && (js_length ps =? 0)
  end.
Definition empty_list (s : Manage) : bool :=
  negb (discovering s) && (js_length (shown_projects s ?? []) =? 0).

Definition selectedIds (s : Manage) : list string :=
  map proj_id (List.filter (isSelected (mg_pending s)) (List.filter isSelectable (allProjects s ?? []))).

(** *** Updates of the record *)

Definition with_pending (s : Manage) (e : edits) : Manage :=
  mkManage (mg_searchInput s) (mg_query s) (mg_streamed s) (mg_discovered s) (mg_results s) e
    (mg_schedEnabled s) (mg_schedInterval s) (mg_sched s) (mg_save s) (mg_scheduleSave s)
    (mg_jobs s) (mg_nextJob s) (mg_dialog s).
Definition with_data (s : Manage) (streamed discovered results : option (list Project)) : Manage :=
  mkManage (mg_searchInput s) (mg_query s) streamed discovered results (mg_pending s)
    (mg_schedEnabled s) (mg_schedInterval s) (mg_sched s) (mg_save s) (mg_scheduleSave s)
    (mg_jobs s) (mg_nextJob s) (mg_dialog s).
Definition with_search (s : Manage) (input query : string) : Manage :=
  mkManage input query (mg_streamed s) (mg_discovered s) (mg_results s) (mg_pending s)
    (mg_schedEnabled s) (mg_schedInterval s) (mg_sched s) (mg_save s) (mg_scheduleSave s)
    (mg_jobs s) (mg_nextJob s) (mg_dialog s).
Definition with_sched (s : Manage) (enabled : bool) (interval : JsNumber) (ed : option Sched) : Manage :=
  mkManage (mg_searchInput s) (mg_query s) (mg_streamed s) (mg_discovered s) (mg_results s) (mg_pending s)
    enabled interval ed (mg_save s) (mg_scheduleSave s) (mg_jobs s) (mg_nextJob s) (mg_dialog s).
Definition with_jobs (s : Manage) (save sched : option nat) (jobs : list (nat * Job)) (next : nat) : Manage :=
  mkManage (mg_searchInput s) (mg_query s) (mg_streamed s) (mg_discovered s) (mg_results s) (mg_pending s)
    (mg_schedEnabled s) (mg_schedInterval s) (mg_sched s) save sched jobs next (mg_dialog s).
Definition with_dialog (s : Manage) (d : DialogState) : Manage :=
  mkManage (mg_searchInput s) (mg_query s) (mg_streamed s) (mg_discovered s) (mg_results s) (mg_pending s)
    (mg_schedEnabled s) (mg_schedInterval s) (mg_sched s) (mg_save s) (mg_scheduleSave s)
    (mg_jobs s) (mg_nextJob s) d.

(** *** The handlers *)

Definition toggleAll (s : Manage) : Manage :=
  with_pending s (put_edits (mg_pending s) (selectable s) (negb (allSelected s))).

(** [onSave] up to its first [await]. *)
Definition manage_onSave (s : Manage) : Manage * list effect :=
  let firstTime := negb (pp_onboarded props) in
  let sel := firstTime || selectionDirty s in
  let sch := scheduleDirty s in
  let j := mg_nextJob s in
  (with_jobs s (if sel then Some j else mg_save s) (if sch then Some j else mg_scheduleSave s)
     ((j, mkJob firstTime (when sel [OpSelection] ++ when sch [OpSchedule])) :: mg_jobs s) (S j),
   when sel [CallRpc (IntegrationRpc (SetProjectSelection
               (mkSetProjectSelection (pp_connectionId props) (selectedIds s))))] ++
   when sch [CallRpc (IntegrationRpc (UpdateSyncSchedule
               (mkUpdateSyncSchedule (pp_connectionId props) (mg_schedEnabled s) (mg_schedInterval s))))]).

Definition find_job (s : Manage) (j : nat) : option Job := snd <$> List.find (λ e, e.1 === j) (mg_jobs s).
Definition drop_job (s : Manage) (j : nat) : list (nat * Job) := List.filter (λ e, e.1 !== j) (mg_jobs s).

(** A call settled: its mutation is no longer pending. *)
Definition op_settled (s : Manage) (j : nat) (o : op) (jobs : list (nat * Job)) : Manage :=
  with_jobs s
    (if (o === OpSelection) && (mg_save s === Some j) then None else mg_save s)
    (if (o === OpSchedule) && (mg_scheduleSave s === Some j) then None else mg_scheduleSave s)
    jobs (mg_nextJob s).

Definition op_done (s : Manage) (j : nat) (o : op) : Manage * list effect :=
  match find_job s j with
  | None => (op_settled s j o (mg_jobs s), [])
  | Some job =>
      let waiting := without (job_waiting job) o in
      (op_settled s j o ((j, mkJob (job_firstTime job) waiting) :: drop_job s j),
       when (js_length waiting =? 0) [Refetch])
  end.

Definition save_error (e : js_error) : string :=
  match e with ConnectErr _ _ raw => raw | OtherErr _ => "please try again" end.

Definition op_failed (s : Manage) (j : nat) (o : op) (e : js_error) : Manage * list effect :=
  match find_job s j with
  | None => (op_settled s j o (mg_jobs s), [])
  | Some _ => (op_settled s j o (drop_job s j), [ToastError ("Couldn't save: " +:+ save_error e)])
  end.

(** The refetch resolved (it does not reject): the rest of [onSave]. *)
Definition refetched (s : Manage) (j : nat) (ps : option (list Project)) : Manage * list effect :=
  match find_job s j with
  | None => (s, [])
  | Some job =>
      let s' := with_data s (mg_streamed s) (match ps with Some l => Some l | None => mg_discovered s end) (mg_results s) in
      (with_pending (with_jobs s' (mg_save s') (mg_scheduleSave s') (drop_job s j) (mg_nextJob s')) [],
       ToastSuccess "Saved" :: when (job_firstTime job) [RouterPush ("/sources/" +:+ pp_connectionId props)])
  end.

(** The editor's callbacks [setSchedEnabled] and [setSchedInterval]. *)
Definition apply_sched_event (s : Manage) (e : sched_event) : Manage :=
  match e with
  | IntervalChange v => with_sched s (mg_schedEnabled s) v (mg_sched s)
  | EnabledChange b => with_sched s b (mg_schedInterval s) (mg_sched s)
  end.

Definition sched_message (s : Manage) (m : sched_msg) : Manage :=
  match mg_sched s with
  | None => s
  | Some ed =>
      let '(ed', evs) := sched_update (mg_schedInterval s) ed m in
      fold_left apply_sched_event evs (with_sched s (mg_schedEnabled s) (mg_schedInterval s) (Some ed'))
  end.

(** The dialog's callbacks: [onConfirm] sends the disconnect. *)
Definition dialog_message (s : Manage) (m : dialog_msg) : Manage * list effect :=
  let '(d, evs) := dialog_update (pp_title props) (mg_dialog s) m in
  let confirmed := existsb (λ e, match e with Confirmed => true | _ => false end) evs in
  (with_dialog s (if confirmed then mkDialog (openProp d) (internalOpen d) (typed d) true else d),
   when confirmed [CallRpc (IntegrationRpc (Disconnect (mkDisconnect (pp_connectionId props))))]).

Definition remove_settled (s : Manage) : Manage :=
  let d := mg_dialog s in with_dialog s (mkDialog (openProp d) (internalOpen d) (typed d) false).

Definition manage_step (s : Manage) (m : manage_msg) : Manage * list effect :=
  match m with
  | SearchTyped v => (with_search s v (mg_query s), [])
  | SearchDebounced => (with_search s (mg_searchInput s) (trim (mg_searchInput s)), [])
  | ProjectsStreamed ps => (with_data s (Some ps) (mg_discovered s) (mg_results s), [])
  | ProjectsDiscovered ps => (with_data s (mg_streamed s) (Some ps) (mg_results s), [])
  | SearchFound ps => (with_data s (mg_streamed s) (mg_discovered s) (Some ps), [])
  | ToggleProject id b => (with_pending s (put_edit (mg_pending s) id b), [])
  | ToggleAll => (toggleAll s, [])
  | SchedMsg m => (sched_message s m, [])
  | SaveClicked => if negb (dirty s) || saving s then (s, []) else manage_onSave s
  | OpDone j o => op_done s j o
  | OpFailed j o e => op_failed s j o e
  | Refetched j ps => refetched s j ps
  | CancelClicked =>
      (s, [RouterPush (if pp_onboarded props then "/sources/" +:+ pp_connectionId props else "/sources")])
  | DialogMsg m => dialog_message s m
  | RemoveDone => (remove_settled s, [RouterReplace "/sources"])
  | RemoveFailed e => (remove_settled s, [ToastError ("Couldn't delete source: " +:+ rawMessage e)])
  end.

(** The schedule editor is mounted while discovery is over, with a state of its own. *)
Definition mount_editor (s : Manage) : Manage :=
  with_sched s (mg_schedEnabled s) (mg_schedInterval s)
    (if discovering s then None else Some (mg_sched s ?? sched_init (mg_schedInterval s))).

Definition manage_update (s : Manage) (m : manage_msg) : Manage * list effect :=
  let '(s', fx) := manage_step s m in (mount_editor s', fx).

#[export] Instance manage_machine : Machine Manage manage_msg effect := manage_update.

(** *** The view *)

Definition ordered (s : Manage) : list Project := js_sort heavier (shown_projects s ?? []).

Definition cnRow (selectable : bool) : string :=
  if selectable then "flex items-center gap-3 px-4 py-2 hover:bg-muted/40"
  else "flex items-center gap-3 px-4 py-2 opacity-60 cursor-not-allowed".

Definition project_item (reduceMotion : bool) (s : Manage) (p : Project) : view manage_msg :=
  let canSelect := isSelectable p in
  El "li" [Attr "key" (proj_id p); Attr "class" (cnRow canSelect)]
    [El "Checkbox" [Attr "id" ("unit-" +:+ proj_id p); BoolAttr "checked" (canSelect && isSelected (mg_pending s) p);
                    BoolAttr "disabled" (negb canSelect); OnChecked (ToggleProject (proj_id p));
                    Attr "aria-label" ("Sync " +:+ project_label p)] [];
     El "label" [] [Text (project_label p)];
     El "span" [] [ProjectStatus reduceMotion p]].

Definition ManagePanel (reduceMotion : bool) (s : Manage) : view manage_msg :=
  PageShell
    ([PageHeader (Some "/sources") "Back to sources" (Some (ConnectorIcon (pp_connectorId props)))
        (if pp_onboarded props then "Manage " +:+ pp_title props else "Set up " +:+ pp_title props +:+ " as a data source")
        (Some ("Connected" +:+ (if truthy (pp_account props) then " as " +:+ pp_account props else "") +:+
               " · " +:+ pp_connectorName props))
        (if negb (discovering s) then
           Some [El "Button" [OnClick CancelClicked] [Text (if pp_onboarded props then "Cancel" else "I'll do this later")];
                 El "Button" [OnClick SaveClicked; BoolAttr "disabled" (negb (dirty s) || saving s)]
                    [Text (if saving s then "Saving…" else if pp_onboarded props then "Save" else "Continue")]]
         else None)] ++
     when (negb (discovering s))
       [El "p" [] [Text "Schedule"];
        El "div" [] (match mg_sched s with
                     | Some ed => [map_view SchedMsg (SyncSchedule (mg_schedEnabled s) (mg_schedInterval s) ed)]
                     | None => [] end)] ++
     [El "p" [] [Text "Projects to sync"];
      El "p" [] [Text "Choose which projects to sync. You can change this anytime."];
      El "div" []
        [if discovering s then
           El "div" [] [El "p" [] [Text "Finding your projects… this can take up to a minute right after connecting."];
                        LineLoader "primary"]
         else if empty_list s && negb (searching s) then El "div" [] [Text no_projects_text]
         else
           El "div" []
             [El "div" []
                [El "Checkbox" [Attr "id" "select-all-projects";
                                Attr "checked" (if allSelected s then "true" else if someSelected s then "indeterminate" else "false");
                                OnChecked (λ _, ToggleAll)] [];
                 El "label" [] [Text (num (selectedCount s) +:+ " of " +:+ num (js_length (selectable s)) +:+ " selected")];
                 El "Input" [Attr "value" (mg_searchInput s); OnChange SearchTyped; Attr "placeholder" "Search projects…"] []];
              if empty_list s then El "div" [] [Text ("No projects match “" +:+ mg_query s +:+ "”.")]
              else El "ul" [] (map (project_item reduceMotion s) (ordered s))]]] ++
     when (negb (discovering s))
       [El "p" [] [Text "Danger zone"];
        El "div" []
          [El "p" [] [Text "Delete source"];
           El "p" [] [Text ("Disconnects " +:+ pp_title props +:+ " and schedules its synced files for deletion.")];
           map_view DialogMsg (ConfirmDestructiveDialog (pp_title props)
             (Some (El "Button" [OnClick (OpenChange true)] [Text "Delete source"]))
             (Text ("Delete " +:+ pp_title props +:+ "?"))
             (Text ("This disconnects the source and schedules its synced files for deletion. " +:+
                    "You can reconnect later, but you’ll re-authorize."))
             "Delete source" reduceMotion (mg_dialog s))]]).

Definition ManageSkeleton {M} : view M := PageShell (replicate 5 (El "Skeleton" [] [])).

End ManagePanel.

(** ** Lemmas on edits *)

Lemma js_get_put m id b k :
  js_get (put_edit m id b) k = if id === k then Own b else js_get m k.
Proof. unfold js_get, put_edit; simpl. by destruct (id === k). Qed.

Lemma js_get_put_edits m ps b k :
  js_get (put_edits m ps b) k = if includes (map proj_id ps) k then Own b else js_get m k.
Proof.
  revert m. induction ps as [|p ps IH]; intros m; [done|]. cbn [put_edits fold_left].
  fold (put_edits (put_edit m (proj_id p) b) ps b). rewrite IH, js_get_put. cbn [map includes existsb].
  fold (includes (map proj_id ps) k). destruct (proj_id p === k); simpl; [|done].
  by destruct (includes (map proj_id ps) k).
Qed.

Lemma existsb_filter {A} (f g : A → bool) l : existsb (λ x, f x && g x) l = existsb g (List.filter f l).
Proof. induction l as [|x l IH]; simpl; [done|]. rewrite IH. by destruct (f x). Qed.

Section ManageProps.
Context `{Locale} (props : PanelProps).
#[local] Existing Instance manage_machine.
Implicit Types s : Manage.

Abbreviation upd := (@update _ _ _ (manage_machine props)).
Abbreviation exec := (@run _ _ _ (manage_machine props)).

(** *** What is saved *)

(** The calls of a save. *)
Definition save_calls s : list effect :=
  when (negb (pp_onboarded props) || selectionDirty s)
    [CallRpc (IntegrationRpc (SetProjectSelection (mkSetProjectSelection (pp_connectionId props) (selectedIds s))))] ++
  when (scheduleDirty props s)
    [CallRpc (IntegrationRpc (UpdateSyncSchedule
       (mkUpdateSyncSchedule (pp_connectionId props) (mg_schedEnabled s) (mg_schedInterval s))))].

Lemma save_effects s :
  (upd s SaveClicked).2 = if dirty props s && negb (saving s) then save_calls s else [].
Proof.
  unfold update, manage_machine, manage_update, manage_step.
  destruct (dirty props s), (saving s); done.
Qed.

(** A message about selections is among the calls of a save only if it is the
    save's own. *)
Lemma save_selection s r :
  In (CallRpc (IntegrationRpc (SetProjectSelection r))) (save_calls s) ↔
  (pp_onboarded props = false ∨ selectionDirty s = true) ∧
  r = mkSetProjectSelection (pp_connectionId props) (selectedIds s).
Proof.
  unfold save_calls. rewrite in_app_iff.
  destruct (pp_onboarded props), (selectionDirty s), (scheduleDirty props s); cbn; naive_solver.
Qed.

Lemma selectedIds_In s id :
  In id (selectedIds s) ↔
  ∃ p, In p (allProjects s ?? []) ∧ proj_id p = id ∧ 0 < proj_totalEstimate p ∧ isSelected (mg_pending s) p = true.
Proof.
  unfold selectedIds. rewrite in_map_iff. setoid_rewrite filter_In.
  setoid_rewrite filter_In. unfold isSelectable. setoid_rewrite Z.ltb_lt. naive_solver.
Qed.

(** C3: Clicking Save sends a selection exactly when something changed, no save is running,
    and either the source is being set up or a project's selection was edited. The request names
    this source, and its ids are exactly those of the source's projects that can be synced and are
    selected (edited or saved), whether or not a search currently shows them: search text, search
    results and debouncing never change what is sent. *)
Theorem save_covers_every_project s :
  ((∃ r, In (CallRpc (IntegrationRpc (SetProjectSelection r))) (upd s SaveClicked).2) ↔
     dirty props s = true ∧ saving s = false ∧ (pp_onboarded props = false ∨ selectionDirty s = true)) ∧
  (∀ r, In (CallRpc (IntegrationRpc (SetProjectSelection r))) (upd s SaveClicked).2 →
     sps_connectionId r = pp_connectionId props ∧
     ∀ id, In id (sps_selectedIds r) ↔
       ∃ p, In p (allProjects s ?? []) ∧ proj_id p = id ∧ 0 < proj_totalEstimate p ∧
            isSelected (mg_pending s) p = true) ∧
  (∀ input query results,
     (upd (with_search (with_data s (mg_streamed s) (mg_discovered s) results) input query) SaveClicked).2 =
     (upd s SaveClicked).2).
Proof.
  rewrite !save_effects. split_and!.
  - destruct (dirty props s), (saving s); cbn [andb negb]; try (split; [intros [? []]|naive_solver]).
    setoid_rewrite save_selection. naive_solver.
  - intros r. destruct (dirty props s && negb (saving s)); [|intros []].
    intros [_ ->]%save_selection. split; [done|]. intros id. apply selectedIds_In.
  - intros input query results. by rewrite !save_effects.
Qed.

(** On a source whose projects can all be synced, the manage page saves the same
    selection as the older per-connector panel does from the same edits. *)
Theorem manage_mirrors_connector_panel s ps cp :
  allProjects s = Some ps → Forall (λ p, 0 < proj_totalEstimate p) ps → cp_pending cp = mg_pending s →
  (cp_update (pp_connectionId props) ps cp CpSave).2 =
  [CallRpc (IntegrationRpc (SetProjectSelection (mkSetProjectSelection (pp_connectionId props) (selectedIds s))))].
Proof.
  intros Hps Hall Hcp. unfold cp_update, selectedIds. simpl. rewrite Hps, Hcp. simpl. do 5 f_equal.
  rewrite (filter_ext_In isSelectable (λ _, true)); [by rewrite List.filter_true|].
  intros p Hp. unfold isSelectable. apply Z.ltb_lt. rewrite Forall_forall in Hall. apply Hall. by apply list_elem_of_In.
Qed.

(** *** Select all *)

Lemma filter_all_true {A} (f : A → bool) l : (∀ x, In x l → f x = true) → List.filter f l = l.
Proof.
  intros Hf. induction l as [|x l IH]; simpl; [done|].
  rewrite Hf by (by left). f_equal. apply IH. intros; apply Hf; by right.
Qed.

Lemma filter_none {A} (f : A → bool) l : (∀ x, In x l → f x = false) → List.filter f l = [].
Proof.
  intros Hf. induction l as [|x l IH]; simpl; [done|].
  rewrite Hf by (by left). apply IH. intros; apply Hf; by right.
Qed.

Lemma toggleAll_selected s p :
  In p (selectable s) → isSelected (mg_pending (toggleAll s)) p = negb (allSelected s).
Proof.
  intros Hp. unfold isSelected, edited, toggleAll; simpl. rewrite js_get_put_edits.
  assert (Hin : includes (map proj_id (selectable s)) (proj_id p) = true).
  { apply includes_In, in_map_iff. by exists p. }
  by rewrite Hin.
Qed.

(** Select-all acts on the shown, syncable projects and on nothing else: it
    selects them all unless they all are, in which case it clears them all, the
    checkbox turns into the opposite state, and every other project keeps its
    selection. *)
Theorem toggle_all_exact s :
  (∀ p, In p (selectable s) → isSelected (mg_pending (toggleAll s)) p = negb (allSelected s)) ∧
  (∀ p, (∀ p', In p' (selectable s) → proj_id p' ≠ proj_id p) →
     isSelected (mg_pending (toggleAll s)) p = isSelected (mg_pending s) p) ∧
  (selectable s ≠ [] → allSelected (toggleAll s) = negb (allSelected s) ∧ someSelected (toggleAll s) = false) ∧
  selectable (toggleAll s) = selectable s.
Proof.
  split; [apply toggleAll_selected|]. split; [|split; [|done]].
  - intros p Hp. unfold isSelected, edited, toggleAll; simpl. rewrite js_get_put_edits.
    assert (Hin : includes (map proj_id (selectable s)) (proj_id p) = false).
    { apply includes_not_In. rewrite in_map_iff. intros (p' & Heq & Hin). by apply (Hp p'). }
    by rewrite Hin.
  - intros Hne.
    assert (Hpos : 0 < js_length (selectable s)) by (unfold js_length; destruct (selectable s); simpl; [done|lia]).
    assert (Hcount : selectedCount (toggleAll s) = if allSelected s then 0 else js_length (selectable s)).
    { unfold selectedCount. change (selectable (toggleAll s)) with (selectable s).
      pose proof (toggleAll_selected s) as Hsel. destruct (allSelected s).
      - by rewrite filter_none.
      - by rewrite filter_all_true. }
    unfold someSelected. unfold allSelected at 1 3. change (selectable (toggleAll s)) with (selectable s).
    rewrite Hcount. destruct (Z.ltb_spec 0 (js_length (selectable s))); [|lia].
    destruct (allSelected s); cbn [negb andb].
    + destruct (Z.eqb_spec 0 (js_length (selectable s))); [lia|done].
    + rewrite Z.eqb_refl. cbn. by rewrite andb_false_r.
Qed.

(** *** The list is ordered *)

Lemma heavier_total (L : LocaleLaws _) a b : 0 < heavier a b → heavier b a <= 0.
Proof.
  unfold heavier. cbv zeta.
  destruct (Z.eqb_spec (proj_totalEstimate b - proj_totalEstimate a) 0),
    (Z.eqb_spec (proj_totalEstimate a - proj_totalEstimate b) 0); cbn [negb]; try lia.
  destruct (Z.eqb_spec (proj_artifactCount b - proj_artifactCount a) 0),
    (Z.eqb_spec (proj_artifactCount a - proj_artifactCount b) 0); cbn [negb]; try lia.
  intros Hc. apply localeCompare_anti. lia.
Qed.

(** The project list shows every shown project once, heaviest estimate first:
    neighbours are ordered by the comparator (estimate, then synced items, then
    name), and the estimates never increase down the list. *)
Theorem ordered_heaviest_first (L : LocaleLaws _) s :
  ordered s ≡ₚ (shown_projects s ?? []) ∧
  Sorted (λ a b, heavier a b <= 0) (ordered s) ∧
  StronglySorted (λ a b, proj_totalEstimate b <= proj_totalEstimate a) (ordered s).
Proof.
  split; [apply js_sort_perm|].
  assert (Hs : Sorted (λ a b, heavier a b <= 0) (ordered s)) by (apply js_sort_sorted, heavier_total, L).
  split; [done|]. apply Sorted_StronglySorted; [intros a b c; lia|].
  revert Hs. clear. induction 1 as [|a l _ IH Hhd]; constructor; [done|].
  destruct Hhd as [|b l Hab]; constructor. revert Hab. unfold heavier. cbv zeta.
  destruct (Z.eqb_spec (proj_totalEstimate b - proj_totalEstimate a) 0); cbn [negb]; lia.
Qed.

(** *** The save protocol *)

(** The calls a save waits for. *)
Definition save_ops s : list op :=
  when (negb (pp_onboarded props) || selectionDirty s) [OpSelection] ++ when (scheduleDirty props s) [OpSchedule].

Lemma save_starts s :
  dirty props s = true → saving s = false → mg_jobs s = [] →
  exec s [SaveClicked] =
    (mount_editor props
       (with_jobs s (if negb (pp_onboarded props) || selectionDirty s then Some (mg_nextJob s) else None)
          (if scheduleDirty props s then Some (mg_nextJob s) else None)
          [(mg_nextJob s, mkJob (negb (pp_onboarded props)) (save_ops s))] (S (mg_nextJob s))), save_calls s).
Proof.
  intros Hd Hs Hj. cbn [run]. unfold update, manage_machine, manage_update, manage_step. rewrite Hd, Hs. cbn [negb orb].
  unfold manage_onSave. cbv zeta iota beta. rewrite Hj. unfold saving in Hs. apply orb_false_iff in Hs as [H1 H2].
  apply bool_decide_eq_false, eq_None_not_Some in H1. apply bool_decide_eq_false, eq_None_not_Some in H2.
  rewrite H1, H2. by rewrite app_nil_r.
Qed.

Lemma save_ops_ne s : dirty props s = true → save_ops s ≠ [].
Proof.
  unfold dirty, save_ops. destruct (selectionDirty s), (scheduleDirty props s), (pp_onboarded props); done.
Qed.

Lemma find_job_head s j job rest : mg_jobs s = (j, job) :: rest → find_job s j = Some job.
Proof. intros Hj. unfold find_job. rewrite Hj; simpl. by rewrite bool_decide_eq_true_2. Qed.

Lemma drop_job_single s j job : mg_jobs s = [(j, job)] → drop_job s j = [].
Proof. intros Hj. unfold drop_job. rewrite Hj; simpl. by rewrite bool_decide_eq_true_2. Qed.

(** One answered call of the only running save. *)
Lemma op_done_step s j f w o :
  mg_jobs s = [(j, mkJob f w)] →
  let r := upd s (OpDone j o) in
  r.2 = when (js_length (without w o) =? 0) [Refetch] ∧
  mg_jobs r.1 = [(j, mkJob f (without w o))] ∧
  mg_save r.1 = (if (o === OpSelection) && (mg_save s === Some j) then None else mg_save s) ∧
  mg_scheduleSave r.1 = (if (o === OpSchedule) && (mg_scheduleSave s === Some j) then None else mg_scheduleSave s).
Proof.
  intros Hj. unfold update, manage_machine, manage_update, manage_step, op_done.
  rewrite (find_job_head _ _ _ _ Hj), (drop_job_single _ _ _ Hj). done.
Qed.

Lemma op_failed_step s j f w o e :
  mg_jobs s = [(j, mkJob f w)] →
  let r := upd s (OpFailed j o e) in
  r.2 = [ToastError ("Couldn't save: " +:+ save_error e)] ∧ mg_jobs r.1 = [] ∧ mg_pending r.1 = mg_pending s.
Proof.
  intros Hj. unfold update, manage_machine, manage_update, manage_step, op_failed.
  rewrite (find_job_head _ _ _ _ Hj), (drop_job_single _ _ _ Hj). done.
Qed.

Lemma refetched_step s j f w ps :
  mg_jobs s = [(j, mkJob f w)] →
  let r := upd s (Refetched j ps) in
  r.2 = ToastSuccess "Saved" :: when f [RouterPush ("/sources/" +:+ pp_connectionId props)] ∧
  mg_pending r.1 = [] ∧ mg_jobs r.1 = [] ∧ mg_save r.1 = mg_save s ∧ mg_scheduleSave r.1 = mg_scheduleSave s.
Proof.
  intros Hj. unfold update, manage_machine, manage_update, manage_step, refetched.
  rewrite (find_job_head _ _ _ _ Hj), (drop_job_single _ _ _ Hj). done.
Qed.

(** The end of a save with one call, and with two. *)
Lemma one_call_save s j f o ps :
  mg_jobs s = [(j, mkJob f [o])] →
  (if o === OpSelection then mg_save s = Some j ∧ mg_scheduleSave s = None
   else mg_save s = None ∧ mg_scheduleSave s = Some j) →
  let r := exec s [OpDone j o; Refetched j ps] in
  r.2 = Refetch :: ToastSuccess "Saved" :: when f [RouterPush ("/sources/" +:+ pp_connectionId props)] ∧
  mg_pending r.1 = [] ∧ mg_jobs r.1 = [] ∧ saving r.1 = false.
Proof.
  intros Hj Hm. cbv zeta. rewrite !run_cons. cbn [run fst snd].
  destruct (op_done_step s j f [o] o Hj) as (E1 & J1 & S1 & C1).
  assert (Hw : without [o] o = []) by (unfold without; simpl; by rewrite bool_decide_eq_true_2).
  rewrite Hw in *. destruct (refetched_step _ j f _ ps J1) as (E2 & P2 & J2 & S2 & C2).
  rewrite E1, E2, app_nil_r. split; [done|]. split; [done|]. split; [done|].
  unfold saving. rewrite S2, C2, S1, C1. destruct o; simpl in *; destruct Hm as [-> ->];
    rewrite (bool_decide_eq_true_2 (Some j = Some j)) by done; reflexivity.
Qed.

Lemma two_call_save s j f o o' ps :
  mg_jobs s = [(j, mkJob f [OpSelection; OpSchedule])] → o ≠ o' →
  mg_save s = Some j → mg_scheduleSave s = Some j →
  let r := exec s [OpDone j o; OpDone j o'; Refetched j ps] in
  r.2 = Refetch :: ToastSuccess "Saved" :: when f [RouterPush ("/sources/" +:+ pp_connectionId props)] ∧
  mg_pending r.1 = [] ∧ mg_jobs r.1 = [] ∧ saving r.1 = false.
Proof.
  intros Hj Hne Hs Hc. cbv zeta. rewrite run_cons. cbn [fst snd].
  destruct (op_done_step s j f _ o Hj) as (E1 & J1 & S1 & C1).
  assert (Hw : without [OpSelection; OpSchedule] o = [o']) by (destruct o, o'; done).
  rewrite Hw in *. rewrite Hs in S1. rewrite Hc in C1.
  destruct (one_call_save _ j f o' ps J1) as (E2 & P2 & J2 & Sv).
  { destruct o, o'; try done; simpl in *; rewrite S1, C1, ?(bool_decide_eq_true_2 (Some j = Some j)) by done; done. }
  rewrite E1, E2. done.
Qed.

(** C4: A save that succeeds issues its calls once, refetches when all of them have
    answered (in either order), then drops the edits, says "Saved" and moves to
    the source's page exactly on the first save; nothing is left pending. *)
Theorem save_succeeds s ops ps :
  dirty props s = true → saving s = false → mg_jobs s = [] → ops ≡ₚ save_ops s →
  let j := mg_nextJob s in
  let r := exec s (SaveClicked :: map (OpDone j) ops ++ [Refetched j ps]) in
  r.2 = save_calls s ++ [Refetch; ToastSuccess "Saved"] ++
        when (negb (pp_onboarded props)) [RouterPush ("/sources/" +:+ pp_connectionId props)] ∧
  mg_pending r.1 = [] ∧ mg_jobs r.1 = [] ∧ saving r.1 = false.
Proof.
  intros Hd Hs Hj Hops j. pose proof (save_ops_ne s Hd) as Hne.
  change (SaveClicked :: map (OpDone j) ops ++ [Refetched j ps]) with
         ([SaveClicked] ++ (map (OpDone j) ops ++ [Refetched j ps])).
  rewrite run_app, save_starts by done. cbn [fst snd app].
  set (s1 := mount_editor _ _). revert Hops Hne.
  assert (Hjobs : mg_jobs s1 = [(j, mkJob (negb (pp_onboarded props)) (save_ops s))]) by done.
  assert (Hsave : mg_save s1 = if negb (pp_onboarded props) || selectionDirty s then Some j else None) by done.
  assert (Hsch : mg_scheduleSave s1 = if scheduleDirty props s then Some j else None) by done.
  clearbody s1. revert Hjobs. unfold save_ops.
  destruct (negb (pp_onboarded props) || selectionDirty s), (scheduleDirty props s); cbn [when app];
    intros Hjobs Hops Hne; [| | |done].
  - apply Permutation_sym, Permutation_length_2_inv in Hops as [-> | ->]; cbn [map app];
      [destruct (two_call_save s1 j _ OpSelection OpSchedule ps Hjobs ltac:(done) Hsave Hsch) as (E & ?)
      |destruct (two_call_save s1 j _ OpSchedule OpSelection ps Hjobs ltac:(done) Hsave Hsch) as (E & ?)];
      by rewrite E.
  - apply Permutation_sym, Permutation_length_1_inv in Hops as ->. cbn [map app].
    edestruct one_call_save as (E & ?); [exact Hjobs|by rewrite bool_decide_eq_true_2|by rewrite E].
  - apply Permutation_sym, Permutation_length_1_inv in Hops as ->. cbn [map app].
    edestruct one_call_save as (E & ?); [exact Hjobs|by rewrite bool_decide_eq_false_2|by rewrite E].
Qed.

(** Messages about the calls of save [j]. *)
Definition answers_save (j : nat) (m : manage_msg) : Prop :=
  match m with OpDone j' _ | OpFailed j' _ _ | Refetched j' _ => j' = j | _ => False end.

(** Once no save runs, late answers change nothing the visitor sees. *)
Lemma late_answers j rest s :
  Forall (answers_save j) rest → mg_jobs s = [] →
  (exec s rest).2 = [] ∧ mg_pending (exec s rest).1 = mg_pending s ∧ mg_jobs (exec s rest).1 = [].
Proof.
  intros Hrest. revert s. induction Hrest as [|m rest Hm _ IH]; intros s J; [done|]. rewrite run_cons. cbn [fst snd].
  assert (Hstep : (upd s m).2 = [] ∧ mg_pending (upd s m).1 = mg_pending s ∧ mg_jobs (upd s m).1 = []).
  { unfold update, manage_machine, manage_update, manage_step.
    destruct m; try done; unfold op_done, op_failed, refetched, find_job; rewrite J; done. }
  destruct Hstep as (H1 & H2 & H3). destruct (IH _ H3) as (H4 & H5 & H6). rewrite H1, H4, H5. done.
Qed.

(** Calls that succeed while another is still awaited only shorten the wait. *)
Lemma some_calls_done j f answered s w :
  mg_jobs s = [(j, mkJob f w)] → NoDup w → NoDup answered → incl answered w → (length answered < length w)%nat →
  let r := exec s (map (OpDone j) answered) in
  r.2 = [] ∧ (∃ w', mg_jobs r.1 = [(j, mkJob f w')]) ∧ mg_pending r.1 = mg_pending s.
Proof.
  revert s w. induction answered as [|o answered IH]; intros s w Hj Hw Ha Hin Hl; cbv zeta; [by eauto|].
  cbn [map]. rewrite run_cons. cbn [fst snd]. destruct (op_done_step s j f w o Hj) as (E & J & _ & _).
  assert (P : mg_pending (upd s (OpDone j o)).1 = mg_pending s).
  { unfold update, manage_machine, manage_update, manage_step, op_done. by rewrite (find_job_head _ _ _ _ Hj). }
  apply NoDup_cons in Ha as [Ho Ha].
  assert (Hlen : S (length (without w o)) = length w ∧ NoDup (without w o) ∧ incl answered (without w o)).
  { assert (Hin' : In o w) by (apply Hin; by left). clear - Hw Hin Hin' Ho. split_and!.
    - destruct w as [|[] [|[] [|x w]]], o; cbn in *; try done; try (by intuition discriminate);
        repeat (match goal with H : NoDup (_ :: _) |- _ => apply NoDup_cons in H as [? H] end; rewrite !list_elem_of_In in *; cbn in *);
        try (by intuition congruence); try (destruct x; exfalso; naive_solver).
    - unfold without. apply NoDup_ListNoDup, List.NoDup_filter. by apply NoDup_ListNoDup.
    - intros x Hx. unfold without. apply filter_In. split; [apply Hin; by right|].
      apply negb_true_iff, bool_decide_eq_false_2. intros ->. by apply Ho, list_elem_of_In. }
  destruct Hlen as (Hlen & Hnd & Hin'). cbn [length] in Hl.
  destruct (IH _ _ J Hnd Ha Hin' ltac:(lia)) as (E' & W & P'). rewrite E, E', P', P.
  assert (Hz : js_length (without w o) =? 0 = false) by (unfold js_length; apply Z.eqb_neq; lia). by rewrite Hz.
Qed.

Lemma save_ops_NoDup s : NoDup (save_ops s).
Proof.
  unfold save_ops. destruct (_ || _), (scheduleDirty props s); cbn [when app];
    by apply (bool_decide_unpack _).
Qed.

(** C24: A save that fails says so once and keeps every edit for another attempt, and
    neither reports success nor navigates: whichever of its calls fails, whichever had
    succeeded before ([answered]), and whatever the remaining calls answer afterwards. *)
Theorem save_fails_keeps_edits s answered o e others rest :
  dirty props s = true → saving s = false → mg_jobs s = [] →
  answered ++ o :: others ≡ₚ save_ops s → Forall (answers_save (mg_nextJob s)) rest →
  let j := mg_nextJob s in
  let r := exec s (SaveClicked :: map (OpDone j) answered ++ OpFailed j o e :: rest) in
  r.2 = save_calls s ++ [ToastError ("Couldn't save: " +:+ save_error e)] ∧
  mg_pending r.1 = mg_pending s ∧ mg_jobs r.1 = [].
Proof.
  intros Hd Hs Hj Hops Hrest j. change (SaveClicked :: ?l) with ([SaveClicked] ++ l).
  rewrite run_app, save_starts by done. cbn [fst snd]. set (s1 := mount_editor _ _).
  assert (Hjobs : mg_jobs s1 = [(j, mkJob (negb (pp_onboarded props)) (save_ops s))]) by done.
  assert (Hp : mg_pending s1 = mg_pending s) by done. clearbody s1.
  pose proof (save_ops_NoDup s) as Hnd. rewrite <-Hops in Hnd. apply NoDup_app in Hnd as (Hnd & _ & _).
  destruct (some_calls_done j _ answered s1 _ Hjobs (save_ops_NoDup s) Hnd) as (E1 & (w & J1) & P1).
  { intros x Hx. eapply Permutation_in; [exact Hops|]. apply in_app_iff. by left. }
  { rewrite <-Hops, length_app. cbn. lia. }
  rewrite run_app. cbn [fst snd]. rewrite E1. cbn [app]. revert J1 P1. generalize (exec s1 (map (OpDone j) answered)).1.
  intros s2 J2 P2. rewrite run_cons. cbn [fst snd]. destruct (op_failed_step s2 _ _ _ o e J2) as (E & J & P).
  destruct (late_answers j rest _ Hrest J) as (-> & -> & ->). rewrite E, P, P2, Hp. done.
Qed.

(** Only Save sends a selection. *)
Lemma selection_only_by_save s m r :
  m ≠ SaveClicked → ¬ In (CallRpc (IntegrationRpc (SetProjectSelection r))) (upd s m).2.
Proof.
  unfold update, manage_machine, manage_update. intros Hm.
  destruct m; cbn [manage_step]; try done; try (by intros []); try (by intros [[=]|[]]).
  - unfold op_done. destruct (find_job s job); [|by intros []]. cbn [snd]. destruct (_ =? 0); cbn; [intuition discriminate|tauto].
  - unfold op_failed. destruct (find_job s job); cbn; intuition discriminate.
  - unfold refetched. destruct (find_job s job) as [[[] ?]|]; cbn; intuition discriminate.
  - unfold dialog_message. destruct (dialog_update (pp_title props) (mg_dialog s) m) as [d evs].
    cbn [fst snd]. destruct (existsb _ evs); cbn; intuition discriminate.
Qed.

Lemma no_selection_without_save s ms r :
  Forall (λ m, m ≠ SaveClicked) ms → ¬ In (CallRpc (IntegrationRpc (SetProjectSelection r))) (exec s ms).2.
Proof.
  intros Hms. revert s. induction Hms as [|m ms Hm _ IH]; intros s; [by intros []|].
  rewrite run_cons. cbn [snd]. rewrite in_app_iff. intros [Hin|Hin]; [by apply selection_only_by_save in Hin|by apply IH in Hin].
Qed.

(** C35: Edits made while a save is in flight are discarded. Let anything happen between a click
    on Save and its refetch (edits, searches, stream updates, the answers of the calls, in any
    order) except another click on Save: the refetch clears all edits and says "Saved", although the
    only selection ever sent is the one of the moment of the click. So what was toggled in
    between is dropped from the page without having been sent. *)
Theorem edits_during_save_lost s ms job ps :
  dirty props s = true → saving s = false → Forall (λ m, m ≠ SaveClicked) ms →
  find_job (exec s (SaveClicked :: ms)).1 (mg_nextJob s) = Some job →
  let r := exec s (SaveClicked :: ms ++ [Refetched (mg_nextJob s) ps]) in
  mg_pending r.1 = [] ∧ In (ToastSuccess "Saved") r.2 ∧
  (∀ q, In (CallRpc (IntegrationRpc (SetProjectSelection q))) r.2 →
     q = mkSetProjectSelection (pp_connectionId props) (selectedIds s)).
Proof.
  intros Hd Hs Hms Hj. cbv zeta. change (SaveClicked :: ms ++ ?l) with ((SaveClicked :: ms) ++ l).
  rewrite run_app. cbn [fst snd].
  assert (Hcalls : ∀ q, In (CallRpc (IntegrationRpc (SetProjectSelection q))) (exec s (SaveClicked :: ms)).2 →
     q = mkSetProjectSelection (pp_connectionId props) (selectedIds s)).
  { intros q. rewrite run_cons. cbn [snd]. rewrite in_app_iff, save_effects, Hd, Hs. cbn [andb negb].
    intros [[_ ->]%save_selection|Hin]; [done|]. by apply no_selection_without_save in Hin. }
  revert Hj Hcalls. generalize (exec s (SaveClicked :: ms)). intros [s1 fx] Hj Hcalls. cbn [fst snd] in *.
  cbn [run]. unfold update, manage_machine, manage_update, manage_step, refetched. rewrite Hj.
  cbv zeta beta iota. cbn [fst snd]. split; [done|]. rewrite app_nil_r. split_and!.
  - apply in_app_iff. right. by left.
  - intros q. rewrite in_app_iff. intros [Hin|Hin]; [by apply Hcalls|].
    destruct (job_firstTime job); cbn in Hin; intuition discriminate.
Qed.

(** First-time setup cannot be finished without an edit: with nothing changed the
    Continue button is disabled and a click does nothing, although the save
    behind it would write the selection that marks the source as set up. *)
Theorem continue_needs_an_edit s :
  pp_onboarded props = false → dirty props s = false →
  (upd s SaveClicked).2 = [] ∧ mg_jobs (upd s SaveClicked).1 = mg_jobs s ∧
  (manage_onSave props s).2 =
    [CallRpc (IntegrationRpc (SetProjectSelection (mkSetProjectSelection (pp_connectionId props) (selectedIds s))))].
Proof.
  intros Ho Hd. unfold update, manage_machine, manage_update, manage_step. rewrite Hd. split; [done|]. split; [done|].
  unfold dirty in Hd. apply orb_false_iff in Hd as [H1 H2]. unfold manage_onSave. simpl. by rewrite Ho, H2.
Qed.

(** A project that is selected on the server but has no estimate yet is dropped
    from the selection by any save, edited or not. *)
Theorem unestimated_selection_dropped s p :
  NoDup (map proj_id (allProjects s ?? [])) → In p (allProjects s ?? []) → proj_totalEstimate p = 0 →
  ¬ In (proj_id p) (selectedIds s).
Proof.
  intros Hnd Hp Hz. unfold selectedIds. rewrite in_map_iff. intros (p' & Heq & Hin).
  rewrite !filter_In in Hin. destruct Hin as [[Hp' Hsel] _].
  assert (p' = p) as ->; [|unfold isSelectable in Hsel; rewrite Hz in Hsel; done].
  clear - Hnd Hp Hp' Heq. induction (allProjects s ?? []) as [|a l IH]; [done|]. simpl in Hnd.
  apply NoDup_cons in Hnd as [Ha Hnd]. rewrite list_elem_of_In, in_map_iff in Ha.
  destruct Hp as [->|Hp], Hp' as [->|Hp']; [done| | |by apply IH].
  - exfalso. apply Ha. by exists p'.
  - exfalso. apply Ha. by exists p.
Qed.

(** C28: The source is only ever disconnected through the armed dialog: the request is
    sent for this connection, while its title is typed and no removal is running,
    and it blocks a second one until it is answered. *)
Theorem disconnect_needs_the_title s m r :
  In (CallRpc (IntegrationRpc (Disconnect r))) (upd s m).2 →
  r = mkDisconnect (pp_connectionId props) ∧ trim (typed (mg_dialog s)) = pp_title props ∧
  pending (mg_dialog s) = false ∧ pending (mg_dialog (upd s m).1) = true.
Proof.
  unfold update, manage_machine, manage_update.
  destruct m; cbn [manage_step]; try (by intros []); try (intros [Hx|[]]; discriminate).
  - destruct (negb (dirty props s) || saving s); [done|]. unfold manage_onSave. cbn [snd fst].
    destruct (negb (pp_onboarded props) || selectionDirty s), (scheduleDirty props s); simpl; naive_solver.
  - unfold op_done. destruct (find_job s job); [|done]. cbn [snd]. destruct (_ =? 0); simpl; naive_solver.
  - unfold op_failed. destruct (find_job s job); simpl; naive_solver.
  - unfold refetched. destruct (find_job s job) as [[[] ?]|]; simpl; naive_solver.
  - unfold dialog_message. destruct (dialog_update (pp_title props) (mg_dialog s) m) as [d evs] eqn:Hd.
    cbn [fst snd]. destruct (existsb _ evs) eqn:He; [|done]. cbn [when]. intros [[= <-]|[]].
    split; [done|]. apply existsb_exists in He as (ev & Hin & Hev). destruct ev; [|done].
    pose proof (confirmed_armed (pp_title props) (mg_dialog s) m) as Ha. unfold update, confirm_machine in Ha.
    rewrite Hd in Ha. specialize (Ha Hin). unfold armed in Ha. zbool. done.
Qed.

End ManageProps.

(** ** Witnesses: a source with three projects, one without an estimate *)

Definition demo_project (id : string) (sel : bool) (est : Z) : Project :=
  mkProject id ("acme/" +:+ id) sel "synced" None 0 "" est None.
Definition demo_catalog : list Project :=
  [demo_project "p1" true 120; demo_project "p2" false 958; demo_project "p3" true 0].
Definition demo_props : PanelProps := mkProps "c1" "github" "acme" "GitHub" "acme" true true true 3600.
Definition demo_setup : PanelProps := mkProps "c1" "github" "acme" "GitHub" "acme" false true true 3600.
Definition demo_manage (pp : PanelProps) (ms : list manage_msg) : Manage :=
  (@run _ _ _ (manage_machine pp) (manage_init pp) (ProjectsStreamed demo_catalog :: ms)).1.
Definition demo_edited : Manage := demo_manage demo_props [ToggleProject "p2" true].

Lemma manage_mirrors_connector_panel_witness :
  (cp_update "c1" [demo_project "p1" true 120; demo_project "p2" false 958] (mkCp [("p2", true)] None 0) CpSave).2 =
  [CallRpc (IntegrationRpc (SetProjectSelection (mkSetProjectSelection "c1" ["p1"; "p2"])))].
Proof.
  rewrite (manage_mirrors_connector_panel demo_props
    (with_pending (with_data (manage_init demo_props) (Some [demo_project "p1" true 120; demo_project "p2" false 958]) None None)
       [("p2", true)])); [reflexivity|reflexivity|by repeat constructor|reflexivity].
Defined.

Lemma toggle_all_exact_witness :
  allSelected (toggleAll demo_edited) = false ∧ allSelected demo_edited = true.
Proof.
  split; [|vm_compute; reflexivity].
  destruct (toggle_all_exact demo_edited) as (_ & _ & H & _).
  assert (Hne : selectable demo_edited ≠ []) by (vm_compute; discriminate).
  destruct (H Hne) as [Ha _]. rewrite Ha. vm_compute. reflexivity.
Defined.

Lemma ordered_heaviest_first_witness :
  ordered demo_edited ≡ₚ demo_catalog ∧ map proj_id (ordered demo_edited) = ["p2"; "p1"; "p3"].
Proof.
  split; [|vm_compute; reflexivity].
  exact (proj1 (ordered_heaviest_first ascii_locale_laws demo_edited)).
Defined.

Lemma save_covers_every_project_witness :
  let r := mkSetProjectSelection "c1" ["p1"; "p2"] in
  In (CallRpc (IntegrationRpc (SetProjectSelection r))) (@update _ _ _ (manage_machine demo_props) demo_edited SaveClicked).2 ∧
  In "p2" (sps_selectedIds r).
Proof.
  cbv zeta. assert (Hin : In (CallRpc (IntegrationRpc (SetProjectSelection (mkSetProjectSelection "c1" ["p1"; "p2"]))))
    (@update _ _ _ (manage_machine demo_props) demo_edited SaveClicked).2) by (vm_compute; tauto).
  split; [exact Hin|]. destruct (save_covers_every_project demo_props demo_edited) as (_ & H & _).
  apply (proj2 (H _ Hin)). exists (demo_project "p2" false 958). vm_compute. tauto.
Defined.

Lemma save_succeeds_witness :
  (@run _ _ _ (manage_machine demo_props) demo_edited [SaveClicked; OpDone 0 OpSelection; Refetched 0 None]).2 =
  [CallRpc (IntegrationRpc (SetProjectSelection (mkSetProjectSelection "c1" ["p1"; "p2"]))); Refetch; ToastSuccess "Saved"].
Proof.
  assert (Hd : dirty demo_props demo_edited = true) by (vm_compute; reflexivity).
  assert (Hs : saving demo_edited = false) by (vm_compute; reflexivity).
  assert (Hj : mg_jobs demo_edited = []) by (vm_compute; reflexivity).
  assert (Ho : [OpSelection] ≡ₚ save_ops demo_props demo_edited) by (vm_compute; apply Permutation_refl).
  destruct (save_succeeds demo_props demo_edited [OpSelection] None Hd Hs Hj Ho) as (E & _).
  etransitivity; [exact E|]. vm_compute. reflexivity.
Defined.

(** Both the selection and the schedule are edited; the first call succeeds, the second fails. *)
Definition demo_both : Manage :=
  demo_manage demo_props [ToggleProject "p2" true; SchedMsg (SwitchEnabled false)].

Lemma save_fails_keeps_edits_witness :
  mg_pending (@run _ _ _ (manage_machine demo_props) demo_both
    [SaveClicked; OpDone 0 OpSelection; OpFailed 0 OpSchedule (ConnectErr Unavailable "" "down"); Refetched 0 None]).1 =
  [("p2", true)].
Proof.
  assert (Hd : dirty demo_props demo_both = true) by (vm_compute; reflexivity).
  assert (Hs : saving demo_both = false) by (vm_compute; reflexivity).
  assert (Hj : mg_jobs demo_both = []) by (vm_compute; reflexivity).
  assert (Ho : [OpSelection] ++ OpSchedule :: [] ≡ₚ save_ops demo_props demo_both) by (vm_compute; apply Permutation_refl).
  assert (Hn : Forall (answers_save (mg_nextJob demo_both)) [Refetched 0 None]) by (repeat constructor).
  destruct (save_fails_keeps_edits demo_props demo_both [OpSelection] OpSchedule (ConnectErr Unavailable "" "down") []
              [Refetched 0 None] Hd Hs Hj Ho Hn) as (_ & Hp & _).
  etransitivity; [exact Hp|]. vm_compute. reflexivity.
Defined.

Lemma edits_during_save_lost_witness :
  mg_pending (@run _ _ _ (manage_machine demo_props) demo_edited
    [SaveClicked; ToggleProject "p1" false; OpDone 0 OpSelection; ToggleProject "p2" false; Refetched 0 None]).1 = [].
Proof.
  assert (Hd : dirty demo_props demo_edited = true) by (vm_compute; reflexivity).
  assert (Hs : saving demo_edited = false) by (vm_compute; reflexivity).
  assert (Hm : Forall (λ m, m ≠ SaveClicked) [ToggleProject "p1" false; OpDone 0 OpSelection; ToggleProject "p2" false])
    by (repeat constructor; discriminate).
  assert (Hj : find_job (@run _ _ _ (manage_machine demo_props) demo_edited
      (SaveClicked :: [ToggleProject "p1" false; OpDone 0 OpSelection; ToggleProject "p2" false])).1 (mg_nextJob demo_edited) =
    Some (mkJob false [])) by (vm_compute; reflexivity).
  exact (proj1 (edits_during_save_lost demo_props demo_edited _ _ None Hd Hs Hm Hj)).
Defined.

Lemma continue_needs_an_edit_witness :
  (@update _ _ _ (manage_machine demo_setup) (demo_manage demo_setup []) SaveClicked).2 = [].
Proof.
  assert (Hd : dirty demo_setup (demo_manage demo_setup []) = false) by (vm_compute; reflexivity).
  exact (proj1 (continue_needs_an_edit demo_setup (demo_manage demo_setup []) eq_refl Hd)).
Defined.

Lemma unestimated_selection_dropped_witness : ¬ In "p3" (selectedIds demo_edited).
Proof.
  apply (unestimated_selection_dropped demo_edited (demo_project "p3" true 0)); vm_compute.
  - apply NoDup_ListNoDup. repeat constructor; simpl; intuition discriminate.
  - tauto.
  - reflexivity.
Defined.

Lemma disconnect_needs_the_title_witness :
  let s := demo_manage demo_props [DialogMsg (OpenChange true); DialogMsg (TypeWord "acme")] in
  trim (typed (mg_dialog s)) = "acme" ∧
  pending (mg_dialog (@update _ _ _ (manage_machine demo_props) s (DialogMsg ClickAction)).1) = true.
Proof.
  assert (Hin : In (CallRpc (IntegrationRpc (Disconnect (mkDisconnect "c1"))))
    (@update _ _ _ (manage_machine demo_props)
       (demo_manage demo_props [DialogMsg (OpenChange true); DialogMsg (TypeWord "acme")]) (DialogMsg ClickAction)).2)
    by (vm_compute; tauto).
  destruct (disconnect_needs_the_title demo_props _ _ _ Hin) as (_ & Ht & _ & Hp). split; [exact Ht|exact Hp].
Defined.
