(* ===== verification/Sources.v ===== *)
(** * Sources: the list, a source's page, and connecting a new one

    Models [web/app/(app)/sources/page.tsx], [web/app/(app)/sources/[id]/page.tsx],
    the entry of [web/app/(app)/sources/[id]/manage/page.tsx],
    [web/app/(app)/sources/new/page.tsx] and
    [web/app/(app)/sources/new/[connector]/page.tsx]. The connections and projects
    arrive from the streams of [Streams]; here they are the latest snapshots. *)
From stdpp Require Import base list strings.
From Stdlib Require Import ZArith Lia.
From S2P Require Import Prelude JsString JsNumber Proto View Session Time Directory SyncSchedule Manage.
#[local] Open Scope string_scope.
#[local] Open Scope list_scope.
#[local] Open Scope Z_scope.

(** What [useConnectionsStream] returns. *)
Record StreamView := mkStreamView { sv_connections : option (list Connection); sv_error : option js_error }.

(** ** The list *)

Definition connectionHref (c : Connection) : string :=
  if conn_onboarded c then "/sources/" +:+ conn_id c else "/sources/" +:+ conn_id c +:+ "/manage".

(** The auto-open effect: [autoOpened] is the latch; the effect runs whenever the
    marker or the snapshot changes. *)
Definition auto_open (autoOpened : bool) (connectedId : option string) (connected : list Connection)
    : bool * list effect :=
  if autoOpened || negb (otruthy connectedId) then (autoOpened, [])
  else match List.find (λ c, Some (conn_id c) === connectedId) connected with
       | None => (autoOpened, [])
       | Some c => match conn_catalogDiscoveredAt c with
                   | None => (autoOpened, [])
                   | Some _ => (true, [RouterReplace (connectionHref c)])
                   end
       end.

#[export] Instance auto_open_machine : Machine bool (option string * list Connection) effect :=
  λ latch ev, auto_open latch ev.1 ev.2.

(** [isError] of the connectors query. *)
Definition is_failed {A} (q : query A) : bool := bool_decide (is_Some (q_error q)).

Definition sources_failed (sv : StreamView) (connectors : query (list Connector)) : bool :=
  bool_decide (is_Some (sv_error sv)) || is_failed connectors.
Definition sources_loading (sv : StreamView) (connectors : query (list Connector)) : bool :=
  negb (sources_failed sv connectors) &&
  (bool_decide (sv_connections sv = None) || q_isPending connectors).

(** [new Map(connectors.map((c) => [c.id, c.name])).get(id)]: the last one wins. *)
Definition last_connector_name (connectors : query (list Connector)) (id : string) : option string :=
  connector_name <$> List.find (λ c, connector_id c === id) (rev (q_data connectors ?? [])).

Section SourcesPage.
Context {M : Type}.

Definition SourceCard (c : Connection) (connectorName : string) : view M :=
  let s := connectionStatus c in
  El "Link" [Attr "href" (connectionHref c)]
    [ConnectorIcon (conn_connectorId c);
     El "div" []
       [El "p" [] [Text (conn_account c ||| connectorName)];
        match conn_catalogDiscoveredAt c with
        | None => El "div" [] [El "p" [] [Text "Getting your data…"]; LineLoader "primary"]
        | Some _ => El "p" [] [Text connectorName; Text " · ";
                               El "span" [Attr "class" (if is_error s.2 then "text-destructive" else "")] [Text s.1]]
        end]].

Definition ErrorState : view M :=
  El "div" [] [El "p" [] [Text "Couldn’t load your sources"];
               El "p" [] [Text ("Something went wrong reaching the sync service. Refresh to try again — " +:+
                                "if it persists, you may need to sign in again.")]].
Definition EmptyState : view M :=
  El "div" [] [El "p" [] [Text "No sources connected"];
               El "p" [] [Text ("Connect the systems where your knowledge lives — GitHub, Google Docs — " +:+
                                "and they’re kept in sync.")];
               El "Link" [Attr "href" "/sources/new"] [Text "Add source"]].
Definition SourcesSkeleton : view M := El "div" [] (replicate 3 (El "Skeleton" [] [])).

Definition SourcesView (sv : StreamView) (connectors : query (list Connector)) : view M :=
  let connected := sv_connections sv ?? [] in
  PageShell
    (when (0 <? js_length connected)
       [El "ChromeActions" [] [El "Link" [Attr "href" "/sources/new"] [Text "Add source"]]] ++
     [PageHeader None "" None "Sources" (Some "The systems your knowledge is pulled from.") None;
      if sources_failed sv connectors then ErrorState
      else if sources_loading sv connectors then SourcesSkeleton
      else if js_length connected =? 0 then EmptyState
      else El "div" [] (map (λ c, SourceCard c (last_connector_name connectors (conn_connectorId c) ?? conn_connectorId c)) connected)]).

(** The [Suspense] boundary around the view. *)
Definition SourcesPage (paramsReady : bool) (sv : StreamView) (connectors : query (list Connector)) : view M :=
  if paramsReady then SourcesView sv connectors
  else PageShell [PageHeader None "" None "Sources" (Some "The systems your knowledge is pulled from.") None].

End SourcesPage.

(** ** One source: which of its pages shows what *)

Inductive resolution := Failed | Loading | Gone | Found (c : Connection).

Definition resolve (sv : StreamView) (graceElapsed : bool) (id : string) : resolution :=
  match sv_error sv with
  | Some _ => Failed
  | None => match sv_connections sv with
            | None => Loading
            | Some cs => match List.find (λ c, conn_id c === id) cs with
                         | Some c => Found c
                         | None => if graceElapsed then Gone else Loading
                         end
            end
  end.

(** The grace timer: 4 s after mount. *)
Definition graceMs : Z := 4000.
Definition graceElapsed (sinceMount : Z) : bool := graceMs <=? sinceMount.

(** [connectors.find((c) => c.id === conn?.connectorId)?.name ?? "Source"]. *)
Definition first_connector_name (connectors : query (list Connector)) (conn : option Connection) : string :=
  match conn with
  | None => "Source"
  | Some c => match List.find (λ k, connector_id k === conn_connectorId c) (q_data connectors ?? []) with
              | Some k => Proto.connector_name k
              | None => "Source"
              end
  end.

Definition source_leaf (connectorName : string) (conn : option Connection) : option string :=
  match conn with
  | Some c => Some (connectorName +:+ (if truthy (conn_account c) then " · " +:+ conn_account c else ""))
  | None => None
  end.

Definition source_title (connectorName : string) (c : Connection) : string := conn_account c ||| connectorName.

Section SourceScreens.
Context {M : Type}.
Definition FailedScreen : view M :=
  PageShell [El "p" [] [Text "Couldn’t load this source — the sync service is unreachable, or you may need to sign in again. ";
                        El "Link" [Attr "href" "/sources"] [Text "Back to sources"]; Text "."]].
Definition GoneScreen : view M :=
  PageShell [El "p" [] [Text "This connection no longer exists. ";
                        El "Link" [Attr "href" "/sources"] [Text "Back to sources"]; Text "."]].
Definition DetailSkeleton : view M := PageShell (replicate 9 (El "Skeleton" [] [])).
End SourceScreens.

(** The props the manage page passes to its panel. *)
Definition panel_props (connectors : query (list Connector)) (c : Connection) : PanelProps :=
  let name := first_connector_name connectors (Some c) in
  mkProps (conn_id c) (conn_connectorId c) (conn_account c) name (source_title name c) (conn_onboarded c)
          (bool_decide (is_Some (conn_catalogDiscoveredAt c))) (conn_autoSyncEnabled c) (conn_syncIntervalSeconds c).

Definition ManageConnectionPage `{Locale} (reduceMotion : bool) (sv : StreamView) (sinceMount : Z) (id : string)
    (connectors : query (list Connector)) (s : Manage) : view manage_msg :=
  match resolve sv (graceElapsed sinceMount) id with
  | Failed => FailedScreen
  | Loading => ManageSkeleton
  | Gone => GoneScreen
  | Found c => ManagePanel (panel_props connectors c) reduceMotion s
  end.

(** ** The details page *)

(** [sync.isPending] and [stop.isPending]. *)
Record SyncState := mkSyncState { sync_pending : bool; stop_pending : bool }.

Inductive source_msg :=
| SyncNow (id : string) | StopSyncing (id : string)
| SyncAnswered | SyncRefused (e : js_error) | StopAnswered | StopRefused (e : js_error).

Definition source_update (s : SyncState) (m : source_msg) : SyncState * list effect :=
  match m with
  | SyncNow id => (mkSyncState true (stop_pending s), [CallRpc (IntegrationRpc (TriggerSync (mkTriggerSync id)))])
  | StopSyncing id => (mkSyncState (sync_pending s) true, [CallRpc (IntegrationRpc (StopSync (mkStopSync id)))])
  | SyncAnswered => (mkSyncState false (stop_pending s), [])
  | SyncRefused e => (mkSyncState false (stop_pending s), [ToastError ("Couldn't start sync: " +:+ rawMessage e)])
  | StopAnswered => (mkSyncState (sync_pending s) false, [])
  | StopRefused e => (mkSyncState (sync_pending s) false, [ToastError ("Couldn't stop sync: " +:+ rawMessage e)])
  end.

(** The primary action of the header. *)
Definition sync_action (reduceMotion : bool) (c : Connection) (s : SyncState) : view source_msg :=
  if conn_status c === SYNCING then
    El "Button" [BoolAttr "disabled" (stop_pending s); OnClick (StopSyncing (conn_id c))]
      [if stop_pending s then AnimatedSpinner reduceMotion size_sm tone_neutral "Loading" else El "RiStopLine" [] [];
       Text (if stop_pending s then "Stopping…" else "Stop syncing")]
  else if conn_status c === STOPPING then
    El "Button" [BoolAttr "disabled" true] [AnimatedSpinner reduceMotion size_sm tone_neutral "Loading"; Text "Stopping…"]
  else
    El "Button" [BoolAttr "disabled" (sync_pending s); OnClick (SyncNow (conn_id c))]
      [if sync_pending s then AnimatedSpinner reduceMotion size_sm tone_neutral "Loading" else El "RiRefreshLine" [] [];
       Text (if sync_pending s then "Syncing…" else "Sync now")].

Definition selectedProjects (projects : option (list Project)) : list Project :=
  List.filter proj_selected (projects ?? []).
Definition totalItems (projects : option (list Project)) : Z :=
  fold_left (λ n p, n + proj_artifactCount p) (selectedProjects projects) 0.
Definition totalEstimate (projects : option (list Project)) : Z :=
  fold_left (λ n p, n + proj_totalEstimate p) (selectedProjects projects) 0.

Section DetailPage.
Context `{Locale} `{Wkt}.

Definition items_synced (c : Connection) (projects : option (list Project)) : view source_msg :=
  match projects with
  | None => Text "—"
  | Some _ =>
      let items := totalItems projects in
      let est := totalEstimate projects in
      if 0 <? items then
        El "Link" [Attr "href" ("/files?connection=" +:+ conn_id c)]
          [Text (if 0 <? est then numToLocale items +:+ " / " +:+ numToLocale est else numToLocale items)]
      else if 0 <? est then Text ("0 / " +:+ numToLocale est) else Text "0"
  end.

Definition selectedOrdered (projects : option (list Project)) : list Project :=
  js_sort heavier (selectedProjects projects).

Definition SourceDetail (reduceMotion : bool) (now : Z) (connectorName : string) (c : Connection)
    (projects : option (list Project)) (s : SyncState) : view source_msg :=
  let status := connectionStatus c in
  PageShell
    [PageHeader (Some "/sources") "Back to sources" (Some (ConnectorIcon (conn_connectorId c)))
       (source_title connectorName c) (Some connectorName)
       (Some [sync_action reduceMotion c s;
              El "DropdownMenu" []
                [El "Button" [Attr "aria-label" "More actions"] [];
                 El "Link" [Attr "href" ("/files?connection=" +:+ conn_id c)] [Text "View files"];
                 El "Link" [Attr "href" ("/sources/" +:+ conn_id c +:+ "/manage")] [Text "Manage"]]]);
     KeyValueList
       [mkKeyValueItem "Status" (El "span" [Attr "class" (if is_error status.2 then "text-destructive" else "text-foreground")]
                                    [Text status.1]);
        mkKeyValueItem "Last synced" (RelativeTime now (match conn_lastSyncedAt c with
                                                        | Some t => TimestampValue t | None => NoMoment end));
        mkKeyValueItem "Projects" (Text (match projects with
          | None => "—"
          | Some ps => num (js_length (selectedProjects projects)) +:+ " of " +:+ num (js_length ps) +:+ " selected"
          end));
        mkKeyValueItem "Items synced" (items_synced c projects);
        mkKeyValueItem "Auto-sync" (Text (if conn_autoSyncEnabled c
                                          then "Every " +:+ humanizeInterval (conn_syncIntervalSeconds c) else "Off"))];
     El "p" [] [Text "Selected projects"];
     El "div" []
       [match projects with
        | None => El "div" [] [AnimatedSpinner reduceMotion size_sm tone_muted "Loading"; Text "Loading…"]
        | Some _ =>
            match selectedOrdered projects with
            | [] => El "div" [] [Text "No projects selected. ";
                                 El "Link" [Attr "href" ("/sources/" +:+ conn_id c +:+ "/manage")] [Text "Choose what to sync"];
                                 Text "."]
            | ps => El "ul" [] (map (λ p, El "li" [Attr "key" (proj_id p)]
                      [El "span" [] [Text (project_label p)]; El "span" [] [ProjectStatus reduceMotion p]]) ps)
            end
        end]].

Definition SourceDetailPage (reduceMotion : bool) (now : Z) (sv : StreamView) (sinceMount : Z) (id : string)
    (connectors : query (list Connector)) (projects : option (list Project)) (s : SyncState) : view source_msg :=
  match resolve sv (graceElapsed sinceMount) id with
  | Failed => FailedScreen
  | Loading => DetailSkeleton
  | Gone => GoneScreen
  | Found c => SourceDetail reduceMotion now (first_connector_name connectors (Some c)) c projects s
  end.

End DetailPage.

(** ** The gallery *)

Definition TOKEN_CONNECTORS : list string := ["github_pat"].

Definition flag_on (flags : query (list FeatureFlag)) (key : option string) : bool :=
  match List.find (λ f, Some (flag_key f) === key) (q_data flags ?? []) with
  | Some f => flag_enabled f
  | None => false
  end.

Record Gallery := mkGallery { gal_query : string; gal_category : string; gal_authorizing : bool }.

Inductive gallery_msg :=
| GalleryQuery (s : string) | GalleryCategory (s : string) | ConnectSource (c : Connector)
| AuthorizeUrl (url : string) | AuthorizeFailed (e : js_error).

Section GalleryPage.
Context `{Locale}.

Definition gallery_all (connectors : query (list Connector)) (flags : query (list FeatureFlag)) : list Connector :=
  let patEnabled := flag_on flags (Some "github_pat") in
  List.filter (λ c, (connector_id c !== "github_pat") || patEnabled) (q_data connectors ?? []).

Definition categories (all : list Connector) : list string :=
  "all" :: js_sort unit_compare (unique [] (map connector_archetype all)).

Definition gallery_shown (g : Gallery) (all : list Connector) : list Connector :=
  List.filter (λ c, ((gal_category g === "all") || (connector_archetype c === gal_category g)) &&
                    includes_str (toLowerCase (Proto.connector_name c)) (toLowerCase (trim (gal_query g)))) all.

Definition connect_source (c : Connector) : list effect :=
  if includes TOKEN_CONNECTORS (connector_id c) then [RouterPush ("/sources/new/" +:+ connector_id c)]
  else [CallRpc (IntegrationRpc (GetAuthorizeUrl (mkGetAuthorizeUrl (connector_id c))))].

(** The tiles are disabled while an authorization is being fetched. *)
Definition gallery_update (g : Gallery) (m : gallery_msg) : Gallery * list effect :=
  match m with
  | GalleryQuery v => (mkGallery v (gal_category g) (gal_authorizing g), [])
  | GalleryCategory v => (mkGallery (gal_query g) v (gal_authorizing g), [])
  | ConnectSource c =>
      if gal_authorizing g then (g, [])
      else (mkGallery (gal_query g) (gal_category g) (negb (includes TOKEN_CONNECTORS (connector_id c))), connect_source c)
  | AuthorizeUrl url => (mkGallery (gal_query g) (gal_category g) false, [LocationAssign url])
  | AuthorizeFailed e =>
      (mkGallery (gal_query g) (gal_category g) false, [ToastError ("Couldn't start authorization: " +:+ error_message e)])
  end.

Definition AddSourcePage (g : Gallery) (connectors : query (list Connector)) (flags : query (list FeatureFlag)) : view gallery_msg :=
  let all := gallery_all connectors flags in
  let visible := gallery_shown g all in
  PageShell
    ([El "div" [] [El "Link" [Attr "href" "/sources"; Attr "aria-label" "Back to sources"] [];
                   El "h1" [] [Text "Add a source"];
                   El "p" [] [Text "Connect a system to sync from. You can add more than one of the same type."]];
      El "div" []
        [El "Input" [Attr "value" (gal_query g); OnChange GalleryQuery; Attr "placeholder" "Search sources"] [];
         El "DropdownMenu" []
           [El "Button" [] [Text (if gal_category g === "all" then "All categories" else gal_category g)];
            El "DropdownMenuRadioGroup" [Attr "value" (gal_category g); OnChange GalleryCategory]
              (map (λ cat, El "DropdownMenuRadioItem" [Attr "key" cat; Attr "value" cat]
                             [Text (if cat === "all" then "All categories" else cat)]) (categories all))]];
      El "div" []
        (map (λ c, El "button" [Attr "key" (connector_id c); OnClick (ConnectSource c); BoolAttr "disabled" (gal_authorizing g)]
                     [ConnectorIcon (connector_id c); El "p" [] [Text (Proto.connector_name c)];
                      El "p" [] [Text (connector_archetype c)]]) visible)] ++
     when (q_isPending connectors) [El "p" [] [Text "Loading sources…"]] ++
     when (negb (q_isPending connectors) && (js_length visible =? 0)) [El "p" [] [Text "No sources match."]]).

End GalleryPage.

(** ** Connecting with a token *)

Record Guide := mkGuide {
  guide_flag : string; guide_tokenUrl : string; guide_tokenUrlLabel : string; guide_placeholder : string;
  guide_steps : list string }.

Definition GUIDE : list (string * Guide) :=
  [("github_pat",
    mkGuide "github_pat" "https://github.com/settings/personal-access-tokens/new" "Open GitHub token settings" "github_pat_…"
      ["Open GitHub → Settings → Developer settings → Personal access tokens → Fine-grained tokens (or use the button above), then Generate new token.";
       "Give it a name and an expiration. Under Resource owner, pick the account or organization that owns the repositories you want to sync.";
       "Under Repository access, choose Only select repositories and select the repos to sync.";
       "Under Repository permissions, grant read-only access to Contents, Issues, and Metadata (Metadata is required). For project boards, also add Projects: Read.";
       "Click Generate token, copy it, and paste it below. The token is stored encrypted and shown only once."])].

(** [!guide || (flags.find((f) => f.key === guide.flag)?.enabled ?? false)]; a guide
    inherited from [Object.prototype] has no flag. *)
Definition token_enabled (flags : query (list FeatureFlag)) (guide : js_lookup Guide) : bool :=
  match guide with
  | Missing => true
  | Own g => flag_on flags (Some (guide_flag g))
  | Inherited => flag_on flags None
  end.

Record TokenForm := mkTokenForm { tf_name : string; tf_token : string; tf_connecting : option nat; tf_calls : nat }.

Inductive token_msg :=
| TokenName (s : string) | TokenValue (s : string) | TokenKey (k : string) | ConnectClicked
| Connected (call : nat) (r : ConnectWithTokenResponse) | ConnectFailed (call : nat) (e : js_error).

Definition onConnect (connector : string) (s : TokenForm) : TokenForm * list effect :=
  if negb (truthy (trim (tf_name s))) || negb (truthy (trim (tf_token s))) then (s, [])
  else (mkTokenForm (tf_name s) (tf_token s) (Some (tf_calls s)) (S (tf_calls s)),
        [CallRpc (IntegrationRpc (ConnectWithToken
           (mkConnectWithToken connector (trim (tf_token s)) (trim (tf_name s)))))]).

Definition connect_disabled (s : TokenForm) : bool :=
  negb (truthy (trim (tf_name s))) || negb (truthy (trim (tf_token s))) || bool_decide (is_Some (tf_connecting s)).

Definition connect_settled (s : TokenForm) (call : nat) : TokenForm :=
  mkTokenForm (tf_name s) (tf_token s) (if tf_connecting s === Some call then None else tf_connecting s) (tf_calls s).

Definition token_update (connector : string) (s : TokenForm) (m : token_msg) : TokenForm * list effect :=
  match m with
  | TokenName v => (mkTokenForm v (tf_token s) (tf_connecting s) (tf_calls s), [])
  | TokenValue v => (mkTokenForm (tf_name s) v (tf_connecting s) (tf_calls s), [])
  | TokenKey k => if k === "Enter" then onConnect connector s else (s, [])
  | ConnectClicked => if connect_disabled s then (s, []) else onConnect connector s
  | Connected call r =>
      (connect_settled s call,
       match cwtr_connection r with
       | Some c => [RouterPush ("/sources?connected=" +:+ conn_id c)]
       | None => []
       end)
  | ConnectFailed call e => (connect_settled s call, [ToastError ("Couldn't connect: " +:+ error_message e)])
  end.

Definition token_display (connectors : query (list Connector)) (connector : string) : string :=
  match List.find (λ c, connector_id c === connector) (q_data connectors ?? []) with
  | Some c => Proto.connector_name c ||| "source"
  | None => "source"
  end.

Definition TokenHeader (displayName connectorId : string) : view token_msg :=
  El "div" [] [El "Link" [Attr "href" "/sources/new"; Attr "aria-label" "Back"] []; ConnectorIcon connectorId;
               El "h1" [] [Text ("Connect " +:+ displayName)];
               El "p" [] [Text "Authenticate with a personal access token."]].

Definition token_refusal (displayName connector reason : string) : view token_msg :=
  PageShell [TokenHeader displayName connector;
             El "p" [] [Text reason; Text " "; El "Link" [Attr "href" "/sources/new"] [Text "Back to sources"]; Text "."]].

Definition ConnectTokenSourcePage (connector : string) (connectors : query (list Connector))
    (flags : query (list FeatureFlag)) (s : TokenForm) : view token_msg :=
  let guide := js_get GUIDE connector in
  let displayName := token_display connectors connector in
  match guide with
  | Missing => token_refusal displayName connector "This source can't be connected with a token."
  | _ =>
      if negb (token_enabled flags guide) then
        token_refusal displayName connector
          "This source isn't enabled for this workspace. An admin can turn it on in Settings → Feature flags."
      else
        match guide with
        | Own g =>
            PageShell
              [TokenHeader displayName connector;
               El "label" [] [Text "Source name"];
               El "Input" [Attr "id" "src-name"; Attr "value" (tf_name s); OnChange TokenName] [];
               El "label" [] [Text "Personal access token"];
               El "Input" [Attr "id" "src-token"; Attr "type" "password"; Attr "value" (tf_token s); OnChange TokenValue;
                           OnKeyDown TokenKey; Attr "placeholder" (guide_placeholder g)] [];
               El "Button" [OnClick ConnectClicked; BoolAttr "disabled" (connect_disabled s)]
                 [Text (if bool_decide (is_Some (tf_connecting s)) then "Connecting…" else "Connect source")];
               El "h2" [] [Text "How to create a token"];
               El "a" [Attr "href" (guide_tokenUrl g)] [Text (guide_tokenUrlLabel g)];
               El "ol" [] (map (λ st, El "li" [] [Text st]) (guide_steps g))]
        | _ => Text ""
        end
  end.

(** ** Properties: the one-shot auto-open *)

(** The source an event would open: the marked one, once discovered. *)
Definition ready_source (ev : option string * list Connection) : option Connection :=
  if otruthy ev.1 then
    match List.find (λ c, Some (conn_id c) === ev.1) ev.2 with
    | Some c => if bool_decide (is_Some (conn_catalogDiscoveredAt c)) then Some c else None
    | None => None
    end
  else None.

Lemma auto_open_fresh ev :
  auto_open false ev.1 ev.2 =
  match ready_source ev with Some c => (true, [RouterReplace (connectionHref c)]) | None => (false, []) end.
Proof.
  unfold auto_open, ready_source. destruct (otruthy ev.1); [|done]. simpl.
  destruct (List.find _ ev.2) as [c|]; [|done]. by destruct (conn_catalogDiscoveredAt c).
Qed.

Lemma auto_open_latched evs : (run true evs).2 = [].
Proof. induction evs as [|ev evs IH]; [done|]. rewrite run_cons. simpl. exact IH. Qed.

(** The Sources list navigates by itself exactly once: over any sequence of
    snapshots it opens the first marked source whose discovery has finished (its
    manage page before it is set up, its details after) and never navigates again;
    if no snapshot has one, it never navigates. *)
Theorem auto_open_once evs :
  (run false evs).2 =
  match omap ready_source evs with c :: _ => [RouterReplace (connectionHref c)] | [] => [] end.
Proof.
  induction evs as [|ev evs IH]; [done|]. rewrite run_cons. unfold update at 1 2 3, auto_open_machine.
  rewrite auto_open_fresh. simpl. destruct (ready_source ev) as [c|]; simpl; [by rewrite auto_open_latched|].
  exact IH.
Qed.

(** ** Properties: the page of a source *)

(** A source is declared gone only when it is known to be: the message appears
    exactly when no stream error is shown, a snapshot has arrived without the
    source, and the 4 s of grace are over; a source that is in the snapshot is
    always shown, and an error always wins. *)
Theorem gone_only_after_grace sv t id :
  (resolve sv (graceElapsed t) id = Gone ↔
     sv_error sv = None ∧ 4000 <= t ∧
     ∃ cs, sv_connections sv = Some cs ∧ ∀ c, In c cs → conn_id c ≠ id) ∧
  (∀ cs c, sv_error sv = None → sv_connections sv = Some cs → In c cs → conn_id c = id →
     ∃ c', resolve sv (graceElapsed t) id = Found c' ∧ In c' cs ∧ conn_id c' = id) ∧
  (resolve sv (graceElapsed t) id = Failed ↔ is_Some (sv_error sv)).
Proof.
  unfold resolve, graceElapsed, graceMs. destruct sv as [[cs|] [e|]]; simpl.
  all: try (split; [|split]; naive_solver).
  destruct (List.find (λ c, conn_id c === id) cs) as [c|] eqn:Hf.
  - apply find_some in Hf as [Hin Hid]. apply bool_decide_eq_true in Hid.
    split; [naive_solver|]. split; [|naive_solver]. intros cs' c' _ [= <-] _ _. eauto.
  - assert (Hnone : ∀ c, In c cs → conn_id c ≠ id).
    { intros c Hc Heq. pose proof (find_none _ _ Hf c Hc) as Hx. simpl in Hx.
      by rewrite bool_decide_eq_true_2 in Hx. }
    destruct (Z.leb_spec 4000 t); (split; [|split; naive_solver]); split; try naive_solver.
    intros (_ & Hle & _). lia.
Qed.

Lemma gone_only_after_grace_witness :
  resolve (mkStreamView (Some []) None) (graceElapsed 4000) "c1" = Gone ∧
  resolve (mkStreamView (Some []) None) (graceElapsed 3999) "c1" = Loading.
Proof.
  split; [|reflexivity]. apply gone_only_after_grace. split; [reflexivity|]. split; [lia|].
  exists []. split; [reflexivity|]. intros c [].
Defined.

(** The header offers exactly one sync action, chosen by the live status: Stop
    while a sync runs, nothing while it stops, Sync otherwise; it is disabled while
    its own call is in flight, so a click is sent once. *)
Theorem one_sync_action rm c s :
  ∃ label, buttons (sync_action rm c s) =
    [match conn_status c with
     | SYNCING => (label, stop_pending s, Some (StopSyncing (conn_id c)))
     | STOPPING => (label, true, None)
     | _ => (label, sync_pending s, Some (SyncNow (conn_id c)))
     end].
Proof.
  unfold sync_action. destruct (conn_status c);
    repeat first [rewrite bool_decide_eq_true_2 by done | rewrite bool_decide_eq_false_2 by done];
    destruct (stop_pending s), (sync_pending s), rm; unfold AnimatedSpinner; buttons_simpl; by eexists.
Qed.

Lemma fold_left_add {A} (f : A → Z) l n : fold_left (λ n x, n + f x) l n = n + fold_left (λ n x, n + f x) l 0.
Proof.
  revert n. induction l as [|x l IH]; intros n; cbn [fold_left]; [lia|]. rewrite IH, (IH (0 + f x)). lia.
Qed.

Lemma sum_bounds (f : Project → Z) l :
  Forall (λ p, uint32 (f p)) l →
  0 <= fold_left (λ n p, n + f p) l 0 <= Z.of_nat (length l) * (2 ^ 32 - 1).
Proof.
  induction 1 as [|p l Hp _ IH]; simpl fold_left; [simpl; lia|].
  rewrite fold_left_add. unfold uint32 in Hp. cbn [length]. lia.
Qed.

(** The totals of the details page count selected projects only, and are exact:
    for fewer than 2^21 projects with 32-bit counts, every sum stays below 2^53,
    where JavaScript numbers are integers. *)
Theorem totals_exact projects :
  Forall wf_project (projects ?? []) → js_length (projects ?? []) < 2 ^ 21 →
  (0 <= totalItems projects < 2 ^ 53) ∧ (0 <= totalEstimate projects < 2 ^ 53) ∧
  (∀ p ps, projects = Some (p :: ps) → proj_selected p = false →
     totalItems projects = totalItems (Some ps) ∧ totalEstimate projects = totalEstimate (Some ps)).
Proof.
  intros Hwf Hlen.
  assert (Hsel : Forall wf_project (selectedProjects projects)).
  { rewrite Forall_forall in Hwf |- *. intros p Hp. apply Hwf. rewrite list_elem_of_In in *.
    unfold selectedProjects in Hp. apply filter_In in Hp as [Hp _]. exact Hp. }
  assert (Hle : (length (selectedProjects projects) ≤ length (projects ?? []))%nat) by apply filter_length_le.
  unfold js_length in Hlen. unfold totalItems, totalEstimate.
  assert (H1 := sum_bounds proj_artifactCount (selectedProjects projects)
                  ltac:(eapply Forall_impl; [exact Hsel|intros p [? ?]; cbn; assumption])).
  assert (H2 := sum_bounds proj_totalEstimate (selectedProjects projects)
                  ltac:(eapply Forall_impl; [exact Hsel|intros p [? ?]; cbn; assumption])).
  split; [lia|]. split; [lia|]. intros p ps -> Hp. unfold selectedProjects; simpl. by rewrite Hp.
Qed.

Lemma totals_exact_witness :
  totalItems (Some demo_catalog) = 0 ∧ 0 <= totalEstimate (Some demo_catalog) < 2 ^ 53.
Proof.
  split; [reflexivity|].
  assert (Hwf : Forall wf_project demo_catalog) by (repeat constructor; simpl; lia).
  assert (Hlen : js_length demo_catalog < 2 ^ 21) by (vm_compute; reflexivity).
  destruct (totals_exact (Some demo_catalog) Hwf Hlen) as (_ & H & _). exact H.
Defined.

(** ** Properties: connecting *)

(** A token source is out of reach until its feature flag is on: the gallery does
    not list it and its own page shows no form and no button; the gallery never
    starts an OAuth authorization for a token source. *)
Theorem token_source_gated `{Locale} g connectors flags s m :
  (flag_on flags (Some "github_pat") = false →
     (∀ c, In c (gallery_shown g (gallery_all connectors flags)) → connector_id c ≠ "github_pat") ∧
     buttons (ConnectTokenSourcePage "github_pat" connectors flags s) = []) ∧
  (∀ r, In (CallRpc (IntegrationRpc (GetAuthorizeUrl r))) (gallery_update g m).2 →
     ¬ In (gau_connectorId r) TOKEN_CONNECTORS).
Proof.
  split.
  - intros Hoff. split.
    + intros c Hc. unfold gallery_shown, gallery_all in Hc. rewrite filter_In in Hc. destruct Hc as [Hc _].
      rewrite filter_In, Hoff, orb_false_r in Hc. destruct Hc as [_ Hc]. zbool. done.
    + unfold ConnectTokenSourcePage.
      assert (Hg : ∃ gd, js_get GUIDE "github_pat" = Own gd ∧ guide_flag gd = "github_pat")
        by (eexists; split; reflexivity).
      destruct Hg as (gd & -> & Hflag). cbv zeta. unfold token_enabled. rewrite Hflag, Hoff. cbn [negb].
      unfold token_refusal, PageShell, TokenHeader, ConnectorIcon.
      rewrite bool_decide_eq_false_2, bool_decide_eq_true_2 by done. by buttons_simpl.
  - intros r. unfold gallery_update, connect_source. destruct m; simpl; try naive_solver.
    destruct (gal_authorizing g); [done|]. simpl. destruct (bool_decide (_ = _)) eqn:He; simpl; [naive_solver|].
    intros [[= <-]|[]]. simpl. zbool. naive_solver.
Qed.

Lemma onConnect_sends connector s r :
  In (CallRpc r) (onConnect connector s).2 →
  r = IntegrationRpc (ConnectWithToken (mkConnectWithToken connector (trim (tf_token s)) (trim (tf_name s)))) ∧
  trim (tf_name s) ≠ "" ∧ trim (tf_token s) ≠ "".
Proof.
  unfold onConnect. destruct (truthy (trim (tf_name s))) eqn:Hn, (truthy (trim (tf_token s))) eqn:Ht; try done.
  apply truthy_true in Hn, Ht. by intros [[= <-]|[]].
Qed.

Lemma token_calls connector s m r :
  In (CallRpc r) (token_update connector s m).2 →
  r = IntegrationRpc (ConnectWithToken (mkConnectWithToken connector (trim (tf_token s)) (trim (tf_name s)))) ∧
  trim (tf_name s) ≠ "" ∧ trim (tf_token s) ≠ "".
Proof.
  destruct m; cbn [token_update]; try (by intros []).
  - destruct (k === "Enter"); [apply onConnect_sends|by intros []].
  - destruct (connect_disabled s); [by intros []|apply onConnect_sends].
  - destruct (cwtr_connection r0); [|by intros []]. intros [Hx|[]]; discriminate.
Qed.

(** Every token request carries a trimmed, non-blank name and token for the page's
    connector; but Enter in the token field sends another one while the first is
    still running, which the disabled button would not. *)
Theorem token_requests connector s m r call :
  (In (CallRpc (IntegrationRpc (ConnectWithToken r))) (token_update connector s m).2 →
     cwt_connectorId r = connector ∧ cwt_name r = trim (tf_name s) ∧ cwt_token r = trim (tf_token s) ∧
     cwt_name r ≠ "" ∧ cwt_token r ≠ "") ∧
  (trim (tf_name s) ≠ "" → trim (tf_token s) ≠ "" → tf_connecting s = Some call →
     (token_update connector s ConnectClicked).2 = [] ∧
     (token_update connector s (TokenKey "Enter")).2 =
       [CallRpc (IntegrationRpc (ConnectWithToken (mkConnectWithToken connector (trim (tf_token s)) (trim (tf_name s)))))]).
Proof.
  split.
  - by intros ([= ->] & Hn & Ht)%token_calls.
  - intros Hn%truthy_true Ht%truthy_true Hc. unfold token_update, connect_disabled, onConnect.
    rewrite Hn, Ht, Hc. done.
Qed.

Lemma token_source_gated_witness :
  buttons (ConnectTokenSourcePage "github_pat" (mkQuery None true None) (mkQuery (Some []) false None)
             (mkTokenForm "" "" None 0)) = [].
Proof.
  destruct (token_source_gated (mkGallery "" "all" false) (mkQuery None true None) (mkQuery (Some []) false None)
              (mkTokenForm "" "" None 0) (GalleryQuery "")) as [H _].
  destruct (H eq_refl) as [_ Hb]. exact Hb.
Defined.

Lemma token_requests_witness :
  (token_update "github_pat" (mkTokenForm " Work " "tok " (Some 0%nat) 1) (TokenKey "Enter")).2 =
  [CallRpc (IntegrationRpc (ConnectWithToken (mkConnectWithToken "github_pat" "tok" "Work")))].
Proof.
  destruct (token_requests "github_pat" (mkTokenForm " Work " "tok " (Some 0%nat) 1) ConnectClicked
              (mkConnectWithToken "" "" "") 0) as [_ H].
  destruct H as [_ He]; [vm_compute; discriminate|vm_compute; discriminate|reflexivity|].
  rewrite He. vm_compute. reflexivity.
Defined.
