(* ===== verification/Filters.v ===== *)
(** * The filter builder: fields, operators, the add-filter menu

    Models the root of [web/components/filters.tsx]: the field configuration, the
    operators of a field, the edits of the controlled filter list, and the
    add-filter menu with its search, its keyboard highlight, the state it adjusts
    while rendering and the filter a multi-select session builds up. Filter ids come
    from the clock and a random number: a message that creates a filter carries the
    new id. The host is taken to store the list [onChange] hands it, as a controlled
    component asks; values are compared by a decidable equality. *)
From stdpp Require Import base list strings.
From Stdlib Require Import ZArith Lia.
From S2P Require Import Prelude JsString JsNumber Proto View.
#[local] Open Scope string_scope.
#[local] Open Scope list_scope.
#[local] Open Scope Z_scope.

Inductive field_type := SelectType | MultiselectType | TextType | CustomType | SeparatorType.
#[export] Instance field_type_eq_dec : EqDecision field_type.
Proof. solve_decision. Defined.

(** What a [validation] callback answers: a verdict, or a verdict and a message. *)
Inductive validation_result := Verdict (valid : bool) | VerdictWith (valid : bool) (message : option string).

Section Filters.
(** [emptyText] is the empty string as a value of the filter's type. *)
Context `{Locale} {T : Type} `{EqDecision T} (emptyText : T).

(** ** Fields *)

Record FilterOption := mkFilterOption { fo_value : T; fo_label : string }.
Record FilterOperator := mkOperator { fop_value : string; fop_label : string }.

(** The properties of a field the builder's logic reads; [fields] makes it a group,
    and of [customRenderer] and [onValueChange] only the presence matters here. *)
Inductive FilterFieldConfig := mkField {
  ff_key : option string; ff_label : option string; ff_type : option field_type;
  ff_group : option string; ff_fields : option (list FilterFieldConfig);
  ff_options : option (list FilterOption); ff_operators : option (list FilterOperator);
  ff_searchable : option bool; ff_defaultOperator : option string;
  ff_placeholder : option string; ff_maxSelections : option JsNumber; ff_pattern : option string;
  ff_validation : option (string → validation_result);
  ff_customRenderer : bool; ff_value : option (list T); ff_onValueChange : bool }.

Record Filter := mkFilter { fl_id : string; fl_field : string; fl_operator : string; fl_values : list T }.

(** [isFieldGroup] and [isGroupLevelField]; the former covers the latter. *)
Definition isFieldGroup (item : FilterFieldConfig) : bool := bool_decide (is_Some (const () <$> ff_fields item)).
Definition isGroupLevelField (item : FilterFieldConfig) : bool := otruthy (ff_group item) && isFieldGroup item.

Definition flattenFields (fields : list FilterFieldConfig) : list FilterFieldConfig :=
  fold_left (λ acc item, if isFieldGroup item then acc ++ (ff_fields item ?? [])
                         else if isGroupLevelField item then acc ++ (ff_fields item ?? [])
                         else acc ++ [item]) fields [].

(** [getFieldsMap]: a later field with the same key wins. *)
Definition getFieldsMap (fields : list FilterFieldConfig) : list (string * FilterFieldConfig) :=
  fold_left (λ acc f, if otruthy (ff_key f) then (ff_key f ?? "", f) :: acc else acc) (flattenFields fields) [].

(** [fieldsMap[key]] as a field: what is inherited from [Object.prototype] has no
    key and no label. *)
Definition field_at (fields : list FilterFieldConfig) (key : string) : option FilterFieldConfig :=
  match js_get (getFieldsMap fields) key with Own f => Some f | _ => None end.

(** ** Operators, with the default labels *)

Definition selectOperators : list FilterOperator :=
  [mkOperator "is" "is"; mkOperator "is_not" "is not"; mkOperator "empty" "is empty"; mkOperator "not_empty" "is not empty"].
Definition multiselectOperators : list FilterOperator :=
  [mkOperator "is_any_of" "is any of"; mkOperator "is_not_any_of" "is not any of";
   mkOperator "includes_all" "includes all"; mkOperator "excludes_all" "excludes all";
   mkOperator "empty" "is empty"; mkOperator "not_empty" "is not empty"].
Definition textOperators : list FilterOperator :=
  [mkOperator "contains" "contains"; mkOperator "not_contains" "does not contain";
   mkOperator "starts_with" "starts with"; mkOperator "ends_with" "ends with"; mkOperator "is" "is exactly";
   mkOperator "empty" "is empty"; mkOperator "not_empty" "is not empty"].
Definition customOperators : list FilterOperator :=
  [mkOperator "is" "is"; mkOperator "after" "after"; mkOperator "between" "between";
   mkOperator "empty" "is empty"; mkOperator "not_empty" "is not empty"].

Definition getOperatorsForField (f : FilterFieldConfig) (values : list T) : list FilterOperator :=
  match ff_operators f with
  | Some ops => ops
  | None =>
      match ff_type f ?? SelectType with
      | SelectType => if 1 <? js_length values then multiselectOperators else selectOperators
      | MultiselectType => multiselectOperators
      | TextType => textOperators
      | CustomType => customOperators
      | SeparatorType => selectOperators
      end
  end.

(** ** Edits of the filter list *)

(** The updates the builder sends: an operator or values. *)
Inductive filter_update := SetOperator (op : string) | SetValues (vs : list T).

Definition apply_update (u : filter_update) (f : Filter) : Filter :=
  match u with
  | SetOperator op =>
      mkFilter (fl_id f) (fl_field f) op
        (if (op === "empty") || (op === "not_empty") then [] else fl_values f)
  | SetValues vs => mkFilter (fl_id f) (fl_field f) (fl_operator f) vs
  end.

Definition updateFilter (filters : list Filter) (filterId : string) (u : filter_update) : list Filter :=
  map (λ f, if fl_id f !== filterId then f else apply_update u f) filters.

Definition removeFilter (filters : list Filter) (filterId : string) : list Filter :=
  List.filter (λ f, fl_id f !== filterId) filters.

Definition createFilter (newId field : string) (operator : option string) (values : list T) : Filter :=
  mkFilter newId field (operator ?? "is") values.

(** ** The menu *)

Record Menu := mkMenu {
  mn_filters : list Filter;
  mn_open : bool; mn_search : string; mn_active : string; mn_sub : option string;
  mn_highlighted : Z; mn_kbNav : bool; mn_lastAdded : option string;
  mn_session : list (string * string);
  mn_prevSearch : string; mn_prevOpen : bool; mn_prevKey : bool * Z }.

Inductive menu_msg :=
| Shortcut (key : string) (inInput : bool)
| MenuOpenChange (open : bool)
| MenuSearch (s : string)
| RootKey (key : string) (newId : string)
| FieldClicked (key : string) (newId : string)
| SubOpenChange (fieldKey : string) (open : bool)
| SubActive (fieldKey : string)
| SubBack
| SubClose
| OptionToggled (fieldKey : string) (v : T) (isSelected : bool) (newId : string)
| FilterUpdated (id : string) (u : filter_update)
| FilterRemoved (id : string)
| HighlightExpired
| FiltersReplaced (fs : list Filter).

Context (fields : list FilterFieldConfig) (allowMultiple enableShortcut showSearchInput : bool) (shortcutKey : string).

Definition selectableFields (filters : list Filter) : list FilterFieldConfig :=
  List.filter (λ f, if negb (otruthy (ff_key f)) || (ff_type f === Some SeparatorType) then false
                    else if allowMultiple then true
                    else negb (existsb (λ fl, Some (fl_field fl) === ff_key f) filters)) (flattenFields fields).

(** [!search || field.label?.toLowerCase().includes(search.toLowerCase())]. *)
Definition filteredFields (filters : list Filter) (search : string) : list FilterFieldConfig :=
  List.filter (λ f, negb (truthy search) ||
                    match ff_label f with
                    | Some l => includes_str (toLowerCase l) (toLowerCase search)
                    | None => false
                    end) (selectableFields filters).

Definition hasSubMenu (f : FilterFieldConfig) : bool :=
  ((ff_type f === Some SelectType) || (ff_type f === Some MultiselectType)) &&
  (0 <? js_length (ff_options f ?? [])).

Definition shown_fields (s : Menu) : list FilterFieldConfig := filteredFields (mn_filters s) (mn_search s).
Definition active_key (s : Menu) : bool * Z := (mn_open s, js_length (shown_fields s)).

Definition menu_init (filters : list Filter) : Menu :=
  mkMenu filters false "" "root" None (-1) false None [] "" false (false, js_length (filteredFields filters "")).

(** The three adjustments made while rendering, in order. *)
Definition render_adjust (s : Menu) : Menu :=
  let h1 := if mn_prevSearch s === mn_search s then mn_highlighted s else -1 in
  let sub := if Bool.eqb (mn_prevOpen s) (mn_open s) then mn_sub s
             else if mn_open s then mn_sub s else None in
  let h2 := if mn_prevKey s === active_key s then h1
            else if mn_open s && (0 <? js_length (shown_fields s)) then 0 else h1 in
  mkMenu (mn_filters s) (mn_open s) (mn_search s) (mn_active s) sub h2 (mn_kbNav s) (mn_lastAdded s)
         (mn_session s) (mn_search s) (mn_open s) (active_key s).

Definition with_menu (s : Menu) (filters : list Filter) (open : bool) (search active : string)
    (sub : option string) (h : Z) (kb : bool) (lastAdded : option string) (session : list (string * string)) : Menu :=
  mkMenu filters open search active sub h kb lastAdded session (mn_prevSearch s) (mn_prevOpen s) (mn_prevKey s).

Definition addFilter (s : Menu) (fieldKey newId : string) : Menu :=
  match field_at fields fieldKey with
  | None => s
  | Some f =>
      if negb (otruthy (ff_key f)) then s
      else
        let op := ff_defaultOperator f ?? (if ff_type f === Some MultiselectType then "is_any_of" else "is") in
        with_menu s (mn_filters s ++ [createFilter newId fieldKey (Some op) (if ff_type f === Some TextType then [emptyText] else [])])
          false "" (mn_active s) (mn_sub s) (mn_highlighted s) (mn_kbNav s) (Some newId) (mn_session s)
  end.

(** The filter the current session of a field is building. *)
Definition session_filter (s : Menu) (fieldKey : string) : option Filter :=
  match js_get (mn_session s) fieldKey with
  | Own id => if truthy id then List.find (λ f, fl_id f === id) (mn_filters s) else None
  | _ => None
  end.
Definition currentValues (s : Menu) (fieldKey : string) : list T :=
  match session_filter s fieldKey with Some f => fl_values f | None => [] end.

Definition onToggle (s : Menu) (f : FilterFieldConfig) (fieldKey : string) (v : T) (isSelected : bool)
    (newId : string) : Menu :=
  let set_filters fs session :=
    with_menu s fs (mn_open s) (mn_search s) (mn_active s) (mn_sub s) (mn_highlighted s) (mn_kbNav s) (mn_lastAdded s) session in
  if ff_type f === Some MultiselectType then
    let current := currentValues s fieldKey in
    let nextValues := if isSelected then without current v else current ++ [v] in
    match session_filter s fieldKey with
    | Some sf =>
        if js_length nextValues =? 0
        then set_filters (removeFilter (mn_filters s) (fl_id sf)) ((fieldKey, "") :: mn_session s)
        else set_filters (map (λ x, if fl_id x === fl_id sf
                                    then mkFilter (fl_id x) (fl_field x) (fl_operator x) nextValues else x) (mn_filters s))
                         (mn_session s)
    | None =>
        set_filters (mn_filters s ++ [createFilter newId fieldKey (Some (ff_defaultOperator f ?? "is_any_of")) nextValues])
                    ((fieldKey, newId) :: mn_session s)
    end
  else
    with_menu s (mn_filters s ++ [createFilter newId fieldKey (Some (ff_defaultOperator f ?? "is")) [v]])
      false (mn_search s) (mn_active s) (mn_sub s) (mn_highlighted s) (mn_kbNav s) (Some newId) (mn_session s).

Definition set_highlight (s : Menu) (h : Z) : Menu :=
  with_menu s (mn_filters s) (mn_open s) (mn_search s) (mn_active s) (mn_sub s) h true (mn_lastAdded s) (mn_session s).
Definition set_sub (s : Menu) (sub : option string) (active : string) : Menu :=
  with_menu s (mn_filters s) (mn_open s) (mn_search s) active sub (mn_highlighted s) (mn_kbNav s) (mn_lastAdded s) (mn_session s).
Definition set_open (s : Menu) (open : bool) : Menu :=
  with_menu s (mn_filters s) open (mn_search s) (mn_active s) (mn_sub s) (mn_highlighted s) (mn_kbNav s) (mn_lastAdded s) (mn_session s).

(** [handleRootKeyDown]; reading a property of [undefined] throws. *)
Definition handleRootKeyDown (s : Menu) (key newId : string) : Menu * list effect :=
  let n := js_length (shown_fields s) in
  let h := mn_highlighted s in
  if key === "ArrowDown" then
    (set_highlight s (if 0 <? n then (if h <? n - 1 then h + 1 else 0) else h), [PreventDefault; StopPropagation])
  else if key === "ArrowUp" then
    (set_highlight s (if 0 <? n then (if 0 <? h then h - 1 else n - 1) else h), [PreventDefault; StopPropagation])
  else if ((key === "ArrowRight") || (key === "ArrowLeft")) && (0 <=? h) then
    let f := js_at (shown_fields s) h in
    let sub := match f with Some f => hasSubMenu f | None => false end in
    if (key === "ArrowRight") && sub then
      let k := match f with Some f => ff_key f | None => None end in
      (set_sub s k (k ?? "root"), [PreventDefault; StopPropagation])
    else if key === "ArrowLeft" then
      (if otruthy (mn_sub s) then set_sub s None "root" else s, [PreventDefault; StopPropagation])
    else (s, [StopPropagation])
  else if (key === "Enter") && (0 <=? h) then
    match js_at (shown_fields s) h with
    | None => (s, [PreventDefault; Throws "TypeError: field is undefined"])
    | Some f =>
        match ff_key f with
        | None => (s, [PreventDefault; StopPropagation])
        | Some k =>
            if negb (truthy k) then (s, [PreventDefault; StopPropagation])
            else if negb (hasSubMenu f) then (addFilter s k newId, [PreventDefault; StopPropagation])
            else (set_sub s (if mn_sub s === Some k then None else Some k)
                            (if mn_active s === k then "root" else k), [PreventDefault; StopPropagation])
        end
    end
  else if key === "Escape" then (set_open s false, [StopPropagation])
  else (s, [StopPropagation]).

(** What is on the page: the menu when a field is selectable, its content while it is
    open, the search box on top, and a row per listed field. React asks for distinct
    row keys, so a row is found by its key. *)
Definition menu_mounted (s : Menu) : bool := 0 <? js_length (selectableFields (mn_filters s)).
Definition content_mounted (s : Menu) : bool := menu_mounted s && mn_open s.
Definition search_mounted (s : Menu) : bool := content_mounted s && showSearchInput.
Definition row (s : Menu) (k : string) (sub : bool) : option FilterFieldConfig :=
  if content_mounted s
  then List.find (λ f, (ff_key f === Some k) && Bool.eqb (hasSubMenu f) sub) (shown_fields s)
  else None.

(** One event, before the render that follows it; an event of a part that is not on
    the page does nothing. *)
Definition menu_event (s : Menu) (m : menu_msg) : Menu * list effect :=
  match m with
  | Shortcut k inInput =>
      if enableShortcut && (toLowerCase k === toLowerCase shortcutKey) && negb (mn_open s) && negb inInput
      then (set_open s true, [PreventDefault]) else (s, [])
  | MenuOpenChange open =>
      (if negb (menu_mounted s) then s
       else if open then with_menu s (mn_filters s) true (mn_search s) "root" (mn_sub s) (mn_highlighted s) (mn_kbNav s) (mn_lastAdded s) (mn_session s)
       else with_menu s (mn_filters s) false "" (mn_active s) (mn_sub s) (mn_highlighted s) (mn_kbNav s) (mn_lastAdded s) [], [])
  | MenuSearch v =>
      (if search_mounted s
       then with_menu s (mn_filters s) (mn_open s) v (mn_active s) (mn_sub s) (mn_highlighted s) (mn_kbNav s) (mn_lastAdded s) (mn_session s)
       else s, [])
  | RootKey k newId => if search_mounted s then handleRootKeyDown s k newId else (s, [])
  | FieldClicked k newId =>
      (match row s k false with Some _ => if truthy k then addFilter s k newId else s | None => s end, [])
  | SubOpenChange k open =>
      (match row s k true with
       | Some _ => if open then set_sub s (Some k) (mn_active s)
                   else if mn_sub s === Some k then set_sub s None "root" else s
       | None => s
       end, [])
  | SubActive k =>
      (match row s k true with
       | Some f => if (ff_searchable f ?? true) then set_sub s (mn_sub s) k else s
       | None => s
       end, [])
  | SubBack => (set_sub s None "root", [])
  | SubClose => (set_open s false, [])
  | OptionToggled k v sel newId =>
      (match row s k true with Some f => onToggle s f k v sel newId | None => s end, [])
  | FilterUpdated id u => (with_menu s (updateFilter (mn_filters s) id u) (mn_open s) (mn_search s) (mn_active s) (mn_sub s)
                             (mn_highlighted s) (mn_kbNav s) (mn_lastAdded s) (mn_session s), [])
  | FilterRemoved id => (with_menu s (removeFilter (mn_filters s) id) (mn_open s) (mn_search s) (mn_active s) (mn_sub s)
                           (mn_highlighted s) (mn_kbNav s) (mn_lastAdded s) (mn_session s), [])
  | HighlightExpired => (with_menu s (mn_filters s) (mn_open s) (mn_search s) (mn_active s) (mn_sub s)
                           (mn_highlighted s) (mn_kbNav s) None (mn_session s), [])
  | FiltersReplaced fs => (with_menu s fs (mn_open s) (mn_search s) (mn_active s) (mn_sub s)
                             (mn_highlighted s) (mn_kbNav s) (mn_lastAdded s) (mn_session s), [])
  end.

Definition menu_update (s : Menu) (m : menu_msg) : Menu * list effect :=
  let '(s', fx) := menu_event s m in (render_adjust s', fx).

#[local] Instance menu_machine : Machine Menu menu_msg effect := menu_update.

(** ** The highlight stays in range *)

Lemma shown_fields_multiple fs fs' search :
  allowMultiple = true → filteredFields fs search = filteredFields fs' search.
Proof. intros Hm. unfold filteredFields, selectableFields. by rewrite Hm. Qed.

Definition in_range (s : Menu) : Prop :=
  mn_highlighted s = -1 ∨ 0 <= mn_highlighted s < js_length (shown_fields s).

(** A settled render: the highlight points at a listed field or nowhere. *)
Definition settled (s : Menu) : Prop := in_range s ∧ mn_prevSearch s = mn_search s.

Lemma render_settles s :
  (mn_prevSearch s = mn_search s → in_range s) → settled (render_adjust s).
Proof.
  intros Hs. split; [|done].
  assert (Hn : shown_fields (render_adjust s) = shown_fields s) by done.
  unfold in_range. rewrite Hn. unfold render_adjust; cbn [mn_highlighted].
  set (n := js_length (shown_fields s)) in *.
  assert (Hh : let h := if mn_prevSearch s === mn_search s then mn_highlighted s else -1 in h = -1 ∨ 0 <= h < n).
  { cbn zeta. destruct (bool_decide_reflect (mn_prevSearch s = mn_search s)) as [Heq|]; [by apply Hs|by left]. }
  destruct (mn_prevKey s === active_key s); [done|].
  destruct (mn_open s); cbn [andb]; [|done]. destruct (Z.ltb_spec 0 n); [right; lia|done].
Qed.

Lemma addFilter_frame s k newId :
  mn_highlighted (addFilter s k newId) = mn_highlighted s ∧ mn_prevSearch (addFilter s k newId) = mn_prevSearch s ∧
  (mn_search (addFilter s k newId) = mn_search s ∨ mn_search (addFilter s k newId) = "").
Proof. unfold addFilter. destruct (field_at fields k) as [f|]; [destruct (negb _)|]; simpl; auto. Qed.

Lemma onToggle_frame s f k v sel newId :
  mn_highlighted (onToggle s f k v sel newId) = mn_highlighted s ∧
  mn_prevSearch (onToggle s f k v sel newId) = mn_prevSearch s ∧
  mn_search (onToggle s f k v sel newId) = mn_search s.
Proof.
  unfold onToggle. destruct (ff_type f === Some MultiselectType); [|done].
  destruct (session_filter s k); [|done]. by destruct (_ =? 0).
Qed.

Section AllowMultiple.
Context (Hmultiple : allowMultiple = true).

Lemma same_search_range s s' :
  in_range s → mn_highlighted s' = mn_highlighted s → mn_search s' = mn_search s → in_range s'.
Proof using Hmultiple.
  intros Hr Hh Hs. unfold in_range, shown_fields in *. rewrite Hh, Hs.
  by rewrite (shown_fields_multiple (mn_filters s') (mn_filters s)).
Qed.

Lemma key_keeps_range s key newId :
  settled s → let s' := (handleRootKeyDown s key newId).1 in
  mn_prevSearch s' = mn_search s' → in_range s'.
Proof using Hmultiple.
  intros [Hr Hp] s' Hs'. unfold handleRootKeyDown in s'.
  assert (Hmove : ∀ h, (h = -1 ∨ 0 <= h < js_length (shown_fields s)) → in_range (set_highlight s h)) by done.
  assert (Hn := js_length_nonneg (shown_fields s)).
  destruct (key === "ArrowDown").
  { apply Hmove. unfold in_range in Hr. destruct (Z.ltb_spec 0 (js_length (shown_fields s))); [|done].
    destruct (Z.ltb_spec (mn_highlighted s) (js_length (shown_fields s) - 1)); lia. }
  destruct (key === "ArrowUp").
  { apply Hmove. unfold in_range in Hr. destruct (Z.ltb_spec 0 (js_length (shown_fields s))); [|done].
    destruct (Z.ltb_spec 0 (mn_highlighted s)); lia. }
  assert (Hsub : ∀ a b, in_range (set_sub s a b)) by (intros; by apply (same_search_range s)).
  destruct (((key === "ArrowRight") || (key === "ArrowLeft")) && (0 <=? mn_highlighted s)).
  { destruct ((key === "ArrowRight") && _); [apply Hsub|].
    destruct (key === "ArrowLeft"); [|done]. subst s'. simpl. destruct (otruthy (mn_sub s)); [apply Hsub|done]. }
  destruct ((key === "Enter") && (0 <=? mn_highlighted s)).
  { destruct (js_at (shown_fields s) (mn_highlighted s)) as [f|]; [|done].
    destruct (ff_key f) as [k|]; [|done]. destruct (negb (truthy k)); [done|].
    destruct (negb (hasSubMenu f)); [|apply Hsub].
    destruct (addFilter_frame s k newId) as (H1 & H2 & H3). subst s'. simpl in *.
    apply (same_search_range s); [done|done|]. congruence. }
  destruct (key === "Escape"); [|done]. by apply (same_search_range s).
Qed.

Lemma event_keeps_range s m :
  settled s → let s' := (menu_event s m).1 in mn_prevSearch s' = mn_search s' → in_range s'.
Proof using Hmultiple.
  intros Hset s'. pose proof Hset as [Hr Hp]. unfold menu_event in s'.
  destruct m; subst s'; simpl; intros Hs'.
  - destruct (_ && _); [by apply (same_search_range s)|done].
  - destruct (negb _); [done|]. destruct open; simpl in *; apply (same_search_range s); simpl; congruence.
  - destruct (search_mounted s); [apply (same_search_range s); simpl in *; congruence|done].
  - destruct (search_mounted s); [by apply key_keeps_range|done].
  - destruct (row s key false); [|done]. destruct (truthy key); [|done].
    destruct (addFilter_frame s key newId) as (H1 & H2 & H3). apply (same_search_range s); [done|done|congruence].
  - destruct (row s fieldKey true); [|done]. destruct open; [by apply (same_search_range s)|].
    destruct (mn_sub s === Some fieldKey); [|done]. by apply (same_search_range s).
  - destruct (row s fieldKey true) as [f|]; [|done]. destruct (ff_searchable f ?? true); [|done].
    by apply (same_search_range s).
  - by apply (same_search_range s).
  - by apply (same_search_range s).
  - destruct (row s fieldKey true) as [f|]; [|done].
    destruct (onToggle_frame s f fieldKey v isSelected newId) as (H1 & H2 & H3). by apply (same_search_range s).
  - by apply (same_search_range s).
  - by apply (same_search_range s).
  - by apply (same_search_range s).
  - by apply (same_search_range s).
Qed.

Lemma update_settled s m : settled s → settled (update s m).1.
Proof using Hmultiple.
  intros Hs. pose proof (event_keeps_range s m Hs) as He.
  unfold update, menu_machine, menu_update. destruct (menu_event s m) as [s' fx]. by apply render_settles.
Qed.

Lemma update_no_throw s m : settled s → Forall (λ e, ∀ w, e ≠ Throws w) (update s m).2.
Proof using Hmultiple.
  intros [Hr _]. unfold update, menu_machine, menu_update.
  destruct m; simpl; repeat constructor; try done.
  - destruct (_ && _); repeat constructor; done.
  - destruct (search_mounted s); [|constructor]. unfold handleRootKeyDown.
    destruct (key === "ArrowDown"); [repeat constructor; done|].
    destruct (key === "ArrowUp"); [repeat constructor; done|].
    destruct (_ && (0 <=? mn_highlighted s)).
    { destruct (_ && _); [repeat constructor; done|].
      destruct (key === "ArrowLeft"); repeat constructor; done. }
    destruct (key === "Enter"); cbn [andb]; [|destruct (key === "Escape"); repeat constructor; done].
    destruct (Z.leb_spec 0 (mn_highlighted s)); [|destruct (key === "Escape"); repeat constructor; done].
    destruct (js_at_in_range (shown_fields s) (mn_highlighted s)) as [f ->]; [unfold in_range in Hr; lia|].
    destruct (ff_key f) as [k|]; [|repeat constructor; done].
    destruct (negb (truthy k)); [repeat constructor; done|].
    destruct (negb (hasSubMenu f)); repeat constructor; done.
Qed.

(** With repeated fields allowed (the default), the add-filter menu never breaks:
    over any sequence of openings, searches, keys, toggles and list changes, the
    highlight is nowhere or on a listed field after every render, and no key
    raises an exception. *)
Theorem highlight_in_range filters ms :
  in_range (run (menu_init filters) ms).1 ∧
  Forall (λ e, ∀ w, e ≠ Throws w) (run (menu_init filters) ms).2.
Proof using Hmultiple.
  assert (Hinit : settled (menu_init filters)) by (split; [by left|done]).
  split.
  - apply (run_invariant settled); [intros s m Hs; by apply update_settled|done].
  - apply (run_effects settled); [intros s m Hs; by apply update_settled
                                 |intros s m Hs; by apply update_no_throw|done].
Qed.

End AllowMultiple.

(** ** A multi-select session builds one filter *)

(** Toggling the options of a field in turn; the submenu passes whether the value is
    selected now. *)
Fixpoint toggle_options (s : Menu) (k : string) (picks : list (T * string)) : Menu :=
  match picks with
  | [] => s
  | (v, newId) :: rest =>
      toggle_options (update s (OptionToggled k v (includes (currentValues s k) v) newId)).1 k rest
  end.

(** What the session has built: nothing, or one filter after the others. *)
Definition session_built (base : list Filter) (k op : string) (ids : list string) (sel : list T) (s : Menu) : Prop :=
  match sel with
  | [] => mn_filters s = base ∧ session_filter s k = None
  | _ => ∃ id, In id ids ∧ mn_filters s = base ++ [mkFilter id k op sel] ∧ js_get (mn_session s) k = Own id
  end.

Lemma find_app_fresh (base : list Filter) f :
  ¬ In (fl_id f) (map fl_id base) → List.find (λ x, fl_id x === fl_id f) (base ++ [f]) = Some f.
Proof.
  intros Hf. induction base as [|b base IH]; simpl in *; [by rewrite bool_decide_eq_true_2|].
  rewrite bool_decide_eq_false_2 by tauto. apply IH. tauto.
Qed.

Lemma map_app_fresh (base : list Filter) f (g : Filter → Filter) :
  ¬ In (fl_id f) (map fl_id base) →
  map (λ x, if fl_id x === fl_id f then g x else x) (base ++ [f]) = base ++ [g f].
Proof.
  intros Hf. induction base as [|b base IH]; simpl in *; [by rewrite bool_decide_eq_true_2|].
  rewrite bool_decide_eq_false_2 by tauto. f_equal. apply IH. tauto.
Qed.

Lemma remove_app_fresh (base : list Filter) f :
  ¬ In (fl_id f) (map fl_id base) → removeFilter (base ++ [f]) (fl_id f) = base.
Proof.
  intros Hf. unfold removeFilter. induction base as [|b base IH]; simpl in *; [by rewrite bool_decide_eq_true_2|].
  rewrite bool_decide_eq_false_2 by tauto. simpl. f_equal. apply IH. tauto.
Qed.

Lemma onToggle_open s f k v sel newId :
  ff_type f = Some MultiselectType → mn_open (onToggle s f k v sel newId) = mn_open s.
Proof.
  intros Ht. unfold onToggle. rewrite Ht, bool_decide_eq_true_2 by done.
  destruct (session_filter s k); [|done]. by destruct (_ =? 0).
Qed.

Lemma row_ext s s' k sub :
  allowMultiple = true → mn_open s' = mn_open s → mn_search s' = mn_search s → row s' k sub = row s k sub.
Proof.
  intros Hm Ho Hs. unfold row, content_mounted, menu_mounted, shown_fields. rewrite Ho, Hs.
  rewrite (shown_fields_multiple (mn_filters s') (mn_filters s)) by done.
  unfold selectableFields. by rewrite Hm.
Qed.

Lemma session_row s k f v sel newId :
  allowMultiple = true → row s k true = Some f → ff_type f = Some MultiselectType →
  row (update s (OptionToggled k v sel newId)).1 k true = Some f.
Proof.
  intros Hm Hrow Ht. unfold update, menu_machine, menu_update. simpl. rewrite Hrow.
  transitivity (row s k true); [|done]. apply row_ext; [done|exact (onToggle_open s f k v sel newId Ht)|apply (onToggle_frame s f k v sel newId)].
Qed.

Lemma session_step base k f op ids sel s v newId :
  row s k true = Some f → ff_type f = Some MultiselectType → op = (ff_defaultOperator f ?? "is_any_of") →
  (∀ id, In id (newId :: ids) → truthy id = true ∧ ¬ In id (map fl_id base)) →
  session_built base k op ids sel s →
  session_built base k op (newId :: ids) (js_toggle sel v)
    (update s (OptionToggled k v (includes (currentValues s k) v) newId)).1.
Proof.
  intros Hf Ht -> Hids Hb. unfold update, menu_machine, menu_update. simpl. rewrite Hf.
  unfold onToggle. rewrite Ht, bool_decide_eq_true_2 by done.
  destruct sel as [|x sel].
  - destruct Hb as [Hfs Hnone]. unfold currentValues. rewrite Hnone. simpl.
    exists newId. split; [by left|]. rewrite Hfs. split; [done|].
    unfold js_get; simpl. by rewrite bool_decide_eq_true_2.
  - destruct Hb as (id & Hin & Hfs & Hsess). destruct (Hids id (or_intror Hin)) as [Htr Hfresh].
    set (cur := mkFilter id k (ff_defaultOperator f ?? "is_any_of") (x :: sel)).
    assert (Hsf : session_filter s k = Some cur).
    { unfold session_filter. rewrite Hsess, Htr, Hfs. exact (find_app_fresh base cur Hfresh). }
    unfold currentValues. rewrite Hsf. cbn [fl_values cur].
    assert (Hnext : (if includes (x :: sel) v then without (x :: sel) v else (x :: sel) ++ [v]) = js_toggle (x :: sel) v) by done.
    rewrite Hnext, Hfs. destruct (js_toggle (x :: sel) v) as [|y sel'] eqn:Htog.
    + simpl. split; [exact (remove_app_fresh base cur Hfresh)|].
      unfold session_filter, js_get; simpl. by rewrite bool_decide_eq_true_2.
    + assert (Hlen : (js_length (y :: sel') =? 0) = false) by (apply Z.eqb_neq; unfold js_length; simpl; lia).
      rewrite Hlen. simpl. exists id. split; [by right|]. split; [|done].
      exact (map_app_fresh base cur (λ z, mkFilter (fl_id z) (fl_field z) (fl_operator z) (y :: sel')) Hfresh).
Qed.

(** C39: A multi-select session refines toggling a set: after any sequence of clicks on
    the options of a field the list holds the filters it had before, unchanged and
    in order, followed by one filter with exactly the options toggled on, in click
    order, or by nothing when none is left. *)
Theorem session_refines_toggling s k f picks :
  allowMultiple = true → row s k true = Some f → ff_type f = Some MultiselectType → session_filter s k = None →
  (∀ id, In id (map snd picks) → truthy id = true ∧ ¬ In id (map fl_id (mn_filters s))) →
  let chosen := foldl js_toggle [] (map fst picks) in
  mn_filters (toggle_options s k picks) = mn_filters s ∧ chosen = [] ∨
  (∃ id, mn_filters (toggle_options s k picks) =
     mn_filters s ++ [mkFilter id k (ff_defaultOperator f ?? "is_any_of") chosen]) ∧ chosen ≠ [].
Proof.
  intros Hm Hf Ht Hnone Hids. cbv zeta.
  assert (Hgen : ∀ picks ids sel st, row st k true = Some f →
    (∀ id, In id (map snd picks ++ ids) → truthy id = true ∧ ¬ In id (map fl_id (mn_filters s))) →
    session_built (mn_filters s) k (ff_defaultOperator f ?? "is_any_of") ids sel st →
    ∃ ids', session_built (mn_filters s) k (ff_defaultOperator f ?? "is_any_of") ids'
      (foldl js_toggle sel (map fst picks)) (toggle_options st k picks)).
  { clear picks Hids. induction picks as [|[v newId] picks IH]; intros ids sel st Hst Hi Hb; [by exists ids|].
    cbn [toggle_options map foldl fst]. apply (IH (newId :: ids)).
    - by apply session_row.
    - intros id Hin. apply Hi. simpl. rewrite in_app_iff in *. simpl in *. tauto.
    - apply session_step with (f := f); try done. intros id Hin. apply Hi. simpl. rewrite in_app_iff. simpl in Hin. tauto. }
  destruct (Hgen picks [] [] s) as (ids' & Hb); [done| | |].
  - intros id Hin. rewrite app_nil_r in Hin. by apply Hids.
  - by split.
  - destruct (foldl js_toggle [] (map fst picks)) as [|x sel]; [left; by destruct Hb|right].
    destruct Hb as (id & _ & Hfs & _). split; [by exists id|done].
Qed.

(** ** The operator of a new filter *)

Definition offers (f : FilterFieldConfig) (x : Filter) : Prop :=
  In (fl_operator x) (map fop_value (getOperatorsForField f (fl_values x))).

(** A filter added from the menu carries an operator its own operator list offers:
    for a field that configures neither operators nor a default one, both adding
    the field and picking an option of it leave the list as it was or append one
    filter of that field whose operator is among those the dropdown shows. *)
Theorem added_operator_is_offered s f k v newId :
  field_at fields k = Some f → ff_operators f = None → ff_defaultOperator f = None → session_filter s k = None →
  ∀ s', s' = addFilter s k newId ∨ s' = onToggle s f k v false newId →
  mn_filters s' = mn_filters s ∨
  ∃ x, mn_filters s' = mn_filters s ++ [x] ∧ fl_id x = newId ∧ fl_field x = k ∧ offers f x.
Proof.
  intros Hf Hops Hdef Hnone s' [-> | ->]; unfold addFilter, onToggle, currentValues, offers, getOperatorsForField.
  - rewrite Hf. destruct (negb _); [by left|]. right. eexists. split; [reflexivity|]. repeat split. simpl.
    rewrite Hops, Hdef. destruct (ff_type f) as [[]|]; simpl; tauto.
  - rewrite Hnone. right. destruct (ff_type f) as [[]|] eqn:Ht; rewrite ?bool_decide_eq_true_2 by done; simpl;
      eexists; (split; [reflexivity|]); repeat split; simpl; rewrite Hops, Hdef, ?Ht; simpl; tauto.
Qed.

(** ** Editing one filter *)

(** Editing or removing a filter touches that filter only: every other filter keeps
    its place and content, ids and fields never change, and choosing "is empty" or
    "is not empty" drops the values. *)
Theorem filter_edits_are_local filters id u :
  map fl_id (updateFilter filters id u) = map fl_id filters ∧
  map fl_field (updateFilter filters id u) = map fl_field filters ∧
  (∀ f, In f filters → fl_id f ≠ id → In f (updateFilter filters id u) ∧ In f (removeFilter filters id)) ∧
  (∀ f, In f (updateFilter filters id u) → fl_id f = id →
     u = SetOperator "empty" ∨ u = SetOperator "not_empty" → fl_values f = []) ∧
  ¬ In id (map fl_id (removeFilter filters id)).
Proof.
  assert (Hid : ∀ f, fl_id (if fl_id f !== id then f else apply_update u f) = fl_id f).
  { intros f. destruct (fl_id f !== id); [done|]. by destruct u. }
  split; [|split; [|split; [|split]]].
  - unfold updateFilter. rewrite map_map. by apply map_ext.
  - unfold updateFilter. rewrite map_map. apply map_ext. intros f. destruct (fl_id f !== id); [done|]. by destruct u.
  - intros f Hin Hne. split.
    + unfold updateFilter. apply in_map_iff. exists f. by rewrite bool_decide_eq_false_2.
    + unfold removeFilter. apply filter_In. by rewrite bool_decide_eq_false_2.
  - unfold updateFilter. intros f Hin Hi Hu. apply in_map_iff in Hin as (f0 & <- & _). rewrite Hid in Hi.
    rewrite (bool_decide_eq_true_2 _ Hi). by destruct Hu as [-> | ->].
  - unfold removeFilter. intros Hin0. apply in_map_iff in Hin0 as (f & Hf & Hin). apply filter_In in Hin as [_ Hin].
    by rewrite (bool_decide_eq_true_2 _ Hf) in Hin.
Qed.

(** ** Without repeated fields the highlight can dangle *)

Lemma filter_filter {A} (p q : A → bool) l :
  List.filter p (List.filter q l) = List.filter q (List.filter p l).
Proof.
  induction l as [|x l IH]; [done|]. simpl. destruct (q x) eqn:Hq, (p x) eqn:Hp; simpl; rewrite ?Hq, ?Hp, IH; done.
Qed.

Lemma selectable_app_once fs x :
  allowMultiple = false →
  selectableFields (fs ++ [x]) = List.filter (λ f, Some (fl_field x) !== ff_key f) (selectableFields fs).
Proof.
  intros Hm. unfold selectableFields. rewrite Hm. induction (flattenFields fields) as [|f l IH]; [done|].
  simpl. rewrite IH, existsb_app. simpl.
  destruct (negb (otruthy (ff_key f)) || (ff_type f === Some SeparatorType)); [done|].
  destruct (existsb _ fs); simpl; [done|]. by destruct (Some (fl_field x) === ff_key f).
Qed.

Lemma filtered_app_once fs x search :
  allowMultiple = false →
  filteredFields (fs ++ [x]) search = List.filter (λ f, Some (fl_field x) !== ff_key f) (filteredFields fs search).
Proof. intros Hm. unfold filteredFields. rewrite selectable_app_once by done. apply filter_filter. Qed.

(** Where each field may be used once, the menu can raise: when the search lists a
    single multi-select field and an option of it is toggled, the field leaves the
    list, the highlight stays on its place, and Enter in the search box reads a
    property of [undefined]. *)
Theorem enter_after_last_match s f k v newId newId' :
  allowMultiple = false → search_mounted s = true → mn_prevSearch s = mn_search s → mn_highlighted s = 0 →
  shown_fields s = [f] → ff_key f = Some k → hasSubMenu f = true → ff_type f = Some MultiselectType →
  session_filter s k = None → (∃ g, In g (selectableFields (mn_filters s)) ∧ ff_key g ≠ Some k) →
  ∃ w, In (Throws w) (run s [OptionToggled k v false newId; RootKey "Enter" newId']).2.
Proof.
  intros Hm Hmount Hprev Hh Hshown Hk Hsub Ht Hnone (g & Hg & Hgk).
  assert (Hparts : content_mounted s = true ∧ mn_open s = true ∧ showSearchInput = true).
  { unfold search_mounted, content_mounted in *. destruct (menu_mounted s), (mn_open s), showSearchInput; done. }
  destruct Hparts as (Hc & Ho & Hss).
  assert (Hrow : row s k true = Some f).
  { unfold row. rewrite Hc, Hshown. simpl. by rewrite Hk, bool_decide_eq_true_2, Hsub by done. }
  rewrite run_cons. unfold update at 1 2, menu_machine at 1 2, menu_update at 1 2. simpl. rewrite Hrow.
  unfold onToggle. rewrite Ht, bool_decide_eq_true_2 by done. rewrite Hnone. simpl.
  unfold currentValues. rewrite Hnone. simpl.
  set (x := createFilter newId k _ [v]). set (s1 := with_menu s (mn_filters s ++ [x]) _ _ _ _ _ _ _ _).
  assert (Hnil : shown_fields s1 = []).
  { unfold shown_fields, s1; simpl. rewrite filtered_app_once by done. unfold shown_fields in Hshown. rewrite Hshown.
    simpl. by rewrite Hk, bool_decide_eq_true_2. }
  assert (Hmount' : search_mounted (render_adjust s1) = true).
  { unfold search_mounted, content_mounted, menu_mounted, s1; simpl. rewrite Ho, Hss, selectable_app_once by done.
    rewrite !andb_true_r. apply Z.ltb_lt. assert (Hin : In g (List.filter (λ f, Some (fl_field x) !== ff_key f) (selectableFields (mn_filters s)))).
    { apply filter_In. split; [done|]. by rewrite bool_decide_eq_false_2 by (simpl; congruence). }
    destruct (List.filter _ _); [done|]. unfold js_length; simpl; lia. }
  assert (Hnil' : shown_fields (render_adjust s1) = []) by exact Hnil.
  assert (Hh' : mn_highlighted (render_adjust s1) = 0).
  { unfold render_adjust; cbn [mn_highlighted]. rewrite Hnil. simpl. rewrite Hprev, Hh, Ho.
    rewrite (bool_decide_eq_true_2 (mn_search s = mn_search s)) by done. simpl. by destruct (mn_prevKey s === _). }
  unfold update, menu_machine, menu_update, menu_event. rewrite Hmount'. unfold handleRootKeyDown. rewrite Hnil', Hh'.
  eexists. simpl. right. left. reflexivity.
Qed.

End Filters.

(** ** A menu with two fields *)

Definition tag_field : FilterFieldConfig (T := string) :=
  mkField (Some "tag") (Some "Tag") (Some MultiselectType) None None
    (Some [mkFilterOption "a" "A"; mkFilterOption "b" "B"]) None None None
    None None None None false None false.
Definition name_field : FilterFieldConfig (T := string) :=
  mkField (Some "name") (Some "Name") (Some TextType) None None None None None None
    None None None None false None false.
#[local] Instance demo_machine (allowMultiple : bool) : Machine Menu menu_msg effect | 10 :=
  @menu_machine ascii_locale string _ "" [tag_field; name_field] allowMultiple false true "f".
Definition demo_init (allowMultiple : bool) (fs : list (Filter (T := string))) : Menu :=
  @menu_init ascii_locale string [tag_field; name_field] allowMultiple fs.
Definition old_filter : Filter (T := string) := mkFilter "1" "name" "contains" ["x"].

Lemma highlight_in_range_witness :
  let s := (@run _ _ _ (demo_machine true) (demo_init true [])
              [MenuOpenChange true; MenuSearch "n"; RootKey "ArrowDown" "1"; RootKey "Enter" "2"]).1 in
  map fl_field (mn_filters s) = ["name"] ∧
  @in_range ascii_locale string [tag_field; name_field] true s.
Proof.
  split; [by vm_compute|].
  exact (proj1 (@highlight_in_range ascii_locale string _ "" [tag_field; name_field] true false true "f" eq_refl []
    [MenuOpenChange true; MenuSearch "n"; RootKey "ArrowDown" "1"; RootKey "Enter" "2"])).
Defined.

Lemma session_refines_toggling_witness :
  let s := (@run _ _ _ (demo_machine true) (demo_init true [old_filter]) [MenuOpenChange true]).1 in
  ∃ id, mn_filters (@toggle_options ascii_locale string _ "" [tag_field; name_field] true false true "f" s "tag"
    [("a", "2"); ("b", "3"); ("a", "4")]) = [old_filter; mkFilter id "tag" "is_any_of" ["b"]].
Proof.
  cbv zeta. set (s := (run (demo_init true [old_filter]) [MenuOpenChange true]).1).
  destruct (@session_refines_toggling ascii_locale string _ "" [tag_field; name_field] true false true "f" s "tag" tag_field
    [("a", "2"); ("b", "3"); ("a", "4")]) as [[_ Hc]|[[id Hid] _]]; [by vm_compute..| | |].
  - intros id Hid. split; [|intros Hin; vm_compute in Hin; destruct Hin as [Hin|[]]; rewrite <- Hin in Hid];
      destruct Hid as [Hid|[Hid|[Hid|[]]]]; try (rewrite <- Hid); done.
  - by vm_compute in Hc.
  - exists id. exact Hid.
Defined.

Lemma added_operator_is_offered_witness :
  ∃ x, mn_filters (@onToggle string _ (demo_init true [old_filter]) tag_field "tag" "b" false "2") = [old_filter; x] ∧
       offers tag_field x.
Proof.
  destruct (@added_operator_is_offered string _ "" [tag_field; name_field] (demo_init true [old_filter])
    tag_field "tag" "b" "2" eq_refl eq_refl eq_refl eq_refl _ (or_intror eq_refl)) as [Hsame|(x & Hx & _ & _ & Ho)].
  - by vm_compute in Hsame.
  - exists x. split; [exact Hx|exact Ho].
Defined.

Lemma filter_edits_are_local_witness :
  updateFilter [old_filter; mkFilter "2" "tag" "is" ["a"]] "1" (SetOperator "empty") =
    [mkFilter "1" "name" "empty" []; mkFilter "2" "tag" "is" ["a"]] ∧
  In (mkFilter "2" "tag" "is" ["a"]) (updateFilter [old_filter; mkFilter "2" "tag" "is" ["a"]] "1" (SetOperator "empty")).
Proof.
  split; [by vm_compute|].
  destruct (filter_edits_are_local [old_filter; mkFilter "2" "tag" "is" ["a"]] "1" (SetOperator "empty")) as (_ & _ & Hother & _).
  apply (Hother (mkFilter "2" "tag" "is" ["a"])); [by right; left|done].
Defined.

Lemma enter_after_last_match_witness :
  let s := (@run _ _ _ (demo_machine false) (demo_init false []) [MenuOpenChange true; MenuSearch "tag"]).1 in
  ∃ w, In (Throws w) (@run _ _ _ (demo_machine false) s [OptionToggled "tag" "a" false "1"; RootKey "Enter" "2"]).2.
Proof.
  cbv zeta.
  apply (@enter_after_last_match ascii_locale string _ "" [tag_field; name_field] false false true "f" _ tag_field "tag" "a" "1" "2");
    try by vm_compute.
  exists name_field. split; [by vm_compute; auto|done].
Defined.
