(* ===== verification/FilterEditors.v ===== *)
(** * The filter builder: the editors of one filter

    Models the rest of [web/components/filters.tsx]: the text input with its
    validation, the operator dropdown, the options popover of a filter with its cap
    and its keyboard, and the option list of the add-filter submenu composed with the
    menu of [Filters]. The browser's regular expressions are an argument of the text
    input. The popover's [inline] and [onClose] props are left out: its one caller
    passes neither. *)
From stdpp Require Import base list strings.
From Stdlib Require Import ZArith Lia Ascii.
From S2P Require Import Prelude JsString JsNumber Proto View Filters.
#[local] Open Scope string_scope.
#[local] Open Scope list_scope.
#[local] Open Scope Z_scope.

(** ** Keys shared by the two option lists *)

Definition next_down (n h : Z) : Z := if 0 <? n then (if h <? n - 1 then h + 1 else 0) else h.
Definition next_up (n h : Z) : Z := if 0 <? n then (if 0 <? h then h - 1 else n - 1) else h.

(** ** The text input *)

Section FilterInput.
Context {T : Type}.

(** [new RegExp(pattern).test(value)]; [None] when the pattern does not compile. *)
Context (regexTest : string → string → option bool).
Context (field : FilterFieldConfig (T := T)).

Record FilterInputState := mkFilterInput { fi_isValid : bool; fi_message : string }.
Definition FilterInput_init : FilterInputState := mkFilterInput true "".

Inductive input_msg := InputBlur (value : string) | InputKey (key : string).

Definition validateInput (value : string) (pattern : option string) : option bool :=
  match pattern with
  | Some p => if truthy p && truthy value then regexTest p value else Some true
  | None => Some true
  end.

Definition keeps_error : list string := ["Tab"; "Escape"; "Enter"; "ArrowUp"; "ArrowDown"; "ArrowLeft"; "ArrowRight"].

(** The verdict on a value that left focus: whether it is valid, and the message of
    the callback; [None] when the pattern throws. *)
Definition blur_verdict (value : string) : option (bool * string) :=
  if truthy value && (otruthy (ff_pattern field) || bool_decide (is_Some (const () <$> ff_validation field))) then
    match ff_validation field with
    | Some validation =>
        match validation value with
        | Verdict v => Some (v, "")
        | VerdictWith v m => Some (v, m ?? "")
        end
    | None => match validateInput value (ff_pattern field) with Some v => Some (v, "") | None => None end
    end
  else Some (true, "").

Definition FilterInput_update (s : FilterInputState) (m : input_msg) : FilterInputState * list effect :=
  match m with
  | InputBlur value =>
      match blur_verdict value with
      | Some (valid, custom) => (mkFilterInput valid (if valid then "" else custom ||| "Invalid input format"), [])
      | None => (s, [Throws "SyntaxError: Invalid regular expression"])
      end
  | InputKey key =>
      (if negb (fi_isValid s) && negb (includes keeps_error key) then mkFilterInput true "" else s, [])
  end.

#[local] Instance filter_input_machine : Machine FilterInputState input_msg effect := FilterInput_update.

(** [FilterInput]'s markup, with the value it edits; the host's prefix and suffix nodes
    are left out. *)
Definition FilterInput (s : FilterInputState) (value : string) : view input_msg :=
  El "InputGroup" []
    ([El "InputGroupInput"
        ([Attr "aria-invalid" (if fi_isValid s then "false" else "true"); Attr "value" value] ++
         when (negb (fi_isValid s) && truthy (fi_message s))
           [Attr "aria-describedby" ((ff_key field ?? "input") +:+ "-error")]) []] ++
     when (negb (fi_isValid s) && truthy (fi_message s)) [El "Tooltip" [] [Text (fi_message s)]]).

(** What the user should see: the verdict of the last blur that gave one, until a key
    that edits. *)
Fixpoint flagged (b : bool) (ms : list input_msg) : bool :=
  match ms with
  | [] => b
  | InputBlur value :: rest =>
      flagged (match blur_verdict value with Some (valid, _) => negb valid | None => b end) rest
  | InputKey key :: rest => flagged (b && includes keeps_error key) rest
  end.

Lemma run_flagged s ms : fi_isValid (run s ms).1 = negb (flagged (negb (fi_isValid s)) ms).
Proof.
  revert s. induction ms as [|m ms IH]; intros s; [by simpl; rewrite negb_involutive|].
  rewrite run_cons. cbn [fst]. rewrite IH. destruct m as [value|key]; unfold update, filter_input_machine;
    cbn [FilterInput_update flagged].
  - by destruct (blur_verdict value) as [[[] c]|].
  - by destruct (fi_isValid s) eqn:Hv, (includes keeps_error key); cbn; rewrite ?Hv.
Qed.

Lemma message_iff_invalid s m :
  (fi_isValid s = true ↔ fi_message s = "") → (fi_isValid (update s m).1 = true ↔ fi_message (update s m).1 = "").
Proof.
  intros Hs. unfold update, filter_input_machine. destruct m as [value|key]; cbn [FilterInput_update].
  - destruct (blur_verdict value) as [[[] c]|]; cbn; [done| |done].
    split; [done|]. intros Hm. by apply str_or_nonempty in Hm.
  - by destruct (negb (fi_isValid s) && negb (includes keeps_error key)).
Qed.

(** The text input flags a value exactly when it should: over any sequence of
    blurs and keys it is marked invalid iff the last blur with a verdict rejected
    the value and no editing key followed, and it shows the error with a text iff
    it is marked invalid. *)
Theorem input_flags_exactly ms :
  let s := (run FilterInput_init ms).1 in
  fi_isValid s = negb (flagged false ms) ∧ (fi_isValid s = true ↔ fi_message s = "").
Proof.
  split; [exact (run_flagged FilterInput_init ms)|].
  apply (run_invariant (λ s, fi_isValid s = true ↔ fi_message s = "")); [exact message_iff_invalid|done].
Qed.

End FilterInput.

(** ** The operator dropdown *)

Section Operators.
Context {T : Type} (field : FilterFieldConfig (T := T)).

Definition formatOperator (operator : string) : string := replace_all "_"%char " "%char operator.

Definition operatorLabel (operator : string) (values : list T) : string :=
  match List.find (λ item, fop_value item === operator) (getOperatorsForField field values) with
  | Some item => fop_label item
  | None => formatOperator operator
  end.

(** The entries: label, whether it is ticked, the operator a click sends. *)
Definition FilterOperatorDropdown (operator : string) (values : list T) : string * list (string * bool * string) :=
  (operatorLabel operator values,
   map (λ item, (fop_label item, fop_value item === operator, fop_value item)) (getOperatorsForField field values)).

End Operators.

(** ** The options popover *)

Section Popover.
Context `{Locale} {T : Type} `{EqDecision T} (field : FilterFieldConfig (T := T)).

Inductive editor_effect := OnChange (vs : list T) | OnValueChange (vs : list T) | Dom (e : effect).

Record Popover := mkPopover {
  po_values : list T; po_fieldValue : option (list T);
  po_open : bool; po_search : string; po_highlighted : Z; po_kbNav : bool;
  po_prevKey : string; po_timers : nat }.

Inductive popover_msg :=
| PopoverOpenChange (open : bool)
| SearchTimer
| PopoverSearch (s : string)
| PopoverKey (key : string)
| OptionChecked (index : Z)
| PopoverProps (values : list T) (fieldValue : option (list T)).

Definition isMultiSelect (s : Popover) : bool :=
  (ff_type field === Some MultiselectType) || (1 <? js_length (po_values s)).
Definition effectiveValues (s : Popover) : list T := po_fieldValue s ?? po_values s.
Definition selectedOptions (s : Popover) : list (FilterOption (T := T)) :=
  List.filter (λ o, includes (effectiveValues s) (fo_value o)) (ff_options field ?? []).
Definition unselectedOptions (s : Popover) : list (FilterOption (T := T)) :=
  List.filter (λ o, negb (includes (effectiveValues s) (fo_value o))) (ff_options field ?? []).
Definition filteredUnselectedOptions (s : Popover) : list (FilterOption (T := T)) :=
  List.filter (λ o, includes_str (toLowerCase (fo_label o)) (toLowerCase (po_search s))) (unselectedOptions s).
Definition allFilteredOptions (s : Popover) : list (FilterOption (T := T)) :=
  selectedOptions s ++ filteredUnselectedOptions s.

Definition highlightResetKey (search : string) (open : bool) : string :=
  search +:+ ":" +:+ (if open then "true" else "false").

Definition popover_init (values : list T) : Popover :=
  mkPopover values (ff_value field) false "" (-1) false (highlightResetKey "" false) 0.

(** [field.maxSelections && next.length > field.maxSelections]. *)
Definition over_max (next : list T) : bool :=
  match ff_maxSelections field with
  | Some m => (num_eq m m && negb (num_eq m (int 0))) && lt m (int (js_length next))
  | None => false
  end.

Definition set_values (s : Popover) (vs : list T) : Popover :=
  mkPopover vs (po_fieldValue s) (po_open s) (po_search s) (po_highlighted s) (po_kbNav s) (po_prevKey s) (po_timers s).
Definition set_popover_open (s : Popover) (open : bool) : Popover :=
  mkPopover (po_values s) (po_fieldValue s) open (po_search s) (po_highlighted s) (po_kbNav s) (po_prevKey s) (po_timers s).
Definition set_option (s : Popover) (h : Z) : Popover :=
  mkPopover (po_values s) (po_fieldValue s) (po_open s) (po_search s) h true (po_prevKey s) (po_timers s).

Definition updateValues (s : Popover) (next : list T) : Popover * list editor_effect :=
  if ff_onValueChange field then (s, [OnValueChange next]) else (set_values s next, [OnChange next]).

(** [updateValues(next)], then [handleClose] unless several values may be chosen. *)
Definition commit (s : Popover) (next : list T) : Popover * list editor_effect :=
  let '(s1, fx) := updateValues s next in (if isMultiSelect s then s1 else set_popover_open s1 false, fx).

(** A click on the option at [index]: the selected ones come first. *)
Definition onCheckedChange (s : Popover) (index : Z) : Popover * list editor_effect :=
  match js_at (allFilteredOptions s) index with
  | None => (s, [])
  | Some o =>
      if index <? js_length (selectedOptions s)
      then commit s (without (effectiveValues s) (fo_value o))
      else let next := if isMultiSelect s then effectiveValues s ++ [fo_value o] else [fo_value o] in
           if isMultiSelect s && over_max next then (s, []) else commit s next
  end.

Definition popover_onKeyDown (s : Popover) (key : string) : Popover * list editor_effect :=
  let n := js_length (allFilteredOptions s) in
  let h := po_highlighted s in
  if key === "ArrowDown" then (set_option s (next_down n h), [Dom PreventDefault; Dom StopPropagation])
  else if key === "ArrowUp" then (set_option s (next_up n h), [Dom PreventDefault; Dom StopPropagation])
  else if key === "ArrowLeft" then (set_popover_open s false, [Dom PreventDefault; Dom StopPropagation])
  else if (key === "Enter") && (0 <=? h) then
    match js_at (allFilteredOptions s) h with
    | None => (s, [Dom PreventDefault; Dom StopPropagation])
    | Some o =>
        let isSelected := includes (effectiveValues s) (fo_value o) in
        let next := if isSelected then without (effectiveValues s) (fo_value o)
                    else if isMultiSelect s then effectiveValues s ++ [fo_value o] else [fo_value o] in
        if negb isSelected && isMultiSelect s && over_max next then (s, [Dom PreventDefault])
        else let '(s1, fx) := commit s next in (s1, Dom PreventDefault :: fx ++ [Dom StopPropagation])
    end
  else (s, [Dom StopPropagation]).

(** One event before the render that follows; the list is on the page while open, the
    search box unless the field is not searchable. *)
Definition popover_event (s : Popover) (m : popover_msg) : Popover * list editor_effect :=
  match m with
  | PopoverOpenChange open =>
      (mkPopover (po_values s) (po_fieldValue s) open (po_search s) (po_highlighted s) (po_kbNav s) (po_prevKey s)
         (if open then po_timers s else S (po_timers s)), [])
  | SearchTimer =>
      match po_timers s with
      | O => (s, [])
      | S n => (mkPopover (po_values s) (po_fieldValue s) (po_open s) "" (po_highlighted s) (po_kbNav s) (po_prevKey s) n, [])
      end
  | PopoverSearch v =>
      (if po_open s && (ff_searchable field ?? true)
       then mkPopover (po_values s) (po_fieldValue s) (po_open s) v (po_highlighted s) (po_kbNav s) (po_prevKey s) (po_timers s)
       else s, [])
  | PopoverKey key => if po_open s && (ff_searchable field ?? true) then popover_onKeyDown s key else (s, [])
  | OptionChecked i =>
      if po_open s
      then let '(s1, fx) := onCheckedChange s i in (s1, when (isMultiSelect s) [Dom PreventDefault] ++ fx)
      else (s, [])
  | PopoverProps vs fv =>
      (mkPopover vs fv (po_open s) (po_search s) (po_highlighted s) (po_kbNav s) (po_prevKey s) (po_timers s), [])
  end.

(** The highlight is reset while rendering when the search or the open state changed. *)
Definition popover_adjust (s : Popover) : Popover :=
  let key := highlightResetKey (po_search s) (po_open s) in
  mkPopover (po_values s) (po_fieldValue s) (po_open s) (po_search s)
    (if po_prevKey s === key then po_highlighted s else -1) (po_kbNav s) key (po_timers s).

Definition popover_update (s : Popover) (m : popover_msg) : Popover * list editor_effect :=
  let '(s', fx) := popover_event s m in (popover_adjust s', fx).

#[local] Instance popover_machine : Machine Popover popover_msg editor_effect := popover_update.

(** The text of the trigger. *)
Definition popover_label (s : Popover) : string :=
  match selectedOptions s with
  | [o] => fo_label o
  | [] => "Select..."
  | _ => num (js_length (selectedOptions s)) +:+ " selected"
  end.

(** ** Enter and click agree *)

Lemma js_at_app {A} (l1 l2 : list A) i x :
  js_at (l1 ++ l2) i = Some x → if i <? js_length l1 then In x l1 else In x l2.
Proof.
  intros Hx. pose proof (js_at_Some _ _ _ Hx) as Hr. unfold js_at, js_length in *.
  destruct (Z.ltb_spec i 0); [lia|].
  destruct (Z.ltb_spec i (Z.of_nat (length l1))).
  - rewrite lookup_app_l in Hx by lia. apply list_elem_of_In. by eapply list_elem_of_lookup_2.
  - rewrite lookup_app_r in Hx by lia. apply list_elem_of_In. by eapply list_elem_of_lookup_2.
Qed.

Lemma group_of_option s i o :
  js_at (allFilteredOptions s) i = Some o →
  (i <? js_length (selectedOptions s)) = includes (effectiveValues s) (fo_value o).
Proof.
  intros Ho. apply js_at_app in Ho. destruct (i <? js_length (selectedOptions s)).
  - by apply filter_In in Ho as [_ ->].
  - apply filter_In in Ho as [Ho _]. apply filter_In in Ho as [_ Ho]. by destruct (includes _ _).
Qed.

(** The values after choosing an option, by whether it is selected; [None] at the cap. *)
Definition choose (s : Popover) (o : FilterOption (T := T)) : option (list T) :=
  if includes (effectiveValues s) (fo_value o) then Some (without (effectiveValues s) (fo_value o))
  else if isMultiSelect s
       then let next := effectiveValues s ++ [fo_value o] in if over_max next then None else Some next
       else Some [fo_value o].

Lemma click_chooses s i :
  onCheckedChange s i =
  match js_at (allFilteredOptions s) i with
  | Some o => match choose s o with Some next => commit s next | None => (s, []) end
  | None => (s, [])
  end.
Proof.
  unfold onCheckedChange, choose. destruct (js_at _ i) as [o|] eqn:Ho; [|done]. rewrite (group_of_option _ _ _ Ho).
  destruct (includes _ _); [done|]. destruct (isMultiSelect s); [|done]. cbn [andb]. by destruct (over_max _).
Qed.

Lemma enter_chooses s :
  0 <= po_highlighted s →
  popover_onKeyDown s "Enter" =
  match js_at (allFilteredOptions s) (po_highlighted s) with
  | Some o => match choose s o with
              | Some next => ((commit s next).1, Dom PreventDefault :: (commit s next).2 ++ [Dom StopPropagation])
              | None => (s, [Dom PreventDefault])
              end
  | None => (s, [Dom PreventDefault; Dom StopPropagation])
  end.
Proof.
  intros Hh. unfold popover_onKeyDown.
  rewrite (bool_decide_eq_false_2 ("Enter" = "ArrowDown")), (bool_decide_eq_false_2 ("Enter" = "ArrowUp")),
    (bool_decide_eq_false_2 ("Enter" = "ArrowLeft")), (bool_decide_eq_true_2 ("Enter" = "Enter")) by done.
  cbn [andb]. destruct (Z.leb_spec 0 (po_highlighted s)); [|lia].
  destruct (js_at _ _) as [o|]; [|done]. unfold choose.
  destruct (includes _ _); cbn [negb andb]; [by destruct (commit s _)|].
  destruct (isMultiSelect s); cbn [andb]; [destruct (over_max _); [done|]|]; by destruct (commit s _).
Qed.

(** What an event does to the values the filter holds. *)
Definition host_change (m : popover_msg) : bool := match m with PopoverProps _ _ => true | _ => false end.
Definition chosen (s s' : Popover) : Prop :=
  s' = s ∨ ∃ o next, In o (ff_options field ?? []) ∧ choose s o = Some next ∧ s' = (commit s next).1.

Lemma listed_is_option s i o : js_at (allFilteredOptions s) i = Some o → In o (ff_options field ?? []).
Proof.
  intros Ho%js_at_In. apply in_app_iff in Ho as [Ho|Ho]; apply filter_In in Ho as [Ho _]; [done|].
  by apply filter_In in Ho as [Ho _].
Qed.

(** Every event of the user either leaves the values alone or chooses one option. *)
Lemma event_chooses s m :
  host_change m = false →
  let s' := (popover_event s m).1 in
  chosen s s' ∨ po_values s' = po_values s ∧ po_fieldValue s' = po_fieldValue s ∧ po_prevKey s' = po_prevKey s.
Proof.
  intros Hm. destruct m; cbn [popover_event]; try done; try (right; done).
  - right. by destruct (po_timers s).
  - right. by destruct (_ && _).
  - destruct (_ && _); [|by right]. unfold chosen.
    destruct (decide (key = "Enter")) as [->|Hk].
    + destruct (Z.leb_spec 0 (po_highlighted s)) as [Hh|Hh].
      2: { right. unfold popover_onKeyDown. repeat case_bool_decide; try done. cbn [andb].
           destruct (Z.leb_spec 0 (po_highlighted s)); [lia|done]. }
      left. rewrite enter_chooses by done. destruct (js_at _ _) as [o|] eqn:Ho; [|by left].
      destruct (choose s o) as [next|] eqn:Hc; [|by left]. right. exists o, next.
      split; [by eapply listed_is_option|done].
    + right. unfold popover_onKeyDown. rewrite (bool_decide_eq_false_2 (key = "Enter")) by done.
      by repeat case_bool_decide.
  - destruct (po_open s); [|by right]. left. rewrite click_chooses.
    destruct (js_at _ _) as [o|] eqn:Ho; [|by left]. destruct (choose s o) as [next|] eqn:Hc; [|by left].
    right. exists o, next. split; [by eapply listed_is_option|]. split; [done|]. by destruct (commit s next).
Qed.

Definition value_changes (fx : list editor_effect) : list editor_effect :=
  List.filter (λ e, match e with Dom _ => false | _ => true end) fx.

Lemma value_changes_app fx fx' : value_changes (fx ++ fx') = value_changes fx ++ value_changes fx'.
Proof. apply List.filter_app. Qed.

(** Choosing an option by keyboard and by pointer is the same: Enter on the
    highlighted option of an open popover leaves the state, and tells the host, what
    a click on that option would, whichever group it is in and with the cap applied. *)
Theorem enter_is_click s :
  po_open s = true → ff_searchable field ≠ Some false → 0 <= po_highlighted s →
  (update s (PopoverKey "Enter")).1 = (update s (OptionChecked (po_highlighted s))).1 ∧
  value_changes (update s (PopoverKey "Enter")).2 = value_changes (update s (OptionChecked (po_highlighted s))).2.
Proof.
  intros Ho Hsearch Hh. unfold update, popover_machine, popover_update, popover_event.
  assert (Hs : (ff_searchable field ?? true) = true) by (destruct (ff_searchable field) as [[]|]; done).
  rewrite Ho, Hs. cbn [andb]. rewrite enter_chooses, click_chooses by done.
  assert (Hw : ∀ b, value_changes (when b [Dom PreventDefault]) = []) by by intros [].
  destruct (js_at _ _) as [o|]; [destruct (choose s o) as [next|]|].
  2,3: split; [done|]; cbn [fst snd]; by rewrite value_changes_app, Hw.
  destruct (commit s next) as [s1 fx]. cbn [fst snd]. split; [done|].
  rewrite value_changes_app, Hw. simpl. rewrite value_changes_app. simpl. apply app_nil_r.
Qed.

(** ** The highlight follows the search *)

Lemma reset_suffix s b1 b2 : highlightResetKey "" b1 = highlightResetKey s b2 → s = "" ∧ b1 = b2.
Proof.
  unfold highlightResetKey. intros Heq. destruct s as [|a s]; [by destruct b1, b2|]. exfalso.
  rewrite string_app_nil, string_app_cons in Heq. injection Heq as _ Heq.
  destruct b1; repeat (destruct s as [|? s]; [destruct b2; discriminate|]; rewrite string_app_cons in Heq;
    first [discriminate | injection Heq as _ Heq]).
Qed.

Lemma highlightResetKey_inj s1 b1 s2 b2 :
  highlightResetKey s1 b1 = highlightResetKey s2 b2 → s1 = s2 ∧ b1 = b2.
Proof.
  revert s2. induction s1 as [|a s1 IH]; intros s2 Heq.
  - apply reset_suffix in Heq. naive_solver.
  - destruct s2 as [|b s2]; [symmetry in Heq; apply reset_suffix in Heq; naive_solver|].
    unfold highlightResetKey in *. rewrite !string_app_cons in Heq. injection Heq as -> Heq.
    apply IH in Heq. naive_solver.
Qed.

Definition rendered (s : Popover) : Prop := po_prevKey s = highlightResetKey (po_search s) (po_open s).

Lemma event_prevKey s m : po_prevKey (popover_event s m).1 = po_prevKey s.
Proof.
  destruct (host_change m) eqn:Hm; [by destruct m|].
  destruct (event_chooses s m Hm) as [[->|(o & next & _ & _ & ->)]|(_ & _ & ->)]; [done| |done].
  unfold commit, updateValues. destruct (ff_onValueChange field); by destruct (isMultiSelect s).
Qed.

Lemma update_rendered s m : rendered s → rendered (update s m).1.
Proof. intros _. unfold update, popover_machine, popover_update. by destruct (popover_event s m). Qed.

(** The option highlight never survives a change of the list it counts in: in every
    reachable state, an event that changes the search text or opens or closes the
    popover leaves nothing highlighted; the key that detects the change is a string
    of both, and no two pairs share it. *)
Theorem highlight_resets values ms m :
  let s := (run (popover_init values) ms).1 in
  let s' := (update s m).1 in
  po_search s' ≠ po_search s ∨ po_open s' ≠ po_open s → po_highlighted s' = -1.
Proof.
  cbv zeta. intros Hchange.
  assert (Hr : rendered (run (popover_init values) ms).1).
  { apply (run_invariant rendered); [intros; by apply update_rendered|done]. }
  set (s := (run (popover_init values) ms).1) in *.
  unfold update, popover_machine, popover_update in *. pose proof (event_prevKey s m) as Hk.
  destruct (popover_event s m) as [s1 fx]. simpl in *. rewrite bool_decide_eq_false_2; [done|].
  rewrite Hk, Hr. intros Heq. apply highlightResetKey_inj in Heq. naive_solver.
Qed.

(** ** What the popover can make of a filter's values *)

(** The promise to the filter: no repeated value, only options on top of what was
    there, one value at most for a single choice, the cap otherwise. *)
Definition good_values (initial vs : list T) : Prop :=
  NoDup vs ∧ (∀ v, In v vs → In v initial ∨ In v (map fo_value (ff_options field ?? []))) ∧
  (ff_type field ≠ Some MultiselectType → js_length initial <= 1 → js_length vs <= 1) ∧
  (∀ m, ff_maxSelections field = Some (int m) → 1 <= m → js_length initial <= m → js_length vs <= m).

Lemma without_shorter (l : list T) v : js_length (without l v) <= js_length l.
Proof. unfold js_length, without. pose proof (filter_length_le (λ y, y !== v) l). lia. Qed.

Lemma over_max_int m next : ff_maxSelections field = Some (int m) → 1 <= m → over_max next = (m <? js_length next).
Proof.
  intros Hm H1. unfold over_max. rewrite Hm, lt_int, !num_eq_int, Z.eqb_refl.
  by destruct (Z.eqb_spec m 0); [lia|].
Qed.

Lemma choose_good initial s o next :
  po_fieldValue s = None → In o (ff_options field ?? []) → choose s o = Some next →
  good_values initial (po_values s) → good_values initial next.
Proof.
  intros Hf Ho Hc (Hnd & Hin & H1 & Hmax). unfold choose, effectiveValues in Hc. rewrite Hf in Hc. simpl in Hc.
  pose proof (without_shorter (po_values s) (fo_value o)) as Hw.
  assert (Hopt : In (fo_value o) (map fo_value (ff_options field ?? []))) by by apply in_map.
  destruct (includes (po_values s) (fo_value o)) eqn:Hi.
  { injection Hc as <-. split; [by apply NoDup_without|]. split; [intros v Hv; apply In_without in Hv; naive_solver|].
    split; [intros; specialize (H1 ltac:(done) ltac:(done)); lia|intros m Hm H1m Hl; specialize (Hmax m Hm H1m Hl); lia]. }
  apply includes_not_In in Hi. destruct (isMultiSelect s) eqn:Hmu.
  - destruct (over_max (po_values s ++ [fo_value o])) eqn:Hov; [done|]. injection Hc as <-. split.
    { apply NoDup_app. repeat split; [done| |apply NoDup_singleton].
      intros x Hx Hy%list_elem_of_singleton. subst. by apply Hi, list_elem_of_In. }
    split; [intros v [Hv|[<-|[]]]%in_app_iff; [by apply Hin|by right]|]. split.
    + intros Ht Hl. specialize (H1 Ht Hl). unfold isMultiSelect in Hmu.
      rewrite bool_decide_eq_false_2 in Hmu by done. apply Z.ltb_lt in Hmu. lia.
    + intros m Hm H1m Hl. rewrite (over_max_int m) in Hov by done. by apply Z.ltb_ge in Hov.
  - injection Hc as <-. split; [apply NoDup_singleton|]. split; [intros v [<-|[]]; by right|].
    unfold js_length; simpl. split; intros; lia.
Qed.

Lemma update_good initial s m :
  ff_onValueChange field = false → host_change m = false → po_fieldValue s = None → good_values initial (po_values s) →
  po_fieldValue (update s m).1 = None ∧ good_values initial (po_values (update s m).1).
Proof.
  intros Hcb Hm Hf Hg. unfold update, popover_machine, popover_update.
  pose proof (event_chooses s m Hm) as He. destruct (popover_event s m) as [s' fx]. simpl in *.
  destruct He as [[->|(o & next & Ho & Hc & ->)]|(-> & -> & _)]; [done| |done].
  pose proof (choose_good initial s o next Hf Ho Hc Hg) as Hn.
  unfold commit, updateValues. rewrite Hcb. by destruct (isMultiSelect s).
Qed.

(** The options popover keeps its promise to the filter over any sequence of user
    events: the values never repeat, nothing but the field's options is added, a
    single-choice filter holds at most one value, and the number of values never
    passes [maxSelections] once it is within it. *)
Theorem popover_bounds_selection values ms :
  ff_onValueChange field = false → ff_value field = None → NoDup values → forallb (λ m, negb (host_change m)) ms = true →
  good_values values (po_values (run (popover_init values) ms).1).
Proof.
  intros Hcb Hv Hnd Hms.
  assert (Hgen : ∀ s, po_fieldValue s = None → good_values values (po_values s) → good_values values (po_values (run s ms).1)).
  { clear Hnd. induction ms as [|m ms IH]; intros s Hf Hg; [done|]. simpl in Hms. apply andb_true_iff in Hms as [Hm Hms].
    apply negb_true_iff in Hm. rewrite run_cons. destruct (update_good values s m) as [Hf' Hg']; try done.
    by apply IH. }
  apply Hgen; [done|]. split; [done|]. split; [by left|]. split; intros; done.
Qed.

End Popover.

(** ** The row of a filter *)

Section Rows.
Context {T : Type}.

Inductive value_editor := CustomEditor | TextEditor (value : option T) (placeholder : option string) | OptionsEditor.

(** [FilterValueSelector]: which editor a filter gets, if any. *)
Definition FilterValueSelector (field : FilterFieldConfig (T := T)) (operator : string) (values : list T) : option value_editor :=
  if (operator === "empty") || (operator === "not_empty") then None
  else if ff_customRenderer field then Some CustomEditor
  else if ff_type field === Some TextType then Some (TextEditor (head values) (ff_placeholder field))
  else Some OptionsEditor.

Record filter_row := mkFilterRow {
  fr_id : string; fr_label : option string;
  fr_operators : string * list (string * bool * string); fr_editor : option value_editor; fr_autoFocus : bool }.

(** A name inherited from [Object.prototype] reads as a field without properties. *)
Definition blank_field : FilterFieldConfig (T := T) :=
  mkField None None None None None None None None None None None None None false None false.

(** The rows of [Filters] and [FiltersContent] (which passes no last-added filter). *)
Definition filter_rows (fields : list (FilterFieldConfig (T := T))) (lastAdded : option string)
    (filters : list (Filter (T := T))) : list filter_row :=
  flat_map (λ f,
    let show field :=
      [mkFilterRow (fl_id f) (ff_label field) (FilterOperatorDropdown field (fl_operator f) (fl_values f))
         (FilterValueSelector field (fl_operator f) (fl_values f)) (Some (fl_id f) === lastAdded)] in
    match js_get (getFieldsMap fields) (fl_field f) with
    | Own field => show field
    | Inherited => show blank_field
    | Missing => []
    end) filters.
Definition FiltersContent (fields : list (FilterFieldConfig (T := T))) (filters : list (Filter (T := T))) : list filter_row :=
  filter_rows fields None filters.

End Rows.

(** ** The submenu of options, composed with the menu *)

Section Submenu.
Context `{Locale} {T : Type} `{EqDecision T} (emptyText : T).
Context (fields : list (FilterFieldConfig (T := T))) (allowMultiple enableShortcut showSearchInput : bool) (shortcutKey : string).

Record Submenu := mkSubmenu {
  sb_search : string; sb_highlighted : Z; sb_kbNav : bool; sb_prevSearch : string; sb_prevActiveKey : bool * Z }.

Definition filteredOptions (field : FilterFieldConfig (T := T)) (cur : list T) (search : string) : list (FilterOption (T := T)) :=
  List.filter (λ o, if includes cur (fo_value o) || negb (truthy search) then true
                    else includes_str (toLowerCase (fo_label o)) (toLowerCase search)) (ff_options field ?? []).

(** The adjustments while rendering, from the props [isActive] and [currentValues]. *)
Definition submenu_adjust (field : FilterFieldConfig (T := T)) (isActive : bool) (cur : list T) (b : Submenu) : Submenu :=
  let n := js_length (filteredOptions field cur (sb_search b)) in
  let h1 := if sb_prevSearch b === sb_search b then sb_highlighted b else -1 in
  let h2 := if sb_prevActiveKey b === (isActive, n) then h1 else if isActive && (0 <? n) then 0 else h1 in
  mkSubmenu (sb_search b) h2 (sb_kbNav b) (sb_search b) (isActive, n).

Definition submenu_init (field : FilterFieldConfig (T := T)) (isActive : bool) (cur : list T) : Submenu :=
  mkSubmenu "" (-1) false "" (isActive, js_length (filteredOptions field cur "")).

(** The menu with the open submenu of the field [k]. *)
Record Picker := mkPicker { pk_menu : Menu (T := T); pk_sub : Submenu }.

Inductive picker_msg :=
| PickSearch (s : string)
| PickKey (key newId : string)
| PickOption (index : Z) (newId : string)
| MenuMsg (m : menu_msg (T := T)).

#[local] Abbreviation the_row := (row fields allowMultiple).
#[local] Abbreviation on_menu := (menu_event emptyText fields allowMultiple enableShortcut showSearchInput shortcutKey).
#[local] Abbreviation adjust_menu := (render_adjust fields allowMultiple).

(** [onToggle], then [onBack] for a single choice. *)
Definition handleOptionToggle (s : Menu) (field : FilterFieldConfig (T := T)) (k : string) (o : FilterOption (T := T))
    (newId : string) : Menu :=
  let s1 := (on_menu s (OptionToggled k (fo_value o) (includes (currentValues s k) (fo_value o)) newId)).1 in
  if ff_type field === Some MultiselectType then s1 else (on_menu s1 SubBack).1.

Definition set_sub_option (b : Submenu) (h : Z) : Submenu :=
  mkSubmenu (sb_search b) h true (sb_prevSearch b) (sb_prevActiveKey b).

Definition submenu_keyDown (s : Menu) (b : Submenu) (field : FilterFieldConfig (T := T)) (k key newId : string) :
    Menu * Submenu * list effect :=
  let opts := filteredOptions field (currentValues s k) (sb_search b) in
  let n := js_length opts in
  if key === "ArrowDown" then (s, set_sub_option b (next_down n (sb_highlighted b)), [PreventDefault; StopPropagation])
  else if key === "ArrowUp" then (s, set_sub_option b (next_up n (sb_highlighted b)), [PreventDefault; StopPropagation])
  else if key === "ArrowLeft" then ((on_menu s SubBack).1, b, [PreventDefault; StopPropagation])
  else if (key === "Enter") && (0 <=? sb_highlighted b) then
    (match js_at opts (sb_highlighted b) with
     | Some o => handleOptionToggle s field k o newId
     | None => s
     end, b, [PreventDefault; StopPropagation])
  else if key === "Escape" then ((on_menu s SubClose).1, b, [PreventDefault; StopPropagation])
  else (s, b, [StopPropagation]).

(** The submenu of [k] is on the page when its row is and it is the open one. *)
Definition submenu_mounted (s : Menu) (k : string) : option (FilterFieldConfig (T := T)) :=
  if mn_sub s === Some k then the_row s k true else None.

(** An event of the submenu, before the render that follows. *)
Definition picker_event (p : Picker) (k : string) (m : picker_msg) : Picker * list effect :=
  let s := pk_menu p in
  let b := pk_sub p in
  match m, submenu_mounted s k with
  | MenuMsg m, _ => let '(s', fx) := on_menu s m in (mkPicker s' b, fx)
  | PickSearch v, Some field =>
      (if (ff_searchable field ?? true)
       then mkPicker s (mkSubmenu v (sb_highlighted b) (sb_kbNav b) (sb_prevSearch b) (sb_prevActiveKey b)) else p, [])
  | PickKey key newId, Some field =>
      let '(s', b', fx) := submenu_keyDown s b field k key newId in (mkPicker s' b', fx)
  | PickOption i newId, Some field =>
      (mkPicker (match js_at (filteredOptions field (currentValues s k) (sb_search b)) i with
                 | Some o => handleOptionToggle s field k o newId
                 | None => s
                 end) b, when (ff_type field === Some MultiselectType) [PreventDefault])
  | _, None => (p, [])
  end.

(** The render: the menu adjusts, and the submenu starts afresh when it appears. *)
Definition picker_update (k : string) (p : Picker) (m : picker_msg) : Picker * list effect :=
  let '(p', fx) := picker_event p k m in
  let s := adjust_menu (pk_menu p') in
  (mkPicker s
     match submenu_mounted s k with
     | Some field =>
         let b := match submenu_mounted (pk_menu p) k with
                  | Some _ => pk_sub p'
                  | None => submenu_init field (mn_active s === k) (currentValues s k)
                  end in
         submenu_adjust field (mn_active s === k) (currentValues s k) b
     | None => pk_sub p'
     end, fx).

#[local] Instance picker_machine (k : string) : Machine Picker picker_msg effect := picker_update k.

(** ** A session of the submenu *)

Definition new_ids (m : picker_msg) : list string :=
  match m with PickKey _ newId => [newId] | PickOption _ newId => [newId] | _ => [] end.
Definition of_submenu (m : picker_msg) : bool := match m with MenuMsg _ => false | _ => true end.

Lemma filtered_is_option field cur search i o :
  js_at (filteredOptions field cur search) i = Some o → In o (ff_options field ?? []).
Proof. intros Ho%js_at_In. by apply filter_In in Ho as [Ho _]. Qed.

(** What an event of the submenu does to the menu. *)
Lemma picker_menu_cases k p m :
  of_submenu m = true →
  ∃ s', pk_menu (@update _ _ _ (picker_machine k) p m).1 = adjust_menu s' ∧
    (s' = pk_menu p ∨ s' = (on_menu (pk_menu p) SubBack).1 ∨ s' = (on_menu (pk_menu p) SubClose).1 ∨
     ∃ field o newId, submenu_mounted (pk_menu p) k = Some field ∧ In o (ff_options field ?? []) ∧ In newId (new_ids m) ∧
       s' = handleOptionToggle (pk_menu p) field k o newId).
Proof.
  intros Hm. exists (pk_menu (picker_event p k m).1). split.
  { unfold update, picker_machine, picker_update. by destruct (picker_event p k m). }
  unfold picker_event. destruct (submenu_mounted (pk_menu p) k) as [field|]; [|destruct m; [by left..|done]].
  destruct m as [v|key newId|i newId|]; [left; by destruct (ff_searchable field ?? true)| | |done].
  - unfold submenu_keyDown. destruct (key === "ArrowDown"), (key === "ArrowUp"), (key === "ArrowLeft"); try by eauto.
    destruct ((key === "Enter") && _); [|destruct (key === "Escape"); by eauto].
    destruct (js_at _ _) as [o|] eqn:Ho; [|by eauto]. do 3 right. exists field, o, newId.
    split_and!; [done|by eapply filtered_is_option|by left|done].
  - destruct (js_at _ i) as [o|] eqn:Ho; [|by left]. do 3 right. exists field, o, newId.
    split_and!; [done|by eapply filtered_is_option|by left|done].
Qed.

Lemma session_built_ext (base : list (Filter (T := T))) k op ids sel (s s' : Menu (T := T)) :
  mn_filters s' = mn_filters s → mn_session s' = mn_session s →
  session_built base k op ids sel s → session_built base k op ids sel s'.
Proof. unfold session_built, session_filter. by intros -> ->. Qed.

Lemma session_built_mono (base : list (Filter (T := T))) k op ids ids' sel (s : Menu (T := T)) :
  (∀ id, In id ids → In id ids') → session_built base k op ids sel s → session_built base k op ids' sel s.
Proof. intros Hi Hs. destruct sel; [done|]. destruct Hs as (id & Hin & Hs). exists id. naive_solver. Qed.

(** The state of a session: the filter built so far, and the row or its absence. *)
Definition session_ok (base : list (Filter (T := T))) (field : FilterFieldConfig (T := T)) (k : string)
    (ids : list string) (s : Menu) : Prop :=
  (the_row s k true = Some field ∨ the_row s k true = None) ∧
  ∃ sel, session_built base k (ff_defaultOperator field ?? "is_any_of") ids sel s ∧ NoDup sel ∧
         (∀ v, In v sel → In v (map fo_value (ff_options field ?? []))).

Lemma session_ok_step base field k ids p m :
  allowMultiple = true → ff_type field = Some MultiselectType → of_submenu m = true →
  (∀ id, In id (new_ids m ++ ids) → truthy id = true ∧ ¬ In id (map fl_id base)) →
  session_ok base field k ids (pk_menu p) →
  session_ok base field k (new_ids m ++ ids) (pk_menu (@update _ _ _ (picker_machine k) p m).1).
Proof.
  intros Hmul Ht Hm Hids [Hrow (sel & Hb & Hnd & Hopt)].
  assert (Hmono : session_built base k (ff_defaultOperator field ?? "is_any_of") (new_ids m ++ ids) sel (pk_menu p)).
  { eapply session_built_mono; [|done]. intros id Hid. apply in_app_iff. by right. }
  destruct (picker_menu_cases k p m Hm) as (s' & -> & [->|[->|[->|(f & o & newId & Hmt & Ho & Hid & ->)]]]).
  - split; [|exists sel; split; [by eapply session_built_ext|done]].
    by rewrite (row_ext fields allowMultiple (pk_menu p)).
  - split; [|exists sel; split; [by eapply session_built_ext|done]].
    by rewrite (row_ext fields allowMultiple (pk_menu p)).
  - split; [right|exists sel; split; [by eapply session_built_ext|done]].
    unfold row, content_mounted. simpl. by rewrite andb_false_r.
  - assert (Hf : f = field ∧ the_row (pk_menu p) k true = Some field).
    { unfold submenu_mounted in Hmt. case_bool_decide; [|done]. destruct Hrow as [Hr|Hr]; rewrite Hr in Hmt; [|done].
      split; [by injection Hmt|done]. }
    destruct Hf as [-> Hr]. unfold handleOptionToggle. rewrite Ht, bool_decide_eq_true_2 by done.
    set (v := fo_value o). set (b := includes _ v).
    pose proof (session_row emptyText fields allowMultiple enableShortcut showSearchInput shortcutKey
                  (pk_menu p) k field v b newId Hmul Hr Ht) as Hr'.
    pose proof (session_step emptyText fields allowMultiple enableShortcut showSearchInput shortcutKey
                  base k field _ ids sel (pk_menu p) v newId Hr Ht eq_refl) as Hs.
    unfold update, menu_machine, menu_update in Hr', Hs. fold v b in Hs.
    destruct (on_menu (pk_menu p) (OptionToggled k v b newId)) as [s1 fx]. simpl in *.
    split; [by left|]. exists (js_toggle sel v). split; [|split; [by apply NoDup_js_toggle|]].
    + eapply session_built_mono; [|apply Hs; [|done]].
      * intros id [<-|Hin]; apply in_app_iff; [by left|by right].
      * intros id [<-|Hin]; apply Hids, in_app_iff; [by left|by right].
    + intros x Hx. apply includes_In in Hx. rewrite includes_js_toggle in Hx.
      destruct (includes sel x) eqn:Hi; [by apply Hopt, includes_In|]. case_bool_decide; [|done]. subst x. by apply in_map.
Qed.

(** Where a field may be filtered more than once: picking options through the submenu of a
    multiple-choice field that has no filter of this session yet, by pointer or keyboard and with
    any searching in between, builds one filter: the filters there before stay as they
    were, followed by nothing or by one filter of the field whose values are
    distinct options of it. *)
Theorem submenu_builds_one_filter k field p ms :
  allowMultiple = true → the_row (pk_menu p) k true = Some field → ff_type field = Some MultiselectType →
  session_filter (pk_menu p) k = None → forallb of_submenu ms = true →
  (∀ id, In id (flat_map new_ids ms) → truthy id = true ∧ ¬ In id (map fl_id (mn_filters (pk_menu p)))) →
  let base := mn_filters (pk_menu p) in
  let final := mn_filters (pk_menu (@run _ _ _ (picker_machine k) p ms).1) in
  final = base ∨
  ∃ id sel, final = base ++ [mkFilter id k (ff_defaultOperator field ?? "is_any_of") sel] ∧ sel ≠ [] ∧ NoDup sel ∧
            (∀ v, In v sel → In v (map fo_value (ff_options field ?? []))).
Proof.
  intros Hmul Hrow Ht Hnone Hms Hids. cbv zeta. set (base := mn_filters (pk_menu p)) in *.
  assert (Hgen : ∀ base ms ids p, forallb of_submenu ms = true →
    (∀ id, In id (flat_map new_ids ms ++ ids) → truthy id = true ∧ ¬ In id (map fl_id base)) →
    session_ok base field k ids (pk_menu p) → ∃ ids', session_ok base field k ids' (pk_menu (@run _ _ _ (picker_machine k) p ms).1)).
  { clear p Hrow Hnone base Hids ms Hms. intros base ms. induction ms as [|m ms IH]; intros ids p Hms Hids Hok; [by exists ids|].
    simpl in Hms. apply andb_true_iff in Hms as [Hm Hms]. rewrite run_cons. cbn [fst].
    apply (IH (new_ids m ++ ids)); [done| |].
    - intros id Hin. apply Hids. simpl. rewrite !in_app_iff in *. tauto.
    - apply session_ok_step; [done..| |done]. intros id Hin. apply Hids. simpl. rewrite !in_app_iff in *. tauto. }
  destruct (Hgen base ms [] p Hms) as (ids & _ & sel & Hb & Hnd & Hopt).
  - intros id Hin. rewrite app_nil_r in Hin. by apply Hids.
  - split; [by left|]. exists []. split; [done|]. split; [constructor|done].
  - destruct sel as [|x sel]; [left; by destruct Hb|right]. destruct Hb as (id & _ & Hfs & _).
    exists id, (x :: sel). done.
Qed.

End Submenu.

(** ** Instances *)

(** A tag field with at most one selection, and a picker on the open submenu of the
    two-field menu. *)
Definition capped_field : FilterFieldConfig (T := string) :=
  mkField (Some "tag") (Some "Tag") (Some MultiselectType) None None
    (Some [mkFilterOption "a" "A"; mkFilterOption "b" "B"]) None None None
    None (Some (int 1)) None None false None false.
Definition demo_picker : Picker (T := string) :=
  mkPicker (@run _ _ _ (@menu_machine ascii_locale string _ "" [tag_field; name_field] true false true "f")
              (@menu_init ascii_locale string [tag_field; name_field] true [old_filter])
              [MenuOpenChange true; SubOpenChange "tag" true]).1
           (@submenu_init ascii_locale string _ tag_field false []).
Definition demo_picks : list (picker_msg (T := string)) :=
  [PickKey "ArrowDown" "2"; PickKey "Enter" "3"; PickSearch "b"; PickOption 1 "4"].

Lemma popover_bounds_selection_witness :
  let s := (@run _ _ _ (@popover_machine ascii_locale string _ capped_field) (popover_init capped_field [])
              [PopoverOpenChange true; OptionChecked 1; OptionChecked 1]).1 in
  po_values s = ["b"] ∧ js_length (po_values s) <= 1.
Proof.
  split; [by vm_compute|].
  destruct (@popover_bounds_selection ascii_locale string _ capped_field []
    [PopoverOpenChange true; OptionChecked 1; OptionChecked 1] eq_refl eq_refl ltac:(constructor) eq_refl) as (_ & _ & _ & Hmax).
  apply (Hmax 1); [done|lia|done].
Defined.

Lemma enter_is_click_witness :
  let m := @popover_machine ascii_locale string _ tag_field in
  let s := (@run _ _ _ m (popover_init tag_field ["a"]) [PopoverOpenChange true; PopoverKey "ArrowUp"]).1 in
  po_values (@update _ _ _ m s (PopoverKey "Enter")).1 = ["a"; "b"] ∧
  (@update _ _ _ m s (PopoverKey "Enter")).1 = (@update _ _ _ m s (OptionChecked (po_highlighted s))).1.
Proof.
  split; [by vm_compute|].
  apply (@enter_is_click ascii_locale string _ tag_field); [by vm_compute|done|by vm_compute].
Defined.

Lemma highlight_resets_witness :
  let m := @popover_machine ascii_locale string _ tag_field in
  let s := (@run _ _ _ m (popover_init tag_field []) [PopoverOpenChange true; PopoverKey "ArrowDown"]).1 in
  po_highlighted s = 0 ∧ po_highlighted (@update _ _ _ m s (PopoverSearch "b")).1 = -1.
Proof.
  split; [by vm_compute|].
  apply (@highlight_resets ascii_locale string _ tag_field [] [PopoverOpenChange true; PopoverKey "ArrowDown"] (PopoverSearch "b")).
  left. by vm_compute.
Defined.

Lemma submenu_builds_one_filter_witness :
  let m := @picker_machine ascii_locale string _ "" [tag_field; name_field] true false true "f" "tag" in
  mn_filters (pk_menu (@run _ _ _ m demo_picker demo_picks).1) = [old_filter; mkFilter "3" "tag" "is_any_of" ["a"; "b"]] ∧
  ∃ id sel, mn_filters (pk_menu (@run _ _ _ m demo_picker demo_picks).1) = [old_filter; mkFilter id "tag" "is_any_of" sel] ∧ NoDup sel.
Proof.
  split; [by vm_compute|].
  destruct (@submenu_builds_one_filter ascii_locale string _ "" [tag_field; name_field] true false true "f" "tag" tag_field
    demo_picker demo_picks) as [Hsame|(id & sel & Hfin & _ & Hnd & _)]; [by vm_compute..| | |].
  - intros id Hid. split; [|intros Hin; vm_compute in Hin; destruct Hin as [Hin|[]]; rewrite <- Hin in Hid];
      destruct Hid as [Hid|[Hid|[Hid|[]]]]; try (rewrite <- Hid); done.
  - by vm_compute in Hsame.
  - exists id, sel. split; [exact Hfin|exact Hnd].
Defined.
