(* ===== verification/FilterLabels.v ===== *)
(** * The labels of the filter builder

    Models the configuration of [web/components/filters.tsx]: [FilterI18nConfig] with its
    defaults, how [Filters] merges what a caller overrides, the context with its size
    and variants, and the operator lists made from the labels. [Filters] and [FilterEditors]
    work on the default labels; this file shows that other labels change nothing but the text. *)
From stdpp Require Import base list strings.
From Stdlib Require Import ZArith Lia Ascii.
From S2P Require Import Prelude JsString View Ui Filters FilterEditors.
#[local] Open Scope string_scope.
#[local] Open Scope list_scope.
#[local] Open Scope Z_scope.

(** An object of texts. A spread writes the keys of the second over those of the first. *)
Definition Labels := list (string * string).
Definition spread (base over : Labels) : Labels := over ++ base.
Definition label (l : Labels) (key : string) : option string := snd <$> List.find (λ e, e.1 === key) l.

Section Labels.
Context `{Locale}.

Record FilterI18nConfig := mkI18n {
  i18n_texts : Labels; i18n_operators : Labels; i18n_placeholders : Labels;
  enterField : string → string; searchField : string → string;
  i18n_formatOperator : string → string; i18n_validation : Labels }.

Definition DEFAULT_I18N : FilterI18nConfig := mkI18n
  [("addFilter", "Filter"); ("searchFields", "Filter..."); ("noFieldsFound", "No filters found.");
   ("noResultsFound", "No results found."); ("select", "Select..."); ("true", "True"); ("false", "False");
   ("min", "Min"); ("max", "Max"); ("to", "to"); ("typeAndPressEnter", "Type and press Enter to add tag");
   ("selected", "selected"); ("selectedCount", "selected"); ("percent", "%"); ("defaultCurrency", "$");
   ("defaultColor", "#000000"); ("addFilterTitle", "Add filter")]
  [("is", "is"); ("isNot", "is not"); ("isAnyOf", "is any of"); ("isNotAnyOf", "is not any of");
   ("includesAll", "includes all"); ("excludesAll", "excludes all"); ("before", "before"); ("after", "after");
   ("between", "between"); ("notBetween", "not between"); ("contains", "contains"); ("notContains", "does not contain");
   ("startsWith", "starts with"); ("endsWith", "ends with"); ("isExactly", "is exactly"); ("equals", "equals");
   ("notEquals", "not equals"); ("greaterThan", "greater than"); ("lessThan", "less than"); ("overlaps", "overlaps");
   ("includes", "includes"); ("excludes", "excludes"); ("includesAllOf", "includes all of");
   ("includesAnyOf", "includes any of"); ("empty", "is empty"); ("notEmpty", "is not empty")]
  [("selectField", "Select..."); ("enterKey", "Enter key..."); ("enterValue", "Enter value...")]
  (λ fieldType, "Enter " +:+ fieldType +:+ "...")
  (λ fieldName, "Search " +:+ toLowerCase fieldName +:+ "...")
  (replace_all "_"%char " "%char)
  [("invalidEmail", "Invalid email format"); ("invalidUrl", "Invalid URL format"); ("invalidTel", "Invalid phone format");
   ("invalid", "Invalid input format")].

(** What a caller may give: any part of it. *)
Record PartialI18n := mkPartial {
  over_texts : Labels; over_operators : Labels; over_placeholders : Labels;
  over_enterField : option (string → string); over_searchField : option (string → string);
  over_formatOperator : option (string → string); over_validation : Labels }.
Definition no_override : PartialI18n := mkPartial [] [] [] None None None [].

Definition mergedI18n (i18n : PartialI18n) : FilterI18nConfig :=
  mkI18n (spread (i18n_texts DEFAULT_I18N) (over_texts i18n))
    (spread (i18n_operators DEFAULT_I18N) (over_operators i18n))
    (spread (i18n_placeholders DEFAULT_I18N) (over_placeholders i18n))
    (over_enterField i18n ?? enterField DEFAULT_I18N) (over_searchField i18n ?? searchField DEFAULT_I18N)
    (over_formatOperator i18n ?? i18n_formatOperator DEFAULT_I18N)
    (spread (i18n_validation DEFAULT_I18N) (over_validation i18n)).

(** [FilterContext] and its default value. *)
Record FilterContextValue := mkFilterContext {
  fc_variant : string; fc_size : string; fc_radius : string; fc_i18n : FilterI18nConfig; fc_className : option string;
  fc_showSearchInput : option bool; fc_allowMultiple : option bool }.
Definition FilterContext : FilterContextValue :=
  mkFilterContext "default" "default" "default" DEFAULT_I18N None (Some true) (Some true).

Definition filtersContainerVariants : Variants :=
  [("variant", ["solid"; "default"], "default"); ("size", ["sm"; "default"; "lg"], "default")].
Definition filterControlHeight (size : string) : option string :=
  label [("sm", "h-6!"); ("default", "h-7!"); ("lg", "h-8!")] size.

(** A label that is missing renders as nothing. *)
Definition operator_label (i18n : FilterI18nConfig) (key : string) : string := label (i18n_operators i18n) key ?? "".

Definition createOperatorsFromI18n (i18n : FilterI18nConfig) : list (string * list FilterOperator) :=
  let op value key := mkOperator value (operator_label i18n key) in
  [("select", [op "is" "is"; op "is_not" "isNot"; op "empty" "empty"; op "not_empty" "notEmpty"]);
   ("multiselect", [op "is_any_of" "isAnyOf"; op "is_not_any_of" "isNotAnyOf"; op "includes_all" "includesAll";
                    op "excludes_all" "excludesAll"; op "empty" "empty"; op "not_empty" "notEmpty"]);
   ("text", [op "contains" "contains"; op "not_contains" "notContains"; op "starts_with" "startsWith";
             op "ends_with" "endsWith"; op "is" "isExactly"; op "empty" "empty"; op "not_empty" "notEmpty"]);
   ("custom", [op "is" "is"; op "after" "after"; op "between" "between"; op "empty" "empty"; op "not_empty" "notEmpty"])].

Definition DEFAULT_OPERATORS := createOperatorsFromI18n DEFAULT_I18N.

Definition type_name (t : field_type) : string :=
  match t with
  | SelectType => "select" | MultiselectType => "multiselect" | TextType => "text" | CustomType => "custom"
  | SeparatorType => "separator"
  end.
Definition operators_of (ops : list (string * list FilterOperator)) (name : string) : option (list FilterOperator) :=
  snd <$> List.find (λ e, e.1 === name) ops.

(** [getOperatorsForField(field, values, i18n)]. *)
Definition operators_in {T} (i18n : FilterI18nConfig) (f : FilterFieldConfig (T := T)) (values : list T) : list FilterOperator :=
  match ff_operators f with
  | Some ops => ops
  | None =>
      let operators := createOperatorsFromI18n i18n in
      let type := ff_type f ?? SelectType in
      let type := if (type === SelectType) && (1 <? js_length values) then MultiselectType else type in
      if type === MultiselectType then operators_of operators "multiselect" ?? []
      else operators_of operators (type_name type) ?? (operators_of operators "select" ?? [])
  end.

(** The text of the operator a filter has. *)
Definition label_in {T} (i18n : FilterI18nConfig) (f : FilterFieldConfig (T := T)) (operator : string) (values : list T) : string :=
  match List.find (λ item, fop_value item === operator) (operators_in i18n f values) with
  | Some item => fop_label item
  | None => i18n_formatOperator i18n operator
  end.

(** ** Labels are only text *)

Lemma label_spread base over key :
  label (spread base over) key = match label over key with Some v => Some v | None => label base key end.
Proof. unfold label, spread. induction over as [|[k v] over IH]; [done|]. cbn. by destruct (k === key). Qed.

(** Every text a caller overrides is the caller's, every other one is the default, so no key
    ever is without a text; and without overrides it is the default configuration. *)
Theorem merged_labels (i18n : PartialI18n) key :
  label (i18n_texts (mergedI18n i18n)) key =
    match label (over_texts i18n) key with Some v => Some v | None => label (i18n_texts DEFAULT_I18N) key end ∧
  (In key (map fst (i18n_operators DEFAULT_I18N)) → is_Some (label (i18n_operators (mergedI18n i18n)) key)) ∧
  mergedI18n no_override = DEFAULT_I18N.
Proof.
  split_and!; [apply label_spread| |done].
  intros Hin. cbn [mergedI18n i18n_operators]. rewrite label_spread. destruct (label (over_operators i18n) key); [done|].
  apply in_map_iff in Hin as ([k v] & <- & Hin). unfold label.
  destruct (List.find _ _) as [e|] eqn:He; [done|]. apply (find_none _ _ He) in Hin. cbn in Hin.
  by apply bool_decide_eq_false in Hin.
Qed.

(** The builder's operators under the default labels are those of [Filters], and other
    labels offer the same operators in the same order. *)
Theorem labels_keep_operators {T} (i18n : FilterI18nConfig) (f : FilterFieldConfig (T := T)) (values : list T) operator :
  operators_in DEFAULT_I18N f values = getOperatorsForField f values ∧
  label_in DEFAULT_I18N f operator values = operatorLabel f operator values ∧
  map fop_value (operators_in i18n f values) = map fop_value (getOperatorsForField f values).
Proof.
  assert (Hd : operators_in DEFAULT_I18N f values = getOperatorsForField f values).
  { unfold operators_in, getOperatorsForField. destruct (ff_operators f); [done|].
    destruct (ff_type f ?? SelectType); [destruct (1 <? js_length values)|..]; reflexivity. }
  split_and!; [done|unfold label_in, operatorLabel; by rewrite Hd|].
  unfold operators_in, getOperatorsForField. destruct (ff_operators f); [done|].
  destruct (ff_type f ?? SelectType); [destruct (1 <? js_length values)|..]; reflexivity.
Qed.

End Labels.
