(* ===== verification/Frame.v ===== *)
(** * The signed-in frame of the web client

    Composes the parts the other files model into [web/app/(app)/layout.tsx]:
    the gate of [Session], the rail and the context bar of [Nav], the jumper of
    [Controls], and the slot of [web/components/app/chrome-actions.tsx] through
    which a page puts its actions into the bar. Clicks bubble through the rail
    as React dispatches them, [SpineProvider] runs over the browser's cookie
    jar, and the placeholder pages are listed with their routes. *)
From stdpp Require Import base list strings.
From Stdlib Require Import ZArith Lia.
From S2P Require Import Prelude JsString Proto View Nav Session Controls.
#[local] Open Scope string_scope.
#[local] Open Scope list_scope.
#[local] Open Scope Z_scope.

(** ** Clicks on the rail

    An element is reached by the positions of the children on the way to it; a
    click on it meets the elements from there up to the root. A dropdown's
    content is rendered into a portal; React dispatches along its own tree, in
    which the content stays below the component that renders it. *)

Section Bubbling.
Context {M : Type}.

Fixpoint ancestry (v : view M) (path : list nat) : option (list (string * list (attr M))) :=
  match v with
  | Text _ => None
  | El tag attrs kids =>
      match path with
      | [] => Some [(tag, attrs)]
      | i :: path' =>
          match option_map (λ k, ancestry k path') (kids !! i) with
          | Some (Some up) => Some (up ++ [(tag, attrs)])
          | _ => None
          end
      end
  end.

End Bubbling.

(** A [next/link] navigates on the client when its click handler runs. *)
Definition followed {M} (tag : string) (attrs : list (attr M)) : list effect :=
  match attr_value "href" attrs with
  | Some h => when (tag === "Link") [RouterPush h]
  | None => []
  end.

Definition stops (fx : list effect) : bool :=
  existsb (λ e, match e with StopPropagation => true | _ => false end) fx.

(** The handlers on the way run from the inside out until one stops the event. *)
Fixpoint bubble (rendered expanded : bool) (chain : list (string * list (attr spine_msg)))
    : bool * list effect :=
  match chain with
  | [] => (expanded, [])
  | (tag, attrs) :: up =>
      let '(e, fx) := match click_message attrs with
                      | Some m => spine_update rendered expanded m
                      | None => (expanded, [])
                      end in
      let here := fx ++ followed tag attrs in
      if stops fx then (e, here)
      else let '(e', rest) := bubble rendered e up in (e', here ++ rest)
  end.

Definition rail_click `{Locale} (pathname : string) (data : option GetSessionResponse)
    (path : list nat) (expanded : bool) : bool * list effect :=
  match ancestry (AppSpine pathname expanded data) path with
  | Some chain => bubble expanded expanded chain
  | None => (expanded, [])
  end.

(** ** The slot of the page's actions ([chrome-actions.tsx]) *)

(** The element the slot has registered, if any; React calls the slot's ref
    with the element when it mounts and with null when it unmounts. *)
Definition SetSlotNode (el : option string) (node : option string) : option string := el.

Section Slot.
Context {M : Type}.

Definition ChromeActionsSlot : view M := El "div" [Attr "ref" "setNode"] [].

(** Nothing inline: without a slot nothing at all, else a portal into it. *)
Definition ChromeActions (node : option string) (kids : list (view M)) : list (view M) :=
  match node with
  | None => []
  | Some id => [El "Portal" [Attr "container" id] kids]
  end.

(** [AppContextPanel] renders nothing. *)
Definition AppContextPanel : list (view M) := [].

End Slot.

(** ** The shell *)

(** The providers' state: the rail, the slot, the jumper of the bar, the
    published leaf, and the browser's cookies. *)
Record Shell := mkShell {
  sh_expanded : bool;
  sh_slot : option string;
  sh_search : SearchState;
  sh_leaf : LeafStore;
  sh_jar : list (string * string) }.

Definition set_rail (s : Shell) (e : bool) (fx : list effect) : Shell :=
  mkShell e (sh_slot s) (sh_search s) (sh_leaf s) (apply_cookies (sh_jar s) fx).

(** What happens to the shell: the document loads (every state is new but the
    cookies; the mount effect restores the rail), an element of the rail is
    clicked, a key reaches the window, the jumper is used, a page publishes its
    name, the slot mounts or unmounts. *)
Inductive shell_msg :=
| Load
| RailClick (pathname : string) (data : option GetSessionResponse) (path : list nat)
| WindowKeyDown (e : KeyEvent)
| SearchMsg (m : search_msg)
| LeafEvent (e : leaf_event)
| SlotRef (el : option string).

Definition shell_load (jar : list (string * string)) : Shell :=
  mkShell (restoreExpanded (cookie_string jar) false) None (mkSearch "" false) leaf_init jar.

Section Shell.
Context `{Locale}.

(** Both window listeners see a key, the jumper's and the provider's. *)
#[export] Instance shell_step : Machine Shell shell_msg effect := λ s m,
  match m with
  | Load => (shell_load (sh_jar s), [])
  | RailClick pathname data path =>
      let '(e, fx) := rail_click pathname data path (sh_expanded s) in (set_rail s e fx, fx)
  | WindowKeyDown ev =>
      let '(sr, fx1) := search_update (sh_search s) (Controls.WindowKey ev) in
      let '(e, fx2) := spine_onKey (sh_expanded s) (metaKey ev) (ctrlKey ev) (key ev) in
      (set_rail (mkShell (sh_expanded s) (sh_slot s) sr (sh_leaf s) (sh_jar s)) e fx2, fx1 ++ fx2)
  | SearchMsg m =>
      let '(sr, fx) := search_update (sh_search s) m in
      (mkShell (sh_expanded s) (sh_slot s) sr (sh_leaf s) (sh_jar s), fx)
  | LeafEvent ev =>
      (mkShell (sh_expanded s) (sh_slot s) (sh_search s) (leaf_step (sh_leaf s) ev) (sh_jar s), [])
  | SlotRef el =>
      (mkShell (sh_expanded s) (SetSlotNode el (sh_slot s)) (sh_search s) (sh_leaf s) (sh_jar s), [])
  end.

End Shell.

(** The messages of the parts of the frame. *)
Inductive frame_msg (P : Type) := OnRail (m : spine_msg) | OnSearch (m : search_msg) | OnPage (m : P).
Arguments OnRail {P} m.
Arguments OnSearch {P} m.
Arguments OnPage {P} m.

Definition AppLayout `{Locale} {P} (q : query GetSessionResponse) (pathname : string)
    (matches : string → NavItem → bool) (s : Shell) (children : view P)
    : view (gate_msg (frame_msg P)) :=
  AppGate q (map_view Child
    (El "div" []
       [map_view OnRail (AppSpine pathname (sh_expanded s) (q_data q));
        El "div" []
          [AppContextBar pathname (useBreadcrumbLeaf false (sh_leaf s)) ChromeActionsSlot
             (map_view OnSearch (AppSearch matches (sh_search s)));
           El "div" [] (AppContextPanel ++ [El "main" [] [map_view OnPage children]])]])).

(** ** The placeholder pages *)

Section Placeholders.
Context `{Locale} {M : Type}.

Definition HomePage : view M := ComingSoon "Home".
Definition BookPage : view M := ComingSoon "Book".
Definition BookEntryPage : view M := ComingSoon "Book".
Definition AskPage : view M := ComingSoon "Ask".
Definition AccessPage : view M := ComingSoon "Access".
Definition AccountPage : view M := ComingSoon "Account".
Definition EntitiesPage : view M := ComingSoon "Entities".
Definition ReviewPage : view M := ComingSoon "Review".
Definition UsagePage : view M := ComingSoon "Usage".

(** The pages with their routes (every entry of the book has the same page). *)
Definition placeholders : list (string * view M) :=
  [("/home", HomePage); ("/book", BookPage); ("/ask", AskPage); ("/access", AccessPage);
   ("/account", AccountPage); ("/entities", EntitiesPage); ("/review", ReviewPage); ("/usage", UsagePage)].

End Placeholders.

(** ** The root of the document and the page of an unknown route *)

Section Root.
Context {M : Type}.
Implicit Types children : view M.

(** [components/providers.tsx] supplies the transport and the query client
    (their settings are in [Session]). *)
Definition Providers children : view M :=
  El "TransportProvider" [] [El "QueryClientProvider" [] [children]].

Definition RootLayout children : view M :=
  El "html" [Attr "lang" "en"]
    [El "body" []
       [Providers
          (El "ThemeProvider" []
             [El "TooltipProvider" [Attr "delayDuration" "150"] [children];
              El "Toaster" [Attr "position" "bottom-center"] []])]].

Definition NotFoundPage : view M :=
  El "main" []
    [El "h1" [] [Text "Page not found"];
     El "p" [] [Text "That page doesn’t exist."];
     El "Button" [BoolAttr "asChild" true] [El "Link" [Attr "href" "/"] [Text "Go home"]]].

End Root.

(** ** What a click on the rail does *)

Definition tag_in {M} (tag : string) (chain : list (string * list (attr M))) : bool :=
  existsb (λ e, e.1 === tag) chain.

(** The targets of the links a click meets, innermost first. *)
Definition targets {M} (chain : list (string * list (attr M))) : list string :=
  concat (map (λ '(t, a), match attr_value "href" a with Some h => when (t === "Link") [h] | None => [] end) chain).

(** What a click means by where it lands: a link goes to its target; on the
    collapsed rail everything opens it but the links and the menu triggers that
    are not inside a menu; on the open rail only the fold button closes it. *)
Definition keeps_collapsed {M} (chain : list (string * list (attr M))) : bool :=
  negb (tag_in "DropdownMenuContent" chain) && (tag_in "Link" chain || tag_in "DropdownMenuTrigger" chain).

Definition pushes (fx : list effect) : list string :=
  concat (map (λ e, match e with RouterPush h => [h] | _ => [] end) fx).
Definition cookies (fx : list effect) : list string :=
  concat (map (λ e, match e with WriteCookie c => [c] | _ => [] end) fx).
Definition expanded_cookie (e : bool) : string :=
  "spine_expanded=" +:+ (if e then "true" else "false") +:+ "; path=/; max-age=2592000".

Definition click_meaning (expanded : bool) (chain : list (string * list (attr spine_msg))) : bool :=
  if expanded then negb (tag_in "button" chain) else negb (keeps_collapsed chain).

Definition click_ok (expanded : bool) (chain : list (string * list (attr spine_msg))) : bool :=
  let '(e, fx) := bubble expanded expanded chain in
  (e === click_meaning expanded chain) && (pushes fx === targets chain) &&
  (length (targets chain) <=? 1)%nat &&
  (cookies fx === (if e === expanded then [] else [expanded_cookie e])).

(** Every chain of a view. *)
Fixpoint chains {M} (v : view M) : list (list (string * list (attr M))) :=
  match v with
  | Text _ => []
  | El tag attrs kids => [(tag, attrs)] :: map (λ c, c ++ [(tag, attrs)]) (concat (map chains kids))
  end.

Lemma ancestry_chains {M} (v : view M) path c : ancestry v path = Some c → In c (chains v).
Proof.
  revert v c. induction path as [|i path IH]; intros [s|tag attrs kids] c; simpl; [done| |done|].
  - intros [= <-]. by left.
  - destruct (kids !! i) as [k|] eqn:Hk; simpl; [|done].
    destruct (ancestry k path) as [up|] eqn:Hup; [|done]. intros [= <-]. right.
    apply in_map_iff. exists up. split; [done|]. apply in_concat. exists (chains k).
    split; [|by apply IH]. apply in_map_iff. exists k. split; [done|].
    eapply list_elem_of_In, list_elem_of_lookup_2, Hk.
Qed.

(** The clicks on one child of the rail [nav]. *)
Definition clicks_ok (expanded : bool) (nav : list (attr spine_msg)) (v : view spine_msg) : bool :=
  forallb (λ c, click_ok expanded (c ++ [("nav", nav)])) (chains v).

Definition rail_attrs (expanded : bool) : list (attr spine_msg) :=
  [Attr "data-state" (if expanded then "expanded" else "collapsed")] ++
  when (negb expanded) [OnClick Expand] ++
  [Attr "class" (if expanded then "w-60" else "w-14 cursor-e-resize")].

Lemma link_clicks expanded item active :
  In item NAV → clicks_ok expanded (rail_attrs expanded) (SpineLink expanded item active) = true.
Proof.
  intros Hin. apply (proj1 (forallb_forall
    (λ i, clicks_ok expanded (rail_attrs expanded) (SpineLink expanded i active)) NAV)); [|done].
  destruct expanded, active; by vm_compute.
Qed.

Lemma profile_clicks `{Locale} expanded data :
  clicks_ok expanded (rail_attrs expanded) (ProfileMenu expanded data) = true.
Proof.
  unfold ProfileMenu. generalize (profile_initial (profile_name (from_option session_user None data))).
  generalize (profile_name (from_option session_user None data)) (profile_email (from_option session_user None data)) (profile_org data).
  intros name email org initial.
  destruct expanded, (truthy initial), (truthy name), (truthy email), (truthy org); by vm_compute.
Qed.

Lemma fixed_clicks expanded :
  let ok := clicks_ok expanded (rail_attrs expanded) in
  ok (SpineHeader expanded) = true ∧ ok (SectionBreak expanded "Manage") = true ∧
  ok (Notifications expanded) = true.
Proof. destruct expanded; by vm_compute. Qed.

Lemma rail_kids_clicks `{Locale} pathname expanded data kids :
  AppSpine pathname expanded data = El "nav" (rail_attrs expanded) kids →
  forallb (clicks_ok expanded (rail_attrs expanded)) kids = true.
Proof.
  intros [= <-]. pose proof (fixed_clicks expanded) as (Hh & Hs & Hn).
  cbn [forallb]. rewrite Hh, Hs, Hn, profile_clicks. by rewrite !link_clicks by (simpl; tauto).
Qed.

Lemma click_ok_root expanded : click_ok expanded [("nav", rail_attrs expanded)] = true.
Proof. destruct expanded; by vm_compute. Qed.

Lemma rail_chain_ok `{Locale} pathname expanded data path chain :
  ancestry (AppSpine pathname expanded data) path = Some chain → click_ok expanded chain = true.
Proof.
  intros Hc%ancestry_chains. pose proof (rail_kids_clicks pathname expanded data _ eq_refl) as Hk.
  destruct Hc as [<-|(c & <- & (cs & Hcs & Hc)%in_concat)%in_map_iff]; [apply click_ok_root|].
  apply in_map_iff in Hcs as (v & <- & Hv). rewrite forallb_forall in Hk.
  specialize (Hk v Hv). unfold clicks_ok in Hk. rewrite forallb_forall in Hk. by apply Hk.
Qed.

(** C29: on any path and with any session, a click on any element of the rail goes
    to the target of the link it hits (never to two); on the collapsed rail it
    opens the rail unless it hits the logo, a nav item or a menu trigger, so a
    click inside an open menu, on its links too, opens it as well; on the open
    rail only the fold button closes it; and a cookie is written exactly when
    the rail changes. *)
Theorem rail_clicks `{Locale} pathname data path expanded :
  let '(e, fx) := rail_click pathname data path expanded in
  match ancestry (AppSpine pathname expanded data) path with
  | Some chain =>
      e = click_meaning expanded chain ∧ pushes fx = targets chain ∧ (length (targets chain) ≤ 1)%nat ∧
      cookies fx = (if e === expanded then [] else [expanded_cookie e])
  | None => e = expanded ∧ fx = []
  end.
Proof.
  unfold rail_click. destruct (ancestry _ path) as [chain|] eqn:Hc; [|done].
  apply rail_chain_ok in Hc. unfold click_ok in Hc. destruct (bubble _ _ _) as [e fx].
  repeat (apply andb_true_iff in Hc as [Hc ?]). rewrite !bool_decide_eq_true in *.
  split_and!; [done..|by apply Nat.leb_le|done].
Qed.

(** Following a link of an open menu also opens the collapsed rail. *)
Example menu_link_opens_rail `{Locale} :
  rail_click "/home" None [14; 1; 2; 0]%nat false =
    (true, [RouterPush "/account"; WriteCookie "spine_expanded=true; path=/; max-age=2592000"]).
Proof. reflexivity. Qed.

Example nav_link_keeps_rail `{Locale} :
  rail_click "/home" None [4; 0; 1]%nat false = (false, [StopPropagation; RouterPush "/sources"]).
Proof. reflexivity. Qed.

(** ** The rail over the life of the browser's cookies *)

Lemma apply_cookies_written jar fx :
  apply_cookies jar fx = fold_left write_cookie (cookies fx) jar.
Proof.
  revert jar. induction fx as [|e fx IH]; intros jar; [done|].
  unfold apply_cookies, cookies in *. simpl. rewrite fold_left_app, IH. by destruct e.
Qed.

(** The state shown is the one a reload would restore. *)
Definition synced (s : Shell) : Prop :=
  Forall (λ e, cookie_ok e = true) (sh_jar s) ∧
  sh_expanded s = restoreExpanded (cookie_string (sh_jar s)) false.

(** The cookies of the other names. *)
Definition others (jar : list (string * string)) : list (string * string) :=
  List.filter (λ e, e.1 !== "spine_expanded") jar.

Lemma others_put jar v : others (put_cookie jar "spine_expanded" v) = others jar.
Proof.
  unfold put_cookie. destruct (existsb _ jar) eqn:He; clear He.
  - induction jar as [|[n w] jar IH]; [done|]. cbn [map fst].
    case_bool_decide as Hn; [subst n|]; unfold others in *; cbn [List.filter fst].
    + by rewrite IH.
    + by rewrite IH.
  - unfold others. rewrite List.filter_app. simpl. by rewrite app_nil_r.
Qed.

(** What one step does to the rail and the jar: nothing, or it writes the new
    state into both. *)
Definition rail_moves (s s' : Shell) : Prop :=
  (sh_expanded s' = sh_expanded s ∧ sh_jar s' = sh_jar s) ∨
  sh_jar s' = apply_cookies (sh_jar s) (setExpanded (sh_expanded s')).2.

Lemma rail_moves_synced s s' :
  rail_moves s s' → synced s → synced s' ∧ others (sh_jar s') = others (sh_jar s).
Proof.
  intros [[He Hj]|Hj] [Hok Hs]; unfold synced; rewrite ?He, Hj; [done|].
  split; [split|].
  - by apply jar_stays_ok.
  - symmetry. by apply spine_state_survives_reload.
  - rewrite write_expanded. apply others_put.
Qed.

Lemma cookies_move s e fx :
  cookies fx = (if e === sh_expanded s then [] else [expanded_cookie e]) → rail_moves s (set_rail s e fx).
Proof.
  intros Hc. unfold rail_moves, set_rail. cbn [sh_expanded sh_jar]. rewrite apply_cookies_written, Hc.
  case_bool_decide; [by left|]. right. by destruct e.
Qed.

Lemma key_move `{Locale} s meta ctrl k :
  let '(e, fx) := spine_onKey (sh_expanded s) meta ctrl k in rail_moves s (set_rail s e fx).
Proof.
  unfold spine_onKey. destruct (_ && _); apply cookies_move.
  - by destruct (sh_expanded s).
  - by rewrite bool_decide_eq_true_2.
Qed.

Lemma shell_step_moves `{Locale} s m : m ≠ Load → rail_moves s (update s m).1.
Proof.
  intros Hm. destruct m as [|pathname data path|ev|m|ev|el]; [done| | | | |]; unfold update; cbn [shell_step].
  - unfold rail_click. destruct (ancestry _ path) as [chain|] eqn:Hc.
    + apply rail_chain_ok in Hc. unfold click_ok in Hc. destruct (bubble _ _ _) as [e fx].
      apply andb_true_iff in Hc as [_ Hc]. apply cookies_move. by apply bool_decide_eq_true in Hc.
    + apply cookies_move. by rewrite bool_decide_eq_true_2.
  - destruct (search_update _ _) as [sr fx1].
    pose proof (key_move (mkShell (sh_expanded s) (sh_slot s) sr (sh_leaf s) (sh_jar s))
                  (metaKey ev) (ctrlKey ev) (key ev)) as Hk.
    cbn [sh_expanded] in Hk. by destruct (spine_onKey _ _ _ _) as [e fx2].
  - destruct (search_update _ _). by left.
  - by left.
  - by left.
Qed.

Lemma shell_step_synced `{Locale} s m :
  synced s → synced (update s m).1 ∧ others (sh_jar (update s m).1) = others (sh_jar s).
Proof.
  intros Hs. destruct m; [split; [by split; [apply Hs|]|done]|..];
    by apply rail_moves_synced; [apply shell_step_moves|].
Qed.

(** C30: from any cookies a browser can hold and after any sequence of clicks,
    keys, searches, published names, mounts and reloads, a reload shows the rail
    as it was, and the cookies of every other name are as they were. *)
Theorem rail_survives_reload `{Locale} jar ms :
  Forall (λ e, cookie_ok e = true) jar →
  let s := (run (shell_load jar) ms).1 in
  sh_expanded (update s Load).1 = sh_expanded s ∧ others (sh_jar s) = others jar.
Proof.
  intros Hok s.
  assert (Hs : synced s ∧ others (sh_jar s) = others jar); [|by destruct Hs as [[_ ->] ?]].
  apply (run_invariant (λ s, synced s ∧ others (sh_jar s) = others jar)).
  - intros s' m [Hs' <-]. by apply shell_step_synced.
  - done.
Qed.

Lemma rail_survives_reload_witness :
  let s := (run (shell_load [("theme", "dark"); ("spine_expanded", "false")])
                [WindowKeyDown (mkKey "b" true false false false false None); RailClick "/book" None [4; 0]%nat]).1 in
  (sh_expanded s = true ∧ others (sh_jar s) = [("theme", "dark")]) ∧ sh_expanded (update s Load).1 = sh_expanded s.
Proof.
  intros s. split; [by vm_compute|].
  apply (rail_survives_reload [("theme", "dark"); ("spine_expanded", "false")]). repeat constructor.
Defined.

(** ** What the frame shows *)

Definition has_tag {M} (tag : string) (v : view M) : bool :=
  existsb (λ '(t, _, _), t === tag) (elements v).

Lemma has_tag_El {M} tag t a (kids : list (view M)) :
  has_tag tag (El t a kids) = (t === tag) || existsb (has_tag tag) kids.
Proof.
  unfold has_tag. cbn [elements existsb]. f_equal.
  induction kids as [|k kids IH]; [done|]. cbn [map concat existsb]. by rewrite existsb_app, IH.
Qed.

(** the frame and the page in it are rendered exactly when the session in hand
    belongs to an onboarded workspace and the last answer, if it failed, failed
    for lack of authentication; otherwise nothing of either is. *)
Theorem frame_shown_iff `{Locale} {P} q pathname matches s (children : view P) :
  let v := AppLayout q pathname matches s children in
  let open := match q_error q with Some e => isAuthError e | None => true end
              && negb (q_isPending q) && onboarded (q_data q) in
  has_tag "main" v = open ∧ has_tag "nav" v = open ∧ (open = false → links v = []).
Proof.
  intros v op. subst v op. unfold AppLayout, AppGate.
  destruct (match q_error q with Some e => negb (isAuthError e) | None => false end) eqn:He.
  - destruct (q_error q) as [e|]; [|done]. apply negb_true_iff in He. by rewrite He.
  - assert (Ha : match q_error q with Some e => isAuthError e | None => true end = true)
      by (destruct (q_error q); [by apply negb_false_iff in He|done]).
    rewrite Ha. destruct (q_isPending q), (onboarded (q_data q)); try done.
    cbn [negb orb andb map_view map]. rewrite !has_tag_El. cbn [existsb map_view map].
    rewrite !has_tag_El. cbn [existsb app]. rewrite !map_app. rewrite !has_tag_El.
    split_and!; [|done..]. cbn [existsb map map_view app AppContextPanel].
    rewrite !has_tag_El. simpl. by rewrite !orb_true_r.
Qed.

(** A page's title. *)
Definition headings {M} (v : view M) : list string :=
  map (λ '(_, a, k), text_content (El "" a k)) (List.filter (λ '(t, _, _), t === "h1") (elements v)).

(** Each placeholder has one title, the one the crumb trail of its route ends
    with, and offers nothing to click. *)
Lemma placeholder_titled `{Locale} {M} route page :
  In (route, page) (placeholders (M := M)) →
  (∃ c t, last (buildCrumbs route) = Some c ∧ crumb_label c = Some t ∧ headings page = [t]) ∧
  buttons page = [] ∧ links page = [].
Proof.
  assert (Hall : Forall (λ e : string * view M,
      (∃ c t, last (buildCrumbs e.1) = Some c ∧ crumb_label c = Some t ∧ headings e.2 = [t]) ∧
      buttons e.2 = [] ∧ links e.2 = []) placeholders).
  { repeat (apply Forall_cons_2; [split_and!; [eexists _, _; split_and!; reflexivity|reflexivity..]|]).
    constructor. }
  rewrite List.Forall_forall in Hall. apply (Hall (route, page)).
Qed.

(** The page's actions are in the bar's slot while it is mounted and nowhere
    otherwise. *)
Lemma actions_follow_slot `{Locale} {M} s els (kids : list (view M)) :
  ChromeActions (sh_slot (run s (map SlotRef els)).1) kids =
  match last els with
  | Some (Some id) => [El "Portal" [Attr "container" id] kids]
  | Some None => []
  | None => ChromeActions (sh_slot s) kids
  end.
Proof.
  destruct els as [|e els _] using rev_ind; [done|]. rewrite last_snoc, map_app, run_app. simpl.
  by destruct e.
Qed.
