(* ===== verification/Contract.v ===== *)
(** * What the client sends, and how the server takes it

    [proto/hivebook/*/v1/*.proto] declares the field rules of every request; the
    API refuses a request that violates one before a handler runs
    (ADR-0021, [api/internal/server/routes.go]), and the handlers of [Api] refuse more. This file states
    the rules with the messages of [Rules], puts the two together, and proves of every
    component that sends requests which of them are answered and which are refused, with
    what code. Protovalidate, which checks the rules, is an argument; its laws are what
    [validate_pb.ts] documents of the four rules the schema uses. *)
From stdpp Require Import base list strings.
From Stdlib Require Import ZArith Lia Ascii.
From S2P Require Import Prelude JsString JsNumber Proto View Ui Session Onboarding SyncSchedule.
From S2P Require Import Services Api Directory Controls Manage Sources Rules.
#[local] Open Scope string_scope.
#[local] Open Scope list_scope.
#[local] Open Scope Z_scope.

(** ** The rules of the schema *)

Definition rule_of (t : FieldType FieldRules) : FieldRules := mkFieldRules [] [] false UNSPECIFIED (Some t).
(** [string] with [min_len] and [max_len], a number with [gte] and [lte], [repeated] with [max_items]. *)
Definition string_len (least most : option Z) : FieldRules :=
  rule_of (string_ (mkStringRules None None least most None None None None None None None None [] [] None None [])).
Definition number_between (least most : option Z) : OrderRules Z :=
  mkOrderRules None (Lte <$> most) (Gte <$> least) [] [] [].
Definition max_items (n : Z) : FieldRules := rule_of (repeated (mkRepeatedRules None (Some n) false None)).

Definition message_rules := list (string * FieldRules).

Definition connection_rules : message_rules := [("connection_id", string_len (Some 1) None)].

Definition GetAuthorizeUrlRequest_rules : message_rules := [("connector_id", string_len (Some 1) None)].
Definition ConnectWithTokenRequest_rules : message_rules :=
  [("connector_id", string_len (Some 1) None); ("token", string_len (Some 1) None); ("name", string_len None (Some 100))].
Definition TriggerSyncRequest_rules := connection_rules.
Definition StopSyncRequest_rules := connection_rules.
Definition DisconnectRequest_rules := connection_rules.
Definition ListArtifactsRequest_rules : message_rules := [("limit", rule_of (uint32 (number_between None (Some 200))))].
Definition GetArtifactContentRequest_rules : message_rules := [("id", string_len (Some 1) None)].
Definition ListProjectsRequest_rules := connection_rules.
Definition SetProjectSelectionRequest_rules := connection_rules.
Definition UpdateSyncScheduleRequest_rules := connection_rules.
Definition WatchProjectsRequest_rules := connection_rules.

Definition CompleteOnboardingRequest_rules : message_rules :=
  [("region", string_len (Some 1) (Some 50)); ("name", string_len None (Some 200)); ("size", string_len None (Some 50));
   ("use_cases", max_items 32); ("use_case_other", string_len None (Some 500))].
Definition UpdateTenantRequest_rules : message_rules :=
  [("name", string_len (Some 1) (Some 200)); ("size", string_len None (Some 50)); ("use_cases", max_items 32);
   ("use_case_other", string_len None (Some 500))].
Definition ListAuditEventsRequest_rules : message_rules :=
  [("limit", rule_of (int32 (number_between (Some 0) (Some 200)))); ("offset", rule_of (int32 (number_between (Some 0) None)))].
Definition SetFeatureFlagRequest_rules : message_rules := [("key", string_len (Some 1) (Some 100))].

(** ** Protovalidate *)

(** What the fields of the requests hold. *)
Inductive value := VString (s : string) | VInt (z : Z) | VStrings (ss : list string).

(** The length of a string in Unicode code points: the bytes of its UTF-8
    encoding that do not continue a code point. *)
Definition continues (a : ascii) : bool := Z.land (Z.of_nat (nat_of_ascii a)) 0xC0 =? 0x80.
Fixpoint code_points (s : string) : Z :=
  match s with EmptyString => 0 | String a s' => (if continues a then 0 else 1) + code_points s' end.

Lemma code_points_nonneg s : 0 ≤ code_points s.
Proof. induction s as [|a s IH]; cbn [code_points]; [done|destruct (continues a); lia]. Qed.

(** Whether a value satisfies the rules of its field. *)
Class Protovalidate := validates : FieldRules → value → bool.

(** A bound that is set. *)
Definition at_least (least : option Z) (n : Z) : Prop := ∀ k, least = Some k → k ≤ n.
Definition at_most (most : option Z) (n : Z) : Prop := ∀ k, most = Some k → n ≤ k.

(** Documented of [min_len], [max_len] (code points), [gte], [lte] and [max_items]. *)
Class ProtovalidateLaws `(Protovalidate) : Prop := {
  validates_len least most s :
    validates (string_len least most) (VString s) = true ↔ at_least least (code_points s) ∧ at_most most (code_points s);
  validates_int32 most z :
    (∀ k, most = Some k → 0 ≤ k) →
    validates (rule_of (int32 (number_between (Some 0) most))) (VInt z) = true ↔ 0 ≤ z ∧ at_most most z;
  validates_uint32 most z :
    validates (rule_of (uint32 (number_between None (Some most)))) (VInt z) = true ↔ z ≤ most;
  validates_max_items n ss :
    validates (max_items n) (VStrings ss) = true ↔ js_length ss ≤ n }.

(** ** Requests *)

(** A mutation, or the input of a query or of a stream. *)
Inductive request :=
| Mutate (r : rpc)
| QueryArtifacts (r : ListArtifactsRequest)
| QueryContent (r : GetArtifactContentRequest)
| QueryProjects (r : ListProjectsRequest)
| QueryAudit (r : ListAuditEventsRequest)
| StreamProjects (r : WatchProjectsRequest).

Definition request_rules (r : request) : message_rules :=
  match r with
  | Mutate (IntegrationRpc (GetAuthorizeUrl _)) => GetAuthorizeUrlRequest_rules
  | Mutate (IntegrationRpc (ConnectWithToken _)) => ConnectWithTokenRequest_rules
  | Mutate (IntegrationRpc (TriggerSync _)) => TriggerSyncRequest_rules
  | Mutate (IntegrationRpc (StopSync _)) => StopSyncRequest_rules
  | Mutate (IntegrationRpc (Disconnect _)) => DisconnectRequest_rules
  | Mutate (IntegrationRpc (SetProjectSelection _)) => SetProjectSelectionRequest_rules
  | Mutate (IntegrationRpc (UpdateSyncSchedule _)) => UpdateSyncScheduleRequest_rules
  | Mutate (TenantRpc (CompleteOnboarding _)) => CompleteOnboardingRequest_rules
  | Mutate (TenantRpc (UpdateTenant _)) => UpdateTenantRequest_rules
  | Mutate (TenantRpc (SetFeatureFlag _)) => SetFeatureFlagRequest_rules
  | QueryArtifacts _ => ListArtifactsRequest_rules
  | QueryContent _ => GetArtifactContentRequest_rules
  | QueryProjects _ => ListProjectsRequest_rules
  | QueryAudit _ => ListAuditEventsRequest_rules
  | StreamProjects _ => WatchProjectsRequest_rules
  end.

(** The fields that carry rules, by their name in the schema. *)
Definition request_fields (r : request) : list (string * value) :=
  let connection id := [("connection_id", VString id)] in
  match r with
  | Mutate (IntegrationRpc (GetAuthorizeUrl r)) => [("connector_id", VString (gau_connectorId r))]
  | Mutate (IntegrationRpc (ConnectWithToken r)) =>
      [("connector_id", VString (cwt_connectorId r)); ("token", VString (cwt_token r)); ("name", VString (cwt_name r))]
  | Mutate (IntegrationRpc (TriggerSync r)) => connection (tsr_connectionId r)
  | Mutate (IntegrationRpc (StopSync r)) => connection (ssr_connectionId r)
  | Mutate (IntegrationRpc (Disconnect r)) => connection (dr_connectionId r)
  | Mutate (IntegrationRpc (SetProjectSelection r)) => connection (sps_connectionId r)
  | Mutate (IntegrationRpc (UpdateSyncSchedule r)) => connection (uss_connectionId r)
  | Mutate (TenantRpc (CompleteOnboarding r)) =>
      [("region", VString (cor_region r)); ("name", VString (cor_name r)); ("size", VString (cor_size r));
       ("use_cases", VStrings (cor_useCases r)); ("use_case_other", VString (cor_useCaseOther r))]
  | Mutate (TenantRpc (UpdateTenant r)) =>
      [("name", VString (utr_name r)); ("size", VString (utr_size r));
       ("use_cases", VStrings (utr_useCases r)); ("use_case_other", VString (utr_useCaseOther r))]
  | Mutate (TenantRpc (SetFeatureFlag r)) => [("key", VString (sff_key r))]
  | QueryArtifacts r => [("limit", VInt (lar_limit r))]
  | QueryContent r => [("id", VString (gacq_id r))]
  | QueryProjects r => connection (lpr_connectionId r)
  | QueryAudit r => [("limit", VInt (laeq_limit r)); ("offset", VInt (laeq_offset r))]
  | StreamProjects r => connection (wpq_connectionId r)
  end.

(** ** The rules as conditions *)

Definition chars (least most : Z) (s : string) : Prop := least ≤ code_points s ≤ most.
Definition some_chars (s : string) : Prop := 1 ≤ code_points s.

Definition contract (r : request) : Prop :=
  match r with
  | Mutate (IntegrationRpc (GetAuthorizeUrl r)) => some_chars (gau_connectorId r)
  | Mutate (IntegrationRpc (ConnectWithToken r)) =>
      some_chars (cwt_connectorId r) ∧ some_chars (cwt_token r) ∧ chars 0 100 (cwt_name r)
  | Mutate (IntegrationRpc (TriggerSync r)) => some_chars (tsr_connectionId r)
  | Mutate (IntegrationRpc (StopSync r)) => some_chars (ssr_connectionId r)
  | Mutate (IntegrationRpc (Disconnect r)) => some_chars (dr_connectionId r)
  | Mutate (IntegrationRpc (SetProjectSelection r)) => some_chars (sps_connectionId r)
  | Mutate (IntegrationRpc (UpdateSyncSchedule r)) => some_chars (uss_connectionId r)
  | Mutate (TenantRpc (CompleteOnboarding r)) =>
      chars 1 50 (cor_region r) ∧ chars 0 200 (cor_name r) ∧ chars 0 50 (cor_size r) ∧
      js_length (cor_useCases r) ≤ 32 ∧ chars 0 500 (cor_useCaseOther r)
  | Mutate (TenantRpc (UpdateTenant r)) =>
      chars 1 200 (utr_name r) ∧ chars 0 50 (utr_size r) ∧ js_length (utr_useCases r) ≤ 32 ∧
      chars 0 500 (utr_useCaseOther r)
  | Mutate (TenantRpc (SetFeatureFlag r)) => chars 1 100 (sff_key r)
  | QueryArtifacts r => lar_limit r ≤ 200
  | QueryContent r => some_chars (gacq_id r)
  | QueryProjects r => some_chars (lpr_connectionId r)
  | QueryAudit r => 0 ≤ laeq_limit r ≤ 200 ∧ 0 ≤ laeq_offset r
  | StreamProjects r => some_chars (wpq_connectionId r)
  end.

Section Rules.
Context `{Protovalidate}.

(** Every field that carries rules satisfies them. *)
Definition passes (r : request) : bool :=
  forallb (λ '(name, f), match List.find (λ e, e.1 === name) (request_fields r) with
                         | Some (_, v) => validates f v
                         | None => false
                         end) (request_rules r).

(** A call at the API: the caller's authentication, the rules, the handler. *)
Definition serve {A} (caller : outcome unit) (r : request) (handler : outcome A) : outcome A :=
  match caller with
  | Refused c => Refused c
  | Answered _ => if passes r then handler else Refused InvalidArgument
  end.

End Rules.

Section Conditions.
Context `{PL : ProtovalidateLaws}.

Lemma len_between least most s :
  validates (string_len (Some least) (Some most)) (VString s) = true ↔ chars least most s.
Proof. rewrite validates_len. unfold at_least, at_most, chars. naive_solver. Qed.
Lemma len_most most s : validates (string_len None (Some most)) (VString s) = true ↔ chars 0 most s.
Proof. rewrite validates_len. unfold at_least, at_most, chars. pose proof (code_points_nonneg s). naive_solver. Qed.
Lemma len_some s : validates (string_len (Some 1) None) (VString s) = true ↔ some_chars s.
Proof. rewrite validates_len. unfold at_least, at_most, some_chars. naive_solver. Qed.
Lemma number_from_zero z : validates (rule_of (int32 (number_between (Some 0) None))) (VInt z) = true ↔ 0 ≤ z.
Proof. rewrite validates_int32 by done. unfold at_most. naive_solver. Qed.
Lemma number_zero_to most z :
  0 ≤ most → validates (rule_of (int32 (number_between (Some 0) (Some most)))) (VInt z) = true ↔ 0 ≤ z ≤ most.
Proof. intros. rewrite validates_int32 by naive_solver. unfold at_most. naive_solver. Qed.

(** The rules, read as conditions. *)
Lemma passes_iff r : passes r = true ↔ contract r.
Proof.
  destruct r as [[[r|r|r|r|r|r|r]|[r|r|r]]|r|r|r|r|r]; destruct r;
    lazy -[validates string_len max_items rule_of number_between code_points js_length Z.le iff chars some_chars andb];
    rewrite ?andb_true_r, ?andb_true_iff, ?len_between, ?len_most, ?len_some, ?number_from_zero, ?validates_max_items,
      ?validates_uint32; rewrite ?number_zero_to by done; tauto.
Qed.

Lemma serve_refused {A} r (h : outcome A) : ¬ contract r → serve (Answered ()) r h = Refused InvalidArgument.
Proof. rewrite <-passes_iff. unfold serve. by destruct (passes r). Qed.
Lemma serve_passes {A} r (h : outcome A) : contract r → serve (Answered ()) r h = h.
Proof. rewrite <-passes_iff. unfold serve. by intros ->. Qed.

End Conditions.

(** ** Text in UTF-8

    A string of the model is the UTF-8 encoding of the JavaScript string; [utf8] says
    that it is one: every lead byte is followed by its continuation bytes. *)
Fixpoint utf8_from (pending : nat) (l : bytes) : bool :=
  match l with
  | [] => (pending =? 0)%nat
  | a :: l' =>
      match pending with
      | O => negb (continues a) && utf8_from (lead_width a - 1) l'
      | S p => continues a && utf8_from p l'
      end
  end.
Definition utf8 (s : string) : bool := utf8_from 0 (String.list_ascii_of_string s).

(** A token that encodes one character. *)
Definition one_char (t : bytes) : bool :=
  match t with
  | [] => false
  | a :: t' => negb (continues a) && forallb continues t' && (length t' =? lead_width a - 1)%nat
  end.

Lemma utf8_from_conts t r : forallb continues t = true → utf8_from (length t) (t ++ r) = utf8_from 0 r.
Proof. induction t as [|a t IH]; simpl; [done|]. intros [-> Ht]%andb_true_iff. by apply IH. Qed.

Lemma utf8_after_char t r : one_char t = true → utf8_from 0 (t ++ r) = true → utf8_from 0 r = true.
Proof.
  destruct t as [|a t]; [done|]. simpl. intros [[Ha Ht]%andb_true_iff Hl%Nat.eqb_eq]%andb_true_iff.
  rewrite Ha, <-Hl. simpl. by rewrite utf8_from_conts.
Qed.

Lemma ws_tokens_one_char : Forall (λ t, one_char t = true) ws_tokens.
Proof. apply List.Forall_forall, forallb_forall. reflexivity. Qed.

Lemma utf8_strip_any ts l l' :
  Forall (λ t, one_char t = true) ts → utf8_from 0 l = true → strip_any ts l = Some l' → utf8_from 0 l' = true.
Proof.
  intros Hts Hl. induction Hts as [|t ts Ht _ IH]; simpl; [done|].
  destruct (strip_token t l) as [r|] eqn:Hr; [|done]. intros [= <-].
  apply strip_token_Some in Hr as ->. by eapply utf8_after_char.
Qed.

Lemma utf8_trim_start l : utf8_from 0 l = true → utf8_from 0 (trim_start l) = true.
Proof.
  unfold trim_start. generalize (length l). intros n. revert l.
  induction n as [|n IH]; intros l Hl; cbn [drop_tokens]; [done|].
  destruct (strip_any ws_tokens l) as [l'|] eqn:Hs; [|done].
  apply IH. eapply utf8_strip_any; [apply ws_tokens_one_char|done..].
Qed.

Lemma code_points_starts a l :
  continues a = false → some_chars (String.string_of_list_ascii (a :: l)).
Proof. unfold some_chars. cbn. intros ->. pose proof (code_points_nonneg (String.string_of_list_ascii l)). lia. Qed.

(** What is left of a text after trimming counts as at least one character. *)
Lemma trimmed_chars s : utf8 s = true → trim s ≠ "" → some_chars (trim s).
Proof.
  intros Hs%utf8_trim_start. unfold trim. destruct (trim_end_prefix (trim_start (String.list_ascii_of_string s))) as [q Hq].
  destruct (trim_end _) as [|a l] eqn:He; [done|]. intros _.
  apply code_points_starts. rewrite Hq in Hs. cbn in Hs. apply andb_true_iff in Hs as [Ha _].
  by apply negb_true_iff in Ha.
Qed.

Lemma utf8_some_chars s : utf8 s = true → s ≠ "" → some_chars s.
Proof.
  destruct s as [|a s]; [done|]. unfold utf8. cbn. intros [Ha _]%andb_true_iff _.
  unfold some_chars. cbn. apply negb_true_iff in Ha as ->. pose proof (code_points_nonneg s). lia.
Qed.

(** ** Onboarding *)

Definition option_ids (os : list Onboarding.Option) : list string := map opt_id os.

(** Answers the pages offer: a region or none yet, a company size or none, areas
    of the grid, each once. *)
Definition offered (s : OnboardingState) : Prop :=
  (region s = "" ∨ In (region s) (map reg_id regions)) ∧
  (∀ id, orgSize s = Some id → id = "" ∨ In id (option_ids companySizes)) ∧
  NoDup (useCases s) ∧ incl (useCases s) (option_ids useCaseOptions).

(** The messages the controls of the pages send, and sessions whose tenant holds
    such answers. *)
Definition offered_msg `{Locale} (m : ob_msg) : Prop :=
  match m with
  | SessionIs q => ∀ t u, layout_ready q = Some (t, u) → offered (OnboardingFlowProvider (initial_answers t u))
  | Edit p =>
      (∀ id, p_orgSize p = Some (Some id) → In id (option_ids companySizes)) ∧ p_useCases p = None ∧
      (∀ id, p_region p = Some id → In id (map reg_id regions))
  | ToggleUseCase id => In id (option_ids useCaseOptions)
  | _ => True
  end.

Section Clients.
Context `{PL : ProtovalidateLaws} `{Locale}.

Lemma flow_set_offered p s : offered_msg (Edit p) → offered s → offered (flow_set p s).
Proof.
  intros (Hsz & Hu & Hr) (Hr' & Hsz' & Hnd & Hin). unfold offered, flow_set. cbn.
  rewrite Hu. cbn. split_and!; [| |done|done].
  - destruct (p_region p) as [r|]; [right; by apply Hr|done].
  - destruct (p_orgSize p) as [sz|]; cbn; [|done]. intros id ->. right. by apply Hsz.
Qed.

Lemma toggle_offered id s : In id (option_ids useCaseOptions) → offered s → offered (toggleUseCase id s).
Proof.
  intros Hid (Hr & Hsz & Hnd & Hin). split_and!; [done|done|by apply toggle_NoDup|].
  intros x Hx%includes_In. rewrite toggle_includes in Hx.
  case_bool_decide as He; [by subst|]. rewrite xorb_false_r in Hx. by apply Hin, includes_In.
Qed.

Definition offered_flow (f : Flow) : Prop := ∀ s, ob_answers f = Some s → offered s.

Lemma step_offered f m : offered_msg m → offered_flow f → offered_flow (update f m).1.
Proof.
  destruct f as [p q a pe er c]. unfold offered_flow, update, ob_machine. cbn [ob_answers].
  intros Hm Ha s. destruct m as [q'|p'|patch|id|[p'|]| |call s'|call e]; cbn -[layout_ready].
  - unfold mount_flow. destruct (layout_ready q') as [[t u]|] eqn:Hq; [|done].
    destruct a as [s0|]; cbn -[OnboardingFlowProvider]; intros [= <-]; [by apply Ha|by apply (Hm t u)].
  - by apply Ha.
  - destruct a as [s0|]; cbn; [|done]. intros [= <-]. apply flow_set_offered; [done|by apply Ha].
  - destruct a as [s0|]; cbn; [|done]. intros [= <-]. apply toggle_offered; [done|by apply Ha].
  - by apply Ha.
  - by apply Ha.
  - destruct a; cbn; by apply Ha.
  - by apply Ha.
  - case_bool_decide; cbn; by apply Ha.
Qed.

(** The request of offered answers breaks no rule but those on the free texts
    and the region's presence. *)
Lemma offered_contract s :
  offered s →
  contract (Mutate (TenantRpc (CompleteOnboarding (finish_request s)))) ↔
  region s ≠ "" ∧ code_points (orgName s) ≤ 200 ∧ code_points (cor_useCaseOther (finish_request s)) ≤ 500.
Proof.
  intros (Hr & Hsz & Hnd & Hin). cbn -[useCaseOptions].
  assert (Hareas : js_length (useCases s) ≤ 32).
  { pose proof (NoDup_incl_length (proj1 (NoDup_ListNoDup _) Hnd) Hin) as Hl.
    unfold js_length. change (length (option_ids useCaseOptions)) with 11%nat in Hl. lia. }
  assert (Hsize : chars 0 50 (orgSize s ?? "")).
  { unfold chars. destruct (orgSize s) as [id|]; [|by cbn].
    assert (Hall : Forall (λ id, 0 ≤ code_points id ≤ 50) ("" :: option_ids companySizes)) by (repeat constructor; by vm_compute).
    rewrite List.Forall_forall in Hall. apply Hall. destruct (Hsz id eq_refl) as [->|Hid]; [by left|by right]. }
  assert (Hregion : chars 1 50 (region s) ↔ region s ≠ "").
  { destruct Hr as [->|Hr]; [split; [intros [H1 _]; by vm_compute in H1|done]|].
    assert (Hall : Forall (λ id, chars 1 50 id ∧ id ≠ "") (map reg_id regions))
      by (repeat constructor; by vm_compute).
    rewrite List.Forall_forall in Hall. destruct (Hall _ Hr). tauto. }
  rewrite Hregion. unfold chars in *.
  pose proof (code_points_nonneg (orgName s)). pose proof (code_points_nonneg (cor_useCaseOther (finish_request s))) as Ho.
  cbn in Ho. intuition.
Qed.

(** Every button of the four pages sends such a message (the text inputs send
    [set_orgName] and [set_useCaseOther], which are unrestricted). *)
Definition sends_offered (b : string * bool * option ob_msg) : Prop :=
  match b.2 with Some m => offered_msg m | None => True end.

Lemma grid_sends_offered options selected onSelect columns :
  Forall (λ o, offered_msg (onSelect (opt_id o))) options →
  Forall sends_offered (buttons (OptionGrid options selected onSelect columns)).
Proof.
  intros Ho. unfold OptionGrid. rewrite buttons_plain by reflexivity.
  induction Ho as [|o os Ho _ IH]; [constructor|]. cbn [map concat]. apply Forall_app. split; [|exact IH].
  rewrite buttons_El. cbn. constructor; [done|].
  destruct (opt_leading o), (opt_detail o) as [d|]; cbn; try constructor; destruct (truthy d); constructor.
Qed.
Lemma companies_offered (s : OnboardingState) :
  Forall (λ o, offered_msg (set_orgSize (if orgSize s === Some (opt_id o) then None else Some (opt_id o)))) companySizes.
Proof.
  apply Forall_forall. intros o Ho%list_elem_of_In. split_and!; [|done|done]. intros id.
  case_bool_decide; [done|]. intros [= <-]. by apply in_map.
Qed.

Lemma areas_offered : Forall (λ o, offered_msg (ToggleUseCase (opt_id o))) useCaseOptions.
Proof. apply Forall_forall. intros o Ho%list_elem_of_In. by apply in_map. Qed.

Lemma regions_offered : Forall (λ o, offered_msg (set_region (opt_id o))) REGION_OPTIONS.
Proof.
  unfold REGION_OPTIONS. apply Forall_map, Forall_forall. intros r Hr%list_elem_of_In.
  split_and!; [done|done|]. intros id [= <-]. cbn [opt_id].
  apply in_map. by eapply Permutation_in, Hr; apply js_sort_perm.
Qed.

Definition sends (v : view ob_msg) : Prop := Forall sends_offered (buttons v).

Lemma sends_plain tag a kids : is_button tag a = false → Forall sends kids → sends (El tag a kids).
Proof.
  intros Ht Hk. unfold sends. rewrite buttons_plain by done.
  induction Hk; [constructor|]. cbn [map concat]. by apply Forall_app.
Qed.

Lemma sends_Text t : sends (Text t).
Proof. constructor. Qed.

Lemma sends_shell pathname (secondary primary : option (view ob_msg)) kids :
  (∀ v, secondary = Some v → sends v) → (∀ v, primary = Some v → sends v) → Forall sends kids →
  sends (OnboardingShell pathname secondary primary kids).
Proof.
  intros Hs Hp Hk. unfold OnboardingShell. apply sends_plain; [done|]. apply Forall_app. split.
  - repeat constructor; (apply sends_plain; [done|]); [|exact Hk].
    destruct (currentStep pathname) as [st|]; [destruct (otruthy (step_why st))|];
      repeat (constructor || apply sends_plain || apply sends_Text || done).
  - destruct (_ || _); [|constructor]. repeat constructor; (apply sends_plain; [done|]).
    repeat constructor; (apply sends_plain; [done|]); [destruct secondary|destruct primary];
      repeat constructor; auto.
Qed.

Lemma sends_Field label kids : Forall sends kids → sends (Field (Some label) None None kids).
Proof.
  intros Hk. apply sends_plain; [done|]. cbn [otruthy]. rewrite !app_nil_r.
  apply Forall_app. split; [|exact Hk]. destruct (_ || _); [|constructor].
  apply Forall_singleton, sends_plain; [done|]. destruct (truthy label); [|constructor].
  apply Forall_singleton, sends_plain; [done|]. apply Forall_singleton, sends_Text.
Qed.

Lemma sends_input a : sends (El "Input" a []).
Proof. by apply sends_plain. Qed.

Lemma sends_continue m disabled : offered_msg m → sends (OnboardingContinue m disabled).
Proof. intros Hm. unfold sends, OnboardingContinue. rewrite buttons_El. repeat constructor. exact Hm. Qed.

Lemma sends_back m : offered_msg m → sends (OnboardingBack m).
Proof. intros Hm. unfold sends, OnboardingBack. rewrite buttons_El. repeat constructor. exact Hm. Qed.

(** Every button of the page the router mounts. *)
Lemma organization_sends p s : sends (OrganizationPage p s).
Proof.
  apply sends_shell; [done|intros v [= <-]; by apply sends_continue|].
  apply Forall_singleton, sends_plain; [done|]. apply Forall_cons; split; [|apply Forall_singleton];
    apply sends_Field, Forall_singleton; [apply sends_input|apply grid_sends_offered, companies_offered].
Qed.

Lemma use_case_sends p s : sends (UseCasePage p s).
Proof.
  apply sends_shell; [intros v [= <-]; by apply sends_back|intros v [= <-]; by apply sends_continue|].
  apply Forall_singleton, sends_plain; [done|]. apply Forall_cons; split; [apply grid_sends_offered, areas_offered|].
  destruct (includes _ _); [|constructor]. apply Forall_singleton, sends_Field, Forall_singleton, sends_input.
Qed.

Lemma region_sends p s : sends (RegionPage p s).
Proof.
  apply sends_shell; [intros v [= <-]; by apply sends_back|intros v [= <-]; by apply sends_continue|].
  apply Forall_singleton, grid_sends_offered, regions_offered.
Qed.

Lemma complete_sends p s isPending error : sends (CompletePage p s isPending error).
Proof.
  apply sends_shell; [done|intros v [= <-]; repeat constructor|].
  apply Forall_singleton. unfold sends. buttons_simpl. destruct error; buttons_simpl; constructor.
Qed.

Lemma page_sends_offered f s : sends (StepPage f s).
Proof.
  unfold StepPage. repeat case_bool_decide; auto using organization_sends, use_case_sends, region_sends, complete_sends.
  constructor.
Qed.

(** The pages give no primitive children it would drop. *)
Lemma page_childless f s : childless (StepPage f s).
Proof.
  unfold StepPage, OrganizationPage, UseCasePage, RegionPage, CompletePage, OnboardingShell, OnboardingContinue,
    OnboardingBack, Field, OptionGrid.
  repeat case_match; childless_simpl; case_match; childless_simpl.
Qed.

Lemma rendered_page_sends f s : sends (expand (StepPage f s)).
Proof.
  unfold sends. pose proof (same_buttons _ _ (expand_same _ (page_childless f s))) as Hb. cbn [map concat] in Hb.
  rewrite !app_nil_r in Hb. rewrite Hb. apply page_sends_offered.
Qed.

Lemma finish_sends f m r :
  In (CallRpc r) (update f m).2 →
  ∃ s, ob_answers f = Some s ∧ r = TenantRpc (CompleteOnboarding (finish_request s)).
Proof.
  destruct f as [p q a pe er c]. unfold update, ob_machine. destruct m as [q'|p'|patch|id|[p'|]| |call s'|call e];
    cbn -[layout_ready finish_request layout_effect]; try (by intros []); try (intros [?|[]]; discriminate).
  - unfold layout_effect. destruct (q_isPending q'); [by intros []|].
    destruct (q_error q') as [e|]; [destruct (isAuthError e)|destruct (onboarded _)]; cbn; intuition discriminate.
  - destruct a as [s0|]; cbn -[finish_request]; [|by intros []]. intros [[= <-]|[]]. by exists s0.
  - cbn. intuition discriminate.
Qed.

(** Another region is stored for the workspace. *)
Definition other_region (w : WorkspaceData) (region : string) : Prop :=
  ∃ t g, tenant_row w = Some t ∧ tenant_region t = Some g ∧ g ≠ region.

(** The answer to a request of offered answers, while the database is up. *)
Lemma onboarding_served sys w new_id s :
  let r := finish_request s in
  let valid := cor_region r ≠ "" ∧ code_points (cor_name r) ≤ 200 ∧ code_points (cor_useCaseOther r) ≤ 500 in
  let served := serve (Answered ()) (Mutate (TenantRpc (CompleteOnboarding r))) (tenant_CompleteOnboarding sys w new_id r) in
  offered s → db_up sys = true →
  (served = Refused InvalidArgument ↔ ¬ valid) ∧
  (served = Refused FailedPrecondition ↔ valid ∧ other_region w (cor_region r)) ∧
  (valid → ¬ other_region w (cor_region r) →
   ∃ t, served = Answered t ∧ tenant_region t = Some (cor_region r) ∧ tenant_name t = Some (cor_name r) ∧
        tenant_onboarded t = true).
Proof.
  intros r valid served Ho Hup. pose proof (offered_contract s Ho) as Hc. fold r in Hc.
  change (contract (Mutate (TenantRpc (CompleteOnboarding r))) ↔ valid) in Hc.
  assert (Hdec : contract (Mutate (TenantRpc (CompleteOnboarding r))) ∨ ¬ contract (Mutate (TenantRpc (CompleteOnboarding r)))).
  { rewrite <-passes_iff. destruct (passes _); auto. }
  destruct Hdec as [Hok|Hno].
  - assert (Hs : served = tenant_CompleteOnboarding sys w new_id r) by by apply serve_passes.
    apply Hc in Hok. unfold tenant_CompleteOnboarding in Hs. rewrite Hup in Hs. cbn [negb] in Hs.
    pose proof (db_CompleteOnboarding_None new_id (tenant_row w) r) as Hn. fold (other_region w (cor_region r)) in Hn.
    destruct (db_CompleteOnboarding new_id (tenant_row w) r) as [t|] eqn:Hd; rewrite Hs; (split_and!; [naive_solver|naive_solver|]).
    + intros _ _. exists t. split; [done|]. by apply db_CompleteOnboarding_Some in Hd.
    + intros _ Hr. by destruct Hr; apply Hn.
  - assert (Hs : served = Refused InvalidArgument) by by apply serve_refused.
    rewrite Hs, <-Hc. split_and!; naive_solver.
Qed.

(** C2: Whatever is clicked and typed on the pages of the onboarding, in any order and
    through failures, the request it ends in meets one of three fates at the API (for a signed-in
    caller, with the database up). It is refused as invalid exactly when no region was
    chosen, the name is longer than 200 characters, or the other area than 500; it is
    refused as a failed precondition exactly when it is valid and the workspace already has
    another region; and otherwise the workspace is stored with the chosen region and name, as
    onboarded. The buttons of the pages, as rendered, send nothing else than such clicks. *)
Theorem onboarding_accepted f ms sys w new_id :
  (ob_answers f = None → Forall offered_msg ms → db_up sys = true →
   Forall (λ fx, ∀ r, fx = CallRpc (TenantRpc (CompleteOnboarding r)) →
     let valid := cor_region r ≠ "" ∧ code_points (cor_name r) ≤ 200 ∧ code_points (cor_useCaseOther r) ≤ 500 in
     let served := serve (Answered ()) (Mutate (TenantRpc (CompleteOnboarding r)))
                     (tenant_CompleteOnboarding sys w new_id r) in
     (served = Refused InvalidArgument ↔ ¬ valid) ∧
     (served = Refused FailedPrecondition ↔ valid ∧ other_region w (cor_region r)) ∧
     (valid → ¬ other_region w (cor_region r) →
      ∃ t, served = Answered t ∧ tenant_region t = Some (cor_region r) ∧ tenant_name t = Some (cor_name r) ∧
           tenant_onboarded t = true))
    (run f ms).2) ∧
  (∀ g s label disabled m, In (label, disabled, Some m) (buttons (expand (StepPage g s))) → offered_msg m) ∧
  (∀ v, offered_msg (set_orgName v) ∧ offered_msg (set_useCaseOther v)).
Proof.
  split_and!; [|intros g s label d m Hin|done].
  - intros Hf Hms Hup. assert (Ho : offered_flow f) by (intros s; by rewrite Hf). clear Hf.
    revert f Ho. induction Hms as [|m ms Hm Hms IH]; intros f Ho; cbn [run]; [constructor|].
    pose proof (step_offered f m Hm Ho) as H1. pose proof (finish_sends f m) as H2.
    destruct (update f m) as [f' fx]. specialize (IH f' H1). destruct (run f' ms). apply Forall_app. split; [|exact IH].
    apply Forall_forall. intros e He%list_elem_of_In r ->. destruct (H2 _ He) as (s & Hs & [= ->]).
    apply onboarding_served; [by apply Ho|done].
  - pose proof (rendered_page_sends g s) as Hs. unfold sends in Hs. rewrite List.Forall_forall in Hs. exact (Hs _ Hin).
Qed.

(** ** Forms and sources *)

(** What the API holds of a workspace satisfies its own rules. *)
Definition stored (t : Tenant) : Prop :=
  chars 0 50 (tenant_size t ?? "") ∧ js_length (tenant_useCases t) ≤ 32 ∧ chars 0 500 (tenant_useCaseOther t ?? "").

Lemma rename_calls t s m r :
  In (CallRpc r) (workspace_update t s m).2 →
  trim (ws_name s) ≠ "" ∧ r = TenantRpc (UpdateTenant (mkUpdateTenant (trim (ws_name s)) (tenant_size t ?? "")
    (tenant_useCases t) (tenant_useCaseOther t ?? ""))).
Proof.
  assert (Ho : In (CallRpc r) (onSave t s).2 → trim (ws_name s) ≠ "" ∧ r = TenantRpc (UpdateTenant
    (mkUpdateTenant (trim (ws_name s)) (tenant_size t ?? "") (tenant_useCases t) (tenant_useCaseOther t ?? "")))).
  { unfold onSave. destruct (truthy (trim (ws_name s))) eqn:Ht; cbn -[trim]; [|by intros []].
    intros [[= <-]|[]]. by apply truthy_true in Ht. }
  destruct m; cbn -[onSave]; try (by intros []); try (intros [?|[?|[]]]; discriminate).
  - destruct (key === "Enter"); [done|]. destruct (key === "Escape"); by intros [].
  - destruct (save_disabled s); [by intros []|done].
Qed.

(** A rename or a token the client sends never breaks a rule but on its length: the
    trimmed name is not empty, and neither is the token. So, with the systems up, a rename
    of a workspace that is set up is refused exactly when the trimmed name is longer than 200
    characters, and otherwise stored with the region untouched; a token of a registered connector is
    answered exactly when the trimmed label has at most 100 characters, the connector is switched
    on, and the source accepts the trimmed token. *)
Theorem forms_accepted sys w :
  db_up sys = true →
  (∀ t row s m r, utf8 (ws_name s) = true → stored t → tenant_row w = Some row →
     In (CallRpc (TenantRpc (UpdateTenant r))) (workspace_update t s m).2 →
     let served := serve (Answered ()) (Mutate (TenantRpc (UpdateTenant r))) (tenant_UpdateTenant sys w r) in
     (code_points (trim (ws_name s)) ≤ 200 →
        ∃ row', served = Answered row' ∧ tenant_name row' = Some (trim (ws_name s)) ∧ tenant_region row' = tenant_region row) ∧
     (200 < code_points (trim (ws_name s)) → served = Refused InvalidArgument)) ∧
  (∀ connector s m r, some_chars connector → registered sys connector = true →
     utf8 (tf_name s) = true → utf8 (tf_token s) = true →
     In (CallRpc (IntegrationRpc (ConnectWithToken r))) (token_update connector s m).2 →
     serve (Answered ()) (Mutate (IntegrationRpc (ConnectWithToken r))) (integration_ConnectWithToken sys w r) = Answered () ↔
     code_points (trim (tf_name s)) ≤ 100 ∧
     (connector = "github_pat" → featureFlagEnabled (flag_overrides w) "github_pat" = true) ∧
     token_valid sys connector (trim (tf_token s)) = true).
Proof.
  intros Hup. split.
  - intros t row s m r Hu (Hz & Ha & Ho) Hrow [Hn [= ->]]%rename_calls. cbv zeta.
    pose proof (trimmed_chars _ Hu Hn) as Hc. unfold some_chars in Hc. split; intros Hl.
    + rewrite serve_passes by (cbn -[trim]; unfold chars in *; intuition).
      unfold tenant_UpdateTenant. rewrite Hup, Hrow. cbn -[trim]. by eexists.
    + apply serve_refused. cbn -[trim]. unfold chars. lia.
  - intros connector s m r Hc Hreg Hn Ht ([= ->] & Hn' & Ht')%token_calls.
    pose proof (trimmed_chars _ Hn Hn') as H1. pose proof (trimmed_chars _ Ht Ht') as H2.
    destruct (Z.le_gt_cases (code_points (trim (tf_name s))) 100) as [Hl|Hl].
    + rewrite serve_passes by (cbn -[trim]; unfold some_chars, chars in *; intuition lia).
      unfold integration_ConnectWithToken. cbn -[trim]. rewrite Hup, Hreg. cbn [negb].
      case_bool_decide; destruct (featureFlagEnabled _ _), (token_valid _ _ _); cbn; naive_solver.
    + rewrite serve_refused by (cbn -[trim]; unfold chars; lia). split; [done|lia].
Qed.

(** *** The pages of a source *)

(** What the integration service answers to a call about a connection; [interval] is what the wire
    carries of the number in an [UpdateSyncSchedule]. *)
Definition connection_reply (sys : Systems) (w : WorkspaceData) (interval : Z) (q : integration_rpc) : outcome unit :=
  let forget {A} (o : outcome A) := match o with Refused c => Refused c | Answered _ => Answered () end in
  match q with
  | GetAuthorizeUrl r => integration_GetAuthorizeUrl sys w r
  | ConnectWithToken r => integration_ConnectWithToken sys w r
  | TriggerSync r => integration_TriggerSync sys w r
  | StopSync r => integration_StopSync sys w r
  | Disconnect r => integration_Disconnect sys w r
  | SetProjectSelection r => forget (integration_SetProjectSelection sys w r)
  | UpdateSyncSchedule r => forget (integration_UpdateSyncSchedule sys w (uss_connectionId r) (uss_enabled r) interval)
  end.

Definition served (sys : Systems) (w : WorkspaceData) (interval : Z) (q : integration_rpc) : outcome unit :=
  serve (Answered ()) (Mutate (IntegrationRpc q)) (connection_reply sys w interval q).

(** The systems are up and the connection is one of the caller's. *)
Definition reachable (sys : Systems) (w : WorkspaceData) (id : string) : Prop :=
  db_up sys = true ∧ engine_up sys = true ∧ In id (own_connections w) ∧ some_chars id.


Lemma on_own_connection {A} sys w id (a : outcome A) : reachable sys w id → on_connection sys w id a = a.
Proof. intros (Hd & _ & Hin%includes_In & _). unfold on_connection. by rewrite Hd, Hin. Qed.













(** *** Lists *)

Lemma audit_offset ms : ∀ offset, 0 ≤ offset → 0 ≤ fold_left audit_update ms offset.
Proof. induction ms as [|[] ms IH]; intros offset Ho; cbn [fold_left]; [done|..]; apply IH; cbn; unfold PAGE; lia. Qed.

(** Every page of the audit log and of the files passes the rules, and the server
    takes the limit it asks for. *)
Theorem lists_accepted ms params :
  passes (QueryAudit (mkListAuditEventsRequest PAGE (fold_left audit_update ms 0))) = true ∧ audit_limit PAGE = PAGE ∧
  passes (QueryArtifacts (files_request params)) = true ∧
  artifact_limit (lar_limit (files_request params)) = lar_limit (files_request params).
Proof.
  split_and!; [|done| |done]; apply passes_iff; [|done].
  cbn. pose proof (audit_offset ms 0). unfold PAGE. lia.
Qed.

(** *** The search of the manage page *)

(** C26: Searching on the manage page does not search: the API passes the request on
    without the query, so the answer is every project of the connection, and the page
    shows them all whatever was typed. The service behind it does filter by the
    trimmed query. *)
Theorem search_shows_everything sys w ilike units props s v :
  reachable sys w (pp_connectionId props) → allProjects s = Some units →
  let s' := (@run _ _ _ (manage_machine props) s [SearchTyped v; SearchDebounced]).1 in
  let q := mkListProjects (pp_connectionId props) (mg_query s') in
  mg_query s' = trim v ∧
  (∃ found, api_ListProjects sys w ilike units q = Answered found ∧
     shown_projects (manage_update props s' (SearchFound (lprr_projects found))).1 = Some units) ∧
  (TrimSpace (trim v) ≠ "" →
   integrations_ListProjects sys w ilike units q =
   Answered (mkListProjectsResponse (List.filter (λ p, ilike (proj_name p) (TrimSpace (trim v))) units))).
Proof.
  intros Hr Hall. pose proof Hr as (Hd & _ & Hin & _). cbv zeta. split; [done|]. split.
  - exists (mkListProjectsResponse units). split; [by apply api_ListProjects_all|].
    unfold shown_projects. destruct (searching _); done.
  - intros Hne. unfold integrations_ListProjects. rewrite on_own_connection by exact Hr. unfold list_sync_units.
    change (lpr_query _) with (trim v). by rewrite bool_decide_eq_false_2.
Qed.

End Clients.

(** ** On concrete requests *)

(** A checker of the four rules the schema uses. *)
Definition bounded (least most : option Z) (n : Z) : bool :=
  match least with Some k => k <=? n | None => true end && match most with Some k => n <=? k | None => true end.
Definition bounds_of (r : OrderRules Z) : option Z * option Z :=
  (match greaterThan r with Some (Gte k) => Some k | _ => None end, match lessThan r with Some (Lte k) => Some k | _ => None end).
#[local] Instance schema_checker : Protovalidate := λ f v,
  let '(mkFieldRules _ _ _ _ t) := f in
  match t, v with
  | Some (string_ r), VString s => bounded (minLen r) (maxLen r) (code_points s)
  | Some (int32 r), VInt z | Some (uint32 r), VInt z => bounded (bounds_of r).1 (bounds_of r).2 z
  | Some (repeated (mkRepeatedRules _ most _ _)), VStrings ss => bounded None most (js_length ss)
  | _, _ => false
  end.

Lemma bounded_iff least most n : bounded least most n = true ↔ at_least least n ∧ at_most most n.
Proof.
  unfold bounded, at_least, at_most. rewrite andb_true_iff.
  destruct least, most; rewrite ?Z.leb_le; naive_solver.
Qed.

#[local] Instance schema_checker_laws : ProtovalidateLaws schema_checker.
Proof.
  split.
  - intros least most s. apply bounded_iff.
  - intros most z _. transitivity (bounded (Some 0) most z = true); [by destruct most|].
    rewrite bounded_iff. unfold at_least. naive_solver.
  - intros most z. change (bounded None (Some most) z = true ↔ z ≤ most). rewrite bounded_iff.
    unfold at_least, at_most. naive_solver.
  - intros n ss. change (bounded None (Some n) (js_length ss) = true ↔ js_length ss ≤ n). rewrite bounded_iff.
    unfold at_least, at_most. naive_solver.
Qed.
#[local] Existing Instance ascii_locale.

(** The API, up, with a workspace that owns the connection "c1". *)
Definition demo_systems : Systems := mkSystems true true (λ c, c === "github_pat") (λ _ t, t === "tok").
Definition demo_workspace (row : option Tenant) : WorkspaceData := mkWorkspaceData row [("github_pat", true)] ["c1"] [].

(** A click through the four pages. *)
Definition demo_clicks : list ob_msg :=
  [SessionIs demo_ok; set_orgName "Acme"; set_orgSize (Some "11-50"); GoTo (Some "/onboarding/use-case");
   ToggleUseCase "other"; set_useCaseOther " Procedures "; set_region "eu-central"; Finish].

Lemma demo_clicks_offered : Forall offered_msg demo_clicks.
Proof.
  unfold demo_clicks. constructor.
  { intros t u Hq. vm_compute in Hq. injection Hq as <- <-. split; [by left|]. split; [intros ? [=]|].
    split; [constructor|intros ? []]. }
  constructor; [split_and!; [by intros ? [=]|done|by intros ? [=]]|].
  constructor; [split_and!; [intros id [= <-]; right; by left|done|by intros ? [=]]|].
  constructor; [exact I|]. constructor; [vm_compute; tauto|].
  constructor; [split_and!; [by intros ? [=]|done|by intros ? [=]]|].
  constructor; [split_and!; [by intros ? [=]|done|intros id [= <-]; vm_compute; tauto]|].
  constructor; [exact I|constructor].
Qed.

Definition demo_request : CompleteOnboardingRequest :=
  mkCompleteOnboarding "eu-central" "Acme" "11-50" ["other"] "Procedures".
Definition region_is (g : string) : Tenant := mkTenant "t1" None None (Some g) [] None false.

Lemma onboarding_accepted_witness :
  let served row := serve (Answered ()) (Mutate (TenantRpc (CompleteOnboarding demo_request)))
                      (tenant_CompleteOnboarding demo_systems (demo_workspace row) "t1" demo_request) in
  served (Some (region_is "us-east")) = Refused FailedPrecondition ∧
  ∃ t, served None = Answered t ∧ tenant_region t = Some "eu-central".
Proof.
  assert (Hall : ∀ row, let valid := cor_region demo_request ≠ "" ∧ code_points (cor_name demo_request) ≤ 200 ∧
      code_points (cor_useCaseOther demo_request) ≤ 500 in
     let served := serve (Answered ()) (Mutate (TenantRpc (CompleteOnboarding demo_request)))
                     (tenant_CompleteOnboarding demo_systems (demo_workspace row) "t1" demo_request) in
     (served = Refused InvalidArgument ↔ ¬ valid) ∧
     (served = Refused FailedPrecondition ↔ valid ∧ other_region (demo_workspace row) (cor_region demo_request)) ∧
     (valid → ¬ other_region (demo_workspace row) (cor_region demo_request) →
      ∃ t, served = Answered t ∧ tenant_region t = Some (cor_region demo_request) ∧
           tenant_name t = Some (cor_name demo_request) ∧ tenant_onboarded t = true)).
  { intros row. destruct (onboarding_accepted (mkFlowState "/onboarding/organization" demo_ok None None None 0) demo_clicks
      demo_systems (demo_workspace row) "t1") as [Ha _].
    specialize (Ha eq_refl demo_clicks_offered eq_refl). rewrite List.Forall_forall in Ha.
    apply (Ha (CallRpc (TenantRpc (CompleteOnboarding demo_request)))); [vm_compute; tauto|reflexivity]. }
  assert (Hv : cor_region demo_request ≠ "" ∧ code_points (cor_name demo_request) ≤ 200 ∧
      code_points (cor_useCaseOther demo_request) ≤ 500) by (split; [discriminate|split; vm_compute; discriminate]).
  split.
  - apply (proj1 (proj2 (Hall (Some (region_is "us-east"))))). split; [exact Hv|].
    exists (region_is "us-east"), "us-east". split_and!; [reflexivity|reflexivity|discriminate].
  - destruct (proj2 (proj2 (Hall None)) Hv) as (t & Ht & Hr & _); [|by exists t].
    intros (t & g & [=] & _).
Defined.

Lemma forms_accepted_witness :
  serve (Answered ()) (Mutate (IntegrationRpc (ConnectWithToken (mkConnectWithToken "github_pat" "tok" "Work"))))
    (integration_ConnectWithToken demo_systems (demo_workspace None) (mkConnectWithToken "github_pat" "tok" "Work")) =
  Answered () ∧
  ∃ row, serve (Answered ()) (Mutate (TenantRpc (UpdateTenant (mkUpdateTenant "Acme" "" [] ""))))
    (tenant_UpdateTenant demo_systems (demo_workspace (Some (region_is "eu-central"))) (mkUpdateTenant "Acme" "" [] "")) =
  Answered row ∧ tenant_region row = Some "eu-central".
Proof.
  split.
  - apply (proj2 (forms_accepted demo_systems (demo_workspace None) eq_refl) "github_pat" (mkTokenForm " Work " "tok " None 0)
      ConnectClicked); vm_compute; [discriminate|reflexivity|reflexivity|reflexivity|tauto|].
    split; [discriminate|]. split; reflexivity.
  - destruct (proj1 (forms_accepted demo_systems (demo_workspace (Some (region_is "eu-central"))) eq_refl) demo_tenant
      (region_is "eu-central") (mkWorkspace true " Acme " None 0) ClickSave (mkUpdateTenant "Acme" "" [] "")) as [H _];
      [reflexivity|repeat split; vm_compute; discriminate|reflexivity|vm_compute; tauto|].
    destruct H as (row & H1 & _ & H2); [vm_compute; discriminate|]. exists row. split; [exact H1|exact H2].
Defined.


Lemma search_shows_everything_witness :
  shown_projects (@run _ _ _ (manage_machine demo_props) demo_edited
    [SearchTyped "p1"; SearchDebounced; SearchFound demo_catalog]).1 = Some demo_catalog.
Proof.
  assert (Hr : reachable demo_systems (demo_workspace None) "c1").
  { split; [reflexivity|]. split; [reflexivity|]. split; [by left|vm_compute; discriminate]. }
  destruct (search_shows_everything demo_systems (demo_workspace None) includes_str demo_catalog demo_props demo_edited "p1"
    Hr eq_refl) as (_ & (found & Hf & Hs) & _).
  vm_compute in Hf. injection Hf as <-. exact Hs.
Defined.
