(* ===== verification/Url.v ===== *)
(** * Addresses

    [encodeURIComponent] and the [URLSearchParams] a page reads with [useSearchParams], as
    far as the client uses them: an address is a path and an optional query of
    [k=v] pairs, written by the code that navigates and read by the page it reaches. A
    string is its UTF-8 bytes, so percent encoding works byte by byte. *)
From stdpp Require Import base list strings.
From Stdlib Require Import ZArith Lia Ascii.
From S2P Require Import Prelude JsString.
#[local] Open Scope string_scope.
#[local] Open Scope list_scope.
#[local] Open Scope Z_scope.

(** The characters [encodeURIComponent] leaves alone. *)
Definition unreserved (a : ascii) : bool :=
  let n := nat_of_ascii a in
  ((48 <=? n) && (n <=? 57) || (65 <=? n) && (n <=? 90) || (97 <=? n) && (n <=? 122))%nat ||
  includes (String.list_ascii_of_string "-_.!~*'()") a.
Definition hex_digit (n : nat) : ascii := ascii_of_nat (if (n <? 10)%nat then 48 + n else 55 + n).
Fixpoint encodeURIComponent (s : string) : string :=
  match s with
  | EmptyString => ""
  | String a s' =>
      if unreserved a then String a (encodeURIComponent s')
      else let n := nat_of_ascii a in
           String "%"%char (String (hex_digit (n / 16)) (String (hex_digit (n mod 16)) (encodeURIComponent s')))
  end.

Definition hex_value (a : ascii) : option nat :=
  let n := nat_of_ascii a in
  if ((48 <=? n) && (n <=? 57))%nat then Some (n - 48)%nat
  else if ((65 <=? n) && (n <=? 70))%nat then Some (n - 55)%nat
  else if ((97 <=? n) && (n <=? 102))%nat then Some (n - 87)%nat
  else None.

(** The value of a form-encoded pair: [+] is a space, [%XX] a byte, anything else itself. *)
Fixpoint form_decode (s : string) : string :=
  match s with
  | EmptyString => ""
  | String a s' =>
      if a === "%"%char then
        match s' with
        | String h (String l s'') =>
            match hex_value h, hex_value l with
            | Some x, Some y => String (ascii_of_nat (16 * x + y)) (form_decode s'')
            | _, _ => String a (form_decode s')
            end
        | _ => String a (form_decode s')
        end
      else if a === "+"%char then String " "%char (form_decode s')
      else String a (form_decode s')
  end.

(** Up to the first [c], and what follows it. *)
Fixpoint cut_at (c : ascii) (s : string) : string * option string :=
  match s with
  | EmptyString => ("", None)
  | String a s' =>
      if bool_decide (a = c) then ("", Some s')
      else let '(p, q) := cut_at c s' in (String a p, q)
  end.

(** Path and query of an address. *)
Definition href_path (href : string) : string := (cut_at "?"%char href).1.
Definition href_query (href : string) : string := (cut_at "?"%char href).2 ?? "".

(** [searchParams.get(k)]: the value of the first pair with that name. *)
Definition search_get (query k : string) : option string :=
  match List.find (λ p, form_decode (cut_at "="%char p).1 === k) (List.filter truthy (split "&"%char query)) with
  | Some p => Some (form_decode ((cut_at "="%char p).2 ?? ""))
  | None => None
  end.

Example get_flow : search_get (href_query "/verify-email?flow=signup") "flow" = Some "signup".
Proof. vm_compute. reflexivity. Qed.
Example get_escaped : search_get "a=1&b=x%26y+z" "b" = Some "x&y z".
Proof. vm_compute. reflexivity. Qed.

(** ** Lemmas *)

Lemma hex_byte n : (n < 256)%nat →
  hex_value (hex_digit (n / 16)) = Some (n / 16)%nat ∧ hex_value (hex_digit (n mod 16)) = Some (n mod 16)%nat.
Proof.
  intros Hn.
  assert (Hd : ∀ d, (d < 16)%nat → hex_value (hex_digit d) = Some d) by (intros d Hd; do 16 (destruct d as [|d]; [done|]); lia).
  split; apply Hd; [apply Nat.Div0.div_lt_upper_bound; lia|apply Nat.mod_upper_bound; lia].
Qed.

Lemma unreserved_plain a : unreserved a = true → a ≠ "%"%char ∧ a ≠ "+"%char ∧ a ≠ "&"%char ∧ a ≠ "="%char ∧ a ≠ "?"%char.
Proof. intros Hu. split_and!; intros ->; by vm_compute in Hu. Qed.

Lemma form_decode_plain a s : a ≠ "%"%char → a ≠ "+"%char → form_decode (String a s) = String a (form_decode s).
Proof. intros H1 H2. cbn [form_decode]. by rewrite !bool_decide_eq_false_2. Qed.

Lemma form_decode_encode s : form_decode (encodeURIComponent s) = s.
Proof.
  induction s as [|a s IH]; [done|]. cbn [encodeURIComponent]. destruct (unreserved a) eqn:Hu.
  - apply unreserved_plain in Hu as (H1 & H2 & _). by rewrite form_decode_plain, IH.
  - pose proof (nat_ascii_bounded a) as Hb. destruct (hex_byte _ Hb) as [Hh Hl]. cbn [form_decode].
    rewrite bool_decide_eq_true_2, Hh, Hl, IH by done. f_equal.
    rewrite <-Nat.div_mod_eq. apply ascii_nat_embedding.
Qed.

(** An encoded component contains none of the characters with a meaning in an address. *)
Lemma encode_safe c s : In c ["&"; "="; "?"; "#"; "/"; "+"]%char →
  includes (String.list_ascii_of_string (encodeURIComponent s)) c = false.
Proof.
  intros Hc. induction s as [|a s IH]; [done|]. cbn [encodeURIComponent].
  assert (Hhex : ∀ n, (n < 16)%nat → (hex_digit n === c) = false).
  { intros n Hn. do 16 (destruct n as [|n]; [destruct_or?; simpl in Hc; intuition subst; reflexivity|]). lia. }
  unfold includes in *. destruct (unreserved a) eqn:Hu; cbn [String.list_ascii_of_string existsb].
  - rewrite IH, orb_false_r. apply bool_decide_eq_false. intros ->.
    simpl in Hc. intuition subst; by vm_compute in Hu.
  - pose proof (nat_ascii_bounded a). rewrite IH.
    rewrite !Hhex; [|apply Nat.mod_upper_bound; lia|apply Nat.Div0.div_lt_upper_bound; lia].
    rewrite !orb_false_r. simpl in Hc. intuition subst; reflexivity.
Qed.

Lemma cut_at_app c s1 s2 :
  includes (String.list_ascii_of_string s1) c = false → cut_at c (s1 +:+ String c s2) = (s1, Some s2).
Proof.
  induction s1 as [|a s1 IH]; intros Hs.
  - change ("" +:+ String c s2) with (String c s2). cbn [cut_at]. by rewrite bool_decide_eq_true_2.
  - cbn in Hs. apply orb_false_iff in Hs as [Ha Hs]. rewrite string_app_cons. cbn [cut_at].
    rewrite Ha. by rewrite IH.
Qed.

(** What a page reads back is what the link was built from. *)
Lemma search_get_encoded k v :
  includes (String.list_ascii_of_string k) "&"%char = false → includes (String.list_ascii_of_string k) "="%char = false →
  form_decode k = k → search_get (k +:+ String "="%char (encodeURIComponent v)) k = Some v.
Proof.
  intros Hk1 Hk2 Hk3. unfold search_get.
  assert (Hs : split "&"%char (k +:+ String "="%char (encodeURIComponent v)) = [k +:+ String "="%char (encodeURIComponent v)]).
  { apply split_no_sep. clear - Hk1. pose proof (encode_safe "&"%char v ltac:(by left)) as Hv.
    induction k as [|a k IH]; [exact Hv|]. cbn in Hk1. apply orb_false_iff in Hk1 as [Ha Hk1].
    rewrite string_app_cons. cbn. rewrite Ha. by apply IH. }
  rewrite Hs. cbn [List.filter]. assert (Ht : truthy (k +:+ String "="%char (encodeURIComponent v)) = true) by (by destruct k).
  rewrite Ht. cbn [List.find]. rewrite cut_at_app by done. cbn [fst snd].
  rewrite Hk3, bool_decide_eq_true_2 by done. f_equal. rewrite cut_at_app by done. apply form_decode_encode.
Qed.
