(* ===== verification/Book.v ===== *)
(** * The book of the prototype: its tree and its roll-ups

    Models [prototype/lib/mock-book.ts]: the entries, sources, entities, artifacts and
    citations, the lookups, the two loops over the tree ([pathOf] climbs to the root,
    [descendantsOf] pops a stack) and the counts the surfaces show. The functions of
    the source read the module's constant arrays; here the arrays are arguments, so that
    the theorems say which shape of data the loops need, and the constants of the
    source are shown to have it. A loop takes fuel and answers [None] when it runs
    out; [fuel_is_decisive] shows that the fuel chosen runs out only when the loop
    never ends. A JavaScript [Set] is the list of its elements in insertion order. *)
From stdpp Require Import base list strings.
From Stdlib Require Import ZArith Lia QArith_base.
From S2P Require Import Prelude JsNumber.
#[local] Open Scope string_scope.
#[local] Open Scope list_scope.
#[local] Open Scope Z_scope.

(** ** Data *)

Inductive EntryLevel := Chapter | Topic | Subtopic.
Inductive EntryStatus := Current | Stale | Building.
#[export] Instance EntryLevel_eq_dec : EqDecision EntryLevel.
Proof. solve_decision. Defined.
#[export] Instance EntryStatus_eq_dec : EqDecision EntryStatus.
Proof. solve_decision. Defined.

Record BookEntry := mkEntry {
  be_id : string; be_level : EntryLevel; be_parentId : option string; be_title : string;
  be_status : EntryStatus; be_summary : option string; be_lastRebuilt : option string;
  be_citationIds : option (list string); be_entityIds : option (list string) }.

#[export] Instance BookEntry_eq_dec : EqDecision BookEntry.
Proof. solve_decision. Defined.

Inductive SourceHealth := Synced | Syncing | Failed | AuthLapse.
#[export] Instance SourceHealth_eq_dec : EqDecision SourceHealth.
Proof. solve_decision. Defined.
Record Source := mkSource {
  so_id : string; so_name : string; so_kind : string; so_color : string; so_letter : string;
  so_health : SourceHealth; so_artifacts : Z; so_containers : Z; so_lastSync : string }.

Inductive EntityType := Policy | Team | RoleEntity | Event | System.
Inductive EntityStatus := Canonical | Ambiguous.
#[export] Instance EntityType_eq_dec : EqDecision EntityType.
Proof. solve_decision. Defined.
#[export] Instance EntityStatus_eq_dec : EqDecision EntityStatus.
Proof. solve_decision. Defined.
Record Entity := mkEntity {
  en_id : string; en_name : string; en_type : EntityType; en_aliases : Z; en_mentions : Z;
  en_sources : Z; en_status : EntityStatus }.

Record Artifact := mkArtifact {
  ar_id : string; ar_source : string; ar_sourceLabel : string; ar_container : string;
  ar_author : string; ar_timestamp : string; ar_text : string }.
Record Citation := mkCitation { ci_id : string; ci_artifactId : string; ci_quote : string }.

Definition ARTIFACTS : list Artifact :=
  [mkArtifact "a-slack-1" "slack" "Slack" "#cs-refunds" "Dana Olsen" "Mar 14, 2026 · 11:02"
     "For EU VAT refunds above €500 we always route to Finance for a second sign-off before issuing. Below that, support can issue directly. This came out of the Q4 audit — anything over the threshold needs the paper trail.";
   mkArtifact "a-notion-1" "notion" "Notion" "Finance / Policies" "Priya Raman" "Feb 2, 2026"
     "Refund policy v3. Thresholds: €500 (EU) / $600 (US). Above threshold requires Finance approval and a logged reason code. Reason codes live in the billing console.";
   mkArtifact "a-jira-1" "jira" "Jira" "OPS" "Sam Okafor" "Mar 9, 2026"
     "OPS-4471: customer issued €820 refund without Finance sign-off. Root cause: agent unaware of the EU threshold. Action: surface the threshold in the refund flow.";
   mkArtifact "a-slack-2" "slack" "Slack" "#incidents" "Lee Carter" "Mar 22, 2026 · 03:14"
     "Sev-1 page goes to the on-call SRE first. If unacked in 5 min it escalates to the secondary, then the EM. Open the incident channel before anything else so the timeline is captured.";
   mkArtifact "a-notion-2" "notion" "Notion" "Engineering / Runbooks" "Priya Raman" "Jan 18, 2026"
     "Incident severities. Sev-1: customer-facing outage. Escalation: on-call → secondary (5 min) → EM (10 min). Comms owner posts status every 15 min."].

Definition CITATIONS : list Citation :=
  [mkCitation "c1" "a-slack-1"
     "For EU VAT refunds above €500 we always route to Finance for a second sign-off before issuing.";
   mkCitation "c2" "a-notion-1"
     "Above threshold requires Finance approval and a logged reason code.";
   mkCitation "c3" "a-jira-1"
     "customer issued €820 refund without Finance sign-off. Root cause: agent unaware of the EU threshold.";
   mkCitation "c4" "a-slack-2"
     "Sev-1 page goes to the on-call SRE first. If unacked in 5 min it escalates to the secondary, then the EM.";
   mkCitation "c5" "a-notion-2"
     "Escalation: on-call → secondary (5 min) → EM (10 min). Comms owner posts status every 15 min."].

Definition BOOK : list BookEntry :=
  [mkEntry "ch-ops" Chapter None "Operations" Current
     (Some "How the company runs day to day — refunds, approvals, and operational policy. [1]")
     (Some "2 days ago") (Some []) None;
   mkEntry "ch-eng" Chapter None "Engineering" Current
     (Some "How engineering builds and operates — incidents, runbooks, and release process.")
     (Some "1 day ago") None None;
   mkEntry "ch-cust" Chapter None "Customer" Building
     None
     None None None;
   mkEntry "ch-fin" Chapter None "Finance" Building
     None
     None None None;
   mkEntry "ch-people" Chapter None "People" Building
     None
     None None None;
   mkEntry "ch-product" Chapter None "Product" Building
     None
     None None None;
   mkEntry "t-refunds" Topic (Some "ch-ops") "Refunds & adjustments" Current
     (Some "Refund handling is threshold-based: support issues small refunds directly; anything above the regional threshold needs Finance sign-off and a logged reason. [1][2]")
     (Some "2 days ago") None None;
   mkEntry "t-approvals" Topic (Some "ch-ops") "Approvals & sign-offs" Building
     None
     None None None;
   mkEntry "s-eu-vat" Subtopic (Some "t-refunds") "EU VAT refunds over €500" Current
     (Some "EU VAT refunds above €500 are routed to Finance for a second sign-off before they're issued; below the threshold, support can issue directly. [1] The threshold and a logged reason code became mandatory after the Q4 audit, [2] and a missed sign-off on an €820 refund is why the threshold is now surfaced in the refund flow. [3]")
     (Some "Mar 15, 2026") (Some ["c1"; "c2"; "c3"]) (Some ["e-eu-threshold"; "e-finance"; "e-q4-audit"; "e-reason-code"]);
   mkEntry "s-us-refunds" Subtopic (Some "t-refunds") "US refunds over $600" Stale
     (Some "US refunds follow the same shape as EU with a $600 threshold; above it requires Finance approval and a reason code. [1]")
     (Some "Jan 30, 2026") (Some ["c2"]) (Some ["e-finance"; "e-reason-code"]);
   mkEntry "t-incidents" Topic (Some "ch-eng") "Incident response" Current
     (Some "Incident response is severity-driven with a fixed escalation ladder and a comms cadence. [1]")
     (Some "1 day ago") None None;
   mkEntry "s-sev1" Subtopic (Some "t-incidents") "Sev-1 escalation path" Current
     (Some "A Sev-1 page goes to the on-call SRE first; if it's unacknowledged within 5 minutes it escalates to the secondary, then to the EM. [1] Severity definitions and the comms cadence (status every 15 minutes) live in the runbook. [2]")
     (Some "Mar 23, 2026") (Some ["c4"; "c5"]) (Some ["e-sev1"; "e-oncall"; "e-em"])].

Definition SOURCES : list Source :=
  [mkSource "src-slack" "Slack" "slack" "#4A154B" "S" Synced 18420 34 "2 min ago";
   mkSource "src-notion" "Notion" "notion" "#111111" "N" Synced 1240 52 "9 min ago";
   mkSource "src-jira" "Jira" "jira" "#2684FF" "J" Synced 6310 7 "14 min ago";
   mkSource "src-github" "GitHub" "github" "#1F2328" "G" Syncing 9870 18 "syncing…";
   mkSource "src-gdrive" "Google Drive" "gdrive" "#1FA463" "D" AuthLapse 0 0 "auth expired 2h ago"].

Definition ENTITIES : list Entity :=
  [mkEntity "e-eu-threshold" "EU VAT threshold (€500)" Policy 3 14 3 Canonical;
   mkEntity "e-finance" "Finance" Team 2 38 4 Canonical;
   mkEntity "e-q4-audit" "Q4 2025 audit" Event 1 6 2 Canonical;
   mkEntity "e-reason-code" "Reason code" Policy 2 11 2 Canonical;
   mkEntity "e-sev1" "Sev-1" Policy 4 27 3 Canonical;
   mkEntity "e-oncall" "On-call SRE" RoleEntity 3 19 2 Canonical;
   mkEntity "e-em" "Engineering Manager" RoleEntity 5 9 2 Ambiguous].

(** ** Sets *)

Definition set_add (s : list string) (x : string) : list string := if includes s x then s else s ++ [x].
Definition set_of (xs : list string) : list string := fold_left set_add xs [].

(** ** Lookups and loops *)

Section Corpus.
Context (book : list BookEntry) (citations : list Citation) (artifacts : list Artifact)
        (entities : list Entity) (sources : list Source).

Definition getEntry (id : string) : option BookEntry := List.find (λ e, be_id e === id) book.
Definition childrenOf (id : option string) : list BookEntry := List.filter (λ e, be_parentId e === id) book.

(** [cur.parentId ? getEntry(cur.parentId) : undefined]. *)
Definition parent_entry (e : BookEntry) : option BookEntry :=
  match be_parentId e with Some p => if truthy p then getEntry p else None | None => None end.

Fixpoint pathOf_loop (fuel : nat) (chain : list BookEntry) (cur : option BookEntry) : option (list BookEntry) :=
  match cur with
  | None => Some chain
  | Some e => match fuel with O => None | S n => pathOf_loop n (e :: chain) (parent_entry e) end
  end.
Definition pathOf (id : string) : option (list BookEntry) := pathOf_loop (length book) [] (getEntry id).

Definition getCitation (id : string) : option Citation := List.find (λ c, ci_id c === id) citations.
Definition getArtifact (id : string) : option Artifact := List.find (λ a, ar_id a === id) artifacts.
Definition getEntity (id : string) : option Entity := List.find (λ e, en_id e === id) entities.
Definition sourceByKind (kind : string) : option Source := List.find (λ s, so_kind s === kind) sources.

Definition recentEntries : list BookEntry :=
  take 6 (List.filter (λ e, (be_level e !== Chapter) && otruthy (be_summary e)) book).

(** [stack.pop()] takes from the end of the array, [push] adds there. *)
Fixpoint descendants_loop (fuel : nat) (stack out : list BookEntry) : option (list BookEntry) :=
  match rev stack with
  | [] => Some out
  | e :: rest =>
      match fuel with
      | O => None
      | S n => descendants_loop n (rev rest ++ childrenOf (Some (be_id e))) (out ++ [e])
      end
  end.
Definition descendantsOf (id : string) : option (list BookEntry) :=
  descendants_loop (length book) (childrenOf (Some id)) [].

(** The entries a roll-up of [e] covers. *)
Definition scope_of (e : BookEntry) : option (list BookEntry) :=
  if be_level e === Subtopic then Some [e] else (λ ds, e :: ds) <$> descendantsOf (be_id e).

Definition cited_artifacts (scope : list BookEntry) : list string :=
  set_of (flat_map (λ n, omap (λ cid, ci_artifactId <$> getCitation cid) (be_citationIds n ?? [])) scope).
Definition mentioned_entities (scope : list BookEntry) : list string :=
  set_of (flat_map (λ n, be_entityIds n ?? []) scope).

Definition artifactsOfEntry (id : string) : option (list Artifact) :=
  match getEntry id with
  | None => Some []
  | Some e => (λ scope, omap getArtifact (cited_artifacts scope)) <$> scope_of e
  end.
Definition entitiesOfEntry (id : string) : option (list Entity) :=
  match getEntry id with
  | None => Some []
  | Some e => (λ scope, omap getEntity (mentioned_entities scope)) <$> scope_of e
  end.

Record EntryStats := mkStats {
  st_topics : Z; st_subtopics : Z; st_sources : Z; st_citations : Z; st_entities : Z;
  st_current : Z; st_stale : Z; st_building : Z; st_coverage : JsNumber }.

Definition count {A} (f : A → bool) (l : list A) : Z := js_length (List.filter f l).

Definition stats_of (scope : list BookEntry) : EntryStats :=
  let counted := List.filter (λ n, be_level n !== Chapter) scope in
  let current := count (λ n, be_status n === Current) counted in
  mkStats (count (λ n, be_level n === Topic) scope) (count (λ n, be_level n === Subtopic) scope)
    (js_length (cited_artifacts scope))
    (js_length (set_of (flat_map (λ n, be_citationIds n ?? []) scope)))
    (js_length (mentioned_entities scope))
    current (count (λ n, be_status n === Stale) counted) (count (λ n, be_status n === Building) counted)
    (if js_length counted =? 0 then int 0 else div (int current) (int (js_length counted))).

Definition entryStats (id : string) : option EntryStats :=
  match getEntry id with
  | None => Some (mkStats 0 0 0 0 0 0 0 0 (int 0))
  | Some e => stats_of <$> scope_of e
  end.

Record Lineage := mkLineage { li_artifacts : Z; li_sources : Z; li_lastRebuilt : option string; li_queued : bool }.

Definition lineageOfEntry (id : string) : option Lineage :=
  let e := getEntry id in
  (λ arts, mkLineage (js_length arts) (js_length (set_of (map ar_source arts)))
             (e ≫= be_lastRebuilt)
             (match e with Some e => (be_status e === Stale) || (be_status e === Building) | None => false end))
  <$> artifactsOfEntry id.

Record SystemStatus := mkSystem {
  sy_sources : Z; sy_sourcesHealthy : Z; sy_artifacts : Z; sy_entries : Z; sy_entities : Z;
  sy_current : Z; sy_stale : Z; sy_building : Z; sy_lastSync : string }.

Definition healthy (s : Source) : bool := (so_health s === Synced) || (so_health s === Syncing).

Definition systemStatus : SystemStatus :=
  let counted := List.filter (λ e, be_level e !== Chapter) book in
  mkSystem (js_length sources) (count healthy sources) (fold_left (λ n s, n + so_artifacts s) sources 0)
    (js_length book) (js_length entities)
    (count (λ e, be_status e === Current) counted) (count (λ e, be_status e === Stale) counted)
    (count (λ e, be_status e === Building) book) "2 min ago".

End Corpus.

Definition chapters : list BookEntry := childrenOf BOOK None.

(** ** Sets keep each element once *)

Lemma set_add_spec s x : NoDup s → NoDup (set_add s x) ∧ (∀ y, In y (set_add s x) ↔ In y s ∨ y = x).
Proof.
  intros Hnd. unfold set_add. destruct (includes s x) eqn:Hi.
  - apply includes_In in Hi. split; [done|]. intros y. split; [tauto|]. by intros [?| ->].
  - apply includes_not_In in Hi. split.
    + apply NoDup_app. split_and!; [done| |apply NoDup_singleton].
      intros z Hz ->%list_elem_of_singleton. by apply Hi, list_elem_of_In.
    + intros y. rewrite in_app_iff. simpl. naive_solver.
Qed.

Lemma set_of_spec xs : NoDup (set_of xs) ∧ (∀ y, In y (set_of xs) ↔ In y xs).
Proof.
  unfold set_of.
  assert (Hgen : ∀ s, NoDup s → NoDup (fold_left set_add xs s) ∧ (∀ y, In y (fold_left set_add xs s) ↔ In y s ∨ In y xs)).
  { induction xs as [|x xs IH]; intros s Hs; simpl; [naive_solver|].
    destruct (set_add_spec s x Hs) as [Hn Hin]. destruct (IH _ Hn) as [Hn' Hin'].
    split; [done|]. intros y. rewrite Hin', Hin. naive_solver. }
  destruct (Hgen [] (NoDup_nil_2)) as [H1 H2]. split; [done|]. intros y. rewrite H2. naive_solver.
Qed.

(** ** Climbing to the root *)

Section Paths.
Context (book : list BookEntry).

(** The entries a climb visits, from the entry upwards. *)
Fixpoint climb (fuel : nat) (cur : option BookEntry) : option (list BookEntry) :=
  match cur with
  | None => Some []
  | Some e => match fuel with O => None | S n => cons e <$> climb n (parent_entry book e) end
  end.

Lemma pathOf_loop_climb n chain cur :
  pathOf_loop book n chain cur = (λ l, rev l ++ chain) <$> climb n cur.
Proof.
  revert chain cur. induction n as [|n IH]; intros chain [e|]; try done.
  simpl. rewrite IH. destruct (climb n _); simpl; [|done]. by rewrite <- app_assoc.
Qed.

Lemma climb_more n m cur l : climb n cur = Some l → (n <= m)%nat → climb m cur = Some l.
Proof.
  revert m cur l. induction n as [|n IH]; intros m [e|] l Hl Hle; simpl in *; try done; try (by destruct m).
  destruct m as [|m]; [lia|]. simpl. apply fmap_Some in Hl as (l' & Hl & ->). rewrite (IH m _ l'); [done|done|lia].
Qed.

Lemma climb_det n m cur l l' : climb n cur = Some l → climb m cur = Some l' → l = l'.
Proof.
  intros H1 H2. apply (climb_more _ (max n m)) in H1; [|lia]. apply (climb_more _ (max n m)) in H2; [|lia]. congruence.
Qed.

Lemma climb_cons n e l :
  climb n (Some e) = Some l → ∃ l', l = e :: l' ∧ climb n (parent_entry book e) = Some l'.
Proof.
  destruct n as [|n]; [done|]. intros Hl. simpl in Hl. apply fmap_Some in Hl as (l' & Hl & ->).
  exists l'. split; [done|]. apply (climb_more n); [done|lia].
Qed.

(** A visited entry starts a climb of its own, which is the rest of this one. *)
Lemma climb_suffix n cur l x :
  climb n cur = Some l → In x l → ∃ l1 l2, l = l1 ++ x :: l2 ∧ climb n (Some x) = Some (x :: l2).
Proof.
  revert l. revert cur. induction n as [|n IH]; intros [e|] l Hl Hx; simpl in Hl; try (simplify_eq; by destruct Hx).
  apply fmap_Some in Hl as (l' & Hl & ->). destruct Hx as [->|Hx].
  - exists [], l'. split; [done|]. simpl. by rewrite Hl.
  - destruct (IH _ _ Hl Hx) as (l1 & l2 & -> & Hc). exists (e :: l1), l2. split; [done|].
    apply (climb_more n); [done|lia].
Qed.

(** A climb that ends visits no entry twice. *)
Lemma climb_NoDup n cur l : climb n cur = Some l → NoDup l.
Proof.
  revert cur l. induction n as [|n IH]; intros [e|] l Hl; simpl in Hl; try (simplify_eq; constructor).
  apply fmap_Some in Hl as (l' & Hl & ->). constructor; [|by eapply IH].
  intros Hin%list_elem_of_In. destruct (climb_suffix _ _ _ _ Hl Hin) as (l1 & l2 & -> & Hc).
  apply climb_cons in Hc as (l3 & [= <-] & Hc). assert (Heq := climb_det _ _ _ _ _ Hl Hc).
  apply (f_equal length) in Heq. rewrite length_app in Heq. simpl in Heq. lia.
Qed.

Lemma getEntry_Some id e : getEntry book id = Some e → In e book ∧ be_id e = id.
Proof. intros Hf. apply find_some in Hf as [Hin Hid]. by apply bool_decide_eq_true in Hid. Qed.

Lemma parent_entry_Some e p : parent_entry book e = Some p → In p book ∧ be_parentId e = Some (be_id p) ∧ truthy (be_id p) = true.
Proof.
  unfold parent_entry. destruct (be_parentId e) as [q|]; [|done]. destruct (truthy q) eqn:Hq; [|done].
  intros [Hin <-]%getEntry_Some. done.
Qed.

Lemma climb_in_book n cur l : (∀ e, cur = Some e → In e book) → climb n cur = Some l → ∀ x, In x l → In x book.
Proof.
  revert cur l. induction n as [|n IH]; intros [e|] l Hcur Hl x Hx; simpl in Hl; try (simplify_eq; by destruct Hx).
  apply fmap_Some in Hl as (l' & Hl & ->). destruct Hx as [<-|Hx]; [by apply Hcur|].
  eapply IH; [|done|done]. intros p Hp. by apply parent_entry_Some in Hp as [? _].
Qed.

Lemma climb_length n cur l : climb n cur = Some l → climb (length l) cur = Some l.
Proof.
  revert cur l. induction n as [|n IH]; intros [e|] l Hl; simpl in Hl; try (by simplify_eq).
  apply fmap_Some in Hl as (l' & Hl & ->). simpl. by rewrite (IH _ _ Hl).
Qed.

(** As many steps as there are entries decide whether the climb ends at all. *)
Lemma climb_enough n cur l :
  (∀ e, cur = Some e → In e book) → climb n cur = Some l → climb (length book) cur = Some l.
Proof.
  intros Hcur Hl. apply (climb_more (length l)); [by eapply climb_length|].
  apply NoDup_incl_length; [by apply NoDup_ListNoDup; eapply climb_NoDup|].
  intros x Hx. by eapply climb_in_book.
Qed.

End Paths.

(** ** Well-formed books *)

(** What the stable ids promise: they are distinct and not empty, and no entry is its
    own ancestor, that is, every climb ends. *)
Definition wf_book (book : list BookEntry) : bool :=
  bool_decide (NoDup (map be_id book)) && forallb (λ e, truthy (be_id e)) book &&
  forallb (λ e, bool_decide (is_Some (const () <$> climb book (length book) (Some e)))) book.

Class WfBook (book : list BookEntry) := {
  wf_ids : NoDup (map be_id book);
  wf_named : ∀ e, In e book → truthy (be_id e) = true;
  wf_climbs : ∀ e, In e book → ∃ l, climb book (length book) (Some e) = Some l }.

Lemma wf_book_correct book : wf_book book = true → WfBook book.
Proof.
  intros [[H1 H2]%andb_true_iff H3]%andb_true_iff. rewrite forallb_forall in H2, H3. constructor.
  - by apply bool_decide_eq_true in H1.
  - done.
  - intros e He. specialize (H3 e He). apply bool_decide_eq_true in H3.
    destruct (climb _ _ _) as [l|]; [by exists l|]. by destruct H3.
Qed.

#[export] Instance BOOK_wf : WfBook BOOK.
Proof. apply wf_book_correct. by vm_compute. Qed.

Section Trees.
Context (book : list BookEntry) `{WfBook book}.

(** The entry and its ancestors, nearest first. *)
Definition lineage (e : BookEntry) : list BookEntry := default [] (climb book (length book) (Some e)).

Lemma lineage_climb e : In e book → climb book (length book) (Some e) = Some (lineage e).
Proof. intros He. unfold lineage. by destruct (wf_climbs e He) as [l ->]. Qed.

Lemma id_inj x y : In x book → In y book → be_id x = be_id y → x = y.
Proof.
  pose proof wf_ids as Hnd. intros Hx Hy Hid. apply list_elem_of_In in Hx, Hy.
  apply list_elem_of_lookup in Hx as [i Hi]. apply list_elem_of_lookup in Hy as [j Hj].
  assert (Hij : i = j).
  { eapply NoDup_lookup; [exact Hnd| |].
    - rewrite list_lookup_fmap, Hi. reflexivity.
    - rewrite list_lookup_fmap, Hj. simpl. by rewrite Hid. }
  congruence.
Qed.

Lemma getEntry_id e : In e book → getEntry book (be_id e) = Some e.
Proof.
  intros He. unfold getEntry. destruct (List.find _ book) as [e'|] eqn:Hf.
  - apply getEntry_Some in Hf as [Hin Hid]. f_equal. by apply id_inj.
  - apply (find_none _ _ Hf) in He. by rewrite bool_decide_eq_true_2 in He.
Qed.

Lemma parent_of_child x c : In x book → In c (childrenOf book (Some (be_id x))) → In c book ∧ parent_entry book c = Some x.
Proof.
  intros Hx [Hin Hp]%filter_In. apply bool_decide_eq_true in Hp. split; [done|].
  unfold parent_entry. rewrite Hp, wf_named by done. by apply getEntry_id.
Qed.

Lemma child_of_parent x c : In c book → parent_entry book c = Some x → In c (childrenOf book (Some (be_id x))).
Proof.
  intros Hc (_ & Hp & _)%parent_entry_Some. apply filter_In. split; [done|]. by apply bool_decide_eq_true.
Qed.

Lemma lineage_unfold e : In e book →
  lineage e = e :: match parent_entry book e with Some p => lineage p | None => [] end.
Proof.
  intros He. pose proof (lineage_climb e He) as Hc. apply climb_cons in Hc as (l' & -> & Hc). f_equal.
  destruct (parent_entry book e) as [p|] eqn:Hp.
  - apply parent_entry_Some in Hp as [Hp _]. rewrite (lineage_climb p Hp) in Hc. congruence.
  - by destruct (length book); simplify_eq/=.
Qed.

Lemma lineage_in e x : In e book → In x (lineage e) → In x book.
Proof.
  intros He. eapply climb_in_book; [|by apply lineage_climb]. by intros ? [= <-].
Qed.

Lemma lineage_NoDup e : In e book → NoDup (lineage e).
Proof. intros He. eapply climb_NoDup. by apply lineage_climb. Qed.

Lemma lineage_suffix e x : In e book → In x (lineage e) → ∃ l, lineage e = l ++ lineage x.
Proof.
  intros He Hx. pose proof (lineage_in e x He Hx) as Hxb.
  destruct (climb_suffix _ _ _ _ _ (lineage_climb e He) Hx) as (l1 & l2 & Heq & Hc).
  rewrite lineage_climb in Hc by done. exists l1. rewrite Heq. congruence.
Qed.

Lemma lineage_trans e x y : In e book → In x (lineage e) → In y (lineage x) → In y (lineage e).
Proof. intros He Hx Hy. destruct (lineage_suffix e x He Hx) as [l ->]. apply in_app_iff. by right. Qed.

Lemma lineage_self e : In e book → In e (lineage e).
Proof. intros He. rewrite lineage_unfold by done. by left. Qed.

(** Two ancestors with the same parent are the same. *)
Lemma lineage_sibling e c d x :
  In e book → In c (lineage e) → In d (lineage e) →
  parent_entry book c = Some x → parent_entry book d = Some x → c = d.
Proof.
  intros He Hc Hd Hpc Hpd. pose proof (lineage_in e c He Hc) as Hcb. pose proof (lineage_in e d He Hd) as Hdb.
  destruct (lineage_suffix e c He Hc) as [l1 H1]. destruct (lineage_suffix e d He Hd) as [l2 H2].
  rewrite H1 in H2. rewrite (lineage_unfold c), (lineage_unfold d) in H2 by done. rewrite Hpc, Hpd in H2.
  assert (Hlen : length l1 = length l2).
  { apply (f_equal length) in H2. rewrite !length_app in H2. simpl in H2. lia. }
  apply app_inj_1 in H2 as [_ Heq]; [by injection Heq|done].
Qed.

(** The subtree under an entry, the entry included, in the order of the book. *)
Definition subtree (x : BookEntry) : list BookEntry :=
  List.filter (λ e, bool_decide (be_id x ∈ map be_id (lineage e))) book.

Lemma In_subtree x e : In x book → In e (subtree x) ↔ In e book ∧ In x (lineage e).
Proof.
  intros Hx. unfold subtree. rewrite filter_In, bool_decide_eq_true, list_elem_of_In, in_map_iff. split.
  - intros [He (y & Hid & Hy)]. split; [done|]. assert (y = x) as <- by (apply id_inj; [by eapply lineage_in|done|done]). done.
  - intros [He Hy]. split; [done|]. by exists x.
Qed.

Lemma book_NoDup : NoDup book.
Proof. eapply NoDup_fmap_1. exact wf_ids. Qed.

Lemma subtree_NoDup x : NoDup (subtree x).
Proof. apply NoDup_ListNoDup, List.NoDup_filter, NoDup_ListNoDup, book_NoDup. Qed.

(** An entry strictly below [x] is below one of the children of [x]. *)
Lemma below_a_child x e : In x book → In e book → In x (lineage e) → be_id e ≠ be_id x →
  ∃ c, In c (childrenOf book (Some (be_id x))) ∧ In c (lineage e).
Proof.
  intros Hx He. remember (length (lineage e)) as n eqn:Hn. revert e He Hn.
  induction n as [|n IH]; intros e He Hn Hin Hne; rewrite lineage_unfold in Hin, Hn by done; [done|].
  simpl in Hn. destruct Hin as [<-|Hin]; [done|]. destruct (parent_entry book e) as [p|] eqn:Hp; [|done].
  pose proof (parent_entry_Some _ _ _ Hp) as [Hpb _].
  destruct (decide (be_id p = be_id x)) as [Hid|Hpx].
  - assert (p = x) as -> by (by apply id_inj). exists e. split; [by apply child_of_parent|by apply lineage_self].
  - destruct (IH p Hpb) as (c & Hc & Hs); [lia|done|done|]. exists c. split; [done|].
    rewrite lineage_unfold by done. rewrite Hp. by right.
Qed.

(** The subtrees of siblings share nothing. *)
Lemma siblings_disjoint x kids :
  In x book → NoDup kids → (∀ c, In c kids → In c book ∧ parent_entry book c = Some x) → NoDup (flat_map subtree kids).
Proof.
  intros Hx Hnd Hkids. induction kids as [|c kids IH]; [constructor|]. inversion Hnd as [|? ? Hni Hnd']; subst. simpl.
  apply NoDup_app. split_and!; [apply subtree_NoDup| |apply IH; [done|naive_solver]].
  intros e He Hin. apply list_elem_of_In in He, Hin. apply in_flat_map in Hin as (d & Hd & Hin).
  destruct (Hkids c) as [Hcb Hpc]; [by left|]. destruct (Hkids d) as [Hdb Hpd]; [by right|].
  apply In_subtree in He as [Heb He]; [|done]. apply In_subtree in Hin as [_ Hin]; [|done].
  assert (c = d) as -> by (by eapply (lineage_sibling e c d x)). by apply Hni, list_elem_of_In.
Qed.

(** No entry is below its own child. *)
Lemma not_below_child x c : In x book → In c book → parent_entry book c = Some x → ¬ In c (lineage x).
Proof.
  intros Hx Hc Hp Hin. destruct (lineage_suffix x c Hx Hin) as [l Hl].
  rewrite (lineage_unfold c) in Hl by done. rewrite Hp in Hl.
  apply (f_equal length) in Hl. rewrite length_app in Hl. simpl in Hl. lia.
Qed.

(** Below an entry are its children and what is below them, each once. *)
Lemma subtree_unfold x : In x book →
  subtree x ≡ₚ x :: flat_map subtree (childrenOf book (Some (be_id x))).
Proof.
  intros Hx.
  assert (Hkids : ∀ c, In c (childrenOf book (Some (be_id x))) → In c book ∧ parent_entry book c = Some x)
    by (intros; by apply parent_of_child).
  apply NoDup_Permutation; [apply subtree_NoDup| |].
  - constructor.
    + intros Hin%list_elem_of_In. apply in_flat_map in Hin as (c & Hc & Hin). destruct (Hkids c Hc) as [Hcb Hp].
      apply In_subtree in Hin as [_ Hin]; [|done]. by apply (not_below_child x c).
    + apply (siblings_disjoint x); [done| |done]. apply NoDup_ListNoDup, List.NoDup_filter, NoDup_ListNoDup, book_NoDup.
  - intros e. rewrite !list_elem_of_In. simpl. rewrite In_subtree, in_flat_map by done. split.
    + intros [He Hin]. destruct (decide (be_id e = be_id x)) as [Hid|Hne]; [left; symmetry; by apply id_inj|right].
      destruct (below_a_child x e Hx He Hin Hne) as (c & Hc & Hl). exists c. split; [done|].
      apply In_subtree; [by apply Hkids|done].
    + intros [<-|(c & Hc & Hin)]; [split; [done|by apply lineage_self]|].
      destruct (Hkids c Hc) as [Hcb Hp]. apply In_subtree in Hin as [He Hin]; [|done]. split; [done|].
      eapply lineage_trans; [done|exact Hin|]. rewrite lineage_unfold by done. rewrite Hp. right. by apply lineage_self.
Qed.

(** The stack loop, started on any stack of entries, returns what is below it. *)
Lemma descendants_loop_spec fuel stack out :
  (∀ e, In e stack → In e book) → (length (flat_map subtree stack) <= fuel)%nat →
  ∃ l, descendants_loop book fuel stack out = Some (out ++ l) ∧ l ≡ₚ flat_map subtree stack.
Proof.
  revert stack out. induction fuel as [|n IH]; intros stack out Hin Hlen.
  - destruct stack as [|x stack] using rev_ind; [exists []; split; [by rewrite app_nil_r|done]|].
    rewrite flat_map_app, length_app in Hlen. simpl in Hlen. rewrite app_nil_r in Hlen.
    assert (Hx : In x book) by (apply Hin, in_app_iff; right; by left).
    pose proof (Permutation_length (subtree_unfold x Hx)) as Hs. simpl in Hs. lia.
  - destruct stack as [|x stack _] using rev_ind; [exists []; split; [by rewrite app_nil_r|done]|].
    assert (Hx : In x book) by (apply Hin, in_app_iff; right; by left).
    pose proof (subtree_unfold x Hx) as Hs.
    assert (Hperm : flat_map subtree (stack ++ [x]) ≡ₚ x :: flat_map subtree (stack ++ childrenOf book (Some (be_id x)))).
    { rewrite !flat_map_app. simpl. rewrite app_nil_r, Hs. by rewrite <- Permutation_middle. }
    simpl. rewrite rev_app_distr. simpl. rewrite rev_involutive.
    destruct (IH (stack ++ childrenOf book (Some (be_id x))) (out ++ [x])) as (l & Hl & Hp).
    + intros e [He|He]%in_app_iff; [apply Hin, in_app_iff; by left|by apply filter_In in He as [He _]].
    + rewrite Hperm in Hlen. simpl in Hlen. lia.
    + exists (x :: l). rewrite Hl, <- app_assoc. split; [done|]. by rewrite Hperm, Hp.
Qed.

Lemma descendantsOf_spec x : In x book →
  ∃ l, descendantsOf book (be_id x) = Some l ∧ x :: l ≡ₚ subtree x.
Proof.
  intros Hx. pose proof (subtree_unfold x Hx) as Hs.
  destruct (descendants_loop_spec (length book) (childrenOf book (Some (be_id x))) []) as (l & Hl & Hp).
  - by intros e [He _]%filter_In.
  - apply Permutation_length in Hs. simpl in Hs. pose proof (filter_length_le (λ e, bool_decide (be_id x ∈ map be_id (lineage e))) book).
    unfold subtree in Hs at 1. lia.
  - exists l. split; [exact Hl|]. by rewrite Hs, Hp.
Qed.

End Trees.

(** ** The theorems *)

Section Ending.
Context (book : list BookEntry).

Inductive ancestor (e : BookEntry) : BookEntry → Prop :=
| ancestor_parent p : parent_entry book e = Some p → ancestor e p
| ancestor_up p q : ancestor e p → parent_entry book p = Some q → ancestor e q.

Lemma ancestor_visited n e l a : climb book n (Some e) = Some (e :: l) → ancestor e a → In a l.
Proof.
  intros Hc Ha. apply climb_cons in Hc as (l' & [= <-] & Hc). induction Ha as [p Hp|p q _ IH Hq].
  - rewrite Hp in Hc. apply climb_cons in Hc as (l'' & -> & _). by left.
  - destruct (climb_suffix _ _ _ _ _ Hc IH) as (l1 & l2 & -> & Hp). apply climb_cons in Hp as (l3 & [= <-] & Hp).
    rewrite Hq in Hp. apply climb_cons in Hp as (l4 & -> & _). apply in_app_iff. right. right. by left.
Qed.

(** The first [n] steps of a climb that is not over by then. *)
Lemma climb_prefix n e :
  climb book n (Some e) = None → ∃ l, length l = n ∧
    (∀ i a b, (e :: l) !! i = Some a → (e :: l) !! S i = Some b → parent_entry book a = Some b).
Proof.
  revert e. induction n as [|n IH]; intros e Hc; [exists []; split; [done|intros [|[]]; done]|].
  simpl in Hc. apply fmap_None in Hc. destruct (parent_entry book e) as [p|] eqn:Hp; [|by destruct n].
  destruct (IH p Hc) as (l & Hlen & Hl). exists (p :: l). split; [by rewrite <- Hlen|].
  intros [|i] a b Ha Hb; [simpl in *; congruence|]. by apply (Hl i).
Qed.

Lemma chain_ancestor (l : list BookEntry) (i j : nat) a b :
  (∀ (i : nat) a b, l !! i = Some a → l !! S i = Some b → parent_entry book a = Some b) →
  (i < j)%nat → l !! i = Some a → l !! j = Some b → ancestor a b.
Proof.
  intros Hl Hij Ha. revert b. induction Hij as [|j Hij IH]; intros b Hb; [apply ancestor_parent; by apply (Hl i)|].
  destruct (lookup_lt_is_Some_2 l j) as [c Hc]; [apply lookup_lt_Some in Hb; lia|].
  eapply ancestor_up; [by apply IH|by apply (Hl j)].
Qed.

Lemma dup_or_NoDup (l : list BookEntry) : NoDup l ∨ ∃ i j x, (i < j)%nat ∧ l !! i = Some x ∧ l !! j = Some x.
Proof.
  induction l as [|y l IH]; [left; constructor|]. destruct (decide (y ∈ l)) as [Hy|Hy].
  - right. apply list_elem_of_lookup in Hy as [j Hj]. exists 0%nat, (S j), y. split; [lia|done].
  - destruct IH as [?|(i & j & x & Hij & Hi & Hj)]; [left; by constructor|right].
    exists (S i), (S j), x. split; [lia|done].
Qed.

End Ending.

(** C22: When [pathOf] returns, whatever the data: as many steps as the book has entries
    decide it, and it runs forever exactly when the entry, or an ancestor of it, is
    its own ancestor. *)
Theorem pathOf_ends_iff_acyclic book id e :
  getEntry book id = Some e →
  (∀ n p, pathOf_loop book n [] (getEntry book id) = Some p → pathOf book id = Some p) ∧
  ((∀ n, pathOf_loop book n [] (getEntry book id) = None) ↔
   ∃ a, (a = e ∨ ancestor book e a) ∧ ancestor book a a).
Proof.
  intros He. rewrite He.
  assert (Hin : ∀ x, Some e = Some x → In x book) by (intros x [= <-]; by apply getEntry_Some in He as [? _]).
  assert (Hbig : ∀ n p, pathOf_loop book n [] (Some e) = Some p → pathOf book id = Some p).
  { intros n p Hp. unfold pathOf. rewrite He, pathOf_loop_climb in *. apply fmap_Some in Hp as (l & Hl & ->).
    by rewrite (climb_enough book n _ l). }
  split; [exact Hbig|]. split.
  - intros Hn. specialize (Hn (length book)). rewrite pathOf_loop_climb in Hn. apply fmap_None in Hn.
    destruct (climb_prefix _ _ _ Hn) as (l & Hlen & Hl).
    destruct (dup_or_NoDup (e :: l)) as [Hnd|(i & j & x & Hij & Hi & Hj)].
    + exfalso. assert (length (e :: l) <= length book)%nat; [|simpl in *; lia].
      apply NoDup_incl_length; [by apply NoDup_ListNoDup|]. intros x Hx. apply list_elem_of_In, list_elem_of_lookup in Hx as [[|k] Hk].
      * simpl in Hk. injection Hk as <-. by apply Hin.
      * destruct (lookup_lt_is_Some_2 (e :: l) k) as [y Hy]; [apply lookup_lt_Some in Hk; lia|].
        pose proof (Hl k y x Hy Hk) as Hp. by apply parent_entry_Some in Hp as [? _].
    + exists x. split; [|by apply (chain_ancestor book (e :: l) i j)].
      destruct i as [|i]; [left; simpl in Hi; congruence|right]. by apply (chain_ancestor book (e :: l) 0 (S i)); [|lia|..].
  - intros (a & Ha & Haa) n. rewrite pathOf_loop_climb. destruct (climb book n (Some e)) as [l|] eqn:Hc; [exfalso|done].
    assert (Hal : In a l).
    { apply climb_cons in Hc as Hc'. destruct Hc' as (l' & -> & _). destruct Ha as [->|Ha]; [by left|right].
      by eapply ancestor_visited. }
    destruct (climb_suffix _ _ _ _ _ Hc Hal) as (l1 & l2 & -> & Hca).
    pose proof (ancestor_visited book n a l2 a Hca Haa) as Hdup. apply climb_NoDup in Hca.
    inversion Hca as [|? ? Hni _]. by apply Hni, list_elem_of_In.
Qed.

Section Theorems.
Context (book : list BookEntry) `{WfBook book}.

Lemma pathOf_lineage e : In e book → pathOf book (be_id e) = Some (rev (lineage book e)).
Proof.
  intros He. unfold pathOf. rewrite getEntry_id, pathOf_loop_climb, lineage_climb by done. simpl. by rewrite app_nil_r.
Qed.

Lemma lineage_links e i a b :
  In e book → lineage book e !! i = Some a → lineage book e !! S i = Some b → parent_entry book a = Some b.
Proof.
  intros He. remember (length (lineage book e)) as n eqn:Hn. revert e i He Hn.
  induction n as [|n IH]; intros e i He Hn Ha Hb; rewrite lineage_unfold in Hn, Ha, Hb by done; [done|].
  destruct (parent_entry book e) as [p|] eqn:Hp; [|by destruct i].
  pose proof (parent_entry_Some _ _ _ Hp) as [Hpb _]. destruct i as [|i].
  - simpl in Ha, Hb. rewrite lineage_unfold in Hb by done. simpl in Hb. congruence.
  - simpl in Ha, Hb, Hn. apply (IH p i); [done|lia|done|done].
Qed.

Lemma lineage_root e r : In e book → last (lineage book e) = Some r → parent_entry book r = None.
Proof.
  intros He. remember (length (lineage book e)) as n eqn:Hn. revert e He Hn.
  induction n as [|n IH]; intros e He Hn Hl; rewrite lineage_unfold in Hn, Hl by done; [done|].
  destruct (parent_entry book e) as [p|] eqn:Hp; [|simpl in Hl; congruence].
  pose proof (parent_entry_Some _ _ _ Hp) as [Hpb _]. simpl in Hn. apply (IH p); [done|lia|].
  rewrite last_cons in Hl. destruct (last (lineage book p)) as [y|] eqn:Hy; [congruence|].
  apply last_None in Hy. by rewrite lineage_unfold in Hy.
Qed.

(** The breadcrumb chain of an entry is its line of ancestors: it starts at an
    entry without a parent, each next entry is a child of the one before, it ends at
    the entry itself, and no entry is in it twice. *)
Theorem pathOf_is_line e : In e book →
  ∃ p, pathOf book (be_id e) = Some p ∧ NoDup p ∧ last p = Some e ∧
       (∀ r, head p = Some r → parent_entry book r = None) ∧
       (∀ i a b, p !! i = Some a → p !! S i = Some b → parent_entry book b = Some a).
Proof.
  intros He. exists (rev (lineage book e)). rewrite pathOf_lineage by done. split; [done|].
  rewrite rev_alt. change (rev_append (lineage book e) []) with (reverse (lineage book e)).
  split; [rewrite reverse_Permutation; by apply lineage_NoDup|]. split; [|split].
  - rewrite last_reverse, lineage_unfold by done. done.
  - intros r. rewrite head_reverse. by apply lineage_root.
  - intros i a b Ha Hb. apply lookup_lt_Some in Hb as Hlt. rewrite length_reverse in Hlt.
    rewrite reverse_lookup in Ha, Hb by lia.
    apply (lineage_links e (length (lineage book e) - S (S i))); [done|done|].
    rewrite <- Ha. f_equal. lia.
Qed.

(** C6: The stack loop finds exactly what is below an entry: it ends within as many
    pops as there are entries, lists no entry twice, and lists an entry iff the
    climb from that entry passes through this one. *)
Theorem descendantsOf_exact x : In x book →
  ∃ l, descendantsOf book (be_id x) = Some l ∧ NoDup l ∧
       (∀ e, In e l ↔ In e book ∧ e ≠ x ∧ ∃ p, pathOf book (be_id e) = Some p ∧ In x p).
Proof.
  intros Hx. destruct (descendantsOf_spec book x Hx) as (l & Hl & Hp). exists l. split; [done|].
  assert (Hnd : NoDup (x :: l)) by (rewrite Hp; by apply subtree_NoDup).
  inversion Hnd as [|? ? Hni Hnd']; subst. split; [done|]. intros e.
  assert (Hsub : In e (x :: l) ↔ In e book ∧ In x (lineage book e)).
  { rewrite <- In_subtree by done. rewrite <- !list_elem_of_In. by rewrite Hp. }
  rewrite list_elem_of_In in Hni. split.
  - intros He. destruct (proj1 Hsub (or_intror He)) as [Hb Hin]. split; [done|]. split; [by intros ->|].
    exists (rev (lineage book e)). split; [by apply pathOf_lineage|]. by apply in_rev in Hin.
  - intros (Hb & Hne & p & Hpe & Hin). rewrite pathOf_lineage in Hpe by done. injection Hpe as <-.
    apply in_rev in Hin. by destruct (proj2 Hsub (conj Hb Hin)) as [->|?].
Qed.

Lemma scope_returns e : In e book → ∃ s, scope_of book e = Some s ∧ In e s ∧ (∀ n, In n s → In n book).
Proof.
  intros He. unfold scope_of. case_bool_decide; [exists [e]; naive_solver|].
  destruct (descendantsOf_spec book e He) as (l & -> & Hp). exists (e :: l). split; [done|]. split; [by left|].
  intros n Hn. rewrite <- list_elem_of_In, Hp, list_elem_of_In in Hn. by apply In_subtree in Hn as [? _].
Qed.

(** The counts, lists and lineage of an entry exist: their loops end. *)
Lemma rollups_return citations artifacts entities e : In e book →
  (∃ st, entryStats book citations (be_id e) = Some st) ∧
  (∃ arts, artifactsOfEntry book citations artifacts (be_id e) = Some arts) ∧
  (∃ es, entitiesOfEntry book entities (be_id e) = Some es) ∧
  (∃ lin, lineageOfEntry book citations artifacts (be_id e) = Some lin).
Proof.
  intros He. destruct (scope_returns e He) as (sc & Hsc & _).
  unfold lineageOfEntry, entryStats, artifactsOfEntry, entitiesOfEntry. rewrite getEntry_id, Hsc by done.
  split_and!; by eexists.
Qed.

(** The roll-up of a branch covers that of its children. *)
Lemma scope_covers x c sx sc :
  In x book → In c book → parent_entry book c = Some x → be_level x ≠ Subtopic →
  scope_of book x = Some sx → scope_of book c = Some sc → ∀ n, In n sc → In n sx.
Proof.
  intros Hx Hc Hp Hlx Hsx Hsc n Hn.
  assert (Hnc : In n (subtree book c)).
  { unfold scope_of in Hsc. case_bool_decide.
    - injection Hsc as <-. destruct Hn as [<-|[]]. apply In_subtree; [done..|]. split; [done|]. by apply lineage_self.
    - destruct (descendantsOf_spec book c Hc) as (l & Hl & Hperm). rewrite Hl in Hsc. injection Hsc as <-.
      by rewrite <- list_elem_of_In, Hperm, list_elem_of_In in Hn. }
  unfold scope_of in Hsx. rewrite bool_decide_eq_false_2 in Hsx by done.
  destruct (descendantsOf_spec book x Hx) as (l & Hl & Hperm). rewrite Hl in Hsx. injection Hsx as <-.
  rewrite <- list_elem_of_In, Hperm, list_elem_of_In. apply In_subtree in Hnc as [Hnb Hin]; [|done..].
  apply In_subtree; [done..|]. split; [done|]. eapply lineage_trans; [done..|].
  rewrite lineage_unfold by done. rewrite Hp. right. by apply lineage_self.
Qed.

Lemma set_of_mono xs ys : (∀ x, In x xs → In x ys) → js_length (set_of xs) <= js_length (set_of ys).
Proof.
  intros Hin. destruct (set_of_spec xs) as [H1 H1']. destruct (set_of_spec ys) as [H2 H2'].
  unfold js_length. apply inj_le, NoDup_incl_length; [by apply NoDup_ListNoDup|].
  intros x. rewrite H1', H2'. apply Hin.
Qed.

Lemma flat_map_mono {B} (f : BookEntry → list B) l l' :
  (∀ n, In n l → In n l') → ∀ b, In b (flat_map f l) → In b (flat_map f l').
Proof. intros Hl b. rewrite !in_flat_map. naive_solver. Qed.

(** C18: Roll-ups only grow on the way up: the counts and the artifacts of every entry
    exist, and a topic or chapter counts at least the sources, citations and
    entities of each of its children and lists every artifact they list. *)
Theorem rollup_covers_children citations artifacts x c :
  In x book → In c book → parent_entry book c = Some x → be_level x ≠ Subtopic →
  ∃ sx sc ax ac,
    entryStats book citations (be_id x) = Some sx ∧ entryStats book citations (be_id c) = Some sc ∧
    artifactsOfEntry book citations artifacts (be_id x) = Some ax ∧
    artifactsOfEntry book citations artifacts (be_id c) = Some ac ∧
    st_sources sc <= st_sources sx ∧ st_citations sc <= st_citations sx ∧ st_entities sc <= st_entities sx ∧
    (∀ a, In a ac → In a ax).
Proof.
  intros Hx Hc Hp Hlx. destruct (scope_returns x Hx) as (sx & Hsx & _). destruct (scope_returns c Hc) as (sc & Hsc & _).
  pose proof (scope_covers x c sx sc Hx Hc Hp Hlx Hsx Hsc) as Hcov.
  unfold entryStats, artifactsOfEntry. rewrite !getEntry_id, Hsx, Hsc by done. simpl. do 4 eexists.
  split_and!; try reflexivity; simpl.
  - by apply set_of_mono, flat_map_mono.
  - by apply set_of_mono, flat_map_mono.
  - by apply set_of_mono, flat_map_mono.
  - intros a. rewrite <- !list_elem_of_In. rewrite !list_elem_of_omap. intros (i & Hi & Ha). exists i. split; [|done].
    rewrite list_elem_of_In in *. unfold cited_artifacts in *.
    apply (proj1 (proj2 (set_of_spec _) i)) in Hi. apply (proj2 (proj2 (set_of_spec _) i)). by eapply flat_map_mono.
Qed.

End Theorems.

(** ** Counting *)

Lemma count_cons {A} (f : A → bool) x l : count f (x :: l) = (if f x then 1 else 0) + count f l.
Proof. unfold count, js_length. simpl. destruct (f x); simpl; lia. Qed.

Lemma status_partition (l : list BookEntry) :
  count (λ n, be_status n === Current) l + count (λ n, be_status n === Stale) l +
  count (λ n, be_status n === Building) l = js_length l.
Proof.
  induction l as [|n l IH]; [done|]. rewrite !count_cons, js_length_cons. destruct (be_status n); simpl; lia.
Qed.

Lemma level_partition (l : list BookEntry) :
  count (λ n, be_level n === Topic) l + count (λ n, be_level n === Subtopic) l =
  js_length (List.filter (λ n, be_level n !== Chapter) l).
Proof.
  induction l as [|n l IH]; [done|]. rewrite !count_cons. simpl.
  destruct (be_level n); simpl; rewrite ?js_length_cons; lia.
Qed.

Lemma count_nonneg {A} (f : A → bool) l : 0 <= count f l.
Proof. apply js_length_nonneg. Qed.

Lemma stats_of_add_up citations scope :
  let st := stats_of citations scope in
  st_current st + st_stale st + st_building st = st_topics st + st_subtopics st ∧
  ∃ q p, st_coverage st = Finite q ∧ (0 <= q)%Q ∧ (q <= 1)%Q ∧
         Math_round (mul (st_coverage st) (int 100)) = int p ∧ 0 <= p <= 100.
Proof.
  cbv zeta. unfold stats_of. cbn [st_topics st_subtopics st_current st_stale st_building st_coverage]. set (counted := List.filter _ scope). split.
  { rewrite status_partition. symmetry. apply level_partition. }
  assert (Hshare : ∃ q, (if js_length counted =? 0 then int 0
      else div (int (count (λ n, be_status n === Current) counted)) (int (js_length counted))) = Finite q ∧
      (0 <= q)%Q ∧ (q <= 1)%Q).
  { pose proof (js_length_nonneg counted) as Hn. destruct (Z.eqb_spec (js_length counted) 0) as [|Hz].
    { exists (inject_Z 0). split_and!; done. }
    apply share_bounded; [|lia]. pose proof (status_partition counted).
    pose proof (count_nonneg (λ n, be_status n === Current) counted).
    pose proof (count_nonneg (λ n, be_status n === Stale) counted).
    pose proof (count_nonneg (λ n, be_status n === Building) counted). lia. }
  destruct Hshare as (q & -> & H0 & H1). destruct (percent_bounded q H0 H1) as (p & Hp & Hr). by exists q, p.
Qed.

(** The counts of an entry add up: current, stale and building entries make up the
    topics and sub-topics of its branch, the coverage is a share between 0 and 1,
    and the percentage shown for it a whole number between 0 and 100. *)
Theorem stats_add_up book citations id st :
  entryStats book citations id = Some st →
  st_current st + st_stale st + st_building st = st_topics st + st_subtopics st ∧
  ∃ q p, st_coverage st = Finite q ∧ (0 <= q)%Q ∧ (q <= 1)%Q ∧
         Math_round (mul (st_coverage st) (int 100)) = int p ∧ 0 <= p <= 100.
Proof.
  unfold entryStats. destruct (getEntry book id) as [e|].
  - intros (scope & _ & ->)%fmap_Some. apply stats_of_add_up.
  - intros [= <-]. split; [done|]. exists (inject_Z 0), 0. split_and!; done.
Qed.

Lemma chapters_split (f : BookEntry → bool) l :
  count f (List.filter (λ e, be_level e !== Chapter) l) + count (λ e, (be_level e === Chapter) && f e) l = count f l.
Proof.
  induction l as [|n l IH]; [done|]. simpl. destruct (be_level n) eqn:Hl; simpl; rewrite ?count_cons, Hl; simpl;
    destruct (f n); lia.
Qed.

(** The console header does not add up: its current and stale figures leave chapters
    out while its building figure and its total count them, so the three fall short of the
    total by exactly the chapters that are not building. *)
Theorem console_counts book entities sources :
  let s := systemStatus book entities sources in
  sy_current s + sy_stale s + sy_building s +
    count (λ e, (be_level e === Chapter) && (be_status e !== Building)) book = sy_entries s.
Proof.
  cbv zeta. unfold systemStatus. cbn [sy_current sy_stale sy_building sy_entries]. rewrite <- (status_partition book).
  pose proof (chapters_split (λ e, be_status e === Current) book).
  pose proof (chapters_split (λ e, be_status e === Stale) book).
  assert (Hch : count (λ e, (be_level e === Chapter) && (be_status e !== Building)) book =
    count (λ e, (be_level e === Chapter) && (be_status e === Current)) book +
    count (λ e, (be_level e === Chapter) && (be_status e === Stale)) book).
  { clear. induction book as [|n l IH]; [done|]. rewrite !count_cons. rewrite IH.
    destruct (be_level n), (be_status n); simpl; lia. }
  cbn beta in *. lia.
Qed.

(** ** Instances *)

Definition cyclic_book : list BookEntry :=
  [mkEntry "a" Topic (Some "b") "A" Current None None None None;
   mkEntry "b" Topic (Some "a") "B" Current None None None None].
Definition eu_vat : BookEntry := default (mkEntry "" Topic None "" Current None None None None) (getEntry BOOK "s-eu-vat").
Definition refunds : BookEntry := default eu_vat (getEntry BOOK "t-refunds").

Lemma pathOf_ends_iff_acyclic_witness :
  pathOf cyclic_book "a" = None ∧ ∀ n, pathOf_loop cyclic_book n [] (getEntry cyclic_book "a") = None.
Proof.
  split; [by vm_compute|].
  destruct (pathOf_ends_iff_acyclic cyclic_book "a" (mkEntry "a" Topic (Some "b") "A" Current None None None None) eq_refl)
    as [_ Hiff].
  apply (proj2 Hiff). eexists. split; [by left|]. eapply ancestor_up; [by apply ancestor_parent|done].
Defined.

Lemma pathOf_is_line_witness :
  map be_id <$> pathOf BOOK "s-eu-vat" = Some ["ch-ops"; "t-refunds"; "s-eu-vat"] ∧
  ∃ p, pathOf BOOK (be_id eu_vat) = Some p ∧ last p = Some eu_vat.
Proof.
  split; [by vm_compute|].
  destruct (pathOf_is_line BOOK eu_vat) as (p & Hp & _ & Hl & _); [vm_compute; tauto|]. exists p. split; [exact Hp|exact Hl].
Defined.

Lemma descendantsOf_exact_witness :
  map be_id <$> descendantsOf BOOK "ch-ops" = Some ["t-approvals"; "t-refunds"; "s-us-refunds"; "s-eu-vat"] ∧
  ∃ l, descendantsOf BOOK (be_id refunds) = Some l ∧ NoDup l.
Proof.
  split; [by vm_compute|].
  destruct (descendantsOf_exact BOOK refunds) as (l & Hl & Hn & _); [vm_compute; tauto|]. exists l. split; [exact Hl|exact Hn].
Defined.

Lemma rollup_covers_children_witness :
  st_sources <$> entryStats BOOK CITATIONS "t-refunds" = Some 3 ∧
  ∃ sx sc, entryStats BOOK CITATIONS (be_id refunds) = Some sx ∧ entryStats BOOK CITATIONS (be_id eu_vat) = Some sc ∧
           st_sources sc <= st_sources sx.
Proof.
  split; [by vm_compute|].
  destruct (rollup_covers_children BOOK CITATIONS ARTIFACTS refunds eu_vat) as (sx & sc & ax & ac & Hx & Hc & _ & _ & Hs & _);
    [vm_compute; tauto..|by vm_compute|by vm_compute|].
  exists sx, sc. split; [exact Hx|split; [exact Hc|exact Hs]].
Defined.

Lemma stats_add_up_witness :
  ∃ st, entryStats BOOK CITATIONS "ch-ops" = Some st ∧
        st_current st + st_stale st + st_building st = st_topics st + st_subtopics st.
Proof.
  destruct (entryStats BOOK CITATIONS "ch-ops") as [st|] eqn:Hst; [|by vm_compute in Hst].
  exists st. split; [done|]. exact (proj1 (stats_add_up BOOK CITATIONS "ch-ops" st Hst)).
Defined.
