(* ===== verification/Markers.v ===== *)
(** * Citation markers in generated prose

    A summary or an answer carries its citations as [[n]] markers. The entry page
    ([prototype/app/(app)/book/[id]/page.tsx], [Summary]) and the ask page
    ([prototype/app/(app)/ask/page.tsx], [Answer]) both cut the prose with
    [text.split(/(\[\d+\])/g)] and test every part with [part.match(/^\[(\d+)\]$/)].
    Here are the two regular expressions as executable matchers, the cut, and a grammar
    of cut texts of which the cut is shown to be the only parse. *)
From stdpp Require Import base list strings.
From Stdlib Require Import ZArith Lia Ascii.
From S2P Require Import Prelude JsString JsNumber.
#[local] Open Scope string_scope.
#[local] Open Scope list_scope.

(** [\d*], greedy: the leading digits and the rest. *)
Fixpoint span_digits (s : string) : string * string :=
  match s with
  | EmptyString => ("", "")
  | String a s' =>
      match digit a with
      | Some _ => (String a (span_digits s').1, (span_digits s').2)
      | None => ("", s)
      end
  end.

(** [\[(\d+)\]] at the front of [s]: the captured digits and the rest. *)
Definition marker_at (s : string) : option (string * string) :=
  match s with
  | String "["%char t =>
      match span_digits t with
      | (String a ds, String "]"%char r) => Some (String a ds, r)
      | _ => None
      end
  | _ => None
  end.

Definition marker (ds : string) : string := String "["%char (ds +:+ String "]"%char "").

(** [part.match(/^\[(\d+)\]$/)]: the capture. *)
Definition match_marker (part : string) : option string :=
  match marker_at part with Some (ds, EmptyString) => Some ds | _ => None end.

(** [s.split(/(\[\d+\])/g)]: the text between the matches, with the captures in between;
    [acc] is the text since the last match. A step consumes a character or a marker, so
    [String.length s] steps are enough. *)
Fixpoint split_loop (fuel : nat) (acc s : string) : list string :=
  match fuel with
  | O => [acc +:+ s]
  | S n =>
      match marker_at s with
      | Some (ds, r) => acc :: marker ds :: split_loop n "" r
      | None =>
          match s with
          | EmptyString => [acc]
          | String a s' => split_loop n (acc +:+ String a "") s'
          end
      end
  end.
Definition split_markers (s : string) : list string := split_loop (String.length s) "" s.

Example split_two : split_markers "Up [1] and [12]." = ["Up "; "[1]"; " and "; "[12]"; "."].
Proof. reflexivity. Qed.
Example split_adjacent : split_markers "[[1]][2][]" = ["["; "[1]"; "]"; "[2]"; "[]"].
Proof. reflexivity. Qed.

(** ** The grammar of a cut text *)

(** No marker starts anywhere in [s]. *)
Fixpoint plain (s : string) : bool :=
  match marker_at s with
  | Some _ => false
  | None => match s with EmptyString => true | String _ s' => plain s' end
  end.

Inductive cut : list string → string → Prop :=
| cut_text t : plain t = true → cut [t] t
| cut_marker t ds ps s :
    plain t = true → ds ≠ "" → digit_string ds → cut ps s →
    cut (t :: marker ds :: ps) (t +:+ marker ds +:+ s).

(** ** Lemmas *)

Lemma span_digits_app s : s = (span_digits s).1 +:+ (span_digits s).2.
Proof.
  induction s as [|a s IH]; [done|]. cbn [span_digits]. destruct (digit a); [|done].
  cbn [fst snd]. by rewrite string_app_cons, <-IH.
Qed.

Lemma span_digits_digits s : digit_string (span_digits s).1.
Proof.
  unfold digit_string. induction s as [|a s IH]; cbn [span_digits]; [constructor|].
  destruct (digit a) eqn:Ha; cbn; constructor; [by rewrite Ha|done].
Qed.

Lemma span_digits_stop ds a r : digit_string ds → digit a = None → span_digits (ds +:+ String a r) = (ds, String a r).
Proof.
  intros Hds Ha. induction ds as [|b ds IH].
  - change ("" +:+ String a r) with (String a r). cbn [span_digits]. by rewrite Ha.
  - rewrite string_app_cons. cbn [span_digits]. inversion Hds as [|? ? Hb Hr]; subst.
    destruct (digit b); [|done]. by rewrite (IH Hr).
Qed.

Lemma marker_app ds r : marker ds +:+ r = String "["%char (ds +:+ String "]"%char r).
Proof. unfold marker. by rewrite string_app_cons, string_app_assoc. Qed.

Lemma marker_at_marker ds r : ds ≠ "" → digit_string ds → marker_at (marker ds +:+ r) = Some (ds, r).
Proof.
  intros Hne Hds. rewrite marker_app. cbn [marker_at]. rewrite span_digits_stop by done.
  by destruct ds.
Qed.

Lemma marker_at_Some s ds r :
  marker_at s = Some (ds, r) → s = marker ds +:+ r ∧ ds ≠ "" ∧ digit_string ds.
Proof.
  destruct s as [|c t]; [done|]. unfold marker_at.
  destruct c as [[] [] [] [] [] [] [] []]; try done.
  pose proof (span_digits_app t) as Ht. pose proof (span_digits_digits t) as Hd.
  destruct (span_digits t) as [d q]; cbn [fst snd] in *.
  destruct d as [|a d]; [done|]. destruct q as [|b q]; [done|].
  destruct b as [[] [] [] [] [] [] [] []]; try done. intros [= <- <-].
  split; [|done]. by rewrite marker_app, <-Ht.
Qed.

Lemma marker_at_rest s ds r : marker_at s = Some (ds, r) → (String.length r < String.length s)%nat.
Proof.
  intros (-> & _)%marker_at_Some. rewrite marker_app. simpl. rewrite string_length_app. simpl. lia.
Qed.

(** A marker does not depend on what follows it. *)
Lemma marker_at_app s x ds r : marker_at s = Some (ds, r) → marker_at (s +:+ x) = Some (ds, r +:+ x).
Proof.
  intros (-> & Hne & Hd)%marker_at_Some. rewrite string_app_assoc. by apply marker_at_marker.
Qed.

(** Markers do not overlap: none reaches into the next one. *)
Lemma marker_at_before u w : u ≠ "" → marker_at u = None → marker_at (u +:+ String "["%char w) = None.
Proof.
  intros Hu Hm. destruct (marker_at (u +:+ _)) as [[ds r]|] eqn:Hx; [|done]. exfalso.
  destruct u as [|c u]; [done|]. rewrite string_app_cons in Hx.
  destruct c as [[] [] [] [] [] [] [] []]; try done. unfold marker_at in Hm, Hx.
  assert (Hs : span_digits (u +:+ String "["%char w) =
               ((span_digits u).1, (span_digits u).2 +:+ String "["%char w)).
  { clear. induction u as [|a u IH]; [done|]. rewrite string_app_cons. cbn [span_digits].
    destruct (digit a); [|done]. by rewrite IH. }
  rewrite Hs in Hx. destruct (span_digits u) as [[|a d] q]; cbn [fst snd] in *; [done|].
  destruct q as [|b q]; [done|]. by destruct b as [[] [] [] [] [] [] [] []].
Qed.

Lemma plain_front s : plain s = true → marker_at s = None.
Proof. destruct s; cbn [plain]; by destruct (marker_at _). Qed.

Lemma plain_tail a s : plain (String a s) = true → plain s = true.
Proof. cbn [plain]. by destruct (marker_at _). Qed.

Lemma plain_cons a s : marker_at (String a s) = None → plain s = true → plain (String a s) = true.
Proof. intros Hm Hs. cbn [plain]. by rewrite Hm. Qed.

Lemma cut_head ps s : cut ps s → ∃ t ps', ps = t :: ps' ∧ plain t = true ∧ ∃ x, s = t +:+ x.
Proof.
  destruct 1 as [t Ht|t ds ps s Ht]; eexists _, _; split_and!; try done; eexists; [|done].
  by rewrite string_app_empty_r.
Qed.

(** Every text can be cut. *)
Lemma cut_exists s : ∃ ps, cut ps s.
Proof.
  remember (String.length s) as n eqn:Hn. revert s Hn. induction (lt_wf n) as [n _ IH]; intros s ->.
  destruct (marker_at s) as [[ds r]|] eqn:Hm.
  - destruct (IH (String.length r)) with (s := r) as [ps Hps]; [by eapply marker_at_rest|done|].
    apply marker_at_Some in Hm as (-> & Hne & Hd). exists ("" :: marker ds :: ps). by apply (cut_marker "").
  - destruct s as [|a s]; [exists [""]; by constructor|].
    destruct (IH (String.length s)) with (s := s) as [ps Hps]; [simpl; lia|done|].
    assert (Hpl : ∀ t x, s = t +:+ x → plain t = true → plain (String a t) = true).
    { intros t x -> Ht. apply plain_cons; [|done]. destruct (marker_at (String a t)) as [[ds r]|] eqn:Hx; [|done].
      apply (marker_at_app _ x) in Hx. rewrite string_app_cons in Hx. congruence. }
    destruct Hps as [t Ht|t ds ps s Ht Hne Hd Hps].
    + exists [String a t]. constructor. apply (Hpl t ""); [by rewrite string_app_empty_r|done].
    + exists (String a t :: marker ds :: ps). rewrite <-string_app_cons. constructor; [|done..]. by eapply Hpl.
Qed.

(** The loop on text without markers only accumulates. *)
Lemma split_loop_text t fuel acc w :
  plain t = true → (String.length t ≤ fuel)%nat →
  split_loop fuel acc (t +:+ String "["%char w) =
  split_loop (fuel - String.length t) (acc +:+ t) (String "["%char w).
Proof.
  revert fuel acc. induction t as [|a t IH]; intros fuel acc Ht Hf.
  - rewrite string_app_nil, string_app_empty_r. by rewrite Nat.sub_0_r.
  - destruct fuel as [|fuel]; [simpl in Hf; lia|]. rewrite string_app_cons.
    assert (Hm : marker_at (String a (t +:+ String "["%char w)) = None).
    { rewrite <-string_app_cons. apply marker_at_before; [done|by apply plain_front]. }
    cbn [split_loop]. rewrite Hm, IH; [|by eapply plain_tail|simpl in Hf; lia].
    by rewrite string_app_assoc, string_app_cons, string_app_nil.
Qed.

Lemma split_loop_end t fuel acc :
  plain t = true → (String.length t ≤ fuel)%nat → split_loop fuel acc t = [acc +:+ t].
Proof.
  revert fuel acc. induction t as [|a t IH]; intros fuel acc Ht Hf.
  - rewrite string_app_empty_r. destruct fuel; simpl; by rewrite ?string_app_empty_r.
  - destruct fuel as [|fuel]; [simpl in Hf; lia|]. cbn [split_loop]. rewrite (plain_front _ Ht).
    rewrite IH; [|by eapply plain_tail|simpl in Hf; lia].
    by rewrite string_app_assoc, string_app_cons, string_app_nil.
Qed.

Lemma split_loop_cut ps s fuel : cut ps s → (String.length s ≤ fuel)%nat → split_loop fuel "" s = ps.
Proof.
  intros Hc. revert fuel. induction Hc as [t Ht|t ds ps s Ht Hne Hd Hc IH]; intros fuel Hf.
  - by rewrite split_loop_end.
  - rewrite !string_length_app in Hf. simpl in Hf.
    unfold marker at 1. rewrite string_app_cons, split_loop_text by (done || lia).
    rewrite <-string_app_cons. change (String "["%char (ds +:+ "]")) with (marker ds).
    destruct (fuel - String.length t)%nat as [|n] eqn:Hn; [lia|].
    cbn [split_loop]. rewrite marker_at_marker by done. rewrite string_app_nil. do 2 f_equal.
    apply IH. lia.
Qed.

(** Cutting a text gives its only parse: the parts put together are the text, they
    alternate between prose in which no marker is left and one marker each, and no other
    list of parts does so. *)
Lemma split_markers_cut ps s : ps = split_markers s ↔ cut ps s.
Proof.
  split.
  - intros ->. destruct (cut_exists s) as [ps Hps]. unfold split_markers. by rewrite (split_loop_cut ps).
  - intros Hc. symmetry. by apply split_loop_cut.
Qed.

Lemma match_marker_marker ds : ds ≠ "" → digit_string ds → match_marker (marker ds) = Some ds.
Proof.
  intros Hne Hd. unfold match_marker. rewrite <-(string_app_empty_r (marker ds)).
  by rewrite marker_at_marker.
Qed.

Lemma match_marker_plain t : plain t = true → match_marker t = None.
Proof. intros Ht. unfold match_marker. by rewrite plain_front. Qed.

(** The numbers of the markers of a text, in order. *)
Definition marker_numbers (s : string) : list string := omap match_marker (split_markers s).

(** C27: a text is cut at its citation markers in exactly one way: the parts put together
    are the text again, prose and markers alternate (a text of [k] markers has [2k+1]
    parts), a part tested against the marker pattern matches exactly when it is one of the
    captured markers, and no other list of parts that alternates so gives the text. *)
Theorem markers_cut_uniquely s :
  String.concat "" (split_markers s) = s ∧
  length (split_markers s) = (2 * length (marker_numbers s) + 1)%nat ∧
  (∀ i p, split_markers s !! i = Some p →
     match match_marker p with
     | Some ds => Nat.Odd i ∧ p = marker ds ∧ ds ≠ "" ∧ digit_string ds
     | None => Nat.Even i ∧ plain p = true
     end) ∧
  (∀ ps, cut ps s → ps = split_markers s).
Proof.
  assert (Hc : cut (split_markers s) s) by (by apply split_markers_cut).
  split_and!; [| | |intros ps; apply split_markers_cut].
  - induction Hc as [t|t ds ps s Ht Hne Hd Hc IH]; [done|].
    destruct (cut_head _ _ Hc) as (t' & ps' & -> & _). cbn [String.concat] in *. rewrite IH. by rewrite !string_app_nil.
  - unfold marker_numbers. induction Hc as [t Ht|t ds ps s Ht Hne Hd Hc IH]; cbn [omap list_omap].
    + by rewrite match_marker_plain.
    + rewrite match_marker_plain, match_marker_marker by done. cbn [length]. rewrite IH. lia.
  - induction Hc as [t Ht|t ds ps s Ht Hne Hd Hc IH]; intros i p Hp.
    + destruct i; [|done]. simplify_eq/=. rewrite match_marker_plain by done. split; [by exists 0%nat|done].
    + destruct i as [|[|i]]; simplify_eq/=.
      * rewrite match_marker_plain by done. split; [by exists 0%nat|done].
      * rewrite match_marker_marker by done. split; [by exists 0%nat|done].
      * specialize (IH i p Hp). destruct (match_marker p); destruct IH as [[k Hk] IH]; (split; [exists (S k); lia|done]).
Qed.
