(* ===== verification/BookPages.v ===== *)
(** * The book of the prototype: its pages

    Models [prototype/app/(app)/book/[id]/page.tsx] (an entry: its summary with citation
    buttons, the fact band, the child list and the inspector with its three tabs) and
    [prototype/app/(app)/book/page.tsx] (the book console). A page is a function of the
    arrays of [Book.v]; a page whose roll-ups never end does not render ([None]).

    [useParams] is the field [ep_id]; a change of it is the message [Navigate], together
    with the effect that resets the view state before the next event is handled.
    [ConnectorTile] is [components/brand/connector-icon.tsx]. *)
From stdpp Require Import base list strings.
From Stdlib Require Import ZArith Lia QArith_base.
From S2P Require Import Prelude JsString JsNumber Proto View Book Markers.
#[local] Open Scope string_scope.
#[local] Open Scope list_scope.
#[local] Open Scope Z_scope.

(** ** Tags *)

Section Tags.
Context {M : Type}.

Definition Badge (variant text : string) : view M := El "Badge" [Attr "variant" variant] [Text text].

Definition status_class (s : EntryStatus) : string :=
  match s with Current => "bg-success" | Stale => "bg-warning" | Building => "animate-pulse bg-muted-foreground/50" end.
Definition StatusDot (s : EntryStatus) : view M := El "span" [Attr "class" (status_class s)] [].

Definition StatusTag (s : EntryStatus) : view M :=
  match s with
  | Current => Badge "success" "Current"
  | Stale => Badge "warning" "Refreshing"
  | Building => Badge "muted" "Building"
  end.

Definition entity_type (t : EntityType) : string :=
  match t with Policy => "Policy" | Team => "Team" | RoleEntity => "Role" | Event => "Event" | System => "System" end.
Definition EntityTypeTag (t : EntityType) : view M := Badge "muted" (entity_type t).

Definition level_name (l : EntryLevel) : string :=
  match l with Chapter => "chapter" | Topic => "topic" | Subtopic => "subtopic" end.

Definition ConnectorTile (color letter : string) : view M :=
  El "span" [Attr "background-color" color; BoolAttr "aria-hidden" true] [Text letter].

Definition Empty (text : string) : view M := El "p" [] [Text text].

End Tags.

(** ** The entry page *)

Inductive Tab := SourcesTabId | EntitiesTabId | LineageTabId.
#[export] Instance Tab_eq_dec : EqDecision Tab.
Proof. solve_decision. Defined.

Record EntryState := mkEntryState {
  ep_id : string; ep_activeCite : option string; ep_tab : Tab; ep_requested : bool; ep_inspectorOpen : bool }.

Inductive EntryMsg :=
| Navigate (id : string)
| OpenCitation (cid : string)
| OnTab (t : Tab)
| SetActiveCite (cid : option string)
| RequestFresh
| ToggleInspector.

Definition entry_init (id : string) : EntryState := mkEntryState id None SourcesTabId false true.

Definition openCitation (cid : string) (s : EntryState) : EntryState :=
  mkEntryState (ep_id s) (Some cid) SourcesTabId (ep_requested s) true.

Definition rebuild_toast : effect :=
  Toast "success" "Rebuild requested" "This summary will refresh from the latest corpus shortly.".
Definition requestFresh (s : EntryState) : EntryState * list effect :=
  (mkEntryState (ep_id s) (ep_activeCite s) (ep_tab s) true (ep_inspectorOpen s), [rebuild_toast]).

#[export] Instance entry_update : Machine EntryState EntryMsg effect := λ s m,
  match m with
  | Navigate id =>
      (if id === ep_id s then s else mkEntryState id None SourcesTabId false (ep_inspectorOpen s), [])
  | OpenCitation cid => (openCitation cid s, [])
  | OnTab t => (mkEntryState (ep_id s) (ep_activeCite s) t (ep_requested s) (ep_inspectorOpen s), [])
  | SetActiveCite c => (mkEntryState (ep_id s) c (ep_tab s) (ep_requested s) (ep_inspectorOpen s), [])
  | RequestFresh => requestFresh s
  | ToggleInspector =>
      (mkEntryState (ep_id s) (ep_activeCite s) (ep_tab s) (ep_requested s) (negb (ep_inspectorOpen s)), [])
  end.

Section EntryPage.
Context (book : list BookEntry) (citations : list Citation) (artifacts : list Artifact)
        (entities : list Entity) (sources : list Source).
#[local] Abbreviation V := (view EntryMsg).
#[local] Abbreviation stats id := (entryStats book citations id).

(** [citationIds?.[Number(m[1]) - 1]]. *)
Definition cited (citationIds : option (list string)) (ds : string) : option string :=
  citationIds ≫= λ ids, at_number ids (sub (Number_of_string ds) (int 1)).

Definition summary_part (citationIds : option (list string)) (active : option string) (part : string) : list V :=
  match match_marker part with
  | None => [Text part]
  | Some ds =>
      match cited citationIds ds with
      | Some cid =>
          if truthy cid then
            [El "button" [OnClick (OpenCitation cid); BoolAttr "active" (active === Some cid)] [Text ds]]
          else []
      | None => []
      end
  end.

Definition Summary (text : string) (citationIds : option (list string)) (active : option string) : V :=
  El "p" [] (flat_map (summary_part citationIds active) (split_markers text)).

Definition facts (level : EntryLevel) (st : EntryStats) : list string :=
  when (level !== Subtopic)
    (when (negb (st_topics st =? 0)) [num (st_topics st) +:+ " topics"] ++ [num (st_subtopics st) +:+ " sub-topics"]) ++
  [num (st_sources st) +:+ " sources"] ++
  when (level === Subtopic) [num (st_citations st) +:+ " citations"] ++
  [num (st_entities st) +:+ " entities"].

Definition FactBand (e : BookEntry) (st : EntryStats) (stale : bool) : V :=
  El "div" []
    (StatusTag (if stale then Stale else be_status e) ::
     when (otruthy (be_lastRebuilt e)) [El "span" [] [Text ("rebuilt " +:+ (be_lastRebuilt e ?? ""))]] ++
     map (λ f, El "span" [Attr "key" f] [Text f]) (facts (be_level e) st)).

Definition tile (art : Artifact) : V :=
  let meta := sourceByKind sources (ar_source art) in
  ConnectorTile ((so_color <$> meta) ?? "#6d6d6d") ((so_letter <$> meta) ?? first_char (ar_sourceLabel art)).

(** A row of the sources tab; nothing for a citation that does not resolve. *)
Definition citation_row (active : option string) (i : nat) (cid : string) : list V :=
  match getCitation citations cid with
  | None => []
  | Some cit =>
      match getArtifact artifacts (ci_artifactId cit) with
      | None => []
      | Some art =>
          let on := active === Some cid in
          [El "button" [Attr "key" cid; OnClick (SetActiveCite (if on then None else Some cid)); BoolAttr "active" on]
            [El "span" [] [Text ("[" +:+ num (Z.of_nat i + 1) +:+ "]")]; tile art;
             El "span" [] [Text (ar_sourceLabel art)]; El "span" [] [Text (ar_container art)];
             El "p" [BoolAttr "active" on] [Text (ci_quote cit)];
             El "p" [] [Text (ar_author art +:+ " · " +:+ ar_timestamp art)]]]
      end
  end.

Definition artifact_row (art : Artifact) : V :=
  El "div" [Attr "key" (ar_id art)]
    [tile art; El "div" [] [Text (ar_sourceLabel art)];
     El "div" [] [Text (ar_container art +:+ " · " +:+ ar_author art)]].

Definition SourcesTab (e : BookEntry) (active : option string) : option V :=
  match be_level e, be_citationIds e with
  | Subtopic, Some ((_ :: _) as ids) => Some (El "div" [] (concat (imap (citation_row active) ids)))
  | _, _ =>
      arts ← artifactsOfEntry book citations artifacts (be_id e);
      Some (if js_length arts =? 0 then Empty "No sources yet. They appear as the summary is built."
            else El "div" [] (map artifact_row arts))
  end.

Definition entity_row (e : Entity) : V :=
  El "div" [Attr "key" (en_id e)]
    [El "span" [] [Text (en_name e)]; EntityTypeTag (en_type e);
     El "span" [] [Text (num (en_mentions e) +:+ " mentions")];
     El "span" [] [Text (num (en_sources e) +:+ " sources")];
     El "span" [] [Text (num (en_aliases e) +:+ " aliases")];
     El "span" [] (when (en_status e === Ambiguous) [Text "ambiguous"])].

Definition EntitiesTab (e : BookEntry) : option V :=
  es ← entitiesOfEntry book entities (be_id e);
  Some (if js_length es =? 0 then Empty "No entities resolved here yet." else El "div" [] (map entity_row es)).

Definition LineageTab (e : BookEntry) : option V :=
  lin ← lineageOfEntry book citations artifacts (be_id e);
  let step (label value : string) := El "li" [Attr "key" label] [El "div" [] [Text label]; El "div" [] [Text value]] in
  Some (El "div" []
    [El "ol" []
       [step "Sources" (num (li_sources lin) +:+ " systems");
        step "Artifacts" (num (li_artifacts lin) +:+ " cited spans");
        step "Summary" (if otruthy (li_lastRebuilt lin) then "rebuilt " +:+ (li_lastRebuilt lin ?? "") else "not yet built")];
     El "div" [] [El "span" [] [Text "Rebuild"]; El "span" [] [Text (if li_queued lin then "queued" else "up to date")]];
     El "button" [] [Text "Open build log"]]).

Definition tab_button (current : Tab) (t : Tab) (label : string) (count : Z) : V :=
  El "button" [OnClick (OnTab t); BoolAttr "active" (current === t)]
     (Text label :: when (0 <? count) [El "span" [] [Text (num count)]]).

Definition tab_body (e : BookEntry) (tab : Tab) (active : option string) : option V :=
  match tab with
  | SourcesTabId => SourcesTab e active
  | EntitiesTabId => EntitiesTab e
  | LineageTabId => LineageTab e
  end.

Definition Inspector (e : BookEntry) (st : EntryStats) (tab : Tab) (active : option string) : option V :=
  body ← tab_body e tab active;
  Some (El "aside" []
    [El "div" [] [tab_button tab SourcesTabId "Sources" (st_sources st);
                  tab_button tab EntitiesTabId "Entities" (st_entities st);
                  tab_button tab LineageTabId "Lineage" 0];
     El "div" [] [body]]).

Definition child_row (k : BookEntry) : option V :=
  ks ← stats (be_id k);
  Some (El "Link" [Attr "key" (be_id k); Attr "href" ("/book/" +:+ be_id k)]
    [StatusDot (be_status k); El "span" [] [Text (be_title k)];
     El "span" [] [Text (if be_level k === Subtopic then num (st_citations ks) +:+ " cites"
                         else num (st_subtopics ks) +:+ " sub")]]).

Definition children_section (e : BookEntry) : option (list V) :=
  let kids := childrenOf book (Some (be_id e)) in
  if (be_level e !== Subtopic) && (0 <? js_length kids) then
    rows ← mapM child_row kids;
    Some [El "section" []
      [El "h2" [] [Text ((if be_level e === Chapter then "Topics" else "Sub-topics") +:+ " · " +:+ num (js_length kids))];
       El "div" [] rows]]
  else Some [].

Definition page_stale (s : EntryState) (e : BookEntry) : bool := (be_status e === Stale) && negb (ep_requested s).

Definition chrome_actions (s : EntryState) (e : BookEntry) : V :=
  El "ChromeActions" []
    ((if be_status e === Building then [El "span" [] [Text "Building…"]]
      else when (page_stale s e) [El "Button" [OnClick RequestFresh] [Text "Request rebuild"]]) ++
     [El "Button" [BoolAttr "aria-pressed" (ep_inspectorOpen s); Attr "aria-label" "Toggle inspector"; OnClick ToggleInspector]
         [El "RiLayoutRightLine" [] []]]).

Definition not_found : V :=
  El "div" []
    [El "p" [] [Text "Entry not found"];
     El "p" [] [Text "It may have been moved or merged. ";
                El "Link" [Attr "href" "/book"] [Text "Back to the book"]; Text "."]].

Definition article (s : EntryState) (e : BookEntry) : V :=
  if otruthy (be_summary e) then
    El "article" [] [Summary (be_summary e ?? "") (be_citationIds e) (ep_activeCite s)]
  else El "p" [] [Text (if be_level e === Chapter
    then "This chapter is taking shape. As sources sync, the system files knowledge into topics here."
    else "No summary yet — it's generated once there's enough filed here.")].

Definition EntryPage (s : EntryState) : option V :=
  match getEntry book (ep_id s) with
  | None => Some not_found
  | Some e =>
      st ← stats (be_id e);
      kids ← children_section e;
      inspector ← (if ep_inspectorOpen s then (λ v, [v]) <$> Inspector e st (ep_tab s) (ep_activeCite s) else Some []);
      Some (El "div" []
        (chrome_actions s e ::
         El "div" [] (El "header" [] [El "h1" [] [Text (be_title e)]; FactBand e st (page_stale s e)] ::
                      article s e :: kids) ::
         inspector))
  end.

End EntryPage.

(** ** The console ([app/(app)/book/page.tsx]) *)

(** [fmt]: thousands with one decimal. *)
Definition fmt (n : Z) : string :=
  if 1000 <=? n then toFixed 1 (div (int n) (int 1000)) +:+ "k" else num n.

Inductive HomeMsg := RebuildStale.
#[local] Abbreviation H := (view HomeMsg).

Definition colWidth (label : string) : string :=
  if label === "Coverage" then "w-32 text-left"
  else if (label === "Level") || (label === "Status") then "w-24 text-left"
  else if (label === "Last rebuilt") || (label === "Rebuilt") then "w-28"
  else "w-20".

Definition TableHead (cols : list string) : H :=
  El "div" [] (imap (λ i c, El "div" [Attr "key" c; Attr "class" (if (i =? 0)%nat then "" else colWidth c)] [Text c]) cols).

Definition HomeSection (title : string) (count : Z) (kids : list H) : H :=
  El "section" [] (El "div" [] [El "h2" [] [Text title]; El "span" [] [Text (num count)]] :: kids).

Definition Row (href : string) (kids : list H) : H := El "Link" [Attr "href" href] kids.
Definition Cell (kids : list H) : H := El "div" [] kids.
Definition NumCell (s : string) : H := El "div" [] [Text s].

Definition coverage_pct (value : JsNumber) : JsNumber := Math_round (mul value (int 100)).
Definition Coverage (value : JsNumber) : H :=
  let pct := coverage_pct value in
  let width := Number_to_string pct +:+ "%" in
  El "span" []
    [El "span" [] [El "span" [Attr "class" (if le (int 67) pct then "bg-success" else "bg-warning");
                              Attr "width" width] []];
     El "span" [] [Text width]].

Definition StatStrip (sys : SystemStatus) : H :=
  let stat (label value sub : string) :=
    El "div" [Attr "key" label] [El "div" [] [Text label]; El "div" [] [Text value]; El "div" [] [Text sub]] in
  El "div" []
    [stat "Sources" (num (sy_sources sys)) (num (sy_sourcesHealthy sys) +:+ " healthy");
     stat "Artifacts" (fmt (sy_artifacts sys)) "ingested";
     stat "Entries" (num (sy_entries sys)) (num (sy_entities sys) +:+ " entities");
     stat "Current" (num (sy_current sys))
       (num (sy_stale sys) +:+ " stale · " +:+ num (sy_building sys) +:+ " building");
     stat "Last sync" (sy_lastSync sys) "all sources"].

(** The handler of the rebuild button. *)
Definition rebuildStale (sys : SystemStatus) : list effect :=
  [Toast "default" "Rebuild queued"
     (num (sy_stale sys) +:+ " stale " +:+ (if sy_stale sys =? 1 then "entry" else "entries") +:+
      " will refresh from the latest corpus.")].

Section HomePage.
Context (book : list BookEntry) (citations : list Citation) (entities : list Entity) (sources : list Source).

Definition chapter_row (ch : BookEntry) : option H :=
  s ← entryStats book citations (be_id ch);
  let building := be_status ch === Building in
  let shown (n : Z) := NumCell (if building then "—" else num n) in
  Some (Row ("/book/" +:+ be_id ch)
    [Cell [El "span" [] [StatusDot (be_status ch); El "span" [] [Text (be_title ch)]]];
     shown (st_topics s); shown (st_subtopics s); shown (st_sources s);
     Cell [if building then El "span" [] [Text "Building"] else Coverage (st_coverage s)];
     Cell [Text (be_lastRebuilt ch ?? "—")]]).

Definition recent_row (e : BookEntry) : option H :=
  s ← entryStats book citations (be_id e);
  Some (Row ("/book/" +:+ be_id e)
    [Cell [El "span" [] [Text (be_title e)]]; Cell [Text (level_name (be_level e))];
     NumCell (num (st_sources s)); NumCell (num (st_citations s));
     Cell [StatusTag (be_status e)]; Cell [Text (be_lastRebuilt e ?? "—")]]).

Definition BookHomePage : option H :=
  let sys := systemStatus book entities sources in
  let roots := childrenOf book None in
  chapter_rows ← mapM chapter_row roots;
  recent_rows ← mapM recent_row (recentEntries book);
  Some (El "div" []
    [El "ChromeActions" []
       [El "Link" [Attr "href" "/sources"] [Text "Manage sources"];
        El "Button" [OnClick RebuildStale] [Text "Rebuild stale"; Badge "warning" (num (sy_stale sys))]];
     El "h1" [] [Text "Book"];
     El "p" [] [Text "The system's working model of the company — built and kept current from the corpus."];
     StatStrip sys;
     HomeSection "Chapters" (js_length roots)
       [El "div" [] (TableHead ["Chapter"; "Topics"; "Sub-topics"; "Sources"; "Coverage"; "Last rebuilt"] :: chapter_rows)];
     HomeSection "Recently rebuilt" (js_length (recentEntries book))
       [El "div" [] (TableHead ["Entry"; "Level"; "Sources"; "Citations"; "Status"; "Rebuilt"] :: recent_rows)]]).

End HomePage.

(** ** The parts of the entry page *)

(** Neither the rebuild request nor a link. *)
Definition quiet (t : string) (a : list (attr EntryMsg)) : Prop :=
  click_message a ≠ Some RequestFresh ∧ attr_value "href" a = None.

#[local] Ltac quiet_simpl := each_simpl; try (split; [discriminate|reflexivity]).

Section EntryParts.
Context (book : list BookEntry) (citations : list Citation) (artifacts : list Artifact)
        (entities : list Entity) (sources : list Source).

Lemma quiet_Summary text ids active : each quiet (Summary text ids active).
Proof.
  quiet_simpl. apply List.Forall_forall. intros v (p & _ & Hv)%in_flat_map. revert Hv. unfold summary_part.
  destruct (match_marker p); [|intros [<-|[]]; quiet_simpl].
  destruct (cited ids _); [|done]. destruct (truthy _); [|done]. intros [<-|[]]. quiet_simpl.
Qed.

#[local] Hint Resolve quiet_Summary : views.
Lemma quiet_article s e : each quiet (article s e).
Proof. unfold article. destruct (otruthy _); quiet_simpl. Qed.

Lemma quiet_Status t : each quiet (StatusTag t).
Proof. destruct t; quiet_simpl. Qed.

#[local] Hint Resolve quiet_Status : views.
Lemma quiet_FactBand e st stale : each quiet (FactBand e st stale).
Proof. quiet_simpl. Qed.

#[local] Hint Resolve quiet_FactBand : views.
Lemma quiet_citation_row active i cid : Forall (each quiet) (citation_row citations artifacts sources active i cid).
Proof.
  unfold citation_row. destruct (getCitation _ _) as [cit|]; [|constructor].
  destruct (getArtifact _ _); [|constructor]. quiet_simpl.
Qed.

Lemma quiet_imap {A} (f : nat → A → list (view EntryMsg)) l :
  (∀ i x, Forall (each quiet) (f i x)) → Forall (each quiet) (concat (imap f l)).
Proof. revert f. induction l as [|x l IH]; intros f Hf; cbn; [constructor|]. apply Forall_app_2; [done|]. apply IH. intros i y. apply Hf. Qed.

Lemma quiet_tab_body e tab active v :
  tab_body book citations artifacts entities sources e tab active = Some v → each quiet v.
Proof.
  destruct tab; cbn [tab_body].
  - assert (Hall : ∀ v, (arts ← artifactsOfEntry book citations artifacts (be_id e);
        Some (if js_length arts =? 0 then Empty "No sources yet. They appear as the summary is built."
              else El "div" [] (map (artifact_row sources) arts))) = Some v → each quiet v).
    { intros w (arts & _ & [= <-])%bind_Some. destruct (_ =? _); quiet_simpl. }
    unfold SourcesTab. destruct (be_level e); auto. destruct (be_citationIds e) as [[|i ids]|]; auto.
    intros [= <-]. apply each_El; [by split|]. exact (quiet_imap _ (i :: ids) (quiet_citation_row active)).
  - intros (es & _ & [= <-])%bind_Some. destruct (_ =? _); quiet_simpl.
  - intros (lin & _ & [= <-])%bind_Some. quiet_simpl.
Qed.

Lemma quiet_Inspector e st tab active v :
  Inspector book citations artifacts entities sources e st tab active = Some v → each quiet v.
Proof. intros (b & Hb%quiet_tab_body & [= <-])%bind_Some. by quiet_simpl. Qed.

(** The two things a click on the page of [s] may lead to besides its view state: the
    rebuild request of a stale entry, and the pages of the entries right below it. *)
Definition page_elt (s : EntryState) (t : string) (a : list (attr EntryMsg)) : Prop :=
  (click_message a = Some RequestFresh →
     ∃ e, getEntry book (ep_id s) = Some e ∧ page_stale s e = true) ∧
  (∀ h, attr_value "href" a = Some h →
     h = "/book" ∨ ∃ k, In k (childrenOf book (Some (ep_id s))) ∧ h = "/book/" +:+ be_id k).

Lemma quiet_page s v : each quiet v → each (page_elt s) v.
Proof.
  unfold each. intros Hv. eapply Forall_impl; [exact Hv|]. intros [[t a] k] [Hq1 Hq2]; cbn in *.
  split; [done|]. by rewrite Hq2.
Qed.

Lemma page_elements s v :
  EntryPage book citations artifacts entities sources s = Some v → each (page_elt s) v.
Proof.
  unfold EntryPage. destruct (getEntry book (ep_id s)) as [e|] eqn:He.
  2:{ intros [= <-]. each_simpl; (split; [discriminate|]); try discriminate. intros h [= <-]. by left. }
  destruct (getEntry_Some _ _ _ He) as [Hin Hid].
  assert (Hsilent : ∀ t a, quiet t a → page_elt s t a).
  { intros t a [Hq1 Hq2]. split; [done|]. by rewrite Hq2. }
  intros (st & _ & (kids & Hkids & (insp & Hinsp & [= <-])%bind_Some)%bind_Some)%bind_Some.
  apply each_El; [by apply Hsilent|]. apply Forall_cons_2; [|apply Forall_cons_2].
  - each_simpl; try (apply Hsilent; split; [discriminate|reflexivity]).
    case_bool_decide; each_simpl; try (apply Hsilent; split; [discriminate|reflexivity]).
    split; [|discriminate]. intros _. by exists e.
  - apply each_El; [by apply Hsilent|]. apply Forall_cons_2; [|apply Forall_cons_2].
    + apply quiet_page. quiet_simpl.
    + apply quiet_page, quiet_article.
    + unfold children_section in Hkids. destruct (_ && _) in Hkids; [|simplify_eq; constructor].
      apply bind_Some in Hkids as (rows & Hrows & [= <-]).
      each_simpl; try (apply Hsilent; split; [discriminate|reflexivity]).
      apply (mapM_all _ _ _ _ Hrows). intros k w Hk (ks & _ & [= <-])%bind_Some.
      each_simpl; try (apply Hsilent; split; [discriminate|reflexivity]).
      split; [discriminate|]. intros h [= <-]. right. exists k. by rewrite <-Hid.
  - destruct (ep_inspectorOpen s); [|simplify_eq; constructor].
    apply fmap_Some in Hinsp as (w & Hw & ->). constructor; [|constructor].
    by apply quiet_page, (quiet_Inspector _ _ _ _ _ Hw).
Qed.

End EntryParts.

(** ** The page and its links *)

Section EntryTheorems.
Context (book : list BookEntry) `{WfBook book} (citations : list Citation) (artifacts : list Artifact)
        (entities : list Entity) (sources : list Source).
#[local] Abbreviation page := (EntryPage book citations artifacts entities sources).

Lemma child_rows_return e : ∃ kids, children_section book citations e = Some kids.
Proof.
  unfold children_section. destruct (_ && _); [|by eexists].
  destruct (mapM_returns (child_row book citations) (childrenOf book (Some (be_id e)))) as [rows Hrows].
  - intros k [Hk _]%filter_In. destruct (rollups_return book citations artifacts entities k Hk) as [[st Hst] _].
    unfold child_row. rewrite Hst. by eexists.
  - rewrite Hrows. by eexists.
Qed.

Lemma Inspector_returns e st tab active : In e book →
  ∃ v, Inspector book citations artifacts entities sources e st tab active = Some v.
Proof.
  intros He. destruct (rollups_return book citations artifacts entities e He) as (_ & [a Ha] & [es Hes] & [l Hl]).
  unfold Inspector. destruct tab; cbn [tab_body].
  - unfold SourcesTab. rewrite Ha. destruct (be_level e), (be_citationIds e) as [[|]|]; by eexists.
  - unfold EntitiesTab. rewrite Hes. by eexists.
  - unfold LineageTab. rewrite Hl. by eexists.
Qed.

Lemma page_renders s : ∃ v, page s = Some v.
Proof.
  unfold EntryPage. destruct (getEntry book (ep_id s)) as [e|] eqn:He; [|by eexists].
  apply getEntry_Some in He as [He _].
  destruct (rollups_return book citations artifacts entities e He) as ([st ->] & _). cbn.
  destruct (child_rows_return e) as [kids ->]. cbn.
  destruct (ep_inspectorOpen s); [|by eexists].
  destruct (Inspector_returns e st (ep_tab s) (ep_activeCite s) He) as [v ->]. by eexists.
Qed.

(** C40: in a well-formed book the page of every address renders, whatever its view state,
    and its links are never broken: besides the way back to the book they lead to the
    pages of the entries right below the one shown, and a chapter or a topic links all
    of them. *)
Theorem entry_page_links s :
  ∃ v, EntryPage book citations artifacts entities sources s = Some v ∧
    (∀ h l, In (h, l) (links v) →
       h = "/book" ∨ ∃ k, In k (childrenOf book (Some (ep_id s))) ∧ h = "/book/" +:+ be_id k ∧
                          getEntry book (be_id k) = Some k) ∧
    (∀ e k, getEntry book (ep_id s) = Some e → be_level e ≠ Subtopic → In k (childrenOf book (Some (ep_id s))) →
       ∃ l, In ("/book/" +:+ be_id k, l) (links v)).
Proof.
  destruct (page_renders s) as [v Hv]. exists v. split; [done|]. split.
  - apply (each_links (page_elt book s)); [|by eapply page_elements].
    intros t a h [_ Hh] Ha. destruct (Hh h Ha) as [->|(k & Hk & ->)]; [by left|right].
    exists k. split; [done|]. split; [done|]. apply getEntry_id; [done|]. by apply filter_In in Hk as [? _].
  - intros e k He Hl Hk. destruct (getEntry_Some _ _ _ He) as [Hin Hid].
    unfold EntryPage in Hv. rewrite He in Hv.
    apply bind_Some in Hv as (st & _ & (kids & Hkids & (insp & _ & [= <-])%bind_Some)%bind_Some).
    unfold children_section in Hkids. rewrite Hid, bool_decide_eq_false_2 in Hkids by done.
    destruct (Z.ltb_spec 0 (js_length (childrenOf book (Some (ep_id s))))) as [_|Hlen]; cbn [negb andb] in Hkids.
    2:{ destruct (childrenOf _ _); [done|]. unfold js_length in Hlen; cbn in Hlen. lia. }
    apply bind_Some in Hkids as (rows & Hrows%mapM_Some & [= <-]).
    assert (Hrow : ∃ w, In w rows ∧ child_row book citations k = Some w).
    { apply list_elem_of_In, list_elem_of_lookup in Hk as [i Hi].
      destruct (Forall2_lookup_l _ _ _ _ _ Hrows Hi) as (w & Hw & Hkw). exists w. split; [|done].
      apply list_elem_of_In. by eapply list_elem_of_lookup_2. }
    destruct Hrow as (w & Hw & (ks & _ & [= <-])%bind_Some).
    eexists. eapply In_links; [by right; left|]. eapply In_links; [by right; right; left|].
    eapply In_links; [by right; left|]. eapply In_links; [exact Hw|]. by left.
Qed.

(** ** Citation markers *)

(** What the marker with number [ds] does: nothing is shown for one that names no citation. *)
Definition marker_button (ids : option (list string)) (ds : string) : list (string * bool * option EntryMsg) :=
  match cited ids ds with
  | Some cid => when (truthy cid) [(ds, false, Some (OpenCitation cid))]
  | None => []
  end.

Lemma buttons_Summary text ids active :
  buttons (Summary text ids active) = flat_map (marker_button ids) (marker_numbers text).
Proof.
  unfold Summary, marker_numbers. rewrite buttons_plain by done.
  induction (split_markers text) as [|p ps IH]; [done|]. cbn [flat_map omap list_omap].
  rewrite map_app, concat_app, IH. unfold summary_part at 1. destruct (match_marker p) as [ds|]; [|done].
  cbn [flat_map]. f_equal. unfold marker_button. destruct (cited ids ds) as [cid|]; [|done].
  destruct (truthy cid); [|done]. cbn [map concat when]. rewrite buttons_button by done. done.
Qed.

Lemma cited_nth ids i cid : ids !! i = Some cid → Z.of_nat i < 2 ^ 53 - 1 → cited (Some ids) (num (Z.of_nat i + 1)) = Some cid.
Proof.
  intros Hi Hlt. unfold cited. cbn. rewrite Number_of_num by lia. rewrite sub_int by lia.
  rewrite at_number_int. unfold js_at. replace (Z.of_nat i + 1 - 1) with (Z.of_nat i) by lia.
  destruct (Z.ltb_spec (Z.of_nat i) 0); [lia|]. by rewrite Nat2Z.id.
Qed.

(** The rows of the sources tab that are lit: their citation and their number. *)
Definition lit_row (x : string * list (attr EntryMsg) * list (view EntryMsg)) : option (string * string) :=
  let '(t, a, k) := x in
  match attr_value "key" a with
  | Some c => if is_button t a && attr_bool "active" a then Some (c, text_content (El "" [] (take 1 k))) else None
  | None => None
  end.
Definition lit_rows (v : view EntryMsg) : list (string * string) := omap lit_row (elements v).

Lemma lit_rows_El tag a kids :
  lit_rows (El tag a kids) = option_list (lit_row (tag, a, kids)) ++ concat (map lit_rows kids).
Proof.
  unfold lit_rows at 1. cbn [elements].
  assert (Hk : omap lit_row (concat (map elements kids)) = concat (map lit_rows kids)).
  { induction kids as [|k kids IH]; [done|]. cbn [map concat]. by rewrite omap_app, IH. }
  rewrite <-Hk. cbn [omap list_omap]. by destruct (lit_row _).
Qed.

Lemma lit_rows_dark v : each (λ _ a, attr_value "key" a = None ∨ attr_bool "active" a = false) v → lit_rows v = [].
Proof.
  unfold each, lit_rows. induction 1 as [|[[t a] k] l Hx _ IH]; [done|]. cbn [omap list_omap].
  assert (Hd : lit_row (t, a, k) = None).
  { cbn in *. destruct Hx as [->|Hb]; [done|]. destruct (attr_value "key" a); [|done]. by rewrite Hb, andb_false_r. }
  by rewrite Hd.
Qed.

#[local] Ltac dark_simpl := each_simpl; try (left; reflexivity); try (right; reflexivity).

Lemma dark_Summary text ids active : lit_rows (Summary text ids active) = [].
Proof.
  apply lit_rows_dark. dark_simpl. apply List.Forall_forall. intros v (p & _ & Hv)%in_flat_map. revert Hv.
  unfold summary_part. destruct (match_marker p); [|intros [<-|[]]; dark_simpl].
  destruct (cited ids _); [|done]. destruct (truthy _); [|done]. intros [<-|[]]. dark_simpl.
Qed.

Lemma dark_FactBand e st stale : lit_rows (FactBand e st stale) = [].
Proof. apply lit_rows_dark. dark_simpl. destruct stale; [|destruct (be_status e)]; dark_simpl. Qed.

Lemma dark_chrome s e : lit_rows (chrome_actions s e) = [].
Proof. apply lit_rows_dark. dark_simpl. case_bool_decide; dark_simpl. Qed.

Lemma lit_rows_plain tag kids : lit_rows (El tag [] kids) = concat (map lit_rows kids).
Proof. by rewrite lit_rows_El. Qed.

Lemma dark_article s e : lit_rows (article s e) = [].
Proof.
  unfold article. destruct (otruthy _); [|by apply lit_rows_dark; dark_simpl].
  rewrite lit_rows_plain. cbn [map concat]. by rewrite dark_Summary.
Qed.

Lemma dark_tab_button current t label n : lit_rows (tab_button current t label n) = [].
Proof. apply lit_rows_dark. dark_simpl. Qed.

(** A resolved citation has its row in the sources tab, lit when it is the active one. *)
Definition resolves (cid : string) : Prop :=
  ∃ cit art, getCitation citations cid = Some cit ∧ getArtifact artifacts (ci_artifactId cit) = Some art.

Lemma lit_citation_row active i cid : resolves cid →
  concat (map lit_rows (citation_row citations artifacts sources active i cid)) =
  when (active === Some cid) [(cid, "[" +:+ num (Z.of_nat i + 1) +:+ "]")].
Proof.
  intros (cit & art & Hc & Ha). unfold citation_row. rewrite Hc, Ha. cbn [map concat]. rewrite app_nil_r, lit_rows_El.
  assert (Hkids : ∀ b, concat (map lit_rows
      [El "span" [] [Text ("[" +:+ num (Z.of_nat i + 1) +:+ "]")]; tile sources art;
       El "span" [] [Text (ar_sourceLabel art)]; El "span" [] [Text (ar_container art)];
       El "p" [BoolAttr "active" b] [Text (ci_quote cit)];
       El "p" [] [Text (ar_author art +:+ " · " +:+ ar_timestamp art)]]) = []) by done.
  rewrite Hkids, app_nil_r. by destruct (active === Some cid).
Qed.

Lemma lit_citation_rows cid ids off i : Forall resolves ids → NoDup ids → ids !! i = Some cid →
  concat (map lit_rows (concat (imap (λ k, citation_row citations artifacts sources (Some cid) (off + k)%nat) ids))) =
  [(cid, "[" +:+ num (Z.of_nat (off + i) + 1) +:+ "]")].
Proof.
  intros Hr Hnd. revert off i. induction ids as [|c ids IH]; intros off i Hi; [done|].
  inversion Hr as [|? ? Hc Hr']; inversion Hnd as [|? ? Hni Hnd']; subst.
  cbn [imap concat]. rewrite map_app, concat_app, lit_citation_row by done.
  assert (Hdark : ∀ o, ¬ In cid ids →
    concat (map lit_rows (concat (imap (λ k, citation_row citations artifacts sources (Some cid) (o + k)%nat) ids))) = []).
  { clear - Hr'. induction ids as [|d ids IH]; intros o Hni; [done|]. inversion Hr'; subst.
    cbn [imap concat]. rewrite map_app, concat_app, lit_citation_row by done.
    rewrite bool_decide_eq_false_2 by (intros [= ->]; apply Hni; by left). cbn [when app].
    rewrite (imap_ext _ (λ k, citation_row citations artifacts sources (Some cid) (S o + k)%nat)).
    - apply IH; [done|]. intros ?; apply Hni; by right.
    - intros k x _. cbn. by rewrite Nat.add_succ_r. }
  rewrite (imap_ext _ (λ k, citation_row citations artifacts sources (Some cid) (S off + k)%nat)).
  2:{ intros k x _. cbn. by rewrite Nat.add_succ_r. }
  destruct i as [|i]; simpl in Hi; simplify_eq.
  - rewrite bool_decide_eq_true_2, Hdark by (done || by rewrite <-list_elem_of_In). by rewrite Nat.add_0_r.
  - rewrite bool_decide_eq_false_2.
    2:{ intros [= ->]. apply Hni. by eapply list_elem_of_lookup_2. }
    cbn [when app]. rewrite (IH Hr' Hnd' (S off) i Hi). by replace (off + S i)%nat with (S off + i)%nat by lia.
Qed.

(** C15: the [[n]] markers of a sub-topic and the rows of its sources tab are the same
    list: in whatever state the page is, the marker with the number [n] is a button, and
    clicking it gives a page whose inspector is open on the sources tab with exactly one
    row lit, the one numbered [[n]], which shows the [n]-th citation of the entry. *)
Theorem marker_opens_its_citation s e text ids i cid :
  getEntry book (ep_id s) = Some e → be_level e = Subtopic → be_summary e = Some text →
  be_citationIds e = Some ids → Forall resolves ids → NoDup ids →
  ids !! i = Some cid → truthy cid = true → Z.of_nat i < 2 ^ 53 - 1 →
  In (num (Z.of_nat i + 1)) (marker_numbers text) →
  ∃ v v', page s = Some v ∧
    In (num (Z.of_nat i + 1), false, Some (OpenCitation cid)) (buttons v) ∧
    page (update s (OpenCitation cid)).1 = Some v' ∧
    lit_rows v' = [(cid, "[" +:+ num (Z.of_nat i + 1) +:+ "]")].
Proof.
  intros He Hl Htext Hids Hr Hnd Hi Hc Hlt Hm.
  assert (Ht : otruthy (Some text) = true) by (destruct text; [by vm_compute in Hm|done]).
  destruct (page_renders s) as [v Hv]. destruct (page_renders (openCitation cid s)) as [v' Hv'].
  exists v, v'. split; [done|]. split; [|split; [done|]].
  - unfold EntryPage in Hv. rewrite He in Hv.
    apply bind_Some in Hv as (st & _ & (kids & _ & (insp & _ & [= <-])%bind_Some)%bind_Some).
    eapply In_buttons; [by right; left|]. eapply In_buttons; [by right; left|].
    unfold article. rewrite Htext, Ht, Hids. eapply In_buttons; [by left|]. rewrite buttons_Summary.
    apply in_flat_map. exists (num (Z.of_nat i + 1)). split; [done|].
    unfold marker_button. change (default "" (Some text)) with text. rewrite (cited_nth ids i cid) by done. rewrite Hc. by left.
  - unfold EntryPage in Hv'. cbn [openCitation ep_id ep_inspectorOpen ep_tab ep_activeCite] in Hv'. rewrite He in Hv'.
    apply bind_Some in Hv' as (st & _ & (kids & Hkids & (insp & Hinsp & [= <-])%bind_Some)%bind_Some).
    unfold children_section in Hkids. rewrite Hl in Hkids. cbn in Hkids. injection Hkids as <-.
    apply fmap_Some in Hinsp as (w & (body & Hbody & [= <-])%bind_Some & ->).
    cbn [tab_body] in Hbody. unfold SourcesTab in Hbody. rewrite Hl, Hids in Hbody.
    destruct ids as [|c ids]; [done|]. injection Hbody as <-.
    pose proof (lit_citation_rows cid (c :: ids) 0 i Hr Hnd Hi) as Hrows. cbn [Nat.add] in Hrows.
    repeat (rewrite lit_rows_plain; cbn [map concat]).
    rewrite dark_chrome, dark_FactBand, dark_article, !dark_tab_button. cbn [app lit_rows]. rewrite !app_nil_r. exact Hrows.
Qed.

(** ** Requesting a rebuild *)

(** A click the page offers: an enabled button that sends [m]. *)
Definition offered (s : EntryState) (m : EntryMsg) : Prop :=
  ∃ v l, page s = Some v ∧ In (l, false, Some m) (buttons v).

Definition leaves (m : EntryMsg) : bool := match m with Navigate _ => true | _ => false end.

(** The clicks of a reader who stays on the page. *)
Inductive visit : EntryState → list EntryMsg → Prop :=
| visit_end s : visit s []
| visit_click s m ms : offered s m → leaves m = false → visit (update s m).1 ms → visit s (m :: ms).

Lemma offered_request s : offered s RequestFresh → ∃ e, getEntry book (ep_id s) = Some e ∧ page_stale s e = true.
Proof.
  intros (v & l & Hv & Hin).
  exact (each_buttons (page_elt book s) (λ m, m = RequestFresh → _) v
    (λ t a m Hp Hm Heq, proj1 Hp (eq_trans Hm (f_equal Some Heq)))
    (page_elements book citations artifacts entities sources s v Hv) l false RequestFresh Hin eq_refl).
Qed.

Lemma quiet_visit s ms : visit s ms → ep_requested s = true → (run s ms).2 = [].
Proof.
  induction 1 as [|s m ms Hm Hst Hv IH]; intros Hr; [done|]. rewrite run_cons.
  destruct m; try done; cbn in *; try by rewrite IH.
  apply offered_request in Hm as (e & _ & Hs). unfold page_stale in Hs. by rewrite Hr, andb_false_r in Hs.
Qed.

(** however a reader clicks while on an entry, at most one rebuild is requested; none
    unless the entry is stale; and after the request the button is gone until the reader
    leaves the entry. *)
Theorem rebuild_requested_once s ms : visit s ms →
  (run s ms).2 = [] ∨
  (run s ms).2 = [rebuild_toast] ∧ ep_requested s = false ∧
    (∃ e, getEntry book (ep_id s) = Some e ∧ be_status e = Stale) ∧ ¬ offered (run s ms).1 RequestFresh.
Proof.
  induction 1 as [s|s m ms Hm Hst Hv IH]; [by left|]. rewrite run_cons. cbn [fst snd].
  destruct m; try done; cbn [update entry_update fst snd app] in *; try exact IH.
  right. destruct (offered_request _ Hm) as (e & He & Hs). unfold page_stale in Hs.
  apply andb_true_iff in Hs as [Hst' Hr%negb_true_iff]. apply bool_decide_eq_true in Hst'.
  cbn [requestFresh fst snd] in *. rewrite (quiet_visit _ _ Hv eq_refl). split; [done|]. split; [done|]. split; [by exists e|].
  assert (Hkeep : ∀ s ms, visit s ms → ep_requested s = true → ep_requested (run s ms).1 = true).
  { clear. induction 1 as [|s m ms Hm Hst Hv IH]; intros Hr; [done|]. rewrite run_cons. apply IH. by destruct m. }
  intros (e' & _ & Hs')%offered_request. unfold page_stale in Hs'.
  by rewrite (Hkeep _ _ Hv eq_refl), andb_false_r in Hs'.
Qed.

End EntryTheorems.

(** ** Instances *)

#[local] Abbreviation the_page := (EntryPage BOOK CITATIONS ARTIFACTS ENTITIES SOURCES).

Definition eu_vat_summary : string := be_summary eu_vat ?? "".

Lemma entry_page_links_witness :
  (links <$> the_page (entry_init "t-refunds")) = Some [("/book/s-eu-vat", "EU VAT refunds over €5003 cites");
                                                       ("/book/s-us-refunds", "US refunds over $6001 cites")] ∧
  ∃ v, the_page (entry_init "ch-ops") = Some v.
Proof.
  split; [by vm_compute|]. destruct (entry_page_links BOOK CITATIONS ARTIFACTS ENTITIES SOURCES (entry_init "ch-ops")) as (v & Hv & _).
  exists v. exact Hv.
Defined.

Lemma marker_opens_its_citation_witness :
  ∃ v v', the_page (entry_init "s-eu-vat") = Some v ∧ In ("2", false, Some (OpenCitation "c2")) (buttons v) ∧
    the_page (update (entry_init "s-eu-vat") (OpenCitation "c2")).1 = Some v' ∧ lit_rows v' = [("c2", "[2]")].
Proof.
  apply (marker_opens_its_citation BOOK CITATIONS ARTIFACTS ENTITIES SOURCES (entry_init "s-eu-vat") eu_vat eu_vat_summary
           ["c1"; "c2"; "c3"] 1 "c2"); try (by vm_compute).
  - repeat (apply Forall_cons_2; [do 2 eexists; split; vm_compute; reflexivity|]). constructor.
  - apply (bool_decide_unpack (NoDup ["c1"; "c2"; "c3"])). by vm_compute.
  - vm_compute. tauto.
Defined.

Lemma rebuild_requested_once_witness :
  let s := entry_init "s-us-refunds" in
  visit BOOK CITATIONS ARTIFACTS ENTITIES SOURCES s [RequestFresh; ToggleInspector] ∧
  (run s [RequestFresh; ToggleInspector]).2 = [rebuild_toast] ∧
  ¬ offered BOOK CITATIONS ARTIFACTS ENTITIES SOURCES (run s [RequestFresh; ToggleInspector]).1 RequestFresh.
Proof.
  intros s.
  assert (Hv : visit BOOK CITATIONS ARTIFACTS ENTITIES SOURCES s [RequestFresh; ToggleInspector]).
  { constructor; [|done|constructor; [|done|constructor]].
    - eexists _, "Request rebuild". split; [vm_compute; reflexivity|vm_compute; tauto].
    - eexists _, "". split; [vm_compute; reflexivity|vm_compute; tauto]. }
  split; [exact Hv|]. split; [reflexivity|].
  destruct (rebuild_requested_once BOOK CITATIONS ARTIFACTS ENTITIES SOURCES s _ Hv) as [Hn|(_ & _ & _ & Ho)]; [discriminate Hn|exact Ho].
Defined.
