(* ===== verification/BookNav.v ===== *)
(** * Getting around the book of the prototype

    Models the surfaces that lead to an entry: the tree panel
    ([prototype/components/app/app-context-panel.tsx]) with its filter and the open state
    of its nodes, the context bar ([app-context-bar.tsx]), the corpus search
    ([app-search.tsx]), the command palette ([command-menu.tsx]) and the ask page
    ([app/(app)/ask/page.tsx]). The filter of the [cmdk] package is a parameter. *)
From stdpp Require Import base list strings.
From Stdlib Require Import ZArith Lia Ascii.
From S2P Require Import Prelude JsString JsNumber Proto View Nav Url Book Markers BookPages.
#[local] Open Scope string_scope.
#[local] Open Scope list_scope.
#[local] Open Scope Z_scope.

(** ** The tree panel *)

(** [l.some(f)] of a test that may not end. *)
Fixpoint some_m {A} (f : A → option bool) (l : list A) : option bool :=
  match l with
  | [] => Some false
  | x :: l' => b ← f x; if b : bool then Some true else some_m f l'
  end.

Section Panel.
Context `{Locale} (book : list BookEntry) (citations : list Citation).

Fixpoint matches (fuel : nat) (e : BookEntry) (query : string) : option bool :=
  if negb (truthy query) then Some true
  else if includes_str (toLowerCase (be_title e)) query then Some true
  else match fuel with
       | O => None
       | S n => some_m (λ c, matches n c query) (childrenOf book (Some (be_id e)))
       end.

(** The state of the panel: the filter, and [open] of every mounted node by entry. *)
Record PanelState := mkPanel { pn_q : string; pn_open : list (string * bool) }.

Definition panel_query (q : string) : string := toLowerCase (trim q).

(** [useState(depth < 1)]: the state of a node that is mounted already, or the default. *)
Definition node_open (old : list (string * bool)) (depth : nat) (id : string) : bool :=
  match List.find (λ n, n.1 === id) old with Some n => n.2 | None => (depth <? 1)%nat end.

Definition hasKids (e : BookEntry) : bool := 0 <? js_length (childrenOf book (Some (be_id e))).
Definition expanded (query : string) (opened : bool) (e : BookEntry) : bool :=
  opened || (truthy query && hasKids e).

(** Rendering [TreeNode]: the nodes it mounts with their [open], and the rows it shows. A
    node that does not match stays mounted and shows nothing, so its children unmount. *)
Fixpoint render_node (fuel : nat) (old : list (string * bool)) (query : string) (depth : nat) (e : BookEntry)
    : option (list (string * bool) * list (BookEntry * nat)) :=
  let opened := node_open old depth (be_id e) in
  m ← matches (length book) e query;
  if m : bool then
    if hasKids e && expanded query opened e then
      match fuel with
      | O => None
      | S n =>
          kids ← mapM (render_node n old query (S depth)) (childrenOf book (Some (be_id e)));
          Some ((be_id e, opened) :: concat (map fst kids), (e, depth) :: concat (map snd kids))
      end
    else Some ([(be_id e, opened)], [(e, depth)])
  else Some ([(be_id e, opened)], []).

Definition render_tree (old : list (string * bool)) (query : string)
    : option (list (string * bool) * list (BookEntry * nat)) :=
  nodes ← mapM (render_node (length book) old query 0) (childrenOf book None);
  Some (concat (map fst nodes), concat (map snd nodes)).

Definition BookPanel (s : PanelState) : option (list (BookEntry * nat)) :=
  snd <$> render_tree (pn_open s) (panel_query (pn_q s)).

Inductive PanelMsg := SetQ (q : string) | ToggleOpen (id : string).

Definition flip_open (id : string) (l : list (string * bool)) : list (string * bool) :=
  map (λ n, if n.1 === id then (n.1, negb n.2) else n) l.

(** An event changes the state; the render that follows unmounts what is not shown. *)
Definition panel_update (s : PanelState) (m : PanelMsg) : option PanelState :=
  let s' := match m with
            | SetQ q => mkPanel q (pn_open s)
            | ToggleOpen id => mkPanel (pn_q s) (flip_open id (pn_open s))
            end in
  r ← render_tree (pn_open s') (panel_query (pn_q s'));
  Some (mkPanel (pn_q s') r.1).

Definition panel_mount : option PanelState := r ← render_tree [] ""; Some (mkPanel "" r.1).

(** A row: indentation, toggle, link, count. *)
Definition node_count (e : BookEntry) : option Z :=
  match be_level e with
  | Chapter => st_topics <$> entryStats book citations (be_id e)
  | Topic => st_subtopics <$> entryStats book citations (be_id e)
  | Subtopic => Some 0
  end.

Definition PanelDot (s : EntryStatus) : list (view PanelMsg) :=
  match s with
  | Current => []
  | Stale => [El "span" [Attr "class" "bg-warning"; Attr "title" "Refreshing"] []]
  | Building => [El "span" [Attr "class" "animate-pulse bg-muted-foreground/50"; Attr "title" "Building"] []]
  end.

Definition TreeRow (pathname query : string) (opened : bool) (row : BookEntry * nat) : option (view PanelMsg) :=
  let '(e, depth) := row in
  n ← node_count e;
  let href := "/book/" +:+ be_id e in
  Some (El "div" [BoolAttr "active" (pathname === href); Attr "padding-left" (num (Z.of_nat depth * 12 + 2) +:+ "px")]
    [El "button" [OnClick (ToggleOpen (be_id e)); BoolAttr "invisible" (negb (hasKids e));
                  Attr "aria-label" (if expanded query opened e then "Collapse" else "Expand")] [];
     El "Link" [Attr "href" href]
       (El "span" [] [Text (be_title e)] :: PanelDot (be_status e) ++
        when (0 <? n) [El "span" [] [Text (num n)]])]).

(** [AppContextPanel]: shown under /book only. *)
Definition AppContextPanel (pathname : string) (s : PanelState) : option (option (view PanelMsg)) :=
  if negb (startsWith pathname "/book") then Some None
  else
    rows ← BookPanel s;
    views ← mapM (λ r, TreeRow pathname (panel_query (pn_q s)) (node_open (pn_open s) r.2 (be_id r.1)) r) rows;
    Some (Some (El "aside" []
      [El "div" [] [El "span" [] [Text "Book"];
                    El "span" [] [Text (num (js_length (childrenOf book None)) +:+ " ch")]];
       El "input" [Attr "value" (pn_q s); OnChange SetQ; Attr "placeholder" "Filter"] [];
       El "div" [] views])).

End Panel.

(** ** The context bar *)

Record BarCrumb := mkBarCrumb { bc_label : option string; bc_href : option string }.

Definition SECTION : list (string * (string * string)) :=
  [("ask", ("Ask", "RiSparkling2Line")); ("book", ("Book", "RiBook2Line"));
   ("sources", ("Sources", "RiLayoutGrid2Line")); ("entities", ("Entities", "RiNodeTree"));
   ("review", ("Review", "RiFileSearchLine")); ("members", ("Members", "RiTeamLine"));
   ("access", ("Access", "RiShieldKeyholeLine")); ("audit", ("Audit log", "RiFileList3Line"));
   ("usage", ("Usage", "RiBarChartLine")); ("settings", ("Settings", "RiSettings3Line"));
   ("account", ("Account", "RiSettings3Line"))].

Definition LEVEL_ICON (l : EntryLevel) : string :=
  match l with Chapter => "RiBook2Line" | Topic => "RiFolder3Line" | Subtopic => "RiFileTextLine" end.

(** The icon (undefined for an inherited member of [SECTION]) and the crumbs. *)
Definition bar_resolve (book : list BookEntry) (pathname : string) : option (option string * list BarCrumb) :=
  match segments pathname with
  | [] => Some (Some "RiBook2Line", [])
  | seg :: rest =>
      if seg === "book" then
        match rest with
        | [] => Some (Some "RiBook2Line", [mkBarCrumb (Some "Book") None])
        | id :: _ =>
            trail ← pathOf book id;
            Some (Some (LEVEL_ICON ((be_level <$> last trail) ?? Subtopic)),
                  mkBarCrumb (Some "Book") (Some "/book") ::
                  imap (λ i e, mkBarCrumb (Some (be_title e))
                                 (if Z.of_nat i <? js_length trail - 1 then Some ("/book/" +:+ be_id e) else None)) trail)
        end
      else if (seg === "entities") && (head rest === Some "ambiguity") then
        Some (Some "RiNodeTree", [mkBarCrumb (Some "Entities") (Some "/entities"); mkBarCrumb (Some "Ambiguity queue") None])
      else
        Some match js_get SECTION seg with
             | Own (label, icon) => (Some icon, [mkBarCrumb (Some label) None])
             | Inherited => (None, [mkBarCrumb None None])
             | Missing => (Some "RiBook2Line", [])
             end
  end.

Definition bar_crumb (i : nat) (c : BarCrumb) : list (view unit) :=
  let label := match bc_label c with Some l => [Text l] | None => [] end in
  when (0 <? i)%nat [El "span" [] [Text "/"]] ++
  [if otruthy (bc_href c) then El "Link" [Attr "href" (bc_href c ?? "")] label else El "span" [] label].

(** [None] inside: an undefined icon does not render. *)
Definition AppContextBar (book : list BookEntry) (pathname : string) : option (option (view unit)) :=
  r ← bar_resolve book pathname;
  Some (match r.1 with
        | Some icon => Some (El "header" [] [El icon [] []; El "nav" [] (concat (imap bar_crumb r.2))])
        | None => None
        end).

(** ** The corpus search *)

Section Search.
Context `{Locale} (book : list BookEntry) (entities : list Entity) (sources : list Source).
(** [cmdk] keeps an item for a search text when its value and keywords score. *)
Context (scores : string → list string → string → bool).

Definition trail (e : BookEntry) : option string :=
  (λ p, join " / " (map be_title (take (length p - 1) p))) <$> pathOf book (be_id e).

Record SearchState := mkSearch { se_q : string; se_open : bool }.

(** A key pressed anywhere in the window. *)
Record KeyPress := mkKey { key : string; metaKey : bool; ctrlKey : bool; altKey : bool; typing : bool }.

Inductive SearchMsg :=
| WindowKey (k : KeyPress)
| OutsideDown
| Input (v : string)
| Focus
| Escape
| Go (href : string).

#[export] Instance search_update : Machine SearchState SearchMsg effect := λ s m,
  match m with
  | WindowKey k =>
      if (key k !== "/") || metaKey k || ctrlKey k || altKey k then (s, [])
      else if typing k then (s, [])
      else (mkSearch (se_q s) true, [PreventDefault; FocusInput])
  | OutsideDown => (mkSearch (se_q s) false, [])
  | Input v => (mkSearch v true, [])
  | Focus => (mkSearch (se_q s) true, [])
  | Escape => (mkSearch "" false, [BlurInput])
  | Go href => (mkSearch "" false, [BlurInput; RouterPush href])
  end.

Definition search_query (s : SearchState) : string := trim (se_q s).
Definition showPanel (s : SearchState) : bool := se_open s && (0 <? Z.of_nat (String.length (search_query s))).

Record SearchItem := mkItem { it_value : string; it_keywords : list string; it_href : string; it_row : view SearchMsg }.

Definition ENTRY_DOT (s : EntryStatus) : string :=
  match s with Current => "bg-success" | Stale => "bg-warning" | Building => "bg-muted-foreground/40" end.
Definition SOURCE_DOT (h : SourceHealth) : string :=
  match h with Synced => "bg-success" | Syncing => "bg-warning" | Failed | AuthLapse => "bg-destructive" end.
Definition SearchDot (c : string) : view SearchMsg := El "span" [Attr "class" c] [].

Definition BookRow (e : BookEntry) : option SearchItem :=
  path ← trail e;
  let href := "/book/" +:+ be_id e in
  let rebuilt := match be_lastRebuilt e with
                 | Some r => when (truthy r) ["rebuilt " +:+ r]
                 | None => []
                 end in
  Some (mkItem (be_id e) [be_title e; level_name (be_level e); path; be_summary e ?? ""] href
    (El "Cmdk.Item" [OnClick (Go href)]
      ([SearchDot (ENTRY_DOT (be_status e)); El (LEVEL_ICON (be_level e)) [] [];
        El "span" [] [Text (be_title e)]; El "span" [] [Text (level_name (be_level e))]] ++
       when (truthy path || otruthy (be_lastRebuilt e))
         [El "div" [] [Text (join " · " (when (truthy path) [path] ++ rebuilt))]]))).

Definition SourceRow (s : Source) : SearchItem :=
  mkItem (so_id s) [so_name s; so_kind s] "/sources"
    (El "Cmdk.Item" [OnClick (Go "/sources")]
      [El "span" [Attr "background-color" (so_color s)] [Text (so_letter s)]; El "span" [] [Text (so_name s)];
       SearchDot (SOURCE_DOT (so_health s)); El "span" [] [Text (numToLocale (so_artifacts s) +:+ " artifacts")]]).

Definition EntityRow (e : Entity) : SearchItem :=
  mkItem (en_id e) [en_name e; entity_type (en_type e)] "/entities"
    (El "Cmdk.Item" [OnClick (Go "/entities")]
      [El "RiNodeTree" [] []; El "span" [] [Text (en_name e)]; El "span" [] [Text (entity_type (en_type e))];
       El "span" [] [Text (num (en_mentions e) +:+ "×")]]).

(** The items the panel lists, by heading. *)
Definition search_groups : option (list (string * list SearchItem)) :=
  rows ← mapM BookRow book;
  Some [("Book", rows); ("Sources", map SourceRow sources); ("Entities", map EntityRow entities)].

Definition kept (q : string) (i : SearchItem) : bool := scores (it_value i) (it_keywords i) q.

(** [cmdk] filters on the text of the input itself. *)
Definition visible_items (s : SearchState) : option (list SearchItem) :=
  if showPanel s then
    gs ← search_groups;
    Some (List.filter (kept (se_q s)) (concat (map snd gs)))
  else Some [].

Definition AppSearch (s : SearchState) : option (view SearchMsg) :=
  panel ← (if showPanel s then
             gs ← search_groups;
             items ← visible_items s;
             Some [El "div" []
               [El "Cmdk.List" []
                  (when (js_length items =? 0) [El "Cmdk.Empty" [] [Text ("No matches for “" +:+ search_query s +:+ "”.")]] ++
                   map (λ g, El "Cmdk.Group" [Attr "heading" g.1]
                               (map it_row (List.filter (kept (se_q s)) g.2))) gs);
                El "div" [] [Text " open"; Text " dismiss"]]]
           else Some []);
  Some (El "Cmdk" [Attr "label" "Search the corpus"]
    ([El "div" [] (El "Cmdk.Input" [Attr "value" (se_q s); OnChange Input; Attr "placeholder" "Search the book…"] [] ::
                   when (negb (truthy (se_q s))) [El "Kbd" [] [Text "/"]])] ++ panel)).

End Search.

(** ** The command palette *)

Definition NAV : list (string * string) :=
  [("Ask", "/ask"); ("Book", "/book"); ("Sources", "/sources"); ("Members", "/members"); ("Access", "/access");
   ("Entities", "/entities"); ("Audit log", "/audit"); ("Usage", "/usage"); ("Settings", "/settings")].

Section Palette.
Context `{Locale} (book : list BookEntry) (scores : string → list string → string → bool).

Record PaletteState := mkPalette { pa_open : bool; pa_q : string }.
Inductive PaletteMsg :=
| PaletteKey (k : KeyPress)
| OpenPalette
| OnOpenChange (v : bool)
| SetPaletteQ (q : string)
| PaletteGo (href : string).

#[export] Instance palette_update : Machine PaletteState PaletteMsg effect := λ s m,
  match m with
  | PaletteKey k =>
      if (metaKey k || ctrlKey k) && (toLowerCase (key k) === "k")
      then (mkPalette (negb (pa_open s)) (pa_q s), [PreventDefault])
      else (s, [])
  | OpenPalette => (mkPalette true (pa_q s), [])
  | OnOpenChange v => (mkPalette v (pa_q s), [])
  | SetPaletteQ q => (mkPalette (pa_open s) q, [])
  | PaletteGo href => (mkPalette false "", [RouterPush href])
  end.

(** A command: its value for the filter, whether it is always kept, and its target. *)
Record PaletteItem := mkPaletteItem { pi_value : string; pi_force : bool; pi_href : string; pi_label : string }.

Definition ask_item (query : string) : PaletteItem :=
  mkPaletteItem ("ask " +:+ query) true ("/ask?q=" +:+ encodeURIComponent query) ("Ask “" +:+ query +:+ "”").
Definition entry_item (e : BookEntry) : PaletteItem :=
  mkPaletteItem ("entry " +:+ be_title e) false ("/book/" +:+ be_id e) (be_title e).
Definition nav_item (n : string * string) : PaletteItem := mkPaletteItem ("go " +:+ n.1) false n.2 n.1.

Definition palette_items (s : PaletteState) : list PaletteItem :=
  let query := trim (pa_q s) in
  if pa_open s then
    List.filter (λ i, pi_force i || scores (pi_value i) [] (pa_q s))
      (when (truthy query) [ask_item query] ++ map entry_item book ++ map nav_item NAV)
  else [].

End Palette.

(** ** The ask page *)

Definition SUGGESTIONS : list string :=
  ["What's our EU refund threshold?"; "How does a Sev-1 incident escalate?"; "Who signs off on large refunds?"].
Definition RECENT : list string := ["refund reason codes"; "incident comms cadence"; "US refund threshold over $600"].

Record AskAnswer := mkAnswer { an_text : string; an_citationIds : list string; an_entries : list string }.
Definition ANSWER : AskAnswer := mkAnswer
  "Refunds are threshold-based. EU VAT refunds above €500 route to Finance for a second sign-off before they're issued; below the threshold, support can issue directly. [1] The threshold and a logged reason code became mandatory after the Q4 audit, [2] and a missed sign-off on an €820 refund is why it's now surfaced in the refund flow. [3]"
  ["c1"; "c2"; "c3"] ["s-eu-vat"; "t-refunds"].

Record AskState := mkAsk { as_query : string; as_asked : option string }.
Inductive AskMsg := SetQuery (q : string) | KeyDown (key : string) | Submit (q : string) | NewQuestion | History.

Definition ask_init : AskState := mkAsk "" None.

Definition submit (q : string) (s : AskState) : AskState :=
  let trimmed := trim q in
  if negb (truthy trimmed) then s else mkAsk trimmed (Some trimmed).

#[export] Instance ask_update : Machine AskState AskMsg effect := λ s m,
  match m with
  | SetQuery q => (mkAsk q (as_asked s), [])
  | KeyDown k => (if k === "Enter" then submit (as_query s) s else s, [])
  | Submit q => (submit q s, [])
  | NewQuestion => (mkAsk "" None, [])
  | History => (s, [Toast "default" "History" "Your recent questions and their answers."])
  end.

Section Ask.
Context (book : list BookEntry) (citations : list Citation) (artifacts : list Artifact) (sources : list Source).
#[local] Abbreviation V := (view AskMsg).

Definition answer_part (part : string) : V :=
  match match_marker part with
  | None => Text part
  | Some ds => El "a" [Attr "href" ("#src-" +:+ ds)] [Text ds]
  end.

Definition answer_entry (id : string) : option (list V) :=
  match getEntry book id with
  | None => Some []
  | Some e =>
      s ← entryStats book citations id;
      Some [El "Link" [Attr "href" ("/book/" +:+ id)]
        [El "span" [] [Text (be_title e)]; El "span" [] [Text (level_name (be_level e))];
         El "span" [] [Text (num (st_citations s) +:+ " cites")]]]
  end.

Definition answer_source (i : nat) (cid : string) : list V :=
  match getCitation citations cid with
  | None => []
  | Some cit =>
      match getArtifact artifacts (ci_artifactId cit) with
      | None => []
      | Some art =>
          let meta := sourceByKind sources (ar_source art) in
          [El "div" [Attr "key" cid; Attr "id" ("src-" +:+ num (Z.of_nat i + 1))]
            [El "span" [] [Text ("[" +:+ num (Z.of_nat i + 1) +:+ "]")];
             ConnectorTile ((so_color <$> meta) ?? "#6d6d6d") ((so_letter <$> meta) ?? first_char (ar_sourceLabel art));
             El "span" [] [Text (ar_sourceLabel art)]; El "span" [] [Text (ar_container art)];
             El "span" [] [Text (ar_timestamp art)]; El "p" [] [Text (ci_quote cit)]]]
      end
  end.

Definition AskSection (title : string) (count : Z) (kids : list V) : V :=
  El "section" [] [El "h2" [] [Text title]; El "span" [] [Text (num count)]; El "div" [] kids].

Definition Answer (a : AskAnswer) : option V :=
  entries ← mapM answer_entry (an_entries a);
  Some (El "div" []
    [El "div" [] [Text "Answer"];
     El "article" [] [El "p" [] (map answer_part (split_markers (an_text a)))];
     AskSection "In the book" (js_length (an_entries a)) (concat entries);
     AskSection "Sources" (js_length (an_citationIds a)) (concat (imap answer_source (an_citationIds a)))]).

Definition AskPage (s : AskState) : option V :=
  body ← (if otruthy (as_asked s) then (λ v, [v]) <$> Answer ANSWER
          else
             Some [El "div" [] (map (λ q, El "button" [Attr "key" q; OnClick (Submit q)] [Text q]) SUGGESTIONS);
                   AskSection "Recent" (js_length RECENT)
                     (map (λ q, El "button" [Attr "key" q; OnClick (Submit q)] [El "span" [] [Text q]]) RECENT)]);
  Some (El "div" []
    (El "ChromeActions" []
       (when (otruthy (as_asked s)) [El "Button" [OnClick NewQuestion] [Text "New question"]] ++
        [El "Button" [OnClick History] [Text "History"]]) ::
     El "div" []
       [El "input" [Attr "value" (as_query s); OnChange SetQuery; OnKeyDown KeyDown] [];
        El "button" [OnClick (Submit (as_query s)); BoolAttr "disabled" (negb (truthy (trim (as_query s))))] []] ::
     body)).

End Ask.

(** ** The filter of the tree *)

Lemma some_m_total {A} (f : A → option bool) (g : A → bool) l :
  (∀ x, In x l → f x = Some (g x)) → some_m f l = Some (existsb g l).
Proof.
  induction l as [|x l IH]; intros Hf; [done|]. cbn [some_m existsb]. rewrite Hf by (by left). cbn.
  destruct (g x); [done|]. cbn. apply IH. intros y Hy. apply Hf. by right.
Qed.

Lemma existsb_flat_map {A B} (f : B → bool) (g : A → list B) l :
  existsb f (flat_map g l) = existsb (λ x, existsb f (g x)) l.
Proof. induction l as [|x l IH]; [done|]. cbn. by rewrite existsb_app, IH. Qed.

Lemma existsb_perm {A} (f : A → bool) (l l' : list A) : l ≡ₚ l' → existsb f l = existsb f l'.
Proof.
  intros Hp. apply eq_true_iff_eq. rewrite !existsb_exists.
  split; intros (x & Hx & Hf); exists x; (split; [|done]); apply list_elem_of_In; apply list_elem_of_In in Hx.
  - by rewrite <-Hp.
  - by rewrite Hp.
Qed.

Lemma filter_perm {A} (f : A → bool) (l l' : list A) : l ≡ₚ l' → List.filter f l ≡ₚ List.filter f l'.
Proof.
  induction 1 as [|x l l' _ IH|x y l|l l' l'' _ IH1 _ IH2]; cbn; [done| | |by etrans].
  - destruct (f x); [by f_equiv|done].
  - destruct (f x), (f y); [apply Permutation_swap|reflexivity..].
Qed.

Lemma filter_flat_map {A B} (f : B → bool) (g : A → list B) l :
  List.filter f (flat_map g l) = flat_map (λ x, List.filter f (g x)) l.
Proof. induction l as [|x l IH]; [done|]. cbn. by rewrite List.filter_app, IH. Qed.

Section Filtering.
Context `{Locale} (book : list BookEntry) `{WfBook book}.

Definition title_contains (query : string) (e : BookEntry) : bool := includes_str (toLowerCase (be_title e)) query.

(** The entry or one below it has the text in its title. *)
Definition matched (query : string) (e : BookEntry) : bool :=
  negb (truthy query) || existsb (title_contains query) (subtree book e).

Lemma child_in_book x c : In x book → In c (childrenOf book (Some (be_id x))) → In c book.
Proof. intros _ Hc. by apply filter_In in Hc as [? _]. Qed.

Lemma subtree_child_length x c : In x book → In c (childrenOf book (Some (be_id x))) →
  (length (subtree book c) < length (subtree book x))%nat.
Proof.
  intros Hx Hc. rewrite (Permutation_length (subtree_unfold book x Hx)). cbn.
  apply in_split in Hc as (l1 & l2 & ->). rewrite flat_map_app, length_app. cbn. rewrite length_app. lia.
Qed.

Lemma subtree_in_book x e : In x book → In e (subtree book x) → In e book.
Proof. intros Hx He. by apply (In_subtree book) in He as [? _]. Qed.

Lemma subtree_length x : In x book → (length (subtree book x) ≤ length book)%nat.
Proof.
  intros Hx. apply NoDup_incl_length; [apply NoDup_ListNoDup, (subtree_NoDup book)|].
  intros e. by apply subtree_in_book.
Qed.

Lemma matched_unfold query e : In e book → truthy query = true →
  matched query e = title_contains query e || existsb (matched query) (childrenOf book (Some (be_id e))).
Proof.
  intros He Hq. unfold matched at 1. rewrite Hq, (existsb_perm _ _ _ (subtree_unfold book e He)). cbn [existsb negb orb].
  f_equal. rewrite existsb_flat_map. unfold matched. by rewrite Hq.
Qed.

Lemma subtree_self e : In e book → In e (subtree book e).
Proof. intros He. apply (In_subtree book); [done|]. split; [done|by apply (lineage_self book)]. Qed.

Lemma matches_total fuel e query :
  In e book → (length (subtree book e) ≤ fuel)%nat → matches book fuel e query = Some (matched query e).
Proof.
  revert e. induction fuel as [|fuel IH]; intros e He Hlen.
  { pose proof (subtree_self e He). destruct (subtree book e); [done|cbn in Hlen; lia]. }
  cbn [matches]. destruct (truthy query) eqn:Hq; [|by unfold matched; rewrite Hq].
  rewrite matched_unfold by done. fold (title_contains query e).
  cbn [negb]. destruct (title_contains query e); [done|]. cbn [orb]. apply some_m_total.
  intros c Hc. apply IH; [by eapply child_in_book|]. pose proof (subtree_child_length e c He Hc). lia.
Qed.

(** A match shows on every row above it. *)
Lemma matched_up query e x : In e book → In x (subtree book e) → matched query x = true → matched query e = true.
Proof.
  intros He Hx. pose proof (subtree_in_book e x He Hx) as Hxb. apply (In_subtree book) in Hx as [_ Hx]; [|done].
  unfold matched. destruct (negb (truthy query)); [done|]. cbn. rewrite !existsb_exists.
  intros (d & Hd & Ht). exists d. split; [|done].
  apply (In_subtree book) in Hd as [Hdb Hd]; [|done]. apply (In_subtree book); [done|]. split; [done|]. by eapply (lineage_trans book).
Qed.

Lemma no_kids e : hasKids book e = false → childrenOf book (Some (be_id e)) = [].
Proof.
  unfold hasKids. destruct (childrenOf _ _); [done|]. intros Hl%Z.ltb_ge. unfold js_length in Hl; cbn in Hl. lia.
Qed.

(** With a filter text, a node shows the entries of its subtree that match. *)
Lemma render_node_filtered fuel old query depth e :
  truthy query = true → In e book → (length (subtree book e) ≤ fuel)%nat →
  ∃ mounts rows, render_node book fuel old query depth e = Some (mounts, rows) ∧
                 map fst rows ≡ₚ List.filter (matched query) (subtree book e).
Proof.
  intros Hq. revert depth e. induction fuel as [|fuel IH]; intros depth e He Hlen.
  { pose proof (subtree_self e He). destruct (subtree book e); [done|cbn in Hlen; lia]. }
  cbn [render_node]. rewrite matches_total by (done || by apply subtree_length). cbn [mbind option_bind].
  pose proof (filter_perm (matched query) _ _ (subtree_unfold book e He)) as Hsub. cbn [List.filter] in Hsub.
  rewrite filter_flat_map in Hsub. destruct (matched query e) eqn:Hm.
  2:{ do 2 eexists. split; [reflexivity|]. rewrite Hsub. cbn [map].
      assert (Hnone : ∀ l, (∀ c, In c l → In c (childrenOf book (Some (be_id e)))) →
        flat_map (λ c, List.filter (matched query) (subtree book c)) l = []).
      { induction l as [|c l IHl]; intros Hl; [done|]. cbn. rewrite IHl by (intros; apply Hl; by right).
        rewrite app_nil_r. apply find_none_filter, eq_None_not_Some. intros [x Hx].
        apply find_some in Hx as [Hx Hmx]. assert (Hc := Hl c (or_introl eq_refl)).
        pose proof (child_in_book e c He Hc) as Hcb.
        assert (Hxe : In x (subtree book e)).
        { rewrite <-list_elem_of_In, subtree_unfold, list_elem_of_In by done. right. apply in_flat_map. by exists c. }
        by rewrite (matched_up query e x) in Hm. }
      by rewrite Hnone. }
  unfold expanded. rewrite Hq. cbn [andb]. destruct (hasKids book e) eqn:Hk.
  2:{ rewrite (no_kids e Hk) in Hsub. do 2 eexists. split; [reflexivity|]. by rewrite Hsub. }
  rewrite orb_true_r. cbn [andb].
  destruct (mapM_returns (render_node book fuel old query (S depth)) (childrenOf book (Some (be_id e)))) as [kids Hkids].
  { intros c Hc. destruct (IH (S depth) c) as (m & r & Hr & _); [by eapply child_in_book| |by rewrite Hr].
    pose proof (subtree_child_length e c He Hc). lia. }
  rewrite Hkids. cbn. do 2 eexists. split; [reflexivity|]. rewrite Hsub. cbn [map fst]. constructor. clear Hsub.
  assert (Hin : ∀ c, In c (childrenOf book (Some (be_id e))) → In c (childrenOf book (Some (be_id e)))) by done.
  revert Hin Hkids. generalize (childrenOf book (Some (be_id e))) at 1 3 4. intros l Hin Hkids. apply mapM_Some in Hkids.
  induction Hkids as [|c k l kids Hck _ IHk]; [done|]. cbn [map concat flat_map]. rewrite map_app.
  rewrite IHk by (intros; apply Hin; by right). apply Permutation_app_tail.
  assert (Hc := Hin c (or_introl eq_refl)). pose proof (subtree_child_length e c He Hc).
  destruct (IH (S depth) c) as (m & r & Hr & Hp); [by eapply child_in_book|lia|].
  rewrite Hck in Hr. injection Hr as ->. exact Hp.
Qed.

Lemma root_subtrees_disjoint r1 r2 e :
  In r1 book → In r2 book → be_parentId r1 = None → be_parentId r2 = None →
  In e (subtree book r1) → In e (subtree book r2) → r1 = r2.
Proof.
  intros H1 H2 Hp1 Hp2 He1 He2. apply (In_subtree book) in He1 as [He Hl1]; [|done]. apply (In_subtree book) in He2 as [_ Hl2]; [|done].
  assert (Hlast : ∀ r, In r (lineage book e) → In r book → be_parentId r = None → last (lineage book e) = Some r).
  { intros r Hr Hrb Hrp. destruct (lineage_suffix book e r He Hr) as [l ->].
    rewrite (lineage_unfold book r) by done. unfold parent_entry. rewrite Hrp. by rewrite last_snoc. }
  rewrite (Hlast r1) in Hlast by done. specialize (Hlast r2 Hl2 H2 Hp2). congruence.
Qed.

Lemma roots_NoDup : NoDup (flat_map (subtree book) (childrenOf book None)).
Proof.
  assert (Hr : ∀ r, In r (childrenOf book None) → In r book ∧ be_parentId r = None).
  { intros r [Hb Hp]%filter_In. split; [done|]. by apply bool_decide_eq_true in Hp. }
  assert (Hnd : NoDup (childrenOf book None)) by (apply NoDup_ListNoDup, List.NoDup_filter, NoDup_ListNoDup, (book_NoDup book)).
  revert Hr Hnd. generalize (childrenOf book None). intros l Hr Hnd. induction Hnd as [|r l Hni Hnd IH]; [constructor|].
  cbn. apply NoDup_app. split_and!; [apply (subtree_NoDup book)| |apply IH; intros; apply Hr; by right].
  intros x Hx Hx'. rewrite list_elem_of_In in *. apply in_flat_map in Hx' as (r' & Hr' & Hx').
  destruct (Hr r) as [Hb Hp]; [by left|]. destruct (Hr r') as [Hb' Hp']; [by right|].
  by rewrite (root_subtrees_disjoint r r' x) in Hni.
Qed.

(** C12: With a filter text, the tree shows each entry at most once, and it shows exactly the
    entries whose line from a chapter they belong to that have the text in their title or
    in the title of an entry below them, whatever was folded or unfolded before. *)
Theorem filter_shows_matches s : truthy (panel_query (pn_q s)) = true →
  ∃ rows, BookPanel book s = Some rows ∧ NoDup (map fst rows) ∧
    ∀ e, In e (map fst rows) ↔
      In e book ∧
      (∃ p r, pathOf book (be_id e) = Some p ∧ head p = Some r ∧ be_parentId r = None) ∧
      (∃ d p, In d book ∧ pathOf book (be_id d) = Some p ∧ In e p ∧
              includes_str (toLowerCase (be_title d)) (panel_query (pn_q s)) = true).
Proof.
  intros Hq. set (query := panel_query (pn_q s)) in *. unfold BookPanel, render_tree. fold query.
  assert (Hr : ∀ r, In r (childrenOf book None) → In r book ∧ be_parentId r = None).
  { intros r [Hb Hp]%filter_In. split; [done|]. by apply bool_decide_eq_true in Hp. }
  assert (Hnode : ∀ r, In r (childrenOf book None) → ∃ m rows,
      render_node book (length book) (pn_open s) query 0 r = Some (m, rows) ∧
      map fst rows ≡ₚ List.filter (matched query) (subtree book r)).
  { intros r [Hb _]%Hr. apply render_node_filtered; [done|done|by apply subtree_length]. }
  destruct (mapM_returns (render_node book (length book) (pn_open s) query 0) (childrenOf book None)) as [nodes Hnodes].
  { intros r (m & rows & Hrr & _)%Hnode. by rewrite Hrr. }
  rewrite Hnodes. cbn. eexists. split; [reflexivity|].
  assert (Hp : map fst (concat (map snd nodes)) ≡ₚ List.filter (matched query) (flat_map (subtree book) (childrenOf book None))).
  { rewrite filter_flat_map. apply mapM_Some in Hnodes. revert Hnode. clear Hr.
    induction Hnodes as [|r n l nodes Hrn _ IH]; intros Hnode; [done|]. cbn [map concat flat_map]. rewrite map_app.
    rewrite IH by (intros; apply Hnode; by right). apply Permutation_app_tail.
    destruct (Hnode r) as (m & rows & Hrr & Hperm); [by left|]. rewrite Hrn in Hrr. injection Hrr as ->. exact Hperm. }
  split.
  - rewrite Hp. apply NoDup_ListNoDup, List.NoDup_filter, NoDup_ListNoDup, roots_NoDup.
  - intros e. rewrite <-list_elem_of_In, Hp, list_elem_of_In, filter_In, in_flat_map. unfold matched. rewrite Hq. cbn [negb orb].
    rewrite existsb_exists. split.
    + intros [(r & Hrr & He) (d & Hd & Ht)]. destruct (Hr r Hrr) as [Hrb Hrp]. pose proof (subtree_in_book r e Hrb He) as Heb.
      split; [done|]. apply (In_subtree book) in He as [_ Hl]; [|done]. apply (In_subtree book) in Hd as [Hdb Hd]; [|done]. split.
      * exists (rev (lineage book e)), r. split; [by apply (pathOf_lineage book)|]. split; [|done].
        destruct (lineage_suffix book e r Heb Hl) as [l ->]. rewrite (lineage_unfold book r) by done.
        unfold parent_entry. rewrite Hrp. by rewrite rev_app_distr.
      * exists d, (rev (lineage book d)). split_and!; [done|by apply (pathOf_lineage book)|by apply in_rev in Hd|exact Ht].
    + intros (Heb & (p & r & Hpe & Hh & Hrp) & (d & pd & Hdb & Hpd & Hin & Ht)).
      rewrite pathOf_lineage in Hpe, Hpd by done. injection Hpe as <-. injection Hpd as <-. apply in_rev in Hin. split.
      * assert (Hrl : In r (lineage book e)).
        { apply in_rev. destruct (rev (lineage book e)); [done|]. cbn in Hh. injection Hh as ->. by left. }
        pose proof (lineage_in book e r Heb Hrl) as Hrb. exists r. split.
        -- apply filter_In. split; [done|]. by apply bool_decide_eq_true.
        -- by apply (In_subtree book).
      * exists d. split; [by apply (In_subtree book)|exact Ht].
Qed.

End Filtering.

(** ** The crumbs of an entry *)

Section Crumbs.
Context (book : list BookEntry) `{WfBook book}.
(** Ids are path segments. *)
Context (ids_are_segments : ∀ x, In x book → includes (String.list_ascii_of_string (be_id x)) "/"%char = false).

Lemma segments_entry x : In x book → segments ("/book/" +:+ be_id x) = ["book"; be_id x].
Proof using All.
  intros Hx. unfold segments. change ("/book/" +:+ be_id x) with ("" +:+ String "/"%char ("book" +:+ String "/"%char (be_id x))).
  rewrite !split_app_sep, (split_no_sep _ (be_id x)) by (done || by apply ids_are_segments).
  cbn [List.filter]. by rewrite (wf_named x).
Qed.

Definition trail_crumbs (p : list BookEntry) : list BarCrumb :=
  imap (λ i e, mkBarCrumb (Some (be_title e))
                 (if Z.of_nat i <? js_length p - 1 then Some ("/book/" +:+ be_id e) else None)) p.

Lemma bar_resolve_entry x : In x book →
  bar_resolve book ("/book/" +:+ be_id x) =
  Some (Some (LEVEL_ICON (be_level x)), mkBarCrumb (Some "Book") (Some "/book") :: trail_crumbs (rev (lineage book x))).
Proof using All.
  intros Hx. unfold bar_resolve. rewrite segments_entry by done. cbn. rewrite pathOf_lineage by done. cbn.
  rewrite (lineage_unfold book x Hx). cbn [rev]. by rewrite last_snoc.
Qed.

(** The path of an entry on the path is its part up to there. *)
Lemma path_prefix x i a : In x book → rev (lineage book x) !! i = Some a →
  rev (lineage book a) = take (S i) (rev (lineage book x)).
Proof using All.
  intros Hx Hi. assert (Ha : In a (lineage book x)).
  { apply in_rev, list_elem_of_In. by eapply list_elem_of_lookup_2. }
  destruct (lineage_suffix book x a Hx Ha) as [l Hl].
  assert (Hnd : NoDup (rev (lineage book x))) by (rewrite NoDup_ListNoDup; apply NoDup_rev, NoDup_ListNoDup, (lineage_NoDup book x Hx)).
  pose proof (lineage_in book x a Hx Ha) as Hab. rewrite Hl, rev_app_distr in *.
  assert (Hlast : rev (lineage book a) !! (length (lineage book a) - 1)%nat = Some a).
  { rewrite (lineage_unfold book a Hab). cbn [rev length]. rewrite lookup_app_r by (rewrite length_rev; lia).
    rewrite length_rev. by replace (S _ - 1 - _)%nat with 0%nat by lia. }
  assert (Hlen : (0 < length (lineage book a))%nat) by (rewrite (lineage_unfold book a Hab); cbn; lia).
  assert (Heq : i = (length (lineage book a) - 1)%nat).
  { eapply NoDup_lookup; [exact Hnd|exact Hi|]. rewrite lookup_app_l; [done|]. rewrite length_rev. lia. }
  rewrite take_app_le by (rewrite length_rev; lia). rewrite take_ge; [done|]. rewrite length_rev. lia.
Qed.

Lemma trail_crumbs_take p i a : p !! i = Some a →
  trail_crumbs (take (S i) p) = take i (trail_crumbs p) ++ [mkBarCrumb (Some (be_title a)) None].
Proof.
  intros Hi. pose proof (lookup_lt_Some _ _ _ Hi) as Hlt.
  assert (Hlen : length (take (S i) p) = S i) by (rewrite length_take; lia).
  apply list_eq. intros k. unfold trail_crumbs. rewrite list_lookup_imap. unfold js_length. rewrite Hlen.
  destruct (lt_eq_lt_dec k i) as [[Hk| ->]|Hk].
  - rewrite lookup_app_l by (rewrite length_take, length_imap; lia). rewrite !lookup_take_lt by lia.
    rewrite list_lookup_imap. destruct (p !! k); [|done]. cbn. do 2 f_equal.
    by rewrite !(proj2 (Z.ltb_lt _ _)) by lia.
  - rewrite lookup_take_lt by lia. rewrite Hi. cbn. rewrite lookup_app_r by (rewrite length_take, length_imap; lia).
    rewrite length_take, length_imap. replace (i - (i `min` length p))%nat with 0%nat by lia. cbn.
    by rewrite (proj2 (Z.ltb_ge _ _)) by lia.
  - rewrite lookup_take_ge by lia. cbn. symmetry. apply lookup_ge_None_2. rewrite length_app, length_take, length_imap. cbn. lia.
Qed.

(** The context bar of an entry ends with its title, unlinked, and every crumb before it
    can be followed: it leads to a page whose bar is this one cut off after that crumb,
    so going up crumb by crumb always reaches the book. *)
Theorem crumb_leads_to_shorter_trail e : In e book →
  ∃ crumbs, bar_resolve book ("/book/" +:+ be_id e) = Some (Some (LEVEL_ICON (be_level e)), crumbs) ∧
    last crumbs = Some (mkBarCrumb (Some (be_title e)) None) ∧
    ∀ i c, crumbs !! i = Some c → (S i < length crumbs)%nat →
      ∃ h icon, bc_href c = Some h ∧
        bar_resolve book h = Some (Some icon, take i crumbs ++ [mkBarCrumb (bc_label c) None]).
Proof using All.
  intros He. eexists. split; [by apply bar_resolve_entry|].
  assert (Hp : rev (lineage book e) !! (length (lineage book e) - 1)%nat = Some e).
  { rewrite (lineage_unfold book e He). cbn [rev length]. rewrite lookup_app_r by (rewrite length_rev; lia).
    rewrite length_rev. by replace (S _ - 1 - _)%nat with 0%nat by lia. }
  split.
  - pose proof (trail_crumbs_take _ _ _ Hp) as Ht.
    rewrite take_ge in Ht by (rewrite length_rev; lia). rewrite Ht, last_cons, last_snoc. done.
  - intros [|i] c Hc Hlt.
    + cbn in Hc. injection Hc as <-. exists "/book". eexists. split; [done|]. vm_compute. reflexivity.
    + change (trail_crumbs (rev (lineage book e)) !! i = Some c) in Hc. cbn [length] in Hlt.
      unfold trail_crumbs in Hc, Hlt. rewrite length_imap in Hlt. rewrite list_lookup_imap in Hc. apply fmap_Some in Hc as (a & Ha & ->). cbn.
      rewrite (proj2 (Z.ltb_lt _ _)) by (unfold js_length; lia). do 2 eexists. split; [reflexivity|].
      assert (Hab : In a book).
      { eapply (lineage_in book e); [done|]. apply in_rev, list_elem_of_In. by eapply list_elem_of_lookup_2. }
      rewrite bar_resolve_entry by done. do 2 f_equal. cbn [take app]. f_equal.
      rewrite (path_prefix e i a He Ha). by apply trail_crumbs_take.
Qed.

End Crumbs.

(** ** Instances *)

Lemma filter_shows_matches_witness :
  let s := mkPanel " Vat" [("ch-ops", false)] in
  truthy (panel_query (pn_q s)) = true ∧
  ∃ rows, BookPanel BOOK s = Some rows ∧ map be_id (map fst rows) = ["ch-ops"; "t-refunds"; "s-eu-vat"] ∧ NoDup (map fst rows).
Proof.
  intros s. split; [by vm_compute|].
  destruct (filter_shows_matches BOOK s) as (rows & Hr & Hnd & _); [by vm_compute|].
  exists rows. split; [exact Hr|]. split; [|exact Hnd].
  assert (Hv : map be_id <$> (map fst <$> BookPanel BOOK s) = Some ["ch-ops"; "t-refunds"; "s-eu-vat"]) by (by vm_compute).
  rewrite Hr in Hv. by injection Hv.
Defined.

Lemma book_ids_are_segments x : In x BOOK → includes (String.list_ascii_of_string (be_id x)) "/"%char = false.
Proof.
  intros Hx. assert (Hall : forallb (λ x, negb (includes (String.list_ascii_of_string (be_id x)) "/"%char)) BOOK = true) by (by vm_compute).
  rewrite forallb_forall in Hall. apply negb_true_iff, Hall, Hx.
Qed.

Lemma crumb_leads_to_shorter_trail_witness :
  bar_resolve BOOK "/book/s-eu-vat" =
    Some (Some "RiFileTextLine",
      [mkBarCrumb (Some "Book") (Some "/book"); mkBarCrumb (Some "Operations") (Some "/book/ch-ops");
       mkBarCrumb (Some "Refunds & adjustments") (Some "/book/t-refunds");
       mkBarCrumb (Some "EU VAT refunds over €500") None]) ∧
  ∃ crumbs, bar_resolve BOOK ("/book/" +:+ be_id eu_vat) = Some (Some "RiFileTextLine", crumbs).
Proof.
  split; [by vm_compute|].
  destruct (crumb_leads_to_shorter_trail BOOK book_ids_are_segments eu_vat) as (crumbs & Hc & _); [vm_compute; tauto|].
  exists crumbs. exact Hc.
Defined.
