(* ===== verification/AuthFunnel.v ===== *)
(** * Signing in: the funnel of the prototype

    Models [prototype/components/auth/auth-flow.tsx] (the store the layout keeps) and the
    pages under [prototype/app/(auth)]: the front door, the password step, email
    verification, setting a password, the reset request and the SSO callback. The pages
    hand over with [setTimeout], so the model has a clock and the pending timers: [Wait d]
    lets time pass, up to the first timer that is due, which fires. A timer created by an
    effect with a cleanup is [owned] by its page and dies with it; one created by a handler
    is not. The store lives as long as the address stays in the group.

    The exit animation of the layout (0.18 s of the motion package) is taken as instant, and
    a form can be submitted whenever its button is enabled: the constraints of the browser
    ([required], [type=email]) only restrict that further. *)
From stdpp Require Import base list strings.
From Stdlib Require Import ZArith Lia Ascii.
From S2P Require Import Prelude JsString Proto View Url.
#[local] Open Scope string_scope.
#[local] Open Scope list_scope.
#[local] Open Scope Z_scope.

Definition MOCK_DELAY_MS : Z := 3000.
Definition mock_email : string := "google@brijesh.dev".
Definition RESEND_SECONDS : Z := 30.
Definition STAGE_COUNT : Z := 3.
Definition STEP_MS : Z := MOCK_DELAY_MS / STAGE_COUNT.
Definition MIN_LENGTH : Z := 12.

(** ** State *)

(** The local state of the page on screen. *)
Inductive Page :=
| SignInPage (pending : bool)
| EnterPasswordPage (password : string) (showPw pending : bool)
| VerifyEmailPage (code : string) (resendIn : Z) (verifying : bool) (error : option string)
| SetPasswordPage (pw pw2 : string) (showPw pending tried : bool)
| ForgotPasswordPage (pending : bool)
| SsoCallbackPage (stage : Z)
| OtherPage.

(** The callbacks handed to [setTimeout] and [setInterval], with what they capture. *)
Inductive Callback :=
| SignInDone (email : string)
| EnterPasswordDone
| Verified (value : string) (next : option string)
| FocusFirst
| SetPasswordDone (isReset : bool)
| ForgotDone
| ResendTick
| SsoTick
| SsoDone.

(** A timer: when it is due, the page instance that created it, and whether that
    page's cleanup clears it. *)
Record Timer := mkTimer { tm_due : Z; tm_mount : nat; tm_owned : bool; tm_cb : Callback }.

Record Funnel := mkFunnel {
  fu_now : Z;
  fu_href : string;
  fu_mount : nat;
  fu_page : Page;
  fu_email : string;
  fu_lastMethod : option string;
  fu_stored : option string;
  fu_timers : list Timer }.

Definition set_page (p : Page) (s : Funnel) : Funnel :=
  mkFunnel (fu_now s) (fu_href s) (fu_mount s) p (fu_email s) (fu_lastMethod s) (fu_stored s) (fu_timers s).
Definition set_email (v : string) (s : Funnel) : Funnel :=
  mkFunnel (fu_now s) (fu_href s) (fu_mount s) (fu_page s) v (fu_lastMethod s) (fu_stored s) (fu_timers s).
Definition set_timers (ts : list Timer) (s : Funnel) : Funnel :=
  mkFunnel (fu_now s) (fu_href s) (fu_mount s) (fu_page s) (fu_email s) (fu_lastMethod s) (fu_stored s) ts.
Definition set_now (t : Z) (s : Funnel) : Funnel :=
  mkFunnel t (fu_href s) (fu_mount s) (fu_page s) (fu_email s) (fu_lastMethod s) (fu_stored s) (fu_timers s).

(** [setTimeout(cb, delay)] of the page on screen, and a [setInterval] its effect clears. *)
Definition setTimeout (cb : Callback) (delay : Z) (s : Funnel) : Funnel :=
  set_timers (fu_timers s ++ [mkTimer (fu_now s + delay) (fu_mount s) false cb]) s.
Definition setInterval (cb : Callback) (delay : Z) (s : Funnel) : Funnel :=
  set_timers (fu_timers s ++ [mkTimer (fu_now s + delay) (fu_mount s) true cb]) s.

(** [setLastMethod]: the state, and [localStorage] (a failure to write is ignored). *)
Section Funnel.
Context (storage_works : bool).

Definition setLastMethod (m : string) (s : Funnel) : Funnel :=
  mkFunnel (fu_now s) (fu_href s) (fu_mount s) (fu_page s) (fu_email s) (Some m)
    (if storage_works then Some m else fu_stored s) (fu_timers s).

(** The effect of the store when it mounts. *)
Definition restored (s : Funnel) : option string :=
  if storage_works && otruthy (fu_stored s) then fu_stored s else None.

(** ** Navigation *)

Definition auth_paths : list string :=
  ["/sign-in"; "/sign-up"; "/enter-password"; "/verify-email"; "/set-password"; "/forgot-password"; "/sso/callback";
   "/error"; "/session-expired"; "/signed-out"].
Definition in_group (href : string) : bool := includes auth_paths (href_path href).

(** [/sign-up] redirects. *)
Definition redirected (href : string) : string := if href_path href === "/sign-up" then "/sign-in" else href.

Definition page_of (href : string) : Page :=
  let path := href_path href in
  if path === "/sign-in" then SignInPage false
  else if path === "/enter-password" then EnterPasswordPage "" false false
  else if path === "/verify-email" then VerifyEmailPage "" RESEND_SECONDS false None
  else if path === "/set-password" then SetPasswordPage "" "" false false false
  else if path === "/forgot-password" then ForgotPasswordPage false
  else if path === "/sso/callback" then SsoCallbackPage 0
  else OtherPage.

(** The effects of a page that mounts. *)
Definition mount_effects (s : Funnel) : Funnel :=
  match fu_page s with
  | VerifyEmailPage _ _ _ _ => setInterval ResendTick 1000 s
  | SsoCallbackPage _ => setInterval SsoTick STEP_MS s
  | _ => s
  end.

(** Another address: the page unmounts and clears what it owns, the store is reset
    unless both addresses are in the group, the new page mounts. *)
Definition navigate (to : string) (s : Funnel) : Funnel :=
  let href := redirected to in
  let keep := in_group (fu_href s) && in_group href in
  mount_effects
    (mkFunnel (fu_now s) href (S (fu_mount s)) (page_of href)
       (if keep then fu_email s else "") (if keep then fu_lastMethod s else restored s) (fu_stored s)
       (List.filter (λ t, negb (tm_owned t)) (fu_timers s))).

(** A link of a page; [#] stays where it is. *)
Definition follow (href : string) (s : Funnel) : Funnel := if href === "#" then s else navigate href s.

Definition push (href : string) (s : Funnel) : Funnel * list effect := (navigate href s, [RouterPush href]).

(** ** The callbacks *)

Definition NEXT_BY_FLOW : list (string * string) :=
  [("signup", "/set-password"); ("login", "/book"); ("reset", "/set-password?mode=reset")].

(** [NEXT_BY_FLOW[flow] ?? NEXT_BY_FLOW.signup]; [None] is an inherited member, not a string. *)
Definition next_of (flow : string) : option string :=
  match js_get NEXT_BY_FLOW flow with
  | Own href => Some href
  | Inherited => None
  | Missing => Some "/set-password"
  end.

Definition wrong_code : string := "That code is incorrect. Try again or request a new one.".

(** A state setter of the page instance [m]; it does nothing once that page is gone. *)
Definition on_page (m : nat) (f : Page → Page) (s : Funnel) : Funnel :=
  if (m =? fu_mount s)%nat then set_page (f (fu_page s)) s else s.

(** The callback of the front door: the address decides between a returning user and a
    new account. *)
Definition signin_done `{Locale} (m : nat) (email : string) (s : Funnel) : Funnel * list effect :=
  let s' := on_page m (λ p, match p with SignInPage _ => SignInPage false | _ => p end) s in
  if toLowerCase (trim email) === mock_email then push "/enter-password" s'
  else push "/verify-email?flow=signup" s'.

(** The callback of [handleComplete]. *)
Definition verified (m : nat) (value : string) (next : option string) (s : Funnel) : Funnel * list effect :=
  if value === "000000" then
    (setTimeout FocusFirst 0
       (on_page m
          (λ p, match p with
                | VerifyEmailPage _ r _ _ => VerifyEmailPage "" r false (Some wrong_code)
                | _ => p
                end) s), [])
  else match next with
       | Some href => push href s
       | None => (s, [Throws "router.push of a value that is not a string"])
       end.

(** The countdown: the effect runs again for every new value above zero. *)
Definition resend_tick (s : Funnel) : Funnel :=
  match fu_page s with
  | VerifyEmailPage c r v e =>
      let r' := Z.max 0 (r - 1) in
      let s' := set_page (VerifyEmailPage c r' v e) s in
      if r' <=? 0 then s' else setInterval ResendTick 1000 s'
  | _ => s
  end.

Definition sso_tick_step (s : Funnel) : Funnel :=
  match fu_page s with
  | SsoCallbackPage stage =>
      if STAGE_COUNT - 1 <=? stage then setTimeout SsoDone STEP_MS s
      else setInterval SsoTick STEP_MS (set_page (SsoCallbackPage (stage + 1)) s)
  | _ => s
  end.

Definition fire `{Locale} (t : Timer) (s : Funnel) : Funnel * list effect :=
  match tm_cb t with
  | SignInDone email => signin_done (tm_mount t) email s
  | EnterPasswordDone => push "/book" s
  | Verified value next => verified (tm_mount t) value next s
  | FocusFirst => (s, [FocusInput])
  | SetPasswordDone isReset => push (if isReset : bool then "/sign-in" else "/onboarding/organization") s
  | ForgotDone => push "/verify-email?flow=reset" s
  | ResendTick => (resend_tick s, [])
  | SsoTick => (sso_tick_step s, [])
  | SsoDone => push "/book" s
  end.

(** ** Time: the timer due first fires first, ties in the order of creation *)

Fixpoint earliest (ts : list Timer) : option (Timer * list Timer) :=
  match ts with
  | [] => None
  | t :: rest =>
      match earliest rest with
      | Some (u, rest') => if tm_due u <? tm_due t then Some (u, t :: rest') else Some (t, rest)
      | None => Some (t, rest)
      end
  end.

Definition wait `{Locale} (d : Z) (s : Funnel) : Funnel * list effect :=
  match earliest (fu_timers s) with
  | Some (t, rest) =>
      if tm_due t <=? fu_now s + d then fire t (set_timers rest (set_now (Z.max (fu_now s) (tm_due t)) s))
      else (set_now (fu_now s + Z.max 0 d) s, [])
  | None => (set_now (fu_now s + Z.max 0 d) s, [])
  end.

(** ** The handlers *)

Inductive FunnelMsg :=
| SetEmail (v : string)
| Submit
| UseProvider (id providerName : string)
| SetPassword (v : string)
| SetPw (v : string)
| SetPw2 (v : string)
| ToggleShowPw
| SetCode (v : string)
| HandleComplete (value : string)
| HandleResend
| SendByPhone
| EmailMeACode
| FollowLink (href : string)
| Wait (d : Z).

Definition lengthOk (pw : string) : bool := MIN_LENGTH <=? utf16_length pw.
Definition pw_match (pw pw2 : string) : bool := (0 <? utf16_length pw2) && (pw === pw2).
Definition pw_ok (pw pw2 : string) : bool := lengthOk pw && pw_match pw pw2.
Definition isReset (href : string) : bool := search_get (href_query href) "mode" === Some "reset".

(** [handleSubmit] of each page. *)
Definition signin_submit (s : Funnel) : Funnel * list effect :=
  if negb (truthy (fu_email s)) then (s, [PreventDefault])
  else (setTimeout (SignInDone (fu_email s)) MOCK_DELAY_MS (set_page (SignInPage true) (setLastMethod "email" s)),
        [PreventDefault]).
Definition password_submit (pw : string) (showPw : bool) (s : Funnel) : Funnel * list effect :=
  if negb (truthy pw) then (s, [PreventDefault])
  else (setTimeout EnterPasswordDone MOCK_DELAY_MS (set_page (EnterPasswordPage pw showPw true) s), [PreventDefault]).
Definition new_password_submit (pw pw2 : string) (showPw tried : bool) (s : Funnel) : Funnel * list effect :=
  if negb (pw_ok pw pw2) then (set_page (SetPasswordPage pw pw2 showPw false true) s, [PreventDefault])
  else (setTimeout (SetPasswordDone (isReset (fu_href s))) MOCK_DELAY_MS
          (set_page (SetPasswordPage pw pw2 showPw true tried) s), [PreventDefault]).
Definition forgot_submit (s : Funnel) : Funnel * list effect :=
  if negb (truthy (fu_email s)) then (s, [PreventDefault])
  else (setTimeout ForgotDone MOCK_DELAY_MS (set_page (ForgotPasswordPage true) s), [PreventDefault]).

(** The form of the page on screen, when its button is enabled. *)
Definition handleSubmit (s : Funnel) : Funnel * list effect :=
  match fu_page s with
  | SignInPage false => signin_submit s
  | EnterPasswordPage pw show false => password_submit pw show s
  | SetPasswordPage pw pw2 show false tried => new_password_submit pw pw2 show tried s
  | ForgotPasswordPage false => forgot_submit s
  | _ => (s, [])
  end.

Definition useProvider (id name : string) (s : Funnel) : Funnel * list effect :=
  push ("/sso/callback?provider=" +:+ encodeURIComponent name) (setLastMethod id s).

(** [handleComplete]: the code field is disabled while a code is being verified. *)
Definition handleComplete (value : string) (s : Funnel) : Funnel :=
  match fu_page s with
  | VerifyEmailPage code r false _ =>
      let flow := search_get (href_query (fu_href s)) "flow" ?? "signup" in
      setTimeout (Verified value (next_of flow)) MOCK_DELAY_MS (set_page (VerifyEmailPage code r true None) s)
  | _ => s
  end.

(** [handleResend]: the button is there once the countdown is over. *)
Definition handleResend (s : Funnel) : Funnel * list effect :=
  match fu_page s with
  | VerifyEmailPage code r v _ =>
      if 0 <? r then (s, [])
      else (setInterval ResendTick 1000 (set_page (VerifyEmailPage code RESEND_SECONDS v None) s),
            [Toast "success" "New code sent." ("Sent to " +:+ (fu_email s ||| mock_email) +:+ ". Check your inbox.")])
  | _ => (s, [])
  end.

#[export] Instance funnel_update `{Locale} : Machine Funnel FunnelMsg effect := λ s m,
  match m with
  | SetEmail v =>
      (match fu_page s with SignInPage _ | ForgotPasswordPage _ => set_email v s | _ => s end, [])
  | Submit => handleSubmit s
  | UseProvider id name =>
      match fu_page s with
      | SignInPage _ => useProvider id name s
      | _ => (s, [])
      end
  | SetPassword v =>
      (match fu_page s with EnterPasswordPage _ sh p => set_page (EnterPasswordPage v sh p) s | _ => s end, [])
  | SetPw v =>
      (match fu_page s with SetPasswordPage _ pw2 sh p t => set_page (SetPasswordPage v pw2 sh p t) s | _ => s end, [])
  | SetPw2 v =>
      (match fu_page s with SetPasswordPage pw _ sh p t => set_page (SetPasswordPage pw v sh p t) s | _ => s end, [])
  | ToggleShowPw =>
      (match fu_page s with
       | EnterPasswordPage pw sh p => set_page (EnterPasswordPage pw (negb sh) p) s
       | SetPasswordPage pw pw2 sh p t => set_page (SetPasswordPage pw pw2 (negb sh) p t) s
       | _ => s
       end, [])
  | SetCode v =>
      (match fu_page s with VerifyEmailPage _ r false e => set_page (VerifyEmailPage v r false e) s | _ => s end, [])
  | HandleComplete v => (handleComplete v s, [])
  | HandleResend => handleResend s
  | SendByPhone =>
      (s, match fu_page s with VerifyEmailPage _ _ _ _ => [Toast "info" "We've called you with the code." ""] | _ => [] end)
  | EmailMeACode =>
      match fu_page s with EnterPasswordPage _ _ _ => push "/verify-email?flow=login" s | _ => (s, []) end
  | FollowLink href => (follow href s, [])
  | Wait d => wait d s
  end.

(** Opening the front door with nothing pending. *)
Definition front_door (stored : option string) : Funnel :=
  mkFunnel 0 "/sign-in" 0 (SignInPage false) ""
    (if storage_works && otruthy stored then stored else None) stored [].

End Funnel.

(** ** What the pages show *)

#[local] Abbreviation V := (view FunnelMsg).

(** [components/auth/auth-shell.tsx] *)
Definition AuthShell (kids : list V) : V := El "div" [] kids.
Definition AuthCard (kids : list V) : V := El "div" [] kids.
Definition AuthCardHeader (title : string) (subtitle : list V) : V :=
  El "div" [] (El "h1" [] [Text title] :: when (0 <? js_length subtitle) [El "p" [] subtitle]).
Definition ButtonSpinner (label : string) : V := El "span" [] [El "span" [] []; Text label].
Definition AuthSubmitButton (disabled : bool) (kids : list V) : V :=
  El "Button" [Attr "type" "submit"; BoolAttr "disabled" disabled; OnClick Submit] kids.
Definition AuthMethodButton (label : string) (detail : option string) (m : FunnelMsg) : V :=
  El "Button" [Attr "type" "button"; OnClick m]
    (El "span" [] [Text label] :: when (otruthy detail) [El "span" [] [Text (detail ?? "")]]).
Definition AuthDivider (text : string) : V := El "div" [] [El "div" [] []; El "span" [] [Text text]; El "div" [] []].
Definition AuthField (label htmlFor : string) (trailing : list V) (kids : list V) : V :=
  El "div" [] (El "div" [] (El "label" [Attr "for" htmlFor] [Text label] :: trailing) :: kids).

Definition back_link (label : string) : V := El "div" [] [El "Link" [Attr "href" "/sign-in"] [Text label]].

Record Provider := mkProvider { pr_id : string; pr_label : string; pr_detail : option string }.
#[export] Instance Provider_eq_dec : EqDecision Provider.
Proof. solve_decision. Defined.
Definition PROVIDERS : list Provider :=
  [mkProvider "microsoft" "Continue with Microsoft" None; mkProvider "google" "Continue with Google" None;
   mkProvider "sso" "Single sign-on (SSO)" (Some "SAML · OIDC")].

(** The provider used last comes first. *)
Definition by_last (last : option string) (a b : Provider) : Z :=
  Number (Some (pr_id b) === last) - Number (Some (pr_id a) === last).
Definition ordered (last : option string) : list Provider := js_sort (by_last last) PROVIDERS.

(** [label.replace("Continue with ", "")]: no label starts anywhere else with it. *)
Definition providerName (p : Provider) : string := strip_prefix "Continue with " (pr_label p).

Definition SignIn_view (s : Funnel) (pending : bool) : V :=
  AuthShell
    [AuthCard
       [AuthCardHeader "Sign in or create your account"
          [Text "Continue with your work email — we'll sign you in or get you set up."];
        El "form" []
          [AuthField "Work email" "email" []
             [El "Input" [Attr "id" "email"; Attr "type" "email"; BoolAttr "required" true; BoolAttr "data-autofocus" true;
                          Attr "value" (fu_email s); OnChange SetEmail] []];
           AuthSubmitButton pending [if pending then ButtonSpinner "Continuing…" else Text "Continue"]];
        AuthDivider "or continue with";
        El "div" []
          (map (λ p, AuthMethodButton (pr_label p)
                       (if Some (pr_id p) === fu_lastMethod s then Some "Last used" else pr_detail p)
                       (UseProvider (pr_id p) (providerName p)))
               (ordered (fu_lastMethod s)))];
     El "p" [] [Text "By continuing you agree to the "; El "Link" [Attr "href" "#"] [Text "Terms"]; Text " and ";
                El "Link" [Attr "href" "#"] [Text "Privacy Policy"]; Text "."]].

Definition displayEmail (s : Funnel) : string := fu_email s ||| mock_email.

Definition show_toggle (showPw : bool) : V :=
  El "button" [OnClick ToggleShowPw; Attr "aria-label" (if showPw then "Hide password" else "Show password")] [].
Definition password_input (id value : string) (autofocus showPw : bool) (f : string → FunnelMsg) : V :=
  El "div" [] [El "Input" ([Attr "id" id; Attr "type" (if showPw then "text" else "password"); BoolAttr "required" true] ++
                           when autofocus [BoolAttr "data-autofocus" true] ++
                           [Attr "value" value; OnChange f]) []; show_toggle showPw].

Definition EnterPassword_view (s : Funnel) (password : string) (showPw pending : bool) : V :=
  AuthShell
    [AuthCard
       [AuthCardHeader "Enter your password" [Text "Signing in as "; El "span" [] [Text (displayEmail s)]; Text "."];
        El "form" []
          [AuthField "Password" "password" [El "Link" [Attr "href" "/forgot-password"] [Text "Forgot password?"]]
             [password_input "password" password true showPw SetPassword];
           AuthSubmitButton pending [if pending then ButtonSpinner "Signing in…" else Text "Sign in"]];
        AuthDivider "or";
        AuthMethodButton "Email me a code instead" None EmailMeACode];
     back_link "Use a different email"].

Definition VerifyEmail_view (s : Funnel) (code : string) (resendIn : Z) (verifying : bool) (error : option string) : V :=
  AuthShell
    [AuthCard
       [AuthCardHeader "Verify your email"
          [Text "Enter the 6-digit code we sent to "; El "span" [] [Text (displayEmail s)]; Text "."];
        El "div" []
          [El "InputOTP" [Attr "maxLength" "6"; Attr "value" code; OnChange SetCode; BoolAttr "disabled" verifying;
                          BoolAttr "data-autofocus" true; BoolAttr "aria-invalid" (otruthy error)] [];
           El "div" [Attr "id" "otp-status"]
             (when verifying [El "p" [] [Text "Verifying…"]] ++
              when (otruthy error && negb verifying) [El "p" [Attr "role" "alert"] [Text (error ?? "")]]);
           El "div" []
             (if 0 <? resendIn
              then [Text "Didn't receive a code? Resend in "; El "span" [] [Text (num resendIn +:+ "s")]]
              else [Text "Didn't receive a code? "; El "button" [OnClick HandleResend] [Text "Resend now"]]);
           El "button" [OnClick SendByPhone] [Text "Send the code by phone instead"]]];
     back_link "Back to sign-in"].

(** [/[a-z]/.test(pw)] and the like, on bytes: a byte beyond ASCII is not alphanumeric. *)
Definition some_byte (f : nat → bool) (s : string) : bool :=
  existsb (λ a, f (Ascii.nat_of_ascii a)) (String.list_ascii_of_string s).
Definition is_lower (n : nat) : bool := ((97 <=? n) && (n <=? 122))%nat.
Definition is_upper (n : nat) : bool := ((65 <=? n) && (n <=? 90))%nat.
Definition is_digit (n : nat) : bool := ((48 <=? n) && (n <=? 57))%nat.
Definition variety (pw : string) : Z :=
  Number (some_byte is_lower pw) + Number (some_byte is_upper pw) + Number (some_byte is_digit pw) +
  Number (some_byte (λ n, negb (is_lower n || is_upper n || is_digit n)) pw).

(** [StrengthMeter]: its score, its label and its bars. *)
Definition strength (pw : string) : Z :=
  let len := utf16_length pw in
  Z.min 4 (Number (8 <=? len) + Number (12 <=? len) + Number (16 <=? len) + Number (3 <=? variety pw)).
Definition strength_label (score : Z) : option string := js_at [""; "Weak"; "Fair"; "Good"; "Strong"] score.
Definition strength_color (score : Z) : string :=
  if score <=? 1 then "bg-destructive" else if score =? 2 then "bg-warning" else "bg-success".
Definition StrengthMeter (pw : string) : V :=
  let score := strength pw in
  El "div" []
    (El "div" [] (map (λ i, El "span" [Attr "class" (if i <? score then strength_color score else "bg-muted")] [])
                      [0; 1; 2; 3]) ::
     when (otruthy (strength_label score))
       [El "p" [] [Text "Strength: "; El "span" [] [Text (strength_label score ?? "")]]]).

Definition Rule (ok failed : bool) (text : string) : V :=
  El "li" [BoolAttr "ok" ok; BoolAttr "failed" (failed && negb ok)]
    [if ok then El "RiCheckLine" [] [] else El "RiCloseLine" [BoolAttr "failed" failed] []; El "span" [] [Text text]].

Definition SetPassword_view (reset : bool) (pw pw2 : string) (showPw pending tried : bool) : V :=
  AuthShell
    [AuthCard
       [AuthCardHeader (if reset then "Set a new password" else "Create your password")
          [Text (if reset then "Choose a strong password. You'll be signed out from other devices."
                 else "This secures your account. You'll use it next time you sign in.")];
        El "form" []
          ([AuthField (if reset then "New password" else "Password") "pw" [] [password_input "pw" pw false showPw SetPw];
            AuthField (if reset then "Confirm new password" else "Confirm password") "pw2" []
              [password_input "pw2" pw2 false showPw SetPw2]] ++
           when (0 <? utf16_length pw) [StrengthMeter pw] ++
           [El "ul" [] [Rule (lengthOk pw) (tried && negb (lengthOk pw)) "At least 12 characters";
                        Rule (pw_match pw pw2) (tried && negb (pw_match pw pw2)) "Passwords match"]] ++
           when reset [El "label" [] [El "Checkbox" [Attr "id" "logout"; BoolAttr "defaultChecked" true] [];
                                      Text "Sign me out of all other devices and active sessions."]] ++
           [AuthSubmitButton pending
              [if pending then ButtonSpinner (if reset then "Updating…" else "Creating account…")
               else Text (if reset then "Update password" else "Create account")]])];
     back_link "Back to sign-in"].

Definition ForgotPassword_view (s : Funnel) (pending : bool) : V :=
  AuthShell
    [AuthCard
       [AuthCardHeader "Reset your password"
          [Text "Enter the email associated with your account and we'll send you a 6-digit reset code."];
        El "form" []
          [AuthField "Work email" "email" []
             [El "Input" [Attr "type" "email"; BoolAttr "required" true; Attr "value" (fu_email s); OnChange SetEmail] []];
           AuthSubmitButton pending [if pending then ButtonSpinner "Sending code…" else Text "Send reset code"]];
        El "p" [] [Text "If your organization uses Workspace SSO, password reset is managed by your identity provider. You may not receive a reset code from us."]];
     back_link "Back to sign-in"].

(** The stages of the SSO callback; they name the provider of the address. *)
Definition sso_stages (provider : option string) : list string :=
  ["Connecting to " +:+ (provider ?? "your identity provider") +:+ "…";
   if otruthy provider then "Verifying your identity with " +:+ (provider ?? "") +:+ "…" else "Verifying your identity…";
   "Loading your workspace…"].
Definition Indicator (i stage : Z) : string := if i <? stage then "done" else if i =? stage then "active" else "idle".
Definition SsoCallback_view (s : Funnel) (stage : Z) : V :=
  let provider := search_get (href_query (fu_href s)) "provider" in
  AuthShell
    [AuthCard
       [El "h1" [] [Text "Signing you in"]; El "p" [] [Text "This should only take a moment."];
        El "ol" []
          (imap (λ i label, El "li" [Attr "key" label; BoolAttr "aria-current" (Z.of_nat i =? stage)]
                              [El "span" [Attr "state" (Indicator (Z.of_nat i) stage)] []; El "span" [] [Text label]])
                (sso_stages provider))];
     El "div" [] [Text "Stuck on this screen? "; El "Link" [Attr "href" "/sign-in"] [Text "Cancel and try another way"]; Text "."]].

Definition Page_view (s : Funnel) : V :=
  match fu_page s with
  | SignInPage p => SignIn_view s p
  | EnterPasswordPage pw sh p => EnterPassword_view s pw sh p
  | VerifyEmailPage c r v e => VerifyEmail_view s c r v e
  | SetPasswordPage pw pw2 sh p t => SetPassword_view (isReset (fu_href s)) pw pw2 sh p t
  | ForgotPasswordPage p => ForgotPassword_view s p
  | SsoCallbackPage st => SsoCallback_view s st
  | OtherPage => El "div" [] []
  end.

Example known_email :
  (run (H := funnel_update true) (front_door true None)
     [SetEmail " Google@Brijesh.dev "; Submit; Wait 5000; SetPassword "x"; Submit; Wait 2000; Wait 2000]).2 =
  [PreventDefault; RouterPush "/enter-password"; PreventDefault; RouterPush "/book"].
Proof. vm_compute. reflexivity. Qed.
Example rejected_code :
  (run (H := funnel_update true) (front_door true None)
     [SetEmail "a@b.c"; Submit; Wait 5000; HandleComplete "000000"; Wait 1000; Wait 1000; Wait 1000; Wait 1000; Wait 0]).2 =
  [PreventDefault; RouterPush "/verify-email?flow=signup"; FocusInput].
Proof. vm_compute. reflexivity. Qed.

(** ** Timers are never late and never lost *)

Lemma earliest_spec ts :
  match earliest ts with
  | None => ts = []
  | Some (t, rest) => ts ≡ₚ t :: rest ∧ ∀ u, In u ts → tm_due t ≤ tm_due u
  end.
Proof.
  induction ts as [|t ts IH]; [done|]. cbn [earliest]. destruct (earliest ts) as [[u rest]|].
  - destruct IH as [Hp Hle]. destruct (Z.ltb_spec (tm_due u) (tm_due t)).
    + split; [rewrite Hp; apply Permutation_swap|]. intros v [<-|Hv]; [lia|auto].
    + split; [done|]. intros v [<-|Hv]; [lia|]. specialize (Hle v Hv). lia.
  - subst ts. split; [done|]. by intros v [<-|[]].
Qed.

(** What a callback does for the address: its effects do not depend on the state. *)
Definition outcome `{Locale} (cb : Callback) : list effect :=
  match cb with
  | SignInDone email =>
      [RouterPush (if toLowerCase (trim email) === mock_email then "/enter-password" else "/verify-email?flow=signup")]
  | EnterPasswordDone | SsoDone => [RouterPush "/book"]
  | Verified value next =>
      if value === "000000" then []
      else match next with Some h => [RouterPush h] | None => [Throws "router.push of a value that is not a string"] end
  | FocusFirst => [FocusInput]
  | SetPasswordDone r => [RouterPush (if r : bool then "/sign-in" else "/onboarding/organization")]
  | ForgotDone => [RouterPush "/verify-email?flow=reset"]
  | ResendTick | SsoTick => []
  end.

(** A step that keeps the clock keeps the timers, or those without a cleanup, and adds at
    most one, of which [P] holds. *)
Definition evolves (P : Timer → Prop) (s s' : Funnel) : Prop :=
  fu_now s' = fu_now s ∧
  ∃ kept new, fu_timers s' = kept ++ new ∧
    (kept = fu_timers s ∨ kept = List.filter (λ t, negb (tm_owned t)) (fu_timers s)) ∧
    (new = [] ∨ ∃ u, new = [u] ∧ P u).

Definition later (s : Funnel) (u : Timer) : Prop := fu_now s + 1000 ≤ tm_due u.

(** The callback leads into onboarding. *)
Definition opens `{Locale} (u : Timer) : Prop := In (RouterPush "/onboarding/organization") (outcome (tm_cb u)).

(** A new account's password is accepted: long enough and typed twice. *)
Definition unlocked (s : Funnel) : Prop :=
  ∃ pw sh tried, fu_page s = SetPasswordPage pw pw sh false tried ∧ 12 ≤ utf16_length pw ∧ isReset (fu_href s) = false.

(** Nothing pending is overdue. *)
Definition timely (s : Funnel) : Prop := ∀ u, In u (fu_timers s) → fu_now s ≤ tm_due u.

#[local] Ltac unfold_submit :=
  unfold handleSubmit, signin_submit, password_submit, new_password_submit, forgot_submit.

Section Theorems.
Context `{Locale} (storage_works : bool).
#[local] Instance machine : Machine Funnel FunnelMsg effect := funnel_update storage_works.

Lemma evolves_same P s s' : fu_now s' = fu_now s → fu_timers s' = fu_timers s → evolves P s s'.
Proof. intros Hn Ht. split; [done|]. exists (fu_timers s), []. rewrite app_nil_r. auto. Qed.

Lemma evolves_timer (P : Timer → Prop) s s' u : fu_now s' = fu_now s → fu_timers s' = fu_timers s ++ [u] → P u → evolves P s s'.
Proof. intros Hn Ht Hu. split; [done|]. exists (fu_timers s), [u]. split; [done|]. split; [by left|]. right. by exists u. Qed.

Lemma evolves_push (P : Timer → Prop) href s s0 :
  (∀ u, later s u → ¬ opens u → P u) → fu_now s0 = fu_now s → fu_timers s0 = fu_timers s → evolves P s (navigate storage_works href s0).
Proof.
  intros HP Hn Ht. unfold navigate, mount_effects. cbn [fu_page]. destruct (page_of _); split; cbn; try done;
    exists (List.filter (λ t, negb (tm_owned t)) (fu_timers s)); rewrite Ht;
    try (exists []; rewrite app_nil_r; auto; fail);
    eexists; (split; [reflexivity|]); (split; [by right|]); right; eexists; (split; [reflexivity|]);
    (apply HP; [unfold later; cbn; rewrite Hn; change STEP_MS with 1000; lia|by intros []]).
Qed.

Lemma fire_effects t s : (fire storage_works t s).2 = outcome (tm_cb t).
Proof.
  unfold fire, signin_done, verified, outcome. destruct (tm_cb t); try done; repeat case_bool_decide; try done.
  - by destruct next.
Qed.

Lemma fire_evolves t s :
  evolves (λ u, (later s u ∨ (tm_cb u = FocusFirst ∧ tm_due u = fu_now s ∧ tm_cb t ≠ FocusFirst)) ∧ ¬ opens u)
    s (fire storage_works t s).1.
Proof.
  unfold fire, signin_done, verified, resend_tick, sso_tick_step, push. destruct (tm_cb t) eqn:Hcb; cbn [fst]; try (by apply evolves_push; [auto|done|done]).
  - unfold on_page. repeat case_bool_decide; cbn [fst]; destruct (_ =? _)%nat; by apply evolves_push; [auto|..].
  - case_bool_decide; cbn [fst]; [|destruct next; [by apply evolves_push; [auto|..]|by apply evolves_same]].
    unfold on_page. destruct (_ =? _)%nat; (eapply evolves_timer; [done|reflexivity|]);
      (split; [right; split; [done|split; [cbn; lia|done]]|by intros [|[]]]).
  - by apply evolves_same.
  - destruct (fu_page s); try by apply evolves_same. cbn [fst]. destruct (_ <=? _); [by apply evolves_same|].
    eapply evolves_timer; [done|reflexivity|]. split; [left; unfold later; cbn; lia|by intros []].
  - destruct (fu_page s); try by apply evolves_same. cbn [fst]. destruct (_ <=? _);
      (eapply evolves_timer; [done|reflexivity|]); (split; [left; unfold later; cbn; change STEP_MS with 1000; lia|]);
      [by intros [|[]]|by intros []].
Qed.

Lemma next_of_known flow href : next_of flow = Some href → href ≠ "/onboarding/organization".
Proof.
  unfold next_of, js_get. cbn [List.find NEXT_BY_FLOW fst snd].
  destruct ("signup" === flow); [intros [= <-]; discriminate|].
  destruct ("login" === flow); [intros [= <-]; discriminate|].
  destruct ("reset" === flow); [intros [= <-]; discriminate|].
  destruct (includes object_prototype flow); intros [= <-]; discriminate.
Qed.

Lemma update_evolves m s : (∀ d, m ≠ Wait d) →
  evolves (λ u, later s u ∧ (opens u → m = Submit ∧ unlocked s)) s (update s m).1.
Proof.
  intros Hm. destruct m; cbn [update machine funnel_update fst]; try by apply evolves_same.
  all: try by (destruct (fu_page s); apply evolves_same).
  - unfold_submit. destruct (fu_page s) as [[]|? ? []| |pw pw2 sh [] tr|[]| |] eqn:Hp; try by apply evolves_same.
    all: match goal with |- context [if negb ?c then _ else _] => destruct c eqn:Hc end; cbn [negb fst];
         [|by apply evolves_same].
    all: eapply evolves_timer; [done|reflexivity|]; (split; [unfold later; cbn; unfold MOCK_DELAY_MS; lia|]);
         unfold opens; cbn.
    + case_bool_decide; by intros [|[]].
    + by intros [|[]].
    + destruct (isReset (fu_href s)) eqn:Hr; [by intros [|[]]|]. intros _. split; [done|].
      unfold pw_ok, pw_match, lengthOk, MIN_LENGTH in Hc. zbool. subst pw2. by exists pw, sh, tr.
    + by intros [|[]].
  - destruct (fu_page s); try by apply evolves_same. cbn [useProvider push fst]. apply evolves_push; [by intros u Hu1 Hu2|done|done].
  - destruct (fu_page s) as [| |? ? [] ?| | | |]; by apply evolves_same.
  - unfold handleComplete. destruct (fu_page s) as [| |? ? [] ?| | | |]; try by apply evolves_same.
    eapply evolves_timer; [done|reflexivity|]. split; [unfold later; cbn; unfold MOCK_DELAY_MS; lia|].
    unfold opens; cbn. case_bool_decide; [done|]. destruct (next_of _) as [href|] eqn:Hn; [|by intros [|[]]].
    apply next_of_known in Hn. intros [[= ?]|[]]. done.
  - unfold handleResend. destruct (fu_page s); try by apply evolves_same. destruct (0 <? _); [by apply evolves_same|].
    eapply evolves_timer; [done|reflexivity|]. split; [unfold later; cbn; lia|by intros []].
  - destruct (fu_page s); try by apply evolves_same. cbn [useProvider push fst]. apply evolves_push; [by intros u Hu1 Hu2|done|done].
  - unfold follow. destruct (href === "#"); [by apply evolves_same|]. apply evolves_push; [by intros u Hu1 Hu2|done|done].
  - by destruct (Hm d).
Qed.

(** Time passes, or the timer due first fires at its time. *)
Lemma wait_cases d s : timely s →
  (fu_timers (wait storage_works d s).1 = fu_timers s ∧ (wait storage_works d s).2 = [] ∧
   (∀ u, In u (fu_timers s) → fu_now s + d < tm_due u) ∧
   fu_now (wait storage_works d s).1 = fu_now s + Z.max 0 d ∧ fu_page (wait storage_works d s).1 = fu_page s ∧
   fu_href (wait storage_works d s).1 = fu_href s) ∨
  ∃ t rest, fu_timers s ≡ₚ t :: rest ∧ (∀ u, In u (fu_timers s) → tm_due t ≤ tm_due u) ∧
    wait storage_works d s = fire storage_works t (set_timers rest (set_now (tm_due t) s)).
Proof.
  intros Hs. unfold wait. pose proof (earliest_spec (fu_timers s)) as He.
  destruct (earliest (fu_timers s)) as [[t rest]|].
  - destruct He as [Hp Hle]. assert (Ht : In t (fu_timers s)) by (rewrite <-list_elem_of_In, Hp; by left).
    destruct (Z.leb_spec (tm_due t) (fu_now s + d)).
    + right. exists t, rest. split; [done|]. split; [done|]. pose proof (Hs t Ht). by replace (Z.max _ _) with (tm_due t) by lia.
    + left. split_and!; try done. intros u Hu. specialize (Hle u Hu). lia.
  - left. rewrite He. split_and!; try done.
Qed.

Lemma evolves_timely P s s' : (∀ u, P u → fu_now s ≤ tm_due u) → evolves P s s' → timely s → timely s'.
Proof.
  intros HP (Hn & kept & new & Ht & Hk & Hnew) Hs u. rewrite Ht, in_app_iff, Hn. intros [Hu|Hu].
  - apply Hs. destruct Hk as [->| ->]; [done|]. by apply filter_In in Hu as [? _].
  - destruct Hnew as [->|(v & -> & Hv)]; [done|]. destruct Hu as [<-|[]]. by apply HP.
Qed.

Lemma update_timely m s : timely s → timely (update s m).1.
Proof.
  intros Hs. destruct (match m with Wait d => true | _ => false end) eqn:Hm.
  - destruct m as [| | | | | | | | | | | | |d]; try done. cbn [update machine funnel_update].
    destruct (wait_cases d s Hs) as [(Ht & _ & Hle & Hn & _)|(t & rest & Hp & Hle & ->)].
    + intros u. rewrite Ht, Hn. intros Hu. specialize (Hle u Hu). specialize (Hs u Hu). lia.
    + eapply evolves_timely; [|apply fire_evolves|].
      * cbn. intros u [[Hu|(_ & -> & _)] _]; [unfold later in Hu; cbn in Hu; lia|lia].
      * intros u Hu. cbn in *. apply Hle. rewrite <-list_elem_of_In, Hp. right. by apply list_elem_of_In.
  - eapply evolves_timely; [|apply update_evolves|done]; [unfold later; intros; lia|by intros d ->].
Qed.

Lemma evolves_keeps P s s' t : evolves P s s' → In t (fu_timers s) → tm_owned t = false → In t (fu_timers s').
Proof.
  intros (_ & kept & new & -> & Hk & _) Ht Ho. apply in_app_iff. left.
  destruct Hk as [->| ->]; [done|]. apply filter_In. by rewrite Ho.
Qed.

(** A timer that nothing clears stays until it fires. *)
Lemma update_keeps m s t : timely s → In t (fu_timers s) → tm_owned t = false →
  In t (fu_timers (update s m).1) ∨ (update s m).2 = outcome (tm_cb t).
Proof.
  intros Hs Ht Ho. destruct (match m with Wait d => true | _ => false end) eqn:Hm.
  - destruct m as [| | | | | | | | | | | | |d]; try done. cbn [update machine funnel_update].
    destruct (wait_cases d s Hs) as [(-> & _)|(u & rest & Hp & Hle & ->)]; [by left|].
    rewrite <-list_elem_of_In, Hp, list_elem_of_In in Ht. destruct Ht as [<-|Ht]; [right; by apply fire_effects|left].
    by eapply evolves_keeps; [apply fire_evolves|..].
  - left. eapply evolves_keeps; [apply update_evolves|done|done]. by intros d ->.
Qed.

Lemma run_keeps ms s t : timely s → In t (fu_timers s) → tm_owned t = false →
  timely (run s ms).1 ∧ (In t (fu_timers (run s ms).1) ∨ ∀ e, In e (outcome (tm_cb t)) → In e (run s ms).2).
Proof.
  revert s. induction ms as [|m ms IH]; intros s Hs Ht Ho; [by split; [|left]|]. rewrite run_cons. cbn [fst snd].
  pose proof (update_timely m s Hs) as Hs'. destruct (update_keeps m s t Hs Ht Ho) as [Hk|Hf].
  - destruct (IH _ Hs' Hk Ho) as [H1 [H2|H2]]; (split; [done|]); [by left|right]. intros e He. apply in_app_iff. auto.
  - split; [by apply run_invariant; [intros; by apply update_timely|]|]. right. intros e He. apply in_app_iff. left. by rewrite Hf.
Qed.

(** ** Waiting is enough *)

Definition weight (T : Z) (u : Timer) : Z :=
  if tm_due u <=? T then 2 * (T - tm_due u) + match tm_cb u with FocusFirst => 1 | _ => 2 end else 0.
Fixpoint total (T : Z) (ts : list Timer) : Z :=
  match ts with [] => 0 | u :: ts' => weight T u + total T ts' end.

Lemma weight_nonneg T u : 0 ≤ weight T u.
Proof. unfold weight. destruct (Z.leb_spec (tm_due u) T); destruct (tm_cb u); lia. Qed.

Lemma total_app T l l' : total T (l ++ l') = total T l + total T l'.
Proof. induction l as [|u l IH]; [done|]. cbn. rewrite IH. lia. Qed.

Lemma total_nonneg T l : 0 ≤ total T l.
Proof. induction l as [|u l IH]; [done|]. cbn. pose proof (weight_nonneg T u). lia. Qed.

Lemma total_perm T l l' : l ≡ₚ l' → total T l = total T l'.
Proof. induction 1; cbn; lia. Qed.

Lemma total_filter T f l : total T (List.filter f l) ≤ total T l.
Proof. induction l as [|u l IH]; [done|]. cbn. pose proof (weight_nonneg T u). destruct (f u); cbn; lia. Qed.

Lemma fire_lighter T t s : tm_due t = fu_now s → tm_due t ≤ T →
  total T (fu_timers (fire storage_works t s).1) < total T (t :: fu_timers s).
Proof.
  intros Hd HT. destruct (fire_evolves t s) as (_ & kept & new & -> & Hk & Hnew).
  rewrite total_app. cbn [total].
  assert (Hkt : total T kept ≤ total T (fu_timers s)) by (destruct Hk as [->| ->]; [lia|apply total_filter]).
  assert (Hwt : 1 ≤ weight T t).
  { unfold weight. destruct (Z.leb_spec (tm_due t) T); [|lia]. destruct (tm_cb t); lia. }
  destruct Hnew as [->|(u & -> & Hu)]; [cbn; lia|]. cbn [total].
  assert (Hw : weight T u < weight T t); [|lia].
  unfold weight. destruct (Z.leb_spec (tm_due t) T); [|lia].
  destruct (Z.leb_spec (tm_due u) T); [|destruct (tm_cb t); lia].
  destruct Hu as [[Hu|(Hcb & Hdu & Hne)] _]; [unfold later in Hu; destruct (tm_cb u), (tm_cb t); lia|].
  rewrite Hcb. destruct (tm_cb t); try lia. done.
Qed.

Lemma waiting_fires n s t : timely s → In t (fu_timers s) → tm_owned t = false → tm_due t ≤ fu_now s + MOCK_DELAY_MS →
  (Z.to_nat (total (tm_due t) (fu_timers s)) ≤ n)%nat →
  ∀ e, In e (outcome (tm_cb t)) → In e (run s (repeat (Wait MOCK_DELAY_MS) n)).2.
Proof.
  revert s. induction n as [|n IH]; intros s Hs Ht Ho Hd Hn e He; pose proof (total_nonneg (tm_due t) (fu_timers s)) as H0.
  - exfalso. assert (Hp : ∃ l, fu_timers s ≡ₚ t :: l).
    { apply in_split in Ht as (l1 & l2 & ->). exists (l1 ++ l2). symmetry. apply Permutation_middle. }
    destruct Hp as [l Hp]. rewrite (total_perm _ _ _ Hp) in *. cbn [total] in *.
    pose proof (total_nonneg (tm_due t) l). unfold weight in *. rewrite Z.leb_refl in *. destruct (tm_cb t); lia.
  - cbn [repeat]. rewrite run_cons. apply in_app_iff. cbn [snd].
    destruct (update_keeps (Wait MOCK_DELAY_MS) s t Hs Ht Ho) as [Hk|Hf]; [right|left; by rewrite Hf].
    cbn [update machine funnel_update] in *.
    destruct (wait_cases MOCK_DELAY_MS s Hs) as [(_ & _ & Hle & _)|(u & rest & Hp & Hle & Heq)].
    { specialize (Hle t Ht). lia. }
    pose proof (update_timely (Wait MOCK_DELAY_MS) s Hs) as Hs'. cbn [update machine funnel_update] in Hs'.
    assert (Hnow : fu_now (wait storage_works MOCK_DELAY_MS s).1 = tm_due u).
    { rewrite Heq. by destruct (fire_evolves u (set_timers rest (set_now (tm_due u) s))) as [-> _]. }
    assert (Hu : fu_now s ≤ tm_due u) by (apply Hs; rewrite <-list_elem_of_In, Hp; by left).
    apply IH; [done|done|done|lia| |done].
    pose proof (fire_lighter (tm_due t) u (set_timers rest (set_now (tm_due u) s)) eq_refl (Hle t Ht)) as Hlt.
    rewrite <-Heq in Hlt. cbn [fu_timers set_timers] in Hlt. rewrite <-(total_perm _ _ _ Hp) in Hlt.
    pose proof (total_nonneg (tm_due t) (fu_timers (wait storage_works MOCK_DELAY_MS s).1)). lia.
Qed.

(** Where the form on screen leads, when it may be submitted. *)
Definition goes_to (s : Funnel) : option string :=
  match fu_page s with
  | SignInPage false =>
      if truthy (fu_email s)
      then Some (if toLowerCase (trim (fu_email s)) === mock_email then "/enter-password" else "/verify-email?flow=signup")
      else None
  | EnterPasswordPage pw _ false => if truthy pw then Some "/book" else None
  | SetPasswordPage pw pw2 _ false _ =>
      if pw_ok pw pw2 then Some (if isReset (fu_href s) then "/sign-in" else "/onboarding/organization") else None
  | ForgotPasswordPage false => if truthy (fu_email s) then Some "/verify-email?flow=reset" else None
  | _ => None
  end.

Lemma submit_timer s h : goes_to s = Some h →
  ∃ t, In t (fu_timers (update s Submit).1) ∧ tm_owned t = false ∧ tm_due t = fu_now s + MOCK_DELAY_MS ∧
       fu_now (update s Submit).1 = fu_now s ∧ In (RouterPush h) (outcome (tm_cb t)).
Proof.
  unfold goes_to. cbn [update machine funnel_update]. unfold_submit.
  destruct (fu_page s) as [[]|pw sh []| |pw pw2 sh [] tr|[]| |]; try done.
  all: match goal with |- (if ?c then _ else _) = _ → _ => destruct c eqn:Hc; [|done] end; intros [= <-];
       cbn [negb fst setTimeout set_timers set_page fu_timers fu_now setLastMethod];
       eexists; (split; [apply in_app_iff; right; by left|]); cbn; auto.
Qed.

Lemma reachable_timely stored ms : timely (run (front_door storage_works stored) ms).1.
Proof. apply run_invariant; [intros; by apply update_timely|]. by intros u []. Qed.

(** C7: A form that is submitted goes through. From any state the funnel can get into, once
    the form on screen is submitted with acceptable input, the navigation it stands for has
    happened by the time three seconds have passed, whatever the user did in between; and
    if the user only waits, it happens after finitely many steps. *)
Theorem submission_goes_through stored before h :
  let s := (run (front_door storage_works stored) before).1 in
  let s' := (update s Submit).1 in
  goes_to s = Some h →
  (∀ ms, fu_now s + MOCK_DELAY_MS < fu_now (run s' ms).1 → In (RouterPush h) (run s' ms).2) ∧
  (∃ n, In (RouterPush h) (run s' (repeat (Wait MOCK_DELAY_MS) n)).2).
Proof.
  intros s s' Hg. assert (Hs' : timely s') by apply update_timely, reachable_timely.
  destruct (submit_timer s h Hg) as (t & Ht & Ho & Hd & Hn & He). fold s' in Ht, Hn. split.
  - intros ms Hlt. destruct (run_keeps ms s' t Hs' Ht Ho) as [Hr [Hin|Hall]]; [|by apply Hall].
    specialize (Hr t Hin). lia.
  - exists (Z.to_nat (total (tm_due t) (fu_timers s'))). eapply waiting_fires; try done. lia.
Qed.

(** ** Only a password opens the onboarding *)

Lemma update_opens m s u : timely s → In u (fu_timers (update s m).1) → opens u →
  In u (fu_timers s) ∨ m = Submit ∧ unlocked s.
Proof.
  intros Hs Hu Ho.
  assert (Hev : ∀ (P : Timer → Prop) s0, evolves P s0 (update s m).1 → fu_timers s0 = fu_timers s ∨ (∀ v, In v (fu_timers s0) → In v (fu_timers s)) →
    (P u → m = Submit ∧ unlocked s) → In u (fu_timers s) ∨ m = Submit ∧ unlocked s).
  { intros P s0 (_ & kept & new & Ht & Hk & Hnew) Hsub HP. rewrite Ht in Hu. apply in_app_iff in Hu as [Hu|Hu].
    - left. assert (Hin : In u (fu_timers s0)) by (destruct Hk as [->| ->]; [done|by apply filter_In in Hu as [? _]]).
      destruct Hsub as [<-|Hsub]; auto.
    - destruct Hnew as [->|(v & -> & Hv)]; [done|]. destruct Hu as [<-|[]]. right. by apply HP. }
  destruct (match m with Wait d => true | _ => false end) eqn:Hm.
  - destruct m as [| | | | | | | | | | | | |d]; try done. cbn [update machine funnel_update] in *.
    destruct (wait_cases d s Hs) as [(Ht & _)|(t & rest & Hp & _ & Heq)]; [left; by rewrite Ht in Hu|].
    rewrite Heq in Hu, Hev. eapply Hev; [apply fire_evolves| |by intros [_ Hno]].
    right. cbn. intros v Hv. rewrite <-list_elem_of_In, Hp. right. by apply list_elem_of_In.
  - eapply Hev; [apply update_evolves; by intros d ->|by left|]. intros [_ Hq]. auto.
Qed.

Lemma update_onboards m s : timely s → In (RouterPush "/onboarding/organization") (update s m).2 →
  ∃ t, In t (fu_timers s) ∧ opens t.
Proof.
  intros Hs Hin. destruct m; cbn [update machine funnel_update snd] in Hin; try done.
  - exfalso. revert Hin. unfold_submit. destruct (fu_page s) as [[]|? ? []| |? ? ? [] ?|[]| |]; try done;
      match goal with |- context [if negb ?c then _ else _] => destruct c end; cbn; by intros [|[]].
  - exfalso. revert Hin. destruct (fu_page s); try done. cbn. by intros [[=]|[]].
  - exfalso. revert Hin. unfold handleResend. destruct (fu_page s); try done. destruct (0 <? _); [done|]. cbn. by intros [|[]].
  - exfalso. revert Hin. destruct (fu_page s); try done. cbn. by intros [|[]].
  - exfalso. revert Hin. destruct (fu_page s); try done. cbn. by intros [[=]|[]].
  - destruct (wait_cases d s Hs) as [(_ & Hn & _)|(t & rest & Hp & _ & Heq)]; [by rewrite Hn in Hin|].
    rewrite Heq, fire_effects in Hin. exists t. split; [|done]. rewrite <-list_elem_of_In, Hp. by left.
Qed.

(** C8: The funnel leads into the onboarding in one way only: whatever a visitor does, and
    however the pending timers fall, the navigation to the onboarding happens only after
    the form that creates a password was submitted with a password of at least twelve
    characters that was typed the same twice, not the form that resets one. *)
Theorem onboarding_needs_password stored ms :
  In (RouterPush "/onboarding/organization") (run (front_door storage_works stored) ms).2 →
  ∃ ms1 ms2, ms = ms1 ++ Submit :: ms2 ∧ unlocked (run (front_door storage_works stored) ms1).1.
Proof.
  set (s0 := front_door storage_works stored).
  set (Past := λ ms : list FunnelMsg, ∃ ms1 ms2, ms = ms1 ++ Submit :: ms2 ∧ unlocked (run s0 ms1).1).
  assert (Hboth : (∀ t, In t (fu_timers (run s0 ms).1) → opens t → Past ms) ∧
                  (In (RouterPush "/onboarding/organization") (run s0 ms).2 → Past ms)); [|by destruct Hboth].
  induction ms as [|m ms [IHt IHe]] using rev_ind; [done|].
  assert (Hmono : Past ms → Past (ms ++ [m])).
  { intros (ms1 & ms2 & -> & Hu). exists ms1, (ms2 ++ [m]). by rewrite <-app_assoc. }
  pose proof (reachable_timely stored ms) as Hs. fold s0 in Hs.
  rewrite run_app, !run_cons. cbn [run fst snd]. rewrite app_nil_r. split.
  - intros t Ht Ho. destruct (update_opens m _ t Hs Ht Ho) as [Hin|[-> Hu]]; [by eauto|].
    exists ms, []. done.
  - intros [Hin|Hin]%in_app_iff; [by auto|]. destruct (update_onboards m _ Hs Hin) as (t & Ht & Ho). by eauto.
Qed.

(** ** The SSO callback *)

Lemma wait_only d s t : fu_timers s = [t] → tm_due t = fu_now s + d → 0 ≤ d →
  wait storage_works d s = fire storage_works t (set_timers [] (set_now (fu_now s + d) s)).
Proof.
  intros Ht Hd Hpos. unfold wait. rewrite Ht. cbn [earliest]. rewrite Hd, Z.leb_refl. by rewrite Z.max_r by lia.
Qed.

(** The callback page on screen with one timer, due in [STEP_MS]. *)
Definition sso_at (now : Z) (s : Funnel) (stage : Z) (owned : bool) (cb : Callback) : Prop :=
  fu_now s = now ∧ fu_page s = SsoCallbackPage stage ∧ ∃ m, fu_timers s = [mkTimer (now + STEP_MS) m owned cb].

Lemma sso_tick now s stage :
  sso_at now s stage true SsoTick →
  (update s (Wait STEP_MS)).2 = [] ∧
  if stage <? 2 then sso_at (now + STEP_MS) (update s (Wait STEP_MS)).1 (stage + 1) true SsoTick
  else sso_at (now + STEP_MS) (update s (Wait STEP_MS)).1 stage false SsoDone.
Proof.
  intros (Hn & Hp & m & Ht). cbn [update machine funnel_update].
  rewrite (wait_only _ _ _ Ht) by (rewrite ?Hn; done). unfold fire, sso_tick_step. cbn [tm_cb fu_page set_timers set_now]. rewrite Hp.
  change (STAGE_COUNT - 1) with 2. destruct (Z.leb_spec 2 stage), (Z.ltb_spec stage 2); try lia; split; try done;
    (split; [cbn; by rewrite Hn|]); (split; [done|]); eexists; cbn; by rewrite Hn.
Qed.

(** Choosing a provider opens the callback page for that provider: its address carries
    the provider's name whatever its characters; the page goes through its three stages one
    step apart and enters the book one step after the last, that is four steps, or
    [MOCK_DELAY_MS + STEP_MS], after the click. *)
Theorem sso_takes_four_steps s id name pending :
  fu_page s = SignInPage pending → fu_timers s = [] →
  let s' := (update s (UseProvider id name)).1 in
  search_get (href_query (fu_href s')) "provider" = Some name ∧
  (∀ k, (k ≤ 3)%nat →
     let r := run s' (repeat (Wait STEP_MS) k) in
     r.2 = [] ∧ fu_page r.1 = SsoCallbackPage (Z.min (Z.of_nat k) 2) ∧ fu_now r.1 = fu_now s + Z.of_nat k * STEP_MS) ∧
  let r := run s' (repeat (Wait STEP_MS) 4) in
  r.2 = [RouterPush "/book"] ∧ fu_now r.1 = fu_now s + MOCK_DELAY_MS + STEP_MS.
Proof.
  intros Hp Ht s'.
  assert (Hs' : s' = navigate storage_works ("/sso/callback?provider=" +:+ encodeURIComponent name) (setLastMethod storage_works id s)).
  { unfold s'. cbn [update machine funnel_update]. by rewrite Hp. }
  set (href := "/sso/callback?provider=" +:+ encodeURIComponent name) in *.
  assert (Hcut : cut_at "?"%char href = ("/sso/callback", Some ("provider" +:+ String "="%char (encodeURIComponent name)))).
  { by apply (cut_at_app "?"%char "/sso/callback"). }
  assert (Hpath : href_path href = "/sso/callback") by (unfold href_path; by rewrite Hcut).
  assert (H0 : sso_at (fu_now s) s' 0 true SsoTick).
  { rewrite Hs'. unfold navigate, redirected, page_of. rewrite !Hpath. cbn. split; [done|]. split; [done|].
    rewrite Ht. by eexists. }
  assert (Hhref : fu_href s' = href).
  { rewrite Hs'. unfold navigate, redirected, page_of. by rewrite !Hpath. }
  split; [|].
  { rewrite Hhref. unfold href_query. rewrite Hcut. by apply search_get_encoded. }
  destruct (sso_tick _ _ _ H0) as [E0 H1]. destruct (sso_tick _ _ _ H1) as [E1 H2]. destruct (sso_tick _ _ _ H2) as [E2 H3].
  cbn [Z.ltb Z.compare] in H1, H2, H3.
  set (s1 := (update s' (Wait STEP_MS)).1) in *. set (s2 := (update s1 (Wait STEP_MS)).1) in *.
  set (s3 := (update s2 (Wait STEP_MS)).1) in *.
  split.
  - intros k Hk.
    destruct k as [|[|[|[|k]]]]; [| | | |lia]; cbn [repeat]; rewrite ?run_cons; cbn [run fst snd]; fold s1 s2 s3;
      rewrite ?E0, ?E1, ?E2; cbn [app]; (split; [done|]).
    + destruct H0 as (-> & -> & _). split; [done|lia].
    + destruct H1 as (-> & -> & _). split; [done|lia].
    + destruct H2 as (-> & -> & _). split; [done|lia].
    + destruct H3 as (-> & -> & _). split; [done|lia].
  - cbn [repeat]. rewrite !run_cons. cbn [run fst snd]. fold s1 s2 s3. rewrite E0, E1, E2. cbn [app].
    destruct H3 as (Hn & Hp3 & m & Ht3). cbn [update machine funnel_update].
    rewrite (wait_only _ _ _ Ht3) by (rewrite ?Hn; done). unfold fire. cbn [tm_cb push fst snd]. split; [done|].
    change (fu_now s3 + STEP_MS = fu_now s + MOCK_DELAY_MS + STEP_MS). rewrite Hn.
    change STEP_MS with 1000. change MOCK_DELAY_MS with 3000. lia.
Qed.

End Theorems.

(** The provider used last leads, the others keep their order. *)
Lemma ordered_last_first last : ordered last =
  List.filter (λ p, Some (pr_id p) === last) PROVIDERS ++ List.filter (λ p, Some (pr_id p) !== last) PROVIDERS.
Proof.
  destruct last as [id|]; [|reflexivity].
  destruct (decide (id = "microsoft")) as [->|H1]; [reflexivity|].
  destruct (decide (id = "google")) as [->|H2]; [reflexivity|].
  destruct (decide (id = "sso")) as [->|H3]; [reflexivity|].
  assert (Hm : (Some "microsoft" === Some id) = false) by (apply bool_decide_eq_false; congruence).
  assert (Hg : (Some "google" === Some id) = false) by (apply bool_decide_eq_false; congruence).
  assert (Hs : (Some "sso" === Some id) = false) by (apply bool_decide_eq_false; congruence).
  unfold ordered, js_sort, by_last, PROVIDERS. cbn [fold_right sort_insert pr_id List.filter].
  do 4 (cbn [sort_insert pr_id Number]; rewrite ?Hm, ?Hg, ?Hs; cbn [Number negb]; change (0 - 0 <=? 0) with true).
  reflexivity.
Qed.

(** ** Instances *)

#[local] Instance demo : Machine Funnel FunnelMsg effect := funnel_update true.

Definition at_set_password : list FunnelMsg :=
  [SetEmail "a@b.c"; Submit; Wait 3000; HandleComplete "123456"; Wait 1000; Wait 1000; Wait 1000; Wait 1000;
   SetPw "correct horse"; SetPw2 "correct horse"].

Lemma submission_goes_through_witness :
  let s := (run (front_door true None) at_set_password).1 in
  goes_to s = Some "/onboarding/organization" ∧
  ∃ n, In (RouterPush "/onboarding/organization") (run (update s Submit).1 (repeat (Wait MOCK_DELAY_MS) n)).2.
Proof.
  intros s. split; [vm_compute; reflexivity|].
  destruct (submission_goes_through true None at_set_password "/onboarding/organization") as [_ Hn]; [vm_compute; reflexivity|].
  exact Hn.
Defined.

Lemma onboarding_needs_password_witness :
  let ms := at_set_password ++ [Submit; Wait 3000] in
  In (RouterPush "/onboarding/organization") (run (front_door true None) ms).2 ∧
  ∃ ms1 ms2, ms = ms1 ++ Submit :: ms2 ∧ unlocked (run (front_door true None) ms1).1.
Proof.
  intros ms. assert (Hin : In (RouterPush "/onboarding/organization") (run (front_door true None) ms).2).
  { assert (Hl : last (run (front_door true None) ms).2 = Some (RouterPush "/onboarding/organization")) by (vm_compute; reflexivity).
    apply list_elem_of_In. by apply last_Some_elem_of. }
  split; [exact Hin|]. exact (onboarding_needs_password true None ms Hin).
Defined.

Lemma sso_takes_four_steps_witness :
  fu_timers (front_door true None) = [] ∧
  (run (update (front_door true None) (UseProvider "sso" "Single sign-on (SSO)")).1 (repeat (Wait STEP_MS) 4)).2 = [RouterPush "/book"].
Proof.
  split; [reflexivity|].
  destruct (sso_takes_four_steps true (front_door true None) "sso" "Single sign-on (SSO)" false eq_refl eq_refl) as (_ & _ & H & _).
  exact H.
Defined.
