(* ===== verification/Accent.v ===== *)
(** * The style picker of the prototype

    Models [prototype/lib/accent-palettes.ts], [prototype/lib/fonts.ts],
    [prototype/components/brand/accent-provider.tsx] and [style-picker.tsx]: the palettes,
    the colours derived from a choice, the style sheet written to the document, and the
    provider that loads, applies and stores the choice. A text in [localStorage] is the
    choice it denotes, or [Malformed] when it is not JSON; which writes to the storage succeed is
    the argument [writes], and the exponential of the luminance formula the argument [pow]. A shade that is
    no key of a scale is [undefined], and using it as a colour throws. *)
From stdpp Require Import base list strings.
From Stdlib Require Import ZArith Lia Ascii QArith_base.
From S2P Require Import Prelude JsString JsNumber Url Proto View.
#[local] Open Scope string_scope.
#[local] Open Scope list_scope.
#[local] Open Scope Z_scope.

(** ** Palettes *)

Definition SHADES : list Z := [100; 200; 300; 400; 500; 600; 700; 800; 900; 1000; 1100; 1200; 1300].

(** A scale: a colour per shade. *)
Definition Scale := list (Z * string).
Record AccentPalette := mkPalette { ap_id : string; ap_name : string; ap_light : Scale; ap_dark : Scale }.

Definition scale (values : list string) : Scale := zip SHADES values.

Definition scale_at (sc : Scale) (shade : Z) : option string :=
  snd <$> List.find (λ e, e.1 =? shade) sc.

Definition ACCENTS : list AccentPalette :=
  [mkPalette "orange" "Orange"
     (scale ["#ffeccc"; "#ffdfad"; "#fdd291"; "#ffbb63"; "#ffa037"; "#f68511"; "#e46f00"; "#cb5d00"; "#b14c00"; "#953d00"; "#7a2f00"; "#612300"; "#491901"])
     (scale ["#662500"; "#752d00"; "#893700"; "#9e4200"; "#b44e00"; "#ca5d00"; "#e16d00"; "#f4810c"; "#fe9a2e"; "#ffb558"; "#fdce88"; "#ffe1b3"; "#fff2dd"]);
   mkPalette "red" "Red"
     (scale ["#ffebe7"; "#ffddd6"; "#ffcdc3"; "#ffb7a9"; "#ff9b88"; "#ff7c65"; "#f75c46"; "#ea3829"; "#d31510"; "#b40000"; "#930000"; "#740000"; "#590000"])
     (scale ["#7b0000"; "#8d0000"; "#a50000"; "#be0403"; "#d71913"; "#ea3829"; "#f65843"; "#ff755e"; "#ff9581"; "#ffb0a1"; "#ffc9bd"; "#ffded8"; "#fff1ee"]);
   mkPalette "orange-yellow" "Yellow"
     (scale ["#fbf198"; "#f8e750"; "#f8d904"; "#e8c600"; "#d7b300"; "#c49f00"; "#b08c00"; "#9b7800"; "#856600"; "#705300"; "#5b4300"; "#483300"; "#362500"])
     (scale ["#4c3600"; "#584000"; "#674c00"; "#775900"; "#886800"; "#9b7800"; "#ae8900"; "#c09c00"; "#d3ae00"; "#e4c200"; "#f4d500"; "#f9e85c"; "#fcf6bb"]);
   mkPalette "green" "Green"
     (scale ["#cef8e0"; "#adf4ce"; "#89ecbc"; "#67dea8"; "#49cc93"; "#2fb880"; "#15a46e"; "#008f5d"; "#007a4d"; "#00653e"; "#005132"; "#053f27"; "#0a2e1d"])
     (scale ["#044329"; "#004e2f"; "#005c38"; "#006c43"; "#007d4e"; "#008f5d"; "#12a26c"; "#2bb47d"; "#43c78f"; "#5ed9a2"; "#81e9b8"; "#b1f4d1"; "#dffaea"]);
   mkPalette "seafoam" "Seafoam"
     (scale ["#cef7f3"; "#aaf1ea"; "#8ce9e2"; "#65dad2"; "#3fc9c1"; "#0fb5ae"; "#00a19a"; "#008c87"; "#007772"; "#00635f"; "#0c4f4c"; "#123c3a"; "#122c2b"])
     (scale ["#12413f"; "#0e4c49"; "#045a57"; "#006965"; "#007a75"; "#008c87"; "#009e98"; "#03b2ab"; "#36c5bd"; "#5dd6cf"; "#84e6df"; "#b0f2ec"; "#dff9f6"]);
   mkPalette "cyan" "Cyan"
     (scale ["#c5f8ff"; "#a4f0ff"; "#88e7fa"; "#60d8f3"; "#33c5e8"; "#12b0da"; "#019cc8"; "#0086b4"; "#00719f"; "#005d89"; "#004a73"; "#00395d"; "#002a46"])
     (scale ["#003d62"; "#00476f"; "#00557f"; "#006491"; "#0074a2"; "#0086b4"; "#0099c6"; "#0eadd7"; "#2cc1e6"; "#54d3f1"; "#7fe4f9"; "#a7f1ff"; "#d7faff"]);
   mkPalette "blue" "Blue"
     (scale ["#e0f2ff"; "#cae8ff"; "#b5deff"; "#96cefd"; "#78bbfa"; "#59a7f6"; "#3892f3"; "#147af3"; "#0265dc"; "#0054b6"; "#004491"; "#003571"; "#002754"])
     (scale ["#003877"; "#00418a"; "#004da3"; "#0059c2"; "#0367e0"; "#1379f3"; "#348ff4"; "#54a3f6"; "#72b7f9"; "#8fcafc"; "#aedbfe"; "#cce9ff"; "#e8f6ff"]);
   mkPalette "indigo" "Indigo"
     (scale ["#edeeff"; "#e0e2ff"; "#d3d5ff"; "#c1c4ff"; "#acafff"; "#9599ff"; "#7e84fc"; "#686df4"; "#5258e4"; "#4046ca"; "#3236a8"; "#262986"; "#1b1e64"])
     (scale ["#282c8c"; "#2f34a3"; "#393fbb"; "#464bd3"; "#555be7"; "#686df4"; "#7c81fb"; "#9195ff"; "#a7aaff"; "#bcbeff"; "#d0d2ff"; "#e2e4ff"; "#f3f3fe"]);
   mkPalette "purple" "Purple"
     (scale ["#f6ebff"; "#eeddff"; "#e6d0ff"; "#dbbbfe"; "#cca4fd"; "#bd8bfc"; "#ae72f9"; "#9d57f4"; "#893de7"; "#7326d3"; "#5d13b7"; "#470c94"; "#33106a"])
     (scale ["#4c0d9d"; "#5911b1"; "#691cc8"; "#7a2dda"; "#8c41e9"; "#9d57f3"; "#ac6ff9"; "#bb87fb"; "#ca9ffc"; "#d7b6fe"; "#e4ccfe"; "#efdfff"; "#f9f0ff"]);
   mkPalette "fuchsia" "Fuchsia"
     (scale ["#ffe9fc"; "#ffdafa"; "#fec7f8"; "#fbaef6"; "#f592f3"; "#ed74ed"; "#e055e2"; "#cd3ace"; "#b622b7"; "#9d039e"; "#800081"; "#640664"; "#470e46"])
     (scale ["#6b036a"; "#7b007b"; "#900091"; "#a50da6"; "#b925b9"; "#cd39ce"; "#df51e0"; "#eb6eec"; "#f48cf2"; "#faa8f5"; "#fec2f8"; "#ffdbfa"; "#ffeffc"]);
   mkPalette "magenta" "Magenta"
     (scale ["#ffeaf1"; "#ffdce8"; "#ffcadd"; "#ffb2ce"; "#ff95bd"; "#fa77aa"; "#ef5a98"; "#de3d82"; "#c82269"; "#ad0955"; "#8e0045"; "#700037"; "#54032a"])
     (scale ["#76003a"; "#890042"; "#a0004d"; "#b6125a"; "#cb266d"; "#de3d82"; "#ed5795"; "#f972a7"; "#ff8fb9"; "#ffacca"; "#ffc6da"; "#ffdde9"; "#fff0f5"])].
Definition DEFAULT_ACCENT_ID : string := "orange".
Definition DEFAULT_LIGHT_SHADE : Z := 900.
Definition DEFAULT_DARK_SHADE : Z := 900.

Definition no_palette : AccentPalette := mkPalette "" "" [] [].

(** [ACCENTS.find(...) ?? ACCENTS[0]]. *)
Definition getAccent (id : string) : AccentPalette :=
  match List.find (λ a, ap_id a === id) ACCENTS with
  | Some a => a
  | None => head ACCENTS ?? no_palette
  end.

Definition hoverShade (sc : Scale) (shade : Z) : option string :=
  let idx := findIndex (λ s, s =? shade) SHADES in
  let nextIdx := if js_length SHADES - 1 <=? idx then idx - 1 else idx + 1 in
  js_at SHADES nextIdx ≫= scale_at sc.

(** ** Fonts *)

Record FontOption := mkFont { fo_id : string; fo_label : string; fo_cssVar : string; fo_note : string }.
Definition FONTS : list FontOption :=
  [mkFont "source-sans" "Source Sans 3" "--font-source-sans" "Adobe · humanist";
   mkFont "inter" "Inter" "--font-inter" "neutral workhorse";
   mkFont "geist" "Geist" "--font-geist" "Vercel · geometric";
   mkFont "ibm-plex" "IBM Plex Sans" "--font-ibm-plex" "IBM · engineered";
   mkFont "public-sans" "Public Sans" "--font-public-sans" "USWDS · plain"].
Definition DEFAULT_FONT_ID : string := "source-sans".
Definition getFont (id : string) : FontOption :=
  match List.find (λ f, fo_id f === id) FONTS with
  | Some f => f
  | None => head FONTS ?? mkFont "" "" "" ""
  end.

(** ** The text on the accent *)

(** [parseInt(s, 16)]: the leading hex digits. *)
Fixpoint hex_digits (acc : Z) (seen : bool) (s : string) : JsNumber :=
  match s with
  | String a s' =>
      match hex_value a with
      | Some d => hex_digits (acc * 16 + Z.of_nat d) true s'
      | None => if seen then int acc else NaN
      end
  | EmptyString => if seen then int acc else NaN
  end.
Definition parseInt16 (s : string) : JsNumber := hex_digits 0 false s.

(** [hex.replace("#", "")]: the first one. *)
Fixpoint drop_hash (s : string) : string :=
  match s with
  | String a s' => if a === "#"%char then s' else String a (drop_hash s')
  | EmptyString => ""
  end.

Section Colours.
Context (pow : JsNumber → JsNumber → JsNumber).

Definition channel (c : string) (i : nat) : JsNumber := div (parseInt16 (String.substring i 2 c)) (int 255).
Definition linear (v : JsNumber) : JsNumber :=
  if le v (literal 3928 100000) then div v (literal 1292 100)
  else pow (div (add v (literal 55 1000)) (literal 1055 1000)) (literal 24 10).

Definition luminance (hex : string) : JsNumber :=
  let c := drop_hash hex in
  let term (k : JsNumber) (i : nat) := mul k (linear (channel c i)) in
  add (add (term (literal 2126 10000) 0%nat) (term (literal 7152 10000) 2%nat)) (term (literal 722 10000) 4%nat).

Definition readableForeground (hex : string) : string :=
  if lt (literal 45 100) (luminance hex) then "#1d1d1d" else "#ffffff".

(** ** The style sheet *)

Record AccentConfig := mkConfig { ac_accentId : string; ac_lightShade : Z; ac_darkShade : Z; ac_fontId : string }.

Definition default_config : AccentConfig :=
  mkConfig DEFAULT_ACCENT_ID DEFAULT_LIGHT_SHADE DEFAULT_DARK_SHADE DEFAULT_FONT_ID.

(** The colours of one theme; a colour that is [undefined] is [None]. *)
Record Tokens := mkTokens {
  tk_primary : string; tk_foreground : string; tk_hover : option string;
  tk_subtle : option string; tk_subtleForeground : option string }.

(** [readableForeground(undefined)] throws: there is no token set then. *)
Definition tokens (sc : Scale) (shade subtleForeground : Z) : option Tokens :=
  p ← scale_at sc shade;
  Some (mkTokens p (readableForeground p) (hoverShade sc shade) (scale_at sc 100) (scale_at sc subtleForeground)).

Definition shown_colour (c : option string) : string := c ?? "undefined".

Definition css_block (selector : string) (t : Tokens) : string :=
  let p := tk_primary t in
  let f := tk_foreground t in
  selector +:+ "{--primary:" +:+ p +:+ ";--primary-foreground:" +:+ f +:+ ";--primary-hover:" +:+ shown_colour (tk_hover t) +:+
  ";--ring:" +:+ p +:+ ";--brand:" +:+ p +:+ ";--brand-foreground:" +:+ f +:+ ";--brand-subtle:" +:+ shown_colour (tk_subtle t) +:+
  ";--brand-subtle-foreground:" +:+ shown_colour (tk_subtleForeground t) +:+ ";--sidebar-primary:" +:+ p +:+
  ";--sidebar-primary-foreground:" +:+ f +:+ ";--sidebar-ring:" +:+ p +:+ ";}".

Definition newline : string := String (ascii_of_nat 10) "".

Definition light_tokens (c : AccentConfig) : option Tokens :=
  tokens (ap_light (getAccent (ac_accentId c))) (ac_lightShade c) 1000.
Definition dark_tokens (c : AccentConfig) : option Tokens :=
  tokens (ap_dark (getAccent (ac_accentId c))) (ac_darkShade c) 1100.

Definition buildCss (c : AccentConfig) : option string :=
  l ← light_tokens c; d ← dark_tokens c;
  Some (css_block ":root" l +:+ newline +:+ css_block ".dark" d).

(** ** The provider *)

(** What [JSON.parse] of the stored text gives: it throws, or gives some of the fields (none for
    a value that is no object). *)
Inductive Stored :=
| Malformed
| Saved (accentId : option string) (lightShade darkShade : option Z) (fontId : option string).

(** [{ ...c, ...JSON.parse(saved) }]; [None] when the parse throws. *)
Definition merge (c : AccentConfig) (s : Stored) : option AccentConfig :=
  match s with
  | Malformed => None
  | Saved a l d f =>
      Some (mkConfig (a ?? ac_accentId c) (l ?? ac_lightShade c) (d ?? ac_darkShade c) (f ?? ac_fontId c))
  end.

Definition stringify (c : AccentConfig) : Stored :=
  Saved (Some (ac_accentId c)) (Some (ac_lightShade c)) (Some (ac_darkShade c)) (Some (ac_fontId c)).

(** The provider, the document and the storage. [as_attempts] counts the calls of [setItem];
    [as_crashed]: an error was thrown outside the provider's [try] blocks, which takes the page down. *)
Record AccentState := mkAccent {
  as_config : AccentConfig; as_pickerVisible : bool;
  as_css : string; as_fontVar : string; as_storage : option Stored; as_attempts : nat; as_crashed : bool }.

Definition crash (s : AccentState) : AccentState :=
  mkAccent (as_config s) (as_pickerVisible s) (as_css s) (as_fontVar s) (as_storage s) (as_attempts s) true.

(** [writes n]: the [n]-th [setItem] of the visit succeeds. One that throws (quota, private mode)
    is caught, and nothing is stored. *)
Context (writes : nat → bool).

(** The effect that applies and stores the configuration; [buildCss] may throw. *)
Definition apply_config (s : AccentState) : AccentState :=
  match buildCss (as_config s) with
  | Some css =>
      mkAccent (as_config s) (as_pickerVisible s) css ("var(" +:+ fo_cssVar (getFont (ac_fontId (as_config s))) +:+ ")")
        (if writes (as_attempts s) then Some (stringify (as_config s)) else as_storage s) (S (as_attempts s)) (as_crashed s)
  | None => crash s
  end.

(** The updater given to [setConfig] runs while the provider renders, outside of any [try]; then the
    new configuration's effect runs. *)
Definition set_config (f : AccentConfig → option AccentConfig) (s : AccentState) : AccentState :=
  match f (as_config s) with
  | Some c => apply_config (mkAccent c (as_pickerVisible s) (as_css s) (as_fontVar s) (as_storage s) (as_attempts s) (as_crashed s))
  | None => crash s
  end.

(** The load effect queues an updater that parses and merges what it read (nothing when the storage
    is empty or cannot be read). *)
Definition load (s : AccentState) : AccentConfig → option AccentConfig :=
  λ c, match as_storage s with Some st => merge c st | None => Some c end.

(** Mounting: load, apply the defaults, then render with what was loaded. *)
Definition mount (storage : option Stored) : AccentState :=
  let s0 := mkAccent default_config false "" "" storage 0 false in
  let f := load s0 in
  set_config f (apply_config s0).

(** Under React's StrictMode (development) every effect of the mount runs twice before the
    render: the second load reads what the first apply stored. *)
Definition strict_mount (storage : option Stored) : AccentState :=
  let s0 := mkAccent default_config false "" "" storage 0 false in
  let f := load s0 in
  let s1 := apply_config s0 in
  let g := load s1 in
  set_config (λ c, f c ≫= g) (apply_config s1).

Record AccentKey := mkAccentKey { ak_key : string; ak_modifier : bool; ak_typing : bool }.

Inductive AccentMsg :=
| SetAccentId (id : string)
| SetLightShade (shade : Z)
| SetDarkShade (shade : Z)
| SetFontId (id : string)
| AccentKeyDown (k : AccentKey).

#[export] Instance accent_update : Machine AccentState AccentMsg effect := λ s m,
  (if as_crashed s then s
   else match m with
   | SetAccentId id => set_config (λ c, Some (mkConfig id (ac_lightShade c) (ac_darkShade c) (ac_fontId c))) s
   | SetLightShade v => set_config (λ c, Some (mkConfig (ac_accentId c) v (ac_darkShade c) (ac_fontId c))) s
   | SetDarkShade v => set_config (λ c, Some (mkConfig (ac_accentId c) (ac_lightShade c) v (ac_fontId c))) s
   | SetFontId id => set_config (λ c, Some (mkConfig (ac_accentId c) (ac_lightShade c) (ac_darkShade c) id)) s
   | AccentKeyDown k =>
       if ((ak_key k !== "a") && (ak_key k !== "A")) || ak_modifier k || ak_typing k then s
       else mkAccent (as_config s) (negb (as_pickerVisible s)) (as_css s) (as_fontVar s) (as_storage s) (as_attempts s) false
   end, []).

End Colours.

(** ** The picker *)

#[local] Abbreviation V := (view AccentMsg).

Definition Swatch (color : option string) : V := El "span" [Attr "background-color" (shown_colour color)] [].

Definition hoverLabel (active : AccentPalette) (lightShade darkShade : Z) : string :=
  let l := hoverShade (ap_light active) lightShade in
  let d := hoverShade (ap_dark active) darkShade in
  if l === d then shown_colour l else shown_colour l +:+ " / " +:+ shown_colour d.

Definition ShadeRow (label : string) (sc : Scale) (value : Z) (onChange : Z → AccentMsg) : V :=
  El "div" []
    [El "span" [] [Text label]; El "span" [] [Text (num value)];
     El "div" []
       (map (λ s, El "button" [Attr "aria-label" (label +:+ " " +:+ num s); OnClick (onChange s);
                               BoolAttr "selected" (value =? s); Attr "background-color" (shown_colour (scale_at sc s))] [])
            SHADES)].

Definition font_button (c : AccentConfig) (f : FontOption) : V :=
  El "button" [Attr "key" (fo_id f); OnClick (SetFontId (fo_id f)); BoolAttr "selected" (fo_id f === ac_fontId c)]
     [El "span" [Attr "font-family" ("var(" +:+ fo_cssVar f +:+ ")")] [Text (fo_label f)]; El "span" [] [Text (fo_note f)]].

Definition accent_button (c : AccentConfig) (a : AccentPalette) : V :=
  El "button" [Attr "key" (ap_id a); OnClick (SetAccentId (ap_id a)); BoolAttr "selected" (ap_id a === ac_accentId c)]
     [Swatch (scale_at (ap_light a) 900); El "span" [] [Text (ap_name a)]].

Definition StylePicker (s : AccentState) : option V :=
  let c := as_config s in
  let active := getAccent (ac_accentId c) in
  if negb (as_pickerVisible s) then None
  else Some (El "Popover" []
    [El "PopoverTrigger" [] [Swatch (scale_at (ap_light active) (ac_lightShade c)); El "span" [] [Text "Style"]];
     El "PopoverContent" []
       [El "p" [] [Text "Typeface"]; El "div" [] (map (font_button c) FONTS);
        El "p" [] [Text "Accent color"]; El "div" [] (map (accent_button c) ACCENTS);
        ShadeRow "Light shade" (ap_light active) (ac_lightShade c) SetLightShade;
        ShadeRow "Dark shade" (ap_dark active) (ac_darkShade c) SetDarkShade;
        El "p" [] [Text ("Hover (" +:+ hoverLabel active (ac_lightShade c) (ac_darkShade c) +:+
                         ") and the text color on the accent are derived automatically.")]]]).

(** ** The palettes are complete *)

Definition is_hex_colour (s : string) : bool :=
  match String.list_ascii_of_string s with
  | "#"%char :: ds => (length ds =? 6)%nat && forallb (λ a, if hex_value a is Some _ then true else false) ds
  | _ => false
  end.

Definition wf_scale (sc : Scale) : bool :=
  bool_decide (map fst sc = SHADES) && forallb (λ e, is_hex_colour e.2) sc.

Lemma palettes_wf : forallb (λ a, wf_scale (ap_light a) && wf_scale (ap_dark a)) ACCENTS = true.
Proof. vm_compute. reflexivity. Qed.

Lemma getAccent_wf id : wf_scale (ap_light (getAccent id)) = true ∧ wf_scale (ap_dark (getAccent id)) = true.
Proof.
  assert (Hin : In (getAccent id) ACCENTS).
  { unfold getAccent. destruct (List.find _ ACCENTS) as [a|] eqn:Hf; [by apply find_some in Hf as [? _]|]. by left. }
  pose proof palettes_wf as Hall. rewrite forallb_forall in Hall. apply Hall, andb_true_iff in Hin. exact Hin.
Qed.

Lemma scale_at_wf sc shade : wf_scale sc = true → In shade SHADES → ∃ c, scale_at sc shade = Some c ∧ is_hex_colour c = true.
Proof.
  intros [Hk Hc]%andb_true_iff Hin. apply bool_decide_eq_true in Hk. rewrite <-Hk in Hin.
  apply in_map_iff in Hin as ([k c0] & Heq & Hin). cbn in Heq. subst k. unfold scale_at.
  destruct (List.find _ sc) as [[k c]|] eqn:Hf.
  - apply find_some in Hf as [Hin' _]. exists c. split; [done|]. rewrite forallb_forall in Hc. exact (Hc _ Hin').
  - apply (find_none _ _ Hf) in Hin. cbn in Hin. by rewrite Z.eqb_refl in Hin.
Qed.

(** The hover colour is that of a shade right beside the chosen one. *)
Lemma hover_beside sc shade : wf_scale sc = true → In shade SHADES →
  ∃ other c, In other SHADES ∧ Z.abs (other - shade) = 100 ∧ hoverShade sc shade = Some c ∧
             scale_at sc other = Some c ∧ is_hex_colour c = true.
Proof.
  intros Hwf Hin.
  assert (Hn : ∃ other, In other SHADES ∧ Z.abs (other - shade) = 100 ∧ hoverShade sc shade = scale_at sc other).
  { unfold hoverShade. repeat (destruct Hin as [<-|Hin]; [by (eexists; split; [|split; [|cbn; reflexivity]]; vm_compute; tauto)|]). done. }
  destruct Hn as (other & Ho & Hd & Hh). destruct (scale_at_wf sc other Hwf Ho) as (c & Hc & Hx).
  exists other, c. by rewrite Hh.
Qed.

Section Provider.
Context (pow : JsNumber → JsNumber → JsNumber) (writes : nat → bool).
#[local] Instance machine : Machine AccentState AccentMsg effect := accent_update pow writes.

(** The choices the picker offers. *)
Definition offered_msg (m : AccentMsg) : Prop :=
  match m with SetLightShade v | SetDarkShade v => In v SHADES | _ => True end.

(** A configuration the style sheet can be built from. *)
Definition paintable (c : AccentConfig) : Prop := In (ac_lightShade c) SHADES ∧ In (ac_darkShade c) SHADES.

Definition storable (st : option Stored) : Prop :=
  match st with
  | None => True
  | Some Malformed => False
  | Some (Saved _ l d _) => (∀ v, l = Some v → In v SHADES) ∧ (∀ v, d = Some v → In v SHADES)
  end.

(** Every colour of a theme is a colour. *)
Definition wf_tokens (t : Tokens) : Prop :=
  is_hex_colour (tk_primary t) = true ∧ is_hex_colour (tk_foreground t) = true ∧
  (∃ c, tk_hover t = Some c ∧ is_hex_colour c = true ∧ c ≠ "") ∧
  (∃ c, tk_subtle t = Some c ∧ is_hex_colour c = true) ∧
  (∃ c, tk_subtleForeground t = Some c ∧ is_hex_colour c = true).

Lemma tokens_wf sc shade sub : wf_scale sc = true → In shade SHADES → In sub SHADES →
  ∃ t, tokens pow sc shade sub = Some t ∧ wf_tokens t.
Proof.
  intros Hwf Hs Hsub. unfold tokens. destruct (scale_at_wf sc shade Hwf Hs) as (p & -> & Hp). eexists. split; [reflexivity|].
  destruct (hover_beside sc shade Hwf Hs) as (o & c & _ & _ & Hh & _ & Hc). unfold wf_tokens. cbn.
  split; [done|]. split; [unfold readableForeground; by destruct (lt _ _)|]. split; [exists c; split_and!; [done|done|by intros ->]|].
  split; [apply scale_at_wf; [done|by left]|by apply scale_at_wf].
Qed.

Lemma paintable_css c : paintable c → ∃ l d, light_tokens pow c = Some l ∧ dark_tokens pow c = Some d ∧ wf_tokens l ∧ wf_tokens d.
Proof.
  intros [Hl Hd]. destruct (getAccent_wf (ac_accentId c)) as [Wl Wd].
  destruct (tokens_wf _ _ 1000 Wl Hl) as (l & El & Hwl); [vm_compute; tauto|].
  destruct (tokens_wf _ _ 1100 Wd Hd) as (d & Ed & Hwd); [vm_compute; tauto|]. by exists l, d.
Qed.

(** What the provider keeps: the document shows its configuration, and the storage holds it
    if the last write succeeded. *)
Definition painted (s : AccentState) : Prop :=
  paintable (as_config s) ∧ as_crashed s = false ∧ buildCss pow (as_config s) = Some (as_css s) ∧
  as_fontVar s = "var(" +:+ fo_cssVar (getFont (ac_fontId (as_config s))) +:+ ")" ∧
  ∃ n, as_attempts s = S n ∧ (writes n = true → as_storage s = Some (stringify (as_config s))).

Lemma buildCss_paintable c : paintable c → is_Some (buildCss pow c).
Proof. intros Hp. destruct (paintable_css _ Hp) as (l & d & Hl & Hd & _). unfold buildCss. rewrite Hl, Hd. by eexists. Qed.

Lemma default_paintable : paintable default_config.
Proof. split; vm_compute; tauto. Qed.

Lemma set_config_painted f c s : as_crashed s = false → f (as_config s) = Some c → paintable c →
  painted (set_config pow writes f s) ∧ as_config (set_config pow writes f s) = c.
Proof.
  intros Hc Hf Hp. unfold set_config, apply_config. rewrite Hf. cbn [as_config].
  destruct (buildCss_paintable c Hp) as [css Hb]. rewrite Hb. split; [|done]. split_and!; try done.
  eexists. split; [reflexivity|]. cbn [as_storage as_config]. by intros ->.
Qed.

Lemma update_painted m s : offered_msg m → painted s → painted (update s m).1.
Proof.
  intros Hm Hs. pose proof Hs as ([Hl Hd] & Hc & H). unfold update, machine, accent_update. cbn [fst]. rewrite Hc.
  destruct m; try (by eapply set_config_painted; [exact Hc|reflexivity|]).
  destruct (_ || _ || _); [done|]. split; [by split|]. split; [done|exact H].
Qed.

(** What the first effects leave, before what was loaded is merged. *)
Lemma first_effects st :
  let s0 := apply_config pow writes (mkAccent default_config false "" "" st 0 false) in
  as_config s0 = default_config ∧ as_crashed s0 = false ∧ as_attempts s0 = 1%nat ∧
  as_storage s0 = (if writes 0%nat then Some (stringify default_config) else st) ∧
  buildCss pow default_config = Some (as_css s0).
Proof.
  unfold apply_config. cbn [as_config]. destruct (buildCss_paintable _ default_paintable) as [css ->]. done.
Qed.

Lemma mount_painted st : storable st →
  painted (mount pow writes st) ∧
  as_config (mount pow writes st) = match st with Some (Saved a l d f) =>
    mkConfig (a ?? DEFAULT_ACCENT_ID) (l ?? DEFAULT_LIGHT_SHADE) (d ?? DEFAULT_DARK_SHADE) (f ?? DEFAULT_FONT_ID)
    | _ => default_config end.
Proof.
  intros Hst. unfold mount, load. destruct (first_effects st) as (Hc & Hx & _). cbv zeta in Hc, Hx.
  assert (H9 : In 900 SHADES) by (vm_compute; tauto).
  apply set_config_painted; [exact Hx| |]; rewrite ?Hc; cbn [as_storage].
  - by destruct st as [[|a l d f]|].
  - destruct st as [[|a l d f]|]; [done| |apply default_paintable].
    destruct Hst as [Hl Hd]. split; cbn; [destruct l|destruct d]; cbn; first [by apply Hl|by apply Hd|exact H9].
Qed.

End Provider.

(** C16: Whatever is picked, and whatever valid choice was stored, the document is painted
    in full: after every event the style sheet in the document is the one of the current
    choice, all of its colours are six-digit hex colours, and the hover colours are those of a
    neighbouring shade. If the last write to the storage succeeded, the next visit starts with the same
    choice. A stored text that is not JSON is not ignored: the page goes down with the
    defaults painted, and goes down again on every visit until a write succeeds, after which the
    defaults are restored. *)
Theorem picker_always_paints pow writes :
  (∀ st ms, storable st → Forall offered_msg ms →
   let s := (run (H := accent_update pow writes) (mount pow writes st) ms).1 in
   as_crashed s = false ∧ buildCss pow (as_config s) = Some (as_css s) ∧
   (∃ l d, light_tokens pow (as_config s) = Some l ∧ dark_tokens pow (as_config s) = Some d ∧ wf_tokens l ∧ wf_tokens d) ∧
   (writes (pred (as_attempts s)) = true →
    ∀ writes', as_config (mount pow writes' (as_storage s)) = as_config s)) ∧
  (let s := mount pow writes (Some Malformed) in
   as_crashed s = true ∧ buildCss pow default_config = Some (as_css s) ∧
   ∀ writes', as_crashed (mount pow writes' (as_storage s)) = negb (writes 0%nat)).
Proof.
  split.
  - intros st ms Hst Hms s.
    assert (Hs : painted pow writes s).
    { subst s. destruct (mount_painted pow writes st Hst) as [H0 _]. revert H0. generalize (mount pow writes st).
      induction Hms as [|m ms Hm _ IH]; intros s Hs; [done|]. rewrite run_cons. apply IH. by apply update_painted. }
    destruct Hs as (Hp & Hc & Hcss & Hf & n & Hn & Hstore). split; [done|]. split; [done|]. split; [by apply paintable_css|].
    rewrite Hn. cbn [pred]. intros Hw writes'. rewrite Hstore by done.
    destruct (mount_painted pow writes' (Some (stringify (as_config s)))) as [_ ->].
    { destruct Hp as [Hl Hd]. split; by intros v [= <-]. }
    by destruct (as_config s).
  - destruct (first_effects pow writes (Some Malformed)) as (Hc & Hx & _ & Hst & Hcss).
    cbv zeta. unfold mount at 1 2. unfold set_config, load. cbn [as_storage merge]. split; [done|]. split; [exact Hcss|].
    intros writes'. unfold mount at 2. unfold set_config, load. cbn [as_storage merge crash]. rewrite Hst.
    destruct (writes 0%nat).
    + by destruct (mount_painted pow writes' (Some (stringify default_config))) as [(_ & -> & _) _];
        [split; intros v [= <-]; vm_compute; tauto|].
    + done.
Qed.

Section Development.
Context (pow : JsNumber → JsNumber → JsNumber) (writes : nat → bool).

(** In development the stored choice is lost as soon as a write succeeds: the second run of the
    load effect reads the defaults the first run of the apply effect has just stored. *)
Lemma strict_mount_forgets st :
  st ≠ Some Malformed → writes 0%nat = true → as_config (strict_mount pow writes st) = default_config.
Proof.
  intros Hst Hw. unfold strict_mount, load.
  destruct (first_effects pow writes st) as (Hc & Hx & _ & Hs & _). cbv zeta in *. rewrite Hw in Hs. rewrite Hs. cbn [as_storage].
  set (s1 := apply_config _ _ (mkAccent _ _ _ _ _ _ _)) in *.
  assert (Hc' : as_config (apply_config pow writes s1) = default_config).
  { unfold apply_config at 1. rewrite Hc. destruct (buildCss_paintable pow _ default_paintable) as [css ->]. done. }
  unfold set_config. rewrite Hc'.
  assert (Hf : (match st with Some x => merge default_config x | None => Some default_config end
                ≫= λ c, merge c (stringify default_config)) = Some default_config) by by destruct st as [[]|].
  rewrite Hf. unfold apply_config at 1. cbn [as_config]. destruct (buildCss_paintable pow _ default_paintable) as [css ->]. done.
Qed.

(** A stored shade that is no key of the scales is applied like any other: the effect throws. *)
Lemma unknown_shade_crashes : as_crashed (mount pow writes (Some (Saved None (Some 950) None None))) = true.
Proof.
  unfold mount, set_config, load. destruct (first_effects pow writes (Some (Saved None (Some 950) None None))) as (-> & _).
  reflexivity.
Qed.

End Development.

Definition cube (x y : JsNumber) : JsNumber := mul x (mul x x).

Lemma picker_always_paints_witness :
  let ms := [SetAccentId "green"; SetDarkShade 1300; AccentKeyDown (mkAccentKey "a" false false)] in
  let s := (run (H := accent_update cube (λ _, true)) (mount cube (λ _, true) (Some (Saved (Some "red") (Some 500) None None))) ms).1 in
  as_crashed s = false ∧ as_config (mount cube (λ _, true) (as_storage s)) = mkConfig "green" 500 1300 "source-sans".
Proof.
  intros ms s.
  destruct (proj1 (picker_always_paints cube (λ _, true)) (Some (Saved (Some "red") (Some 500) None None)) ms) as (H1 & _ & _ & H2).
  - split; [intros v [= <-]; vm_compute; tauto|intros v [=]].
  - apply Forall_cons_2; [exact I|]. apply Forall_cons_2; [vm_compute; tauto|]. apply Forall_cons_2; [exact I|constructor].
  - split; [exact H1|]. fold s in H2. rewrite (H2 eq_refl). vm_compute. reflexivity.
Defined.
