(* ===== verification/AuthChrome.v ===== *)
(** * The frame around the prototype's authentication pages

    Models [prototype/app/(auth)/layout.tsx], [prototype/app/layout.tsx],
    [prototype/components/brand/auth-bg-pattern.tsx], [logo.tsx], [site-footer.tsx],
    [prototype/components/icons] and [prototype/components/theme-provider.tsx]. The background's spotlight follows the pointer through one
    animation frame at a time; the model has the browser's queue of frames. [FrozenRouter] keeps
    the leaving page on screen during the exit animation, which [AuthFunnel] takes as instant.
    The paths of the logos are left out, their sizes and colours are kept. *)
From stdpp Require Import base list strings.
From Stdlib Require Import ZArith Lia.
From S2P Require Import Prelude JsString JsNumber View Controls Ui AuthFunnel Accent.
#[local] Open Scope string_scope.
#[local] Open Scope list_scope.
#[local] Open Scope Z_scope.

(** ** [auth-bg-pattern.tsx] *)

(** The custom properties [--x], [--y] and [--spot] of the element. *)
Record Spot := mkSpot { spot_x : string; spot_y : string; spot_on : string }.

(** [bg_frame] is the handle [frame] holds, [bg_queue] the frames the browser will run,
    each with the pointer position it has captured. Handles start at 1. *)
Record Pattern := mkPattern {
  bg_listening : bool; bg_frame : nat; bg_queue : list (nat * (JsNumber * JsNumber)); bg_next : nat; bg_spot : Spot }.

Definition bg_init : Pattern := mkPattern false 0 [] 1 (mkSpot "50%" "50%" "0").

Inductive bg_msg :=
| BgMount (reducedMotion : bool)
| PointerMove (clientX clientY : JsNumber)
| AnimationFrame (rleft rtop : JsNumber)
| BgUnmount.

Definition cancelAnimationFrame {A} (frame : nat) (queue : list (nat * A)) : list (nat * A) :=
  List.filter (λ e, negb (e.1 =? frame)%nat) queue.

Definition px (x : JsNumber) : string := Number_to_string x +:+ "px".

(** The callback of a frame, with the element's rectangle at that time. *)
Definition paint (rleft rtop : JsNumber) (s : Spot) (e : nat * (JsNumber * JsNumber)) : Spot :=
  mkSpot (px (sub e.2.1 rleft)) (px (sub e.2.2 rtop)) "1".

Definition bg_update (s : Pattern) (m : bg_msg) : Pattern * list unit :=
  let '(mkPattern listening frame queue next spot) := s in
  match m with
  | BgMount reduced => (mkPattern (negb reduced) 0 queue next spot, [])
  | PointerMove x y =>
      if listening
      then (mkPattern listening next (cancelAnimationFrame frame queue ++ [(next, (x, y))]) (S next) spot, [])
      else (s, [])
  | AnimationFrame rleft rtop => (mkPattern listening frame [] next (fold_left (paint rleft rtop) queue spot), [])
  | BgUnmount => (mkPattern false frame (cancelAnimationFrame frame queue) next spot, [])
  end.

#[export] Instance bg_machine : Machine Pattern bg_msg unit := bg_update.

Definition AuthBgPattern {M} (s : Pattern) : view M :=
  El "div" [BoolAttr "aria-hidden" true; Attr "--x" (spot_x (bg_spot s)); Attr "--y" (spot_y (bg_spot s));
            Attr "--spot" (spot_on (bg_spot s))]
    [El "div" [Attr "backgroundSize" "18px 18px"] [];
     El "div" [Attr "opacity" "calc(var(--spot) * 0.1)"; Attr "backgroundSize" "18px 18px"] []].

(** ** [logo.tsx], [site-footer.tsx], [components/icons] *)

Inductive LogoSize := logo_sm | logo_md | logo_lg.
Definition sizes (s : LogoSize) : string * string :=
  match s with
  | logo_sm => ("size-5", "text-sm") | logo_md => ("size-6", "text-[16px]") | logo_lg => ("size-8", "text-lg")
  end.
Definition Logo {M} (variant : option string) (size : option LogoSize) : view M :=
  let s := sizes (size ?? logo_md) in
  El "span" []
    (El "RiBrain4Fill" [Attr "class" s.1; BoolAttr "aria-hidden" true] [] ::
     when (variant ?? "full" === "full") [El "span" [Attr "class" s.2] [Text "Hivebook"]]).

Definition footer_links : list (string * string) := [("Status", "#"); ("Docs", "#"); ("Help", "#"); ("Legal", "#")].
Definition SiteFooter {M} : view M :=
  El "footer" []
    [El "div" [] [El "span" [] [Text "Hivebook © 2026"]];
     El "nav" [] (map (λ '(label, href), El "Link" [Attr "key" label; Attr "href" href] [Text label]) footer_links)].

Definition DEFAULT_SIZE : Z := 20.
(** An [svg] of a brand: only its size is the caller's. *)
Definition brand_svg {M} (size : option Z) (viewBox : string) (kids : list (view M)) : view M :=
  El "svg" [Attr "width" (num (size ?? DEFAULT_SIZE)); Attr "height" (num (size ?? DEFAULT_SIZE)); Attr "viewBox" viewBox;
            BoolAttr "aria-hidden" true; Attr "focusable" "false"] kids.
Definition path_of {M} (fill : string) : view M := El "path" [Attr "fill" fill] [].
Definition GoogleLogo {M} (size : option Z) : view M :=
  brand_svg size "0 0 24 24" (map path_of ["#4285F4"; "#34A853"; "#FBBC05"; "#EA4335"]).
Definition MicrosoftLogo {M} (size : option Z) : view M :=
  brand_svg size "0 0 23 23" (map path_of ["#f35325"; "#81bc06"; "#05a6f0"; "#ffba08"]).
Definition AtlassianLogo {M} (size : option Z) : view M :=
  brand_svg size "0 0 256 256"
    [El "defs" [] [El "linearGradient" [Attr "id" "atlassian-logo-gradient"]
       [El "stop" [Attr "stopColor" "#0052CC"; Attr "offset" "0%"] [];
        El "stop" [Attr "stopColor" "#2684FF"; Attr "offset" "92.3%"] []]];
     path_of "url(#atlassian-logo-gradient)"; path_of "#2681FF"].
Definition PlayGlyph {M} (className : option string) : view M :=
  El "svg" ([Attr "viewBox" "0 0 24 24"; Attr "fill" "none"] ++ opt_attr "class" className ++
            [BoolAttr "aria-hidden" true; Attr "role" "img"])
    [El "path" [Attr "d" "M8 8 L17 12 L8 16 Z"; Attr "fill" "currentColor"; Attr "stroke" "currentColor"] []].

(** ** [components/theme-provider.tsx]: the web client's file *)

Definition isTypingTarget := Controls.isTypingTarget.
Definition ThemeHotkey `{Locale} := Controls.ThemeHotkey.
Definition ThemeProvider {M} (props : list (attr M)) (children : list (view M)) : view M :=
  jsx "NextThemesProvider"
    [Attr "attribute" "class"; Attr "defaultTheme" "system"; BoolAttr "enableSystem" true;
     BoolAttr "disableTransitionOnChange" true] props (El "ThemeHotkey" [] [] :: children).

(** ** [app/layout.tsx] *)

(** The CSS variables of the loaded typefaces. *)
Definition fontVariables : list string :=
  ["--font-source-sans"; "--font-inter"; "--font-geist"; "--font-public-sans"; "--font-ibm-plex"; "--font-mono"].
Definition RootLayout {M} (children : view M) : view M :=
  El "html" (Attr "lang" "en" :: map (λ v, BoolAttr v true) fontVariables)
    [El "body" []
       [ThemeProvider []
          [El "AccentProvider" []
             [El "TooltipProvider" [Attr "delayDuration" "150"] [children];
              El "Toaster" [Attr "position" "bottom-center"] []]]]].

(** ** [app/(auth)/layout.tsx] *)

(** The animation definition motion hands over: an object, with its opacity, or a label. *)
Inductive animation := AnimationObject (opacity : option JsNumber) (y : JsNumber) | AnimationLabel (l : string).

Definition enter_from (reduce : bool) : animation := AnimationObject (Some (int 0)) (int (if reduce then 0 else 4)).
Definition enter_to : animation := AnimationObject (Some (int 1)) (int 0).
Definition exit_to (reduce : bool) : animation := AnimationObject (Some (int 0)) (int (if reduce then 0 else -4)).
Definition duration (reduce : bool) : JsNumber := if reduce then int 0 else literal 18 100.

Definition takes_focus {M} (a : list (attr M)) : bool := existsb (named ["data-autofocus"]) a.
(** [document.querySelector("[data-autofocus]")]. *)
Definition autofocus_target {M} (document : view M) : option (list (attr M)) :=
  (λ e, e.1.2) <$> List.find (λ e, takes_focus e.1.2) (elements document).

(** The element that is focused when an animation completes. *)
Definition onAnimationComplete {M} (def : animation) (document : view M) : option (list (attr M)) :=
  match def with
  | AnimationObject (Some o) _ => if num_eq o (int 1) then autofocus_target document else None
  | _ => None
  end.

Definition AuthLayout (pathname : string) (pattern : Pattern) (picker children : view FunnelMsg) : view FunnelMsg :=
  El "div" []
    [AuthBgPattern pattern;
     El "header" []
       [Logo None None;
        El "div" [] [El "a" [Attr "href" "#"] [Text "Enterprise or on-prem? "; El "span" [] [Text "Talk to us"]]; picker]];
     El "main" [] [El "motion.div" [Attr "key" pathname] [children]];
     SiteFooter].

(** ** Properties *)

(** At most the frame [frame] holds is queued, and handles are fresh. *)
Definition one_frame (s : Pattern) : Prop :=
  (bg_frame s < bg_next s)%nat ∧ (bg_queue s = [] ∨ ∃ p, bg_queue s = [(bg_frame s, p)]).

Definition is_mount (m : bg_msg) : bool := match m with BgMount _ => true | _ => false end.

Lemma cancel_own frame (p : JsNumber * JsNumber) : cancelAnimationFrame frame [(frame, p)] = [].
Proof. unfold cancelAnimationFrame. cbn. by rewrite Nat.eqb_refl. Qed.

Lemma step_one_frame s m : is_mount m = false → one_frame s → one_frame (update s m).1.
Proof.
  destruct s as [l f q n sp], m as [r|x y|a b|]; [done|..]; intros _ [Hf Hq]; unfold update, bg_machine; cbn in *.
  - destruct l; cbn; [|done]. split; [cbn; lia|]. right. exists (x, y). cbn.
    by destruct Hq as [->|[p ->]]; [|rewrite cancel_own].
  - split; [done|by left].
  - split; [done|left]. cbn. destruct Hq as [->|[p ->]]; [done|apply cancel_own].
Qed.

(** Nothing is listened to and nothing is queued: the state of reduced motion and of
    an unmounted pattern. *)
Definition quiet (s : Pattern) : Prop := bg_listening s = false ∧ bg_queue s = [].

Lemma step_quiet s m : is_mount m = false → quiet s → quiet (update s m).1 ∧ bg_spot (update s m).1 = bg_spot s.
Proof. destruct s as [l f q n sp], m as [r|x y|a b|]; [done|..]; intros _ [Hl Hq]; cbn in *; subst; done. Qed.

Lemma run_one_frame s ms : Forall (λ m, is_mount m = false) ms → one_frame s → one_frame (run s ms).1.
Proof.
  intros Hms. revert s. induction Hms as [|m ms Hm _ IH]; intros s Hs; cbn [run]; [done|].
  pose proof (step_one_frame s m Hm Hs) as H1. destruct (update s m) as [s' e]. specialize (IH s' H1).
  by destruct (run s' ms).
Qed.

Lemma run_quiet s ms :
  Forall (λ m, is_mount m = false) ms → quiet s → quiet (run s ms).1 ∧ bg_spot (run s ms).1 = bg_spot s.
Proof.
  intros Hms. revert s. induction Hms as [|m ms Hm _ IH]; intros s Hs; cbn [run]; [done|].
  pose proof (step_quiet s m Hm Hs) as [H1 H2]. destruct (update s m) as [s' e]. cbn in H1, H2.
  specialize (IH s' H1) as [I1 I2]. destruct (run s' ms) as [s2 e2]. cbn in I1, I2 |- *. by rewrite I2, H2.
Qed.

(** C23: Whatever the pointer does, at most one frame is pending, and the next frame puts the
    spotlight where the pointer was last, relative to the element at that time. With reduced
    motion nothing ever moves, and nothing moves after the page has gone: the frame
    that was pending is cancelled. *)
Theorem spotlight_follows_pointer (s : Pattern) ms ms' x y l t :
  one_frame s → Forall (λ m, is_mount m = false) ms → Forall (λ m, is_mount m = false) ms' →
  let shown := (run s ms).1 in
  (js_length (bg_queue shown) ≤ 1) ∧
  (bg_listening shown = true →
     bg_spot (run shown [PointerMove x y; AnimationFrame l t]).1 = mkSpot (px (sub x l)) (px (sub y t)) "1") ∧
  (let gone := (run shown [BgUnmount]).1 in bg_spot (run gone ms').1 = bg_spot shown) ∧
  bg_spot (run (update (mkPattern false 0 [] (bg_next s) (bg_spot s)) (BgMount true)).1 ms').1 = bg_spot s.
Proof.
  intros Hs Hms Hms' shown. pose proof (run_one_frame s ms Hms Hs) as [Hf Hq]. fold shown in Hf, Hq.
  split_and!.
  - unfold js_length. destruct Hq as [->|[p ->]]; cbn; lia.
  - destruct shown as [li f q n sp]. cbn in Hq |- *. intros ->.
    assert (Hc : cancelAnimationFrame f q = []) by (destruct Hq as [->|[p ->]]; [done|apply cancel_own]).
    cbn. by rewrite Hc.
  - intros gone. assert (quiet gone ∧ bg_spot gone = bg_spot shown) as [Hg Hsp].
    { subst gone. destruct shown as [li f q n sp]. cbn in Hq |- *. split; [split; [done|]|done].
      cbn. destruct Hq as [->|[p ->]]; [done|apply cancel_own]. }
    by rewrite (proj2 (run_quiet gone ms' Hms' Hg)), Hsp.
  - set (still := (update _ (BgMount true)).1). assert (Hq' : quiet still) by done.
    by rewrite (proj2 (run_quiet still ms' Hms' Hq')).
Qed.

Lemma no_target {M} (v : view M) : each (λ _ a, takes_focus a = false) v → autofocus_target v = None.
Proof.
  unfold autofocus_target, each. induction 1 as [|e l He _ IH]; [done|]. cbn. by rewrite He.
Qed.

(** The pages focus their field only when the new page has settled, and only three pages of
    the funnel have such a field: the address on the front door, the password, the code. *)
Theorem settled_page_takes_focus (s : Funnel) pathname pattern reduce :
  let document := AuthLayout pathname pattern (El "div" [] []) (Page_view s) in
  onAnimationComplete (exit_to reduce) document = None ∧
  onAnimationComplete (enter_from reduce) document = None ∧
  attr_value "value" <$> onAnimationComplete enter_to document =
    match fu_page s with
    | SignInPage _ => Some (Some (fu_email s))
    | EnterPasswordPage pw _ _ => Some (Some pw)
    | VerifyEmailPage code _ _ _ => Some (Some code)
    | _ => None
    end.
Proof.
  split_and!; [done|done|].
  destruct s as [now href mt pg em lm st tm], pg; cbn [Page_view fu_page].
  1,2,3: reflexivity.
  all: unfold onAnimationComplete; cbn [num_eq enter_to]; rewrite no_target; [by case_match|].
  all: unfold AuthLayout, AuthBgPattern, Logo, SiteFooter; each_simpl; try reflexivity.
  all: repeat case_match; unfold ButtonSpinner; each_simpl; try reflexivity.
Qed.

(** Every typeface the picker offers is loaded by the layout. *)
Lemma fonts_in_sync : Forall (λ f, In (fo_cssVar f) fontVariables) FONTS.
Proof. repeat constructor; cbn; tauto. Qed.

(** A pointer at (30, 40) over an element at (10, 5). *)
Lemma spotlight_follows_pointer_witness :
  bg_spot (run (update bg_init (BgMount false)).1
    [PointerMove (int 1) (int 2); PointerMove (int 30) (int 40); AnimationFrame (int 10) (int 5)]).1 =
  mkSpot "20px" "35px" "1".
Proof.
  destruct (spotlight_follows_pointer (update bg_init (BgMount false)).1 [PointerMove (int 1) (int 2)] []
              (int 30) (int 40) (int 10) (int 5)) as (_ & Hp & _).
  - split; [cbn; lia|by left].
  - by repeat constructor.
  - constructor.
  - etransitivity; [exact (Hp eq_refl)|]. vm_compute. reflexivity.
Defined.
