(* ===== verification/Admin.v ===== *)
(** * The admin surfaces of the prototype

    Models [prototype/lib/mock-admin.ts] and, of [mock-data.ts], the connectors and the
    regions; the building blocks of [prototype/components/app/page-kit.tsx]; and the pages
    members, access, review, audit, entities, ambiguity, usage, sources, settings and account
    under [prototype/app/(app)]. They are views of constant data with a little state each: a
    dialog, a filter, tabs. A decimal literal of the data is its text and its double. *)
From stdpp Require Import base list strings.
From Stdlib Require Import ZArith Lia Ascii QArith_base.
From S2P Require Import Prelude JsString JsNumber Proto View Book BookPages AuthFunnel.
#[local] Open Scope string_scope.
#[local] Open Scope list_scope.
#[local] Open Scope Z_scope.

Definition quote : string := String (ascii_of_nat 34) "".

(** ** Data *)

Inductive Role := Owner | Admin | Member | Viewer.
Inductive MemberStatus := ActiveMember | InvitedMember | SuspendedMember.
Inductive Provisioned := Sso | Manual.
#[export] Instance Role_eq_dec : EqDecision Role.
Proof. solve_decision. Defined.
#[export] Instance MemberStatus_eq_dec : EqDecision MemberStatus.
Proof. solve_decision. Defined.
#[export] Instance Provisioned_eq_dec : EqDecision Provisioned.
Proof. solve_decision. Defined.
Record AdminMember := mkAdminMember {
  am_id : string; am_name : string; am_email : string; am_initial : string;
  am_role : Role; am_status : MemberStatus; am_provisioned : Provisioned; am_lastActive : string }.

Definition ROLE_LABEL (r : Role) : string :=
  match r with Owner => "Owner" | Admin => "Admin" | Member => "Member" | Viewer => "Viewer" end.

(** [None] for the chapters ["all"]. *)
Record AccessTemplate := mkTemplate {
  at_id : string; at_name : string; at_description : string; at_chapters : option (list string); at_members : Z }.
Record ChapterAccess := mkChapterAccess { ca_chapterId : string; ca_restricted : bool; ca_templates : list string }.

Inductive AuditKind := ReadEvent | WriteEvent | AdminEvent_ | AuthEvent.
#[export] Instance AuditKind_eq_dec : EqDecision AuditKind.
Proof. solve_decision. Defined.
Record AdminEvent := mkAdminEvent {
  ae_id : string; ae_time : string; ae_actor : string; ae_action : string; ae_target : string;
  ae_kind : AuditKind; ae_correlationId : string }.

Inductive ProposalKind := Split | Merge | Reclassify | NewTopic | Unfiled.
#[export] Instance ProposalKind_eq_dec : EqDecision ProposalKind.
Proof. solve_decision. Defined.
Record ReviewProposal := mkProposal {
  rp_id : string; rp_kind : ProposalKind; rp_title : string; rp_detail : string; rp_target : string;
  rp_confidence : JsNumber; rp_raisedAt : string }.

Record AmbiguityCandidate := mkCandidate { cd_name : string; cd_score : JsNumber }.
Record AmbiguityItem := mkAmbiguity {
  ai_id : string; ai_surface : string; ai_container : string; ai_mentions : Z; ai_raisedAt : string;
  ai_candidates : list AmbiguityCandidate }.

Record CatalogConnector := mkCatalog {
  cc_id : string; cc_name : string; cc_category : string; cc_color : string; cc_letter : string; cc_popular : bool }.
Record ProtoRegion := mkProtoRegion {
  pg_id : string; pg_country : string; pg_city : string; pg_label : string; pg_flag : string; pg_recommended : bool }.

Definition MEMBERS : list AdminMember :=
  [mkAdminMember "m-brijesh" "Brijesh Wawdhane" "google@brijesh.dev" "B" Owner ActiveMember Manual "now";
   mkAdminMember "m-dana" "Dana Olsen" "dana@hivebook-test.com" "D" Admin ActiveMember Sso "12 min ago";
   mkAdminMember "m-priya" "Priya Raman" "priya@hivebook-test.com" "P" Admin ActiveMember Sso "1 h ago";
   mkAdminMember "m-sam" "Sam Okafor" "sam@hivebook-test.com" "S" Member ActiveMember Sso "3 h ago";
   mkAdminMember "m-lee" "Lee Carter" "lee@hivebook-test.com" "L" Member ActiveMember Sso "yesterday";
   mkAdminMember "m-maya" "Maya Lin" "maya@hivebook-test.com" "M" Member ActiveMember Sso "2 days ago";
   mkAdminMember "m-tomas" "Tomás Vidal" "tomas@hivebook-test.com" "T" Viewer ActiveMember Sso "5 days ago";
   mkAdminMember "m-aisha" "Aisha Khan" "aisha@hivebook-test.com" "A" Member InvitedMember Manual "—";
   mkAdminMember "m-rob" "Rob Feeney" "rob@hivebook-test.com" "R" Member SuspendedMember Sso "3 weeks ago"].

Definition ACCESS_TEMPLATES : list AccessTemplate :=
  [mkTemplate "at-everyone" "Everyone" "Default access for all members of the workspace." (Some ["ch-ops"; "ch-eng"; "ch-product"]) 47;
   mkTemplate "at-leadership" "Leadership" "Full read across every chapter." None 5;
   mkTemplate "at-engineering" "Engineering" "Engineering and Product knowledge." (Some ["ch-eng"; "ch-product"]) 18;
   mkTemplate "at-finance" "Finance" "Finance and operational policy, including restricted chapters." (Some ["ch-fin"; "ch-ops"]) 6;
   mkTemplate "at-support" "Support" "Customer-facing knowledge and operations." (Some ["ch-cust"; "ch-ops"]) 12].

Definition CHAPTER_ACCESS : list ChapterAccess :=
  [mkChapterAccess "ch-ops" false ["at-everyone"; "at-finance"; "at-support"];
   mkChapterAccess "ch-eng" false ["at-everyone"; "at-engineering"];
   mkChapterAccess "ch-cust" false ["at-everyone"; "at-support"];
   mkChapterAccess "ch-fin" true ["at-leadership"; "at-finance"];
   mkChapterAccess "ch-people" true ["at-leadership"];
   mkChapterAccess "ch-product" false ["at-everyone"; "at-engineering"]].

Definition AUDIT_EVENTS : list AdminEvent :=
  [mkAdminEvent "e1" "14:38:02" "Brijesh Wawdhane" "Signed in" "SSO · Okta" AuthEvent "req_8f2a41";
   mkAdminEvent "e2" "14:31:55" "System" "Rebuilt summary" "EU VAT refunds over €500" WriteEvent "job_b71c09";
   mkAdminEvent "e3" "14:22:10" "Dana Olsen" "Viewed entry" "Sev-1 escalation path" ReadEvent "req_4c9d22";
   mkAdminEvent "e4" "13:57:41" "Priya Raman" "Updated access template" "Finance" AdminEvent_ "req_1a7e6b";
   mkAdminEvent "e5" "13:40:18" "Sam Okafor" "Triggered sync" "Jira" AdminEvent_ "req_55f0aa";
   mkAdminEvent "e6" "12:18:03" "System" "Resolved entity" "Finance → canonical" WriteEvent "job_9d2244";
   mkAdminEvent "e7" "11:52:37" "Tomás Vidal" "Ran ask" ("" +:+ quote +:+ "refund threshold EU" +:+ quote +:+ "") ReadEvent "req_77b310";
   mkAdminEvent "e8" "11:09:44" "Brijesh Wawdhane" "Invited member" "aisha@hivebook-test.com" AdminEvent_ "req_2e88c1";
   mkAdminEvent "e9" "10:47:21" "Lee Carter" "Requested rebuild" "US refunds over $600" WriteEvent "req_0bb934";
   mkAdminEvent "e10" "09:31:09" "System" "Flagged ambiguity" ("" +:+ quote +:+ "EM" +:+ quote +:+ " — 3 candidates") WriteEvent "job_aa1f70";
   mkAdminEvent "e11" "09:02:55" "Rob Feeney" "Sign-in blocked" "Account suspended" AuthEvent "req_6c4d80";
   mkAdminEvent "e12" "08:44:12" "Maya Lin" "Viewed entry" "Refunds & adjustments" ReadEvent "req_d109f3"].

Definition REVIEW_PROPOSALS : list ReviewProposal :=
  [mkProposal "rp1" Merge "“Engineering Manager” and “EM”" "Two entities resolve to the same role across 9 mentions." "Entities" (literal 91 100) "2 h ago";
   mkProposal "rp2" Split "“Refunds & adjustments” by region" "EU and US refund rules have diverged enough to warrant separate sub-topics." "Operations / Refunds & adjustments" (literal 82 100) "1 day ago";
   mkProposal "rp3" NewTopic "Chargebacks" "14 artifacts in #cs-refunds describe chargebacks with no home in the book." "Operations" (literal 74 100) "1 day ago";
   mkProposal "rp4" Reclassify "“Sev-1 escalation path”" "Increasingly referenced from Customer; consider cross-filing." "Engineering / Incident response" (literal 63 100) "3 days ago";
   mkProposal "rp5" Unfiled "12 artifacts in #random" "Low-signal channel; confirm whether to ingest or exclude." "Slack · #random" (literal 41 100) "4 days ago"].

Definition AMBIGUITY_ITEMS : list AmbiguityItem :=
  [mkAmbiguity "am1" "EM" "Slack · #incidents" 9 "9 h ago"
     [mkCandidate "Engineering Manager" (literal 62 100); mkCandidate "Engagement Manager" (literal 30 100); mkCandidate "Email" (literal 8 100)];
   mkAmbiguity "am2" "the console" "Notion · Finance" 7 "1 day ago"
     [mkCandidate "Billing console" (literal 55 100); mkCandidate "Admin console" (literal 45 100)];
   mkAmbiguity "am3" "Falcon" "Jira · OPS" 5 "2 days ago"
     [mkCandidate "Project Falcon" (literal 71 100); mkCandidate "Falcon (vendor)" (literal 29 100)];
   mkAmbiguity "am4" "Q4" "Notion · Policies" 4 "2 days ago"
     [mkCandidate "Q4 2025 audit" (literal 66 100); mkCandidate "Q4 OKRs" (literal 34 100)]].

Definition USAGE_TREND : list (string * (string * JsNumber)) :=
  [("Dec", ("2.1", (literal 21 10))); ("Jan", ("2.6", (literal 26 10))); ("Feb", ("3", (literal 30 10))); ("Mar", ("3.9", (literal 39 10))); ("Apr", ("3.7", (literal 37 10))); ("May", ("4.24", (literal 424 100)))].

Definition connectors : list CatalogConnector :=
  [mkCatalog "slack" "Slack" "Chat" "#4A154B" "S" true;
   mkCatalog "google-workspace" "Google Workspace" "Docs & email" "#4285F4" "G" true;
   mkCatalog "github" "GitHub" "Code" "#181717" "GH" true;
   mkCatalog "notion" "Notion" "Wiki" "#000000" "N" true;
   mkCatalog "linear" "Linear" "Work tracking" "#5E6AD2" "L" true;
   mkCatalog "jira" "Jira" "Work tracking" "#0052CC" "J" false;
   mkCatalog "confluence" "Confluence" "Wiki" "#172B4D" "C" false;
   mkCatalog "zendesk" "Zendesk" "Support" "#03363D" "Z" false;
   mkCatalog "intercom" "Intercom" "Support" "#1F8DED" "I" false;
   mkCatalog "salesforce" "Salesforce" "CRM" "#00A1E0" "SF" false;
   mkCatalog "hubspot" "HubSpot" "CRM" "#FF7A59" "H" false;
   mkCatalog "gong" "Gong" "Meetings" "#8039DF" "GO" false;
   mkCatalog "granola" "Granola" "Meetings" "#FFB800" "GR" false;
   mkCatalog "pagerduty" "PagerDuty" "Observability" "#06AC38" "P" false;
   mkCatalog "sentry" "Sentry" "Observability" "#362D59" "SE" false;
   mkCatalog "datadog" "Datadog" "Observability" "#632CA6" "D" false;
   mkCatalog "snowflake" "Snowflake" "Data warehouse" "#29B5E8" "SN" false;
   mkCatalog "drive" "Google Drive" "Files" "#0F9D58" "D" false;
   mkCatalog "dropbox" "Dropbox" "Files" "#0061FF" "DB" false;
   mkCatalog "workday" "Workday" "HR" "#F38B00" "W" false].

Definition proto_regions : list ProtoRegion :=
  [mkProtoRegion "us-east" "United States" "Washington DC" "us-east" "🇺🇸" true;
   mkProtoRegion "us-west" "United States" "San Francisco" "us-west" "🇺🇸" false;
   mkProtoRegion "eu-central" "European Union" "Frankfurt" "eu-central" "🇪🇺" false;
   mkProtoRegion "eu-west" "United Kingdom" "London" "eu-west" "🇬🇧" false;
   mkProtoRegion "asia-south" "India" "Mumbai" "asia-south" "🇮🇳" false;
   mkProtoRegion "asia-east" "Japan" "Tokyo" "asia-east" "🇯🇵" false;
   mkProtoRegion "asia-southeast" "Singapore" "Singapore" "asia-southeast" "🇸🇬" false;
   mkProtoRegion "oceania" "Australia" "Sydney" "oceania" "🇦🇺" false].

(** [USAGE]: used and limit of each metered resource. *)
Record UsageData := mkUsage {
  us_plan : string; us_period : string; us_seats : Z * Z; us_tokens : Z * Z; us_query : Z; us_build : Z;
  us_usedGb : string * JsNumber; us_limitGb : Z; us_syncs : Z * Z }.
Definition USAGE : UsageData :=
  mkUsage "Scale" "May 2026" (8, 25) (4240000, 10000000) 1360000 2880000 ("38.4", literal 384 10) 100 (14820, 50000).

Record MockOrg := mkOrg { og_name : string; og_slug : string; og_domain : string; og_region : string }.
Definition mockOrg : MockOrg := mkOrg "Hivebook Test Co" "hivebook-test" "hivebook-test.com" "us-east".
Record MockUser := mkMockUser { mu_email : string; mu_name : string; mu_initial : string; mu_role : string }.
Definition mockUser : MockUser := mkMockUser mock_email "Brijesh Wawdhane" "B" "Owner".
Definition mockTenants : list (string * (string * (string * Z))) :=
  [("hivebook-test", ("Hivebook Test Co", ("Owner", 47))); ("acme", ("Acme Corp", ("Member", 312)));
   ("globex", ("Globex Industries", ("Admin", 1840)))].

(** ** Building blocks ([components/app/page-kit.tsx]) *)

Inductive Tone := ToneSuccess | ToneWarning | ToneDestructive | ToneInfo | ToneMuted.

Definition TONE_DOT (t : Tone) : string :=
  match t with
  | ToneSuccess => "bg-success" | ToneWarning => "bg-warning" | ToneDestructive => "bg-destructive"
  | ToneInfo => "bg-primary" | ToneMuted => "bg-muted-foreground/50"
  end.
Definition TONE_VARIANT (t : Tone) : string :=
  match t with
  | ToneSuccess => "success" | ToneWarning => "warning" | ToneDestructive => "destructive"
  | ToneInfo => "brand" | ToneMuted => "muted"
  end.

Record StatItem := mkStatItem { si_label : string; si_value : string; si_sub : option string }.

Section Kit.
Context {M : Type}.
Implicit Types kids : list (view M).

Definition AdminShell (width : string) kids : view M :=
  El "div" [] [El "div" [Attr "class" (if width === "wide" then "max-w-[1100px]" else "max-w-[760px]")] kids].

Definition AdminHeading (title : string) (description : option string) : view M :=
  El "div" [] (El "h1" [] [Text title] :: when (otruthy description) [El "p" [] [Text (description ?? "")]]).

Definition StatBar (items : list StatItem) : view M :=
  El "div" [] (map (λ s, El "div" [Attr "key" (si_label s)]
    ([El "div" [] [Text (si_label s)]; El "div" [] [Text (si_value s)]] ++
     when (otruthy (si_sub s)) [El "div" [] [Text (si_sub s ?? "")]])) items).

Definition Section_ (title : string) (count : option Z) (action kids : list (view M)) : view M :=
  El "section" []
    (El "div" []
       (El "h2" [] [Text title] ::
        match count with Some n => [El "span" [] [Text (num n)]] | None => [] end ++
        when (0 <? js_length action) [El "div" [] action]) :: kids).

Definition TableCard kids : view M := El "div" [] kids.
Definition HeadRow kids : view M := El "div" [] kids.
Definition Th (s : string) : view M := El "div" [] [Text s].
Definition AdminRow (href : option string) kids : view M :=
  if otruthy href then El "Link" [Attr "href" (href ?? "")] kids else El "div" [] kids.
Definition Td kids : view M := El "div" [] kids.
Definition Num (s : string) : view M := El "div" [] [Text s].
Definition Dot (tone : Tone) (pulse : bool) : view M :=
  El "span" [Attr "class" (TONE_DOT tone); BoolAttr "animate-pulse" pulse] [].
Definition Tag (tone : Tone) (s : string) : view M := Badge (TONE_VARIANT tone) s.
Definition Avatar (initial : string) : view M := El "span" [] [Text initial].

Definition stat (label value sub : string) : StatItem := mkStatItem label value (Some sub).

(** A page's actions in the context bar. *)
Definition Chrome kids : view M := El "ChromeActions" [] kids.

End Kit.

(** [replace(/\.?0+$/, "")]: the zeros at the end, and the point before them. *)
Fixpoint drop_zeros (l : list ascii) : list ascii :=
  match l with "0"%char :: l' => drop_zeros l' | _ => l end.
Definition strip_zeros (s : string) : string :=
  let l := rev (String.list_ascii_of_string s) in
  match l with
  | "0"%char :: _ =>
      String.string_of_list_ascii (rev (match drop_zeros l with "."%char :: l' => l' | l' => l' end))
  | _ => s
  end.
(** [replace(/\.0$/, "")]. *)
Definition strip_point_zero (s : string) : string :=
  match rev (String.list_ascii_of_string s) with
  | "0"%char :: "."%char :: l => String.string_of_list_ascii (rev l)
  | _ => s
  end.

Definition fmtCount (n : Z) : string :=
  if 1000000 <=? n then strip_zeros (toFixed 2 (div (int n) (int 1000000))) +:+ "M"
  else if 1000 <=? n then strip_point_zero (toFixed 1 (div (int n) (int 1000))) +:+ "k"
  else num n.

Example fmtCount_examples : map fmtCount [999; 1000; 12840; 4240000; 10000000] = ["999"; "1k"; "12.8k"; "4.24M"; "10M"].
Proof. vm_compute. reflexivity. Qed.
(** Just below a million the rounding reaches a thousand thousands. *)
Example fmtCount_carry : fmtCount 999950 = "1000k".
Proof. vm_compute. reflexivity. Qed.

(** ** Members *)

Definition ROLE_TONE (r : Role) : Tone := match r with Owner | Admin => ToneInfo | Member | Viewer => ToneMuted end.
Definition MEMBER_STATUS (s : MemberStatus) : Tone * string :=
  match s with
  | ActiveMember => (ToneSuccess, "Active")
  | InvitedMember => (ToneWarning, "Invited")
  | SuspendedMember => (ToneDestructive, "Suspended")
  end.

Record MembersState := mkMembers { me_inviteOpen : bool; me_email : string; me_role : Role }.
Definition members_init : MembersState := mkMembers false "" Member.

Inductive MembersMsg :=
| ExportMembers | OpenInvite | SetInviteOpen (v : bool) | SetInviteEmail (v : string) | InviteKey (key : string)
| SetRole (r : Role) | SendInvite.

Definition sendInvite (s : MembersState) : MembersState * list effect :=
  if negb (truthy (trim (me_email s))) then (s, [])
  else (mkMembers false "" Member,
        [Toast "success" "Invitation sent" (me_email s +:+ " · " +:+ ROLE_LABEL (me_role s))]).

#[export] Instance members_update : Machine MembersState MembersMsg effect := λ s m,
  match m with
  | ExportMembers => (s, [Toast "default" "Preparing export" "We'll email a link when it's ready."])
  | OpenInvite => (mkMembers true (me_email s) (me_role s), [])
  | SetInviteOpen v => (mkMembers v (me_email s) (me_role s), [])
  | SetInviteEmail v => (mkMembers (me_inviteOpen s) v (me_role s), [])
  | InviteKey k => if k === "Enter" then sendInvite s else (s, [])
  | SetRole r => (mkMembers (me_inviteOpen s) (me_email s) r, [])
  | SendInvite => sendInvite s
  end.

Definition invite_dialog (s : MembersState) : list (view MembersMsg) :=
  when (me_inviteOpen s)
    [El "Dialog" []
       [El "DialogTitle" [] [Text "Invite member"];
        El "DialogDescription" [] [Text ("They'll get an email to join " +:+ og_name mockOrg +:+ ". Role can be changed later.")];
        El "Input" [Attr "type" "email"; Attr "value" (me_email s); OnChange SetInviteEmail; OnKeyDown InviteKey] [];
        El "Select" [Attr "value" (ROLE_LABEL (me_role s))]
          (map (λ r, El "SelectItem" [OnClick (SetRole r)] [Text (ROLE_LABEL r)]) [Admin; Member; Viewer]);
        El "Button" [OnClick (SetInviteOpen false)] [Text "Cancel"];
        El "Button" [OnClick SendInvite; BoolAttr "disabled" (negb (truthy (trim (me_email s))))] [Text "Send invite"]]].

Definition member_row (m : AdminMember) : view MembersMsg :=
  AdminRow (Some "#")
    [Td [Avatar (am_initial m); El "span" [] [Text (am_name m)]; El "span" [] [Text (am_email m)]];
     Td [Tag (ROLE_TONE (am_role m)) (ROLE_LABEL (am_role m))];
     Td [Text (if am_provisioned m === Sso then "SSO" else "Manual")];
     Td [Tag (MEMBER_STATUS (am_status m)).1 (MEMBER_STATUS (am_status m)).2];
     Td [Text (am_lastActive m)]].

Definition MembersPage (members : list AdminMember) (s : MembersState) : view MembersMsg :=
  El "div" []
    (Chrome [El "Button" [OnClick ExportMembers] [Text "Export"]; El "Button" [OnClick OpenInvite] [Text "Invite member"]] ::
     invite_dialog s ++
     [AdminShell "wide"
        [AdminHeading "Members" (Some "Who can reach the workspace, the role they hold, and how they're provisioned.");
         StatBar
           [stat "Members" (num (js_length members))
              (num (count (λ m, am_status m === ActiveMember) members) +:+ " active");
            stat "Admins" (num (count (λ m, (am_role m === Owner) || (am_role m === Admin)) members)) "owner + admin";
            stat "Via SSO" (num (count (λ m, am_provisioned m === Sso) members)) "Okta SCIM";
            stat "Pending" (num (count (λ m, am_status m === InvitedMember) members)) "invitations"];
         Section_ "People" (Some (js_length members)) []
           [TableCard (HeadRow [Th "Member"; Th "Role"; Th "Provisioning"; Th "Status"; Th "Last active"] ::
                       map member_row members)]]]).

(** ** Access *)

Definition templateName (templates : list AccessTemplate) (id : string) : string :=
  (at_name <$> List.find (λ t, at_id t === id) templates) ?? id.

Record AccessState := mkAccess { ax_open : bool; ax_name : string; ax_description : string }.
Definition access_init : AccessState := mkAccess false "" "".

Inductive AccessMsg := OpenTemplate | SetTemplateOpen (v : bool) | SetTemplateName (v : string)
| SetTemplateDescription (v : string) | CreateTemplate.

Definition create (s : AccessState) : AccessState * list effect :=
  if negb (truthy (trim (ax_name s))) then (s, [])
  else (mkAccess false "" "", [Toast "success" "Template created" (ax_name s +:+ " — grant chapters next.")]).

#[export] Instance access_update : Machine AccessState AccessMsg effect := λ s m,
  match m with
  | OpenTemplate => (mkAccess true (ax_name s) (ax_description s), [])
  | SetTemplateOpen v => (mkAccess v (ax_name s) (ax_description s), [])
  | SetTemplateName v => (mkAccess (ax_open s) v (ax_description s), [])
  | SetTemplateDescription v => (mkAccess (ax_open s) (ax_name s) v, [])
  | CreateTemplate => create s
  end.

Section Access.
Context (book : list BookEntry) (templates : list AccessTemplate) (chapter_access : list ChapterAccess).

Definition access_row (c : ChapterAccess) : view AccessMsg :=
  AdminRow (Some "#")
    [Td (when (ca_restricted c) [El "RiLock2Line" [] []] ++
         [El "span" [] [Text ((be_title <$> getEntry book (ca_chapterId c)) ?? ca_chapterId c)]]);
     Td [Tag (if ca_restricted c then ToneWarning else ToneMuted) (if ca_restricted c then "Restricted" else "All members")];
     Td (map (λ t, Tag ToneMuted (templateName templates t)) (ca_templates c))].

Definition template_row (t : AccessTemplate) : view AccessMsg :=
  AdminRow (Some "#")
    [Td [Text (at_name t)]; Td [Text (at_description t)];
     Num (match at_chapters t with None => "All" | Some cs => num (js_length cs) end); Num (num (at_members t))].

Definition template_dialog (s : AccessState) : list (view AccessMsg) :=
  when (ax_open s)
    [El "Dialog" []
       [El "DialogTitle" [] [Text "New access template"];
        El "DialogDescription" [] [Text "A reusable persona you can grant chapters to and assign members."];
        El "Input" [Attr "value" (ax_name s); OnChange SetTemplateName] [];
        El "Textarea" [Attr "value" (ax_description s); OnChange SetTemplateDescription] [];
        El "Button" [OnClick (SetTemplateOpen false)] [Text "Cancel"];
        El "Button" [OnClick CreateTemplate; BoolAttr "disabled" (negb (truthy (trim (ax_name s))))] [Text "Create template"]]].

Definition AccessPage (s : AccessState) : view AccessMsg :=
  El "div" []
    (Chrome [El "Button" [OnClick OpenTemplate] [Text "New template"]] :: template_dialog s ++
     [AdminShell "wide"
        [AdminHeading "Access" (Some "The book is shared by default. Chapters are the only ACL boundary; templates grant them to groups.");
         StatBar
           [stat "Chapters" (num (js_length chapter_access)) "access-controlled";
            stat "Restricted" (num (count ca_restricted chapter_access)) "not all-members";
            stat "Templates" (num (js_length templates)) "personas"; stat "Default" "All" "members can read"];
         Section_ "Chapters" (Some (js_length chapter_access)) []
           [TableCard (HeadRow [Th "Chapter"; Th "Scope"; Th "Granted via"] :: map access_row chapter_access)];
         Section_ "Access templates" (Some (js_length templates)) []
           [TableCard (HeadRow [Th "Template"; Th "Description"; Th "Chapters"; Th "Members"] :: map template_row templates)]]]).

End Access.

(** ** Review *)

Inductive ReviewMsg := ApproveAll (n : Z) | Approve (title : string) | Dismiss (title : string).

Definition review_effects (m : ReviewMsg) : list effect :=
  match m with
  | ApproveAll n => [Toast "default" "Approve all" (num n +:+ " proposals applied to the book.")]
  | Approve t => [Toast "success" "Approved" t]
  | Dismiss t => [Toast "default" "Dismissed" t]
  end.

Definition PROPOSAL_KIND (k : ProposalKind) : Tone * string :=
  match k with
  | Merge => (ToneInfo, "Merge") | Split => (ToneInfo, "Split") | Reclassify => (ToneWarning, "Reclassify")
  | NewTopic => (ToneSuccess, "New topic") | Unfiled => (ToneMuted, "Unfiled")
  end.

Definition percent (x : JsNumber) : JsNumber := Math_round (mul x (int 100)).
Definition percent_text (x : JsNumber) : string := Number_to_string x +:+ "%".

Definition average (proposals : list ReviewProposal) : JsNumber :=
  Math_round (mul (div (fold_left (λ n p, add n (rp_confidence p)) proposals (int 0)) (int (js_length proposals))) (int 100)).

Definition proposal_card (p : ReviewProposal) : view ReviewMsg :=
  let pct := percent (rp_confidence p) in
  El "div" [Attr "key" (rp_id p)]
    [Tag (PROPOSAL_KIND (rp_kind p)).1 (PROPOSAL_KIND (rp_kind p)).2; El "span" [] [Text (rp_title p)];
     El "span" [Attr "class" (if le (int 75) pct then "bg-success" else "bg-warning"); Attr "width" (percent_text pct)] [];
     El "span" [] [Text (percent_text pct)]; El "span" [] [Text (rp_raisedAt p)]; El "p" [] [Text (rp_detail p)];
     El "Button" [OnClick (Approve (rp_title p))] [Text "Approve"];
     El "Button" [OnClick (Dismiss (rp_title p))] [Text "Dismiss"]; El "span" [] [Text (rp_target p)]].

Definition ReviewPage (proposals : list ReviewProposal) : view ReviewMsg :=
  El "div" []
    [Chrome [El "Button" [OnClick (ApproveAll (js_length proposals))] [Text "Approve all"]];
     AdminShell "wide"
       [AdminHeading "Review" (Some "Lower-confidence decisions the system parked for a human — structural changes and unfiled artifacts.");
        StatBar
          [stat "Open" (num (js_length proposals)) "proposals";
           stat "Structural" (num (count (λ p, rp_kind p !== Unfiled) proposals)) "splits, merges, topics";
           stat "Unfiled" (num (count (λ p, rp_kind p === Unfiled) proposals)) "buckets";
           stat "Avg confidence" (percent_text (average proposals)) "of the queue"];
        El "div" [] (map proposal_card proposals)]].

(** ** Audit *)

Inductive AuditMsg := ExportAudit | SetFilter (f : option AuditKind).

Definition AUDIT_KIND (k : AuditKind) : Tone * string :=
  match k with
  | ReadEvent => (ToneMuted, "Read") | WriteEvent => (ToneInfo, "Write")
  | AdminEvent_ => (ToneWarning, "Admin") | AuthEvent => (ToneSuccess, "Auth")
  end.

(** ["all"] is [None]. *)
Definition FILTERS : list (option AuditKind) := [None; Some ReadEvent; Some WriteEvent; Some AdminEvent_; Some AuthEvent].

#[export] Instance audit_filter_update : Machine (option AuditKind) AuditMsg effect := λ s m,
  match m with
  | ExportAudit => (s, [Toast "default" "Preparing export" "Filtered audit events · CSV. We'll email a link."])
  | SetFilter f => (f, [])
  end.

Definition filtered_events (events : list AdminEvent) (filter : option AuditKind) : list AdminEvent :=
  match filter with None => events | Some k => List.filter (λ e, ae_kind e === k) events end.
Definition kind_count (events : list AdminEvent) (k : AuditKind) : Z := count (λ e, ae_kind e === k) events.

Definition event_row (e : AdminEvent) : view AuditMsg :=
  AdminRow None
    [Td [Text (ae_time e)]; Td [Text (ae_actor e)]; Td [El "span" [] [Text (ae_action e)]; El "span" [] [Text (ae_target e)]];
     Td [Tag (AUDIT_KIND (ae_kind e)).1 (AUDIT_KIND (ae_kind e)).2]; Td [Text (ae_correlationId e)]].

Definition AdminAuditPage (events : list AdminEvent) (filter : option AuditKind) : view AuditMsg :=
  El "div" []
    [Chrome [El "Button" [OnClick ExportAudit] [Text "Export"]];
     AdminShell "wide"
       [AdminHeading "Audit log" (Some "Every read and privileged write in this workspace, traceable to the change that caused it.");
        StatBar
          [stat "Events today" (num (js_length events)) "all actors"; stat "Reads" (num (kind_count events ReadEvent)) "entry + ask";
           stat "Writes" (num (kind_count events WriteEvent)) "rebuilds + resolves";
           stat "Admin" (num (kind_count events AdminEvent_)) "config changes"];
        El "div" []
          (map (λ f, El "button" [OnClick (SetFilter f); BoolAttr "active" (filter === f)]
                       [Text (match f with None => "All" | Some k => (AUDIT_KIND k).2 end)]) FILTERS);
        TableCard (HeadRow [Th "Time"; Th "Actor"; Th "Action"; Th "Kind"; Th "Correlation"] ::
                   map event_row (filtered_events events filter))]].

(** ** Entities and the ambiguity queue *)

Inductive EntitiesMsg := AddEntity.
Definition add_entity : list effect := [Toast "default" "Add entity" "Define a canonical name, type, and aliases."].

Definition store_row (e : Entity) : view EntitiesMsg :=
  AdminRow (Some "#")
    [Td [Text (en_name e)]; Td [Tag ToneMuted (entity_type (en_type e))]; Num (num (en_mentions e)); Num (num (en_sources e));
     Num (num (en_aliases e));
     Td [if en_status e === Ambiguous then Tag ToneWarning "Ambiguous" else Tag ToneSuccess "Canonical"]].

Definition EntitiesPage (entities : list Entity) (items : list AmbiguityItem) : view EntitiesMsg :=
  El "div" []
    [Chrome [El "Link" [Attr "href" "/entities/ambiguity"] [Text "Ambiguity queue"; Tag ToneWarning (num (js_length items))];
             El "Button" [OnClick AddEntity] [Text "Add entity"]];
     AdminShell "wide"
       [AdminHeading "Entities" (Some "The things the company cares about — resolved from the corpus and kept canonical across sources.");
        StatBar
          [stat "Entities" (num (js_length entities)) "canonical store";
           stat "Resolved" (num (count (λ e, en_status e === Canonical) entities)) "confident";
           stat "Ambiguous" (num (count (λ e, en_status e === Ambiguous) entities)) "need review";
           stat "Types" (num (js_length (set_of (map (λ e, entity_type (en_type e)) entities)))) "distinct"];
        Section_ "Entity store" (Some (js_length entities)) []
          [TableCard (HeadRow [Th "Entity"; Th "Type"; Th "Mentions"; Th "Sources"; Th "Aliases"; Th "Status"] ::
                      map store_row entities)]]].

Inductive AmbiguityMsg := Assign (surface name container : string) | CreateEntity (surface : string).
Definition ambiguity_effects (m : AmbiguityMsg) : list effect :=
  match m with
  | Assign s n c => [Toast "success" "Resolved" ("“" +:+ s +:+ "” → " +:+ n +:+ ". Learned a prior for " +:+ c +:+ ".")]
  | CreateEntity s => [Toast "default" "New entity" ("Create a canonical entity for “" +:+ s +:+ "”.")]
  end.

(** [Math.max(...scores)]: of no score, minus infinity. *)
Definition top_score (cs : list AmbiguityCandidate) : JsNumber :=
  fold_left (λ m c, Math_max m (cd_score c)) cs (Infinity true).

Definition candidate_row (item : AmbiguityItem) (c : AmbiguityCandidate) : view AmbiguityMsg :=
  let isTop := num_eq (cd_score c) (top_score (ai_candidates item)) in
  let pct := percent_text (percent (cd_score c)) in
  El "div" [Attr "key" (cd_name c)]
    [El "span" [] (Text (cd_name c) :: when isTop [Tag ToneInfo "likely"]);
     El "span" [Attr "class" (if isTop then "bg-primary" else "bg-muted-foreground/40"); Attr "width" pct] [];
     El "span" [] [Text pct];
     El "Button" [Attr "variant" (if isTop then "default" else "outline");
                  OnClick (Assign (ai_surface item) (cd_name c) (ai_container item))] [Text "Assign"]].

Definition ambiguity_card (item : AmbiguityItem) : view AmbiguityMsg :=
  El "div" [Attr "key" (ai_id item)]
    [El "div" [] [El "span" [] [Text ("“" +:+ ai_surface item +:+ "”")]; El "span" [] [Text (ai_container item)];
                  El "span" [] [Text (num (ai_mentions item) +:+ " mentions")]; El "span" [] [Text (ai_raisedAt item)]];
     El "div" [] (map (candidate_row item) (ai_candidates item));
     El "div" [] [El "span" [] [Text ("Resolving sets a prior for " +:+ ai_container item +:+ ".")];
                  El "button" [OnClick (CreateEntity (ai_surface item))] [Text "None of these — create entity"]]].

Definition AmbiguityQueuePage (items : list AmbiguityItem) : view AmbiguityMsg :=
  AdminShell "wide"
    [AdminHeading "Ambiguity queue"
       (Some "Where the system couldn't confidently resolve a reference. Resolving here teaches a prior for that source.");
     StatBar
       [stat "Open" (num (js_length items)) "awaiting a human";
        stat "Affected" (num (fold_left (λ n i, n + ai_mentions i) items 0)) "mentions"; stat "Oldest" "2 days" "in queue"];
     El "div" [] (map ambiguity_card items)].

(** ** Usage *)

Record Limit := mkLimit { li_label : string; li_used : string; li_pct : JsNumber }.

Inductive UsageMsg := ExportUsage | ManagePlan.
Definition usage_effects (m : UsageMsg) : list effect :=
  match m with
  | ExportUsage => [Toast "default" "Preparing export" "Usage report · CSV. We'll email a link."]
  | ManagePlan => [Toast "default" "Plans" "Compare Scale and Enterprise tiers."]
  end.

Definition usage_limits (u : UsageData) : list Limit :=
  [mkLimit "LLM tokens" (fmtCount (us_tokens u).1 +:+ " / " +:+ fmtCount (us_tokens u).2)
     (div (int (us_tokens u).1) (int (us_tokens u).2));
   mkLimit "Storage" ((us_usedGb u).1 +:+ " / " +:+ num (us_limitGb u) +:+ " GB") (div (us_usedGb u).2 (int (us_limitGb u)));
   mkLimit "Seats" (num (us_seats u).1 +:+ " / " +:+ num (us_seats u).2) (div (int (us_seats u).1) (int (us_seats u).2));
   mkLimit "Connector syncs" (fmtCount (us_syncs u).1 +:+ " / " +:+ fmtCount (us_syncs u).2)
     (div (int (us_syncs u).1) (int (us_syncs u).2))].

(** [Math.max(...USAGE_TREND.map((m) => m.tokens))]. *)
Definition peak (trend : list (string * (string * JsNumber))) : JsNumber :=
  fold_left (λ m x, Math_max m x.2.2) trend (Infinity true).

Definition trend_bar (trend : list (string * (string * JsNumber))) (i : nat) (m : string * (string * JsNumber)) : view UsageMsg :=
  let last := i === (length trend - 1)%nat in
  El "div" [Attr "key" m.1]
    [El "span" [] [Text (m.2.1 +:+ "M")];
     El "span" [Attr "class" (if last then "bg-primary" else "bg-muted-foreground/25");
                Attr "height" (percent_text (Math_round (mul (div m.2.2 (peak trend)) (int 100))))] [];
     El "span" [] [Text m.1]].

Definition limit_row (l : Limit) : view UsageMsg :=
  let pct := percent (li_pct l) in
  AdminRow None
    [Td [Text (li_label l)];
     Td [El "span" [Attr "class" (if le (int 80) pct then "bg-warning" else "bg-success"); Attr "width" (percent_text pct)] [];
         El "span" [] [Text (percent_text pct)]];
     Td [Text (li_used l)]].

Definition UsagePage (u : UsageData) (trend : list (string * (string * JsNumber))) : view UsageMsg :=
  El "div" []
    [Chrome [El "Button" [OnClick ExportUsage] [Text "Export"]; El "Button" [OnClick ManagePlan] [Text "Manage plan"]];
     AdminShell "wide"
       [AdminHeading "Usage" (Some ("What this workspace is consuming against its contract — " +:+ us_plan u +:+ " plan, " +:+
                                    us_period u +:+ "."));
        StatBar
          [stat "Plan" (us_plan u) (us_period u); stat "Tokens" (fmtCount (us_tokens u).1) ("of " +:+ fmtCount (us_tokens u).2);
           stat "Storage" ((us_usedGb u).1 +:+ "GB") ("of " +:+ num (us_limitGb u) +:+ "GB");
           stat "Seats" (num (us_seats u).1) ("of " +:+ num (us_seats u).2)];
        Section_ "Token spend" None []
          [El "div" []
             [El "div" [] (imap (trend_bar trend) trend);
              El "div" [] [El "span" [] [Text ("Query " +:+ fmtCount (us_query u))];
                           El "span" [] [Text ("Build " +:+ fmtCount (us_build u))]]]];
        Section_ "Limits" (Some (js_length (usage_limits u))) []
          [TableCard (HeadRow [Th "Resource"; Th "Utilization"; Th "Used"] :: map limit_row (usage_limits u))]]].

(** ** Sources *)

Inductive SourcesMsg := SyncAll | ChooseConnector | Connecting (name : string).
Definition sources_effects (m : SourcesMsg) : list effect :=
  match m with
  | SyncAll => [Toast "default" "Sync started" "Re-pulling from all connected sources."]
  | ChooseConnector => [Toast "default" "Choose a connector below to get started." ""]
  | Connecting n => [Toast "default" ("Connecting " +:+ n +:+ "…") "You'll be sent to authorize access."]
  end.

(** [HEALTH]: tone, label, pulse. *)
Definition SOURCE_HEALTH (h : SourceHealth) : Tone * string * bool :=
  match h with
  | Synced => (ToneSuccess, "Synced", false) | Syncing => (ToneInfo, "Syncing…", true)
  | AuthLapse => (ToneWarning, "Auth expired", false) | Failed => (ToneDestructive, "Failed", false)
  end.

Definition MODE (kind : string) : option string :=
  if kind === "slack" then Some "Stream" else if kind === "github" then Some "Stream"
  else if kind === "notion" then Some "Poll · 15m" else if kind === "jira" then Some "Poll · 15m"
  else if kind === "gdrive" then Some "Poll · 1h" else None.

Definition CONNECTED : list string := ["slack"; "notion"; "jira"; "github"; "drive"].

Definition connected_row (s : Source) : view SourcesMsg :=
  let '(tone, label, pulse) := SOURCE_HEALTH (so_health s) in
  AdminRow (Some "#")
    [Td [ConnectorTile (so_color s) (so_letter s); El "span" [] [Text (so_name s)]];
     Td [Text (MODE (so_kind s) ?? "Poll")];
     Num (if so_artifacts s =? 0 then "—" else fmtCount (so_artifacts s));
     Num (if so_containers s =? 0 then "—" else num (so_containers s));
     Td [Dot tone pulse; El "span" [] [Text label]];
     Td [Text (so_lastSync s)]].

Definition offered (catalog : list CatalogConnector) : list CatalogConnector :=
  List.filter (λ c, negb (existsb (λ i, i === cc_id c) CONNECTED)) catalog.

Definition connector_button (c : CatalogConnector) : view SourcesMsg :=
  El "button" [Attr "key" (cc_id c); OnClick (Connecting (cc_name c))]
    [ConnectorTile (cc_color c) (cc_letter c); El "span" [] [Text (cc_name c)]; El "span" [] [Text (cc_category c)]].

Definition SourcesPage (sources : list Source) (catalog : list CatalogConnector) : view SourcesMsg :=
  let healthy_count := count (λ s, (so_health s === Synced) || (so_health s === Syncing)) sources in
  let artifacts := fold_left (λ n s, n + so_artifacts s) sources 0 in
  let needsAttention := count (λ s, (so_health s === Failed) || (so_health s === AuthLapse)) sources in
  El "div" []
    [Chrome [El "Button" [OnClick SyncAll] [Text "Sync all"]; El "Button" [OnClick ChooseConnector] [Text "Connect source"]];
     AdminShell "wide"
       [AdminHeading "Sources" (Some "The systems your knowledge already lives in, and the health of their ingestion.");
        StatBar
          [stat "Connected" (num (js_length sources)) (num healthy_count +:+ " healthy");
           stat "Artifacts" (fmtCount artifacts) "ingested";
           stat "Needs attention" (num needsAttention) (if needsAttention =? 0 then "all clear" else "review below");
           stat "Last sync" "2 min" "ago"];
        Section_ "Connected" (Some (js_length sources)) []
          [TableCard (HeadRow [Th "Source"; Th "Mode"; Th "Artifacts"; Th "Channels"; Th "Health"; Th "Last sync"] ::
                      map connected_row sources)];
        Section_ "Available connectors" (Some (js_length catalog)) []
          [El "div" [] (map connector_button (offered catalog))]]].

(** ** Settings and account

    The tabs are the UI kit's: the state is the value of the selected one, whose content alone
    is shown. Inputs and switches are uncontrolled: they start with what is given here. *)

Inductive TabsMsg := SelectTab (v : string) | ShowToast (kind msg description : string).
#[export] Instance tabs_update : Machine string TabsMsg effect := λ s m,
  match m with
  | SelectTab v => (v, [])
  | ShowToast k t d => (s, [Toast k t d])
  end.

Section Tabs.
Implicit Types kids : list (view TabsMsg).

Definition Tabs_list (tabs : list (string * string)) (s : string) : view TabsMsg :=
  El "TabsList" [] (map (λ '(v, l), El "TabsTrigger" [OnClick (SelectTab v); BoolAttr "active" (s === v)] [Text l]) tabs).
Definition TabsContent (value s : string) kids : list (view TabsMsg) := when (s === value) kids.

Definition Card kids : view TabsMsg := El "div" [] kids.
(** [SettingRow] of settings, [Row] of account. *)
Definition SettingRow (label description : string) kids : view TabsMsg :=
  El "div" []
    [El "div" [] (El "div" [] [Text label] :: when (truthy description) [El "div" [] [Text description]]);
     El "div" [] kids].
Definition toast_button (label kind msg description : string) : view TabsMsg :=
  El "Button" [OnClick (ShowToast kind msg description)] [Text label].
Definition Locked (s : string) : view TabsMsg := Badge (TONE_VARIANT ToneMuted) s.

Definition SETTINGS_TABS : list (string * string) :=
  [("workspace", "Workspace"); ("residency", "Residency"); ("security", "Security"); ("data", "Data")].

(** A region that is not found leaves the template's holes [undefined]: React renders nothing there. *)
Definition region_text (regions : list ProtoRegion) (org : MockOrg) : string :=
  match List.find (λ r, pg_id r === og_region org) regions with
  | Some r => pg_flag r +:+ " " +:+ pg_city r +:+ " · " +:+ pg_label r
  | None => "  · "
  end.

Definition workspace_tab (org : MockOrg) : view TabsMsg :=
  Card
    [SettingRow "Workspace name" "Shown across the app and in invitations." [El "Input" [Attr "defaultValue" (og_name org)] []];
     SettingRow "Workspace URL" "The slug in your workspace address." [Text "hivebook.app/"; El "span" [] [Text (og_slug org)]];
     SettingRow "Primary domain" "Verified email domain for SSO and invites." [Text (og_domain org)];
     SettingRow "Default access" "Chapters new members can read." [Tag ToneMuted "All chapters"]].

Definition residency_tab (regions : list ProtoRegion) (org : MockOrg) : view TabsMsg :=
  Card
    [SettingRow "Region" "Where this workspace's data is processed and stored." [Text (region_text regions org)];
     SettingRow "Data residency" "Region is fixed after setup; changing it requires migration." [Locked "Locked"];
     SettingRow "Encryption at rest" "AES-256 on all stored artifacts and summaries." [Tag ToneSuccess "Enabled"]].

Definition security_tab : view TabsMsg :=
  Card
    [SettingRow "Single sign-on" "SAML / OIDC via your identity provider."
       [Tag ToneSuccess "Okta · SAML";
        toast_button "Configure" "default" "SSO configuration" "SAML metadata, attribute mapping, and enforcement."];
     SettingRow "Enforce SSO" "Require all members to sign in through SSO." [Tag ToneSuccess "On"];
     SettingRow "SCIM provisioning" "Sync members and deprovisioning from your IdP." [Tag ToneSuccess "Connected"];
     SettingRow "Customer-managed keys" "Bring your own KMS key (Enterprise)." [Locked "Enterprise"]].

Definition data_tab : list (view TabsMsg) :=
  [Card
     [SettingRow "Export workspace" "A full archive of the book and raw corpus."
        [toast_button "Request export" "default" "Preparing export" "A full archive. We'll email a link."];
      SettingRow "Suspend ingestion" "Pause all source syncing without losing data."
        [toast_button "Suspend" "default" "Ingestion suspended" "Syncing is paused. Resume any time."]];
   El "div" []
     [El "div" [] [Text "Danger zone"];
      El "div" []
        [SettingRow "Archive workspace" "Make it read-only and stop all processing."
           [toast_button "Archive" "warning" "Archive workspace?" "This makes everything read-only."];
         SettingRow "Delete workspace" "Permanently remove the book, corpus, and history."
           [toast_button "Delete" "error" "Delete workspace?" "This is permanent and cannot be undone."]]]].

(** [useState]'s initial value is the [defaultValue] of the tabs: workspace. *)
Definition SettingsPage (regions : list ProtoRegion) (org : MockOrg) (s : string) : view TabsMsg :=
  AdminShell "reading"
    ([AdminHeading "Settings" (Some "Workspace configuration, security, and data lifecycle."); Tabs_list SETTINGS_TABS s] ++
     TabsContent "workspace" s [workspace_tab org] ++ TabsContent "residency" s [residency_tab regions org] ++
     TabsContent "security" s [security_tab] ++ TabsContent "data" s data_tab).

Record Notification := mkNotification { nt_id : string; nt_label : string; nt_description : string; nt_on : bool }.
Definition NOTIFICATIONS : list Notification :=
  [mkNotification "digest" "Weekly digest" "A summary of what changed in your chapters." true;
   mkNotification "mentions" "Mentions" "When you're named in a review or comment." true;
   mkNotification "rebuilds" "Rebuild completed" "When a summary you requested finishes rebuilding." false;
   mkNotification "proposals" "Review proposals" "When the system parks a structural decision." false].

Record AccountSession := mkAccountSession {
  se_id : string; se_device : string; se_meta : string; se_time : string; se_current : bool }.
Definition SESSIONS : list AccountSession :=
  [mkAccountSession "s1" "Safari · macOS" "Washington DC · this device" "now" true;
   mkAccountSession "s2" "Safari · iOS" "Washington DC" "2 days ago" false;
   mkAccountSession "s3" "Chrome · Windows" "New York" "1 week ago" false].

Definition session_row (s : AccountSession) : view TabsMsg :=
  El "div" [Attr "key" (se_id s)]
    [El "span" [] [El "span" [] (Text (se_device s) :: when (se_current s) [Tag ToneSuccess "This device"]);
                   El "span" [] [Text (se_meta s)]];
     El "span" [] [Text (se_time s)]].

Definition ACCOUNT_TABS : list (string * string) :=
  [("profile", "Profile"); ("notifications", "Notifications"); ("security", "Security")].

Definition profile_tab (u : MockUser) : view TabsMsg :=
  Card
    [SettingRow "Avatar" "Shown next to your activity." [El "span" [] [Text (mu_initial u)]];
     SettingRow "Name" "Your display name across the workspace." [El "Input" [Attr "defaultValue" (mu_name u)] []];
     SettingRow "Email" "Managed by your identity provider." [Text (mu_email u)];
     SettingRow "Role" "Your permission level in this workspace." [Tag ToneInfo (mu_role u)]].

Definition notifications_tab : view TabsMsg :=
  Card (map (λ n, SettingRow (nt_label n) (nt_description n) [El "Switch" [BoolAttr "defaultChecked" (nt_on n)] []])
            NOTIFICATIONS).

Definition account_security_tab : list (view TabsMsg) :=
  [Card
     [SettingRow "Two-factor authentication" "Enforced through your identity provider." [Tag ToneSuccess "Via Okta"];
      SettingRow "Password" "Sign-in is handled by SSO; no password to manage." [Tag ToneMuted "SSO only"]];
   El "div" []
     [El "div" []
        [El "h2" [] [Text "Active sessions"];
         toast_button "Sign out all others" "success" "Signed out other sessions" "Only this device stays signed in."];
      El "div" [] (map session_row SESSIONS)]].

Definition AccountPage (u : MockUser) (s : string) : view TabsMsg :=
  AdminShell "reading"
    ([AdminHeading "Account" (Some "Your personal settings — separate from the workspace."); Tabs_list ACCOUNT_TABS s] ++
     TabsContent "profile" s [profile_tab u] ++ TabsContent "notifications" s [notifications_tab] ++
     TabsContent "security" s account_security_tab).

End Tabs.

(** ** What the admin pages show of their data *)

Lemma blank_is_not_sent s : trim (me_email s) = "" → sendInvite s = (s, []).
Proof. intros H. unfold sendInvite. by rewrite H. Qed.

Lemma sent_form_is_cleared s : (sendInvite s).2 ≠ [] → sendInvite (sendInvite s).1 = ((sendInvite s).1, []).
Proof. unfold sendInvite. by destruct (truthy (trim (me_email s))). Qed.

(** A template granted to a chapter that the template's own list of chapters leaves out. *)
Definition granted_elsewhere : list (string * string) :=
  concat (map (λ c, map (pair (ca_chapterId c))
    (List.filter (λ id, match List.find (λ t, at_id t === id) ACCESS_TEMPLATES with
                        | Some t => match at_chapters t with
                                    | Some cs => negb (existsb (λ x, x === ca_chapterId c) cs) | None => false end
                        | None => true end) (ca_templates c))) CHAPTER_ACCESS).
Example grants_disagree : granted_elsewhere = [("ch-cust", "at-everyone")].
Proof. vm_compute. reflexivity. Qed.

(** The heading counts the catalogue; the list leaves the connected sources out. *)
Example connectors_counted_but_not_offered : (length connectors, length (offered connectors)) = (20, 15)%nat.
Proof. vm_compute. reflexivity. Qed.
