(* ===== verification/Walkthrough.v ===== *)
(** * The shell, the onboarding walkthrough and the index of the prototype

    Models [prototype/components/app/spine.tsx], [chrome.tsx] and [app/(app)/layout.tsx];
    the onboarding of the prototype ([components/onboarding/*.tsx], [app/onboarding]), whose
    steps are those of [Onboarding] ([lib/onboarding-steps.ts] is the same file in both
    programs); the end pages of the authentication group; and the index page. *)
From stdpp Require Import base list strings.
From Stdlib Require Import ZArith Lia Ascii.
From S2P Require Import Prelude JsString Proto View Nav Onboarding Book BookNav AuthFunnel Admin.
#[local] Open Scope string_scope.
#[local] Open Scope list_scope.
#[local] Open Scope Z_scope.

(** ** The spine *)

Record SpineItem := mkSpineItem { sn_label : string; sn_href : string; sn_icon : string }.

Definition KNOWLEDGE_ITEMS : list SpineItem :=
  [mkSpineItem "Ask" "/ask" "RiSparkling2Fill"; mkSpineItem "Book" "/book" "RiBook2Fill"].
Definition MANAGE_ITEMS : list SpineItem :=
  [mkSpineItem "Sources" "/sources" "RiLayoutGrid2Fill"; mkSpineItem "Entities" "/entities" "RiNodeTree";
   mkSpineItem "Review" "/review" "RiFileSearchFill"; mkSpineItem "Members" "/members" "RiTeamFill";
   mkSpineItem "Access" "/access" "RiShieldKeyholeFill"; mkSpineItem "Audit" "/audit" "RiFileList3Fill";
   mkSpineItem "Usage" "/usage" "RiBarChartFill"].
Definition SETTINGS_ITEM : SpineItem := mkSpineItem "Settings" "/settings" "RiSettings3Fill".

(** Whether the rail is wide, and the organization chosen in the profile menu. *)
Record SpineState := mkSpine { sp_expanded : bool; sp_org : string }.
Definition spine_init : SpineState := mkSpine false "hivebook-test".

Inductive SpineMsg :=
| RestoreSpine (cookie : string)
| ToggleSpine
| SpineKey (k : KeyPress)
| SetOrg (slug : string)
| InteractOutside (in_select : bool).

Section Spine.
Context `{Locale}.

(** The cookie and the shortcut are those of the web client: [Nav.toggle], [Nav.spine_onKey]
    and [Nav.restoreExpanded]. *)
#[export] Instance spine_step : Machine SpineState SpineMsg effect := λ s m,
  match m with
  | RestoreSpine cookie => (mkSpine (restoreExpanded cookie (sp_expanded s)) (sp_org s), [])
  | ToggleSpine => let '(e, fx) := toggle (sp_expanded s) in (mkSpine e (sp_org s), fx)
  | SpineKey k =>
      let '(e, fx) := spine_onKey (sp_expanded s) (metaKey k) (ctrlKey k) (key k) in (mkSpine e (sp_org s), fx)
  | SetOrg slug => (mkSpine (sp_expanded s) slug, [])
  | InteractOutside in_select => (s, when in_select [PreventDefault])
  end.

End Spine.

#[local] Abbreviation S := (view SpineMsg).

Definition spine_label (expanded : bool) (text : string) : S :=
  El "span" [BoolAttr "hidden" (negb expanded)] [Text text].

Definition spine_link (expanded : bool) (item : SpineItem) (active : bool) : S :=
  El "Tooltip" []
    [El "Link" (Attr "href" (sn_href item) :: when active [Attr "aria-current" "page"])
       [El (sn_icon item) [] []; spine_label expanded (sn_label item)];
     El "TooltipContent" [BoolAttr "hidden" expanded] [Text (sn_label item)]].

Definition SectionBreak (expanded : bool) (label : string) : S :=
  El "div" [] [El "span" [BoolAttr "hidden" (negb expanded)] [Text label]; El "span" [BoolAttr "hidden" expanded] []].

Definition spine_header (expanded : bool) : S :=
  if negb expanded then
    El "button" [OnClick ToggleSpine; Attr "aria-label" "Expand sidebar"] [El "RiSidebarUnfoldLine" [] []]
  else
    El "div" [] [El "Logo" [] []; El "button" [OnClick ToggleSpine; Attr "aria-label" "Collapse sidebar"] []].

Definition Notifications (expanded : bool) : S :=
  El "Tooltip" []
    [El "DropdownMenu" []
       [El "DropdownMenuTrigger" [] [spine_label expanded "Notifications"];
        El "DropdownMenuContent" [] [El "DropdownMenuLabel" [] [Text "Notifications"]; El "p" [] [Text "You're all caught up."]]];
     El "TooltipContent" [BoolAttr "hidden" expanded] [Text "Notifications"]].

Definition profile_menu (s : SpineState) : S :=
  El "DropdownMenu" []
    [El "DropdownMenuTrigger" [] [El "span" [] [Text (mu_initial mockUser)]; spine_label (sp_expanded s) (mu_name mockUser)];
     El "DropdownMenuContent" []
       [El "div" [] [El "p" [] [Text (mu_name mockUser)]; El "p" [] [Text (mu_email mockUser)]];
        El "div" []
          [El "p" [] [Text "Organization"];
           El "Select" [Attr "value" (sp_org s); OnChange SetOrg]
             (map (λ '(slug, (name, _)), El "SelectItem" [Attr "key" slug; OnClick (SetOrg slug)] [Text name]) mockTenants)];
        El "DropdownMenuItem" [] [El "Link" [Attr "href" "/account"] [Text "Account settings"]];
        El "DropdownMenuItem" [] [El "Link" [Attr "href" "/signed-out"] [Text "Sign out"]]]].

Definition app_spine (pathname : string) (s : SpineState) : S :=
  let link item := spine_link (sp_expanded s) item (isActive pathname (sn_href item)) in
  El "nav" [Attr "data-state" (if sp_expanded s then "expanded" else "collapsed")]
    ([spine_header (sp_expanded s)] ++ map link KNOWLEDGE_ITEMS ++
     [SectionBreak (sp_expanded s) "Manage"] ++ map link MANAGE_ITEMS ++
     [Notifications (sp_expanded s); link SETTINGS_ITEM; profile_menu s]).

(** ** The host of the page's actions ([chrome.tsx]) and the frame *)

Section Frame.
Context {M : Type}.

(** [ChromeActions]: nothing until the context bar has registered its host element. *)
Definition ChromeActions (host : bool) (kids : list (view M)) : list (view M) := when host kids.

Definition AppLayout (spine bar : view M) (panel : option (view M)) (children : view M) : view M :=
  El "div" []
    [spine; El "div" [] [bar; El "div" [] (match panel with Some p => [p] | None => [] end ++ [El "main" [] [children]])]].

End Frame.

(** ** The onboarding walkthrough *)

(** The store of the layout, the path, the step that is mounted, and the walkthrough's entries in the
    browser's history. While a step leaves ([AnimatePresence mode="wait"]) the path is
    already the next one's, and the layout keeps the leaving step mounted. *)
Record WalkState := mkWalk {
  wk_path : string; wk_page : string; wk_back : list string; wk_ahead : list string;
  wk_orgName : string; wk_orgSize : option string; wk_useCases : list string; wk_region : string }.

(** The layout mounts on a step with a fresh store. *)
Definition walk_mount `{Locale} (p : string) : WalkState :=
  mkWalk p p [] [] (orgNameFromEmail mock_email) None [] "us-east".
Definition walk_init `{Locale} : WalkState := walk_mount "/onboarding/organization".

Inductive WalkMsg :=
| SetOrgName (v : string)
| SelectOrgSize (id : string)
| SelectUseCase (id : string)
| SelectRegion (id : string)
| Continue
| Back
| BrowserBack
| BrowserForward
| ExitDone.

(** [router.push], taken to arrive at once. *)
Definition walk_to (p : option string) (s : WalkState) : WalkState * list effect :=
  match p with
  | Some p => (mkWalk p (wk_page s) (wk_path s :: wk_back s) [] (wk_orgName s) (wk_orgSize s) (wk_useCases s) (wk_region s),
               [RouterPush p])
  | None => (s, [Throws "router.push(null)"])
  end.

(** [orgName.trim().length > 0]: whatever the unit of length, the text is not empty. *)
Definition canContinue (s : WalkState) : bool := 0 <? Z.of_nat (String.length (trim (wk_orgName s))).

(** The handlers of the four steps: the mounted step has the controls, and they read the
    current path. The browser's buttons move in the history, within the walkthrough; beyond its
    entries they unmount the layout, which ends the run. *)
#[export] Instance walk_update : Machine WalkState WalkMsg effect := λ s m,
  let '(mkWalk path page back ahead name size areas region) := s in
  let on p := page === ("/onboarding/" +:+ p) in
  let store := mkWalk path page back ahead in
  match m with
  | SetOrgName v => (if on "organization" then store v size areas region else s, [])
  | SelectOrgSize id =>
      (if on "organization" then store name (if size === Some id then None else Some id) areas region else s, [])
  | SelectUseCase id => (if on "use-case" then store name size (js_toggle areas id) region else s, [])
  | SelectRegion id => (if on "region" then store name size areas id else s, [])
  | Continue =>
      if (on "organization" && canContinue s) || on "use-case" || on "region" then walk_to (nextPath path) s else (s, [])
  | Back => if on "use-case" || on "region" then walk_to (prevPath path) s else (s, [])
  | BrowserBack =>
      (match back with q :: back' => mkWalk q page back' (path :: ahead) name size areas region | [] => s end, [])
  | BrowserForward =>
      (match ahead with q :: ahead' => mkWalk q page (path :: back) ahead' name size areas region | [] => s end, [])
  | ExitDone => (mkWalk path path back ahead name size areas region, [])
  end.

(** *** The slug of the workspace *)

Definition slug_char (a : ascii) : bool :=
  let n := nat_of_ascii a in ((97 <=? n) && (n <=? 122) || (48 <=? n) && (n <=? 57))%nat.
Definition dash : ascii := "-"%char.

(** [replace(/[^a-z0-9]+/g, "-")]: [run] inside a run that has been replaced. A character
    above ASCII is several bytes, all of them in the same run. *)
Fixpoint dash_runs (run : bool) (l : list ascii) : list ascii :=
  match l with
  | [] => []
  | a :: l' => if slug_char a then a :: dash_runs false l' else if run then dash_runs true l' else dash :: dash_runs true l'
  end.

(** [replace(/^-+|-+$/g, "")]. *)
Fixpoint drop_dashes (l : list ascii) : list ascii :=
  match l with a :: l' => if bool_decide (a = dash) then drop_dashes l' else l | [] => [] end.
Definition strip_dashes (l : list ascii) : list ascii := rev (drop_dashes (rev (drop_dashes l))).

Definition slug_bytes (l : list ascii) : list ascii := strip_dashes (dash_runs false l).
Definition slugify `{Locale} (s : string) : string :=
  String.string_of_list_ascii (slug_bytes (String.list_ascii_of_string (trim (toLowerCase s)))).

Example slugify_example : slugify "  Acme, Inc. & Söhne -- 2 " = "acme-inc-s-hne-2".
Proof. vm_compute. reflexivity. Qed.

(** *** The pages *)

#[local] Abbreviation W := (view WalkMsg).

Definition walk_field (label hint : string) (kids : list W) : W :=
  El "div" [] (El "label" [] [Text label] :: kids ++ when (truthy hint) [El "p" [] [Text hint]]).

Record WalkOption := mkWalkOption { wo_id : string; wo_label : string; wo_detail : option string }.

Definition option_grid (options : list WalkOption) (selected : string → bool) (onSelect : string → WalkMsg) : W :=
  El "div" [] (map (λ o, let on := selected (wo_id o) in
    El "button" [Attr "key" (wo_id o); BoolAttr "aria-pressed" on; OnClick (onSelect (wo_id o))]
      (El "span" [] [Text (wo_label o)] :: when (otruthy (wo_detail o)) [El "span" [] [Text (wo_detail o ?? "")]] ++
       [El "RiCheckLine" [Attr "class" (if on then "text-primary" else "text-transparent")] []])) options).

Definition walk_shell (pathname : string) (secondary primary : list W) (kids : list W) : W :=
  let step := currentStep pathname in
  El "div" []
    ([El "div" [] (El "h1" [] (match step with Some s => [Text (step_title s)] | None => [] end) ::
                   when (otruthy (step ≫= step_why)) [El "p" [] [Text ((step ≫= step_why) ?? "")]]);
      El "div" [] kids] ++
     when ((0 <? js_length secondary) || (0 <? js_length primary)) [El "div" [] [El "div" [] secondary; El "div" [] primary]]).

Definition walk_back : W := El "Button" [OnClick Back] [Text "Back"].
Definition walk_continue (disabled : bool) : W :=
  El "Button" [OnClick Continue; BoolAttr "disabled" disabled] [Text "Continue"; El "PlayGlyph" [] []].

Definition walk_sizes : list WalkOption :=
  map (λ '(i, l), mkWalkOption i l None)
    [("1-10", "1 – 10"); ("11-50", "11 – 50"); ("51-200", "51 – 200"); ("201-500", "201 – 500");
     ("501-2000", "501 – 2,000"); ("2001-5000", "2,001 – 5,000"); ("5000+", "5,000+")].
Definition walk_areas : list WalkOption :=
  map (λ '(i, l), mkWalkOption i l None)
    [("support", "Customer support knowledge"); ("engineering", "Engineering runbooks & incidents");
     ("product", "Product decisions & specs"); ("sales", "Sales playbooks & objection handling");
     ("operations", "Operational policies & SOPs"); ("people", "People onboarding & policies");
     ("finance", "Finance approvals & exceptions"); ("security", "Security & incident response");
     ("compliance", "Compliance & legal"); ("marketing", "Brand voice & marketing rules");
     ("other", "Something else")].

Definition organization_page `{Locale} (s : WalkState) : W :=
  let slug := slugify (wk_orgName s) ||| "your-workspace" in
  walk_shell (wk_path s) [] [walk_continue (negb (canContinue s))]
    [El "div" []
       [walk_field "Organization name" ("Your workspace will live at hivebook.co/" +:+ slug)
          [El "Input" [Attr "id" "org"; BoolAttr "data-autofocus" true; Attr "value" (wk_orgName s); OnChange SetOrgName] []];
        walk_field "Company size" "" [option_grid walk_sizes (λ id, wk_orgSize s === Some id) SelectOrgSize]]].

Definition use_case_page (s : WalkState) : W :=
  walk_shell (wk_path s) [walk_back] [walk_continue false]
    [option_grid walk_areas (includes (wk_useCases s)) SelectUseCase].

Definition region_options (regions : list ProtoRegion) : list WalkOption :=
  map (λ r, mkWalkOption (pg_id r) (pg_country r)
              (Some (pg_city r +:+ " · " +:+ pg_label r +:+ (if pg_recommended r then " · Recommended" else ""))))
    (js_sort (λ a b, Number (pg_recommended b) - Number (pg_recommended a)) regions).

Definition region_page (s : WalkState) : W :=
  walk_shell (wk_path s) [walk_back] [walk_continue false]
    [option_grid (region_options proto_regions) (λ id, wk_region s === id) SelectRegion].

Definition NEXT_STEPS : list (string * (string * string)) :=
  [("Connect your first source", ("Slack, Notion, GitHub… ingestion starts the moment you do.", "/sources"));
   ("Set chapter access", ("Decide who can read what.", "#"));
   ("Invite your team", ("Bring the people who'll use it.", "#"))].

Definition complete_page (s : WalkState) : W :=
  let n := js_length (wk_useCases s) in
  walk_shell (wk_path s) [] [El "Button" [BoolAttr "asChild" true] [El "Link" [Attr "href" "/book"] [Text "Open your workspace"]]]
    [El "div" []
       [El "p" [] [Text ((wk_orgName s ||| "Your workspace") +:+ " is ready" +:+
          (if n =? 0 then "" else ", with " +:+ num n +:+ " area" +:+ (if 1 <? n then "s" else "") +:+ " to organize") +:+
          ". Connect a source to start filling it in.")];
        El "div" [] (map (λ '(t, (d, h)), El "Link" [Attr "key" t; Attr "href" h] [El "p" [] [Text t]; El "p" [] [Text d]])
                       NEXT_STEPS)]].

Definition workspace_switcher : W :=
  El "DropdownMenu" []
    [El "DropdownMenuTrigger" [] [El "span" [] [Text (first_char (og_name mockOrg))]; El "span" [] [Text (og_name mockOrg)]];
     El "DropdownMenuContent" []
       (El "DropdownMenuLabel" [] [Text "Workspaces"] ::
        map (λ '(slug, (name, (role, _))), El "DropdownMenuItem" [Attr "key" slug]
               ([El "span" [] [Text (first_char name)]; El "span" [] [Text name]; El "span" [] [Text role]] ++
                when (slug === og_slug mockOrg) [El "RiCheckLine" [] []])) mockTenants ++
        [El "DropdownMenuItem" [] [Text "Create workspace"]; El "DropdownMenuItem" [] [Text "Join workspace"]])].

Definition topbar_profile : W :=
  El "DropdownMenu" []
    [El "DropdownMenuTrigger" [] [Text (mu_initial mockUser)];
     El "DropdownMenuContent" []
       [El "div" [] [El "p" [] [Text (mu_name mockUser)]; El "p" [] [Text (mu_email mockUser)]];
        El "DropdownMenuItem" [] [Text "Settings"];
        El "DropdownMenuItem" [] [El "Link" [Attr "href" "/signed-out"] [Text "Sign out"]]]].

Definition walk_topbar (picker : list W) : W :=
  El "header" [] [El "div" [] [El "Logo" [Attr "variant" "mark"] []; workspace_switcher]; El "div" [] (picker ++ [topbar_profile])].

Definition walk_page `{Locale} (s : WalkState) : W :=
  let p := wk_page s in
  if p === "/onboarding/organization" then organization_page s
  else if p === "/onboarding/use-case" then use_case_page s
  else if p === "/onboarding/region" then region_page s
  else if p === "/onboarding/complete" then complete_page s
  else El "NotFound" [] [].

(** [OnboardingLayout]; the style picker is [Accent.StylePicker]. *)
Definition walk_layout `{Locale} (picker : list W) (s : WalkState) : W :=
  El "div" []
    [walk_topbar picker;
     El "div" [] [El "div" [Attr "width" (num (QArith_base.Qnum (progress (wk_path s)) * 100 /
                                               Z.pos (QArith_base.Qden (progress (wk_path s)))) +:+ "%")] []];
     El "main" [] [El "motion.div" [Attr "key" (wk_page s)] [walk_page s]]].

(** ** The end pages of the authentication group *)

#[local] Abbreviation A := (view FunnelMsg).

Definition AuthErrorPage : A :=
  AuthShell
    [AuthCard
       [AuthCardHeader "We couldn't sign you in"
          [Text "Something went wrong on our end. Try again, or use another method."];
        El "div" []
          [El "Link" [Attr "href" "/sign-in"] [El "Button" [] [Text "Back to sign-in"]];
           El "Link" [Attr "href" "/forgot-password"] [El "Button" [] [Text "Reset your password"]]];
        El "div" []
          [El "p" [] [Text "Reference ID"]; El "p" [] [Text "err_4f8a92e1c0d4b6e8"];
           El "p" [] [Text "If you contact support, including this ID will help us find the problem quickly."]]];
     El "div" [] [Text "Need help? "; El "Link" [Attr "href" "#"] [Text "Contact support"]]].

Definition end_page (title subtitle label note : string) : A :=
  AuthShell
    [AuthCard
       [AuthCardHeader title [Text subtitle];
        El "Link" [Attr "href" "/sign-in"] [El "Button" [Attr "type" "submit"] [Text label]];
        El "p" [] [Text note]]].
Definition SessionExpiredPage : A :=
  end_page "Your session expired"
    "We sign you out after a period of inactivity. Sign in to continue where you left off."
    "Sign in again" "Your draft work has been saved.".
Definition ProtoSignedOutPage : A :=
  end_page "You're signed out" "We've ended your session on this device." "Sign back in"
    "On a shared computer? Close the browser too.".

(** ** The index *)

Record IndexPage := mkPage { ip_href : string; ip_label : string; ip_detail : string }.
Record IndexGroup := mkGroup { ig_title : string; ig_description : string; ig_pages : list IndexPage }.

Definition index_groups : list IndexGroup :=
  [mkGroup "Application"
     "The signed-in app — dense, engineered chrome. Book reading is real; admin surfaces are navigable stubs for now."
     [mkPage "/book" "Book home" "Chapters + recently updated, with the cold-start state.";
      mkPage "/book/s-eu-vat" "Entry — sub-topic" "Summary with inline citations → source-span drawer.";
      mkPage "/book/t-refunds" "Entry — topic" "Summary + child sub-topics.";
      mkPage "/book/ch-cust" "Entry — building" "Cold-start empty chapter.";
      mkPage "/ask" "Ask" "Cited answers (stub). ⌘K also asks.";
      mkPage "/sources" "Sources" "Connector health (stub).";
      mkPage "/members" "Members" "Roles + invites (stub).";
      mkPage "/access" "Access" "Chapter ACL + templates (stub).";
      mkPage "/entities" "Entities" "Entity store (stub).";
      mkPage "/entities/ambiguity" "Ambiguity queue" "Resolve ambiguous entities (stub).";
      mkPage "/review" "Review" "Structural proposals + unfiled (stub).";
      mkPage "/audit" "Audit log" "Read/write events (stub).";
      mkPage "/usage" "Usage" "Metering (stub).";
      mkPage "/settings" "Settings" "Workspace, security, data (stub).";
      mkPage "/account" "Account" "Personal settings (stub)."];
   mkGroup "Authentication"
     "One email-first door: SSO or work email, then verify or password, and the dead-end states."
     [mkPage "/sign-in" "Sign in" "Front door — SSO providers, or work email. Known email → password, new → verify.";
      mkPage "/enter-password" "Enter password" "Returning user — password, with an email-me-a-code escape hatch.";
      mkPage "/verify-email" "Verify email (OTP)" "6-digit code; routes by ?flow (signup · login · reset).";
      mkPage "/set-password" "Set password" "Create (default) or reset (?mode=reset) — strength rules + confirm.";
      mkPage "/forgot-password" "Forgot password" "Request a code by email, then set a new password.";
      mkPage "/sso/callback" "SSO callback" "Animated multi-step loading state.";
      mkPage "/signed-out" "Signed out" "Post sign-out confirmation.";
      mkPage "/session-expired" "Session expired" "Timed-out session message.";
      mkPage "/error" "Auth error" "Generic failure with reference ID."];
   mkGroup "Onboarding"
     "Short, focused walkthrough — one question per screen, no skips."
     [mkPage "/onboarding/organization" "Step 1 — Organization" "Name (pre-filled) + company size.";
      mkPage "/onboarding/use-case" "Step 2 — What it's for" "Operational areas → starting chapters.";
      mkPage "/onboarding/region" "Step 3 — Region" "Storage cluster, recommended pre-selected.";
      mkPage "/onboarding/complete" "Complete" "Ready + next steps (connect a source in the app)."]].

Definition PrototypeIndex : view unit :=
  El "div" []
    [El "header" [] [El "Logo" [] []; El "span" [] [Text "PROTOTYPE INDEX"]];
     El "main" []
       [El "h1" [] [Text "Hivebook frontend prototype"];
        El "div" [] (map (λ g, El "section" [Attr "key" (ig_title g)]
          [El "header" [] [El "h2" [] [Text (ig_title g)]; El "p" [] [Text (ig_description g)]];
           El "ul" [] (map (λ p, El "li" [Attr "key" (ip_href p)]
             [El "Link" [Attr "href" (ip_href p)]
                [El "code" [] [Text (ip_href p)]; El "span" [] [Text (ip_label p)]; El "span" [] [Text (ip_detail p)]]])
             (ig_pages g))]) index_groups)]].

(** Every entry the index links to is in the book. *)
Example index_entries_exist :
  forallb (λ p, match drop_prefix "/book/" (ip_href p) with
                | Some id => bool_decide (is_Some (getEntry BOOK id))
                | None => true
                end) (concat (map ig_pages index_groups)) = true.
Proof. vm_compute. reflexivity. Qed.

(** ** The slug is a canonical name *)

(** Split at every character that is neither a lower-case letter nor a digit, and the
    parts that are not empty. *)
Fixpoint fields (l : list ascii) : list (list ascii) :=
  match l with
  | [] => [[]]
  | a :: l' =>
      if slug_char a then match fields l' with w :: ws => (a :: w) :: ws | [] => [[a]] end else [] :: fields l'
  end.
Definition nonempty (w : list ascii) : bool := match w with [] => false | _ => true end.
Definition words (l : list ascii) : list (list ascii) := List.filter nonempty (fields l).

Fixpoint dashed (ws : list (list ascii)) : list ascii :=
  match ws with
  | [] => []
  | w :: ws' => match ws' with [] => w | _ => w ++ dash :: dashed ws' end
  end.

Definition word (w : list ascii) : Prop := w ≠ [] ∧ Forall (λ a, slug_char a = true) w.

Lemma fields_cons l : ∃ w ws, fields l = w :: ws.
Proof. destruct l as [|a l]; [by eexists _, _|]. cbn. destruct (slug_char a); [|by eexists _, _]. destruct (fields l); by eexists _, _. Qed.

Lemma fields_ok l : Forall (Forall (λ a, slug_char a = true)) (fields l).
Proof.
  induction l as [|a l IH]; cbn; [by repeat constructor|]. destruct (slug_char a) eqn:Ha; [|by constructor].
  destruct (fields_cons l) as (w & ws & Hf). rewrite Hf in *. inversion_clear IH. by repeat constructor.
Qed.

Lemma words_ok l : Forall word (words l).
Proof.
  pose proof (fields_ok l) as H. unfold words. induction H as [|w ws Hw Hws IH]; cbn; [constructor|].
  destruct w; cbn; [done|]. by constructor.
Qed.

(** A pass over the text yields its words, perhaps between two dashes. *)
Lemma dash_runs_words l : ∃ t, (t = [] ∨ t = [dash]) ∧ (words l = [] → t = []) ∧
  dash_runs true l = dashed (words l) ++ t.
Proof.
  induction l as [|a l (t & Ht & Ht0 & IH)]; [by exists []; auto|].
  cbn [dash_runs]. unfold words in *. cbn [fields]. destruct (slug_char a) eqn:Ha; [|by exists t].
  destruct (fields_cons l) as (w & ws & Hf). rewrite Hf in *. cbn [List.filter nonempty] in *.
  destruct l as [|b l].
  - injection Hf as <- <-. exists []. by auto.
  - cbn [dash_runs] in *. cbn [fields] in Hf. destruct (slug_char b).
    + destruct (fields l) as [|w0 ws0]; injection Hf as <- <-; cbn [nonempty] in *; exists t; (split; [done|]); (split; [done|]);
        rewrite IH; by destruct (List.filter nonempty _).
    + injection Hf as <- <-. cbn [nonempty] in *. destruct (List.filter nonempty (fields l)) as [|v vs] eqn:Hv.
      * exists [dash]. split; [by right|]. split; [done|]. rewrite IH, Ht0 by done. done.
      * exists t. split; [done|]. split; [done|]. by rewrite IH.
Qed.

Lemma dash_runs_lead l : ∃ p, (p = [] ∨ p = [dash]) ∧ dash_runs false l = p ++ dash_runs true l.
Proof.
  destruct l as [|a l]; [by exists []; auto|]. cbn. destruct (slug_char a); [by exists []; auto|by exists [dash]; auto].
Qed.

Lemma not_dash a : slug_char a = true → a ≠ dash.
Proof. by intros H ->. Qed.

Lemma dashed_ends ws : Forall word ws → ws ≠ [] →
  (∃ a l, dashed ws = a :: l ∧ slug_char a = true) ∧ (∃ l b, dashed ws = l ++ [b] ∧ slug_char b = true).
Proof.
  induction 1 as [|w ws [Hw Hok] Hws IH]; [done|]. intros _.
  assert (Hhead : ∃ a l, w = a :: l ∧ slug_char a = true).
  { destruct Hok as [|a l Ha _]; [done|by exists a, l]. }
  destruct Hhead as (a & l & -> & Ha). split.
  - destruct ws; cbn; eauto.
  - destruct ws as [|v ws].
    + cbn. destruct (exists_last Hw) as (l' & b & Heq). exists l', b. split; [done|].
      rewrite Heq in Hok. apply Forall_app in Hok as [_ Hb]. by inversion Hb.
    + destruct IH as [_ (l' & b & Heq & Hb)]; [done|]. exists ((a :: l) ++ dash :: l'), b. split; [|done].
      cbn [dashed] in *. rewrite Heq. by rewrite <-app_assoc.
Qed.

Lemma drop_dashes_at p a l : (p = [] ∨ p = [dash]) → slug_char a = true → drop_dashes (p ++ a :: l) = a :: l.
Proof.
  intros [->| ->] Ha%not_dash; cbn; repeat (rewrite ?bool_decide_eq_true_2 by done; rewrite ?bool_decide_eq_false_2 by done); done.
Qed.

Lemma strip_dashes_between p t ws : Forall word ws → (p = [] ∨ p = [dash]) → (t = [] ∨ t = [dash]) → (ws = [] → t = []) →
  strip_dashes (p ++ dashed ws ++ t) = dashed ws.
Proof.
  intros Hws Hp Ht Ht0. destruct ws as [|w ws']; [rewrite Ht0 by done; by destruct Hp as [->| ->]|].
  destruct (dashed_ends (w :: ws') Hws ltac:(done)) as [(a & l & Ha & Hsa) (l' & b & Hb & Hsb)].
  unfold strip_dashes. rewrite Ha at 1. cbn [app]. rewrite drop_dashes_at by done.
  change (rev (drop_dashes (rev ((a :: l) ++ t))) = dashed (w :: ws')). rewrite <-Ha, Hb, !rev_app_distr. cbn [rev app].
  rewrite drop_dashes_at by (done || by destruct Ht as [->| ->]; auto). cbn [rev]. by rewrite rev_involutive.
Qed.

Lemma slug_bytes_words l : slug_bytes l = dashed (words l).
Proof.
  unfold slug_bytes. destruct (dash_runs_lead l) as (p & Hp & ->). destruct (dash_runs_words l) as (t & Ht & Ht0 & ->).
  by apply strip_dashes_between; [apply words_ok|..].
Qed.

Lemma fields_word w r : Forall (λ a, slug_char a = true) w →
  fields (w ++ dash :: r) = w :: fields r ∧ fields w = [w].
Proof. induction 1 as [|a w Ha Hw [IH1 IH2]]; [done|]. cbn. rewrite Ha. cbn in IH1. by rewrite IH1, IH2. Qed.

Lemma words_dashed ws : Forall word ws → words (dashed ws) = ws.
Proof.
  unfold words. induction 1 as [|w ws [Hw Hok] Hws IH]; [done|]. cbn [dashed].
  destruct (fields_word w (dashed ws) Hok) as [H1 H2]. destruct ws as [|v ws].
  - rewrite H2. cbn. by destruct w.
  - rewrite H1. cbn [List.filter]. rewrite IH. by destruct w.
Qed.

(** A text that starts and ends with a letter or a digit has nothing to trim. *)
Lemma trim_tight l : l = [] ∨ (∃ a l', l = a :: l' ∧ slug_char a = true) ∧ (∃ l' b, l = l' ++ [b] ∧ slug_char b = true) →
  trim (String.string_of_list_ascii l) = String.string_of_list_ascii l.
Proof.
  intros [->|[(a & r & Ha & Hsa) (q & b & Hb & Hsb)]]; [reflexivity|].
  assert (Htok : ∀ ts, forallb (λ t, match t with x :: _ => negb (slug_char x) | [] => false end) ts = true →
    ∀ x r0, slug_char x = true → strip_any ts (x :: r0) = None).
  { intros ts Hts x r0 Hx. apply strip_any_None. intros t r' Ht Heq.
    rewrite forallb_forall in Hts. specialize (Hts t Ht). destruct t as [|y t]; [done|].
    injection Heq as <- _. by rewrite Hx in Hts. }
  unfold trim. rewrite String.list_ascii_of_string_of_list_ascii. f_equal.
  unfold trim_start. rewrite drop_tokens_id by (rewrite Ha; by apply Htok).
  unfold trim_end. rewrite drop_tokens_id by (rewrite Hb, rev_app_distr; by apply Htok). apply rev_involutive.
Qed.

Section Slug.
Context `{Locale} (lower_keeps : ∀ l, Forall (λ a, slug_char a = true ∨ a = dash) l →
  toLowerCase (String.string_of_list_ascii l) = String.string_of_list_ascii l).

Lemma dashed_chars ws : Forall word ws → Forall (λ a, slug_char a = true ∨ a = dash) (dashed ws).
Proof using Type.
  induction 1 as [|w ws [_ Hok] Hws IH]; [constructor|].
  assert (Hw : Forall (λ a, slug_char a = true ∨ a = dash) w) by (eapply Forall_impl; [exact Hok|by left]).
  cbn [dashed]. destruct ws; [done|]. apply Forall_app. split; [done|]. constructor; [by right|done].
Qed.

(** C14: the address of a workspace is canonical: the slug of a name is made of the
    name's words, its maximal runs of letters and digits once it is in lower case, in order
    and with one dash between two of them, nothing else, so it needs no escaping; and
    the slug of a slug is that slug, provided lower-casing leaves lower-case letters,
    digits and dashes alone. *)
Theorem slug_is_canonical name :
  let ws := words (String.list_ascii_of_string (trim (toLowerCase name))) in
  slugify name = String.string_of_list_ascii (dashed ws) ∧ Forall word ws ∧ slugify (slugify name) = slugify name.
Proof using lower_keeps.
  intros ws. assert (Hws : Forall word ws) by apply words_ok.
  assert (Hs : slugify name = String.string_of_list_ascii (dashed ws)).
  { unfold slugify. by rewrite slug_bytes_words. }
  split; [done|]. split; [done|]. rewrite Hs at 1. unfold slugify at 1.
  rewrite lower_keeps by by apply dashed_chars.
  rewrite trim_tight; [|destruct ws; [by left|right; by apply dashed_ends]].
  rewrite String.list_ascii_of_string_of_list_ascii, slug_bytes_words, words_dashed by done. by rewrite Hs.
Qed.

End Slug.

(** ** The walkthrough *)

Definition step_paths : list string := map (λ s, BASE +:+ "/" +:+ step_slug s) ONBOARDING_STEPS.

Section Walk.
Context `{Locale}.

(** Closed comparisons and steps are evaluated. *)
#[local] Ltac closed_steps :=
  repeat match goal with
  | |- context [?a === ?b] =>
      let v := eval vm_compute in (a === b) in
      match v with true => change (a === b) with true | false => change (a === b) with false end
  | |- context [nextPath ?p] => let v := eval vm_compute in (nextPath p) in change (nextPath p) with v
  | |- context [prevPath ?p] => let v := eval vm_compute in (prevPath p) in change (prevPath p) with v
  end.

(** Case analysis over the steps a path or page is one of. *)
#[local] Ltac each_step H := vm_compute in H; destruct H as [<-|[<-|[<-|[<-|[]]]]].

(** *** Any visitor *)

Definition on_steps (s : WalkState) : Prop :=
  In (wk_path s) step_paths ∧ In (wk_page s) step_paths ∧
  Forall (λ p, In p step_paths) (wk_back s) ∧ Forall (λ p, In p step_paths) (wk_ahead s) ∧ NoDup (wk_useCases s).

Lemma next_step p q : In p step_paths → nextPath p = Some q → In q step_paths.
Proof using Type. intros Hp. each_step Hp; vm_compute; intros [= <-]; tauto. Qed.
Lemma prev_step p q : In p step_paths → prevPath p = Some q → In q step_paths.
Proof using Type. intros Hp. each_step Hp; vm_compute; intros [= <-]; tauto. Qed.

Lemma walk_to_on_steps o s : on_steps s → (∀ q, o = Some q → In q step_paths) → on_steps (walk_to o s).1.
Proof using Type.
  intros (Hp & Hg & Hb & Ha & Hd) Ho. destruct o as [q|]; [|done].
  unfold on_steps. cbn [walk_to fst wk_path wk_page wk_back wk_ahead wk_useCases].
  split_and!; auto using Forall_nil_2, Forall_cons_2.
Qed.

Lemma walk_step_on_steps s m : on_steps s → on_steps (update s m).1.
Proof using Type.
  intros Hs. destruct s as [path page back ahead name size areas region]. pose proof Hs as (Hp & Hg & Hb & Ha & Hd).
  cbn [wk_path wk_page wk_back wk_ahead wk_useCases] in *.
  destruct m; unfold update, walk_update.
  - by destruct (_ === _).
  - by destruct (_ === _).
  - destruct (_ === _); [|done]. unfold on_steps. cbn [fst wk_path wk_page wk_back wk_ahead wk_useCases]. split_and!; auto using NoDup_js_toggle.
  - by destruct (_ === _).
  - destruct (_ || _); [|done]. apply walk_to_on_steps; [done|]. intros q. by apply next_step.
  - destruct (_ || _); [|done]. apply walk_to_on_steps; [done|]. intros q. by apply prev_step.
  - destruct back as [|q back]; [done|]. apply Forall_cons in Hb as [Hq Hb]. unfold on_steps. cbn [fst wk_path wk_page wk_back wk_ahead wk_useCases]. split_and!; auto using Forall_cons_2.
  - destruct ahead as [|q ahead]; [done|]. apply Forall_cons in Ha as [Hq Ha]. unfold on_steps. cbn [fst wk_path wk_page wk_back wk_ahead wk_useCases]. split_and!; auto using Forall_cons_2.
  - done.
Qed.

Lemma walk_run_on_steps ms s : on_steps s → on_steps (run s ms).1.
Proof using Type.
  revert s. induction ms as [|m ms IH]; intros s Hs; [done|]. rewrite run_cons. cbn [fst]. by apply IH, walk_step_on_steps.
Qed.

(** A step that is in place navigates to its neighbours only. *)
Lemma settled_effects s m e :
  on_steps s → wk_page s = wk_path s → In e (update s m).2 → ∃ p, In p step_paths ∧ e = RouterPush p.
Proof using Type.
  destruct s as [path page back ahead name size areas region]. intros (Hp & _) Hpage.
  cbn [wk_path wk_page] in *. subst page.
  destruct m; cbn [update walk_update]; try (by intros []);
    each_step Hp; cbn [String.append]; closed_steps; cbn [andb orb];
    try match goal with |- context [canContinue ?x] => destruct (canContinue x) end; cbn [andb orb];
    intros He; (by destruct He) || (destruct He as [<-|[]]; eexists; split; [|reflexivity]; vm_compute; tauto).
Qed.

Lemma organization_gate s m :
  wk_page s = "/onboarding/organization" → m ≠ BrowserBack → m ≠ BrowserForward →
  wk_path (update s m).1 ≠ wk_path s → canContinue s = true.
Proof using Type.
  destruct s as [path page back ahead name size areas region]. cbn [wk_page wk_path]. intros -> Hb Hf.
  destruct m; cbn [update walk_update String.append]; closed_steps; cbn [andb orb fst wk_path]; try done.
  match goal with |- context [canContinue ?x] => destruct (canContinue x) end; [done|]. by cbn.
Qed.

(** *** A visitor who uses the pages only, and waits for them *)

Definition page_control (m : WalkMsg) : Prop := match m with BrowserBack | BrowserForward | ExitDone => False | _ => True end.
Definition waiting (ms : list WalkMsg) : list WalkMsg := concat (map (λ m, [m; ExitDone]) ms).

Definition walk_ok (s : WalkState) : Prop :=
  on_steps s ∧ wk_page s = wk_path s ∧ (wk_path s ≠ "/onboarding/organization" → canContinue s = true).

Lemma patient_step_ok s m : page_control m → walk_ok s →
  walk_ok (run s [m; ExitDone]).1 ∧ Forall (λ e, ∃ p, In p step_paths ∧ e = RouterPush p) (run s [m; ExitDone]).2.
Proof using Type.
  intros Hm (Hs & Hpage & Hn). rewrite !run_cons. cbn [run fst snd]. split.
  - pose proof (walk_step_on_steps (update s m).1 ExitDone (walk_step_on_steps s m Hs)) as Hs'.
    split; [exact Hs'|]. destruct s as [path page back ahead name size areas region].
    cbn [wk_path wk_page] in *. subst page. destruct Hs as (Hp & _). cbn [wk_path] in Hp. clear Hs'.
    each_step Hp; destruct m; try done; cbn [update walk_update String.append]; closed_steps; cbn [andb orb];
      try destruct (canContinue _) eqn:Hc; cbn [andb orb fst walk_to]; split; try done; intros _; try (by apply Hn); exact Hc.
  - rewrite app_nil_r, app_nil_r || rewrite app_nil_r. apply Forall_forall. intros e He%list_elem_of_In.
    revert He. rewrite ?in_app_iff. intros He.
    assert (He' : In e (update s m).2).
    { destruct He as [He|He] || idtac; try exact He. revert He. by destruct (update s m).1. }
    by apply (settled_effects s m).
Qed.

Lemma patient_run_ok ms s : Forall page_control ms → walk_ok s →
  walk_ok (run s (waiting ms)).1 ∧ Forall (λ e, ∃ p, In p step_paths ∧ e = RouterPush p) (run s (waiting ms)).2.
Proof using Type.
  intros Hms. revert s. induction Hms as [|m ms Hm _ IH]; intros s Hs; [by split; [|constructor]|].
  change (waiting (m :: ms)) with ([m; ExitDone] ++ waiting ms). rewrite run_app. cbn [fst snd].
  destruct (patient_step_ok s m Hm Hs) as [H1 H2]. destruct (IH _ H1) as [H3 H4]. split; [done|]. by apply Forall_app.
Qed.

Lemma walk_ends s : walk_ok s → canContinue s = true →
  wk_page (run s (waiting (repeat Continue 3))).1 = "/onboarding/complete".
Proof using Type.
  destruct s as [path page back ahead name size areas region]. intros ((Hp & _) & Hpage & _) Hc.
  cbn [wk_path wk_page] in *. subst page.
  assert (Hc' : ∀ p q b a, canContinue (mkWalk p q b a name size areas region) = true) by exact (λ _ _ _ _, Hc).
  unfold waiting. cbn [repeat map concat app]. rewrite !run_cons. cbn [run fst].
  each_step Hp.
  all: repeat (cbn [update walk_update String.append]; closed_steps;
               cbn [andb orb walk_to fst wk_page wk_path wk_back wk_orgName wk_orgSize wk_useCases wk_region];
               rewrite ?Hc'; cbn [andb orb walk_to fst wk_page wk_path wk_back wk_orgName wk_orgSize wk_useCases wk_region]).
  all: reflexivity.
Qed.

(** C21: The walkthrough asks for a name and then leads to its end. Whatever the visitor does,
    from any step, with the browser's buttons and with clicks on a step that is leaving, the path
    and the step shown are among the four, the areas are never listed twice, a step
    in place navigates to a step and never throws, and the organization step is left otherwise
    than by the browser's buttons only with a name that is not blank. A visitor who starts there, uses the
    steps' own controls and waits for each to leave has such a name on every later
    step, and reaches the last step from any of them by pressing Continue three times. *)
Theorem walkthrough_needs_name :
  (∀ p ms, In p step_paths →
     let s := (run (walk_mount p) ms).1 in
     In (wk_path s) step_paths ∧ In (wk_page s) step_paths ∧ NoDup (wk_useCases s) ∧
     (∀ m e, wk_page s = wk_path s → In e (update s m).2 → ∃ q, In q step_paths ∧ e = RouterPush q) ∧
     (∀ m, wk_page s = "/onboarding/organization" → m ≠ BrowserBack → m ≠ BrowserForward →
        wk_path (update s m).1 ≠ wk_path s → trim (wk_orgName s) ≠ "")) ∧
  (∀ ms, Forall page_control ms →
     let r := run walk_init (waiting ms) in
     (wk_page r.1 ≠ "/onboarding/organization" → trim (wk_orgName r.1) ≠ "") ∧
     (∀ e, In e r.2 → ∃ q, In q step_paths ∧ e = RouterPush q) ∧
     (trim (wk_orgName r.1) ≠ "" → wk_page (run r.1 (waiting (repeat Continue 3))).1 = "/onboarding/complete")).
Proof using Type.
  assert (Hname : ∀ s, canContinue s = true ↔ trim (wk_orgName s) ≠ "").
  { intros s. unfold canContinue. destruct (trim (wk_orgName s)); cbn; [|rewrite Z.ltb_lt]; split; done || lia. }
  split.
  - intros p ms Hp s. assert (Hs : on_steps s) by (apply walk_run_on_steps; split_and!; done || constructor).
    pose proof Hs as (H1 & H2 & _ & _ & H3). split_and!; [done|done|done| |].
    + intros m e Hpage. by apply settled_effects.
    + intros m Hpage Hb Hf Hmove. apply Hname. by eapply organization_gate.
  - intros ms Hms r. assert (Hi : walk_ok walk_init).
    { split; [split_and!; [vm_compute; tauto|vm_compute; tauto|constructor..]|]. split; [done|by intros []]. }
    destruct (patient_run_ok ms _ Hms Hi) as [Hok He]. pose proof Hok as (_ & Hpage & Hn). fold r in Hok, He, Hpage, Hn.
    split_and!.
    + rewrite Hpage. intros Hne. by apply Hname, Hn.
    + rewrite List.Forall_forall in He. exact He.
    + intros Ht. apply walk_ends; [done|by apply Hname].
Qed.

(** The gate guards the button and nothing else: with the browser's buttons, or by clearing the
    name while the step leaves, the later steps are shown for a blank name; a second
    click on Continue while the step leaves skips the next one; and on a step that leaves for the end of
    the walkthrough it throws. *)
Theorem walkthrough_gate_holes :
  let shown ms := let s := (run walk_init (SetOrgName "Acme" :: ms)).1 in (wk_page s, wk_orgName s) in
  shown [Continue; ExitDone; BrowserBack; ExitDone; SetOrgName ""; BrowserForward; ExitDone] = ("/onboarding/use-case", "") ∧
  shown [Continue; SetOrgName ""; ExitDone] = ("/onboarding/use-case", "") ∧
  wk_page (run walk_init [SetOrgName "Acme"; Continue; Continue; ExitDone]).1 = "/onboarding/region" ∧
  (run (walk_mount "/onboarding/region") [Continue; Continue]).2 = [RouterPush "/onboarding/complete"; Throws "router.push(null)"].
Proof using Type. split_and!; reflexivity. Qed.

End Walk.

(** ** Instances *)

Lemma ascii_lower_keeps l : Forall (λ a, slug_char a = true ∨ a = dash) l →
  toLowerCase (String.string_of_list_ascii l) = String.string_of_list_ascii l.
Proof.
  induction 1 as [|a l Ha Hl IH]; [done|]. cbn in *. f_equal; [|done].
  destruct Ha as [Ha| ->]; [|done]. unfold slug_char, ascii_lower in *.
  destruct (Nat.leb_spec 65 (nat_of_ascii a)), (Nat.leb_spec (nat_of_ascii a) 90); try done. exfalso.
  destruct (Nat.leb_spec 97 (nat_of_ascii a)); [lia|]. destruct (Nat.leb_spec (nat_of_ascii a) 57); [lia|].
  by rewrite andb_false_r in Ha.
Qed.

Lemma slug_is_canonical_witness :
  slugify "Acme & Sons" = "acme-sons" ∧ slugify "acme-sons" = "acme-sons".
Proof.
  destruct (slug_is_canonical ascii_lower_keeps "Acme & Sons") as (Hs & _ & Hid).
  assert (H : slugify "Acme & Sons" = "acme-sons") by (vm_compute; reflexivity).
  split; [exact H|]. by rewrite H in Hid.
Defined.

Definition demo_walk : list WalkMsg := [SetOrgName "  "; Continue; SetOrgName "Acme"; Continue; SelectUseCase "sales"].

Lemma walkthrough_needs_name_witness :
  wk_page (run walk_init (waiting demo_walk)).1 = "/onboarding/use-case" ∧
  wk_page (run (run walk_init (waiting demo_walk)).1 (waiting (repeat Continue 3))).1 = "/onboarding/complete".
Proof.
  destruct walkthrough_needs_name as [_ H]. destruct (H demo_walk) as (_ & _ & He); [by repeat constructor|].
  split; [vm_compute; reflexivity|]. apply He. vm_compute. discriminate.
Defined.
